(* ===== verification/_CoqProject ===== *)
-Q . S2P
Prelude.v
Gf2.v
Adler32.v
Crc32.v
Crc32Facts.v
Crc32Arm.v
Crc32Tables.v
Crc32TablesFacts.v
Once.v
Huffman.v
Deflate.v
Puff.v
PuffFacts.v
PuffTables.v
PuffCodes.v
PuffBlocks.v
PuffDynamic.v
PuffSpec.v
PuffTop.v
PuffEquiv.v
PuffProps.v
Runw.v
RunwFacts.v
RunwProps.v
Trees.v
TreesTables.v
TreesCodes.v
TreesHeap.v
TreesShape.v
TreesBitlen.v
TreesRepair.v
TreesLengths.v
TreesBuild.v
TreesSpec.v
TreesWriter.v
TreesState.v
TreesDetect.v
TreesSend.v
TreesSyms.v
TreesCompress.v
TreesRle.v
TreesHeader.v
TreesTally.v
TreesDyn.v
TreesCost.v
TreesBlock.v
TreesSession.v
TreesStatic.v
LzState.v
LzWindow.v
LzMatch.v
LzStored.v
LzCall.v
LzCompress.v
Zpipe.v
LzFacts.v
LzHash.v
LzFill.v
LzSearch.v
LzOut.v
LzCore.v
LzTurn.v
LzLoop.v
LzRle.v
LzFast.v
LzSlow.v
LzDeflate.v
LzPhase.v
LzHeader.v
LzInit.v
LzFinish.v
LzSession.v
LzSums.v
LzRound.v
ZpipeFacts.v
LzProps.v
TreesProps.v
