(* ===== verification/Prelude.v ===== *)
(** * The C code of FECore

    FECore runs functions on edge nodes as containers or WebAssembly modules.
    The repository is a Go daemon with C code beside it: the zlib library and
    the program zpipe of its compression functions
    (src/examples/compression), and the server that runs WebAssembly functions
    (src/utilities/runw/runw_web.c).  This library models that C code, without
    the inflater of zlib, and proves what it promises.

    The parts call one another as follows.  zpipe.c and compress.c drive
    deflate(); deflate.c reads its input through a sliding window, with
    adler32.c or crc32.c for the checksum, finds matches along hash chains, and
    hands symbols to trees.c, which codes blocks into a queue of bytes that
    deflate() moves to the output.  puff.c, the small inflater of
    contrib/puff, is the reader that the writers are proved against.  The
    server stands alone.

    ** Files

    - [Prelude] (this file): machine integers, bit strings, arrays whose
      accesses are checked, the effect monad [M] with undefined behaviour and
      exhausted fuel as results, weakest preconditions [wp], tactics.
    - [Gf2]: linear maps over exclusive or.
    - [Adler32]: adler32.c, all of it; checksum and combination against the
      definition of Adler-32.
    - [Crc32]: crc32.c, the functions ([crc32_z] with the braids, the tables
      made by [make_crc_table], [crc32_combine*], the ARM version).  The number
      of braids [N] and the word size [W] are parameters, as in the source.
      [Crc32Facts]: they compute the bit-serial CRC; combination; which calls do
      not return.  [Crc32Arm]: the version with the CRC instructions, which are
      parameters with their documented behaviour as hypotheses.
      [Crc32Tables], [Crc32TablesFacts]: the tables of crc32.h and that they are
      the generated ones.
    - [Once]: the guard once() of crc32.c as a step relation between threads.
    - [Huffman]: canonical prefix codes of RFC 1951 from their lengths.
    - [Deflate]: the deflate format as relations between bits and bytes:
      [block], [stream], and how far a stream can expand.
    - [Puff]: contrib/puff/puff.c, every function, with both versions of
      [decode].  [PuffFacts] ([bits], [decode]), [PuffTables] ([construct]),
      [PuffCodes] ([codes]), [PuffBlocks] ([stored]), [PuffDynamic], [PuffSpec]
      ([dynamic]), [PuffTop] (the loop of [puff]), [PuffEquiv] (the versions of
      [decode] against each other), [PuffProps] (the theorems for callers).
    - [Runw]: main() of runw_web.c over an environment of arbitrary answers of
      the system; [RunwFacts], [RunwProps].
    - trees.c: [Trees] (tree construction), [TreesTables] (the tables of
      trees.h and tr_static_init()), [TreesWriter] (bits, trees and symbols into
      pending_buf), [TreesState] (the part of the state that trees.c uses; its
      entry points).  The other files with [Trees] in their names are their
      theory: codes, heap and bit lengths ([TreesBuild] puts them together),
      run lengths, headers, the overlay of sym_buf and pending_buf
      ([TreesCost], [TreesSyms]), a block ([TreesBlock]), sessions of calls
      ([TreesSession]), and the theorems ([TreesProps]).
    - deflate.c: [LzState] (streams and states, in the parts [strm], [win],
      [dict], [lm], [tr], [ctl]), [LzWindow] (read_buf, the hash table,
      fill_window, flush_pending, FLUSH_BLOCK), [LzMatch] (longest_match,
      deflate_fast, deflate_slow, deflate_rle, deflate_huff), [LzStored]
      (deflate_stored), [LzCall] (deflate() with its headers and trailers, and
      all other entry points).  [LzCompress]: compress.c.  [Zpipe]: def() of
      zpipe.c, over files that are lists of bytes and may fail.
    - their theory, bottom up: [LzFacts], [LzHash] (the hash chains), [LzFill]
      (the window: [fed]; the interface [Sums] to the checksums), [LzSearch]
      (longest_match), [LzOut] (the output queue), [LzCore] (the invariant
      [core] and the end of a block), [LzTurn], [LzLoop] (a turn and the main
      loop of any compression function), [LzRle], [LzFast], [LzSlow],
      [LzDeflate] (compress_func and the flushes), [LzPhase] (the calls of
      deflate()), [LzHeader] (the first call), [LzInit] (deflateInit2_,
      deflateCopy), [LzSession] (the buffers of a caller between the calls),
      [LzFinish] and [LzRound] (compress.c), [LzSums] (adler32.c and crc32.c as
      an instance of [Sums]), [ZpipeFacts], and the theorems ([LzProps]).

    ** How definitions correspond to the code

    A function of the source is a definition of the same name; a loop is a
    [Fixpoint] named after its function.  An array is a list; an access outside
    it, or to a local cell never stored to, is undefined: [None] or [Ub].
    Unsigned arithmetic is reduced with [wrap] where it can wrap around; the
    width of [unsigned long] is a parameter.  A pointer into a buffer is an
    index.  [out_bytes] are all the bytes written through next_out.

    A loop without a structural measure has fuel; running out is a result of its
    own ([NoFuel], [None]), and the theorems show that it does not occur.  The
    fuel of [puff] is one turn for each bit of the input and one more, since a
    block and a symbol take at least a bit each.  The loops of deflate.c have a
    turn for each byte of input left, since a turn codes or reads one; a search
    has a turn for each position below its start; the string compare has 33
    turns of eight bytes for a match of 258.  [compress2] has a turn for each
    byte of the destination and two more, since a turn that does not end the
    loop fills the room it was given; the loops of [def] have the fuel that the
    theorem on [def] asks for, a bound on what deflate() has left to write.

    ** What the theorems show

    - from end to end: what [compress2] writes is a zlib header, a body that
      [puff] inflates to the source and its checksum, unless the destination is
      too small; [def] of zpipe does the same with files, and no [assert] of it
      fails;
    - deflate(): in any session of buffers and calls a call with any flush
      returns in bounds and in a phase of its contract, which says what each
      return value means, and at the end of the stream the output inflates to
      all that was supplied; each compression
      function codes exactly its input; matches are real; the window and the
      hash chains keep their invariants; the output queue loses nothing;
      deflateInit2_ accepts exactly the valid settings;
    - the block writer: build_tree gives complete codes within their limits;
      every block, whichever encoding is chosen, is of the format and expands
      to its symbols; after any session of calls, [puff] inflates the result;
    - the inflater [puff]: it returns on every input without undefined
      behaviour; it accepts exactly the streams of the format; both versions of
      [decode] agree on errors too; counting without a buffer is exact; a stream
      expands by 1032 at most;
    - checksums: the fast versions equal the definitions for every buffer,
      alignment, byte order and configuration; the combination functions are
      right, and the arguments for which they do not return are characterised;
    - the guard: exactly one initialisation, no return before it, no deadlock,
      for every interleaving;
    - the server: the order of its calls of the system, what it answers, and
      what it leaks.

    ** What the theorems on deflate() assume

    [core] asks for [roomy]: the codes are fixed, or the strategy is Huffman
    only or run-length with memory level 4 at least, or the input with 564 bytes
    to spare is no longer than the symbol buffer (15820 bytes at the default
    memory level).  The reason is that trees.c writes a block over the symbols
    it has read.  For fixed codes the comment in deflate.c shows that it cannot
    overtake the reader, and [TreesCost] proves it; for dynamic codes the
    comment argues with the average length of a symbol in the whole block, which
    does not bound the first part of the block, and the theorems cover the cases
    in which any order of the symbols fits.  They also ask for a level above 0;
    deflate_stored is modelled, without theorems, and so are deflateParams,
    deflateSetDictionary, deflateGetDictionary, deflatePrime, deflateTune,
    deflateBound and the gzip header with fields of the caller.

    ** Not modelled

    The Go daemon and the examples in Rust, Python and JavaScript are not C.  Of
    zlib: inflate() with its tables (inflate.c, inftrees.c, inffast.c,
    infback.c) and what drives it (uncompr.c, inf() of zpipe.c); the gzip file
    layer, minizip and the demonstrations, which are I/O around both; the
    versions of deflate.c for FASTEST and UNALIGNED_OK, and the debugging code;
    the parts of crc32.c and trees.c that print their tables.  main() and zerr()
    of zpipe.c open files and print. *)
From stdpp Require Import base numbers list.
From Stdlib Require Import ZArith Lia Bool Btauto.

#[global] Open Scope Z_scope.

(** * Machine integers *)

(** [wrap w x] is the value a [w]-bit unsigned variable holds after [x] is
    assigned to it. *)
Definition wrap (w x : Z) : Z := x mod 2 ^ w.

Definition is_byte (b : Z) : Prop := 0 <= b < 256.

Definition is_u32 (x : Z) : Prop := 0 <= x < 2 ^ 32.

(** A C condition [x & m] used as a truth value. *)
Definition ztrue (x : Z) : bool := negb (x =? 0).

(** * Bit strings

    A bit string is a [list bool], the first bit first.  [z_bits n v] is the
    low [n] bits of [v], least significant first, the order in which deflate
    stores a field; [bits_z] reads it back. *)
Fixpoint z_bits (n : nat) (v : Z) : list bool :=
  match n with
  | O => []
  | S n' => Z.odd v :: z_bits n' (Z.div2 v)
  end.

Fixpoint bits_z (l : list bool) : Z :=
  match l with
  | [] => 0
  | b :: l' => Z.b2z b + 2 * bits_z l'
  end.

(** The bits of a byte string, in stream order. *)
Definition bytes_bits (bs : list Z) : list bool := bs ≫= z_bits 8.

(** * Arrays

    A C array is a [list]; an access out of range is undefined behaviour,
    [None] here. *)
Definition aget {A} (l : list A) (i : Z) : option A :=
  if 0 <=? i then l !! Z.to_nat i else None.

Definition aset {A} (l : list A) (i : Z) (v : A) : option (list A) :=
  if (0 <=? i) && (i <? Z.of_nat (length l)) then Some (<[Z.to_nat i := v]> l)
  else None.

(** Iteration of a function, for the loops that run a fixed number of times. *)
Fixpoint iter {A} (n : nat) (f : A -> A) (x : A) : A :=
  match n with
  | O => x
  | S n' => iter n' f (f x)
  end.

(** * The effect monad of the C functions

    A computation maps the state of the program to a result: normal return,
    an exit by [longjmp] or another early exit with a code, undefined
    behaviour, or the exhaustion of the loop fuel. *)
Inductive res (S A : Type) : Type :=
| Ok (a : A) (s : S)
| Exc (e : Z) (s : S)
| Ub
| NoFuel.
Arguments Ok {S A}. Arguments Exc {S A}. Arguments Ub {S A}. Arguments NoFuel {S A}.

Definition M (S A : Type) : Type := S -> res S A.

#[export] Instance M_ret S : MRet (M S) := fun A a s => Ok a s.
#[export] Instance M_bind S : MBind (M S) := fun A B k m s =>
  match m s with
  | Ok a s' => k a s'
  | Exc e s' => Exc e s'
  | Ub => Ub
  | NoFuel => NoFuel
  end.

Section Ops.
Context {S : Type}.
Definition get : M S S := fun s => Ok s s.
Definition put (s : S) : M S unit := fun _ => Ok tt s.
Definition modify (f : S -> S) : M S unit := fun s => Ok tt (f s).
Definition gets {A} (f : S -> A) : M S A := fun s => Ok (f s) s.
Definition throw {A} (e : Z) : M S A := fun s => Exc e s.
Definition ub {A} : M S A := fun _ => Ub.
Definition nofuel {A} : M S A := fun _ => NoFuel.
(** [lift o] is the value of an array access, undefined out of range. *)
Definition lift {A} (o : option A) : M S A :=
  match o with Some a => mret a | None => ub end.
End Ops.

(** [wp m Q R s]: from [s], [m] is defined and terminates; on a normal return
    the value and state satisfy [Q], on an early exit the code and state
    satisfy [R]. *)
Definition wp {S A} (m : M S A) (Q : A -> S -> Prop) (R : Z -> S -> Prop) (s : S) : Prop :=
  match m s with
  | Ok a s' => Q a s'
  | Exc e s' => R e s'
  | Ub => False
  | NoFuel => False
  end.

Create HintDb zlib discriminated.
Create Rewrite HintDb zbits.
Create Rewrite HintDb zlib_rew.

(** * Tactics *)

(** Turn boolean tests of the code into propositions. *)
Ltac zify_bool :=
  repeat match goal with
  | H : (_ && _)%bool = true |- _ => apply andb_true_iff in H; destruct H
  | H : (_ || _)%bool = false |- _ => apply orb_false_iff in H; destruct H
  | H : (_ =? _) = true |- _ => apply Z.eqb_eq in H
  | H : (_ =? _) = false |- _ => apply Z.eqb_neq in H
  | H : (_ <=? _) = true |- _ => apply Z.leb_le in H
  | H : (_ <=? _) = false |- _ => apply Z.leb_gt in H
  | H : (_ <? _) = true |- _ => apply Z.ltb_lt in H
  | H : (_ <? _) = false |- _ => apply Z.ltb_ge in H
  end.

(** Case analysis on the boolean test at the head of the goal. *)
Ltac case_test :=
  match goal with
  | |- context [if ?b then _ else _] => let E := fresh "E" in destruct b eqn:E; zify_bool
  end.

Lemma testbit_wrap w x i :
  0 <= w -> 0 <= i -> Z.testbit (wrap w x) i = (i <? w) && Z.testbit x i.
Proof.
  intros Hw Hi. unfold wrap. destruct (Z.ltb_spec i w) as [H|H].
  - rewrite Z.mod_pow2_bits_low by lia. done.
  - rewrite Z.mod_pow2_bits_high by lia. done.
Qed.

Lemma testbit_ones n i : 0 <= n -> 0 <= i -> Z.testbit (Z.ones n) i = (i <? n).
Proof.
  intros Hn Hi. destruct (Z.ltb_spec i n).
  - apply Z.ones_spec_low; lia.
  - apply Z.ones_spec_high; lia.
Qed.

Lemma testbit_high w x i : 0 <= x < 2 ^ w -> w <= i -> Z.testbit x i = false.
Proof.
  intros Hx Hi. destruct (decide (0 <= w)).
  - rewrite <- (Z.mod_small x (2 ^ w)) by lia. apply Z.mod_pow2_bits_high. lia.
  - rewrite (Z.pow_neg_r 2 w) in Hx by lia. lia.
Qed.

Lemma testbit_small w x :
  0 <= w -> 0 <= x -> (forall i, w <= i -> Z.testbit x i = false) -> x < 2 ^ w.
Proof.
  intros Hw Hx H. destruct (decide (x = 0)) as [->|Hn].
  { apply Z.pow_pos_nonneg; lia. }
  apply Z.log2_lt_pow2; [lia|]. destruct (Z_lt_ge_dec (Z.log2 x) w) as [|Hge]; [done|].
  pose proof (Z.bit_log2 x ltac:(lia)) as Hb. rewrite H in Hb by lia. done.
Qed.

#[export] Hint Rewrite Z.lxor_spec Z.land_spec Z.lor_spec Z.bits_0 : zbits.
#[export] Hint Rewrite testbit_ones testbit_wrap Z.shiftr_spec Z.shiftl_spec Z.lnot_spec
  using lia : zbits.

(** Equality of integers, bit by bit. *)
Ltac zbits :=
  apply Z.bits_inj'; intros ?i ?Hi; autorewrite with zbits;
  repeat match goal with
  | |- context [?a <? ?b] => destruct (Z.ltb_spec a b)
  end;
  repeat (rewrite Z.testbit_neg_r by lia);
  try btauto; try reflexivity; try lia.

(** Disjoint fields: [or] is addition. *)
Lemma lor_add w a b : 0 <= w -> 0 <= a < 2 ^ w -> Z.lor a (b * 2 ^ w) = a + b * 2 ^ w.
Proof.
  intros Hw Ha. symmetry. rewrite <- Z.shiftl_mul_pow2 by lia. apply Z.add_nocarry_lor.
  zbits. destruct (Z.ltb_spec i w).
  - rewrite (Z.testbit_neg_r b) by lia. apply andb_false_r.
  - rewrite (testbit_high w a) by lia. done.
Qed.

Lemma lor_bit c b : Z.lor (2 * c) (Z.b2z b) = 2 * c + Z.b2z b.
Proof.
  rewrite Z.lor_comm. change 2 with (2 ^ 1). rewrite (Z.mul_comm _ c), lor_add; [lia|lia|].
  by destruct b.
Qed.

Lemma shiftl1 x : Z.shiftl x 1 = 2 * x.
Proof. rewrite Z.shiftl_mul_pow2 by lia. lia. Qed.

(** * Bit strings *)

Lemma length_z_bits n v : length (z_bits n v) = n.
Proof. revert v; induction n as [|n IH]; intros v; simpl; auto. Qed.

Lemma lookup_z_bits n v i :
  (i < n)%nat -> z_bits n v !! i = Some (Z.testbit v (Z.of_nat i)).
Proof.
  revert v i; induction n as [|n IH]; intros v i Hi; [lia|].
  destruct i as [|i]; [done|]. cbn [z_bits lookup list_lookup].
  rewrite IH, Z.div2_spec, Z.shiftr_spec by lia. do 2 f_equal. lia.
Qed.

Lemma z_bits_ext n a b :
  (forall i, 0 <= i < Z.of_nat n -> Z.testbit a i = Z.testbit b i) -> z_bits n a = z_bits n b.
Proof.
  intros H. apply list_eq_same_length with n; [by rewrite length_z_bits..|].
  intros i x y Hi. rewrite !lookup_z_bits by done. intros [= <-] [= <-]. apply H. lia.
Qed.

Lemma z_bits_app n m v :
  z_bits (n + m) v = z_bits n v ++ z_bits m (Z.shiftr v (Z.of_nat n)).
Proof.
  revert v; induction n as [|n IH]; intros v; simpl.
  - rewrite Z.shiftr_0_r. done.
  - rewrite IH. f_equal. rewrite Z.div2_spec, Z.shiftr_shiftr by lia. do 3 f_equal. lia.
Qed.

Lemma z_bits_wrap n w v : Z.of_nat n <= w -> z_bits n (wrap w v) = z_bits n v.
Proof.
  intros Hw. apply z_bits_ext. intros i Hi. rewrite testbit_wrap by lia.
  destruct (Z.ltb_spec i w); [done|lia].
Qed.

Lemma bits_z_bound l : 0 <= bits_z l < 2 ^ Z.of_nat (length l).
Proof.
  induction l as [|b l IH]; simpl length; simpl bits_z; [done|].
  rewrite Nat2Z.inj_succ, Z.pow_succ_r by lia. destruct b; simpl Z.b2z; lia.
Qed.

Lemma bits_z_z_bits n v : bits_z (z_bits n v) = v mod 2 ^ Z.of_nat n.
Proof.
  revert v; induction n as [|n IH]; intros v; simpl bits_z.
  - rewrite Z.mod_1_r. done.
  - rewrite IH, Nat2Z.inj_succ, Z.pow_succ_r, Z.rem_mul_r by lia.
    rewrite Z.div2_div. pose proof (Zmod_odd v) as Ho. destruct (Z.odd v); simpl; lia.
Qed.

Lemma bits_z_z_bits_small n v : 0 <= v < 2 ^ Z.of_nat n -> bits_z (z_bits n v) = v.
Proof. intros Hv. rewrite bits_z_z_bits. by apply Z.mod_small. Qed.

Lemma z_bits_bits_z l : z_bits (length l) (bits_z l) = l.
Proof.
  induction l as [|b l IH]; [done|]. cbn [length z_bits bits_z].
  replace (Z.odd (Z.b2z b + 2 * bits_z l)) with b; cycle 1.
  { rewrite Z.odd_add_mul_2. by destruct b. }
  replace (Z.div2 (Z.b2z b + 2 * bits_z l)) with (bits_z l); [by rewrite IH|].
  rewrite Z.div2_div. destruct b; simpl Z.b2z; Z.div_mod_to_equations; lia.
Qed.

Lemma bits_z_app l1 l2 :
  bits_z (l1 ++ l2) = bits_z l1 + 2 ^ Z.of_nat (length l1) * bits_z l2.
Proof.
  induction l1 as [|b l1 IH]; cbn [app bits_z length].
  - replace (2 ^ Z.of_nat 0) with 1 by done. lia.
  - rewrite IH, Nat2Z.inj_succ, Z.pow_succ_r by lia. lia.
Qed.

Lemma length_bytes_bits bs : length (bytes_bits bs) = (8 * length bs)%nat.
Proof.
  induction bs as [|b bs IH]; [done|]. unfold bytes_bits in *. cbn [mbind list_bind].
  rewrite length_app, length_z_bits, IH. simpl length. lia.
Qed.

Lemma bytes_bits_app l1 l2 : bytes_bits (l1 ++ l2) = bytes_bits l1 ++ bytes_bits l2.
Proof. apply bind_app. Qed.

Lemma bytes_bits_cons b bs : bytes_bits (b :: bs) = z_bits 8 b ++ bytes_bits bs.
Proof. done. Qed.

(** * Arrays *)

Lemma aget_Some {A} (l : list A) i x :
  aget l i = Some x <-> 0 <= i /\ l !! Z.to_nat i = Some x.
Proof.
  unfold aget. destruct (Z.leb_spec 0 i); [tauto|]. split; [done|intros []; lia].
Qed.

Lemma aget_range {A} (l : list A) i :
  0 <= i < Z.of_nat (length l) -> exists x, aget l i = Some x.
Proof.
  intros Hi. unfold aget. destruct (Z.leb_spec 0 i); [|lia].
  apply lookup_lt_is_Some. lia.
Qed.

Lemma aget_Some_lt {A} (l : list A) i x :
  aget l i = Some x -> 0 <= i < Z.of_nat (length l).
Proof. rewrite aget_Some. intros [? H]. apply lookup_lt_Some in H. lia. Qed.

Lemma aset_Some {A} (l : list A) i v :
  0 <= i < Z.of_nat (length l) -> aset l i v = Some (<[Z.to_nat i := v]> l).
Proof.
  intros Hi. unfold aset. destruct (Z.leb_spec 0 i); [|lia].
  destruct (Z.ltb_spec i (Z.of_nat (length l))); [done|lia].
Qed.

Lemma aset_inv {A} (l l' : list A) i v :
  aset l i v = Some l' -> 0 <= i < Z.of_nat (length l) /\ l' = <[Z.to_nat i := v]> l.
Proof. unfold aset. intros H. case_match; simplify_eq. zify_bool. auto. Qed.

Lemma aset_length {A} (l l' : list A) i v : aset l i v = Some l' -> length l' = length l.
Proof. intros [_ ->]%aset_inv. apply length_insert. Qed.

Lemma aget_insert {A} (l : list A) i j v :
  0 <= i < Z.of_nat (length l) ->
  aget (<[Z.to_nat i := v]> l) j = if j =? i then Some v else aget l j.
Proof.
  intros Hi. unfold aget. destruct (Z.eqb_spec j i) as [->|Hne].
  - destruct (Z.leb_spec 0 i); [|lia]. apply list_lookup_insert_eq. lia.
  - destruct (Z.leb_spec 0 j); [|done]. apply list_lookup_insert_ne. lia.
Qed.

(** A store, with what is read afterwards. *)
Lemma aset_ok {A} (l : list A) i v :
  0 <= i < Z.of_nat (length l) ->
  exists l', aset l i v = Some l' /\ length l' = length l /\
    forall j, aget l' j = if j =? i then Some v else aget l j.
Proof.
  intros Hi. eexists. split; [by apply aset_Some|]. split; [apply length_insert|].
  intros j. by apply aget_insert.
Qed.

Lemma aget_replicate {A} n (x : A) i : aget (replicate n x) i = if (0 <=? i) && (i <? Z.of_nat n) then Some x else None.
Proof.
  unfold aget. destruct (Z.leb_spec 0 i); [|done]. cbn [andb]. destruct (Z.ltb_spec i (Z.of_nat n)).
  - apply lookup_replicate_2. lia.
  - apply lookup_replicate_None. lia.
Qed.

Lemma aget_app_l {A} (l k : list A) i :
  i < Z.of_nat (length l) -> aget (l ++ k) i = aget l i.
Proof. intros Hi. unfold aget. case_match; [|done]. zify_bool. apply lookup_app_l. lia. Qed.

(** * Sums *)

Definition sum_over (f : Z -> Z) (l : list Z) : Z := foldr (fun x a => f x + a) 0 l.

Lemma sum_over_cons f x l : sum_over f (x :: l) = f x + sum_over f l.
Proof. done. Qed.

Lemma sum_over_app f l k : sum_over f (l ++ k) = sum_over f l + sum_over f k.
Proof. induction l as [|x l IH]; [done|]. cbn [app]. rewrite !sum_over_cons, IH. lia. Qed.

Lemma sum_over_ext f g l : (forall x, x ∈ l -> f x = g x) -> sum_over f l = sum_over g l.
Proof.
  induction l as [|x l IH]; intros H; [done|]. rewrite !sum_over_cons, H by left. f_equal.
  apply IH. intros y Hy. apply H. by right.
Qed.

#[export] Instance sum_over_perm f : Proper (Permutation ==> eq) (sum_over f).
Proof. intros l k H. induction H; rewrite ?sum_over_cons; congruence || lia. Qed.

Lemma sum_over_add f g l : sum_over (fun x => f x + g x) l = sum_over f l + sum_over g l.
Proof. induction l as [|x l IH]; [done|]. rewrite !sum_over_cons, IH. lia. Qed.

Lemma sum_over_bound f c l : (forall x, x ∈ l -> 0 <= f x <= c) -> 0 <= sum_over f l <= c * Z.of_nat (length l).
Proof.
  induction l as [|x l IH]; intros H; [cbn; lia|]. pose proof (H x ltac:(left)).
  assert (forall y, y ∈ l -> 0 <= f y <= c) as Hl by (intros y Hy; apply H; by right). specialize (IH Hl).
  rewrite sum_over_cons. cbn [length]. lia.
Qed.

Lemma sum_over_filter f (P : Z -> Prop) `{forall x, Decision (P x)} l :
  (forall x, x ∈ l -> ~ P x -> f x = 0) -> sum_over f (filter P l) = sum_over f l.
Proof.
  induction l as [|x l IH]; intros H0; [done|]. rewrite filter_cons, sum_over_cons.
  assert (IH' : sum_over f (filter P l) = sum_over f l) by (apply IH; intros y Hy; apply H0; by right).
  case_decide as Hx; [by rewrite sum_over_cons, IH'|]. rewrite (H0 x), IH' by (done || left). lia.
Qed.

Lemma sum_over_single f x l :
  NoDup l -> x ∈ l -> sum_over (fun n => if decide (x = n) then f n else 0) l = f x.
Proof.
  induction l as [|y l IH]; intros Hn Hx; [by apply elem_of_nil in Hx|]. apply NoDup_cons in Hn as [Hy Hn].
  rewrite sum_over_cons. case_decide as E; subst.
  - rewrite (sum_over_ext _ (fun _ => 0)).
    + clear. induction l as [|z l IH]; [cbn; lia|]. rewrite sum_over_cons. lia.
    + intros z Hz. rewrite decide_False; [done|]. by intros ->.
  - rewrite IH; [done|done|]. apply elem_of_cons in Hx as [|]; [congruence|done].
Qed.

Lemma wrap_le w a : 0 <= a -> wrap w a <= a.
Proof. intros H. unfold wrap. destruct (Z.leb_spec 0 w); [apply Z.mod_le; [done|by apply Z.pow_pos_nonneg]|]. by rewrite Z.pow_neg_r, Z.mod_0_r. Qed.

Lemma wrap_idem w a : wrap w (wrap w a) = wrap w a.
Proof. unfold wrap. destruct (Z.eq_dec (2 ^ w) 0) as [E|E]; [by rewrite E, !Z.mod_0_r|]. by apply Z.mod_mod. Qed.

Lemma wrap_add_l w a b : wrap w (wrap w a + b) = wrap w (a + b).
Proof.
  unfold wrap. destruct (Z.eq_dec (2 ^ w) 0) as [E|E]; [rewrite E, !Z.mod_0_r; done|]. by apply Z.add_mod_idemp_l.
Qed.

(** * Iteration *)

Lemma iter_add {A} n m (f : A -> A) x : iter (n + m) f x = iter m f (iter n f x).
Proof. revert x; induction n as [|n IH]; intros x; simpl; auto. Qed.

Lemma iter_S {A} n (f : A -> A) x : iter (S n) f x = f (iter n f x).
Proof. revert x; induction n as [|n IH]; intros x; [done|]. cbn [iter] in *. rewrite <- IH. done. Qed.

Lemma iter_inv {A} (P : A -> Prop) n f x :
  P x -> (forall y, P y -> P (f y)) -> P (iter n f x).
Proof. intros Hx Hf. revert x Hx; induction n; simpl; auto. Qed.

(** * Running computations *)

Section Run.
Context {S : Type}.
Implicit Types s : S.

Lemma bind_get {B} (k : S -> M S B) s : (get ≫= k) s = k s s.
Proof. done. Qed.

Lemma bind_gets {A B} (f : S -> A) (k : A -> M S B) s : (gets f ≫= k) s = k (f s) s.
Proof. done. Qed.

Lemma bind_modify {B} f (k : unit -> M S B) s : (modify f ≫= k) s = k tt (f s).
Proof. done. Qed.

Lemma bind_ret {A B} (a : A) (k : A -> M S B) s : (mret a ≫= k) s = k a s.
Proof. done. Qed.

Lemma bind_lift {A B} (o : option A) a (k : A -> M S B) s : o = Some a -> (lift o ≫= k) s = k a s.
Proof. intros ->. done. Qed.

Lemma bind_ok {A B} (m : M S A) a s' (k : A -> M S B) s : m s = Ok a s' -> (m ≫= k) s = k a s'.
Proof. unfold mbind, M_bind. by intros ->. Qed.

Lemma bind_exc {A B} (m : M S A) e s' (k : A -> M S B) s : m s = Exc e s' -> (m ≫= k) s = Exc e s'.
Proof. unfold mbind, M_bind. by intros ->. Qed.

Lemma bind_assoc {A B C} (m : M S A) (k : A -> M S B) (h : B -> M S C) s :
  ((m ≫= k) ≫= h) s = (m ≫= fun a => k a ≫= h) s.
Proof. unfold mbind, M_bind. by destruct (m s). Qed.
End Run.

(** * Weakest preconditions *)

Section Wp.
Context {S : Type}.
Implicit Types (s : S) (R : Z -> S -> Prop).

Lemma wp_ret {A} (a : A) Q R s : Q a s -> wp (mret a) Q R s.
Proof. done. Qed.

Lemma wp_bind {A B} (m : M S A) (k : A -> M S B) Q R s :
  wp m (fun a s' => wp (k a) Q R s') R s -> wp (m ≫= k) Q R s.
Proof. unfold wp, mbind, M_bind. by destruct (m s). Qed.

Lemma wp_mono {A} (m : M S A) (Q Q' : A -> S -> Prop) R R' s :
  wp m Q R s -> (forall a s', Q a s' -> Q' a s') -> (forall e s', R e s' -> R' e s') ->
  wp m Q' R' s.
Proof. unfold wp. intros H HQ HR. destruct (m s); auto. Qed.

Lemma wp_get Q R s : Q s s -> wp get Q R s.
Proof. done. Qed.

Lemma wp_gets {A} (f : S -> A) Q R s : Q (f s) s -> wp (gets f) Q R s.
Proof. done. Qed.

Lemma wp_put s' (Q : unit -> S -> Prop) R s : Q tt s' -> wp (put s') Q R s.
Proof. done. Qed.

Lemma wp_modify f (Q : unit -> S -> Prop) R s : Q tt (f s) -> wp (modify f) Q R s.
Proof. done. Qed.

Lemma wp_throw {A} e (Q : A -> S -> Prop) R s : R e s -> wp (throw e) Q R s.
Proof. done. Qed.

Lemma wp_lift {A} (o : option A) (a : A) Q R s : o = Some a -> Q a s -> wp (lift o) Q R s.
Proof. intros -> ?. done. Qed.
End Wp.

#[export] Hint Rewrite length_z_bits length_bytes_bits @length_insert @length_app : zlib_rew.
#[export] Hint Resolve bits_z_bound : zlib.
