(* ===== verification/Gf2.v ===== *)
(** * Linear maps on bit vectors

    The CRC code works with polynomials over GF(2) held in machine words.
    Every operation of it is linear for exclusive or; two linear maps that
    agree on the powers of two are equal ([linear_ext]), which turns the
    algebra of [crc32.c] into finite checks. *)
From stdpp Require Import base numbers list.
From Stdlib Require Import ZArith Lia Btauto.
From S2P Require Import Prelude.

Class Linear (f : Z -> Z) : Prop :=
  { lin_nonneg a : 0 <= a -> 0 <= f a;
    lin_lxor a b : 0 <= a -> 0 <= b -> f (Z.lxor a b) = Z.lxor (f a) (f b) }.

Lemma lxor_nonneg a b : 0 <= a -> 0 <= b -> 0 <= Z.lxor a b.
Proof. intros. apply Z.lxor_nonneg. tauto. Qed.

Lemma lxor_range n a b : 0 <= n -> 0 <= a < 2 ^ n -> 0 <= b < 2 ^ n -> 0 <= Z.lxor a b < 2 ^ n.
Proof.
  intros Hn Ha Hb. split; [apply lxor_nonneg; lia|].
  apply testbit_small; [done|apply lxor_nonneg; lia|]. intros i Hi.
  rewrite Z.lxor_spec, !(testbit_high n) by lia. done.
Qed.

#[export] Hint Resolve lxor_nonneg : zlib.

Lemma lin_0 f `{Linear f} : f 0 = 0.
Proof. rewrite <- (Z.lxor_nilpotent 0) at 1. rewrite lin_lxor by lia. apply Z.lxor_nilpotent. Qed.

#[export] Instance linear_id : Linear (fun x => x).
Proof. split; auto. Qed.

#[export] Instance linear_zero : Linear (fun _ => 0).
Proof. split; intros; [lia|done]. Qed.

#[export] Instance linear_lxor f g : Linear f -> Linear g -> Linear (fun x => Z.lxor (f x) (g x)).
Proof.
  intros Hf Hg. split; intros.
  - apply lxor_nonneg; by apply lin_nonneg.
  - rewrite !lin_lxor by done. apply Z.bits_inj'. intros i Hi. rewrite !Z.lxor_spec. btauto.
Qed.

#[export] Instance linear_land f c : Linear f -> Linear (fun x => Z.land (f x) c).
Proof.
  intros Hf. split; intros.
  - apply Z.land_nonneg. left. by apply lin_nonneg.
  - rewrite lin_lxor by done. apply Z.bits_inj'. intros i Hi.
    rewrite !Z.land_spec, !Z.lxor_spec, !Z.land_spec. btauto.
Qed.

#[export] Instance linear_shiftr f n : Linear f -> Linear (fun x => Z.shiftr (f x) n).
Proof.
  intros Hf. split; intros.
  - apply Z.shiftr_nonneg. by apply lin_nonneg.
  - rewrite lin_lxor by done. apply Z.shiftr_lxor.
Qed.

#[export] Instance linear_shiftl f n : Linear f -> Linear (fun x => Z.shiftl (f x) n).
Proof.
  intros Hf. split; intros.
  - apply Z.shiftl_nonneg. by apply lin_nonneg.
  - rewrite lin_lxor by done. apply Z.shiftl_lxor.
Qed.

Lemma wrap_land w x : 0 <= w -> wrap w x = Z.land x (Z.ones w).
Proof. intros. unfold wrap. by rewrite Z.land_ones. Qed.

#[export] Instance linear_wrap f w : Linear f -> Linear (fun x => wrap w (f x)).
Proof.
  intros Hf. destruct (decide (0 <= w)) as [Hw|Hw].
  - split; intros.
    + apply Z.mod_pos_bound, Z.pow_pos_nonneg; lia.
    + rewrite !wrap_land by done. by apply (lin_lxor (f := fun x => Z.land (f x) (Z.ones w))).
  - split; intros; unfold wrap; rewrite Z.pow_neg_r, !Z.mod_0_r by lia.
    + by apply lin_nonneg.
    + by apply lin_lxor.
Qed.

Lemma linear_comp f g : Linear f -> Linear g -> Linear (fun x => f (g x)).
Proof.
  intros Hf Hg. split; intros.
  - by apply lin_nonneg, lin_nonneg.
  - rewrite lin_lxor by done. apply lin_lxor; by apply lin_nonneg.
Qed.

#[export] Instance linear_iter n f : Linear f -> Linear (iter n f).
Proof.
  intros Hf. induction n as [|n IH]; [apply linear_id|].
  split; intros; cbn [iter].
  - by apply lin_nonneg, lin_nonneg.
  - rewrite lin_lxor by done. apply lin_lxor; by apply lin_nonneg.
Qed.

Lemma linear_proper f g : (forall x, f x = g x) -> Linear g -> Linear f.
Proof. intros E Hg. split; intros; rewrite !E; [by apply lin_nonneg|by apply lin_lxor]. Qed.

(** The top bit of an [n+1]-bit value split off. *)
Lemma lxor_split n v :
  0 <= v < 2 ^ Z.of_nat (S n) ->
  v = Z.lxor (v mod 2 ^ Z.of_nat n) (if Z.testbit v (Z.of_nat n) then 2 ^ Z.of_nat n else 0).
Proof.
  intros Hv. apply Z.bits_inj'. intros i Hi. rewrite Z.lxor_spec.
  destruct (Z.lt_trichotomy i (Z.of_nat n)) as [H|[->|H]].
  - rewrite Z.mod_pow2_bits_low by lia. case_match; rewrite ?Z.bits_0, ?Z.pow2_bits_false by lia;
      by rewrite xorb_false_r.
  - rewrite Z.mod_pow2_bits_high by lia. destruct (Z.testbit v (Z.of_nat n));
      rewrite ?Z.pow2_bits_true, ?Z.bits_0 by lia; done.
  - rewrite (testbit_high (Z.of_nat (S n)) v) by lia.
    rewrite Z.mod_pow2_bits_high by lia. case_match; rewrite ?Z.bits_0, ?Z.pow2_bits_false by lia; done.
Qed.

Lemma linear_ext n f g :
  Linear f -> Linear g ->
  (forall i, (i < n)%nat -> f (2 ^ Z.of_nat i) = g (2 ^ Z.of_nat i)) ->
  forall v, 0 <= v < 2 ^ Z.of_nat n -> f v = g v.
Proof.
  intros Hf Hg. induction n as [|n IH]; intros Hb v Hv.
  - replace v with 0 by lia. rewrite !lin_0 by done. done.
  - rewrite (lxor_split n v) by done.
    pose proof (Z.mod_pos_bound v (2 ^ Z.of_nat n) ltac:(apply Z.pow_pos_nonneg; lia)).
    rewrite !lin_lxor by (try case_match; lia). f_equal.
    + apply IH; [intros; apply Hb; lia|lia].
    + case_match; [apply Hb; lia|rewrite !lin_0 by done; done].
Qed.

(** The form used for checks by computation. *)
Lemma linear_check n f g :
  Linear f -> Linear g ->
  forallb (fun i => f (2 ^ Z.of_nat i) =? g (2 ^ Z.of_nat i)) (seq 0 n) = true ->
  forall v, 0 <= v < 2 ^ Z.of_nat n -> f v = g v.
Proof.
  intros Hf Hg Hc. apply linear_ext; [done..|]. intros i Hi.
  rewrite forallb_forall in Hc. apply Z.eqb_eq, Hc, in_seq. lia.
Qed.
