(* ===== verification/Adler32.v ===== *)
(** * Adler-32 (examples/compression/zlib/adler32.c)

    [adler32_z], [adler32_combine_] and their entry points, with the [MOD]
    macros of both builds ([NO_DIVIDE] or not) and [unsigned long] at any
    width from 32 bits.  The theorems compare the deferred-modulo code with
    the definition of the checksum, one reduction per byte. *)
From stdpp Require Import base numbers list.
From Stdlib Require Import ZArith Lia.
From S2P Require Import Prelude.

Definition BASE : Z := 65521.
Definition NMAX : Z := 5552.

Section Code.
(** [W]: the width of [unsigned long]; [no_divide]: built with [NO_DIVIDE]. *)
Context (W : Z) (no_divide : bool).

Definition DO1 (buf : list Z) (i : nat) (st : Z * Z) : option (Z * Z) :=
  x ← buf !! i;
  let adler := wrap W (st.1 + x) in
  Some (adler, wrap W (st.2 + adler)).
Definition DO2 (buf : list Z) (i : nat) (st : Z * Z) : option (Z * Z) :=
  st ← DO1 buf i st; DO1 buf (i + 1) st.
Definition DO4 (buf : list Z) (i : nat) (st : Z * Z) : option (Z * Z) :=
  st ← DO2 buf i st; DO2 buf (i + 2) st.
Definition DO8 (buf : list Z) (i : nat) (st : Z * Z) : option (Z * Z) :=
  st ← DO4 buf i st; DO4 buf (i + 4) st.
Definition DO16 (buf : list Z) (st : Z * Z) : option (Z * Z) :=
  st ← DO8 buf 0 st; DO8 buf 8 st.

Definition CHOP (a : Z) : Z :=
  let tmp := Z.shiftr a 16 in
  wrap W (Z.land a 65535 + wrap W (Z.shiftl tmp 4 - tmp)).
Definition MOD28 (a : Z) : Z :=
  if no_divide then
    let a := CHOP a in if BASE <=? a then a - BASE else a
  else a mod BASE.
Definition MOD (a : Z) : Z :=
  if no_divide then MOD28 (CHOP a) else a mod BASE.
(** [MOD63] works on the signed 64-bit type of lengths. *)
Definition MOD63 (a : Z) : Z :=
  if no_divide then
    let tmp := Z.shiftr a 32 in
    let a := Z.land a 4294967295 + (Z.shiftl tmp 8 - Z.shiftl tmp 5 + tmp) in
    let tmp := Z.shiftr a 16 in
    let a := Z.land a 65535 + (Z.shiftl tmp 4 - tmp) in
    let tmp := Z.shiftr a 16 in
    let a := Z.land a 65535 + (Z.shiftl tmp 4 - tmp) in
    if BASE <=? a then a - BASE else a
  else a mod BASE.

(** [while (len--) { adler += *buf++; sum2 += adler; }] *)
Fixpoint bytes_loop (len : nat) (buf : list Z) (st : Z * Z) : option (Z * Z) :=
  match len with
  | O => Some st
  | S len =>
      x ← head buf;
      let adler := wrap W (st.1 + x) in
      bytes_loop len (tail buf) (adler, wrap W (st.2 + adler))
  end.

(** [n] unrolled groups of 16 bytes; also returns the advanced pointer. *)
Fixpoint do16_loop (n : nat) (buf : list Z) (st : Z * Z) : option (list Z * (Z * Z)) :=
  match n with
  | O => Some (buf, st)
  | S n => st ← DO16 buf st; do16_loop n (drop 16 buf) st
  end.

(** [while (len >= NMAX) { ... MOD(adler); MOD(sum2); }] *)
Fixpoint nmax_loop (fuel : nat) (len : Z) (buf : list Z) (st : Z * Z)
    : option (Z * list Z * (Z * Z)) :=
  match fuel with
  | O => None
  | S fuel =>
      if NMAX <=? len then
        '(buf, st) ← do16_loop (Z.to_nat (NMAX / 16)) buf st;
        nmax_loop fuel (len - NMAX) buf (MOD st.1, MOD st.2)
      else Some (len, buf, st)
  end.

(** [while (len >= 16) { len -= 16; DO16(buf); buf += 16; }] *)
Fixpoint tail16_loop (fuel : nat) (len : Z) (buf : list Z) (st : Z * Z)
    : option (Z * list Z * (Z * Z)) :=
  match fuel with
  | O => None
  | S fuel =>
      if 16 <=? len then
        st ← DO16 buf st; tail16_loop fuel (len - 16) (drop 16 buf) st
      else Some (len, buf, st)
  end.

(** The pieces of the result: [adler | (sum2 << 16)]. *)
Definition adler_join (st : Z * Z) : Z :=
  Z.lor st.1 (wrap W (Z.shiftl st.2 16)).

(** [buf] is the memory at the pointer, [None] for a null pointer; the
    result is [None] when the code reads outside it. *)
Definition adler32_z (adler : Z) (buf : option (list Z)) (len : Z) : option Z :=
  let sum2 := Z.land (Z.shiftr adler 16) 65535 in
  let adler := Z.land adler 65535 in
  if len =? 1 then
    b ← buf; x ← head b;
    let adler := wrap W (adler + x) in
    let adler := if BASE <=? adler then adler - BASE else adler in
    let sum2 := wrap W (sum2 + adler) in
    let sum2 := if BASE <=? sum2 then sum2 - BASE else sum2 in
    Some (adler_join (adler, sum2))
  else
    match buf with
    | None => Some 1
    | Some b =>
        if len <? 16 then
          '(adler, sum2) ← bytes_loop (Z.to_nat len) b (adler, sum2);
          let adler := if BASE <=? adler then adler - BASE else adler in
          Some (adler_join (adler, MOD28 sum2))
        else
          '(len, b, st) ← nmax_loop (S (Z.to_nat len)) len b (adler, sum2);
          if len =? 0 then Some (adler_join st)
          else
            '(len, b, st) ← tail16_loop (S (Z.to_nat len)) len b st;
            st ← bytes_loop (Z.to_nat len) b st;
            Some (adler_join (MOD st.1, MOD st.2))
    end.

Definition adler32 (adler : Z) (buf : option (list Z)) (len : Z) : option Z :=
  adler32_z adler buf len.

Definition adler32_combine_ (adler1 adler2 len2 : Z) : Z :=
  if len2 <? 0 then 4294967295
  else
    let len2 := MOD63 len2 in
    let rem := wrap 32 len2 in
    let sum1 := Z.land adler1 65535 in
    let sum2 := wrap W (rem * sum1) in
    let sum2 := MOD sum2 in
    let sum1 := wrap W (sum1 + (Z.land adler2 65535 + BASE - 1)) in
    let sum2 := wrap W (sum2 + (Z.land (Z.shiftr adler1 16) 65535
                  + Z.land (Z.shiftr adler2 16) 65535 + BASE - rem)) in
    let sum1 := if BASE <=? sum1 then sum1 - BASE else sum1 in
    let sum1 := if BASE <=? sum1 then sum1 - BASE else sum1 in
    let sum2 := if Z.shiftl BASE 1 <=? sum2 then sum2 - Z.shiftl BASE 1 else sum2 in
    let sum2 := if BASE <=? sum2 then sum2 - BASE else sum2 in
    Z.lor sum1 (wrap W (Z.shiftl sum2 16)).

Definition adler32_combine (adler1 adler2 len2 : Z) : Z := adler32_combine_ adler1 adler2 len2.
Definition adler32_combine64 (adler1 adler2 len2 : Z) : Z := adler32_combine_ adler1 adler2 len2.
End Code.

(** ** The checksum, by its definition *)

Definition adler_spec_step (st : Z * Z) (x : Z) : Z * Z :=
  let a := (st.1 + x) mod BASE in (a, (st.2 + a) mod BASE).

Definition adler_spec (st : Z * Z) (buf : list Z) : Z * Z := foldl adler_spec_step st buf.

Definition adler_pack (st : Z * Z) : Z := st.1 + 65536 * st.2.

(** The checksum a fresh computation ([adler32(0, NULL, 0) = 1]) gives. *)
Definition adler_of (buf : list Z) : Z := adler_pack (adler_spec (1, 0) buf).

Definition adler_ok (st : Z * Z) : Prop := 0 <= st.1 < BASE /\ 0 <= st.2 < BASE.

(** ** The sums without reduction *)

Definition sum_step (st : Z * Z) (x : Z) : Z * Z := (st.1 + x, st.2 + (st.1 + x)).
Definition red (st : Z * Z) : Z * Z := (st.1 mod BASE, st.2 mod BASE).

Lemma red_step st x : red (sum_step st x) = adler_spec_step (red st) x.
Proof.
  destruct st as [a b]. unfold red, sum_step, adler_spec_step. cbn [fst snd].
  f_equal; unfold BASE; Z.div_mod_to_equations; lia.
Qed.

Lemma red_foldl buf st : red (foldl sum_step st buf) = adler_spec (red st) buf.
Proof.
  revert st; induction buf as [|x buf IH]; intros st; [done|].
  cbn [foldl]. rewrite IH, red_step. done.
Qed.

Lemma red_id st : adler_ok st -> red st = st.
Proof. destruct st. intros [? ?]. unfold red. rewrite !Z.mod_small by done. done. Qed.

Lemma red_ok st : adler_ok (red st).
Proof. split; apply Z.mod_pos_bound; done. Qed.

Lemma spec_ok buf st : adler_ok st -> adler_ok (adler_spec st buf).
Proof. intros H. rewrite <- (red_id st) by done. rewrite <- red_foldl. apply red_ok. Qed.

(** The bound of the comment at [NMAX]: after [n] bytes the sums have grown
    by at most this much. *)
Lemma foldl_sum_bounds buf st :
  Forall is_byte buf -> 0 <= st.1 -> 0 <= st.2 ->
  let n := Z.of_nat (length buf) in
  let st' := foldl sum_step st buf in
  st.1 <= st'.1 <= st.1 + 255 * n /\
  st.2 <= st'.2 /\ 2 * st'.2 <= 2 * st.2 + 2 * n * st.1 + 255 * (n * (n + 1)).
Proof.
  intros Hb; revert st; induction Hb as [|x buf Hx Hb IH]; intros [a b] Ha Hs.
  { cbn in *. lia. }
  cbn [fst snd] in *. unfold is_byte in Hx.
  specialize (IH (sum_step (a, b) x)). cbn [foldl length sum_step fst snd] in *.
  rewrite Nat2Z.inj_succ. remember (Z.of_nat (length buf)) as n eqn:En.
  assert (Hn : 0 <= n) by lia.
  destruct (IH ltac:(lia) ltac:(lia)) as (H1 & H2 & H3). repeat split; nia.
Qed.

Section Proofs.
Context (W : Z) (no_divide : bool) (HW : 32 <= W).
#[local] Abbreviation bytes_loop := (bytes_loop W).
#[local] Abbreviation MOD := (MOD W no_divide).
#[local] Abbreviation MOD28 := (MOD28 W no_divide).

Lemma pow_W : 2 ^ 32 <= 2 ^ W.
Proof. apply Z.pow_le_mono_r; lia. Qed.

Lemma wrap_W x : 0 <= x < 2 ^ 32 -> wrap W x = x.
Proof. intros Hx. apply Z.mod_small. pose proof pow_W. lia. Qed.

(** No sum wraps as long as the exact final sums fit in 32 bits. *)
Lemma bytes_loop_sum buf rest st :
  Forall is_byte buf -> 0 <= st.1 -> 0 <= st.2 ->
  (foldl sum_step st buf).1 < 2 ^ 32 -> (foldl sum_step st buf).2 < 2 ^ 32 ->
  bytes_loop (length buf) (buf ++ rest) st = Some (foldl sum_step st buf).
Proof.
  intros Hb; revert st; induction Hb as [|x buf Hx Hb IH]; intros st Ha Hs H1 H2; [done|].
  cbn [foldl] in *. unfold is_byte in Hx.
  assert (0 <= (sum_step st x).1 /\ 0 <= (sum_step st x).2) as [Hp1 Hp2] by (cbn; lia).
  destruct (foldl_sum_bounds buf (sum_step st x) Hb Hp1 Hp2) as (B1 & B2 & _).
  cbn [bytes_loop length app head tail mbind option_bind].
  cbn [sum_step fst snd] in B1, B2, Hp1, Hp2.
  rewrite !wrap_W by lia. apply IH; done.
Qed.

Lemma bytes_loop_add n m buf st :
  bytes_loop (n + m) buf st = st ← bytes_loop n buf st; bytes_loop m (drop n buf) st.
Proof.
  revert buf st; induction n as [|n IH]; intros buf st; [done|].
  destruct buf as [|x buf]; [done|]. cbn. apply IH.
Qed.

Lemma DO1_bytes buf i st : DO1 W buf i st = bytes_loop 1 (drop i buf) st.
Proof.
  unfold DO1. cbn [Adler32.bytes_loop].
  replace (head (drop i buf)) with (buf !! i); [done|].
  rewrite <- (Nat.add_0_r i) at 1. rewrite <- lookup_drop. by destruct (drop i buf).
Qed.

(** Doubling a group of bytes. *)
Lemma DO_double n buf i st (f : nat -> Z * Z -> option (Z * Z)) :
  (forall j s, f j s = bytes_loop n (drop j buf) s) ->
  (s ← f i st; f (i + n)%nat s) = bytes_loop (n + n) (drop i buf) st.
Proof.
  intros Hf. rewrite bytes_loop_add, Hf, drop_drop.
  destruct (bytes_loop n (drop i buf) st); [|done]. cbn. by rewrite Hf.
Qed.

Lemma DO16_bytes buf st : DO16 W buf st = bytes_loop 16 buf st.
Proof.
  assert (H2 : forall j s, DO2 W buf j s = bytes_loop 2 (drop j buf) s)
    by (intros; apply (DO_double 1); intros; apply DO1_bytes).
  assert (H4 : forall j s, DO4 W buf j s = bytes_loop 4 (drop j buf) s)
    by (intros; by apply (DO_double 2)).
  assert (H8 : forall j s, DO8 W buf j s = bytes_loop 8 (drop j buf) s)
    by (intros; by apply (DO_double 4)).
  apply (DO_double 8 buf 0); done.
Qed.

Lemma do16_loop_bytes n buf st :
  (16 * n <= length buf)%nat ->
  do16_loop W n buf st =
    st ← bytes_loop (16 * n) buf st; Some (drop (16 * n) buf, st).
Proof.
  revert buf st; induction n as [|n IH]; intros buf st Hl; [done|].
  replace (16 * S n)%nat with (16 + 16 * n)%nat by lia.
  rewrite bytes_loop_add. cbn [do16_loop]. rewrite DO16_bytes.
  destruct (bytes_loop 16 buf st) as [st'|]; [|done]. cbn [mbind option_bind].
  rewrite IH by (rewrite length_drop; lia). rewrite drop_drop. done.
Qed.


(** One conditional subtraction is a reduction below [2 * BASE]. *)
Lemma sub_base x : 0 <= x < 2 * BASE -> (if BASE <=? x then x - BASE else x) = x mod BASE.
Proof.
  intros Hx. case_test.
  - rewrite <- (Z_mod_plus_full x (-1)). rewrite Z.mod_small; lia.
  - rewrite Z.mod_small; lia.
Qed.



(** 65536 is 15 modulo [BASE], so a chop keeps the residue. *)
Lemma chop_mod a : (a mod 65536 + 15 * (a / 65536)) mod BASE = a mod BASE.
Proof.
  rewrite (Z.div_mod a 65536) at 3 by lia.
  rewrite <- (Z_mod_plus_full _ (a / 65536)). f_equal. unfold BASE. lia.
Qed.

Lemma div_range a n m : 0 < n -> 0 <= a < n * m -> 0 <= a / n < m.
Proof.
  intros Hn Ha. split; [apply Z.div_pos; lia|apply Z.div_lt_upper_bound; lia].
Qed.

Lemma CHOP_spec a : 0 <= a < 2 ^ 32 -> CHOP W a = a mod 65536 + 15 * (a / 65536).
Proof.
  intros Ha. unfold CHOP. rewrite Z.shiftr_div_pow2, Z.shiftl_mul_pow2 by lia.
  change 65535 with (Z.ones 16). rewrite (Z.land_ones a 16) by lia.
  change (2 ^ 16) with 65536. change (2 ^ 4) with 16.
  pose proof (Z.mod_pos_bound a 65536 ltac:(lia)).
  pose proof (div_range a 65536 65536 ltac:(lia) ltac:(lia)).
  rewrite (wrap_W (_ * 16 - _)) by lia. rewrite wrap_W by lia. lia.
Qed.

Lemma CHOP_bound a m :
  0 <= a < 65536 * m -> 0 <= a mod 65536 + 15 * (a / 65536) <= 65520 + 15 * m.
Proof.
  intros Ha. pose proof (Z.mod_pos_bound a 65536 ltac:(lia)).
  pose proof (div_range a 65536 m ltac:(lia) Ha). lia.
Qed.

Lemma MOD28_spec a : 0 <= a < 2 ^ 28 -> MOD28 a = a mod BASE.
Proof.
  intros Ha. unfold Adler32.MOD28. destruct no_divide; [|done].
  rewrite CHOP_spec by lia. pose proof (CHOP_bound a 4096 ltac:(lia)).
  cbv zeta. rewrite sub_base by (unfold BASE; lia). apply chop_mod.
Qed.

Lemma MOD_spec a : 0 <= a < 2 ^ 32 -> MOD a = a mod BASE.
Proof.
  intros Ha. unfold Adler32.MOD. destruct no_divide eqn:E; [|done].
  rewrite (CHOP_spec a) by lia. pose proof (CHOP_bound a 65536 ltac:(lia)).
  rewrite <- (chop_mod a). rewrite <- E. apply MOD28_spec. lia.
Qed.


(** A group of at most [NMAX] bytes followed by the two reductions. *)
Lemma block_sum buf rest st :
  Forall is_byte buf -> adler_ok st -> Z.of_nat (length buf) <= NMAX ->
  exists st', bytes_loop (length buf) (buf ++ rest) st = Some st' /\
    MOD st'.1 = (adler_spec st buf).1 /\ MOD st'.2 = (adler_spec st buf).2.
Proof.
  intros Hb Hok Hn. exists (foldl sum_step st buf). pose proof Hok as [Ha Hs].
  pose proof (red_foldl buf st) as E. rewrite (red_id st Hok) in E.
  destruct (foldl_sum_bounds buf st Hb ltac:(lia) ltac:(lia)) as (B1 & B2 & B3).
  set (n := Z.of_nat (length buf)) in *. unfold BASE, NMAX in *.
  assert (0 <= n) by lia.
  assert (2 * n * st.1 <= 2 * 5552 * 65520) by nia.
  assert (255 * (n * (n + 1)) <= 255 * (5552 * 5553)) by nia.
  assert ((foldl sum_step st buf).1 < 2 ^ 32) by lia.
  assert ((foldl sum_step st buf).2 < 2 ^ 32) by lia.
  rewrite bytes_loop_sum by (try done; lia).
  rewrite !MOD_spec by lia. split; [done|]. rewrite <- E. done.
Qed.

Lemma nmax_loop_spec fuel buf st :
  Forall is_byte buf -> adler_ok st -> (length buf < fuel)%nat ->
  exists pre rest, buf = pre ++ rest /\ Z.of_nat (length rest) < NMAX /\
    nmax_loop W no_divide fuel (Z.of_nat (length buf)) buf st =
      Some (Z.of_nat (length rest), rest, adler_spec st pre).
Proof.
  revert buf st; induction fuel as [|fuel IH]; intros buf st Hb Hok Hf; [lia|].
  cbn [nmax_loop]. destruct (Z.leb_spec NMAX (Z.of_nat (length buf))) as [Hl|Hl].
  2: { exists [], buf. done. }
  assert (Hn : (Z.to_nat NMAX <= length buf)%nat) by (unfold NMAX in *; lia).
  rewrite do16_loop_bytes by (change (16 * Z.to_nat (NMAX / 16))%nat with (Z.to_nat NMAX); lia).
  change (16 * Z.to_nat (NMAX / 16))%nat with (Z.to_nat NMAX).
  set (n := Z.to_nat NMAX) in *. assert (Hnz : Z.of_nat n = NMAX) by done. clearbody n.
  pose proof Hb as Hb'. rewrite <- (take_drop n buf) in Hb'. apply Forall_app in Hb' as [Hb1 Hb2].
  assert (Hlen : length (take n buf) = n) by (rewrite length_take; lia).
  destruct (block_sum (take n buf) (drop n buf) st) as (st' & E & E1 & E2); [done..|lia|].
  rewrite take_drop, Hlen in E. rewrite E. cbn [mbind option_bind].
  rewrite E1, E2. destruct (adler_spec st (take n buf)) as [a b] eqn:Es. cbn [fst snd].
  destruct (IH (drop n buf) (a, b)) as (pre & rest & Eb & Hr & El).
  { done. } { rewrite <- Es. by apply spec_ok. } { rewrite length_drop. unfold NMAX in *. lia. }
  exists (take n buf ++ pre), rest. split_and!; [|done|].
  - rewrite <- app_assoc, <- Eb. symmetry. apply take_drop.
  - rewrite length_drop, Nat2Z.inj_sub, Hnz in El by lia. rewrite El.
    unfold adler_spec in *. rewrite foldl_app, Es. done.
Qed.

(** The last loops together sum the remaining bytes. *)
Lemma tail16_loop_bytes fuel buf st :
  (length buf < fuel)%nat ->
  ('(len, b, st) ← tail16_loop W fuel (Z.of_nat (length buf)) buf st;
   bytes_loop (Z.to_nat len) b st) = bytes_loop (length buf) buf st.
Proof.
  revert buf st; induction fuel as [|fuel IH]; intros buf st Hf; [lia|].
  cbn [tail16_loop]. destruct (Z.leb_spec 16 (Z.of_nat (length buf))) as [Hl|Hl].
  2: { cbn [mbind option_bind]. by rewrite Nat2Z.id. }
  replace (bytes_loop (length buf) buf st) with (bytes_loop (16 + (length buf - 16)) buf st)
    by (f_equal; lia).
  rewrite DO16_bytes, bytes_loop_add. destruct (bytes_loop 16 buf st) as [st'|]; [|done].
  cbn [mbind option_bind].
  specialize (IH (drop 16 buf) st'). rewrite length_drop, Nat2Z.inj_sub in IH by lia.
  apply IH. lia.
Qed.

(** The value of the running checksum and its two components. *)
Lemma adler_pack_fields st :
  adler_ok st -> Z.land (adler_pack st) 65535 = st.1 /\
                 Z.land (Z.shiftr (adler_pack st) 16) 65535 = st.2.
Proof.
  intros [H1 H2]. unfold adler_pack, BASE in *. change 65535 with (Z.ones 16).
  rewrite !Z.land_ones, Z.shiftr_div_pow2 by lia. change (2 ^ 16) with 65536.
  rewrite (Z.mul_comm 65536), Z.div_add, Z_mod_plus_full by lia.
  rewrite (Z.div_small st.1) by lia. split; apply Z.mod_small; lia.
Qed.

Lemma adler_join_pack st : adler_ok st -> adler_join W st = adler_pack st.
Proof.
  intros [H1 H2]. unfold adler_join, adler_pack, BASE in *.
  rewrite Z.shiftl_mul_pow2, wrap_W by lia. rewrite (lor_add 16) by lia. lia.
Qed.
End Proofs.


(** [adler32_z] on every input. *)
Lemma adler32_z_value W no_divide st buf :
  32 <= W -> adler_ok st -> Forall is_byte buf ->
  adler32_z W no_divide (adler_pack st) (Some buf) (Z.of_nat (length buf)) =
    Some (adler_pack (adler_spec st buf)).
Proof.
  intros HW Hok Hb. unfold adler32_z.
  destruct (adler_pack_fields st Hok) as [-> ->]. pose proof (spec_ok buf st Hok) as Hspec.
  rewrite <- (adler_join_pack W HW) by done.
  destruct (Z.eqb_spec (Z.of_nat (length buf)) 1) as [E1|E1].
  - destruct buf as [|x [|y buf]]; [done| |cbn [length] in E1; lia].
    cbn [head mbind option_bind]. do 2 f_equal. inversion Hb as [|? ? Hx _]; subst.
    destruct Hok as [H1 H2], st as [a b]. cbn [fst snd] in *. unfold is_byte in Hx.
    unfold BASE in H1, H2. rewrite (wrap_W W HW (a + x)) by lia.
    rewrite sub_base by (unfold BASE; lia). unfold adler_spec, adler_spec_step. cbn [foldl fst snd].
    pose proof (Z.mod_pos_bound (a + x) BASE eq_refl). unfold BASE in *.
    rewrite (wrap_W W HW) by lia. f_equal. apply sub_base. unfold BASE. lia.
  - destruct (Z.ltb_spec (Z.of_nat (length buf)) 16) as [H16|H16].
    + rewrite Nat2Z.id. destruct Hok as [H1 H2].
      destruct (foldl_sum_bounds buf st Hb ltac:(lia) ltac:(lia)) as (B1 & B2 & B3).
      unfold BASE in H1, H2. set (n := Z.of_nat (length buf)) in *.
      assert (2 * n * st.1 <= 2 * 15 * 65520) by nia.
      assert (255 * (n * (n + 1)) <= 255 * (15 * 16)) by nia.
      destruct st as [a b]. cbn [fst snd] in *.
      pose proof (bytes_loop_sum W HW buf [] (a, b) Hb ltac:(cbn; lia) ltac:(cbn; lia)
        ltac:(lia) ltac:(lia)) as El.
      rewrite app_nil_r in El. rewrite El.
      pose proof (red_foldl buf (a, b)) as E. rewrite (red_id (a, b)) in E by (split; cbn; unfold BASE; lia).
      destruct (foldl sum_step (a, b) buf) as [a' b']. cbn [mbind option_bind fst snd] in *.
      rewrite MOD28_spec, sub_base by (unfold BASE; lia). rewrite <- E. done.
    + destruct (nmax_loop_spec W no_divide HW (S (Z.to_nat (Z.of_nat (length buf)))) buf st)
        as (pre & rest & -> & Hr & El); [done..|lia|].
      destruct st as [a b]. cbn [fst snd]. rewrite El. cbn [mbind option_bind]. apply Forall_app in Hb as [Hb1 Hb2].
      unfold adler_spec in *. rewrite foldl_app in *. fold (adler_spec (a, b) pre) in *.
      destruct (Z.eqb_spec (Z.of_nat (length rest)) 0) as [E0|E0].
      { destruct rest; [done|cbn [length] in E0; lia]. }
      pose proof (tail16_loop_bytes W (S (Z.to_nat (Z.of_nat (length rest)))) rest
                    (adler_spec (a, b) pre) ltac:(lia)) as Et.
      destruct (block_sum W no_divide HW rest [] (adler_spec (a, b) pre))
        as (st' & Eb & M1 & M2); [done|by apply spec_ok|lia|].
      rewrite app_nil_r in Eb. rewrite Eb in Et.
      destruct (tail16_loop W _ _ rest _) as [[[len' b'] st'']|]; [|done].
      cbn [mbind option_bind] in *. rewrite Et. cbn [mbind option_bind].
      unfold adler_spec in M1, M2. rewrite M1, M2. by destruct (foldl adler_spec_step _ rest).
Qed.

(** C36: for every byte string and every valid running checksum, [adler32_z]
    returns the checksum by its definition (one reduction modulo 65521 per
    byte), whatever the width (at least 32) of [unsigned long] and with either
    set of [MOD] macros: neither the [NMAX] blocks nor the short paths
    overflow or leave a sum unreduced, and no byte outside the buffer is
    read. *)
Theorem adler32_z_correct W no_divide st buf :
  32 <= W -> adler_ok st -> Forall is_byte buf ->
  adler32_z W no_divide (adler_pack st) (Some buf) (Z.of_nat (length buf)) =
    Some (adler_pack (adler_spec st buf)).
Proof. apply adler32_z_value. Qed.

Lemma adler32_z_correct_witness :
  adler32_z 32 true (adler_pack (1, 0)) (Some [87; 105; 107; 105; 112; 101; 100; 105; 97]) 9
    = Some 300286872.
Proof.
  change 300286872 with (adler_of [87; 105; 107; 105; 112; 101; 100; 105; 97]).
  apply (adler32_z_correct 32 true (1, 0) [87; 105; 107; 105; 112; 101; 100; 105; 97]).
  - lia.
  - split; split; reflexivity || discriminate.
  - repeat constructor; discriminate.
Defined.


