(* ===== verification/Crc32.v ===== *)
(** * CRC-32 (examples/compression/zlib/crc32.c)

    The table generator, the polynomial arithmetic used to combine checksums,
    the braided calculation for either byte order of the machine, the ARM
    version, and the entry points.  An access outside a buffer or a table and
    the exhaustion of loop fuel are [None]; the file [Crc32Facts] shows that
    neither happens and that every version computes the same checksum. *)
From stdpp Require Import base numbers list.
From Stdlib Require Import ZArith Lia.
From S2P Require Import Prelude.

Definition POLY : Z := 0xedb88320.

(** [p & 1 ? (p >> 1) ^ POLY : p >> 1], the step of the shift register. *)
Definition mulx (p : Z) : Z :=
  if ztrue (Z.land p 1) then Z.lxor (Z.shiftr p 1) POLY else Z.shiftr p 1.

(** ** Arithmetic modulo the polynomial *)

Fixpoint multmodp_loop (fuel : nat) (a m p b : Z) : option Z :=
  match fuel with
  | O => None
  | S fuel =>
      if ztrue (Z.land a m) then
        let p := Z.lxor p b in
        if Z.land a (m - 1) =? 0 then Some p
        else multmodp_loop fuel a (Z.shiftr m 1) p (mulx b)
      else multmodp_loop fuel a (Z.shiftr m 1) p (mulx b)
  end.

(** The loop examines one bit of [a] per turn; 32 turns are enough when it
    returns at all. *)
Definition multmodp (a b : Z) : option Z := multmodp_loop 32 a (Z.shiftl 1 31) 0 b.

Fixpoint x2nmodp_loop (fuel : nat) (x2n_table : list Z) (n k p : Z) : option Z :=
  match fuel with
  | O => None
  | S fuel =>
      if ztrue n then
        p ← (if ztrue (Z.land n 1) then
               t ← aget x2n_table (Z.land k 31); multmodp t p
             else Some p);
        x2nmodp_loop fuel x2n_table (Z.shiftr n 1) (wrap 32 (k + 1)) p
      else Some p
  end.

(** [n] is a signed 64-bit length; [>>] is the arithmetic shift. *)
Definition x2nmodp (x2n_table : list Z) (n k : Z) : option Z :=
  x2nmodp_loop 64 x2n_table n k (Z.shiftl 1 31).

Section Words.
(** [W]: bytes in a [z_word_t], 4 or 8; [N]: number of braids. *)
Context (W N : nat).
Let wbits : Z := 8 * Z.of_nat W.

Definition byte_swap (word : Z) : Z :=
  if (W =? 8)%nat then
    Z.lor (Z.shiftr (Z.land word 0xff00000000000000) 56)
   (Z.lor (Z.shiftr (Z.land word 0xff000000000000) 40)
   (Z.lor (Z.shiftr (Z.land word 0xff0000000000) 24)
   (Z.lor (Z.shiftr (Z.land word 0xff00000000) 8)
   (Z.lor (wrap 64 (Z.shiftl (Z.land word 0xff000000) 8))
   (Z.lor (wrap 64 (Z.shiftl (Z.land word 0xff0000) 24))
   (Z.lor (wrap 64 (Z.shiftl (Z.land word 0xff00) 40))
          (wrap 64 (Z.shiftl (Z.land word 0xff) 56))))))))
  else
    Z.lor (Z.shiftr (Z.land word 0xff000000) 24)
   (Z.lor (Z.shiftr (Z.land word 0xff0000) 8)
   (Z.lor (wrap 32 (Z.shiftl (Z.land word 0xff00) 8))
          (wrap 32 (Z.shiftl (Z.land word 0xff) 24)))).

(** ** Table generation *)

Record crc_tables := CrcTables {
  crc_table : list Z;
  crc_big_table : list Z;
  x2n_table : list Z;
  crc_braid_table : list (list Z);
  crc_braid_big_table : list (list Z) }.

(** [x2n_table[n] = p = multmodp(p, p)] for [n] from 1 to 31. *)
Fixpoint make_x2n (n : nat) (p : Z) : option (list Z) :=
  match n with
  | O => Some []
  | S n => p ← multmodp p p; l ← make_x2n n p; Some (p :: l)
  end.

(** Row [k] of the little-endian braid table. *)
Definition braid_row (x2n : list Z) (n w k : nat) : option (list Z) :=
  p ← x2nmodp x2n (Z.shiftl (Z.of_nat n * Z.of_nat w + 3 - Z.of_nat k) 3) 0;
  l ← mapM (fun i => multmodp (wrap 32 (Z.shiftl i 24)) p) (seqZ 1 255);
  Some (0 :: l).

(** [big[w - 1 - k][i] = byte_swap(ltl[k][i])]: the rows come out in reverse
    order. *)
Definition braid (x2n : list Z) (n w : nat) : option (list (list Z) * list (list Z)) :=
  ltl ← mapM (braid_row x2n n w) (seq 0 w);
  Some (ltl, reverse (map (map byte_swap) ltl)).

Definition make_crc_table : option crc_tables :=
  let t := map (fun i => iter 8 mulx i) (seqZ 0 256) in
  let p := Z.shiftl 1 30 in
  l ← make_x2n 31 p;
  let x2n := p :: l in
  '(ltl, big) ← braid x2n N W;
  Some (CrcTables t (map byte_swap t) x2n ltl big).

(** ** The checksum of a buffer *)

Context (T : crc_tables).

(** [crc = (crc >> 8) ^ crc_table[(crc ^ *buf++) & 0xff]] *)
Definition crc_byte (crc b : Z) : option Z :=
  t ← aget (crc_table T) (Z.land (Z.lxor crc b) 0xff);
  Some (Z.lxor (Z.shiftr crc 8) t).

Definition crc_word (data : Z) : option Z :=
  data ← Nat.iter W (fun d => data ← d;
           t ← aget (crc_table T) (Z.land data 0xff);
           Some (Z.lxor (Z.shiftr data 8) t)) (Some data);
  Some (wrap 32 data).

Definition crc_word_big (data : Z) : option Z :=
  Nat.iter W (fun d => data ← d;
     t ← aget (crc_big_table T) (Z.land (Z.shiftr data (Z.shiftl (Z.of_nat W - 1) 3)) 0xff);
     Some (Z.lxor (wrap wbits (Z.shiftl data 8)) t)) (Some data).

(** The word a load gives: the first byte of memory is the least
    significant on a little-endian machine, the most significant on a
    big-endian one. *)
Fixpoint le_word (l : list Z) : Z :=
  match l with [] => 0 | b :: l => b + 256 * le_word l end.

Definition load_word (little : bool) (p : list Z) : option Z :=
  if (W <=? length p)%nat then
    Some (if little then le_word (take W p) else le_word (reverse (take W p)))
  else None.

(** [words[0..n-1]] *)
Fixpoint load_words (little : bool) (n : nat) (p : list Z) : option (list Z) :=
  match n with
  | O => Some []
  | S n => w ← load_word little p; l ← load_words little n (drop W p); Some (w :: l)
  end.

Definition tab2 (tab : list (list Z)) (k : nat) (i : Z) : option Z :=
  row ← tab !! k; aget row i.

(** [crc = tab[0][word & 0xff]; for (k = 1; k < W; k++)
    crc ^= tab[k][(word >> (k << 3)) & 0xff];] *)
Definition braid_word (tab : list (list Z)) (word : Z) : option Z :=
  crc ← tab2 tab 0 (Z.land word 0xff);
  foldl (fun c k => c ← c;
           t ← tab2 tab k (Z.land (Z.shiftr word (Z.shiftl (Z.of_nat k) 3)) 0xff);
           Some (Z.lxor c t)) (Some crc) (seq 1 (W - 1)).

(** [while (--blks)]: each turn loads a word for every braid and updates the
    CRC of every braid. *)
Fixpoint braid_loop (little : bool) (tab : list (list Z)) (blks : nat) (p : list Z)
    (crcs : list Z) : option (list Z * list Z) :=
  match blks with
  | O => None
  | S O => Some (p, crcs)
  | S blks =>
      ws ← load_words little N p;
      crcs ← mapM (braid_word tab) (zip_with Z.lxor crcs ws);
      braid_loop little tab blks (drop (N * W) p) crcs
  end.

(** The last block: [crc = crc_word(crcI ^ words[I] ^ crc)], without the
    last term for the first braid. *)
Fixpoint braid_last (step : Z -> option Z) (crcs ws : list Z) (comb : Z) : option Z :=
  match crcs, ws with
  | c :: crcs, w :: ws =>
      comb ← step (Z.lxor (Z.lxor c w) comb); braid_last step crcs ws comb
  | _, _ => Some comb
  end.

Definition braided (little : bool) (crc : Z) (blks : nat) (p : list Z) : option (Z * list Z) :=
  if little then
    '(p, crcs) ← braid_loop true (crc_braid_table T) blks p (crc :: replicate (N - 1) 0);
    ws ← load_words true N p;
    crc ← braid_last crc_word crcs ws 0;
    Some (crc, drop (N * W) p)
  else
    '(p, crcs) ← braid_loop false (crc_braid_big_table T) blks p
                   (byte_swap crc :: replicate (N - 1) 0);
    ws ← load_words false N p;
    comb ← braid_last crc_word_big crcs ws 0;
    Some (byte_swap comb, drop (N * W) p).

(** [while (len && ((z_size_t)buf & (W - 1)) != 0)] *)
Fixpoint align_loop (step : Z -> Z -> option Z) (len : nat) (addr : Z) (p : list Z) (crc : Z)
    : option (Z * nat * list Z) :=
  match len with
  | O => Some (crc, O, p)
  | S len' =>
      if ztrue (Z.land addr (Z.of_nat W - 1)) then
        b ← head p; crc ← step crc b; align_loop step len' (addr + 1) (tail p) crc
      else Some (crc, len, p)
  end.

(** [while (len) { len--; ... }], a byte at a time. *)
Fixpoint bytes_loop (step : Z -> Z -> option Z) (len : nat) (p : list Z) (crc : Z) : option Z :=
  match len with
  | O => Some crc
  | S len => b ← head p; crc ← step crc b; bytes_loop step len (tail p) crc
  end.

(** [while (len >= 8)], eight unrolled steps a turn, then the bytes left. *)
Fixpoint tail_loop (fuel len : nat) (p : list Z) (crc : Z) : option Z :=
  match fuel with
  | O => None
  | S fuel =>
      if (8 <=? len)%nat then
        crc ← bytes_loop crc_byte 8 p crc; tail_loop fuel (len - 8) (drop 8 p) crc
      else bytes_loop crc_byte len p crc
  end.

(** [~x] on an [unsigned long] masked to 32 bits. *)
Definition not32 (crc : Z) : Z := Z.land (Z.lnot crc) 0xffffffff.

(** [addr] is the address of [buf], whose memory is the list. *)
Definition crc32_z (little : bool) (addr crc : Z) (buf : option (list Z)) (len : nat) : option Z :=
  match buf with
  | None => Some 0
  | Some p =>
      let crc := not32 crc in
      '(crc, len, p) ←
        (if (N * W + W - 1 <=? len)%nat then
           '(crc, len, p) ← align_loop crc_byte len addr p crc;
           let blks := (len / (N * W))%nat in
           '(crc, p) ← braided little crc blks p;
           Some (crc, (len - blks * (N * W))%nat, p)
         else Some (crc, len, p));
      crc ← tail_loop (S len) len p crc;
      Some (Z.lxor crc 0xffffffff)
  end.

Definition crc32 (little : bool) (addr crc : Z) (buf : option (list Z)) (len : nat) : option Z :=
  crc32_z little addr crc buf len.

(** ** Combining checksums *)

Definition crc32_combine64 (crc1 crc2 len2 : Z) : option Z :=
  op ← x2nmodp (x2n_table T) len2 3;
  p ← multmodp op (wrap 32 crc1);
  Some (Z.lxor p (Z.land crc2 0xffffffff)).

Definition crc32_combine (crc1 crc2 len2 : Z) : option Z := crc32_combine64 crc1 crc2 len2.

Definition crc32_combine_gen64 (len2 : Z) : option Z := x2nmodp (x2n_table T) len2 3.

Definition crc32_combine_gen (len2 : Z) : option Z := crc32_combine_gen64 len2.

Definition crc32_combine_op (crc1 crc2 op : Z) : option Z :=
  p ← multmodp (wrap 32 op) (wrap 32 crc1);
  Some (Z.lxor p (Z.land crc2 0xffffffff)).
End Words.

(** ** The ARM version

    [crc32b] and [crc32x] are the instructions of the inline assembly. *)
Section Arm.
Context (crc32b crc32x : Z -> Z -> Z) (T : crc_tables).

Definition Z_BATCH : nat := 3990.
Definition Z_BATCH_ZEROS : Z := 0xa10d3d0c.
Definition Z_BATCH_MIN : nat := 800.

(** Three interleaved CRCs over [n] words each, at [word], [word + n] and
    [word + 2 * n]. *)
Fixpoint arm_batch (i n : nat) (word : list Z) (crcs : Z * Z * Z) : option (Z * Z * Z) :=
  match i with
  | O => Some crcs
  | S i =>
      let '(crc, crc1, crc2) := crcs in
      val0 ← load_word 8 true word;
      val1 ← load_word 8 true (drop (8 * n) word);
      val2 ← load_word 8 true (drop (8 * (2 * n)) word);
      arm_batch i n (drop 8 word) (crc32x crc val0, crc32x crc1 val1, crc32x crc2 val2)
  end.

(** One set of batches of [n] words, combined with the operator [z]. *)
Definition arm_set (n : nat) (z : Z) (word : list Z) (crc : Z) : option (list Z * Z) :=
  '(crc, crc1, crc2) ← arm_batch n n word (crc, 0, 0);
  m ← multmodp z crc;
  m ← multmodp z (Z.lxor m crc1);
  Some (drop (8 * (3 * n)) word, Z.lxor m crc2).

Fixpoint arm_batches (fuel num : nat) (word : list Z) (crc : Z) : option (nat * list Z * Z) :=
  match fuel with
  | O => None
  | S fuel =>
      if (3 * Z_BATCH <=? num)%nat then
        '(word, crc) ← arm_set Z_BATCH Z_BATCH_ZEROS word crc;
        arm_batches fuel (num - 3 * Z_BATCH) word crc
      else Some (num, word, crc)
  end.

Fixpoint arm_words (num : nat) (word : list Z) (crc : Z) : option (list Z * Z) :=
  match num with
  | O => Some (word, crc)
  | S num => v ← load_word 8 true word; arm_words num (drop 8 word) (crc32x crc v)
  end.

Definition arm_step (crc b : Z) : option Z := Some (crc32b crc b).

Definition crc32_z_arm (addr crc : Z) (buf : option (list Z)) (len : nat) : option Z :=
  match buf with
  | None => Some 0
  | Some p =>
      let crc := not32 crc in
      '(crc, len, p) ← align_loop 8 arm_step len addr p crc;
      let num := (len / 8)%nat in
      let len := (len mod 8)%nat in
      '(num, p, crc) ← arm_batches (S num) num p crc;
      let last := (num / 3)%nat in
      '(num, p, crc) ←
        (if (Z_BATCH_MIN <=? last)%nat then
           z ← x2nmodp (x2n_table T) (Z.of_nat last) 6;
           '(p, crc) ← arm_set last z p crc;
           Some ((num - 3 * last)%nat, p, crc)
         else Some (num, p, crc));
      '(p, crc) ← arm_words num p crc;
      crc ← bytes_loop arm_step len p crc;
      Some (Z.lxor crc 0xffffffff)
  end.
End Arm.

(** ** The checksum, by its definition

    A shift register fed with the bits of the message, least significant bit
    of each byte first. *)
Definition crc_bit (c : Z) (b : bool) : Z := mulx (Z.lxor c (Z.b2z b)).

Definition crc_ref (crc : Z) (buf : list Z) : Z :=
  Z.lxor (foldl crc_bit (Z.lxor crc 0xffffffff) (bytes_bits buf)) 0xffffffff.
