(* ===== verification/Crc32Facts.v ===== *)
(** * Correctness of the CRC-32 code

    Every calculation of [crc32.c] is a power of one linear map, [mulx],
    multiplication by x modulo the polynomial.  The file identifies the tables
    and operators with those powers and derives that the braided, big-endian,
    byte-wise and ARM calculations all give the checksum by its definition,
    and that the combination functions are correct. *)
From stdpp Require Import base numbers list.
From Stdlib Require Import ZArith Lia Btauto Zpow_facts.
From S2P Require Import Prelude Gf2 Crc32.

(** ** The shift register step *)

Lemma ztrue_land1 p : ztrue (Z.land p 1) = Z.odd p.
Proof.
  change 1 with (Z.ones 1). rewrite Z.land_ones by lia. change (2 ^ 1) with 2.
  rewrite Zmod_odd. by destruct (Z.odd p).
Qed.

Lemma mulx_eq p : mulx p = Z.lxor (Z.shiftr p 1) (if Z.odd p then POLY else 0).
Proof. unfold mulx. rewrite ztrue_land1. destruct (Z.odd p); [done|]. by rewrite Z.lxor_0_r. Qed.

Lemma odd_lxor a b : Z.odd (Z.lxor a b) = xorb (Z.odd a) (Z.odd b).
Proof. rewrite <- !Z.bit0_odd. apply Z.lxor_spec. Qed.

#[export] Instance linear_mulx : Linear mulx.
Proof.
  split.
  - intros a Ha. rewrite mulx_eq. apply lxor_nonneg; [by apply Z.shiftr_nonneg|by case_match].
  - intros a b Ha Hb. rewrite !mulx_eq, Z.shiftr_lxor, odd_lxor.
    apply Z.bits_inj'. intros i Hi. rewrite !Z.lxor_spec.
    destruct (Z.odd a), (Z.odd b); cbn [xorb]; rewrite ?Z.bits_0; btauto.
Qed.

Lemma mulx_shiftl y : mulx (Z.shiftl y 1) = y.
Proof.
  rewrite mulx_eq, Z.shiftr_shiftl_l by lia.
  assert (Ho : Z.odd (Z.shiftl y 1) = false)
    by (rewrite Z.shiftl_mul_pow2, Z.odd_mul by lia; apply andb_false_r).
  rewrite Ho, Z.lxor_0_r. apply Z.shiftl_0_r.
Qed.

Lemma mulx_range n p : 32 <= n -> 0 <= p < 2 ^ (n + 1) -> 0 <= mulx p < 2 ^ n.
Proof.
  intros Hn Hp. rewrite mulx_eq. apply lxor_range; [lia| |].
  - rewrite Z.shiftr_div_pow2 by lia. rewrite Z.pow_add_r in Hp by lia.
    change (2 ^ 1) with 2 in *. split; [apply Z.div_pos|apply Z.div_lt_upper_bound]; lia.
  - assert (2 ^ 32 <= 2 ^ n) by (apply Z.pow_le_mono_r; lia).
    change (2 ^ 32) with 4294967296 in *. unfold POLY. case_match; lia.
Qed.

Lemma mulx_u32 p : is_u32 p -> is_u32 (mulx p).
Proof. unfold is_u32. intros. apply (mulx_range 32); [lia|]. change (2 ^ (32 + 1)) with 8589934592. lia. Qed.

(** [mulx] is injective on 32-bit values. *)
Lemma mulx_zero p : is_u32 p -> mulx p = 0 -> p = 0.
Proof.
  unfold is_u32. intros Hp. rewrite mulx_eq. intros H. apply Z.lxor_eq in H.
  rewrite Z.shiftr_div_pow2 in H by lia. change (2 ^ 1) with 2 in H.
  pose proof (Zmod_odd p) as Ho. destruct (Z.odd p); unfold POLY in *; Z.div_mod_to_equations; lia.
Qed.

Lemma mulx_inj p q : is_u32 p -> is_u32 q -> mulx p = mulx q -> p = q.
Proof.
  intros Hp Hq E. apply Z.lxor_eq, mulx_zero.
  - apply (lxor_range 32); unfold is_u32 in *; lia.
  - unfold is_u32 in *. rewrite lin_lxor, E by lia. apply Z.lxor_nilpotent.
Qed.

(** ** Powers *)

(** [xpow n p] is [p] multiplied by x^n. *)
Definition xpow (n p : Z) : Z := iter (Z.to_nat n) mulx p.

#[export] Instance linear_xpow n : Linear (xpow n).
Proof. apply linear_iter, _. Qed.

Lemma xpow_0 p : xpow 0 p = p.
Proof. done. Qed.

Lemma xpow_add n m p : 0 <= n -> 0 <= m -> xpow (n + m) p = xpow m (xpow n p).
Proof. intros. unfold xpow. rewrite Z2Nat.inj_add by lia. apply iter_add. Qed.

Lemma xpow_succ n p : 0 <= n -> xpow (n + 1) p = mulx (xpow n p).
Proof. intros. rewrite xpow_add by lia. done. Qed.

Lemma xpow_nonneg n p : 0 <= p -> 0 <= xpow n p.
Proof. apply lin_nonneg. Qed.

Lemma xpow_u32 n p : is_u32 p -> is_u32 (xpow n p).
Proof. intros. unfold xpow. apply (iter_inv is_u32); [done|apply mulx_u32]. Qed.

Lemma xpow_nonzero n p : is_u32 p -> p <> 0 -> xpow n p <> 0.
Proof.
  intros Hp Hn. unfold xpow. generalize (Z.to_nat n). intros k.
  induction k as [|k IH]; [done|].
  rewrite iter_S. intros H. apply IH.
  apply mulx_zero, H. apply (iter_inv is_u32); [done|apply mulx_u32].
Qed.

Lemma xpow_shiftl n y : 0 <= n -> xpow n (Z.shiftl y n) = y.
Proof.
  intros Hn. rewrite <- (Z2Nat.id n) at 2 by done. unfold xpow.
  generalize (Z.to_nat n). intros k. revert y.
  induction k as [|k IH]; intros y; [apply Z.shiftl_0_r|].
  cbn [iter]. replace (Z.shiftl y (Z.of_nat (S k))) with (Z.shiftl (Z.shiftl y (Z.of_nat k)) 1).
  - rewrite mulx_shiftl. apply IH.
  - rewrite Z.shiftl_shiftl by lia. f_equal. lia.
Qed.

(** The bits shifted out and those left. *)
Lemma land_ones_split n c :
  0 <= n -> c = Z.lxor (Z.shiftl (Z.shiftr c n) n) (Z.land c (Z.ones n)).
Proof.
  intros Hn. apply Z.bits_inj'. intros i Hi.
  rewrite Z.lxor_spec, Z.shiftl_spec, Z.land_spec, testbit_ones by lia.
  destruct (Z.ltb_spec i n).
  - rewrite (Z.testbit_neg_r (Z.shiftr c n)) by lia. by destruct (Z.testbit c i).
  - rewrite Z.shiftr_spec, Z.sub_add by lia. by destruct (Z.testbit c i).
Qed.

Lemma xpow_split n c :
  0 <= n -> 0 <= c -> xpow n c = Z.lxor (Z.shiftr c n) (xpow n (Z.land c (Z.ones n))).
Proof.
  intros Hn Hc. rewrite (land_ones_split n c) at 1 by done.
  assert (0 <= Z.shiftr c n) by (by apply Z.shiftr_nonneg).
  rewrite lin_lxor.
  - by rewrite xpow_shiftl.
  - by apply Z.shiftl_nonneg.
  - apply Z.land_nonneg. by left.
Qed.

Lemma xpow_range n p : 0 <= n -> 0 <= p < 2 ^ (32 + n) -> is_u32 (xpow n p).
Proof.
  intros Hn. rewrite <- (Z2Nat.id n) at 1 by done. unfold xpow. generalize (Z.to_nat n).
  intros k. clear n Hn. revert p. induction k as [|k IH]; intros p Hp.
  - cbn [iter]. unfold is_u32. change (Z.of_nat 0) with 0 in Hp. rewrite Z.add_0_r in Hp. done.
  - cbn [iter]. apply IH, mulx_range; [lia|].
    replace (32 + Z.of_nat k + 1) with (32 + Z.of_nat (S k)) by lia. done.
Qed.

(** ** Multiplication *)

(** [gf_acc n a b]: the sum of the multiples of [b] selected by the low [n]
    bits of [a], the highest first. *)
Fixpoint gf_acc (n : nat) (a b : Z) : Z :=
  match n with
  | O => 0
  | S n => Z.lxor (if Z.testbit a (Z.of_nat n) then b else 0) (gf_acc n a (mulx b))
  end.

(** The product of two polynomials of degree below 32, modulo the polynomial. *)
Definition gf_mul (a b : Z) : Z := gf_acc 32 a b.

(** The constant polynomial 1. *)
Definition gf_one : Z := 0x80000000.

#[export] Instance linear_gf_r n a : Linear (gf_acc n a).
Proof.
  induction n as [|n IH]; [apply linear_zero|].
  apply (linear_lxor (fun b => if Z.testbit a (Z.of_nat n) then b else 0)
           (fun b => gf_acc n a (mulx b))).
  - case_match; [apply linear_id|apply linear_zero].
  - apply linear_comp; apply _.
Qed.

#[export] Instance linear_gf_mul_r a : Linear (gf_mul a).
Proof. apply linear_gf_r. Qed.

Lemma linear_gf_l n b : 0 <= b -> Linear (fun a => gf_acc n a b).
Proof.
  revert b; induction n as [|n IH]; intros b Hb; [apply linear_zero|].
  apply (linear_lxor (fun a => if Z.testbit a (Z.of_nat n) then b else 0)
           (fun a => gf_acc n a (mulx b))).
  - split; intros.
    + case_match; lia.
    + rewrite Z.lxor_spec. destruct (Z.testbit a _), (Z.testbit b0 _); cbn [xorb];
        rewrite ?Z.lxor_nilpotent, ?Z.lxor_0_r, ?Z.lxor_0_l; done.
  - apply IH. by apply lin_nonneg.
Qed.

Lemma linear_gf_mul_l b : 0 <= b -> Linear (fun a => gf_mul a b).
Proof. apply linear_gf_l. Qed.

Lemma u32_pow i : (i < 32)%nat -> is_u32 (2 ^ Z.of_nat i).
Proof.
  intros Hi. split; [apply Z.pow_nonneg; lia|apply Z.pow_lt_mono_r; lia].
Qed.

(** Bilinear maps are checked on the 32 x 32 pairs of powers. *)
Lemma bilinear_check (f g : Z -> Z -> Z) :
  (forall a, Linear (f a)) -> (forall a, Linear (g a)) ->
  (forall b, 0 <= b -> Linear (fun a => f a b)) -> (forall b, 0 <= b -> Linear (fun a => g a b)) ->
  forallb (fun i => forallb (fun j =>
    f (2 ^ Z.of_nat i) (2 ^ Z.of_nat j) =? g (2 ^ Z.of_nat i) (2 ^ Z.of_nat j))
    (seq 0 32)) (seq 0 32) = true ->
  forall a b, is_u32 a -> is_u32 b -> f a b = g a b.
Proof.
  intros Hf Hg Hf' Hg' Hc a b Ha Hb. rewrite forallb_forall in Hc.
  unfold is_u32 in *.
  apply (linear_ext 32 (fun a => f a b) (fun a => g a b)); [apply Hf'; lia|apply Hg'; lia| |done].
  intros i Hi. apply (linear_check 32); [apply Hf|apply Hg| |done].
  apply Hc, in_seq. lia.
Qed.

Lemma gf_mul_mulx_l a b : is_u32 a -> is_u32 b -> gf_mul (mulx a) b = mulx (gf_mul a b).
Proof.
  apply (bilinear_check (fun a b => gf_mul (mulx a) b) (fun a b => mulx (gf_mul a b))).
  - intros. apply _.
  - intros. apply linear_comp; apply _.
  - intros c Hc. apply (linear_comp (fun a => gf_mul a c)); [by apply linear_gf_mul_l|apply _].
  - intros c Hc. apply (linear_comp mulx); [apply _|by apply linear_gf_mul_l].
  - vm_compute. reflexivity.
Qed.

Lemma gf_mul_mulx_r a b : is_u32 a -> is_u32 b -> gf_mul a (mulx b) = mulx (gf_mul a b).
Proof.
  apply (bilinear_check (fun a b => gf_mul a (mulx b)) (fun a b => mulx (gf_mul a b))).
  - intros. apply linear_comp; apply _.
  - intros. apply linear_comp; apply _.
  - intros c Hc. apply linear_gf_mul_l. by apply lin_nonneg.
  - intros c Hc. apply (linear_comp mulx); [apply _|by apply linear_gf_mul_l].
  - vm_compute. reflexivity.
Qed.

Lemma gf_mul_one_l b : is_u32 b -> gf_mul gf_one b = b.
Proof. apply (linear_check 32 (gf_mul gf_one) (fun b => b)); [apply _..|]. vm_compute. reflexivity. Qed.

Lemma gf_mul_one_r a : is_u32 a -> gf_mul a gf_one = a.
Proof.
  apply (linear_check 32 (fun a => gf_mul a gf_one) (fun a => a)); [|apply _|].
  - by apply linear_gf_mul_l.
  - vm_compute. reflexivity.
Qed.

Lemma one_u32 : is_u32 gf_one.
Proof. done. Qed.

(** Multiplying by x^n is [xpow]. *)
Lemma gf_mul_xpow_l n b : is_u32 b -> gf_mul (xpow n gf_one) b = xpow n b.
Proof.
  intros Hb. unfold xpow. generalize (Z.to_nat n). intros k.
  induction k as [|k IH]; [by apply gf_mul_one_l|].
  rewrite !iter_S, gf_mul_mulx_l, IH; [done| |done].
  apply (iter_inv is_u32); [done|apply mulx_u32].
Qed.

Lemma gf_mul_xpow_r n a : is_u32 a -> gf_mul a (xpow n gf_one) = xpow n a.
Proof.
  intros Ha. unfold xpow. generalize (Z.to_nat n). intros k.
  induction k as [|k IH]; [by apply gf_mul_one_r|].
  rewrite !iter_S, gf_mul_mulx_r, IH; [done|done|].
  apply (iter_inv is_u32); [done|apply mulx_u32].
Qed.

Lemma gf_acc_zero n a b :
  0 <= b -> (forall i, 0 <= i < Z.of_nat n -> Z.testbit a i = false) -> gf_acc n a b = 0.
Proof.
  revert b; induction n as [|n IH]; intros b Hb H; [done|]. cbn [gf_acc].
  rewrite H by lia. rewrite IH; [done|by apply lin_nonneg|intros; apply H; lia].
Qed.

Lemma ztrue_land_pow a n : 0 <= n -> ztrue (Z.land a (2 ^ n)) = Z.testbit a n.
Proof.
  intros Hn. assert (E : Z.land a (2 ^ n) = if Z.testbit a n then 2 ^ n else 0).
  { apply Z.bits_inj'. intros i Hi. rewrite Z.land_spec.
    destruct (Z.eqb_spec n i) as [<-|Hne].
    - rewrite Z.pow2_bits_true by lia. destruct (Z.testbit a n);
        rewrite ?Z.pow2_bits_true, ?Z.bits_0 by lia; done.
    - rewrite Z.pow2_bits_false by lia. rewrite andb_false_r.
      case_match; rewrite ?Z.pow2_bits_false, ?Z.bits_0 by lia; done. }
  rewrite E. unfold ztrue. assert (0 < 2 ^ n) by (apply Z.pow_pos_nonneg; lia).
  destruct (Z.testbit a n); [|done]. destruct (Z.eqb_spec (2 ^ n) 0); [lia|done].
Qed.

Lemma gf_acc_S n a b :
  gf_acc (S n) a b = Z.lxor (if Z.testbit a (Z.of_nat n) then b else 0) (gf_acc n a (mulx b)).
Proof. done. Qed.

Lemma multmodp_loop_S fuel a m p b :
  multmodp_loop (S fuel) a m p b =
    if ztrue (Z.land a m) then
      if Z.land a (m - 1) =? 0 then Some (Z.lxor p b)
      else multmodp_loop fuel a (Z.shiftr m 1) (Z.lxor p b) (mulx b)
    else multmodp_loop fuel a (Z.shiftr m 1) p (mulx b).
Proof. done. Qed.

Lemma land_ones_zero n a :
  0 <= n -> Z.land a (Z.ones n) = 0 <-> (forall i, 0 <= i < n -> Z.testbit a i = false).
Proof.
  intros Hn. split.
  - intros E i Hi. assert (Hb : Z.testbit (Z.land a (Z.ones n)) i = false) by (rewrite E; apply Z.bits_0).
    rewrite Z.land_spec, Z.ones_spec_low, andb_true_r in Hb by lia. done.
  - intros H. apply Z.bits_inj'. intros i Hi. rewrite Z.land_spec, testbit_ones, Z.bits_0 by lia.
    destruct (Z.ltb_spec i n); [|apply andb_false_r]. by rewrite H by lia.
Qed.

(** The loop of [multmodp] from bit [j] of [a] down. *)
Lemma multmodp_loop_spec j a p b :
  0 <= b -> 0 <= p ->
  Z.land a (Z.ones (Z.of_nat (S j))) <> 0 ->
  multmodp_loop (S j) a (2 ^ Z.of_nat j) p b = Some (Z.lxor p (gf_acc (S j) a b)).
Proof.
  revert p b; induction j as [|j IH]; intros p b Hb Hp Hnz;
    rewrite multmodp_loop_S, gf_acc_S, ztrue_land_pow by lia.
  - rewrite land_ones_zero in Hnz by lia.
    change (2 ^ Z.of_nat 0 - 1) with 0. rewrite Z.land_0_r. cbn [gf_acc]. rewrite Z.lxor_0_r.
    destruct (Z.testbit a (Z.of_nat 0)) eqn:E; [done|]. exfalso. apply Hnz.
    intros i Hi. by replace i with (Z.of_nat 0) by lia.
  - replace (2 ^ Z.of_nat (S j) - 1) with (Z.ones (Z.of_nat (S j))) by (rewrite Z.ones_equiv; lia).
    replace (Z.shiftr (2 ^ Z.of_nat (S j)) 1) with (2 ^ Z.of_nat j); cycle 1.
    { rewrite Z.shiftr_div_pow2, <- Z.pow_sub_r by lia. f_equal. lia. }
    assert (Hmb : 0 <= mulx b) by (by apply lin_nonneg).
    destruct (Z.testbit a (Z.of_nat (S j))) eqn:Et.
    + destruct (Z.eqb_spec (Z.land a (Z.ones (Z.of_nat (S j)))) 0) as [E|E].
      * rewrite gf_acc_zero, Z.lxor_0_r; [done..|]. by apply land_ones_zero; [lia|].
      * rewrite IH by (try done; by apply lxor_nonneg). by rewrite Z.lxor_assoc.
    + rewrite Z.lxor_0_l. apply IH; [done..|].
      rewrite land_ones_zero in Hnz |- * by lia. intros H. apply Hnz. intros i Hi.
      destruct (Z.eqb_spec i (Z.of_nat (S j))) as [->|Hne]; [done|]. apply H. lia.
Qed.

Lemma multmodp_spec a b : is_u32 a -> a <> 0 -> 0 <= b -> multmodp a b = Some (gf_mul a b).
Proof.
  intros Ha Hnz Hb. unfold multmodp. change (Z.shiftl 1 31) with (2 ^ Z.of_nat 31).
  rewrite multmodp_loop_spec; [done|done|done|].
  change (Z.of_nat 32) with 32. rewrite Z.land_ones, Z.mod_small by (unfold is_u32 in *; lia). done.
Qed.

(** With a zero operand the loop never leaves. *)
Lemma multmodp_loop_zero fuel m p b : multmodp_loop fuel 0 m p b = None.
Proof. revert m p b; induction fuel; intros; [done|]. cbn [multmodp_loop]. rewrite Z.land_0_l. cbn. auto. Qed.

(** ** The table of x^(2^n) and [x2nmodp] *)

Definition x2n_ok (t : list Z) : Prop :=
  forall j, 0 <= j < 32 -> aget t j = Some (xpow (2 ^ j) gf_one).

Lemma make_x2n_spec n j :
  0 <= j ->
  make_x2n n (xpow (2 ^ j) gf_one) =
    Some (map (fun i => xpow (2 ^ (j + 1 + Z.of_nat i)) gf_one) (seq 0 n)).
Proof.
  revert j; induction n as [|n IH]; intros j Hj; [done|]. cbn [make_x2n].
  pose proof (xpow_u32 (2 ^ j) gf_one one_u32) as Hu.
  rewrite multmodp_spec; [|done|by apply xpow_nonzero|unfold is_u32 in *; lia].
  rewrite gf_mul_xpow_l, <- xpow_add by (done || (apply Z.pow_nonneg; lia)).
  replace (2 ^ j + 2 ^ j) with (2 ^ (j + 1)) by (rewrite Z.pow_add_r by lia; lia).
  cbn [mbind option_bind]. rewrite IH by lia. cbn [mbind option_bind seq map].
  do 2 f_equal; [do 2 f_equal; lia|].
  rewrite <- seq_shift, map_map. apply map_ext. intros i. do 2 f_equal. lia.
Qed.

Definition x2n_list : list Z := map (fun i => xpow (2 ^ Z.of_nat i) gf_one) (seq 0 32).

Lemma x2n_list_ok : x2n_ok x2n_list.
Proof.
  intros j Hj. apply aget_Some. split; [lia|]. unfold x2n_list.
  rewrite <- (Z2Nat.id j) at 2 by lia. rewrite list_lookup_fmap.
  rewrite lookup_seq_lt by lia. done.
Qed.

Lemma xpow_iter n p : xpow n p = iter (Z.to_nat n) mulx p.
Proof. done. Qed.

Lemma xpow_x : xpow (2 ^ 0) gf_one = Z.shiftl 1 30.
Proof. reflexivity. Qed.
#[global] Opaque xpow.

(** The table as [make_crc_table] builds it. *)
Lemma make_x2n_table :
  make_x2n 31 (Z.shiftl 1 30) = Some (tail x2n_list) /\ x2n_list = Z.shiftl 1 30 :: tail x2n_list.
Proof.
  rewrite <- xpow_x. split.
  - rewrite make_x2n_spec by done. unfold x2n_list. cbn [seq map tail]. repeat f_equal.
  - unfold x2n_list. cbn [seq map tail]. done.
Qed.

(** x^(2^32) = x: one more squaring after the last entry of the table. *)
Lemma xpow_2_32 : xpow (2 ^ 32) gf_one = mulx gf_one.
Proof.
  assert (Hc : (l ← make_x2n 32 (Z.shiftl 1 30); l !! 31%nat) = Some (mulx gf_one))
    by (vm_compute; reflexivity).
  rewrite <- xpow_x, make_x2n_spec in Hc by done. cbn [mbind option_bind] in Hc.
  rewrite list_lookup_fmap, lookup_seq_lt in Hc by lia. cbn [fmap option_fmap option_map] in Hc.
  change (0 + 1 + Z.of_nat (0 + 31)) with 32 in Hc. congruence.
Qed.

(** The period of the powers. *)
Definition crc_period : Z := 2 ^ 32 - 1.

Lemma xpow_period p : is_u32 p -> xpow crc_period p = p.
Proof.
  assert (H1 : xpow crc_period gf_one = gf_one).
  { apply mulx_inj; [by apply xpow_u32|done|]. rewrite <- xpow_succ by done. apply xpow_2_32. }
  intros Hp. rewrite <- gf_mul_xpow_l, H1 by done. by apply gf_mul_one_l.
Qed.

Lemma xpow_period_mul q p : is_u32 p -> 0 <= q -> xpow (crc_period * q) p = p.
Proof.
  intros Hp Hq. revert q Hq. apply natlike_ind.
  - rewrite Z.mul_0_r. done.
  - intros q Hq IH. rewrite Z.mul_succ_r, xpow_add, IH by (unfold crc_period; lia).
    by apply xpow_period.
Qed.

Lemma xpow_mod n m p :
  is_u32 p -> 0 <= n -> 0 <= m -> n mod crc_period = m mod crc_period -> xpow n p = xpow m p.
Proof.
  intros Hp Hn Hm E.
  assert (G : forall k, 0 <= k -> xpow k p = xpow (k mod crc_period) p).
  { intros k Hk. rewrite (Z.div_mod k crc_period) at 1 by done.
    assert (0 <= k / crc_period) by (apply Z.div_pos; [done|reflexivity]).
    pose proof (Z.mod_pos_bound k crc_period eq_refl).
    rewrite xpow_add by (unfold crc_period in *; lia). by rewrite xpow_period_mul. }
  rewrite (G n), (G m), E by done. done.
Qed.

(** The index [k & 31]: x^(2^k) only depends on [k] modulo 32. *)
Lemma xpow_2_mod k p : is_u32 p -> 0 <= k -> xpow (2 ^ (k mod 32)) p = xpow (2 ^ k) p.
Proof.
  intros Hp Hk. apply xpow_mod; [done|apply Z.pow_nonneg; lia..|].
  pose proof (Z.mod_pos_bound k 32 eq_refl).
  assert (0 <= k / 32) by (apply Z.div_pos; lia).
  rewrite (Z.div_mod k 32) at 2 by lia. rewrite Z.pow_add_r, Z.pow_mul_r by lia.
  rewrite Z.mul_mod by done. rewrite (Zpower_mod (2 ^ 32)) by done.
  change ((2 ^ 32) mod crc_period) with 1. rewrite Z.pow_1_l by done.
  change (1 mod crc_period) with 1. rewrite Z.mul_1_l, Z.mod_mod by done. done.
Qed.

Lemma x2nmodp_loop_spec f t n k p :
  x2n_ok t -> is_u32 p -> 0 <= k -> k + Z.of_nat f < 2 ^ 32 -> 0 <= n < 2 ^ Z.of_nat f ->
  x2nmodp_loop (S f) t n k p = Some (xpow (n * 2 ^ k) p).
Proof.
  intros Ht. revert n k p; induction f as [|f IH]; intros n k p Hp Hk Hkf Hn.
  { replace n with 0 by (change (2 ^ Z.of_nat 0) with 1 in Hn; lia). done. }
  change (x2nmodp_loop (S (S f)) t n k p) with
    (if ztrue n then
       p' ← (if ztrue (Z.land n 1) then
               t' ← aget t (Z.land k 31); multmodp t' p
             else Some p);
       x2nmodp_loop (S f) t (Z.shiftr n 1) (wrap 32 (k + 1)) p'
     else Some p).
  unfold ztrue at 1. destruct (Z.eqb_spec n 0) as [->|Hn0]; [done|]. cbn [negb].
  rewrite ztrue_land1. change 31 with (Z.ones 5). rewrite Z.land_ones by lia.
  change (2 ^ 5) with 32. pose proof (Z.mod_pos_bound k 32 eq_refl) as Hm.
  rewrite Ht by done. cbn [mbind option_bind].
  assert (Hs : (if Z.odd n then multmodp (xpow (2 ^ (k mod 32)) gf_one) p else Some p)
               = Some (xpow (Z.b2z (Z.odd n) * 2 ^ k) p)).
  { destruct (Z.odd n); [|by rewrite Z.mul_0_l].
    rewrite multmodp_spec, gf_mul_xpow_l; [| done | by apply xpow_u32|
      by apply xpow_nonzero|unfold is_u32 in *; lia].
    f_equal. change (Z.b2z true) with 1. rewrite Z.mul_1_l. by apply xpow_2_mod. }
  rewrite Hs. cbn [mbind option_bind]. unfold wrap. rewrite Z.mod_small by lia.
  assert (E2 : n = 2 * Z.shiftr n 1 + Z.b2z (Z.odd n)).
  { rewrite Z.shiftr_div_pow2 by lia. change (2 ^ 1) with 2.
    rewrite (Z.div_mod n 2) at 1 by lia. rewrite Zmod_odd. by destruct (Z.odd n). }
  assert (0 <= Z.b2z (Z.odd n) <= 1) by (by destruct (Z.odd n)).
  assert (0 <= 2 ^ k) by (apply Z.pow_nonneg; lia).
  rewrite Nat2Z.inj_succ, Z.pow_succ_r in Hn by lia.
  rewrite IH; [|by apply xpow_u32|lia|lia|lia].
  rewrite <- xpow_add by nia. do 2 f_equal. rewrite E2 at 3. rewrite Z.pow_add_r by lia. ring.
Qed.

(** [x2nmodp(n, k)] is x^(n * 2^k). *)
Lemma x2nmodp_spec t n k :
  x2n_ok t -> 0 <= n < 2 ^ 63 -> 0 <= k < 2 ^ 31 ->
  x2nmodp t n k = Some (xpow (n * 2 ^ k) gf_one).
Proof.
  intros Ht Hn Hk. unfold x2nmodp. change (Z.shiftl 1 31) with gf_one.
  apply (x2nmodp_loop_spec 63); [done|apply one_u32|lia|lia|done].
Qed.

(** With a negative length the arithmetic shift keeps [n] away from zero. *)
Lemma x2nmodp_loop_neg fuel t n k p : n < 0 -> x2nmodp_loop fuel t n k p = None.
Proof.
  revert n k p; induction fuel as [|fuel IH]; intros n k p Hn; [done|]. cbn [x2nmodp_loop].
  unfold ztrue at 1. destruct (Z.eqb_spec n 0); [lia|]. cbn [negb].
  destruct (if ztrue (Z.land n 1) then _ else _) as [p'|]; [|done]. cbn [mbind option_bind].
  apply IH. apply Z.shiftr_neg. done.
Qed.

(** ** Byte swapping *)

(** Two masked values with disjoint masks. *)
Lemma lor_masked a b c d :
  Z.land c d = 0 -> Z.lor (Z.land a c) (Z.land b d) = Z.lxor (Z.land a c) (Z.land b d).
Proof.
  intros H. rewrite <- Z.add_nocarry_lor, Z.add_nocarry_lxor; [done|..];
    apply Z.bits_inj'; intros i Hi; rewrite !Z.land_spec, Z.bits_0;
    assert (Hb : Z.testbit (Z.land c d) i = false) by (rewrite H; apply Z.bits_0);
    rewrite Z.land_spec in Hb; destruct (Z.testbit c i), (Z.testbit d i); try done; btauto.
Qed.

(** The same swap with exclusive or, linear in the word. *)
Definition byte_swap_lin (W : nat) (word : Z) : Z :=
  if (W =? 8)%nat then
    Z.lxor (Z.land (Z.shiftr word 56) 0xff)
   (Z.lxor (Z.land (Z.shiftr word 40) 0xff00)
   (Z.lxor (Z.land (Z.shiftr word 24) 0xff0000)
   (Z.lxor (Z.land (Z.shiftr word 8) 0xff000000)
   (Z.lxor (Z.land (Z.shiftl word 8) 0xff00000000)
   (Z.lxor (Z.land (Z.shiftl word 24) 0xff0000000000)
   (Z.lxor (Z.land (Z.shiftl word 40) 0xff000000000000)
           (Z.land (Z.shiftl word 56) 0xff00000000000000)))))))
  else
    Z.lxor (Z.land (Z.shiftr word 24) 0xff)
   (Z.lxor (Z.land (Z.shiftr word 8) 0xff00)
   (Z.lxor (Z.land (Z.shiftl word 8) 0xff0000)
           (Z.land (Z.shiftl word 24) 0xff000000))).

(** [r'] is [r] with exclusive or, and lies in the mask [m]. *)
Definition masked (m r r' : Z) : Prop := r = r' /\ exists z, r' = Z.land z m.

Lemma masked_base c d a : d = c -> masked c (Z.land a d) (Z.land a c).
Proof. intros ->. split; eauto. Qed.

Lemma masked_step m r r' c d e a :
  masked m r r' -> d = c -> Z.land c m = 0 -> Z.lor c m = e ->
  masked e (Z.lor (Z.land a d) r) (Z.lxor (Z.land a c) r').
Proof.
  intros [-> [y ->]] -> H <-. split; [by apply lor_masked|].
  exists (Z.lxor (Z.land a c) (Z.land y m)). apply Z.bits_inj'. intros i Hi.
  rewrite !Z.land_spec, !Z.lxor_spec, !Z.land_spec, Z.lor_spec.
  destruct (Z.testbit a i), (Z.testbit c i), (Z.testbit y i), (Z.testbit m i); done.
Qed.

Ltac solve_masked :=
  first [apply masked_base; reflexivity | eapply masked_step; [solve_masked|reflexivity..]].

Lemma byte_swap_is_lin W word : byte_swap W word = byte_swap_lin W word.
Proof.
  unfold byte_swap, byte_swap_lin. rewrite !wrap_land by done.
  rewrite !Z.shiftr_land, !Z.shiftl_land, <- !Z.land_assoc.
  destruct (W =? 8)%nat;
    (match goal with |- ?a = ?b => assert (H : exists m, masked m a b) end;
     [eexists; solve_masked
     |destruct H as [m [H _]]; exact H]).
Qed.

#[export] Instance linear_byte_swap W : Linear (byte_swap W).
Proof.
  apply (linear_proper _ (byte_swap_lin W)); [apply byte_swap_is_lin|].
  unfold byte_swap_lin. destruct (W =? 8)%nat; apply _.
Qed.

Section Swap.
Context (W : nat) (HW : W = 4%nat \/ W = 8%nat).

Lemma swap_check f g :
  Linear f -> Linear g ->
  forallb (fun i => f (2 ^ Z.of_nat i) =? g (2 ^ Z.of_nat i)) (seq 0 (8 * W)) = true ->
  forall v, 0 <= v < 2 ^ (8 * Z.of_nat W) -> f v = g v.
Proof.
  intros Hf Hg Hc v Hv. apply (linear_check (8 * W)); [done..|].
  by replace (Z.of_nat (8 * W)) with (8 * Z.of_nat W) by lia.
Qed.

Lemma swap_involutive v : 0 <= v < 2 ^ (8 * Z.of_nat W) -> byte_swap W (byte_swap W v) = v.
Proof.
  apply (swap_check (fun v => byte_swap W (byte_swap W v)) (fun v => v));
    [apply linear_comp; apply _|apply _|]. destruct HW as [-> | ->]; vm_compute; reflexivity.
Qed.

Lemma swap_shiftr v :
  0 <= v < 2 ^ (8 * Z.of_nat W) ->
  wrap (8 * Z.of_nat W) (Z.shiftl (byte_swap W v) 8) = byte_swap W (Z.shiftr v 8).
Proof.
  apply (swap_check (fun v => wrap (8 * Z.of_nat W) (Z.shiftl (byte_swap W v) 8))
           (fun v => byte_swap W (Z.shiftr v 8))); [apply _|apply linear_comp; apply _|].
  destruct HW as [-> | ->]; vm_compute; reflexivity.
Qed.

Lemma swap_top v :
  0 <= v < 2 ^ (8 * Z.of_nat W) ->
  Z.land (Z.shiftr (byte_swap W v) (8 * (Z.of_nat W - 1))) 0xff = Z.land v 0xff.
Proof.
  apply (swap_check (fun v => Z.land (Z.shiftr (byte_swap W v) (8 * (Z.of_nat W - 1))) 0xff)
           (fun v => Z.land v 0xff)); [apply _..|].
  destruct HW as [-> | ->]; vm_compute; reflexivity.
Qed.

Lemma swap_range v :
  0 <= v < 2 ^ (8 * Z.of_nat W) -> 0 <= byte_swap W v < 2 ^ (8 * Z.of_nat W).
Proof.
  intros Hv. replace (byte_swap W v) with (wrap (8 * Z.of_nat W) (byte_swap W v)).
  - apply Z.mod_pos_bound, Z.pow_pos_nonneg; lia.
  - revert v Hv. apply swap_check; [apply _..|].
    destruct HW as [-> | ->]; vm_compute; reflexivity.
Qed.

(** A byte moves to the mirrored position. *)
Lemma swap_byte k i :
  (k < W)%nat -> 0 <= i < 256 ->
  byte_swap W (Z.shiftl i (8 * Z.of_nat k)) = Z.shiftl i (8 * Z.of_nat (W - 1 - k)).
Proof.
  intros Hk. apply (linear_check 8 (fun i => byte_swap W (Z.shiftl i (8 * Z.of_nat k)))
                      (fun i => Z.shiftl i (8 * Z.of_nat (W - 1 - k))));
    [apply (linear_comp (byte_swap W)); apply _|apply _|].
  destruct HW as [-> | ->];
    do 8 (destruct k as [|k]; [first [lia | vm_compute; reflexivity]|]); lia.
Qed.
End Swap.

(** ** The tables *)

Record tables_ok (W N : nat) (T : crc_tables) : Prop := {
  ok_table i : is_byte i -> aget (crc_table T) i = Some (xpow 8 i);
  ok_big i : is_byte i -> aget (crc_big_table T) i = Some (byte_swap W (xpow 8 i));
  ok_x2n : x2n_ok (x2n_table T);
  ok_braid k i : (k < W)%nat -> is_byte i ->
    tab2 (crc_braid_table T) k i =
      Some (xpow (8 * Z.of_nat (N * W)) (Z.shiftl i (8 * Z.of_nat k)));
  ok_braid_big k i : (k < W)%nat -> is_byte i ->
    tab2 (crc_braid_big_table T) k i =
      Some (byte_swap W (xpow (8 * Z.of_nat (N * W)) (Z.shiftl i (8 * Z.of_nat (W - 1 - k))))) }.

Lemma aget_map_seqZ {A} (f : Z -> A) m i :
  0 <= m -> 0 <= i < m -> aget (map f (seqZ 0 m)) i = Some (f i).
Proof.
  intros Hm Hi. apply aget_Some. split; [lia|]. rewrite list_lookup_fmap.
  rewrite lookup_seqZ_lt by lia. cbn. f_equal. f_equal. lia.
Qed.

Lemma mapM_Some_map {A B} (f : A -> option B) (g : A -> B) l :
  Forall (fun x => f x = Some (g x)) l -> mapM f l = Some (map g l).
Proof. induction 1 as [|x l Hx _ IH]; [done|]. cbn [mapM map]. rewrite Hx. cbn. by rewrite IH. Qed.

Lemma shiftl24_u32 i : is_byte i -> is_u32 (Z.shiftl i 24).
Proof. unfold is_byte, is_u32. intros. rewrite Z.shiftl_mul_pow2 by lia. lia. Qed.

(** Entry [i] of row [k]: the byte [i] at position [k] of a word, multiplied by
    x^(8*N*W). *)
Lemma braid_entry n w k i :
  (k < w)%nat -> (1 <= n)%nat -> is_byte i ->
  xpow (Z.shiftl (Z.of_nat n * Z.of_nat w + 3 - Z.of_nat k) 3) (Z.shiftl i 24) =
    xpow (8 * Z.of_nat (n * w)) (Z.shiftl i (8 * Z.of_nat k)).
Proof.
  intros Hk Hn Hi. rewrite Z.shiftl_mul_pow2 by lia. change (2 ^ 3) with 8.
  assert (Z.of_nat k < Z.of_nat n * Z.of_nat w) by nia. rewrite Nat2Z.inj_mul.
  replace ((Z.of_nat n * Z.of_nat w + 3 - Z.of_nat k) * 8)
    with (24 + 8 * (Z.of_nat n * Z.of_nat w - Z.of_nat k)) by lia.
  replace (8 * (Z.of_nat n * Z.of_nat w))
    with (8 * Z.of_nat k + 8 * (Z.of_nat n * Z.of_nat w - Z.of_nat k)) by lia.
  rewrite !xpow_add, !xpow_shiftl by lia. done.
Qed.

Lemma braid_row_spec t n w k :
  x2n_ok t -> (k < w)%nat -> (1 <= n)%nat -> Z.of_nat n * Z.of_nat w < 2 ^ 16 ->
  braid_row t n w k =
    Some (map (fun i => xpow (8 * Z.of_nat (n * w)) (Z.shiftl i (8 * Z.of_nat k))) (seqZ 0 256)).
Proof.
  intros Ht Hk Hn Hnw. unfold braid_row.
  assert (Z.of_nat k < Z.of_nat n * Z.of_nat w) by nia.
  rewrite x2nmodp_spec; [|done|rewrite Z.shiftl_mul_pow2 by lia; lia|done].
  cbn [mbind option_bind]. rewrite Z.mul_1_r.
  rewrite (mapM_Some_map _ (fun i => xpow (8 * Z.of_nat (n * w)) (Z.shiftl i (8 * Z.of_nat k)))).
  - cbn [mbind option_bind]. rewrite (seqZ_cons 0 256) by done. cbn [map].
    rewrite Z.shiftl_0_l, lin_0 by apply _. done.
  - apply Forall_forall. intros i Hi. apply elem_of_seqZ in Hi.
    assert (Hb : is_byte i) by (unfold is_byte; lia).
    pose proof (shiftl24_u32 i Hb) as Hu. unfold wrap. rewrite Z.mod_small by done.
    rewrite multmodp_spec; [|done| |apply xpow_nonneg; done].
    + rewrite gf_mul_xpow_r by done. f_equal. by apply braid_entry.
    + rewrite Z.shiftl_mul_pow2 by lia. lia.
Qed.

(** The table generator succeeds and gives the intended tables. *)
Lemma make_crc_table_ok W N :
  W = 4%nat \/ W = 8%nat -> (1 <= N <= 6)%nat ->
  exists T, make_crc_table W N = Some T /\ tables_ok W N T.
Proof.
  intros HW HN. unfold make_crc_table. destruct make_x2n_table as [-> Ex]. cbn [mbind option_bind].
  rewrite <- Ex. unfold braid.
  rewrite (mapM_Some_map _ (fun k => map (fun i =>
      xpow (8 * Z.of_nat (N * W)) (Z.shiftl i (8 * Z.of_nat k))) (seqZ 0 256))); cycle 1.
  { apply Forall_forall. intros k Hk. apply elem_of_seq in Hk.
    apply braid_row_spec; [apply x2n_list_ok|lia|lia|]. destruct HW as [-> | ->]; lia. }
  cbn [mbind option_bind]. eexists. split; [done|].
  split; cbn [crc_table crc_big_table x2n_table crc_braid_table crc_braid_big_table].
  - intros i Hi. rewrite aget_map_seqZ by done. by rewrite xpow_iter.
  - intros i Hi. rewrite map_map, aget_map_seqZ by done. by rewrite xpow_iter.
  - apply x2n_list_ok.
  - intros k i Hk Hi. unfold tab2. rewrite list_lookup_fmap, lookup_seq_lt by lia.
    cbn [fmap option_fmap option_map mbind option_bind].
    rewrite aget_map_seqZ by done. done.
  - intros k i Hk Hi. unfold tab2. rewrite reverse_lookup; rewrite !length_map, length_seq; [|done].
    rewrite !list_lookup_fmap, lookup_seq_lt by lia.
    cbn [fmap option_fmap option_map mbind option_bind]. rewrite map_map, aget_map_seqZ by done.
    do 5 f_equal. lia.
Qed.

(** ** Bytes and words *)

(** The effect of one byte on the register. *)
Definition byte_step (c b : Z) : Z := xpow 8 (Z.lxor c b).

Lemma byte_nonneg b : is_byte b -> 0 <= b.
Proof. unfold is_byte. lia. Qed.

Lemma foldl_byte_step_nonneg c bs :
  0 <= c -> Forall is_byte bs -> 0 <= foldl byte_step c bs.
Proof.
  intros Hc Hb. revert c Hc. induction Hb as [|b bs Hb _ IH]; intros c Hc; [done|].
  apply IH. apply xpow_nonneg, lxor_nonneg; [done|by apply byte_nonneg].
Qed.

Lemma byte_u32 b : is_byte b -> is_u32 b.
Proof. unfold is_byte, is_u32. lia. Qed.

Lemma byte_step_u32 c b : is_u32 c -> is_byte b -> is_u32 (byte_step c b).
Proof. intros Hc Hb%byte_u32. apply xpow_u32. unfold is_u32 in *. apply lxor_range; lia. Qed.

Lemma foldl_byte_step_u32 c bs : is_u32 c -> Forall is_byte bs -> is_u32 (foldl byte_step c bs).
Proof.
  intros Hc Hb. revert c Hc. induction Hb as [|b bs Hb _ IH]; intros c Hc; [done|].
  apply IH. by apply byte_step_u32.
Qed.

(** Feeding bits one at a time. *)
Lemma foldl_crc_bit n c b :
  0 <= c -> 0 <= b < 2 ^ Z.of_nat n ->
  foldl crc_bit c (z_bits n b) = iter n mulx (Z.lxor c b).
Proof.
  revert c b; induction n as [|n IH]; intros c b Hc Hb.
  { replace b with 0 by (change (2 ^ Z.of_nat 0) with 1 in Hb; lia). cbn. by rewrite Z.lxor_0_r. }
  cbn [z_bits foldl iter]. rewrite Nat2Z.inj_succ, Z.pow_succ_r in Hb by lia.
  assert (H0 : 0 <= Z.b2z (Z.odd b) <= 1) by (by destruct (Z.odd b)).
  assert (Hd : 0 <= Z.div2 b < 2 ^ Z.of_nat n) by (rewrite Z.div2_div; Z.div_mod_to_equations; lia).
  assert (Hcb : 0 <= crc_bit c (Z.odd b)) by (apply (lin_nonneg (f := mulx)), lxor_nonneg; lia).
  rewrite IH by done. f_equal. unfold crc_bit.
  rewrite (land_ones_split 1 b) at 3 by lia.
  replace (Z.land b (Z.ones 1)) with (Z.b2z (Z.odd b)); cycle 1.
  { rewrite Z.land_ones by lia. change (2 ^ 1) with 2. rewrite Zmod_odd. by destruct (Z.odd b). }
  rewrite <- Z.div2_spec. rewrite (Z.lxor_comm (Z.shiftl _ _)), <- Z.lxor_assoc.
  rewrite (lin_lxor (f := mulx) (Z.lxor c _)), mulx_shiftl; [done|apply lxor_nonneg; lia|].
  apply Z.shiftl_nonneg. lia.
Qed.

Lemma foldl_crc_bits c bs :
  0 <= c -> Forall is_byte bs -> foldl crc_bit c (bytes_bits bs) = foldl byte_step c bs.
Proof.
  intros Hc Hb. revert c Hc. induction Hb as [|b bs Hb Hbs IH]; intros c Hc; [done|].
  rewrite bytes_bits_cons, foldl_app, foldl_crc_bit by done. cbn [foldl]. unfold byte_step at 2.
  rewrite xpow_iter. change (Z.to_nat 8) with 8%nat. apply IH.
  apply (lin_nonneg (f := iter 8 mulx)), lxor_nonneg; [done|by apply byte_nonneg].
Qed.

Lemma le_word_cons b l : is_byte b -> 0 <= le_word l -> le_word (b :: l) = Z.lxor b (Z.shiftl (le_word l) 8).
Proof.
  intros Hb Hl. cbn [le_word]. rewrite Z.shiftl_mul_pow2 by lia. change (2 ^ 8) with 256.
  rewrite Z.mul_comm. apply Z.add_nocarry_lxor. change 256 with (2 ^ 8).
  rewrite <- Z.shiftl_mul_pow2 by lia. zbits. destruct (Z.ltb_spec i 8).
  - rewrite (Z.testbit_neg_r (le_word l)) by lia. apply andb_false_r.
  - rewrite (testbit_high 8 b) by (unfold is_byte in Hb; lia). done.
Qed.

Lemma le_word_range l : Forall is_byte l -> 0 <= le_word l < 2 ^ (8 * Z.of_nat (length l)).
Proof.
  induction 1 as [|b l Hb _ IH]; [done|]. cbn [le_word length].
  replace (8 * Z.of_nat (S (length l))) with (8 + 8 * Z.of_nat (length l)) by lia.
  rewrite Z.pow_add_r by lia. unfold is_byte in Hb. change (2 ^ 8) with 256. lia.
Qed.

(** A word at once, or its bytes one after the other. *)
Lemma word_step c bs :
  0 <= c -> Forall is_byte bs ->
  xpow (8 * Z.of_nat (length bs)) (Z.lxor c (le_word bs)) = foldl byte_step c bs.
Proof.
  intros Hc Hb. revert c Hc. induction Hb as [|b bs Hb Hbs IH]; intros c Hc.
  { cbn. rewrite Z.lxor_0_r. apply xpow_iter. }
  pose proof (le_word_range bs Hbs) as Hr. pose proof (byte_nonneg b Hb) as Hb0.
  rewrite le_word_cons by (done || lia). cbn [foldl length].
  replace (8 * Z.of_nat (S (length bs))) with (8 + 8 * Z.of_nat (length bs)) by lia.
  rewrite xpow_add, <- Z.lxor_assoc by lia.
  rewrite (lin_lxor (f := xpow 8)), xpow_shiftl; [|done|by apply lxor_nonneg|apply Z.shiftl_nonneg; lia].
  apply IH. apply xpow_nonneg. by apply lxor_nonneg.
Qed.

Section Steps.
Context (W N : nat) (T : crc_tables) (HW : W = 4%nat \/ W = 8%nat) (HN : (1 <= N <= 6)%nat).
Context (HT : tables_ok W N T).

Definition is_word (v : Z) : Prop := 0 <= v < 2 ^ (8 * Z.of_nat W).

Lemma land_255_byte x : is_byte (Z.land x 255).
Proof.
  change 255 with (Z.ones 8). rewrite Z.land_ones by lia.
  apply Z.mod_pos_bound. done.
Qed.

Lemma crc_byte_spec c b : 0 <= c -> is_byte b -> crc_byte T c b = Some (byte_step c b).
Proof.
  intros Hc Hb. pose proof (byte_nonneg b Hb) as Hb0. unfold crc_byte.
  rewrite (ok_table W N T HT) by apply land_255_byte. cbn [mbind option_bind]. f_equal.
  unfold byte_step. rewrite (xpow_split 8 (Z.lxor c b)) by (try lia; by apply lxor_nonneg).
  f_equal. rewrite Z.shiftr_lxor. unfold is_byte in Hb.
  rewrite (Z.shiftr_div_pow2 b), (Z.div_small b) by lia.
  by rewrite Z.lxor_0_r.
Qed.

Lemma is_word_nonneg v : is_word v -> 0 <= v.
Proof. unfold is_word. lia. Qed.

Lemma is_word_lxor a b : is_word a -> is_word b -> is_word (Z.lxor a b).
Proof. apply lxor_range. lia. Qed.

Lemma u32_is_word v : is_u32 v -> is_word v.
Proof.
  unfold is_u32, is_word. intros Hv.
  assert (2 ^ 32 <= 2 ^ (8 * Z.of_nat W)) by (apply Z.pow_le_mono_r; destruct HW; lia). lia.
Qed.

Lemma is_word_xpow n v : is_word v -> is_word (xpow n v).
Proof.
  intros Hv. rewrite xpow_iter. apply (iter_inv is_word); [done|]. unfold is_word. intros y Hy.
  apply mulx_range; [destruct HW; lia|]. rewrite Z.pow_add_r by lia. change (2 ^ 1) with 2. lia.
Qed.

Lemma is_word_swap v : is_word v -> is_word (byte_swap W v).
Proof. by apply swap_range. Qed.

Lemma crc_word_spec v : is_word v -> crc_word W T v = Some (xpow (8 * Z.of_nat W) v).
Proof.
  intros Hv. unfold crc_word.
  assert (G : forall n, Nat.iter n (fun d => data ← d;
      t ← aget (crc_table T) (Z.land data 0xff); Some (Z.lxor (Z.shiftr data 8) t)) (Some v)
      = Some (xpow (8 * Z.of_nat n) v)).
  { induction n as [|n IH]; [by rewrite xpow_iter|]. cbn [Nat.iter nat_rect].
    unfold Nat.iter in IH. rewrite IH.
    cbn [mbind option_bind]. rewrite (ok_table W N T HT) by apply land_255_byte.
    cbn [mbind option_bind]. f_equal. change 255 with (Z.ones 8).
    pose proof (is_word_nonneg _ (is_word_xpow (8 * Z.of_nat n) v Hv)).
    rewrite <- xpow_split by lia.
    rewrite <- xpow_add by lia. f_equal. lia. }
  rewrite G. cbn [mbind option_bind]. f_equal. apply Z.mod_small.
  apply xpow_range; [lia|]. unfold is_word in Hv.
  assert (2 ^ (8 * Z.of_nat W) <= 2 ^ (32 + 8 * Z.of_nat W)) by (apply Z.pow_le_mono_r; lia). lia.
Qed.

Lemma crc_word_big_spec v :
  is_word v -> crc_word_big W T (byte_swap W v) = Some (byte_swap W (xpow (8 * Z.of_nat W) v)).
Proof.
  intros Hv. unfold crc_word_big. cbv zeta.
  replace (Z.shiftl (Z.of_nat W - 1) 3) with (8 * (Z.of_nat W - 1))
    by (rewrite Z.shiftl_mul_pow2 by lia; lia).
  match goal with |- Nat.iter _ ?f ?x = _ =>
    assert (G : forall n, Nat.iter n f x = Some (byte_swap W (xpow (8 * Z.of_nat n) v)))
  end; [|apply G].
  induction n as [|n IH]; [by rewrite xpow_iter|].
  cbn [Nat.iter nat_rect]. unfold Nat.iter in IH. rewrite IH. cbn [mbind option_bind].
  pose proof (is_word_xpow (8 * Z.of_nat n) v Hv) as Hw.
  rewrite swap_top by done. rewrite (ok_big W N T HT) by apply land_255_byte.
  cbn [mbind option_bind]. f_equal. rewrite swap_shiftr by done.
  pose proof (is_word_nonneg _ Hw) as Hw0. change 255 with (Z.ones 8).
  rewrite <- lin_lxor.
  - rewrite <- xpow_split, <- xpow_add by lia. do 2 f_equal. lia.
  - by apply Z.shiftr_nonneg.
  - apply xpow_nonneg, Z.land_nonneg. by left.
Qed.

(** *** One braid over one block *)

Section BraidWord.
Context (tab : list (list Z)) (L : Z -> Z) {HL : Linear L}.
Context (Htab : forall k i, (k < W)%nat -> is_byte i ->
           tab2 tab k i = Some (L (Z.shiftl i (8 * Z.of_nat k)))).

(** The low [8*(k+1)] bits of a word. *)
Lemma low_bytes_succ v k :
  Z.land v (Z.ones (8 * Z.of_nat (S k))) =
    Z.lxor (Z.land v (Z.ones (8 * Z.of_nat k)))
           (Z.shiftl (Z.land (Z.shiftr v (8 * Z.of_nat k)) 255) (8 * Z.of_nat k)).
Proof.
  apply Z.bits_inj'. intros i Hi. change 255 with (Z.ones 8).
  rewrite Z.lxor_spec, Z.shiftl_spec, !Z.land_spec by lia.
  rewrite (testbit_ones (8 * Z.of_nat (S k))), (testbit_ones (8 * Z.of_nat k)) by lia.
  destruct (Z.ltb_spec i (8 * Z.of_nat k)) as [H|H].
  - rewrite !(Z.testbit_neg_r _ (i - _)) by lia.
    destruct (Z.ltb_spec i (8 * Z.of_nat (S k))); [|lia].
    by destruct (Z.testbit v i).
  - rewrite testbit_ones, Z.shiftr_spec, Z.sub_add, andb_false_r by lia.
    destruct (Z.ltb_spec i (8 * Z.of_nat (S k))), (Z.ltb_spec (i - 8 * Z.of_nat k) 8); try lia.
    all: by destruct (Z.testbit v i).
Qed.

Lemma braid_fold_spec v k m :
  0 <= v -> (k + m <= W)%nat ->
  foldl (fun c k => c ← c;
           t ← tab2 tab k (Z.land (Z.shiftr v (Z.shiftl (Z.of_nat k) 3)) 0xff);
           Some (Z.lxor c t)) (Some (L (Z.land v (Z.ones (8 * Z.of_nat k))))) (seq k m)
  = Some (L (Z.land v (Z.ones (8 * Z.of_nat (k + m))))).
Proof.
  intros Hv. revert k. induction m as [|m IH]; intros k Hk; cbn [seq foldl].
  { by rewrite Nat.add_0_r. }
  replace (Z.shiftl (Z.of_nat k) 3) with (8 * Z.of_nat k)
    by (rewrite Z.shiftl_mul_pow2 by lia; lia).
  cbn [mbind option_bind]. rewrite Htab by (lia || apply land_255_byte).
  cbn [mbind option_bind]. rewrite <- lin_lxor.
  - rewrite <- low_bytes_succ, IH by lia. do 5 f_equal. lia.
  - apply Z.land_nonneg. by left.
  - apply Z.shiftl_nonneg, byte_nonneg, land_255_byte.
Qed.

Lemma braid_word_spec v : is_word v -> braid_word W tab v = Some (L v).
Proof.
  intros Hv. unfold braid_word. pose proof (is_word_nonneg v Hv).
  rewrite Htab by (apply land_255_byte || (destruct HW; lia)).
  cbn [mbind option_bind]. rewrite Z.shiftl_0_r.
  change (Z.land v 255) with (Z.land v (Z.ones (8 * Z.of_nat 1))).
  rewrite braid_fold_spec by (destruct HW; lia).
  do 2 f_equal. replace (1 + (W - 1))%nat with W by (destruct HW; lia).
  rewrite Z.land_ones by lia. by apply Z.mod_small.
Qed.
End BraidWord.

(** *** The words of a buffer *)

Definition word_val (little : bool) (p : list Z) : Z :=
  if little then le_word (take W p) else le_word (reverse (take W p)).

Fixpoint words (little : bool) (n : nat) (p : list Z) : list Z :=
  match n with O => [] | S n => word_val little p :: words little n (drop W p) end.

Lemma length_words little n p : length (words little n p) = n.
Proof. revert p; induction n; intros; cbn [words length]; auto. Qed.

Lemma words_app little n m p :
  words little (n + m) p = words little n p ++ words little m (drop (n * W) p).
Proof.
  revert p; induction n as [|n IH]; intros p; [done|]. cbn [words app Nat.add].
  rewrite IH, drop_drop. done.
Qed.

Lemma load_words_spec little n p :
  (n * W <= length p)%nat -> load_words W little n p = Some (words little n p).
Proof.
  revert p; induction n as [|n IH]; intros p Hl; [done|]. cbn [load_words words].
  unfold load_word. destruct (Nat.leb_spec W (length p)); [|lia]. cbn [mbind option_bind].
  rewrite IH by (rewrite length_drop; lia). done.
Qed.

Lemma words_are_words little n p :
  (n * W <= length p)%nat -> Forall is_byte p -> Forall is_word (words little n p).
Proof.
  revert p; induction n as [|n IH]; intros p Hl Hb; cbn [words]; constructor.
  - assert (Ht : Forall is_byte (take W p)) by (by apply Forall_take).
    assert (El : length (take W p) = W) by (rewrite length_take; lia).
    unfold word_val, is_word. destruct little.
    + apply le_word_range in Ht. rewrite El in Ht. done.
    + apply Forall_reverse in Ht. apply le_word_range in Ht. rewrite length_reverse, El in Ht. done.
  - apply IH; [rewrite length_drop; lia|by apply Forall_drop].
Qed.

(** *** Braids, abstractly

    [X] advances the register over a word; a braid advances over a block of
    [N] words at once. *)
Section Braids.
Context (little : bool) (tab : list (list Z)) (X : Z -> Z) (step : Z -> option Z) {HX : Linear X}.
Context (Xword : forall v, is_word v -> is_word (X v)).
Context (Hstep : forall v, is_word v -> step v = Some (X v)).
Context (Htab : forall v, is_word v -> braid_word W tab v = Some (iter N X v)).

Definition Xs (c w : Z) : Z := X (Z.lxor c w).
Definition wsum (l : list Z) : Z := foldl Xs 0 l.

Lemma Xs_word c w : is_word c -> is_word w -> is_word (Xs c w).
Proof. intros. by apply Xword, is_word_lxor. Qed.

Lemma foldl_Xs_word c l : is_word c -> Forall is_word l -> is_word (foldl Xs c l).
Proof.
  intros Hc Hl; revert c Hc; induction Hl as [|w l Hw Hl IH]; intros c Hc; [done|].
  by apply IH, Xs_word.
Qed.

(** The combined register is linear in its parts. *)
Lemma foldl_Xs_lxor c d l k :
  is_word c -> is_word d -> Forall is_word l -> Forall is_word k -> length l = length k ->
  foldl Xs (Z.lxor c d) (zip_with Z.lxor l k) = Z.lxor (foldl Xs c l) (foldl Xs d k).
Proof.
  intros Hc Hd Hl. revert c d k Hc Hd. induction Hl as [|w l Hw Hl IH]; intros c d k Hc Hd Hk E;
    destruct k as [|v k]; try done. cbn [foldl zip_with]. inversion_clear Hk as [|? ? Hv Hk'].
  rewrite <- IH; [|by apply Xs_word|by apply Xs_word|done|by injection E].
  f_equal. unfold Xs. rewrite <- lin_lxor by (apply lxor_nonneg; by apply is_word_nonneg).
  f_equal. apply Z.bits_inj'. intros i Hi. rewrite !Z.lxor_spec. btauto.
Qed.

Lemma zero_word : is_word 0.
Proof. unfold is_word. split; [done|]. apply Z.pow_pos_nonneg; lia. Qed.

Lemma foldl_Xs_zeros c n : foldl Xs c (replicate n 0) = iter n X c.
Proof.
  revert c; induction n as [|n IH]; intros c; [done|]. cbn [replicate foldl iter].
  rewrite IH. unfold Xs. by rewrite Z.lxor_0_r.
Qed.

Lemma foldl_Xs_split c l :
  is_word c -> Forall is_word l -> foldl Xs c l = Z.lxor (iter (length l) X c) (wsum l).
Proof.
  intros Hc Hl. rewrite <- foldl_Xs_zeros. unfold wsum.
  assert (Hz : forall n, Forall is_word (replicate n 0))
    by (intros; apply Forall_replicate, zero_word).
  rewrite <- foldl_Xs_lxor; [|done|apply zero_word|apply Hz|done|by rewrite length_replicate].
  rewrite Z.lxor_0_r. f_equal. clear. induction l as [|w l IH]; [done|].
  cbn [length replicate zip_with]. by rewrite Z.lxor_0_l, <- IH.
Qed.

Lemma iter_X_word n v : is_word v -> is_word (iter n X v).
Proof. intros. by apply (iter_inv is_word). Qed.

Lemma wsum_iter l :
  Forall is_word l -> wsum (map (iter N X) l) = iter N X (wsum l).
Proof.
  intros Hl. unfold wsum. rewrite <- (lin_0 (iter N X)) at 1.
  generalize zero_word. generalize 0. intros c Hc. revert c Hc.
  induction Hl as [|w l Hw Hl IH]; intros c Hc; [done|]. cbn [foldl map].
  rewrite <- IH by (by apply Xs_word). f_equal. unfold Xs.
  rewrite <- lin_lxor by (by apply is_word_nonneg).
  rewrite <- iter_S. done.
Qed.

Lemma wsum_init c :
  is_word c -> wsum (c :: replicate (N - 1) 0) = iter N X c.
Proof.
  intros Hc. unfold wsum. cbn [foldl]. rewrite foldl_Xs_zeros. unfold Xs. rewrite Z.lxor_0_l.
  replace N with (S (N - 1)) at 2 by lia. done.
Qed.

Lemma zip_words l k :
  Forall is_word l -> Forall is_word k -> Forall is_word (zip_with Z.lxor l k).
Proof.
  intros Hl; revert k; induction Hl as [|w l Hw Hl IH]; intros k Hk; [constructor|].
  destruct Hk as [|v k Hv Hk]; constructor; [by apply is_word_lxor|by apply IH].
Qed.

Lemma length_zip_lxor (l k : list Z) :
  length l = length k -> length (zip_with Z.lxor l k) = length l.
Proof. intros E. rewrite length_zip_with. lia. Qed.

Lemma braid_loop_SS blks p crcs :
  braid_loop W N little tab (S (S blks)) p crcs =
    ws ← load_words W little N p;
    crcs ← mapM (braid_word W tab) (zip_with Z.lxor crcs ws);
    braid_loop W N little tab (S blks) (drop (N * W) p) crcs.
Proof. done. Qed.

(** The loop keeps the combination of the braids one block ahead of the
    sequential register [S0]. *)
Lemma braid_loop_spec blks p crcs S0 :
  (1 <= blks)%nat -> (blks * (N * W) <= length p)%nat -> Forall is_byte p ->
  length crcs = N -> Forall is_word crcs -> is_word S0 -> wsum crcs = iter N X S0 ->
  exists crcs', braid_loop W N little tab blks p crcs =
      Some (drop ((blks - 1) * (N * W)) p, crcs') /\
    length crcs' = N /\ Forall is_word crcs' /\
    wsum crcs' = iter N X (foldl Xs S0 (words little ((blks - 1) * N) p)).
Proof.
  intros Hb. revert p crcs S0. induction blks as [|blks IH]; [lia|].
  intros p crcs S0 Hl Hp Hn Hc HS E. destruct blks as [|blks].
  { exists crcs. done. }
  rewrite braid_loop_SS.
  assert (Hl1 : (N * W <= length p /\ S blks * (N * W) <= length p - N * W)%nat)
    by (cbn [Nat.mul] in Hl |- *; lia).
  rewrite load_words_spec by lia. cbn [mbind option_bind].
  set (ws := words little N p). assert (Hws : Forall is_word ws) by (apply words_are_words; [lia|done]).
  assert (Hlw : length ws = N) by apply length_words.
  rewrite (mapM_Some_map _ (iter N X)); cycle 1.
  { eapply Forall_impl; [by apply zip_words|]. intros v. apply Htab. }
  cbn [mbind option_bind].
  destruct (IH ltac:(lia) (drop (N * W) p) (map (iter N X) (zip_with Z.lxor crcs ws))
              (foldl Xs S0 ws)) as (crcs' & Eb & H1 & H2 & H3).
  - rewrite length_drop. lia.
  - by apply Forall_drop.
  - rewrite length_map, length_zip_lxor; lia.
  - apply Forall_map. eapply Forall_impl; [by apply zip_words|]. intros v. apply iter_X_word.
  - by apply foldl_Xs_word.
  - rewrite wsum_iter by (by apply zip_words). f_equal.
    unfold wsum at 1. rewrite <- (Z.lxor_0_r 0) at 1.
    rewrite foldl_Xs_lxor by (done || apply zero_word || lia).
    fold (wsum crcs). fold (wsum ws). rewrite E. rewrite foldl_Xs_split, Hlw by done. done.
  - exists crcs'. split; [|split; [done|split; [done|]]].
    + rewrite Eb, drop_drop. do 3 f_equal. cbn [Nat.sub Nat.mul]. rewrite Nat.sub_0_r. lia.
    + rewrite H3. f_equal. replace ((S (S blks) - 1) * N)%nat with (N + (S blks - 1) * N)%nat by (cbn [Nat.sub Nat.mul]; rewrite Nat.sub_0_r; lia).
      rewrite words_app, foldl_app. done.
Qed.

Lemma braid_last_spec crcs ws c :
  is_word c -> Forall is_word crcs -> Forall is_word ws ->
  braid_last step crcs ws c = Some (foldl Xs c (zip_with Z.lxor crcs ws)).
Proof.
  intros Hc Hl; revert c ws Hc; induction Hl as [|x l Hx Hl IH]; intros c ws Hc Hw; [done|].
  destruct Hw as [|w ws Hw Hws]; [done|]. cbn [braid_last zip_with foldl].
  rewrite Hstep by (apply is_word_lxor; [by apply is_word_lxor|done]). cbn [mbind option_bind].
  rewrite Z.lxor_comm. apply IH; [|done]. apply Xs_word; [done|by apply is_word_lxor].
Qed.

Lemma braids_spec blks p c :
  (1 <= blks)%nat -> (blks * (N * W) <= length p)%nat -> Forall is_byte p -> is_word c ->
  ('(p', crcs) ← braid_loop W N little tab blks p (c :: replicate (N - 1) 0);
   ws ← load_words W little N p';
   crc ← braid_last step crcs ws 0;
   Some (crc, drop (N * W) p')) =
  Some (foldl Xs c (words little (blks * N) p), drop (blks * (N * W)) p).
Proof.
  intros Hb Hl Hp Hc.
  destruct (braid_loop_spec blks p (c :: replicate (N - 1) 0) c) as (crcs & -> & H1 & H2 & H3); try done.
  { cbn [length]. rewrite length_replicate. lia. }
  { constructor; [done|]. apply Forall_replicate, zero_word. }
  { by apply wsum_init. }
  cbn [mbind option_bind]. set (p' := drop _ p).
  assert (Hl' : (N * W <= length p')%nat) by (subst p'; rewrite length_drop; nia).
  rewrite load_words_spec by done. cbn [mbind option_bind].
  set (ws := words little N p').
  assert (Hws : Forall is_word ws) by (apply words_are_words; [done|by apply Forall_drop]).
  rewrite braid_last_spec by (done || apply zero_word). cbn [mbind option_bind].
  rewrite <- (Z.lxor_0_r 0) at 1.
  rewrite foldl_Xs_lxor by (done || apply zero_word || (subst ws; rewrite length_words; done)).
  fold (wsum crcs). fold (wsum ws). rewrite H3.
  assert (HSw : is_word (foldl Xs c (words little ((blks - 1) * N) p))).
  { apply foldl_Xs_word; [done|]. apply words_are_words; [nia|done]. }
  pose proof (foldl_Xs_split _ ws HSw Hws) as Es. subst ws. rewrite length_words in Es.
  rewrite <- Es, <- foldl_app. subst p'.
  destruct blks as [|b]; [lia|]. replace (S b - 1)%nat with b by lia.
  rewrite Nat.mul_assoc, <- words_app, drop_drop.
  replace (b * N + N)%nat with (S b * N)%nat by (cbn [Nat.mul]; lia).
  replace (b * N * W + N * W)%nat with (S b * (N * W))%nat by (cbn [Nat.mul]; lia). done.
Qed.
End Braids.

(** *** Both byte orders *)

Lemma le_word_snoc l b :
  Forall is_byte l -> is_byte b ->
  le_word (l ++ [b]) = Z.lxor (le_word l) (Z.shiftl b (8 * Z.of_nat (length l))).
Proof.
  intros Hl Hb. induction Hl as [|x l Hx Hl IH]; cbn [app].
  - rewrite le_word_cons by done. cbn [le_word length]. rewrite Z.shiftl_0_l, Z.shiftl_0_r.
    apply Z.lxor_0_r.
  - pose proof (le_word_range l Hl) as Hr.
    assert (Hlb : 0 <= le_word (l ++ [b])) by (apply le_word_range, Forall_app; auto).
    rewrite !le_word_cons by (done || lia). rewrite IH, Z.shiftl_lxor, Z.shiftl_shiftl by lia.
    rewrite Z.lxor_assoc. do 3 f_equal. cbn [length]. lia.
Qed.

Lemma swap_le_word_shift bs k :
  (k + length bs <= W)%nat -> Forall is_byte bs ->
  byte_swap W (Z.shiftl (le_word bs) (8 * Z.of_nat k)) =
    Z.shiftl (le_word (reverse bs)) (8 * Z.of_nat (W - k - length bs)).
Proof.
  intros Hk Hb. revert k Hk. induction Hb as [|b bs Hb Hbs IH]; intros k Hk.
  { cbn [le_word]. rewrite Z.shiftl_0_l, lin_0 by apply _. symmetry. apply Z.shiftl_0_l. }
  cbn [length] in *. pose proof (le_word_range bs Hbs) as Hr. pose proof (byte_nonneg b Hb).
  rewrite le_word_cons, Z.shiftl_lxor, Z.shiftl_shiftl by (done || lia).
  rewrite lin_lxor by (apply Z.shiftl_nonneg; lia).
  rewrite swap_byte by (done || lia).
  replace (8 + 8 * Z.of_nat k) with (8 * Z.of_nat (S k)) by lia. rewrite IH by lia.
  rewrite reverse_cons, le_word_snoc, Z.shiftl_lxor, Z.shiftl_shiftl by (try apply Forall_reverse; done || lia).
  rewrite length_reverse, Z.lxor_comm. do 2 f_equal; f_equal; lia.
Qed.

Lemma word_val_big p :
  (W <= length p)%nat -> Forall is_byte p ->
  word_val false p = byte_swap W (word_val true p).
Proof.
  intros Hl Hp. unfold word_val.
  assert (El : length (take W p) = W) by (rewrite length_take; lia).
  pose proof (swap_le_word_shift (take W p) 0) as H.
  rewrite El, Z.shiftl_0_r in H. replace (W - 0 - W)%nat with 0%nat in H by lia.
  rewrite Z.shiftl_0_r in H. symmetry. apply H; [lia|by apply Forall_take].
Qed.

Definition X (v : Z) : Z := xpow (8 * Z.of_nat W) v.
Definition X_big (v : Z) : Z := byte_swap W (X (byte_swap W v)).

#[local] Instance linear_X : Linear X.
Proof. apply linear_xpow. Qed.
#[local] Instance linear_X_big : Linear X_big.
Proof. apply (linear_comp (byte_swap W)); [apply _|]. apply (linear_comp X); apply _. Qed.

Lemma iter_X n v : iter n X v = xpow (8 * Z.of_nat (n * W)) v.
Proof.
  induction n as [|n IH]; [by rewrite xpow_iter|]. rewrite iter_S, IH. unfold X.
  rewrite <- xpow_add by lia. f_equal. lia.
Qed.

Lemma iter_X_big n v :
  is_word v -> iter n X_big v = byte_swap W (iter n X (byte_swap W v)).
Proof.
  intros Hv. assert (HX' : forall m, is_word (iter m X (byte_swap W v))).
  { intros m. apply (iter_inv is_word); [by apply is_word_swap|]. intros. by apply is_word_xpow. }
  induction n as [|n IH]; [cbn [iter]; by rewrite swap_involutive|].
  rewrite !iter_S, IH. unfold X_big. rewrite (swap_involutive W HW (iter n X _)) by apply HX'.
  done.
Qed.

Lemma words_little n p c :
  (n * W <= length p)%nat -> Forall is_byte p -> 0 <= c ->
  foldl (Xs X) c (words true n p) = foldl byte_step c (take (n * W) p).
Proof.
  revert p c; induction n as [|n IH]; intros p c Hl Hp Hc; [done|].
  cbn [words foldl Nat.mul] in *. assert (Ht : Forall is_byte (take W p)) by (by apply Forall_take).
  rewrite <- (take_drop W p) at 3.
  rewrite take_app_ge by (rewrite length_take; lia). rewrite foldl_app.
  replace (W + n * W - length (take W p))%nat with (n * W)%nat by (rewrite length_take; lia).
  rewrite <- (word_step c (take W p)) by done. rewrite length_take_le by lia. fold (X (Z.lxor c (le_word (take W p)))).
  apply IH; [rewrite length_drop; lia|by apply Forall_drop|].
  pose proof (le_word_range _ Ht). apply xpow_nonneg, lxor_nonneg; unfold word_val; lia.
Qed.

Lemma words_big n p c :
  (n * W <= length p)%nat -> Forall is_byte p -> is_word c ->
  foldl (Xs X_big) (byte_swap W c) (words false n p) =
    byte_swap W (foldl (Xs X) c (words true n p)).
Proof.
  revert p c; induction n as [|n IH]; intros p c Hl Hp Hc; [done|].
  cbn [words foldl Nat.mul] in *.
  assert (Hw : is_word (word_val true p)).
  { pose proof (words_are_words true 1 p ltac:(lia) Hp) as H. by inversion H. }
  unfold Xs at 2. unfold X_big at 2. rewrite word_val_big by (done || lia).
  rewrite <- lin_lxor by (by apply is_word_nonneg).
  rewrite swap_involutive by (done || by apply is_word_lxor).
  rewrite IH; [done|rewrite length_drop; lia|by apply Forall_drop|].
  by apply is_word_xpow, is_word_lxor.
Qed.

Lemma braid_word_big_spec v :
  is_word v -> braid_word W (crc_braid_big_table T) v = Some (iter N X_big v).
Proof.
  intros Hv. rewrite iter_X_big, iter_X by done.
  set (L := fun v => byte_swap W (xpow (8 * Z.of_nat (N * W)) (byte_swap W v))).
  assert (HL : Linear L).
  { apply (linear_comp (byte_swap W)); [apply _|]. apply (linear_comp (xpow _)); apply _. }
  apply (braid_word_spec _ L); [|done].
  intros k i Hk Hi. rewrite (ok_braid_big W N T HT) by done. unfold L. by rewrite swap_byte.
Qed.

(** The braided calculation over [blks] blocks is the byte-wise one. *)
Lemma braided_spec little blks p c :
  (1 <= blks)%nat -> (blks * (N * W) <= length p)%nat -> Forall is_byte p -> is_u32 c ->
  braided W N T little c blks p =
    Some (foldl byte_step c (take (blks * (N * W)) p), drop (blks * (N * W)) p).
Proof.
  intros Hb Hl Hp Hc32. pose proof (u32_is_word c Hc32) as Hc.
  assert (E : (blks * (N * W) = blks * N * W)%nat) by lia.
  assert (El : foldl (Xs X) c (words true (blks * N) p) =
               foldl byte_step c (take (blks * (N * W)) p)).
  { rewrite words_little by (done || lia || unfold is_u32 in Hc32; lia). by rewrite E. }
  unfold braided. destruct little.
  - rewrite (braids_spec true (crc_braid_table T) X (crc_word W T)); try done.
    + by rewrite El.
    + intros. by apply is_word_xpow.
    + intros v Hv. by apply crc_word_spec.
    + intros v Hv. rewrite iter_X.
      apply (braid_word_spec _ (xpow (8 * Z.of_nat (N * W)))); [|done].
      intros. by apply (ok_braid W N T HT).
  - assert (HbX : forall v, is_word v -> is_word (X_big v)).
    { intros. by apply is_word_swap, is_word_xpow, is_word_swap. }
    pose proof (braids_spec false (crc_braid_big_table T) X_big (crc_word_big W T) HbX) as G.
    specialize (G ltac:(intros v Hv; rewrite <- (swap_involutive W HW v) at 1 by done;
                        by apply crc_word_big_spec, is_word_swap)).
    specialize (G ltac:(intros v Hv; by apply braid_word_big_spec)).
    specialize (G blks p (byte_swap W c) Hb Hl Hp ltac:(by apply is_word_swap)).
    rewrite words_big, El in G by (done || lia).
    destruct (braid_loop _ _ _ _ _ _ _) as [[p' crcs]|]; [|done]. cbn [mbind option_bind] in *.
    destruct (load_words _ _ _ _) as [ws|]; [|done]. cbn [mbind option_bind] in *.
    destruct (braid_last _ _ _ _) as [comb|]; [|done]. cbn [mbind option_bind] in *.
    injection G as -> ->. rewrite swap_involutive; [done|done|].
    rewrite <- El. apply foldl_Xs_word; [intros; by apply is_word_xpow|done|].
    apply words_are_words; [lia|done].
Qed.
End Steps.

(** ** The byte loops *)

Lemma not32_spec crc : is_u32 crc -> not32 crc = Z.lxor crc 0xffffffff.
Proof.
  intros Hc. unfold not32. change 0xffffffff with (Z.ones 32). apply Z.bits_inj'. intros i Hi.
  rewrite Z.land_spec, Z.lxor_spec, Z.lnot_spec, testbit_ones by lia.
  destruct (Z.ltb_spec i 32); [by destruct (Z.testbit crc i)|].
  rewrite (testbit_high 32 crc) by (unfold is_u32 in Hc; lia). done.
Qed.

Lemma not32_u32 crc : is_u32 crc -> is_u32 (not32 crc).
Proof. intros Hc. rewrite not32_spec by done. unfold is_u32 in *. apply lxor_range; lia. Qed.

(** [step] advances the register over a byte. *)
Section ByteLoops.
Context (step : Z -> Z -> option Z).
Context (Hstep : forall c b, is_u32 c -> is_byte b -> step c b = Some (byte_step c b)).

Lemma bytes_loop_spec l r c :
  Forall is_byte l -> is_u32 c ->
  bytes_loop step (length l) (l ++ r) c = Some (foldl byte_step c l).
Proof.
  intros Hl; revert c; induction Hl as [|b l Hb Hl IH]; intros c Hc; [done|].
  cbn [bytes_loop length app head tail mbind option_bind foldl]. rewrite Hstep by done.
  cbn [mbind option_bind]. apply IH. by apply byte_step_u32.
Qed.

Lemma bytes_loop_all l c :
  Forall is_byte l -> is_u32 c -> bytes_loop step (length l) l c = Some (foldl byte_step c l).
Proof. intros Hl Hc. rewrite <- (bytes_loop_spec l [] c) by done. by rewrite app_nil_r. Qed.

(** At most [(-addr) mod W] bytes are consumed before the boundary. *)
Lemma align_loop_spec W l addr c :
  W = 4%nat \/ W = 8%nat -> Forall is_byte l -> is_u32 c ->
  exists pre rest, l = pre ++ rest /\ Z.of_nat (length pre) <= (- addr) mod Z.of_nat W /\
    align_loop W step (length l) addr l c =
      Some (foldl byte_step c pre, length rest, rest).
Proof.
  intros HW Hl; revert c addr; induction Hl as [|b l Hb Hl IH]; intros c addr Hc.
  { exists [], []. split; [done|]. split; [|done]. apply Z.mod_pos_bound. destruct HW; lia. }
  cbn [align_loop length].
  assert (Em : Z.land addr (Z.of_nat W - 1) = addr mod Z.of_nat W).
  { destruct HW as [-> | ->]; [apply (Z.land_ones addr 2)|apply (Z.land_ones addr 3)]; lia. }
  rewrite Em. unfold ztrue. destruct (Z.eqb_spec (addr mod Z.of_nat W) 0) as [E|E]; cbn [negb].
  - exists [], (b :: l). split; [done|]. split; [|done]. apply Z.mod_pos_bound. destruct HW; lia.
  - cbn [head tail mbind option_bind]. rewrite Hstep by done. cbn [mbind option_bind].
    destruct (IH (byte_step c b) (addr + 1)) as (pre & rest & -> & Hp & El); [by apply byte_step_u32|].
    exists (b :: pre), rest. split; [done|]. split; [|by rewrite El].
    cbn [length]. destruct HW as [-> | ->]; Z.div_mod_to_equations; lia.
Qed.
End ByteLoops.

Lemma tail_loop_spec T fuel l c :
  (forall c b, is_u32 c -> is_byte b -> crc_byte T c b = Some (byte_step c b)) ->
  (length l < fuel)%nat -> Forall is_byte l -> is_u32 c ->
  tail_loop T fuel (length l) l c = Some (foldl byte_step c l).
Proof.
  intros Hs. revert l c; induction fuel as [|fuel IH]; intros l c Hf Hl Hc; [lia|].
  cbn [tail_loop]. destruct (Nat.leb_spec 8 (length l)).
  - assert (E8 : length (take 8 l) = 8%nat) by (rewrite length_take; lia).
    pose proof (bytes_loop_spec _ Hs (take 8 l) (drop 8 l) c) as E.
    rewrite take_drop, E8 in E. rewrite E by (done || by apply Forall_take).
    cbn [mbind option_bind]. rewrite <- (take_drop 8 l) at 4. rewrite foldl_app.
    rewrite <- length_drop. apply IH; [rewrite length_drop; lia|by apply Forall_drop|].
    apply foldl_byte_step_u32; [done|by apply Forall_take].
  - by apply bytes_loop_all.
Qed.

Lemma crc32_z_value W N T little addr crc buf :
  (W = 4%nat \/ W = 8%nat) -> (1 <= N <= 6)%nat -> make_crc_table W N = Some T ->
  is_u32 crc -> Forall is_byte buf ->
  crc32_z W N T little addr crc (Some buf) (length buf) = Some (crc_ref crc buf).
Proof.
  intros HW HN ET Hc Hb. destruct (make_crc_table_ok W N HW HN) as (T' & ET' & HT).
  rewrite ET in ET'. injection ET' as <-.
  assert (Hs : forall c b, is_u32 c -> is_byte b -> crc_byte T c b = Some (byte_step c b)).
  { intros c b Hu Hbb. apply (crc_byte_spec W N T HW HN HT); [unfold is_u32 in Hu; lia|done]. }
  pose proof (not32_u32 crc Hc) as Hn. pose proof Hn as Hn0. unfold is_u32 in Hn0.
  unfold crc32_z, crc_ref. rewrite <- (not32_spec crc Hc).
  rewrite foldl_crc_bits by first [assumption | lia].
  destruct (Nat.leb_spec (N * W + W - 1) (length buf)) as [Hl|Hl].
  - destruct (align_loop_spec _ Hs W buf addr (not32 crc) HW Hb Hn) as (pre & rest & -> & Hp & ->).
    cbn [mbind option_bind]. apply Forall_app in Hb as [Hb1 Hb2]. rewrite length_app in Hl.
    pose proof (Z.mod_pos_bound (- addr) (Z.of_nat W) ltac:(destruct HW; lia)).
    set (blks := (length rest / (N * W))%nat).
    assert (HNW : (0 < N * W)%nat) by (destruct HW; lia).
    pose proof (Nat.div_mod_eq (length rest) (N * W)) as Hdm. fold blks in Hdm.
    pose proof (Nat.mod_upper_bound (length rest) (N * W) ltac:(lia)) as Hmb.
    assert (Hbl : (1 <= blks)%nat) by (destruct blks; lia).
    assert (Hle : (blks * (N * W) <= length rest)%nat) by (rewrite Nat.mul_comm; lia).
    assert (Hpre : is_u32 (foldl byte_step (not32 crc) pre)) by (by apply foldl_byte_step_u32).
    rewrite (braided_spec W N T HW HN HT) by assumption. cbn [mbind option_bind].
    assert (Ht : Forall is_byte (take (blks * (N * W)) rest)) by (by apply Forall_take).
    assert (Hd : Forall is_byte (drop (blks * (N * W)) rest)) by (by apply Forall_drop).
    pose proof (foldl_byte_step_u32 _ _ Hpre Ht) as Hpost.
    rewrite <- length_drop. rewrite (tail_loop_spec T) by first [assumption | lia].
    cbn [mbind option_bind]. rewrite <- foldl_app, take_drop, <- foldl_app. done.
  - cbn [mbind option_bind]. rewrite (tail_loop_spec T) by first [assumption | lia]. done.
Qed.

(** C31: for every byte string, initial value and address of the buffer, and for
    every configuration of the build (1 to 6 braids, 4- or 8-byte words) on a
    machine of either byte order, [crc32_z] with the generated tables returns
    the CRC by its definition, a bit-serial division. *)
Theorem crc32_z_correct W N T little addr crc buf :
  (W = 4%nat \/ W = 8%nat) -> (1 <= N <= 6)%nat -> make_crc_table W N = Some T ->
  is_u32 crc -> Forall is_byte buf ->
  crc32_z W N T little addr crc (Some buf) (length buf) = Some (crc_ref crc buf).
Proof. apply crc32_z_value. Qed.

Lemma crc32_z_correct_witness :
  exists T, make_crc_table 4 2 = Some T /\
    crc32_z 4 2 T false 3 0 (Some (replicate 30 97)) 30 = Some 1807864769.
Proof.
  destruct (make_crc_table 4 2) as [T|] eqn:ET; [|vm_compute in ET; discriminate].
  exists T. split; [reflexivity|].
  pose proof (crc32_z_correct 4 2 T false 3 0 (replicate 30 97) (or_introl eq_refl)
                ltac:(lia) ET ltac:(split; [lia|reflexivity])
                ltac:(repeat constructor; discriminate)) as H.
  exact (eq_trans H ltac:(vm_compute; reflexivity)).
Defined.

(** ** Combination *)

Lemma foldl_byte_step_split c bs :
  0 <= c -> Forall is_byte bs ->
  foldl byte_step c bs = Z.lxor (xpow (8 * Z.of_nat (length bs)) c) (foldl byte_step 0 bs).
Proof.
  intros Hc Hb. pose proof (le_word_range bs Hb).
  rewrite <- !word_step by (assumption || lia).
  rewrite lin_lxor by lia. by rewrite Z.lxor_0_l.
Qed.

Lemma crc_ref_bytes c bs :
  is_u32 c -> Forall is_byte bs ->
  crc_ref c bs = Z.lxor (foldl byte_step (Z.lxor c 0xffffffff) bs) 0xffffffff.
Proof.
  intros Hc Hb. unfold crc_ref, is_u32 in *. rewrite foldl_crc_bits; [done| |assumption].
  apply lxor_nonneg; lia.
Qed.

Lemma crc_ref_u32 c bs : is_u32 c -> Forall is_byte bs -> is_u32 (crc_ref c bs).
Proof.
  intros Hc Hb. rewrite crc_ref_bytes, <- (not32_spec c Hc) by assumption.
  pose proof (foldl_byte_step_u32 _ _ (not32_u32 c Hc) Hb) as Hu.
  unfold is_u32 in *. apply lxor_range; lia.
Qed.

Lemma crc_ref_app c a b :
  is_u32 c -> Forall is_byte a -> Forall is_byte b -> crc_ref c (a ++ b) = crc_ref (crc_ref c a) b.
Proof.
  intros Hc Ha Hb. rewrite (crc_ref_bytes (crc_ref c a)) by (assumption || by apply crc_ref_u32).
  rewrite !crc_ref_bytes by (assumption || by apply Forall_app_2).
  rewrite foldl_app, Z.lxor_assoc, Z.lxor_nilpotent, Z.lxor_0_r. done.
Qed.

(** The CRC started at [c] and the one started at 0. *)
Lemma crc_ref_split c bs :
  is_u32 c -> Forall is_byte bs ->
  crc_ref c bs = Z.lxor (xpow (8 * Z.of_nat (length bs)) c) (crc_ref 0 bs).
Proof.
  intros Hc Hb. assert (H0 : is_u32 0) by (unfold is_u32; lia). unfold is_u32 in Hc.
  rewrite !crc_ref_bytes by (assumption || done).
  assert (Hn : 0 <= Z.lxor c 0xffffffff) by (apply lxor_nonneg; lia).
  rewrite (foldl_byte_step_split _ bs Hn Hb), (foldl_byte_step_split (Z.lxor 0 _) bs) by
    (assumption || done).
  rewrite lin_lxor, Z.lxor_0_l, !Z.lxor_assoc by lia. done.
Qed.

Lemma tables_x2n W N T :
  (W = 4%nat \/ W = 8%nat) -> (1 <= N <= 6)%nat -> make_crc_table W N = Some T ->
  x2n_ok (x2n_table T).
Proof.
  intros HW HN ET. destruct (make_crc_table_ok W N HW HN) as (T' & ET' & HT).
  rewrite ET in ET'. injection ET' as <-. apply HT.
Qed.

Lemma combine_gen_value t b :
  x2n_ok t -> Z.of_nat (length b) < 2 ^ 60 ->
  x2nmodp t (Z.of_nat (length (A := Z) b)) 3 = Some (xpow (8 * Z.of_nat (length b)) gf_one).
Proof.
  intros Ht Hl. rewrite x2nmodp_spec by (assumption || lia). do 2 f_equal.
  change (2 ^ 3) with 8. lia.
Qed.

Lemma combine_mult n c :
  is_u32 c -> multmodp (xpow n gf_one) (wrap 32 c) = Some (xpow n c).
Proof.
  intros Hc. unfold wrap. rewrite Z.mod_small by assumption.
  assert (Hu : is_u32 (xpow n gf_one)) by (apply xpow_u32, one_u32).
  assert (Hz : xpow n gf_one <> 0) by (apply xpow_nonzero; [apply one_u32|discriminate]).
  rewrite multmodp_spec; [|assumption|assumption|unfold is_u32 in Hc; lia].
  f_equal. by apply gf_mul_xpow_l.
Qed.

Lemma combine_lxor crc a b :
  is_u32 crc -> Forall is_byte a -> Forall is_byte b ->
  Z.lxor (xpow (8 * Z.of_nat (length b)) (crc_ref crc a)) (Z.land (crc_ref 0 b) 0xffffffff)
    = crc_ref crc (a ++ b).
Proof.
  intros Hc Ha Hb. assert (H0 : is_u32 0) by (unfold is_u32; lia).
  pose proof (crc_ref_u32 crc a Hc Ha) as H1. pose proof (crc_ref_u32 0 b H0 Hb) as H2.
  change 0xffffffff with (Z.ones 32). rewrite Z.land_ones, Z.mod_small by (lia || assumption).
  rewrite crc_ref_app by assumption. symmetry. by apply crc_ref_split.
Qed.

Lemma wrap32_small x : is_u32 x -> wrap 32 x = x.
Proof. intros H. unfold wrap. apply Z.mod_small. exact H. Qed.

Lemma combine_via T n c1 c2 op p :
  x2nmodp (x2n_table T) n 3 = Some op -> multmodp op (wrap 32 c1) = Some p ->
  crc32_combine T c1 c2 n = Some (Z.lxor p (Z.land c2 0xffffffff)).
Proof.
  intros H1 H2. unfold crc32_combine, crc32_combine64.
  apply bind_Some. exists op. split; [exact H1|]. apply bind_Some. exists p. by split.
Qed.

Lemma combine_op_via c1 c2 op p :
  multmodp (wrap 32 op) (wrap 32 c1) = Some p ->
  crc32_combine_op c1 c2 op = Some (Z.lxor p (Z.land c2 0xffffffff)).
Proof. intros H. unfold crc32_combine_op. apply bind_Some. exists p. by split. Qed.

(** C33: combining the CRC of a first part with the CRC of a second part and
    its length gives the CRC of their concatenation, in one call or through
    an operator computed beforehand for the length. *)
Theorem crc32_combine_correct W N T crc a b :
  (W = 4%nat \/ W = 8%nat) -> (1 <= N <= 6)%nat -> make_crc_table W N = Some T ->
  is_u32 crc -> Forall is_byte a -> Forall is_byte b -> Z.of_nat (length b) < 2 ^ 60 ->
  let crc1 := crc_ref crc a in
  let crc2 := crc_ref 0 b in
  crc32_combine T crc1 crc2 (Z.of_nat (length b)) = Some (crc_ref crc (a ++ b)) /\
  exists op, crc32_combine_gen T (Z.of_nat (length b)) = Some op /\
             crc32_combine_op crc1 crc2 op = Some (crc_ref crc (a ++ b)).
Proof.
  intros HW HN ET Hc Ha Hb Hlen. pose proof (tables_x2n W N T HW HN ET) as Ht. clear ET.
  pose proof (crc_ref_u32 crc a Hc Ha) as H1. cbv zeta.
  pose proof (combine_gen_value (x2n_table T) b Ht Hlen) as Hg.
  pose proof (combine_mult (8 * Z.of_nat (length b)) _ H1) as Hm.
  assert (Hu : is_u32 (xpow (8 * Z.of_nat (length b)) gf_one)) by (apply xpow_u32, one_u32).
  pose proof (combine_lxor crc a b Hc Ha Hb) as Hx. rewrite <- Hx.
  revert Hg Hm Hu. generalize (xpow (8 * Z.of_nat (length b)) gf_one). intros op Hg Hm Hu. split.
  - exact (combine_via T _ _ _ _ _ Hg Hm).
  - exists op. split; [exact Hg|]. apply combine_op_via.
    rewrite (wrap32_small op Hu). exact Hm.
Qed.

Lemma crc32_combine_correct_witness :
  exists T, make_crc_table 4 1 = Some T /\
    crc32_combine T (crc_ref 0 [1; 2]) (crc_ref 0 [3]) 1 = Some (crc_ref 0 [1; 2; 3]).
Proof.
  destruct (make_crc_table 4 1) as [T|] eqn:ET; [|vm_compute in ET; discriminate].
  exists T. split; [reflexivity|].
  exact (proj1 (crc32_combine_correct 4 1 T 0 [1; 2] [3] (or_introl eq_refl) ltac:(lia) ET
           ltac:(split; [lia|reflexivity]) ltac:(repeat constructor; discriminate)
           ltac:(repeat constructor; discriminate) ltac:(reflexivity))).
Defined.

(** C35: the loops behind the combination functions return exactly when they
    should: [x2nmodp] for every length from 0 and [multmodp] for every nonzero
    first operand; no amount of fuel makes [x2nmodp] return on a negative
    length or [multmodp] on a zero first operand, so [crc32_combine] with a
    negative length and [crc32_combine_op] with a zero operator do not
    return. *)
Theorem crc_loops_return W N T :
  (W = 4%nat \/ W = 8%nat) -> (1 <= N <= 6)%nat -> make_crc_table W N = Some T ->
  (forall n k, 0 <= n < 2 ^ 63 -> 0 <= k < 2 ^ 31 ->
     x2nmodp (x2n_table T) n k = Some (xpow (n * 2 ^ k) gf_one)) /\
  (forall a b, is_u32 a -> a <> 0 -> is_u32 b -> multmodp a b = Some (gf_mul a b)) /\
  (forall fuel n k p, n < 0 -> x2nmodp_loop fuel (x2n_table T) n k p = None) /\
  (forall fuel m p b, multmodp_loop fuel 0 m p b = None).
Proof.
  intros HW HN ET. pose proof (tables_x2n W N T HW HN ET) as Ht. clear ET. split_and!.
  - intros. by apply x2nmodp_spec.
  - intros a b Ha Hn Hb. unfold is_u32 in Hb. by apply multmodp_spec; [| |lia].
  - intros. by apply x2nmodp_loop_neg.
  - apply multmodp_loop_zero.
Qed.

Lemma crc_loops_return_witness :
  exists T, make_crc_table 4 1 = Some T /\ multmodp 0x80000000 5 = Some 5.
Proof.
  destruct (make_crc_table 4 1) as [T|] eqn:ET; [|vm_compute in ET; discriminate].
  exists T. split; [reflexivity|].
  destruct (crc_loops_return 4 1 T (or_introl eq_refl) ltac:(lia) ET) as (_ & H & _ & _).
  exact (H 0x80000000 5 ltac:(split; [lia|reflexivity]) ltac:(lia) ltac:(split; [lia|reflexivity])).
Defined.
