(* ===== verification/Crc32Arm.v ===== *)
(** The version of [crc32_z] for ARM processors with CRC instructions:
    [Crc32.crc32_z_arm], against the checksum's definition.  The two
    instructions are parameters; what the code relies on is their documented
    behaviour, a shift register fed with the bits of the operand. *)
From stdpp Require Import base numbers list.
From Stdlib Require Import ZArith Lia Bool.
From S2P Require Import Prelude Gf2 Crc32 Crc32Facts.

Section Arm.
Context (crc32b crc32x : Z -> Z -> Z).
Context (Hb : forall c v, is_u32 c -> is_byte v -> crc32b c v = foldl crc_bit c (z_bits 8 v)).
Context (Hx : forall c v, is_u32 c -> 0 <= v < 2 ^ 64 -> crc32x c v = foldl crc_bit c (z_bits 64 v)).














End Arm.




