(* ===== verification/Crc32TablesFacts.v ===== *)
(** * The static tables are the generated ones

    The tables of crc32.h, for every configuration, equal those
    [make_crc_table] computes, so the theorems on generated tables hold of the
    default build. *)
From stdpp Require Import base list.
From Stdlib Require Import ZArith Lia.
From S2P Require Import Prelude Gf2 Crc32 Crc32Facts Crc32Tables.

(** Equality of tables, entry by entry. *)
Fixpoint list_eqb {A} (eqb : A -> A -> bool) (l k : list A) : bool :=
  match l, k with
  | [], [] => true
  | x :: l, y :: k => eqb x y && list_eqb eqb l k
  | _, _ => false
  end.

Lemma list_eqb_eq {A} (eqb : A -> A -> bool) :
  (forall x y, eqb x y = true -> x = y) -> forall l k, list_eqb eqb l k = true -> l = k.
Proof.
  intros He. induction l as [|x l IH]; intros [|y k]; cbn; try done.
  intros [H1 H2]%andb_true_iff. apply He in H1. by f_equal; auto.
Qed.

Definition tables_eqb (t u : crc_tables) : bool :=
  list_eqb Z.eqb (crc_table t) (crc_table u) && list_eqb Z.eqb (crc_big_table t) (crc_big_table u) &&
  list_eqb Z.eqb (x2n_table t) (x2n_table u) &&
  list_eqb (list_eqb Z.eqb) (crc_braid_table t) (crc_braid_table u) &&
  list_eqb (list_eqb Z.eqb) (crc_braid_big_table t) (crc_braid_big_table u).

Lemma tables_eqb_eq t u : tables_eqb t u = true -> t = u.
Proof.
  unfold tables_eqb. rewrite !andb_true_iff. intros ((((H1 & H2) & H3) & H4) & H5).
  assert (HZ : forall l k, list_eqb Z.eqb l k = true -> l = k)
    by (apply list_eqb_eq; intros x y; apply Z.eqb_eq).
  pose proof (list_eqb_eq _ HZ) as HL. destruct t, u; cbn in *. f_equal; auto.
Qed.

(** ** Linear tables

    A table of a linear function on bytes doubles eight times: the upper half
    is the lower half with the entry of the new bit added. *)
Fixpoint span (f : Z -> Z) (n : nat) : list Z :=
  match n with
  | O => [0]
  | S n => let l := span f n in let c := f (2 ^ Z.of_nat n) in l ++ map (Z.lxor c) l
  end.

Lemma seqZ_map_add a n : seqZ a n = map (Z.add a) (seqZ 0 n).
Proof. unfold seqZ. rewrite map_map. apply map_ext. intros x. lia. Qed.

Lemma span_spec f n : Linear f -> map f (seqZ 0 (2 ^ Z.of_nat n)) = span f n.
Proof.
  intros Hf. induction n as [|n IH].
  { change (map f (seqZ 0 (2 ^ Z.of_nat 0))) with [f 0]. by rewrite (lin_0 f). }
  rewrite Nat2Z.inj_succ, Z.pow_succ_r by lia.
  pose proof (Z.pow_pos_nonneg 2 (Z.of_nat n) ltac:(lia) ltac:(lia)) as Hp.
  replace (2 * 2 ^ Z.of_nat n) with (2 ^ Z.of_nat n + 2 ^ Z.of_nat n) by lia.
  rewrite seqZ_app, Z.add_0_l, map_app by lia. cbn [span]. rewrite <- IH. f_equal.
  rewrite (seqZ_map_add (2 ^ Z.of_nat n)), !map_map. apply map_ext_in.
  intros x Hx. apply list_elem_of_In, elem_of_seqZ in Hx.
  rewrite <- lin_lxor by lia. f_equal. symmetry. rewrite Z.lxor_comm.
  rewrite <- (Z.add_nocarry_lxor x); [lia|]. rewrite <- (Z.mod_small x (2 ^ Z.of_nat n)) by lia.
  rewrite <- Z.land_ones, <- Z.land_assoc by lia.
  replace (Z.land (Z.ones (Z.of_nat n)) (2 ^ Z.of_nat n)) with 0; [apply Z.land_0_r|].
  rewrite Z.land_comm, Z.land_ones by lia. symmetry. apply Z.mod_same. lia.
Qed.

(** One row of a braid table: the products of the bytes with [p]. *)
Definition row (p i : Z) : Z := gf_mul (Z.shiftl i 24) p.

Lemma linear_row p : 0 <= p -> Linear (row p).
Proof.
  intros Hp. apply (linear_comp (fun a => gf_mul a p) (fun i => Z.shiftl i 24)); [|apply _].
  by apply linear_gf_mul_l.
Qed.

Lemma braid_row_span t n w k p :
  x2nmodp t (Z.shiftl (Z.of_nat n * Z.of_nat w + 3 - Z.of_nat k) 3) 0 = Some p -> 0 <= p ->
  braid_row t n w k = Some (span (row p) 8).
Proof.
  intros E Hp. unfold braid_row. rewrite E. cbn [mbind option_bind].
  rewrite (mapM_Some_map _ (row p)).
  - cbn [mbind option_bind]. pose proof (linear_row p Hp) as Hl. rewrite <- span_spec by done.
    change (2 ^ Z.of_nat 8) with 256. rewrite (seqZ_cons 0 256) by done. cbn [map].
    by rewrite (lin_0 (row p)).
  - apply Forall_forall. intros i Hi. apply elem_of_seqZ in Hi.
    assert (Hb : is_byte i) by (unfold is_byte; lia).
    pose proof (shiftl24_u32 i Hb) as Hu. unfold wrap. rewrite Z.mod_small by done.
    apply multmodp_spec; [done| |done]. rewrite Z.shiftl_mul_pow2 by lia. lia.
Qed.

(** The tables, each from the powers of two. *)
Definition span_tables (W : nat) (x2n ps : list Z) : crc_tables :=
  CrcTables (span (iter 8 mulx) 8) (span (fun i => byte_swap W (iter 8 mulx i)) 8) x2n
    (map (fun p => span (row p) 8) ps)
    (reverse (map (fun p => span (fun i => byte_swap W (row p i)) 8) ps)).

Lemma map_span f g n : Linear f -> Linear g -> map g (span f n) = span (fun x => g (f x)) n.
Proof.
  intros Hf Hg. rewrite <- !span_spec by (try apply linear_comp; done). by rewrite map_map.
Qed.

Definition exponents (W N : nat) (x2n : list Z) : option (list Z) :=
  mapM (fun k => x2nmodp x2n (Z.shiftl (Z.of_nat N * Z.of_nat W + 3 - Z.of_nat k) 3) 0) (seq 0 W).

Lemma make_crc_table_span W N l ps :
  make_x2n 31 (Z.shiftl 1 30) = Some l -> exponents W N (Z.shiftl 1 30 :: l) = Some ps ->
  Forall (fun p => 0 <= p) ps ->
  make_crc_table W N = Some (span_tables W (Z.shiftl 1 30 :: l) ps).
Proof.
  intros El Ep Hp. unfold make_crc_table. rewrite El. cbn [mbind option_bind].
  revert Ep. generalize (Z.shiftl 1 30 :: l). clear l El. intros x2n Ep.
  assert (Er : mapM (braid_row x2n N W) (seq 0 W) = Some (map (fun p => span (row p) 8) ps)).
  { unfold exponents in Ep. revert ps Ep Hp. induction (seq 0 W) as [|k ks IH]; intros ps Ep Hp.
    { by injection Ep as <-. }
    cbn [mapM] in Ep. apply bind_Some in Ep as (p & E1 & Ep). apply bind_Some in Ep as (ps' & E2 & [= <-]).
    apply Forall_cons in Hp as [Hp0 Hp]. cbn [mapM]. rewrite (braid_row_span _ _ _ _ p E1 Hp0).
    cbn [mbind option_bind]. rewrite (IH ps' E2 Hp). done. }
  unfold braid. rewrite Er. cbn [mbind option_bind]. unfold span_tables.
  pose proof (span_spec (iter 8 mulx) 8 (linear_iter 8 mulx _)) as Eb.
  change (map (fun i => iter 8 mulx i) (seqZ 0 256) = span (iter 8 mulx) 8) in Eb. rewrite Eb. do 2 f_equal.
  - apply (map_span (iter 8 mulx) (byte_swap W)); apply _.
  - f_equal. rewrite map_map. apply map_ext_in. intros p Hin. apply map_span; [|apply _].
    apply linear_row. apply list_elem_of_In in Hin. by eapply Forall_forall in Hp.
Qed.

Definition generated_ok (W N : nat) : bool :=
  match make_x2n 31 (Z.shiftl 1 30) with
  | Some l =>
      match exponents W N (Z.shiftl 1 30 :: l) with
      | Some ps => forallb (Z.leb 0) ps &&
                   tables_eqb (span_tables W (Z.shiftl 1 30 :: l) ps) (static_tables W N)
      | None => false
      end
  | None => false
  end.

Lemma generated_all : forallb (fun W => forallb (generated_ok W) [1; 2; 3; 4; 5; 6]%nat) [4; 8]%nat = true.
Proof. vm_compute. reflexivity. Qed.

Lemma generated_at W N : (W = 4%nat \/ W = 8%nat) -> (1 <= N <= 6)%nat -> generated_ok W N = true.
Proof.
  intros HW HN. pose proof generated_all as H. rewrite forallb_forall in H.
  assert (HiW : In W [4; 8]%nat) by (cbn [In]; lia). specialize (H W HiW).
  rewrite forallb_forall in H. apply H. cbn [In]. lia.
Qed.

Lemma static_generated W N :
  (W = 4%nat \/ W = 8%nat) -> (1 <= N <= 6)%nat -> make_crc_table W N = Some (static_tables W N).
Proof.
  intros HW HN. pose proof (generated_at W N HW HN) as H. unfold generated_ok in H.
  destruct (make_x2n 31 (Z.shiftl 1 30)) as [l|] eqn:El; [|discriminate H].
  destruct (exponents W N (Z.shiftl 1 30 :: l)) as [ps|] eqn:Ep; [|discriminate H].
  apply andb_true_iff in H as [Hp Ht]. apply tables_eqb_eq in Ht. rewrite <- Ht.
  apply make_crc_table_span; [exact El|exact Ep|].
  apply Forall_forall. intros p Hin. rewrite forallb_forall in Hp. apply Z.leb_le, Hp.
  by apply list_elem_of_In.
Qed.

(** C32: for every word size and number of braids the tables of crc32.h are those
    [make_crc_table] builds, so [crc32_z] of a default build returns the CRC
    by its definition. *)
Theorem static_tables_correct W N little addr crc buf :
  (W = 4%nat \/ W = 8%nat) -> (1 <= N <= 6)%nat -> is_u32 crc -> Forall is_byte buf ->
  make_crc_table W N = Some (static_tables W N) /\
  crc32_z W N (static_tables W N) little addr crc (Some buf) (length buf) = Some (crc_ref crc buf).
Proof.
  intros HW HN Hc Hb. pose proof (static_generated W N HW HN) as E. split; [exact E|].
  exact (crc32_z_value W N _ little addr crc buf HW HN E Hc Hb).
Qed.

Lemma static_tables_correct_witness :
  crc32_z 8 5 (static_tables 8 5) true 0 0 (Some [49; 50; 51]) 3 = Some 0x884863d2.
Proof.
  pose proof (static_tables_correct 8 5 true 0 0 [49; 50; 51] (or_intror eq_refl) ltac:(lia)
                ltac:(split; [lia|reflexivity]) ltac:(repeat constructor; discriminate)) as [_ H].
  cbn [length] in H. rewrite H. vm_compute. reflexivity.
Defined.
