(* ===== verification/Once.v ===== *)
(** * [once()] of crc32.c (examples/compression/zlib/crc32.c)

    The run-once guard of the CRC tables, called concurrently: the version on
    C11 atomics and the version for compilers without them.  A state holds the
    two shared flags, the number of times [init] has been run to its end, and
    the program point of every thread inside [once]; [step] interleaves the
    threads, an atomic operation (or one volatile access) at a time. *)
From stdpp Require Import base list relations.
From Stdlib Require Import Lia.
From S2P Require Import Prelude.

#[local] Set Warnings "-clear-no-such-hyp".

(** [struct once_s]. *)
Record once_s := Once { begun : bool; done_ : bool }.

Definition ONCE_INIT : once_s := Once false false.

(** Where a thread is in [once]. *)
Inductive point :=
| Load        (* at [if (!state->done)] *)
| Tas         (* at [test_and_set(&state->begun)] *)
| TasSet (was : bool) (* the flag was read, [*flag = 1] is next: no atomics only *)
| Spin        (* at [while (!state->done)] *)
| Init        (* in [init()] *)
| Store       (* at [state->done = 1] *)
| Ret.        (* returned *)

#[export] Instance point_eq_dec : EqDecision point.
Proof. solve_decision. Defined.

Record world := World { flags : once_s; inits : nat; threads : list point }.

(** One operation of a thread at point [p]: the next point, the flags, and
    whether [init] was run. *)
Definition once_atomic (p : point) (f : once_s) : option (point * once_s * bool) :=
  match p with
  | Load => Some (if done_ f then Ret else Tas, f, false)
  | Tas => Some (if begun f then Spin else Init, Once true (done_ f), false)
  | Spin => Some (if done_ f then Ret else Spin, f, false)
  | Init => Some (Store, f, true)
  | Store => Some (Ret, Once (begun f) true, false)
  | TasSet _ | Ret => None
  end.

(** Without atomics, [test_and_set] is a read and then a write. *)
Definition once_plain (p : point) (f : once_s) : option (point * once_s * bool) :=
  match p with
  | Load => Some (if done_ f then Ret else Tas, f, false)
  | Tas => Some (TasSet (begun f), f, false)
  | TasSet was => Some (if was then Spin else Init, Once true (done_ f), false)
  | Spin => Some (if done_ f then Ret else Spin, f, false)
  | Init => Some (Store, f, true)
  | Store => Some (Ret, Once (begun f) true, false)
  | Ret => None
  end.

Section Steps.
Context (op : point -> once_s -> option (point * once_s * bool)).

(** Thread [i] runs its next operation. *)
Definition run (i : nat) (w : world) : option world :=
  p ← threads w !! i;
  '(p', f', ran) ← op p (flags w);
  Some (World f' (if ran : bool then S (inits w) else inits w) (<[i := p']> (threads w))).

Inductive step (w : world) : world -> Prop :=
| step_run i w' : run i w = Some w' -> step w w'.

(** A schedule names the thread that runs at each turn. *)
Fixpoint schedule (l : list nat) (w : world) : option world :=
  match l with
  | [] => Some w
  | i :: l => w ← run i w; schedule l w
  end.
End Steps.

Definition start (n : nat) : world := World ONCE_INIT 0 (replicate n Load).

(** ** The atomic version *)

Definition working (p : point) : bool := match p with Init | Store => true | _ => false end.

(** Threads in [init] or about to publish its end. *)
Definition workers (ps : list point) : list point := filter (fun p => working p = true) ps.

(** At most one thread has won the flag; [done] means its work is over, and a
    thread has returned or spins only after the flag was won. *)
Record once_inv (w : world) : Prop := {
  inv_begun : begun (flags w) = false -> workers (threads w) = [] /\ done_ (flags w) = false /\ inits w = 0%nat;
  inv_work : begun (flags w) = true -> done_ (flags w) = false ->
    (workers (threads w) = [Init] /\ inits w = 0%nat) \/ (workers (threads w) = [Store] /\ inits w = 1%nat);
  inv_done : done_ (flags w) = true -> workers (threads w) = [] /\ inits w = 1%nat;
  inv_ret : forall p, p ∈ threads w ->
    match p with
    | Ret => done_ (flags w) = true
    | Spin => begun (flags w) = true
    | TasSet _ => False
    | _ => True
    end }.

Lemma workers_app l k : workers (l ++ k) = workers l ++ workers k.
Proof. apply filter_app. Qed.

Lemma workers_cons p k :
  workers (p :: k) = (if working p then [p] else []) ++ workers k.
Proof. unfold workers. rewrite filter_cons. by destruct p; cbn. Qed.

Lemma workers_replicate n : workers (replicate n Load) = [].
Proof. induction n as [|n IH]; [done|]. cbn [replicate]. by rewrite workers_cons, IH. Qed.

Lemma once_inv_start n : once_inv (start n).
Proof.
  constructor; cbn; try done.
  - intros _. by rewrite workers_replicate.
  - intros p [-> _]%elem_of_replicate. done.
Qed.

(** The step of a thread, with the other threads around it. *)
Lemma run_split op i w w' :
  run op i w = Some w' -> exists l p k p' f' ran,
    threads w = l ++ p :: k /\ op p (flags w) = Some (p', f', ran) /\
    w' = World f' (if ran : bool then S (inits w) else inits w) (l ++ p' :: k).
Proof.
  unfold run. intros H. apply bind_Some in H as (p & Ep & H).
  apply bind_Some in H as ([[p' f'] ran] & Eo & H). injection H as <-.
  exists (take i (threads w)), p, (drop (S i) (threads w)), p', f', ran.
  split; [by rewrite take_drop_middle|]. split; [done|]. f_equal.
  rewrite insert_take_drop by (by eapply lookup_lt_Some). done.
Qed.

Lemma once_inv_step w w' : once_inv w -> step once_atomic w w' -> once_inv w'.
Proof.
  intros I [i w2 H]. apply run_split in H as (l & p & k & p' & f' & ran & E & Eo & ->).
  destruct w as [[b d] n ps]; cbn in *. subst ps. destruct I as [I1 I2 I3 I4]; cbn in *.
  rewrite workers_app, workers_cons in I1, I2, I3.
  pose proof (I4 p ltac:(set_solver)) as Hp.
  assert (Hr : forall q, q ∈ l ++ k -> match q with Ret => d = true | Spin => b = true
                 | TasSet _ => False | _ => True end) by (intros q Hq; apply I4; set_solver).
  clear I4. assert (Hq : forall q, q ∈ l ++ p' :: k -> q = p' \/ q ∈ l ++ k) by set_solver.
  destruct p, b, d; cbn in *; simplify_eq/=;
    repeat match goal with H : (?a = ?a) -> _ |- _ => specialize (H eq_refl) end;
    (constructor; cbn; rewrite ?workers_app, ?workers_cons; cbn; try done; intros);
    try (match goal with H : _ ∈ _ |- _ => apply Hq in H as [-> |H]; [done|apply Hr in H] end;
         by destruct p);
    destruct (workers l) as [|? [|??]], (workers k); cbn in *;
    intuition (simplify_eq/=; auto; try congruence).
Qed.

Lemma once_inv_reach n w : rtc (step once_atomic) (start n) w -> once_inv w.
Proof.
  intros H. cut (forall w0, rtc (step once_atomic) w0 w -> once_inv w0 -> once_inv w).
  { intros Hc. exact (Hc _ H (once_inv_start n)). }
  clear H. intros w0 H. induction H as [|x y z Hs _ IH]; [done|]. eauto using once_inv_step.
Qed.

(** ** Schedules *)

Lemma schedule_app op l k w :
  schedule op (l ++ k) w = (w' ← schedule op l w; schedule op k w').
Proof. revert w; induction l as [|i l IH]; intros w; [done|]. cbn. destruct (run op i w); cbn; auto. Qed.

Lemma schedule_rtc op l w w' : schedule op l w = Some w' -> rtc (step op) w w'.
Proof.
  revert w; induction l as [|i l IH]; intros w; cbn; [by intros [= ->]|].
  intros (w2 & H & ?)%bind_Some. eapply rtc_l; [by econstructor|by apply IH].
Qed.

(** The next operation of the thread at position [length l]. *)
Lemma run_at op f n l p k p' f' ran :
  op p f = Some (p', f', ran) ->
  run op (length l) (World f n (l ++ p :: k)) =
    Some (World f' (if ran : bool then S n else n) (l ++ p' :: k)).
Proof.
  intros H. unfold run. cbn. rewrite list_lookup_middle by done. cbn. rewrite H. cbn.
  f_equal. f_equal. by rewrite insert_app_r_alt, Nat.sub_diag by done.
Qed.

Ltac one_run := cbn [schedule]; erewrite run_at by reflexivity; cbn [mbind option_bind].

(** Once the flag is up, every thread outside [init] returns. *)
Lemma finish_done ps n l :
  (forall p, p ∈ ps -> match p with Init | Store | TasSet _ => False | _ => True end) ->
  exists s, schedule once_atomic s (World (Once true true) n (l ++ ps)) =
    Some (World (Once true true) n (l ++ replicate (length ps) Ret)).
Proof.
  revert l; induction ps as [|p ps IH]; intros l Hp; [by exists []|].
  assert (Hret : exists s, schedule once_atomic s (World (Once true true) n (l ++ p :: ps)) =
                   Some (World (Once true true) n (l ++ Ret :: ps))).
  { pose proof (Hp p ltac:(set_solver)). destruct p; try done.
    - exists [length l]. by one_run.
    - exists [length l; length l]. by do 2 one_run.
    - exists [length l]. by one_run.
    - by exists []. }
  destruct Hret as [s1 E1]. destruct (IH (l ++ [Ret])) as [s2 E2]; [set_solver|].
  exists (s1 ++ s2). rewrite schedule_app, E1. cbn [mbind option_bind].
  rewrite <- !app_assoc in E2. exact E2.
Qed.

Lemma workers_nil ps p : workers ps = [] -> p ∈ ps -> working p = false.
Proof.
  intros H Hp. destruct (working p) eqn:E; [|done]. apply list_elem_of_split in Hp as (l & k & ->).
  rewrite workers_app, workers_cons, E in H. by destruct (workers l).
Qed.

Lemma workers_elem ps p : p ∈ workers ps -> p ∈ ps.
Proof. unfold workers. rewrite list_elem_of_filter. tauto. Qed.

(** From every reachable state the flag can be raised. *)
Lemma make_done w :
  once_inv w -> threads w <> [] ->
  exists s w', schedule once_atomic s w = Some w' /\ flags w' = Once true true /\
    length (threads w') = length (threads w).
Proof.
  destruct w as [[b d] n ps]. intros [I1 I2 I3 I4] Hne; cbn [flags threads inits begun done_] in *. destruct d.
  { exists [], (World (Once true true) n ps). destruct b; [done|].
    destruct (I1 eq_refl) as (_ & ? & _). done. }
  destruct b.
  - assert (Hw : exists p, p ∈ ps /\ (p = Init \/ p = Store)).
    { destruct (I2 eq_refl eq_refl) as [[H _]|[H _]].
      - exists Init. split; [|by left]. apply workers_elem. rewrite H. by constructor.
      - exists Store. split; [|by right]. apply workers_elem. rewrite H. by constructor. }
    destruct Hw as (p & Hin & Hp). apply list_elem_of_split in Hin as (l & k & ->).
    destruct Hp as [-> | ->].
    + exists [length l; length l], (World (Once true true) (S n) (l ++ Ret :: k)).
      split; [by do 2 one_run|]. cbn. by rewrite !length_app.
    + exists [length l], (World (Once true true) n (l ++ Ret :: k)).
      split; [by one_run|]. cbn. by rewrite !length_app.
  - destruct ps as [|p ps]; [done|]. pose proof (I4 p ltac:(set_solver)) as Hp.
    pose proof (workers_nil _ p (proj1 (I1 eq_refl)) ltac:(set_solver)) as Hw.
    destruct p; try done.
    + exists [0; 0; 0; 0]%nat, (World (Once true true) (S n) (Ret :: ps)). done.
    + exists [0; 0; 0]%nat, (World (Once true true) (S n) (Ret :: ps)). done.
Qed.

(** C38: however the threads interleave, [init] is run at most once, and a thread
    that has returned from [once] finds it run to its end, with no thread
    still inside. *)
Theorem once_exactly_once n w :
  rtc (step once_atomic) (start n) w ->
  (inits w <= 1)%nat /\ (length (workers (threads w)) <= 1)%nat /\
  (Ret ∈ threads w -> inits w = 1%nat /\ workers (threads w) = []).
Proof.
  intros [I1 I2 I3 I4]%once_inv_reach. destruct (flags w) as [[] []]; cbn in *.
  - destruct I3 as [-> ->]; [done|]. cbn. auto with lia.
  - destruct (I2 eq_refl eq_refl) as [[-> ->]|[-> ->]]; cbn; split_and!; try lia; by intros ?%I4.
  - destruct (I1 eq_refl) as (_ & ? & _). done.
  - destruct (I1 eq_refl) as (-> & _ & ->). cbn. split_and!; try lia. by intros ?%I4.
Qed.

Lemma once_exactly_once_witness :
  exists w, rtc (step once_atomic) (start 2) w /\ Ret ∈ threads w /\ inits w = 1%nat.
Proof.
  destruct (schedule once_atomic [0; 1; 0; 1; 0; 0; 1]%nat (start 2)) as [w|] eqn:E;
    [|vm_compute in E; discriminate].
  pose proof (schedule_rtc _ _ _ _ E) as H. exists w. split; [exact H|].
  assert (Hr : Ret ∈ threads w) by (injection E as <-; by constructor).
  split; [exact Hr|]. exact (proj1 (proj2 (proj2 (once_exactly_once 2 w H)) Hr)).
Defined.

(** C39: no interleaving blocks the threads: from every reachable state some
    continuation brings every thread back from [once]. *)
Theorem once_no_deadlock n w :
  rtc (step once_atomic) (start n) w ->
  exists w', rtc (step once_atomic) w w' /\ threads w' = replicate (length (threads w)) Ret /\
             (threads w <> [] -> inits w' = 1%nat).
Proof.
  intros Hr. pose proof (once_inv_reach _ _ Hr) as I.
  destruct (decide (threads w = [])) as [E|Hne].
  { exists w. split; [done|]. by rewrite E. }
  destruct (make_done w I Hne) as (s1 & w1 & E1 & Ef & El).
  pose proof (schedule_rtc _ _ _ _ E1) as R1.
  destruct (once_inv_reach n w1 (transitivity (R:=rtc (step once_atomic)) Hr R1)) as [_ _ I3 I4].
  rewrite Ef in I3, I4. destruct (I3 eq_refl) as [Hw Hi].
  destruct (finish_done (threads w1) (inits w1) []) as [s2 E2].
  { intros p Hp. pose proof (I4 p Hp). pose proof (workers_nil _ p Hw Hp). by destruct p. }
  cbn [app] in E2. rewrite <- Ef in E2 at 1.
  assert (Ew : World (flags w1) (inits w1) (threads w1) = w1) by (by destruct w1).
  rewrite Ew in E2. exists (World (Once true true) (inits w1) (replicate (length (threads w1)) Ret)).
  split; [|split; [by rewrite <- El|done]].
  etransitivity; [exact R1|]. exact (schedule_rtc _ _ _ _ E2).
Qed.

Lemma once_no_deadlock_witness :
  exists w', rtc (step once_atomic) (start 3) w' /\ threads w' = replicate 3 Ret.
Proof.
  destruct (once_no_deadlock 3 (start 3) (rtc_refl _ _)) as (w' & H & E & _).
  exists w'. split; [exact H|exact E].
Defined.

(** C40: without atomics [once] runs [init] exactly once when the calls come one
    after the other; two calls that overlap can both run it, as the comment
    of the source warns. *)
Theorem once_plain_sequential n :
  schedule once_plain (replicate 5 0%nat ++ seq 1 n) (start (S n)) =
    Some (World (Once true true) 1 (replicate (S n) Ret)) /\
  exists w, schedule once_plain [0; 1; 0; 1; 0; 1; 0; 1]%nat (start (2 + n)) = Some w /\ inits w = 2%nat.
Proof.
  split; [|by eexists].
  rewrite schedule_app. change (start (S n)) with (World ONCE_INIT 0 (Load :: replicate n Load)).
  cbn -[seq]. enough (Hs : forall m l, schedule once_plain (seq (length l) m)
      (World (Once true true) 1 (l ++ replicate m Load)) =
      Some (World (Once true true) 1 (l ++ replicate m Ret))) by exact (Hs n [Ret]).
  induction m as [|m IH]; intros l; [done|]. cbn [seq replicate]. one_run.
  specialize (IH (l ++ [Ret])). rewrite length_app, Nat.add_comm, <- !app_assoc in IH. exact IH.
Qed.
