(* ===== verification/Huffman.v ===== *)
(** * Canonical prefix codes

    The code a list of lengths stands for in the deflate format (RFC 1951,
    3.2.2), stated apart from the programs: the first code of a length follows
    from the numbers of shorter codes, and the symbols of one length take
    consecutive codes in order.  [Puff] decodes these codes and [Trees]
    generates them. *)
From stdpp Require Import base numbers list.
From Stdlib Require Import ZArith Lia Bool.
From S2P Require Import Prelude.

(** The number of symbols of length [l]. *)
Definition bl_count (lens : list Z) (l : Z) : Z :=
  Z.of_nat (length (filter (fun x => x = l) lens)).

(** The number of symbols of the length [l] among those in the code: a length
    of zero means no code. *)
Definition code_count (lens : list Z) (l : nat) : Z :=
  match l with O => 0 | S _ => bl_count lens (Z.of_nat l) end.

(** The first code of length [l]. *)
Fixpoint first_code (lens : list Z) (l : nat) : Z :=
  match l with
  | O => 0
  | S l' => 2 * (first_code lens l' + code_count lens l')
  end.

(** The number of codes shorter than [l]. *)
Fixpoint index_of (lens : list Z) (l : nat) : Z :=
  match l with
  | O => 0
  | S l' => index_of lens l' + code_count lens l'
  end.

(** The codes of length [l] left over by the shorter codes and those of length
    [l]; negative for an over-subscribed set of lengths. *)
Fixpoint codes_left (lens : list Z) (l : nat) : Z :=
  match l with
  | O => 1
  | S l' => 2 * codes_left lens l' - code_count lens l
  end.

(** Symbol [s] has a code, of length [l]. *)
Definition is_sym (lens : list Z) (s l : Z) : Prop := aget lens s = Some l /\ 0 < l.

(** The position of [s] among the symbols of length [l]. *)
Definition rank (lens : list Z) (s l : Z) : Z := bl_count (take (Z.to_nat s) lens) l.

(** The bits of code [c] of length [l], most significant first. *)
Definition msb_bits (l : nat) (c : Z) : list bool := rev (z_bits l c).

Definition code_val (lens : list Z) (s l : Z) : Z := first_code lens (Z.to_nat l) + rank lens s l.

(** The code of symbol [s], in the order of the stream. *)
Definition code_bits (lens : list Z) (s : Z) : option (list bool) :=
  l ← aget lens s;
  if 0 <? l then Some (msb_bits (Z.to_nat l) (code_val lens s l)) else None.

(** No length has more codes than bit strings. *)
Definition not_over (lens : list Z) (n : nat) : Prop := forall l, (l <= n)%nat -> 0 <= codes_left lens l.

#[export] Instance not_over_dec lens n : Decision (not_over lens n).
Proof.
  refine (cast_if (decide (Forall (fun l => 0 <= codes_left lens l) (seq 0 (S n))))).
  - intros l Hl. eapply Forall_forall in f; [exact f|]. apply elem_of_seq. lia.
  - intros H. apply n0. apply Forall_forall. intros l Hl%elem_of_seq. apply H. lia.
Defined.

(** ** Reading a code bit by bit

    [walk lens n l code bits] reads codes of length [l] and more, [n] lengths
    at most, when [code] is the value of the [l - 1] bits read before.  A
    symbol is given by its length and rank. *)
Inductive walked :=
| Found (l : nat) (r : Z) (rest : list bool)
| Invalid (rest : list bool)
| Short.

Fixpoint walk (lens : list Z) (n l : nat) (code : Z) (bs : list bool) : walked :=
  match n with
  | O => Invalid bs
  | S n =>
      match bs with
      | [] => Short
      | b :: bs =>
          let code := 2 * code + Z.b2z b in
          if code <? first_code lens l + code_count lens l then Found l (code - first_code lens l) bs
          else walk lens n (S l) code bs
      end
  end.

(** ** Counting *)

Lemma bl_count_nonneg lens l : 0 <= bl_count lens l.
Proof. unfold bl_count. lia. Qed.

Lemma code_count_nonneg lens l : 0 <= code_count lens l.
Proof. destruct l; [done|apply bl_count_nonneg]. Qed.

Lemma bl_count_cons x lens l : bl_count (x :: lens) l = (if x =? l then 1 else 0) + bl_count lens l.
Proof.
  unfold bl_count. rewrite filter_cons. destruct (Z.eqb_spec x l); case_decide; try done.
  cbn [length]. lia.
Qed.

Lemma bl_count_app k lens l : bl_count (k ++ lens) l = bl_count k l + bl_count lens l.
Proof. unfold bl_count. rewrite filter_app, length_app. lia. Qed.

Lemma bl_count_le lens l : bl_count lens l <= Z.of_nat (length lens).
Proof.
  induction lens as [|x lens IH]; [done|]. rewrite bl_count_cons, length_cons.
  destruct (x =? l); lia.
Qed.

Lemma take_S_snoc (lens : list Z) s x :
  aget lens s = Some x -> take (Z.to_nat (s + 1)) lens = take (Z.to_nat s) lens ++ [x].
Proof.
  intros [Hs H]%aget_Some. replace (Z.to_nat (s + 1)) with (S (Z.to_nat s)) by lia.
  by apply take_S_r.
Qed.

Lemma rank_next lens s l x :
  aget lens s = Some x -> rank lens (s + 1) l = rank lens s l + (if x =? l then 1 else 0).
Proof.
  intros H. unfold rank. rewrite (take_S_snoc _ _ _ H), bl_count_app, bl_count_cons.
  change (bl_count [] l) with 0. lia.
Qed.

Lemma rank_mono lens s t l : s <= t -> rank lens s l <= rank lens t l.
Proof.
  intros H. unfold rank.
  rewrite <- (take_drop (Z.to_nat s) (take (Z.to_nat t) lens)), bl_count_app, take_take.
  replace (Z.to_nat s `min` Z.to_nat t)%nat with (Z.to_nat s) by lia.
  pose proof (bl_count_nonneg (drop (Z.to_nat s) (take (Z.to_nat t) lens)) l). lia.
Qed.

Lemma rank_bound lens s l : is_sym lens s l -> 0 <= rank lens s l < bl_count lens l.
Proof.
  intros [H _]. pose proof H as [Hs Hl]%aget_Some. split; [apply bl_count_nonneg|].
  pose proof (rank_next lens s l l H) as E. rewrite Z.eqb_refl in E.
  pose proof (rank_mono lens (s + 1) (Z.of_nat (length lens)) l
                ltac:(pose proof (lookup_lt_Some _ _ _ Hl); lia)) as Hm.
  unfold rank at 2 in Hm. rewrite take_ge in Hm by lia. lia.
Qed.

Lemma rank_inj lens s t l : is_sym lens s l -> is_sym lens t l -> rank lens s l = rank lens t l -> s = t.
Proof.
  assert (Hlt : forall s t, is_sym lens s l -> s < t -> rank lens s l < rank lens t l).
  { intros s' t' [H _] Hst. pose proof (rank_next _ _ l _ H) as E. rewrite Z.eqb_refl in E.
    pose proof (rank_mono lens (s' + 1) t' l). lia. }
  intros Hs Ht E. destruct (Z.lt_total s t) as [H|[H|H]]; [|done|].
  - apply (Hlt s t Hs) in H. lia.
  - apply (Hlt t s Ht) in H. lia.
Qed.

(** The symbols of one length take all the ranks below their number. *)
Lemma rank_surj lens l r :
  0 < l -> 0 <= r < bl_count lens l -> exists s, is_sym lens s l /\ rank lens s l = r.
Proof.
  intros Hl. revert r. induction lens as [|x lens IH] using rev_ind; intros r Hr.
  { unfold bl_count in Hr. cbn in Hr. lia. }
  assert (Hpre : forall s, is_sym lens s l -> is_sym (lens ++ [x]) s l /\
                   rank (lens ++ [x]) s l = rank lens s l).
  { intros s [H ?]. pose proof (aget_Some_lt _ _ _ H). split.
    - split; [|done]. by rewrite aget_app_l by lia.
    - unfold rank. by rewrite take_app_le by lia. }
  rewrite bl_count_app, bl_count_cons in Hr. change (bl_count [] l) with 0 in Hr.
  destruct (Z_lt_ge_dec r (bl_count lens l)) as [H|H].
  - destruct (IH r) as (s & Hs & E); [lia|]. exists s. destruct (Hpre s Hs) as [? ->]. done.
  - destruct (Z.eqb_spec x l) as [->|Hne]; [|lia]. exists (Z.of_nat (length lens)). split.
    + split; [|done]. apply aget_Some. split; [lia|]. rewrite Nat2Z.id. apply list_lookup_middle. done.
    + unfold rank. rewrite Nat2Z.id, take_app_length. lia.
Qed.

(** ** The structure of the code *)

Lemma codes_left_eq lens l :
  codes_left lens l = 2 ^ Z.of_nat l - first_code lens l - code_count lens l.
Proof.
  induction l as [|l IH]; [done|]. cbn [codes_left first_code]. rewrite IH.
  replace (2 ^ Z.of_nat (S l)) with (2 * 2 ^ Z.of_nat l); [lia|].
  rewrite <- Z.pow_succ_r by lia. f_equal. lia.
Qed.

Lemma codes_left_neg lens l k : (l <= k)%nat -> codes_left lens l < 0 -> codes_left lens k < 0.
Proof.
  induction 1 as [|k _ IH]; [done|]. intros H%IH. cbn [codes_left].
  pose proof (code_count_nonneg lens (S k)). lia.
Qed.

Lemma not_over_iff lens n : not_over lens n <-> 0 <= codes_left lens n.
Proof.
  split; [intros H; by apply H|]. intros H l Hl. destruct (Z_lt_ge_dec (codes_left lens l) 0); [|lia].
  pose proof (codes_left_neg lens l n Hl). lia.
Qed.

Lemma first_code_nonneg lens l : 0 <= first_code lens l.
Proof. induction l as [|l IH]; [done|]. cbn [first_code]. pose proof (code_count_nonneg lens l). lia. Qed.

Lemma index_of_mono lens l k : (l <= k)%nat -> index_of lens l <= index_of lens k.
Proof.
  induction 1 as [|k _ IH]; [done|]. cbn [index_of]. pose proof (code_count_nonneg lens k). lia.
Qed.

Lemma index_of_nonneg lens l : 0 <= index_of lens l.
Proof. apply (index_of_mono lens 0). lia. Qed.

(** Every longer code lies beyond the codes of length [l]. *)
Lemma first_code_shift lens l k :
  (l < k)%nat -> (first_code lens l + code_count lens l) * 2 ^ (Z.of_nat k - Z.of_nat l) <= first_code lens k.
Proof.
  induction 1 as [|k Hk IH].
  - replace (Z.of_nat (S l) - Z.of_nat l) with 1 by lia. cbn [first_code]. lia.
  - cbn [first_code]. pose proof (code_count_nonneg lens k).
    replace (Z.of_nat (S k) - Z.of_nat l) with (Z.succ (Z.of_nat k - Z.of_nat l)) by lia.
    rewrite Z.pow_succ_r by lia. lia.
Qed.

Lemma is_sym_count lens s l : is_sym lens s l -> code_count lens (Z.to_nat l) = bl_count lens l.
Proof. intros [_ H]. unfold code_count. case_match; [lia|]. f_equal. lia. Qed.

Lemma code_val_bounds lens s l :
  is_sym lens s l ->
  first_code lens (Z.to_nat l) <= code_val lens s l < first_code lens (Z.to_nat l) + code_count lens (Z.to_nat l).
Proof. intros H. rewrite (is_sym_count _ _ _ H). unfold code_val. pose proof (rank_bound _ _ _ H). lia. Qed.

Lemma code_val_fits lens s l n :
  is_sym lens s l -> not_over lens n -> (Z.to_nat l <= n)%nat -> 0 <= code_val lens s l < 2 ^ l.
Proof.
  intros H Ho Hn. pose proof (code_val_bounds _ _ _ H). pose proof (first_code_nonneg lens (Z.to_nat l)).
  pose proof (Ho _ Hn) as Hl. rewrite codes_left_eq, Z2Nat.id in Hl by (destruct H; lia). lia.
Qed.

(** ** Bit strings, most significant bit first *)

Lemma length_msb_bits l c : length (msb_bits l c) = l.
Proof. unfold msb_bits. by rewrite length_rev, length_z_bits. Qed.

Lemma msb_bits_S l c :
  msb_bits (S l) c = Z.testbit c (Z.of_nat l) :: msb_bits l c.
Proof.
  unfold msb_bits. replace (S l) with (l + 1)%nat by lia. rewrite z_bits_app. cbn [z_bits].
  rewrite rev_app_distr. cbn [rev app]. f_equal. rewrite <- Z.bit0_odd, Z.shiftr_spec by lia.
  f_equal.
Qed.

Lemma msb_bits_snoc l c b : msb_bits (S l) (2 * c + Z.b2z b) = msb_bits l c ++ [b].
Proof.
  unfold msb_bits. cbn [z_bits rev]. f_equal; [do 2 f_equal|f_equal].
  - rewrite Z.div2_div. destruct b; simpl Z.b2z; Z.div_mod_to_equations; lia.
  - rewrite Z.add_comm, Z.odd_add_mul_2. by destruct b.
Qed.

(** The bits after the first [k] of a code, and the value of the first [k]. *)
Lemma walk_code lens n l k c rest :
  (k <= l)%nat -> (l <= n + k)%nat -> 0 <= c < 2 ^ Z.of_nat l ->
  first_code lens l <= c < first_code lens l + code_count lens l -> (k < l)%nat ->
  walk lens n (S k) (Z.shiftr c (Z.of_nat l - Z.of_nat k)) (msb_bits (l - k) c ++ rest) =
    Found l (c - first_code lens l) rest.
Proof.
  intros Hk Hn Hc Hf. revert k Hk Hn. induction n as [|n IH]; intros k Hk Hn Hlt; [lia|].
  destruct (l - k)%nat as [|m] eqn:Em; [lia|]. rewrite msb_bits_S. cbn [app walk].
  assert (Es : 2 * Z.shiftr c (Z.of_nat l - Z.of_nat k) + Z.b2z (Z.testbit c (Z.of_nat m))
               = Z.shiftr c (Z.of_nat l - Z.of_nat (S k))).
  { replace (Z.of_nat l - Z.of_nat k) with (Z.of_nat m + 1) by lia.
    replace (Z.of_nat l - Z.of_nat (S k)) with (Z.of_nat m) by lia.
    rewrite <- Z.shiftr_shiftr by lia. set (y := Z.shiftr c (Z.of_nat m)).
    replace (Z.testbit c (Z.of_nat m)) with (Z.testbit y 0) by
      (unfold y; rewrite Z.shiftr_spec by lia; f_equal; lia).
    rewrite Z.bit0_odd, <- Z.div2_spec. symmetry. apply Z.div2_odd. }
  rewrite Es. destruct (decide (S k = l)) as [<-|Hne].
  - rewrite Z.sub_diag, Z.shiftr_0_r. destruct (Z.ltb_spec c (first_code lens (S k) + code_count lens (S k))); [|lia].
    replace m with 0%nat by lia. done.
  - pose proof (first_code_shift lens (S k) l ltac:(lia)) as Hs.
    destruct (Z.ltb_spec (Z.shiftr c (Z.of_nat l - Z.of_nat (S k))) (first_code lens (S k) + code_count lens (S k))) as [H|H].
    + exfalso. rewrite Z.shiftr_div_pow2 in H by lia.
      assert (0 < 2 ^ (Z.of_nat l - Z.of_nat (S k))) by (apply Z.pow_pos_nonneg; lia).
      pose proof (Z.mul_succ_div_gt c (2 ^ (Z.of_nat l - Z.of_nat (S k))) ltac:(lia)). nia.
    + replace m with (l - S k)%nat by lia. apply IH; lia.
Qed.

(** ** Reading a code back *)

Section Reading.
Context (lens : list Z) (n : nat).

(** The code of a symbol is read back, whatever follows it. *)
Lemma walk_complete s l rest :
  is_sym lens s l -> (Z.to_nat l <= n)%nat -> not_over lens n ->
  walk lens n 1 0 (msb_bits (Z.to_nat l) (code_val lens s l) ++ rest) =
    Found (Z.to_nat l) (rank lens s l) rest.
Proof.
  intros Hs Hl Ho. pose proof (code_val_fits lens s l n Hs Ho Hl) as Hf.
  pose proof (code_val_bounds lens s l Hs) as Hb. destruct Hs as [Ha Hpos].
  assert (E0 : Z.shiftr (code_val lens s l) (Z.of_nat (Z.to_nat l) - Z.of_nat 0) = 0).
  { rewrite Z.shiftr_div_pow2 by lia. apply Z.div_small. rewrite Z.sub_0_r, Z2Nat.id by lia. lia. }
  pose proof (walk_code lens n (Z.to_nat l) 0 (code_val lens s l) rest) as H.
  rewrite E0, Nat.sub_0_r in H. rewrite H; try lia; [f_equal; unfold code_val; lia|].
  rewrite Z2Nat.id by lia. lia.
Qed.

(** What is read is the code of a symbol. *)
Lemma walk_sound_from m k c bs l r rest :
  first_code lens (S k) <= 2 * c -> (S k + m <= S n)%nat -> walk lens m (S k) c bs = Found l r rest ->
  exists s, is_sym lens s (Z.of_nat l) /\ rank lens s (Z.of_nat l) = r /\ (l <= n)%nat /\
    msb_bits k c ++ bs = msb_bits l (code_val lens s (Z.of_nat l)) ++ rest.
Proof.
  revert k c bs. induction m as [|m IH]; intros k c bs Hf Hm; [done|].
  cbn [walk]. destruct bs as [|b bs]; [done|].
  assert (Hb : 0 <= Z.b2z b <= 1) by (by destruct b).
  destruct (Z.ltb_spec (2 * c + Z.b2z b) (first_code lens (S k) + code_count lens (S k))) as [H|H].
  - intros [= <- <- <-].
    destruct (rank_surj lens (Z.of_nat (S k)) (2 * c + Z.b2z b - first_code lens (S k))) as (s & Hs & Hr);
      [lia|cbn [code_count] in H; lia|].
    exists s. split; [done|]. split; [done|]. split; [lia|].
    assert (Ev : code_val lens s (Z.of_nat (S k)) = 2 * c + Z.b2z b)
      by (unfold code_val; rewrite Hr, Nat2Z.id; lia).
    by rewrite Ev, msb_bits_snoc, <- app_assoc.
  - intros Hw. apply IH in Hw as (s & Hs & Hr & Hl & E); [|cbn [first_code] in *; lia|lia].
    exists s. split; [done|]. split; [done|]. split; [done|].
    by rewrite msb_bits_snoc, <- app_assoc in E.
Qed.

Lemma walk_sound bs l r rest :
  walk lens n 1 0 bs = Found l r rest ->
  exists s, is_sym lens s (Z.of_nat l) /\ rank lens s (Z.of_nat l) = r /\
    code_bits lens s = Some (msb_bits l (code_val lens s (Z.of_nat l))) /\ (l <= n)%nat /\
    bs = msb_bits l (code_val lens s (Z.of_nat l)) ++ rest.
Proof.
  intros Hw. apply walk_sound_from in Hw as (s & Hs & Hr & Hl & E); [|cbn; lia|lia].
  exists s. split; [done|]. split; [done|]. split; [|split; [done|exact E]].
  destruct Hs as [Ha Hp]. unfold code_bits. rewrite Ha. cbn [mbind option_bind].
  destruct (Z.ltb_spec 0 (Z.of_nat l)); [|lia]. by rewrite Nat2Z.id.
Qed.

(** Bits are taken from the front. *)
Lemma walk_length m k c bs l r rest :
  walk lens m k c bs = Found l r rest -> (length bs + k = length rest + S l)%nat.
Proof.
  revert k c bs. induction m as [|m IH]; intros k c bs; [done|]. cbn [walk].
  destruct bs as [|b bs]; [done|]. cbn [length]. case_match.
  - intros [= <- _ <-]. lia.
  - intros H0%IH. lia.
Qed.

(** With [n] bits at hand the code is read or is invalid. *)
Lemma walk_short m k c bs : (m <= length bs)%nat -> walk lens m k c bs <> Short.
Proof.
  revert k c bs. induction m as [|m IH]; intros k c bs Hl; [done|]. cbn [walk].
  destruct bs as [|b bs]; cbn [length] in Hl; [lia|]. case_match; [done|]. apply IH. lia.
Qed.
End Reading.

Lemma code_bits_Some lens s w :
  code_bits lens s = Some w <->
  exists l, is_sym lens s l /\ w = msb_bits (Z.to_nat l) (code_val lens s l).
Proof.
  unfold code_bits, is_sym. split.
  - intros (l & Ha & H)%bind_Some. exists l. destruct (Z.ltb_spec 0 l); [|done]. by injection H.
  - intros (l & [Ha Hl] & ->). rewrite Ha. cbn [mbind option_bind]. by destruct (Z.ltb_spec 0 l); [|lia].
Qed.

Lemma code_bits_length lens s l w :
  code_bits lens s = Some w -> aget lens s = Some l -> 0 < l /\ length w = Z.to_nat l.
Proof.
  rewrite code_bits_Some. intros (l' & [Ha Hl] & ->) Ha'. rewrite Ha in Ha'. injection Ha' as <-.
  by rewrite length_msb_bits.
Qed.

(** The code is prefix free. *)
Lemma code_prefix_free lens n s t w v r1 r2 :
  not_over lens n -> Forall (fun l => Z.to_nat l <= n)%nat lens ->
  code_bits lens s = Some w -> code_bits lens t = Some v -> w ++ r1 = v ++ r2 -> s = t /\ r1 = r2.
Proof.
  intros Ho Hl (l & Hs & ->)%code_bits_Some (k & Ht & ->)%code_bits_Some E.
  assert (Hb : forall s l, is_sym lens s l -> (Z.to_nat l <= n)%nat).
  { intros ?? [[_ H]%aget_Some _]. eapply Forall_lookup_1 in Hl; [exact Hl|exact H]. }
  pose proof (walk_complete lens n s l r1 Hs (Hb _ _ Hs) Ho) as E1.
  pose proof (walk_complete lens n t k r2 Ht (Hb _ _ Ht) Ho) as E2.
  rewrite <- E, E1 in E2. injection E2 as El Er <-.
  assert (l = k) as <- by (destruct Hs, Ht; lia). split; [|done]. by eapply rank_inj.
Qed.

(** ** Symbols without a code at the end *)

Lemma bl_count_pad lens k l : 0 < l -> bl_count (lens ++ replicate k 0) l = bl_count lens l.
Proof.
  intros Hl. rewrite bl_count_app. assert (E : bl_count (replicate k 0) l = 0); [|lia].
  induction k as [|k IH]; [done|]. cbn [replicate]. rewrite bl_count_cons, IH. destruct (Z.eqb_spec 0 l); lia.
Qed.

Lemma code_count_pad lens k l : code_count (lens ++ replicate k 0) l = code_count lens l.
Proof. destruct l as [|l]; [done|]. apply bl_count_pad. lia. Qed.

Lemma first_code_pad lens k l : first_code (lens ++ replicate k 0) l = first_code lens l.
Proof. induction l as [|l IH]; [done|]. cbn [first_code]. by rewrite IH, code_count_pad. Qed.

Lemma codes_left_pad lens k l : codes_left (lens ++ replicate k 0) l = codes_left lens l.
Proof. induction l as [|l IH]; [done|]. cbn [codes_left]. by rewrite IH, code_count_pad. Qed.

Lemma code_bits_pad lens k s : code_bits (lens ++ replicate k 0) s = code_bits lens s.
Proof.
  unfold code_bits. destruct (decide (s < Z.of_nat (length lens))) as [Hs|Hs].
  - rewrite aget_app_l by done. destruct (aget lens s) as [l|] eqn:E; [|done]. cbn [mbind option_bind].
    destruct (Z.ltb_spec 0 l); [|done]. unfold code_val, rank. rewrite first_code_pad, take_app_le; [done|].
    apply aget_Some_lt in E. lia.
  - assert (E : aget lens s = None).
    { destruct (aget lens s) eqn:E; [|done]. apply aget_Some_lt in E. lia. }
    rewrite E. destruct (aget (lens ++ replicate k 0) s) as [l|] eqn:E'; [|done]. cbn [mbind option_bind].
    apply aget_Some in E' as [H0 E']. rewrite lookup_app_r in E' by lia. apply lookup_replicate in E' as [-> _]. done.
Qed.
