(* ===== verification/Deflate.v ===== *)
(** * The deflate format (RFC 1951)

    What a stream of blocks stands for, stated apart from the programs as
    relations between bit strings and the bytes they expand to.  [PuffFacts]
    and the files after it show that [puff] accepts exactly these streams;
    [TreesBlock] that the block writer of trees.c emits such blocks. *)
From stdpp Require Import base numbers list.
From Stdlib Require Import ZArith Lia Bool.
From S2P Require Import Prelude Huffman.

(** ** Literals and matches *)

Inductive token :=
| Lit (b : Z)
| Copy (len dist : Z).

(** Extra bits and base of length code [257 + k] and distance code [k]. *)
Definition len_extra (k : Z) : Z := if (k <? 8) || (k =? 28) then 0 else (k - 4) / 4.
Definition dist_extra (k : Z) : Z := if k <? 4 then 0 else (k - 2) / 2.

(** The ranges of the codes follow one another. *)
Definition base_sum (extra : Z -> Z) (start k : Z) : Z :=
  foldl (fun a i => a + 2 ^ extra i) start (seqZ 0 k).

Definition len_base (k : Z) : Z := if k =? 28 then 258 else base_sum len_extra 3 k.
Definition dist_base (k : Z) : Z := base_sum dist_extra 1 k.

(** The bits of the tokens of a block and of its end, under the codes [ll] for
    literals and lengths and [dl] for distances. *)
Inductive coded (ll dl : list Z) : list token -> list bool -> Prop :=
| coded_end w :
    code_bits ll 256 = Some w -> coded ll dl [] w
| coded_lit b w ts bs :
    0 <= b < 256 -> code_bits ll b = Some w -> coded ll dl ts bs ->
    coded ll dl (Lit b :: ts) (w ++ bs)
| coded_copy k e w j f v ts bs :
    0 <= k < 29 -> code_bits ll (257 + k) = Some w -> 0 <= e < 2 ^ len_extra k ->
    0 <= j < 30 -> code_bits dl j = Some v -> 0 <= f < 2 ^ dist_extra j ->
    coded ll dl ts bs ->
    coded ll dl (Copy (len_base k + e) (dist_base j + f) :: ts)
      (w ++ z_bits (Z.to_nat (len_extra k)) e ++ v ++ z_bits (Z.to_nat (dist_extra j)) f ++ bs).

(** The bytes of a match, each from [dist] bytes back. *)
Fixpoint copy_bytes (n : nat) (dist : Z) (out : list Z) : option (list Z) :=
  match n with
  | O => Some out
  | S n => b ← aget out (Z.of_nat (length out) - dist); copy_bytes n dist (out ++ [b])
  end.

(** A match reaches back into the bytes that are there. *)
Definition expand1 (out : list Z) (t : token) : option (list Z) :=
  match t with
  | Lit b => Some (out ++ [b])
  | Copy len dist =>
      if (1 <=? dist) && (dist <=? Z.of_nat (length out)) then copy_bytes (Z.to_nat len) dist out
      else None
  end.

Fixpoint expand (out : list Z) (ts : list token) : option (list Z) :=
  match ts with
  | [] => Some out
  | t :: ts => out ← expand1 out t; expand out ts
  end.

(** ** The codes of a block *)

(** The fixed code lengths. *)
Definition fixed_ll : list Z :=
  replicate 144 8 ++ replicate 112 9 ++ replicate 24 7 ++ replicate 8 8.
Definition fixed_dl : list Z := replicate 30 5.

(** A set of lengths a block may use: complete, or codes of one bit only. *)
Definition usable (lens : list Z) : Prop :=
  not_over lens 15 /\ (codes_left lens 15 = 0 \/ Forall (fun l => l <= 1) lens).

(** The order in which the lengths of the code length code are sent. *)
Definition clen_order : list Z :=
  [16; 17; 18; 0; 8; 7; 9; 6; 10; 5; 11; 4; 12; 3; 13; 2; 14; 1; 15].

(** The run-length coded list of code lengths: [rle cl l bs l'] when [bs]
    extends the lengths [l] to [l']. *)
Inductive rle (cl : list Z) : list Z -> list bool -> list Z -> Prop :=
| rle_end l : rle cl l [] l
| rle_len l x w bs l' :
    0 <= x < 16 -> code_bits cl x = Some w -> rle cl (l ++ [x]) bs l' ->
    rle cl l (w ++ bs) l'
| rle_prev l x e w bs l' :
    code_bits cl 16 = Some w -> 0 <= e < 4 ->
    rle cl (l ++ [x] ++ replicate (Z.to_nat (3 + e)) x) bs l' ->
    rle cl (l ++ [x]) (w ++ z_bits 2 e ++ bs) l'
| rle_zeros l e w bs l' :
    code_bits cl 17 = Some w -> 0 <= e < 8 ->
    rle cl (l ++ replicate (Z.to_nat (3 + e)) 0) bs l' ->
    rle cl l (w ++ z_bits 3 e ++ bs) l'
| rle_many l e w bs l' :
    code_bits cl 18 = Some w -> 0 <= e < 128 ->
    rle cl (l ++ replicate (Z.to_nat (11 + e)) 0) bs l' ->
    rle cl l (w ++ z_bits 7 e ++ bs) l'.

(** [x] is the length sent at position [i] of the permuted list [hl]. *)
Definition clens_of (hl cl : list Z) : Prop :=
  length cl = 19%nat /\
  forall i o, aget clen_order i = Some o -> aget cl o = Some (default 0 (aget hl i)).

(** The bits of the description of the codes of a dynamic block: three counts,
    the lengths of the code length code, the coded lengths. *)
Definition header_bits (nlen ndist ncode : Z) (hl : list Z) (w : list bool) : list bool :=
  z_bits 5 (nlen - 257) ++ z_bits 5 (ndist - 1) ++ z_bits 4 (ncode - 4) ++ (hl ≫= z_bits 3) ++ w.

Definition header (ll dl : list Z) (h : list bool) : Prop :=
  exists hl cl w,
    let nlen := Z.of_nat (length ll) in
    let ndist := Z.of_nat (length dl) in
    let ncode := Z.of_nat (length hl) in
    h = header_bits nlen ndist ncode hl w /\
    257 <= nlen <= 286 /\ 1 <= ndist <= 30 /\ 4 <= ncode <= 19 /\
    Forall (fun x => 0 <= x < 8) hl /\ clens_of hl cl /\
    not_over cl 15 /\ codes_left cl 15 = 0 /\
    rle cl [] w (ll ++ dl) /\
    aget ll 256 <> Some 0 /\ usable ll /\ usable dl.

(** ** Blocks and streams *)

(** The length of a stored block, its complement, the bytes. *)
Definition stored_bits (data : list Z) : list bool :=
  z_bits 16 (Z.of_nat (length data)) ++ z_bits 16 (65535 - Z.of_nat (length data)) ++ bytes_bits data.

(** [block ty out bs out' rest]: after its type [ty], the block at the front
    of [bs] extends the bytes [out] to [out'] and leaves [rest].  The stream
    ends on a byte boundary, so a stored block starts where the number of
    bits left is a multiple of 8. *)
Inductive block : Z -> list Z -> list bool -> list Z -> list bool -> Prop :=
| block_stored (out : list Z) (pad : list bool) (data : list Z) (rest : list bool) :
    (length pad < 8)%nat -> (length rest mod 8 = 0)%nat -> Forall is_byte data ->
    Z.of_nat (length data) < 2 ^ 16 ->
    block 0 out (pad ++ stored_bits data ++ rest) (out ++ data) rest
| block_fixed out ts w out' rest :
    coded fixed_ll fixed_dl ts w -> expand out ts = Some out' ->
    block 1 out (w ++ rest) out' rest
| block_dynamic out ll dl h ts w out' rest :
    header ll dl h -> coded ll dl ts w -> expand out ts = Some out' ->
    block 2 out (h ++ w ++ rest) out' rest.

(** A sequence of blocks, the last one marked. *)
Inductive stream : list Z -> list bool -> list Z -> list bool -> Prop :=
| stream_last ty out bs out' rest :
    0 <= ty < 3 -> block ty out bs out' rest ->
    stream out (true :: z_bits 2 ty ++ bs) out' rest
| stream_more ty out bs out1 mid out' rest :
    0 <= ty < 3 -> block ty out bs out1 mid -> stream out1 mid out' rest ->
    stream out (false :: z_bits 2 ty ++ bs) out' rest.

(** ** Facts on expansion *)

Lemma copy_bytes_app n dist out out' :
  copy_bytes n dist out = Some out' -> exists k, out' = out ++ k /\ length k = n.
Proof.
  revert out. induction n as [|n IH]; intros out; cbn [copy_bytes].
  - intros [= <-]. exists []. by rewrite app_nil_r.
  - intros (b & _ & (k & -> & Hk)%IH)%bind_Some. exists (b :: k). by rewrite <- app_assoc, <- Hk.
Qed.

Lemma expand1_app out t out' : expand1 out t = Some out' -> exists k, out' = out ++ k.
Proof.
  destruct t as [b|len dist]; cbn [expand1].
  - intros [= <-]. by eexists.
  - case_match; [|done]. intros (k & ? & _)%copy_bytes_app. by exists k.
Qed.

Lemma expand_app out ts out' : expand out ts = Some out' -> exists k, out' = out ++ k.
Proof.
  revert out. induction ts as [|t ts IH]; intros out; cbn [expand].
  - intros [= <-]. exists []. by rewrite app_nil_r.
  - intros (o & (k & ->)%expand1_app & (k' & ->)%IH)%bind_Some. exists (k ++ k'). by rewrite app_assoc.
Qed.

Lemma block_app ty out bs out' rest : block ty out bs out' rest -> exists k, out' = out ++ k.
Proof. destruct 1; eauto using expand_app. Qed.

Lemma stream_app out bs out' rest : stream out bs out' rest -> exists k, out' = out ++ k.
Proof.
  induction 1 as [ty out bs out' rest _ H|ty out bs out1 mid out' rest _ H _ IH].
  - by eapply block_app.
  - apply block_app in H as [k ->]. destruct IH as [k' ->]. exists (k ++ k'). by rewrite app_assoc.
Qed.

Lemma block_stored_inv out bs out' rest :
  block 0 out bs out' rest -> exists pad data,
    (length pad < 8)%nat /\ (length rest mod 8 = 0)%nat /\ Forall is_byte data /\
    Z.of_nat (length data) < 2 ^ 16 /\ bs = pad ++ stored_bits data ++ rest /\ out' = out ++ data.
Proof. inversion 1; subst. eauto 10. Qed.

Lemma block_fixed_inv out bs out' rest :
  block 1 out bs out' rest -> exists ts w,
    coded fixed_ll fixed_dl ts w /\ expand out ts = Some out' /\ bs = w ++ rest.
Proof. inversion 1; subst. eauto. Qed.

Lemma block_dynamic_inv out bs out' rest :
  block 2 out bs out' rest -> exists ll dl h ts w,
    header ll dl h /\ coded ll dl ts w /\ expand out ts = Some out' /\ bs = h ++ w ++ rest.
Proof. inversion 1; subst. eauto 10. Qed.

(** ** How much a stream expands

    A match of at most 258 bytes takes two bits at least, so a stream expands
    by a factor of 1032 at most. *)
Lemma copy_bytes_length n dist out out' :
  copy_bytes n dist out = Some out' -> length out' = (length out + n)%nat.
Proof. intros (k & -> & <-)%copy_bytes_app. by rewrite length_app. Qed.

Lemma len_bound k e : 0 <= k < 29 -> 0 <= e < 2 ^ len_extra k -> 0 <= len_base k + e <= 258.
Proof.
  intros Hk He.
  assert (H : Forall (fun k => 0 <= len_base k /\ len_base k + 2 ^ len_extra k <= 259) (seqZ 0 29))
    by (apply (bool_decide_unpack _); vm_compute; exact I).
  rewrite Forall_forall in H. specialize (H k ltac:(apply elem_of_seqZ; lia)). cbv beta in H. lia.
Qed.

Lemma code_bits_nonempty lens s w : code_bits lens s = Some w -> (0 < length w)%nat.
Proof. intros (l & [_ Hl] & ->)%code_bits_Some. rewrite length_msb_bits. lia. Qed.

Lemma coded_bound ll dl ts w out out' :
  coded ll dl ts w -> expand out ts = Some out' -> (length out' <= length out + 129 * length w)%nat.
Proof.
  intros H. revert out. induction H as [w H|b w ts bs _ H _ IH|k e w j f v ts bs Hk H He Hj Hv Hf _ IH]; intros out.
  - intros [= <-]. lia.
  - cbn [expand expand1 mbind option_bind]. intros Hx%IH. apply code_bits_nonempty in H.
    rewrite !length_app in *. cbn [length] in Hx. lia.
  - cbn [expand]. intros (o & Ho & Hx%IH)%bind_Some. cbn [expand1] in Ho. case_match; [|done].
    apply copy_bytes_length in Ho. apply code_bits_nonempty in H, Hv.
    pose proof (len_bound k e Hk He). rewrite !length_app. lia.
Qed.

Lemma block_bound ty out bs out' rest :
  block ty out bs out' rest -> (length out' + 129 * length rest <= length out + 129 * length bs)%nat.
Proof.
  destruct 1 as [out pad data rest _ _ _ _|out ts w out' rest Hc Hx|out ll dl h ts w out' rest _ Hc Hx];
    rewrite ?length_app.
  - unfold stored_bits. rewrite !length_app, length_bytes_bits. lia.
  - pose proof (coded_bound _ _ _ _ _ _ Hc Hx). lia.
  - pose proof (coded_bound _ _ _ _ _ _ Hc Hx). lia.
Qed.

Lemma stream_bound_bits out bs out' rest :
  stream out bs out' rest -> (length out' + 129 * length rest <= length out + 129 * length bs)%nat.
Proof.
  induction 1 as [ty out bs out' rest _ H|ty out bs out1 mid out' rest _ H _ IH];
    apply block_bound in H; cbn [length]; rewrite length_app; lia.
Qed.
