(* ===== verification/Puff.v ===== *)
(** * The inflater of contrib/puff (examples/compression/zlib/contrib/puff/puff.c)

    [puff] and the functions it calls, in the effect monad of [Prelude] over
    the record [state].  [longjmp] is [throw 1]; an access outside an array, or
    to a cell nothing has been stored in, is [Ub].  [decode] has the two
    versions of the source; the functions that call it are parameterised by
    the version.

    The counters [incnt], [outcnt] and the lengths are [unsigned long] in the
    source and integers here: with a buffer they stay within the lengths the
    caller gives ([PuffProps.puff_safe]), and without one a successful call counts
    at most 1032 bytes for each byte of input ([PuffProps.puff_bound]).
    The static tables of [fixed] live in the field [fx] of the state. *)
From stdpp Require Import base numbers list.
From Stdlib Require Import ZArith Lia Bool.
From S2P Require Import Prelude.

Definition MAXBITS : Z := 15.
Definition MAXLCODES : Z := 286.
Definition MAXDCODES : Z := 30.
Definition MAXCODES : Z := MAXLCODES + MAXDCODES.
Definition FIXLCODES : Z := 288.

(** A cell of an array on the stack has no value before the first store. *)
Definition rd (l : list (option Z)) (i : Z) : option Z := mjoin (aget l i).

Record huffman := Huffman { count : list (option Z); symbol : list (option Z) }.

(** The static variables of [fixed]. *)
Record statics := Statics { virgin : Z; lencode_f : huffman; distcode_f : huffman }.

Definition cells (n : Z) (c : option Z) : list (option Z) := replicate (Z.to_nat n) c.

Definition statics_init : statics :=
  Statics 1 (Huffman (cells (MAXBITS + 1) (Some 0)) (cells FIXLCODES (Some 0)))
            (Huffman (cells (MAXBITS + 1) (Some 0)) (cells MAXDCODES (Some 0))).

Record state := State {
  out : option (list Z); (* [None] is NIL *)
  outlen : Z;
  outcnt : Z;
  inp : list Z;
  inlen : Z;
  incnt : Z;
  bitbuf : Z;
  bitcnt : Z;
  fx : statics }.

Definition set_bits (buf cnt : Z) (s : state) : state :=
  State (out s) (outlen s) (outcnt s) (inp s) (inlen s) (incnt s) buf cnt (fx s).
Definition set_incnt (n : Z) (s : state) : state :=
  State (out s) (outlen s) (outcnt s) (inp s) (inlen s) n (bitbuf s) (bitcnt s) (fx s).
Definition set_outcnt (n : Z) (s : state) : state :=
  State (out s) (outlen s) n (inp s) (inlen s) (incnt s) (bitbuf s) (bitcnt s) (fx s).
Definition set_out (o : list Z) (s : state) : state :=
  State (Some o) (outlen s) (outcnt s) (inp s) (inlen s) (incnt s) (bitbuf s) (bitcnt s) (fx s).
Definition set_fx (f : statics) (s : state) : state :=
  State (out s) (outlen s) (outcnt s) (inp s) (inlen s) (incnt s) (bitbuf s) (bitcnt s) f.

(** [s->in[s->incnt++]] *)
Definition next_in : M state Z :=
  s ← get; b ← lift (aget (inp s) (incnt s)); modify (set_incnt (incnt s + 1));; mret b.

(** [s->out[s->outcnt] = c] when there is a buffer. *)
Definition store_out (c : Z) : M state unit :=
  s ← get;
  match out s with
  | Some o => o ← lift (aset o (outcnt s) (wrap 8 c)); modify (set_out o)
  | None => mret tt
  end.

Fixpoint bits_loop (fuel : nat) (val need : Z) : M state Z :=
  match fuel with
  | O => nofuel
  | S fuel =>
      s ← get;
      if bitcnt s <? need then
        if incnt s =? inlen s then throw 1
        else
          b ← next_in;
          let val := Z.lor val (Z.shiftl b (bitcnt s)) in
          modify (set_bits (bitbuf s) (bitcnt s + 8));;
          bits_loop fuel val need
      else mret val
  end.

(** Every turn of the loop adds bits, so [need + 1] turns are enough. *)
Definition bits (need : Z) : M state Z :=
  s ← get;
  val ← bits_loop (S (Z.to_nat need)) (bitbuf s) need;
  modify (fun s => set_bits (Z.shiftr val need) (bitcnt s - need) s);;
  mret (Z.land val (Z.shiftl 1 need - 1)).

(** [while (len--) s->out[s->outcnt++] = s->in[s->incnt++];] *)
Fixpoint stored_copy (len : nat) : M state unit :=
  match len with
  | O => mret tt
  | S len =>
      b ← next_in; store_out b;;
      modify (fun s => set_outcnt (outcnt s + 1) s);; stored_copy len
  end.

Definition stored : M state Z :=
  modify (set_bits 0 0);;
  s ← get;
  if incnt s + 4 >? inlen s then mret 2 else
  len ← next_in;
  b ← next_in;
  let len := Z.lor len (Z.shiftl b 8) in
  c ← next_in;
  if negb (c =? Z.land (Z.lnot len) 0xff) then mret (-2) else
  d ← next_in;
  if negb (d =? Z.land (Z.shiftr (Z.lnot len) 8) 0xff) then mret (-2) else
  s ← get;
  if incnt s + len >? inlen s then mret 2 else
  match out s with
  | Some _ =>
      if outcnt s + len >? outlen s then mret 1
      else stored_copy (Z.to_nat len);; mret 0
  | None =>
      modify (fun s => set_outcnt (outcnt s + len) s);;
      modify (fun s => set_incnt (incnt s + len) s);;
      mret 0
  end.

(** ** [decode] *)

(** The version for SLOW: [n] is the number of lengths left, [MAXBITS + 1 - len]. *)
Fixpoint decode_slow_loop (h : huffman) (n : nat) (len code first index : Z) : M state Z :=
  match n with
  | O => mret (-10)
  | S n =>
      b ← bits 1;
      let code := Z.lor code b in
      cnt ← lift (rd (count h) len);
      if code - cnt <? first then lift (rd (symbol h) (index + (code - first)))
      else decode_slow_loop h n (len + 1) (Z.shiftl code 1) (Z.shiftl (first + cnt) 1) (index + cnt)
  end.

Definition decode_slow (h : huffman) : M state Z := decode_slow_loop h (Z.to_nat MAXBITS) 1 0 0 0.

(** The local variables of the fast version. *)
Record dvars := Dvars { d_bitbuf : Z; d_code : Z; d_first : Z; d_index : Z; d_len : Z; d_next : Z }.

(** [while (left--)]: the symbol and the length when a code ends in the loop, or
    the variables after it. *)
Fixpoint decode_inner (h : huffman) (left : nat) (v : dvars) : option (Z * dvars + dvars) :=
  match left with
  | O => Some (inr v)
  | S left' =>
      let code := Z.lor (d_code v) (Z.land (d_bitbuf v) 1) in
      let bitbuf := Z.shiftr (d_bitbuf v) 1 in
      cnt ← rd (count h) (d_next v);
      if code - cnt <? d_first v then
        sym ← rd (symbol h) (d_index v + (code - d_first v));
        Some (inl (sym, Dvars bitbuf code (d_first v) (d_index v) (d_len v) (d_next v + 1)))
      else
        decode_inner h left'
          (Dvars bitbuf (Z.shiftl code 1) (Z.shiftl (d_first v + cnt) 1) (d_index v + cnt)
                 (d_len v + 1) (d_next v + 1))
  end.

Fixpoint decode_outer (h : huffman) (fuel : nat) (left : Z) (v : dvars) : M state Z :=
  match fuel with
  | O => nofuel
  | S fuel =>
      r ← lift (decode_inner h (Z.to_nat left) v);
      match r with
      | inl (sym, v) =>
          modify (fun s => set_bits (d_bitbuf v) (Z.land (bitcnt s - d_len v) 7) s);; mret sym
      | inr v =>
          let left := (MAXBITS + 1) - d_len v in
          if left =? 0 then mret (-10) else
          s ← get;
          if incnt s =? inlen s then throw 1 else
          b ← next_in;
          decode_outer h fuel (if left >? 8 then 8 else left)
            (Dvars b (d_code v) (d_first v) (d_index v) (d_len v) (d_next v))
      end
  end.

(** Fifteen bits come from what is left of a byte and two more bytes, so the
    outer loop makes at most four turns. *)
Definition decode_fast (h : huffman) : M state Z :=
  s ← get; decode_outer h 4 (bitcnt s) (Dvars (bitbuf s) 0 0 0 1 1).

(** ** [construct] *)

(** [for (; i < i + n; i++) l[i] = v;] *)
Fixpoint fill (n : nat) (i v : Z) (l : list (option Z)) : option (list (option Z)) :=
  match n with
  | O => Some l
  | S n => l ← aset l i (Some v); fill n (i + 1) v l
  end.

(** [for (symbol = 0; symbol < n; symbol++) (h->count[length[symbol]])++;] *)
Fixpoint count_lengths (n : nat) (sym : Z) (length cnt : list (option Z)) : option (list (option Z)) :=
  match n with
  | O => Some cnt
  | S n =>
      l ← rd length sym; c ← rd cnt l; cnt ← aset cnt l (Some (c + 1));
      count_lengths n (sym + 1) length cnt
  end.

(** The check of the set of lengths: [inl left] when it is over-subscribed. *)
Fixpoint check_left (n : nat) (len : Z) (cnt : list (option Z)) (left : Z) : option (Z + Z) :=
  match n with
  | O => Some (inr left)
  | S n =>
      c ← rd cnt len;
      let left := Z.shiftl left 1 - c in
      if left <? 0 then Some (inl left) else check_left n (len + 1) cnt left
  end.

Fixpoint make_offs (n : nat) (len : Z) (cnt offs : list (option Z)) : option (list (option Z)) :=
  match n with
  | O => Some offs
  | S n =>
      o ← rd offs len; c ← rd cnt len; offs ← aset offs (len + 1) (Some (o + c));
      make_offs n (len + 1) cnt offs
  end.

Fixpoint sort_symbols (n : nat) (sym : Z) (length offs syms : list (option Z)) : option (list (option Z)) :=
  match n with
  | O => Some syms
  | S n =>
      l ← rd length sym;
      if ztrue l then
        o ← rd offs l; syms ← aset syms o (Some sym); offs ← aset offs l (Some (o + 1));
        sort_symbols n (sym + 1) length offs syms
      else sort_symbols n (sym + 1) length offs syms
  end.

(** The return value and the tables. *)
Definition construct (h : huffman) (length : list (option Z)) (n : Z) : option (Z * huffman) :=
  cnt ← fill (Z.to_nat (MAXBITS + 1)) 0 0 (count h);
  cnt ← count_lengths (Z.to_nat n) 0 length cnt;
  c0 ← rd cnt 0;
  if c0 =? n then Some (0, Huffman cnt (symbol h)) else
  r ← check_left (Z.to_nat MAXBITS) 1 cnt 1;
  match r with
  | inl over => Some (over, Huffman cnt (symbol h))
  | inr rest =>
      offs ← aset (cells (MAXBITS + 1) None) 1 (Some 0);
      offs ← make_offs (Z.to_nat (MAXBITS - 1)) 1 cnt offs;
      syms ← sort_symbols (Z.to_nat n) 0 length offs (symbol h);
      Some (rest, Huffman cnt syms)
  end.

(** ** [codes] *)

Definition lens : list Z :=
  [3; 4; 5; 6; 7; 8; 9; 10; 11; 13; 15; 17; 19; 23; 27; 31;
   35; 43; 51; 59; 67; 83; 99; 115; 131; 163; 195; 227; 258].
Definition lext : list Z :=
  [0; 0; 0; 0; 0; 0; 0; 0; 1; 1; 1; 1; 2; 2; 2; 2;
   3; 3; 3; 3; 4; 4; 4; 4; 5; 5; 5; 5; 0].
Definition dists : list Z :=
  [1; 2; 3; 4; 5; 7; 9; 13; 17; 25; 33; 49; 65; 97; 129; 193;
   257; 385; 513; 769; 1025; 1537; 2049; 3073; 4097; 6145;
   8193; 12289; 16385; 24577].
Definition dext : list Z :=
  [0; 0; 0; 0; 1; 1; 2; 2; 3; 3; 4; 4; 5; 5; 6; 6;
   7; 7; 8; 8; 9; 9; 10; 10; 11; 11;
   12; 12; 13; 13].

(** [s->out[s->outcnt] = s->out[s->outcnt - dist]; s->outcnt++;], [len] times. *)
Fixpoint copy_back (len : nat) (dist : Z) : M state unit :=
  match len with
  | O => mret tt
  | S len =>
      s ← get;
      o ← lift (out s);
      b ← lift (aget o (outcnt s - dist));
      store_out b;;
      modify (fun s => set_outcnt (outcnt s + 1) s);;
      copy_back len dist
  end.

(** The order of the code length code lengths. *)
Definition order : list Z :=
  [16; 17; 18; 0; 8; 7; 9; 6; 10; 5; 11; 4; 12; 3; 13; 2; 14; 1; 15].

Section Blocks.
Context (decode : huffman -> M state Z).

(** A literal: [inl err] on an early return, or the value of [symbol] that the
    loop tests. *)
Definition put_literal (sym : Z) : M state (Z + Z) :=
  s ← get;
  match out s with
  | Some _ =>
      if outcnt s =? outlen s then mret (inl 1)
      else store_out sym;; modify (fun s => set_outcnt (outcnt s + 1) s);; mret (inr sym)
  | None => modify (fun s => set_outcnt (outcnt s + 1) s);; mret (inr sym)
  end.

(** A length symbol: the length, the distance, the copy. *)
Definition put_match (distcode : huffman) (sym : Z) : M state (Z + Z) :=
  let sym := sym - 257 in
  if sym >=? 29 then mret (inl (-10)) else
  base ← lift (aget lens sym);
  ext ← lift (aget lext sym);
  b ← bits ext;
  let len := base + b in
  sym ← decode distcode;
  if sym <? 0 then mret (inl sym) else
  base ← lift (aget dists sym);
  ext ← lift (aget dext sym);
  b ← bits ext;
  let dist := base + b in
  s ← get;
  if dist >? outcnt s then mret (inl (-11)) else
  match out s with
  | Some _ =>
      if outcnt s + len >? outlen s then mret (inl 1)
      else copy_back (Z.to_nat len) dist;; mret (inr sym)
  | None => modify (fun s => set_outcnt (outcnt s + len) s);; mret (inr sym)
  end.

Fixpoint codes_loop (fuel : nat) (lencode distcode : huffman) : M state Z :=
  match fuel with
  | O => nofuel
  | S fuel =>
      sym ← decode lencode;
      if sym <? 0 then mret sym else
      r ← (if sym <? 256 then put_literal sym
           else if sym >? 256 then put_match distcode sym
           else mret (inr sym));
      match r with
      | inl err => mret err
      | inr sym => if sym =? 256 then mret 0 else codes_loop fuel lencode distcode
      end
  end.

(** Every symbol takes a bit of the input at least. *)
Definition codes (lencode distcode : huffman) : M state Z :=
  s ← get; codes_loop (S (Z.to_nat (8 * inlen s + 8))) lencode distcode.

(** ** [fixed] *)

(** The tables built at the first call; the return values are not used. *)
Definition fixed_tables (f : statics) : option statics :=
  lengths ← fill 144 0 8 (cells FIXLCODES None);
  lengths ← fill 112 144 9 lengths;
  lengths ← fill 24 256 7 lengths;
  lengths ← fill (Z.to_nat (FIXLCODES - 280)) 280 8 lengths;
  '(_, lencode) ← construct (lencode_f f) lengths FIXLCODES;
  lengths ← fill (Z.to_nat MAXDCODES) 0 5 lengths;
  '(_, distcode) ← construct (distcode_f f) lengths MAXDCODES;
  Some (Statics 0 lencode distcode).

Definition fixed : M state Z :=
  s ← get;
  (if ztrue (virgin (fx s)) then f ← lift (fixed_tables (fx s)); modify (set_fx f) else mret tt);;
  s ← get;
  codes (lencode_f (fx s)) (distcode_f (fx s)).

(** ** [dynamic] *)

(** [for (; index < index + n; index++) lengths[order[index]] = bits(s, 3);] *)
Fixpoint read_clens (n : nat) (index : Z) (lengths : list (option Z)) : M state (list (option Z)) :=
  match n with
  | O => mret lengths
  | S n =>
      o ← lift (aget order index); b ← bits 3;
      lengths ← lift (aset lengths o (Some b));
      read_clens n (index + 1) lengths
  end.

Fixpoint zero_clens (n : nat) (index : Z) (lengths : list (option Z)) : option (list (option Z)) :=
  match n with
  | O => Some lengths
  | S n =>
      o ← aget order index; lengths ← aset lengths o (Some 0); zero_clens n (index + 1) lengths
  end.

(** [while (index < nlen + ndist)]: [inl err] on an early return. *)
Fixpoint read_lengths (fuel : nat) (lencode : huffman) (total index : Z) (lengths : list (option Z))
    : M state (Z + list (option Z)) :=
  match fuel with
  | O => nofuel
  | S fuel =>
      if index <? total then
        sym ← decode lencode;
        if sym <? 0 then mret (inl sym) else
        if sym <? 16 then
          lengths ← lift (aset lengths index (Some sym));
          read_lengths fuel lencode total (index + 1) lengths
        else
          r ← (if sym =? 16 then
                 if index =? 0 then mret (inl (-5))
                 else
                   len ← lift (rd lengths (index - 1));
                   b ← bits 2; mret (inr (len, 3 + b))
               else if sym =? 17 then b ← bits 3; mret (inr (0, 3 + b))
               else b ← bits 7; mret (inr (0, 11 + b)));
          match r with
          | inl err => mret (inl err)
          | inr (len, rep) =>
              if index + rep >? total then mret (inl (-6))
              else
                lengths ← lift (fill (Z.to_nat rep) index len lengths);
                read_lengths fuel lencode total (index + rep) lengths
          end
      else mret (inr lengths)
  end.

(** [nlen != h.count[0] + h.count[1]] *)
Definition incomplete_bad (h : huffman) (n : Z) : option bool :=
  c0 ← rd (count h) 0; c1 ← rd (count h) 1; Some (negb (n =? c0 + c1)).

(** [err && (err < 0 || n != h.count[0] + h.count[1])] *)
Definition bad_code (err : Z) (h : huffman) (n : Z) : option bool :=
  if ztrue err then if err <? 0 then Some true else incomplete_bad h n else Some false.

(** The end of [dynamic]: the codes of the block, from their lengths. *)
Definition dynamic_codes (lencode distcode : huffman) (nlen ndist : Z)
    (lengths : list (option Z)) : M state Z :=
  eob ← lift (rd lengths 256);
  if eob =? 0 then mret (-9) else
  '(err, lencode) ← lift (construct lencode lengths nlen);
  bad ← lift (bad_code err lencode nlen);
  if bad : bool then mret (-7) else
  '(err, distcode) ← lift (construct distcode (drop (Z.to_nat nlen) lengths) ndist);
  bad ← lift (bad_code err distcode ndist);
  if bad : bool then mret (-8) else
  codes lencode distcode.

Definition dynamic : M state Z :=
  let lencode := Huffman (cells (MAXBITS + 1) None) (cells MAXLCODES None) in
  let distcode := Huffman (cells (MAXBITS + 1) None) (cells MAXDCODES None) in
  b ← bits 5; let nlen := b + 257 in
  b ← bits 5; let ndist := b + 1 in
  b ← bits 4; let ncode := b + 4 in
  if (nlen >? MAXLCODES) || (ndist >? MAXDCODES) then mret (-3) else
  lengths ← read_clens (Z.to_nat ncode) 0 (cells MAXCODES None);
  lengths ← lift (zero_clens (Z.to_nat (19 - ncode)) ncode lengths);
  '(err, lencode) ← lift (construct lencode lengths 19);
  if negb (err =? 0) then mret (-4) else
  r ← read_lengths (S (Z.to_nat MAXCODES)) lencode (nlen + ndist) 0 lengths;
  match r with
  | inl err => mret err
  | inr lengths => dynamic_codes lencode distcode nlen ndist lengths
  end.

(** ** [puff] *)

(** The [do ... while (!last)] loop over the blocks. *)
Fixpoint puff_loop (fuel : nat) : M state Z :=
  match fuel with
  | O => nofuel
  | S fuel =>
      last ← bits 1;
      type ← bits 2;
      err ← (if type =? 0 then stored
             else if type =? 1 then fixed
             else if type =? 2 then dynamic
             else mret (-1));
      if negb (err =? 0) then mret err
      else if ztrue last then mret err
      else puff_loop fuel
  end.

(** What the caller sees: the return value, [*destlen] and [*sourcelen], the
    buffer and the static variables after the call. *)
Inductive outcome :=
| Returns (err destlen sourcelen : Z) (dest : option (list Z)) (f : statics)
| Undefined
| OutOfFuel.

Definition puff (dest : option (list Z)) (destlen : Z) (source : list Z) (sourcelen : Z)
    (f : statics) : outcome :=
  let finish err s :=
    if err <=? 0 then Returns err (outcnt s) (incnt s) (out s) (fx s)
    else Returns err destlen sourcelen (out s) (fx s) in
  match puff_loop (S (Z.to_nat (8 * sourcelen)))
          (State dest destlen 0 source sourcelen 0 0 0 f) with
  | Ok err s => finish err s
  | Exc _ s => finish 2 s
  | Ub => Undefined
  | NoFuel => OutOfFuel
  end.
End Blocks.
