(* ===== verification/PuffFacts.v ===== *)
(** * Correctness of the inflater: input bits, decoding, tables

    The state of [puff] seen as the bits it has not consumed, [sbits]; [bits]
    and both versions of [decode] against the canonical codes of [Huffman];
    [construct] against the tables of those codes. *)
From stdpp Require Import base numbers list.
From Stdlib Require Import ZArith Lia Bool.
From S2P Require Import Prelude Huffman Puff.

(** ** The unread bits *)

Definition unread (s : state) : list Z :=
  take (Z.to_nat (inlen s - incnt s)) (drop (Z.to_nat (incnt s)) (inp s)).

Definition sbits (s : state) : list bool :=
  z_bits (Z.to_nat (bitcnt s)) (bitbuf s) ++ bytes_bits (unread s).

(** The input is [inlen] bytes long at least; fewer than eight bits are buffered. *)
Record input_ok (s : state) : Prop := {
  ok_in : 0 <= incnt s <= inlen s;
  ok_inlen : inlen s <= Z.of_nat (length (inp s));
  ok_bytes : Forall is_byte (inp s);
  ok_bitcnt : 0 <= bitcnt s < 8;
  ok_bitbuf : 0 <= bitbuf s < 2 ^ bitcnt s }.

(** What reading does not change. *)
Definition frame (s s' : state) : Prop :=
  out s' = out s /\ outlen s' = outlen s /\ outcnt s' = outcnt s /\
  inp s' = inp s /\ inlen s' = inlen s /\ fx s' = fx s.

#[export] Instance frame_refl : Reflexive frame.
Proof. by intros s. Qed.
#[export] Instance frame_trans : Transitive frame.
Proof. unfold frame. intros a b c. intuition congruence. Qed.

Lemma unread_cons s :
  0 <= incnt s < inlen s -> inlen s <= Z.of_nat (length (inp s)) ->
  exists b, aget (inp s) (incnt s) = Some b /\ unread s = b :: unread (set_incnt (incnt s + 1) s).
Proof.
  intros Hi Hl. destruct (aget_range (inp s) (incnt s)) as [b Hb]; [lia|]. exists b. split; [done|].
  apply aget_Some in Hb as [_ Hb]. unfold unread. cbn [incnt inlen inp set_incnt].
  rewrite (drop_S _ b) by done.
  replace (Z.to_nat (inlen s - incnt s)) with (S (Z.to_nat (inlen s - (incnt s + 1)))) by lia.
  cbn [take]. do 3 f_equal. lia.
Qed.

Lemma unread_nil s : incnt s = inlen s -> unread s = [].
Proof. intros E. unfold unread. by rewrite E, Z.sub_diag. Qed.

Lemma unread_length s : input_ok s -> Z.of_nat (length (unread s)) = inlen s - incnt s.
Proof. intros [H1 H2 _ _ _]. unfold unread. rewrite length_take, length_drop. lia. Qed.

Lemma unread_bytes s : input_ok s -> Forall is_byte (unread s).
Proof. intros I. apply Forall_take, Forall_drop, ok_bytes, I. Qed.

Lemma sbits_length s : input_ok s -> Z.of_nat (length (sbits s)) = bitcnt s + 8 * (inlen s - incnt s).
Proof.
  intros I. pose proof (unread_length s I). pose proof (ok_bitcnt s I). unfold sbits.
  autorewrite with zlib_rew. lia.
Qed.

(** The position in the input follows from the number of bits left. *)
Lemma incnt_sbits s : input_ok s -> incnt s = inlen s - Z.of_nat (length (sbits s)) / 8.
Proof. intros I. rewrite (sbits_length s I). destruct I as [? _ _ ? _]. Z.div_mod_to_equations. lia. Qed.

Lemma next_in_wp s (Q : Z -> state -> Prop) R :
  0 <= incnt s < inlen s -> inlen s <= Z.of_nat (length (inp s)) ->
  (forall b, aget (inp s) (incnt s) = Some b -> Q b (set_incnt (incnt s + 1) s)) ->
  wp next_in Q R s.
Proof.
  intros Hi Hl H. destruct (aget_range (inp s) (incnt s)) as [b Hb]; [lia|].
  unfold next_in, wp, mbind, M_bind, get, modify, lift. rewrite Hb. by apply H.
Qed.

(** ** [bits] *)

(** The value in the local variable [val] with the bits loaded so far. *)
Definition loaded (s : state) (val : Z) : list bool :=
  z_bits (Z.to_nat (bitcnt s)) val ++ bytes_bits (unread s).

Lemma bits_loop_wp fuel s val need :
  (Z.to_nat (need - bitcnt s) < fuel)%nat -> 0 <= incnt s <= inlen s ->
  inlen s <= Z.of_nat (length (inp s)) -> Forall is_byte (inp s) -> 0 <= bitcnt s ->
  0 <= val < 2 ^ bitcnt s ->
  wp (bits_loop fuel val need)
     (fun v s' => frame s s' /\ 0 <= incnt s' <= inlen s' /\ 0 <= v < 2 ^ bitcnt s' /\
        loaded s' v = loaded s val /\ need <= bitcnt s' /\ bitcnt s <= bitcnt s' /\
        (bitcnt s' = bitcnt s \/ bitcnt s' < need + 8))
     (fun e s' => e = 1 /\ frame s s' /\ Z.of_nat (length (loaded s val)) < need) s.
Proof.
  revert s val. induction fuel as [|fuel IH]; intros s val Hf Hi Hl Hb Hc Hv; [lia|].
  cbn [bits_loop]. apply wp_bind, wp_get. destruct (Z.ltb_spec (bitcnt s) need) as [Hn|Hn].
  - destruct (Z.eqb_spec (incnt s) (inlen s)) as [E|E].
    { apply wp_throw. split; [done|]. split; [done|]. unfold loaded. rewrite (unread_nil s E), app_nil_r, length_z_bits. lia. }
    destruct (unread_cons s ltac:(lia) Hl) as (b & Eb & Eu).
    apply wp_bind, next_in_wp; [lia|done|]. intros b' Eb'. rewrite Eb in Eb'. injection Eb' as <-.
    apply wp_bind, wp_modify.
    assert (Hbyte : is_byte b).
    { apply aget_Some in Eb as [_ Eb]. by eapply Forall_lookup_1 in Hb. }
    assert (Ev : Z.lor val (Z.shiftl b (bitcnt s)) = val + b * 2 ^ bitcnt s).
    { rewrite Z.shiftl_mul_pow2 by lia. by apply lor_add. }
    unfold is_byte in Hbyte.
    set (s1 := set_bits (bitbuf s) (bitcnt s + 8) (set_incnt (incnt s + 1) s)).
    assert (Hr : 0 <= val + b * 2 ^ bitcnt s < 2 ^ bitcnt s1).
    { cbn. rewrite Z.pow_add_r by lia. change (2 ^ 8) with 256. nia. }
    assert (El : loaded s1 (val + b * 2 ^ bitcnt s) = loaded s val).
    { unfold loaded. change (unread s1) with (unread (set_incnt (incnt s + 1) s)).
      rewrite Eu, bytes_bits_cons, app_assoc. f_equal. cbn [bitcnt s1 set_bits].
      replace (Z.to_nat (bitcnt s + 8)) with (Z.to_nat (bitcnt s) + 8)%nat by lia.
      rewrite z_bits_app. f_equal.
      - rewrite <- (z_bits_wrap _ (bitcnt s)) by lia. unfold wrap.
        rewrite Z.mod_add, Z.mod_small by lia. done.
      - rewrite Z2Nat.id, Z.shiftr_div_pow2, Z.div_add, Z.div_small by lia. done. }
    rewrite Ev. eapply wp_mono; [apply IH|..]; cbn -[loaded] in *; try done; try lia.
    + intros v s' (Hfr & Hi' & Hv' & El' & ?). rewrite El in El'. split_and!; try done; lia.
    + intros e s' (-> & Hfr & Hlen). rewrite El in Hlen. done.
  - apply wp_ret. split_and!; try done; try lia.
Qed.

Lemma bits_wp s need :
  input_ok s -> 0 <= need <= 13 ->
  wp (bits need)
     (fun v s' => input_ok s' /\ frame s s' /\ 0 <= v < 2 ^ need /\
        sbits s = z_bits (Z.to_nat need) v ++ sbits s')
     (fun e s' => e = 1 /\ frame s s' /\ Z.of_nat (length (sbits s)) < need) s.
Proof.
  intros I Hn. pose proof I as [Hi Hl Hb Hc Hbuf]. unfold bits. apply wp_bind, wp_get, wp_bind.
  eapply wp_mono; [apply bits_loop_wp; try done; lia| |].
  2: { intros e s' (-> & Hfr & H). split_and!; [done|exact Hfr|exact H]. }
  intros v s' (Hfr & Hi' & Hv & El & Hnd & Hle & Hlt). apply wp_bind, wp_modify, wp_ret.
  pose proof Hfr as (Eo & Eol & Eoc & Ei & Eil & Ef).
  assert (Em : Z.land v (Z.shiftl 1 need - 1) = v mod 2 ^ need).
  { rewrite Z.shiftl_1_l, <- Z.land_ones, Z.ones_equiv by lia. done. }
  rewrite Em. split; [|split; [exact Hfr|split; [apply Z.mod_pos_bound; lia|]]].
  - constructor; cbn; rewrite ?Ei, ?Eil; try done; try lia.
    + rewrite Z.shiftr_div_pow2 by lia. split; [apply Z.div_pos; lia|].
      apply Z.div_lt_upper_bound; [lia|]. rewrite <- Z.pow_add_r by lia.
      replace (need + (bitcnt s' - need)) with (bitcnt s') by lia. lia.
  - unfold sbits at 1. fold (loaded s (bitbuf s)). rewrite <- El. unfold loaded, sbits.
    rewrite app_assoc. cbn [bitcnt bitbuf set_bits]. f_equal.
    replace (Z.to_nat (bitcnt s')) with (Z.to_nat need + Z.to_nat (bitcnt s' - need))%nat by lia.
    rewrite z_bits_app, Z2Nat.id by lia. f_equal. symmetry. apply z_bits_wrap. lia.
Qed.

(** A single bit, as an equation. *)
Lemma bits1_cons s b bs :
  input_ok s -> sbits s = b :: bs ->
  exists s', bits 1 s = Ok (Z.b2z b) s' /\ input_ok s' /\ frame s s' /\ sbits s' = bs.
Proof.
  intros I E. pose proof (bits_wp s 1 I ltac:(lia)) as H. unfold wp in H.
  destruct (bits 1 s) as [v s'|e s'| |]; try done.
  - destruct H as (I' & Hf & Hv & Eb). rewrite E in Eb. change (Z.to_nat 1) with 1%nat in Eb.
    cbn [z_bits app] in Eb. injection Eb as Eo Er. exists s'. split; [|done]. f_equal.
    assert (v = 0 \/ v = 1) as [-> | ->] by lia; by subst.
  - destruct H as (_ & _ & H). rewrite E in H. cbn [length] in H. lia.
Qed.

Lemma bits1_nil s :
  input_ok s -> sbits s = [] -> exists s', bits 1 s = Exc 1 s' /\ frame s s'.
Proof.
  intros I E. pose proof (bits_wp s 1 I ltac:(lia)) as H. unfold wp in H.
  destruct (bits 1 s) as [v s'|e s'| |]; try done.
  - destruct H as (_ & _ & _ & Eb). rewrite E in Eb. done.
  - destruct H as (-> & Hf & _). by exists s'.
Qed.

(** ** [decode]

    Both versions walk the bits with the tables of the code. *)
Inductive hresult :=
| HSym (sym : Z) (rest : list bool)
| HBad (rest : list bool)
| HShort
| HUb.

Fixpoint hwalk (h : huffman) (n : nat) (len code first index : Z) (bs : list bool) : hresult :=
  match n with
  | O => HBad bs
  | S n =>
      match bs with
      | [] => HShort
      | b :: bs =>
          let code := Z.lor code (Z.b2z b) in
          match rd (count h) len with
          | None => HUb
          | Some cnt =>
              if code - cnt <? first then
                match rd (symbol h) (index + (code - first)) with
                | Some sym => HSym sym bs
                | None => HUb
                end
              else hwalk h n (len + 1) (Z.shiftl code 1) (Z.shiftl (first + cnt) 1) (index + cnt) bs
          end
      end
  end.

(** What a version of [decode] promises to its callers. *)
Definition decodes (r : res state Z) (w : hresult) (s : state) : Prop :=
  match w with
  | HSym sym rest => exists s', r = Ok sym s' /\ input_ok s' /\ frame s s' /\ sbits s' = rest
  | HBad rest => exists s', r = Ok (-10) s' /\ input_ok s' /\ frame s s' /\
                   incnt s' = inlen s - Z.of_nat (length rest) / 8
  | HShort => exists s', r = Exc 1 s' /\ frame s s'
  | HUb => r = Ub
  end.

Class Decoder (decode : huffman -> M state Z) : Prop :=
  decoder_spec h s : input_ok s -> decodes (decode h s) (hwalk h 15 1 0 0 0 (sbits s)) s.

Lemma decodes_frame r w s s0 :
  frame s0 s -> decodes r w s -> decodes r w s0.
Proof.
  intros F. destruct w; cbn; try done.
  - intros (s' & ? & ? & F' & ?). exists s'. split_and!; try done. by etrans.
  - intros (s' & ? & ? & F' & ?). exists s'. split_and!; try done; [by etrans|].
    destruct F as (_ & _ & _ & _ & E & _). by rewrite <- E.
  - intros (s' & ? & F'). exists s'. split; [done|]. by etrans.
Qed.

Lemma decode_slow_loop_spec h n len code first index s :
  input_ok s -> decodes (decode_slow_loop h n len code first index s)
                  (hwalk h n len code first index (sbits s)) s.
Proof.
  revert len code first index s. induction n as [|n IH]; intros len code first index s I.
  { cbn. exists s. split_and!; try done. by apply incnt_sbits. }
  cbn [decode_slow_loop hwalk]. unfold mbind at 1, M_bind at 1.
  destruct (sbits s) as [|b bs] eqn:E.
  { destruct (bits1_nil s I E) as (s' & -> & F). by exists s'. }
  destruct (bits1_cons s b bs I E) as (s' & -> & I' & F & E').
  unfold mbind, M_bind, lift. destruct (rd (count h) len) as [cnt|]; cbn; [|done].
  destruct (Z.lor code (Z.b2z b) - cnt <? first).
  - destruct (rd (symbol h) _) as [sym|]; cbn; [|done]. exists s'. done.
  - rewrite <- E'. eapply decodes_frame; [exact F|]. by apply IH.
Qed.

#[export] Instance decode_slow_decoder : Decoder decode_slow.
Proof. intros h s I. by apply decode_slow_loop_spec. Qed.

Lemma hwalk_nil h n len code first index : (0 < n)%nat -> hwalk h n len code first index [] = HShort.
Proof. destruct n; [lia|done]. Qed.

(** The inner loop, over the first [left] bits of [d_bitbuf]. *)
Lemma decode_inner_spec h left n v m bs :
  (left <= n)%nat -> (left <= m)%nat -> d_next v = d_len v ->
  match decode_inner h left v with
  | Some (inl (sym, v')) => exists used,
      (1 <= used <= left)%nat /\ d_len v' = d_len v + Z.of_nat used - 1 /\
      d_bitbuf v' = Z.shiftr (d_bitbuf v) (Z.of_nat used) /\
      hwalk h n (d_len v) (d_code v) (d_first v) (d_index v) (z_bits m (d_bitbuf v) ++ bs) =
        HSym sym (z_bits (m - used) (d_bitbuf v') ++ bs)
  | Some (inr v') =>
      d_len v' = d_len v + Z.of_nat left /\ d_next v' = d_len v' /\
      d_bitbuf v' = Z.shiftr (d_bitbuf v) (Z.of_nat left) /\
      hwalk h n (d_len v) (d_code v) (d_first v) (d_index v) (z_bits m (d_bitbuf v) ++ bs) =
        hwalk h (n - left) (d_len v') (d_code v') (d_first v') (d_index v')
          (z_bits (m - left) (d_bitbuf v') ++ bs)
  | None =>
      hwalk h n (d_len v) (d_code v) (d_first v) (d_index v) (z_bits m (d_bitbuf v) ++ bs) = HUb
  end.
Proof.
  revert n v m. induction left as [|left IH]; intros n v m Hn Hm Ev.
  { cbn [decode_inner]. rewrite !Nat.sub_0_r, Z.shiftr_0_r. split_and!; try done; lia. }
  destruct n as [|n]; [lia|]. destruct m as [|m]; [lia|]. cbn [decode_inner z_bits app hwalk].
  assert (Eb : Z.land (d_bitbuf v) 1 = Z.b2z (Z.odd (d_bitbuf v))).
  { change 1 with (Z.ones 1). rewrite Z.land_ones by lia. change (2 ^ 1) with 2.
    rewrite Zmod_odd. by destruct (Z.odd (d_bitbuf v)). }
  rewrite Eb, Ev. destruct (rd (count h) (d_len v)) as [cnt|]; cbn [mbind option_bind]; [|done].
  destruct (Z.lor (d_code v) (Z.b2z (Z.odd (d_bitbuf v))) - cnt <? d_first v).
  - destruct (rd (symbol h) _) as [sym|]; cbn [mbind option_bind]; [|done].
    exists 1%nat. cbn [d_len d_bitbuf]. split_and!; try done; try lia.
    rewrite <- Z.div2_spec. cbn [Nat.sub]. by rewrite Nat.sub_0_r.
  - set (v1 := Dvars _ _ _ _ _ _).
    specialize (IH n v1 m ltac:(lia) ltac:(lia)). cbn [d_next d_len v1] in IH.
    specialize (IH ltac:(done)). subst v1. cbn [d_len d_code d_first d_index d_bitbuf d_next] in IH.
    match type of IH with match ?X with _ => _ end => destruct X as [[[sym v']|v']|] end.
    + destruct IH as (used & Hu & El & Eb' & E). exists (S used). rewrite Z.div2_spec, E. cbn [Nat.sub].
      split_and!; try done; try lia. rewrite Eb', Z.shiftr_shiftr by lia. f_equal. lia.
    + destruct IH as (El & En & Eb' & E). rewrite Z.div2_spec, E. cbn [Nat.sub]. split_and!; try done; try lia.
      rewrite Eb', Z.shiftr_shiftr by lia. f_equal. lia.
    + rewrite Z.div2_spec. exact IH.
Qed.

(** The outer loop: [m] bits are left of the current byte, of which the inner
    loop may take [left]. *)
Lemma decode_outer_spec h fuel left n m v s :
  input_ok s -> d_next v = d_len v -> d_len v = 16 - Z.of_nat n ->
  0 <= d_bitbuf v < 2 ^ Z.of_nat m -> (left <= m <= 8)%nat -> (left <= n)%nat ->
  (m - left < 8)%nat -> left = m \/ left = n ->
  (bitcnt s - (d_len v - 1)) mod 8 = Z.of_nat m mod 8 ->
  (0 < fuel)%nat -> (n + 8 <= left + 8 * fuel)%nat ->
  decodes (decode_outer h fuel (Z.of_nat left) v s)
    (hwalk h n (d_len v) (d_code v) (d_first v) (d_index v)
       (z_bits m (d_bitbuf v) ++ bytes_bits (unread s))) s.
Proof.
  revert left n m v s. induction fuel as [|fuel IH]; intros left n m v s I En El Hb Hm Hn Hk Hd Hmod Hf Hff; [lia|].
  cbn [decode_outer]. rewrite Nat2Z.id.
  pose proof (decode_inner_spec h left n v m (bytes_bits (unread s)) Hn ltac:(lia) En) as H.
  unfold mbind at 1, M_bind at 1, lift.
  destruct (decode_inner h left v) as [[[sym v']|v']|]; cbn [mret M_ret].
  - destruct H as (used & Hu & El' & Eb' & ->). eexists. split; [reflexivity|].
    assert (E7 : Z.land (bitcnt s - d_len v') 7 = Z.of_nat (m - used)).
    { change 7 with (Z.ones 3). rewrite Z.land_ones by lia. change (2 ^ 3) with 8.
      rewrite El'. Z.div_mod_to_equations. lia. }
    rewrite E7, Eb'. assert (Hb' : 0 <= Z.shiftr (d_bitbuf v) (Z.of_nat used) < 2 ^ Z.of_nat (m - used)).
    { rewrite Z.shiftr_div_pow2 by lia. split; [apply Z.div_pos; lia|].
      apply Z.div_lt_upper_bound; [lia|]. rewrite <- Z.pow_add_r by lia.
      replace (Z.of_nat used + Z.of_nat (m - used)) with (Z.of_nat m) by lia. lia. }
    split; [|split; [done|]].
    + destruct I. constructor; cbn; try done. lia.
    + unfold sbits. cbn [bitcnt bitbuf set_bits]. by rewrite Nat2Z.id.
  - destruct H as (El' & En' & Eb' & ->). unfold MAXBITS.
    destruct (Z.eqb_spec (15 + 1 - d_len v') 0) as [E0|E0].
    { replace (n - left)%nat with 0%nat by lia. cbn [hwalk decodes]. exists s. split_and!; try done.
      autorewrite with zlib_rew. rewrite Nat2Z.inj_add. pose proof (unread_length s I).
      Z.div_mod_to_equations. lia. }
    assert (left = m) as -> by lia. rewrite Nat.sub_diag. cbn [z_bits app].
    unfold mbind at 1, M_bind at 1, get.
    destruct (Z.eqb_spec (incnt s) (inlen s)) as [Ei|Ei].
    { rewrite unread_nil, hwalk_nil by (assumption || lia). by exists s. }
    pose proof I as [Hi Hl Hby Hc Hbuf]. destruct (unread_cons s ltac:(lia) Hl) as (b & Eb & Eu).
    unfold next_in, mbind, M_bind, get, lift, modify. rewrite Eb. cbn [mret M_ret].
    assert (Hbyte : is_byte b) by (apply aget_Some in Eb as [_ Eb]; by eapply Forall_lookup_1 in Hby).
    unfold is_byte in Hbyte. remember (n - m)%nat as n' eqn:Dn. set (s1 := set_incnt (incnt s + 1) s).
    set (v1 := Dvars b (d_code v') (d_first v') (d_index v') (d_len v') (d_next v')).
    assert (Elft : (if 15 + 1 - d_len v' >? 8 then 8 else 15 + 1 - d_len v') = Z.of_nat (8 `min` n')).
    { destruct (Z.gtb_spec (15 + 1 - d_len v') 8); lia. }
    rewrite Elft, Eu, bytes_bits_cons.
    apply (decodes_frame _ _ s1); [done|].
    change (unread (set_incnt (incnt s + 1) s)) with (unread s1).
    apply (IH (8 `min` n')%nat n' 8%nat v1 s1); subst v1 s1;
      cbn [d_next d_len d_bitbuf bitcnt set_incnt]; try done; try lia.
    { destruct I. by constructor; cbn; try lia. }
    change (Z.of_nat 8 mod 8) with 0. Z.div_mod_to_equations. lia.
  - by rewrite H.
Qed.

#[export] Instance decode_fast_decoder : Decoder decode_fast.
Proof.
  intros h s I. pose proof I as [Hi Hl Hby Hc Hbuf]. unfold decode_fast, mbind, M_bind, get.
  pose proof (decode_outer_spec h 4 (Z.to_nat (bitcnt s)) 15 (Z.to_nat (bitcnt s))
                (Dvars (bitbuf s) 0 0 0 1 1) s I) as H.
  rewrite Z2Nat.id in H by lia. apply H; cbn; try done; try lia. f_equal. lia.
Qed.

(** ** The tables of a code *)

(** [h] holds the tables of the code [lens]. *)
Record tab_ok (h : huffman) (lens : list Z) : Prop := {
  tab_lens : Forall (fun l => 0 <= l <= MAXBITS) lens;
  tab_count l : 0 <= l <= MAXBITS -> rd (count h) l = Some (bl_count lens l);
  tab_symbol s l : is_sym lens s l ->
    rd (symbol h) (index_of lens (Z.to_nat l) + rank lens s l) = Some s }.

(** The walk with the tables finds what the walk with the lengths finds. *)
Lemma hwalk_walk h lens n l c bs :
  tab_ok h lens -> (S l + n = 16)%nat -> first_code lens (S l) <= 2 * c ->
  match walk lens n (S l) c bs with
  | Found k r rest => exists s, is_sym lens s (Z.of_nat k) /\ rank lens s (Z.of_nat k) = r /\
      hwalk h n (Z.of_nat (S l)) (2 * c) (first_code lens (S l)) (index_of lens (S l)) bs = HSym s rest
  | Invalid rest =>
      hwalk h n (Z.of_nat (S l)) (2 * c) (first_code lens (S l)) (index_of lens (S l)) bs = HBad rest
  | Short => hwalk h n (Z.of_nat (S l)) (2 * c) (first_code lens (S l)) (index_of lens (S l)) bs = HShort
  end.
Proof.
  intros T. revert l c bs. induction n as [|n IH]; intros l c bs Hl Hc; [done|].
  cbn [walk hwalk]. destruct bs as [|b bs]; [done|].
  assert (Hb : 0 <= Z.b2z b <= 1) by (by destruct b).
  rewrite (tab_count h lens T) by (unfold MAXBITS; lia). rewrite lor_bit.
  destruct (Z.ltb_spec (2 * c + Z.b2z b) (first_code lens (S l) + code_count lens (S l))) as [H|H];
    destruct (Z.ltb_spec (2 * c + Z.b2z b - bl_count lens (Z.of_nat (S l))) (first_code lens (S l))) as [H'|H'];
    cbn [code_count] in H; try lia.
  - destruct (rank_surj lens (Z.of_nat (S l)) (2 * c + Z.b2z b - first_code lens (S l))) as (s & Hs & Hr);
      [lia|lia|].
    exists s. split; [done|]. split; [done|]. pose proof (tab_symbol h lens T s _ Hs) as Es.
    rewrite Hr, Nat2Z.id in Es. by rewrite Es.
  - rewrite !shiftl1. replace (Z.of_nat (S l) + 1) with (Z.of_nat (S (S l))) by lia.
    specialize (IH (S l) (2 * c + Z.b2z b) bs ltac:(lia)).
    apply IH. cbn [first_code code_count] in *. lia.
Qed.

Lemma hwalk_start h lens bs :
  tab_ok h lens ->
  match walk lens 15 1 0 bs with
  | Found k r rest => exists s, is_sym lens s (Z.of_nat k) /\ rank lens s (Z.of_nat k) = r /\
      hwalk h 15 1 0 0 0 bs = HSym s rest
  | Invalid rest => hwalk h 15 1 0 0 0 bs = HBad rest
  | Short => hwalk h 15 1 0 0 0 bs = HShort
  end.
Proof. intros T. apply (hwalk_walk h lens 15 0 0 bs T); cbn; lia. Qed.

Section Decoding.
Context (decode : huffman -> M state Z) {D : Decoder decode}.

(** [decode] returns a symbol whose code it has consumed, or -10, or runs out
    of input. *)
Lemma decode_wp h lens s :
  tab_ok h lens -> input_ok s ->
  wp (decode h)
     (fun v s' => input_ok s' /\ frame s s' /\
        ((0 <= v < Z.of_nat (length lens) /\
          exists w, code_bits lens v = Some w /\ (0 < length w)%nat /\ sbits s = w ++ sbits s') \/ v = -10))
     (fun e s' => e = 1 /\ frame s s') s.
Proof.
  intros T I. pose proof (decoder_spec h s I) as H. pose proof (hwalk_start h lens (sbits s) T) as Hw.
  destruct (walk lens 15 1 0 (sbits s)) as [k r rest|rest|] eqn:Ew.
  - destruct Hw as (v & Hs & Hr & E). rewrite E in H. destruct H as (s' & E' & I' & F & Es).
    apply walk_sound in Ew as (v' & Hs' & Hr' & Ec & Hk & Eb).
    assert (v' = v) as -> by (eapply rank_inj; [exact Hs'|exact Hs|congruence]).
    unfold wp. rewrite E'. split; [done|]. split; [done|]. left. split.
    + destruct Hs as [Ha _]. by apply aget_Some_lt in Ha.
    + eexists. split; [exact Ec|]. rewrite length_msb_bits. split; [destruct Hs; lia|].
      by rewrite Eb, Es.
  - rewrite Hw in H. destruct H as (s' & E' & I' & F & _). unfold wp. rewrite E'. auto.
  - rewrite Hw in H. destruct H as (s' & E' & F). unfold wp. by rewrite E'.
Qed.

(** The code of a symbol is decoded to it. *)
Lemma decode_complete h lens s v w rest :
  tab_ok h lens -> not_over lens 15 -> input_ok s -> code_bits lens v = Some w ->
  sbits s = w ++ rest ->
  exists s', decode h s = Ok v s' /\ input_ok s' /\ frame s s' /\ sbits s' = rest.
Proof.
  intros T Ho I Hc E. apply code_bits_Some in Hc as (l & Hs & ->).
  assert (Hl : (Z.to_nat l <= 15)%nat).
  { destruct Hs as [[_ Ha]%aget_Some _]. pose proof (tab_lens h lens T) as Hf.
    eapply Forall_lookup_1 in Hf; [|exact Ha]. unfold MAXBITS in Hf. lia. }
  pose proof (decoder_spec h s I) as H. pose proof (hwalk_start h lens (sbits s) T) as Hw.
  rewrite E in Hw, H. rewrite (walk_complete lens 15 v l rest Hs Hl Ho) in Hw.
  destruct Hw as (v' & Hs' & Hr & Eh). rewrite Z2Nat.id in Hs', Hr by (destruct Hs; lia).
  assert (v' = v) as -> by (eapply rank_inj; eassumption).
  rewrite Eh in H. exact H.
Qed.
End Decoding.
