(* ===== verification/PuffTables.v ===== *)
(** * Correctness of [construct]

    The counting sort of contrib/puff builds the tables of the canonical code
    and classifies the set of lengths. *)
From stdpp Require Import base numbers list.
From Stdlib Require Import ZArith Lia Bool.
From S2P Require Import Prelude Huffman Puff PuffFacts.

(** ** Cells *)

Lemma rd_aset l l' i v j :
  aset l i (Some v) = Some l' -> rd l' j = if j =? i then Some v else rd l j.
Proof.
  intros [Hi ->]%aset_inv. unfold rd. rewrite aget_insert by done. by destruct (j =? i).
Qed.

Lemma rd_range l i v : rd l i = Some v -> 0 <= i < Z.of_nat (length l).
Proof.
  unfold rd. destruct (aget l i) eqn:E; [|done]. intros _. by apply aget_Some_lt in E.
Qed.

Lemma aset_cell (l : list (option Z)) i v :
  0 <= i < Z.of_nat (length l) ->
  exists l', aset l i (Some v) = Some l' /\ length l' = length l /\
    (forall j, rd l' j = if j =? i then Some v else rd l j).
Proof.
  intros Hi. destruct (aset l i (Some v)) as [l'|] eqn:E.
  - exists l'. split; [done|]. split; [by eapply aset_length|]. intros j. by apply rd_aset.
  - rewrite aset_Some in E by lia. done.
Qed.

Lemma fill_spec n i v l :
  0 <= i -> i + Z.of_nat n <= Z.of_nat (length l) ->
  exists l', fill n i v l = Some l' /\ length l' = length l /\
    (forall j, rd l' j = if (i <=? j) && (j <? i + Z.of_nat n) then Some v else rd l j).
Proof.
  revert i l. induction n as [|n IH]; intros i l Hi Hn.
  { exists l. split_and!; try done. intros j. destruct (Z.leb_spec i j), (Z.ltb_spec j (i + Z.of_nat 0)); try done; lia. }
  cbn [fill]. destruct (aset_cell l i v) as (l1 & -> & El & H1); [lia|]. cbn [mbind option_bind].
  destruct (IH (i + 1) l1) as (l' & -> & El' & H'); [lia|lia|]. exists l'. split_and!; [done|lia|].
  intros j. rewrite H', H1.
  destruct (Z.leb_spec i j), (Z.leb_spec (i + 1) j), (Z.ltb_spec j (i + 1 + Z.of_nat n)),
    (Z.ltb_spec j (i + Z.of_nat (S n))), (Z.eqb_spec j i); cbn [andb]; try done; lia.
Qed.

(** The array [L] holds the lengths [lens]. *)
Definition holds (L : list (option Z)) (lens : list Z) : Prop :=
  forall i x, aget lens i = Some x -> rd L i = Some x.

Definition lens_ok (lens : list Z) : Prop := Forall (fun l => 0 <= l <= MAXBITS) lens.

Lemma lens_ok_at lens i x : lens_ok lens -> aget lens i = Some x -> 0 <= x <= 15.
Proof. intros H [_ Ha]%aget_Some. eapply Forall_lookup_1 in H; [exact H|exact Ha]. Qed.

(** ** Counting *)

Lemma count_lengths_spec lens L n i cnt :
  holds L lens -> lens_ok lens -> 0 <= i -> i + Z.of_nat n = Z.of_nat (length lens) ->
  (forall l, 0 <= l <= 15 -> rd cnt l = Some (rank lens i l)) ->
  exists cnt', count_lengths n i L cnt = Some cnt' /\ length cnt' = length cnt /\
    (forall l, 0 <= l <= 15 -> rd cnt' l = Some (bl_count lens l)).
Proof.
  intros HL Hok. revert i cnt. induction n as [|n IH]; intros i cnt Hi Hn Hc.
  - exists cnt. split_and!; try done. intros l Hl. rewrite Hc by done. f_equal.
    unfold rank. rewrite take_ge by lia. done.
  - destruct (aget_range lens i) as [x Hx]; [lia|]. pose proof (lens_ok_at _ _ _ Hok Hx) as Hr.
    cbn [count_lengths]. rewrite (HL _ _ Hx). cbn [mbind option_bind].
    rewrite (Hc x Hr). cbn [mbind option_bind].
    destruct (aset_cell cnt x (rank lens i x + 1)) as (c1 & -> & El & H1).
    { pose proof (rd_range _ _ _ (Hc x Hr)). lia. }
    cbn [mbind option_bind]. destruct (IH (i + 1) c1) as (c' & -> & El' & H'); [lia|lia| |].
    + intros l Hl. rewrite H1, (rank_next _ _ _ _ Hx). rewrite (Z.eqb_sym x l).
      destruct (Z.eqb_spec l x) as [->|]; [done|]. rewrite Hc by done. f_equal. lia.
    + exists c'. split_and!; [done|lia|done].
Qed.

(** ** The check of the lengths *)

Lemma check_left_spec lens cnt n l :
  (forall k, 0 <= k <= 15 -> rd cnt k = Some (bl_count lens k)) -> (l + n = 15)%nat ->
  0 <= codes_left lens l ->
  (exists x, check_left n (Z.of_nat (S l)) cnt (codes_left lens l) = Some (inl x) /\ x < 0 /\
     ~ not_over lens 15) \/
  (check_left n (Z.of_nat (S l)) cnt (codes_left lens l) = Some (inr (codes_left lens 15)) /\
     not_over lens 15).
Proof.
  intros Hc. revert l. induction n as [|n IH]; intros l Hl H0.
  { right. replace l with 15%nat in * by lia. split; [done|]. by apply not_over_iff. }
  cbn [check_left]. rewrite Hc by lia. cbn [mbind option_bind]. rewrite shiftl1.
  change (2 * codes_left lens l - bl_count lens (Z.of_nat (S l))) with (codes_left lens (S l)).
  destruct (Z.ltb_spec (codes_left lens (S l)) 0) as [H|H].
  - left. eexists. split; [done|]. split; [done|]. rewrite not_over_iff.
    pose proof (codes_left_neg lens (S l) 15 ltac:(lia) H). lia.
  - replace (Z.of_nat (S l) + 1) with (Z.of_nat (S (S l))) by lia. apply IH; [lia|done].
Qed.

(** ** Offsets and sorting *)

Lemma make_offs_spec lens cnt n l offs :
  (forall k, 0 <= k <= 15 -> rd cnt k = Some (bl_count lens k)) ->
  (1 <= l)%nat -> (l + n = 15)%nat -> length offs = 16%nat ->
  (forall k, (1 <= k <= l)%nat -> rd offs (Z.of_nat k) = Some (index_of lens k)) ->
  exists offs', make_offs n (Z.of_nat l) cnt offs = Some offs' /\ length offs' = 16%nat /\
    (forall k, (1 <= k <= 15)%nat -> rd offs' (Z.of_nat k) = Some (index_of lens k)).
Proof.
  intros Hc. revert l offs. induction n as [|n IH]; intros l offs Hl Hn Hlen Ho.
  { exists offs. split_and!; try done. intros k Hk. apply Ho. lia. }
  cbn [make_offs]. rewrite Ho by lia. cbn [mbind option_bind]. rewrite Hc by lia. cbn [mbind option_bind].
  destruct (aset_cell offs (Z.of_nat l + 1) (index_of lens l + bl_count lens (Z.of_nat l)))
    as (o1 & -> & El & H1); [lia|]. cbn [mbind option_bind].
  replace (Z.of_nat l + 1) with (Z.of_nat (S l)) in * by lia. apply IH; [lia|lia|lia|].
  intros k Hk. rewrite H1. destruct (Z.eqb_spec (Z.of_nat k) (Z.of_nat (S l))).
  - replace k with (S l) by lia. cbn [index_of]. destruct l; [lia|done].
  - apply Ho. lia.
Qed.

(** The symbols in the code are no more than the lengths. *)
Lemma index_of_cons x lens n :
  index_of (x :: lens) n = index_of lens n + (if (0 <? x) && (x <? Z.of_nat n) then 1 else 0).
Proof.
  induction n as [|n IH]; cbn [index_of].
  { destruct (Z.ltb_spec 0 x), (Z.ltb_spec x (Z.of_nat 0)); cbn; try done; lia. }
  rewrite IH. destruct n as [|n]; cbn [code_count]; [|rewrite bl_count_cons];
    repeat match goal with |- context [?a <? ?b] => destruct (Z.ltb_spec a b)
    | |- context [?a =? ?b] => destruct (Z.eqb_spec a b) end; cbn [andb]; lia.
Qed.

Lemma index_of_length lens n : index_of lens n <= Z.of_nat (length lens).
Proof.
  induction lens as [|x lens IH].
  { induction n as [|n IHn]; [done|]. cbn [index_of]. destruct n; cbn [code_count]; [done|].
    change (bl_count [] _) with 0. lia. }
  rewrite index_of_cons, length_cons. destruct ((0 <? x) && (x <? Z.of_nat n)); lia.
Qed.

(** Where [s] goes in the table. *)
Definition slot (lens : list Z) (s l : Z) : Z := index_of lens (Z.to_nat l) + rank lens s l.

Lemma slot_bounds lens s l :
  is_sym lens s l -> index_of lens (Z.to_nat l) <= slot lens s l < index_of lens (S (Z.to_nat l)).
Proof.
  intros H. pose proof (rank_bound _ _ _ H). cbn [index_of]. rewrite (is_sym_count _ _ _ H).
  unfold slot. lia.
Qed.

Lemma slot_inj lens s l t k : is_sym lens s l -> is_sym lens t k -> slot lens s l = slot lens t k -> s = t.
Proof.
  intros Hs Ht E. pose proof (slot_bounds _ _ _ Hs) as Bs. pose proof (slot_bounds _ _ _ Ht) as Bt.
  assert (Hlk : Z.to_nat l = Z.to_nat k).
  { destruct (Nat.lt_total (Z.to_nat l) (Z.to_nat k)) as [H|[H|H]]; [|done|];
      apply (index_of_mono lens) in H; lia. }
  assert (l = k) as <- by (destruct Hs, Ht; lia). eapply rank_inj; [done..|]. unfold slot in E. lia.
Qed.

Lemma sort_symbols_spec lens L n i offs syms :
  holds L lens -> lens_ok lens -> 0 <= i -> i + Z.of_nat n = Z.of_nat (length lens) ->
  (length lens <= length syms)%nat -> length offs = 16%nat ->
  (forall l, 1 <= l <= 15 -> rd offs l = Some (slot lens i l)) ->
  (forall s l, s < i -> is_sym lens s l -> rd syms (slot lens s l) = Some s) ->
  exists syms', sort_symbols n i L offs syms = Some syms' /\ length syms' = length syms /\
    (forall s l, is_sym lens s l -> rd syms' (slot lens s l) = Some s).
Proof.
  intros HL Hok. revert i offs syms. induction n as [|n IH]; intros i offs syms Hi Hn Hlen Hlo Ho Hs.
  { exists syms. split_and!; try done. intros s l H. apply Hs; [|done]. destruct H as [H%aget_Some_lt _]. lia. }
  destruct (aget_range lens i) as [x Hx]; [lia|]. pose proof (lens_ok_at _ _ _ Hok Hx) as Hr.
  cbn [sort_symbols]. rewrite (HL _ _ Hx). cbn [mbind option_bind]. unfold ztrue.
  destruct (Z.eqb_spec x 0) as [->|Hne]; cbn [negb].
  - apply IH; try done; [lia|lia| |].
    + intros l Hl. rewrite Ho by done. unfold slot. rewrite (rank_next _ _ _ _ Hx).
      destruct (Z.eqb_spec 0 l); [lia|]. f_equal. lia.
    + intros s l Hlt Hsym. destruct (decide (s = i)) as [->|]; [|apply Hs; [lia|done]].
      destruct Hsym as [E ?]. rewrite Hx in E. injection E as <-. lia.
  - assert (Hsym : is_sym lens i x) by (split; [done|lia]). rewrite Ho by lia. cbn [mbind option_bind].
    pose proof (slot_bounds _ _ _ Hsym) as Hb. pose proof (index_of_nonneg lens (Z.to_nat x)).
    pose proof (index_of_length lens (S (Z.to_nat x))).
    destruct (aset_cell syms (slot lens i x) i) as (s1 & -> & El1 & H1); [lia|]. cbn [mbind option_bind].
    destruct (aset_cell offs x (slot lens i x + 1)) as (o1 & -> & El2 & H2); [lia|]. cbn [mbind option_bind].
    rewrite <- El1. apply IH; try done; [lia|lia|lia|lia| |].
    + intros l Hl. rewrite H2. unfold slot. rewrite (rank_next _ _ _ _ Hx), (Z.eqb_sym x l).
      destruct (Z.eqb_spec l x) as [->|]; [f_equal; lia|]. rewrite Ho by done. unfold slot. f_equal. lia.
    + intros s l Hlt Hsl. rewrite H1. destruct (Z.eqb_spec (slot lens s l) (slot lens i x)) as [E|E].
      * f_equal. symmetry. eapply slot_inj; eassumption.
      * apply Hs; [|done]. destruct (decide (s = i)) as [->|]; [|lia]. exfalso. apply E.
        destruct Hsl as [Ha _], Hsym as [Hb' _]. congruence.
Qed.

(** ** [construct] *)

(** The arrays of [h] are large enough for [n] symbols. *)
Definition room (h : huffman) (n : nat) : Prop := length (count h) = 16%nat /\ (n <= length (symbol h))%nat.

Lemma no_codes_left lens l : Forall (fun x => x = 0) lens -> codes_left lens l = 2 ^ Z.of_nat l.
Proof.
  intros H. assert (Hc : forall k, code_count lens k = 0).
  { intros [|k]; [done|]. cbn [code_count]. induction H as [|x lens -> _ IH]; [done|].
    rewrite bl_count_cons, IH. done. }
  induction l as [|l IH]; [done|]. cbn [codes_left]. rewrite Hc, IH.
  rewrite Nat2Z.inj_succ, Z.pow_succ_r by lia. lia.
Qed.

Lemma all_zero lens : bl_count lens 0 = Z.of_nat (length lens) -> Forall (fun x => x = 0) lens.
Proof.
  induction lens as [|x lens IH]; [done|]. rewrite bl_count_cons, length_cons. intros H.
  pose proof (bl_count_le lens 0). destruct (Z.eqb_spec x 0); [|lia]. constructor; [done|]. apply IH. lia.
Qed.

Lemma construct_spec h lens L :
  holds L lens -> lens_ok lens -> room h (length lens) ->
  exists err h', construct h L (Z.of_nat (length lens)) = Some (err, h') /\
    length (count h') = 16%nat /\ length (symbol h') = length (symbol h) /\
    (forall l, 0 <= l <= 15 -> rd (count h') l = Some (bl_count lens l)) /\
    ((err < 0 /\ ~ not_over lens 15) \/
     (not_over lens 15 /\ tab_ok h' lens /\
      (err = codes_left lens 15 \/ err = 0 /\ Forall (fun x => x = 0) lens))).
Proof.
  intros HL Hok [Hc16 Hsy]. unfold construct. change (Z.to_nat (MAXBITS + 1)) with 16%nat.
  destruct (fill_spec 16 0 0 (count h)) as (c0 & -> & El0 & H0); [lia|lia|]. cbn [mbind option_bind].
  rewrite Nat2Z.id.
  destruct (count_lengths_spec lens L (length lens) 0 c0) as (cnt & -> & Elc & Hcnt); try done; try lia.
  { intros l Hl. rewrite H0. destruct (Z.leb_spec 0 l), (Z.ltb_spec l (0 + Z.of_nat 16)); try lia. done. }
  cbn [mbind option_bind]. rewrite Hcnt by lia. cbn [mbind option_bind].
  destruct (Z.eqb_spec (bl_count lens 0) (Z.of_nat (length lens))) as [Ez|Ez].
  { pose proof (all_zero _ Ez) as Hz. eexists _, _. split; [reflexivity|]. cbn [count symbol].
    split_and!; try done; [lia|]. right. split_and!.
    - apply not_over_iff. by rewrite no_codes_left.
    - constructor; [done|exact Hcnt|]. intros s l [[_ Ha]%aget_Some Hp].
      eapply Forall_lookup_1 in Hz; [|exact Ha]. lia.
    - by right. }
  destruct (check_left_spec lens cnt 15 0 Hcnt eq_refl ltac:(done)) as [(x & E & Hx & Hno)|(E & Hno)];
    change (Z.to_nat MAXBITS) with 15%nat; change (Z.of_nat 1) with 1 in E;
    change (codes_left lens 0) with 1 in E; rewrite E; cbn [mbind option_bind].
  - eexists _, _. split; [reflexivity|]. cbn [count symbol]. split_and!; try done; [lia|]. by left.
  - change (Z.to_nat (MAXBITS - 1)) with 14%nat.
    destruct (aset_cell (cells (MAXBITS + 1) None) 1 0) as (o0 & -> & Elo & Ho0); [by vm_compute|].
    cbn [mbind option_bind].
    change (length (cells (MAXBITS + 1) None)) with 16%nat in Elo.
    destruct (make_offs_spec lens cnt 14 1 o0) as (o1 & Eo1 & Elo1 & Ho1); try done; try lia.
    { intros k Hk. rewrite Ho0. replace k with 1%nat by lia. done. }
    change (Z.of_nat 1) with 1 in Eo1. rewrite Eo1. cbn [mbind option_bind].
    destruct (sort_symbols_spec lens L (length lens) 0 o1 (symbol h)) as (sy & -> & Els & Hs); try done; try lia.
    { intros l Hl. pose proof (Ho1 (Z.to_nat l) ltac:(lia)) as E1. rewrite Z2Nat.id in E1 by lia.
      rewrite E1. unfold slot. f_equal. change (rank lens 0 l) with 0. lia. }
    { intros s l Hs [[? _]%aget_Some _]. lia. }
    cbn [mbind option_bind]. eexists _, _. split; [reflexivity|]. cbn [count symbol].
    split_and!; try done; [lia|]. right. split_and!; [done| |by left].
    constructor; [done|exact Hcnt|]. intros s l Hsl. by apply Hs.
Qed.
