(* ===== verification/PuffCodes.v ===== *)
(** * Correctness of [codes]

    The literals and matches of a block: [codes] accepts the bits that stand
    for tokens under the two codes, and writes what the tokens expand to. *)
From stdpp Require Import base numbers list.
From Stdlib Require Import ZArith Lia Bool.
From S2P Require Import Prelude Huffman Deflate Puff PuffFacts PuffTables.

(** ** The output *)

(** The bytes [g] have been produced: they are at the front of the buffer, if
    there is one, and the buffer has room for [outlen] bytes. *)
Record out_ok (g : list Z) (s : state) : Prop := {
  og_cnt : outcnt s = Z.of_nat (length g);
  og_bytes : Forall is_byte g;
  og_buf : match out s with
           | Some o => outcnt s <= outlen s <= Z.of_nat (length o) /\ take (length g) o = g
           | None => True
           end }.

(** What the blocks never change: the input, the limits, the tables, whether
    there is a buffer. *)
Definition keeps (s s' : state) : Prop :=
  inp s' = inp s /\ inlen s' = inlen s /\ outlen s' = outlen s /\ fx s' = fx s /\
  option_map length (out s') = option_map length (out s).

#[export] Instance keeps_refl : Reflexive keeps.
Proof. by intros s. Qed.
#[export] Instance keeps_trans : Transitive keeps.
Proof. unfold keeps. intros a b c. intuition congruence. Qed.

Lemma frame_keeps s s' : frame s s' -> keeps s s'.
Proof. unfold frame, keeps. intros (-> & -> & _ & -> & -> & ->). done. Qed.

Lemma frame_out g s s' : frame s s' -> out_ok g s -> out_ok g s'.
Proof.
  intros (Eo & El & Ec & _) [H1 H2 H3]. constructor; rewrite ?Eo, ?El, ?Ec; done.
Qed.

(** What writing does not change. *)
Definition oframe (s s' : state) : Prop :=
  inp s' = inp s /\ inlen s' = inlen s /\ incnt s' = incnt s /\ bitbuf s' = bitbuf s /\
  bitcnt s' = bitcnt s /\ outlen s' = outlen s /\ fx s' = fx s /\
  option_map length (out s') = option_map length (out s).

#[export] Instance oframe_refl : Reflexive oframe.
Proof. by intros s. Qed.
#[export] Instance oframe_trans : Transitive oframe.
Proof. unfold oframe. intros a b c. intuition congruence. Qed.

Lemma oframe_keeps s s' : oframe s s' -> keeps s s'.
Proof. unfold oframe, keeps. intuition congruence. Qed.

Lemma oframe_input s s' : oframe s s' -> input_ok s -> input_ok s'.
Proof. intros (E1 & E2 & E3 & E4 & E5 & _) []. constructor; congruence. Qed.

Lemma oframe_sbits s s' : oframe s s' -> sbits s' = sbits s.
Proof. intros (E1 & E2 & E3 & E4 & E5 & _). unfold sbits, unread. congruence. Qed.

Lemma byte_wrap b : is_byte b -> wrap 8 b = b.
Proof. intros H. unfold wrap. by apply Z.mod_small. Qed.

(** Storing the next byte and counting it. *)
Lemma store_step g s c o :
  out s = Some o -> out_ok g s -> outcnt s < outlen s -> is_byte c ->
  exists s', (store_out c;; modify (fun s => set_outcnt (outcnt s + 1) s)) s = Ok tt s' /\
    oframe s s' /\ out_ok (g ++ [c]) s'.
Proof.
  intros Eo [Hc Hb Hbuf] Hlt Hby. rewrite Eo in Hbuf. destruct Hbuf as [Hr Ht].
  unfold store_out, mbind, M_bind, get, lift, modify. rewrite Eo, byte_wrap by done.
  rewrite aset_Some by lia. cbn [mret M_ret]. eexists. split; [reflexivity|]. split.
  - repeat split; cbn; try done. by rewrite Eo, length_insert.
  - constructor; cbn.
    + rewrite length_app. cbn [length]. lia.
    + apply Forall_app_2; [done|]. by constructor.
    + rewrite length_insert, length_app. cbn [length]. split; [lia|].
      rewrite Hc, Nat2Z.id, Nat.add_1_r.
      assert (Hlo : (length g < length o)%nat) by lia.
      rewrite (take_S_r _ _ c) by (by apply list_lookup_insert_eq).
      rewrite take_insert_ge by lia. by rewrite Ht.
Qed.

(** Counting only. *)
Lemma count_step g s k :
  out s = None -> out_ok g s -> Forall is_byte k ->
  oframe s (set_outcnt (outcnt s + Z.of_nat (length k)) s) /\
  out_ok (g ++ k) (set_outcnt (outcnt s + Z.of_nat (length k)) s).
Proof.
  intros Eo [Hc Hb _] Hk. split; [by repeat split|]. constructor; cbn.
  - rewrite length_app. lia.
  - by apply Forall_app_2.
  - by rewrite Eo.
Qed.

Lemma put_literal_spec g s c :
  out_ok g s -> is_byte c ->
  (exists s', put_literal c s = Ok (inr c) s' /\ oframe s s' /\ out_ok (g ++ [c]) s' /\
     (out s = None \/ outcnt s < outlen s)) \/
  (put_literal c s = Ok (inl 1) s /\ out s <> None /\ outcnt s = outlen s).
Proof.
  intros Ho Hc. unfold put_literal. rewrite bind_get. destruct (out s) as [o|] eqn:Eo.
  - destruct (Z.eqb_spec (outcnt s) (outlen s)); [by right|]. left.
    assert (outcnt s < outlen s) by (destruct Ho as [_ _ H]; rewrite Eo in H; lia).
    destruct (store_step g s c o Eo Ho ltac:(done) Hc) as (s' & E & F & Ho').
    exists s'. split_and!; try done; [|by right].
    rewrite <- bind_assoc. by rewrite (bind_ok _ _ _ _ _ E).
  - left. destruct (count_step g s [c] Eo Ho) as [F Ho']; [by constructor|].
    eexists. split; [|split; [exact F|split; [exact Ho'|by left]]]. by rewrite bind_modify.
Qed.

(** A match. *)
Lemma copy_bytes_total n dist g :
  1 <= dist <= Z.of_nat (length g) -> exists g', copy_bytes n dist g = Some g'.
Proof.
  revert g. induction n as [|n IH]; intros g Hd; [by eexists|]. cbn [copy_bytes].
  destruct (aget_range g (Z.of_nat (length g) - dist)) as [b ->]; [lia|]. cbn [mbind option_bind].
  apply IH. rewrite length_app. lia.
Qed.

Lemma copy_bytes_bytes n dist g g' :
  Forall is_byte g -> copy_bytes n dist g = Some g' -> Forall is_byte g'.
Proof.
  revert g. induction n as [|n IH]; intros g Hb; cbn [copy_bytes]; [by intros [= <-]|].
  intros (b & [_ Ha]%aget_Some & H)%bind_Some. eapply IH; [|exact H].
  apply Forall_app_2; [done|]. constructor; [|done]. by eapply Forall_lookup_1 in Hb.
Qed.

Lemma take_aget (o g : list Z) i b :
  take (length g) o = g -> i < Z.of_nat (length g) -> aget g i = Some b -> aget o i = Some b.
Proof.
  intros <- Hi [H0 Hg]%aget_Some. apply aget_Some. split; [done|].
  apply lookup_take_Some in Hg. tauto.
Qed.

Lemma copy_back_spec n dist g g' s o :
  out s = Some o -> out_ok g s -> outcnt s + Z.of_nat n <= outlen s -> 1 <= dist <= Z.of_nat (length g) ->
  copy_bytes n dist g = Some g' ->
  exists s', copy_back n dist s = Ok tt s' /\ oframe s s' /\ out_ok g' s'.
Proof.
  revert g s o. induction n as [|n IH]; intros g s o Eo Ho Hn Hd; cbn [copy_bytes copy_back].
  { intros [= <-]. by exists s. }
  intros (b & Ha & Hc)%bind_Some. pose proof Ho as [Hcnt Hby Hbuf]. rewrite Eo in Hbuf.
  destruct Hbuf as [Hr Ht].
  rewrite bind_get, (bind_lift _ o), (bind_lift _ b)
    by first [done | rewrite Hcnt; apply (take_aget _ _ _ _ Ht); [lia|exact Ha]].
  assert (Hb : is_byte b) by (apply aget_Some in Ha as [_ Ha]; by eapply Forall_lookup_1 in Hby).
  destruct (store_step g s b o Eo Ho ltac:(lia) Hb) as (s1 & E1 & F1 & Ho1).
  assert (Eo1 : exists o1, out s1 = Some o1).
  { destruct F1 as (_ & _ & _ & _ & _ & _ & _ & El). rewrite Eo in El. destruct (out s1); [by eexists|done]. }
  destruct Eo1 as [o1 Eo1]. destruct (IH (g ++ [b]) s1 o1) as (s' & E' & F' & Ho'); try done.
  { rewrite (og_cnt _ _ Ho1), length_app. destruct F1 as (_ & _ & _ & _ & _ & -> & _). cbn [length]. lia. }
  { rewrite length_app. lia. }
  exists s'. split_and!; [|by etrans|done]. rewrite <- E'.
  rewrite <- bind_assoc. by rewrite (bind_ok _ _ _ _ _ E1).
Qed.

(** ** The tables of lengths and distances *)

Lemma lens_table k : 0 <= k < 29 ->
  aget lens k = Some (len_base k) /\ aget lext k = Some (len_extra k) /\ 0 <= len_extra k <= 5.
Proof.
  intros Hk. assert (H : Forall (fun k => aget lens k = Some (len_base k) /\
    aget lext k = Some (len_extra k) /\ 0 <= len_extra k <= 5) (seqZ 0 29))
    by (apply (bool_decide_unpack _); vm_compute; exact I).
  rewrite Forall_forall in H. apply H. apply elem_of_seqZ. lia.
Qed.

Lemma dist_table k : 0 <= k < 30 ->
  aget dists k = Some (dist_base k) /\ aget dext k = Some (dist_extra k) /\
  0 <= dist_extra k <= 13 /\ 1 <= dist_base k.
Proof.
  intros Hk. assert (H : Forall (fun k => aget dists k = Some (dist_base k) /\
    aget dext k = Some (dist_extra k) /\ 0 <= dist_extra k <= 13 /\ 1 <= dist_base k) (seqZ 0 30))
    by (apply (bool_decide_unpack _); vm_compute; exact I).
  rewrite Forall_forall in H. apply H. apply elem_of_seqZ. lia.
Qed.

(** ** Reading a field that is there *)

Lemma bits_complete s need v rest :
  input_ok s -> 0 <= need <= 13 -> 0 <= v < 2 ^ need ->
  sbits s = z_bits (Z.to_nat need) v ++ rest ->
  exists s', bits need s = Ok v s' /\ input_ok s' /\ frame s s' /\ sbits s' = rest.
Proof.
  intros I Hn Hv E. pose proof (bits_wp s need I Hn) as H. unfold wp in H.
  destruct (bits need s) as [v' s'|e s'| |]; try done.
  - destruct H as (I' & F & Hv' & E'). rewrite E in E'.
    apply app_inj_1 in E' as [Ev Er]; [|by rewrite !length_z_bits].
    apply (f_equal bits_z) in Ev. rewrite !bits_z_z_bits_small in Ev by (rewrite Z2Nat.id by lia; lia).
    subst v'. exists s'. split_and!; done.
  - destruct H as (_ & _ & H). rewrite E, length_app, length_z_bits in H. lia.
Qed.

(** There is no buffer, or there is room for the bytes [g]. *)
Definition fits (g : list Z) (s : state) : Prop := out s = None \/ Z.of_nat (length g) <= outlen s.

Lemma fits_keeps g s s' : keeps s s' -> fits g s -> fits g s'.
Proof.
  intros (_ & _ & El & _ & Eo) [H|H]; [left|right; lia]. rewrite H in Eo. by destruct (out s').
Qed.

Lemma fits_app g k s : fits (g ++ k) s -> fits g s.
Proof. intros [H|H]; [by left|right]. rewrite length_app in H. lia. Qed.

Section Codes.
Context (decode : huffman -> M state Z) {D : Decoder decode}.
Context (ll dl : list Z) (lh dh : huffman) (Hl : tab_ok lh ll) (Hd : tab_ok dh dl).
Context (Hll : (length ll <= 288)%nat) (Hdl : (length dl <= 30)%nat).

(** ** What [codes] accepts *)

(** An early return or a match [g'] after the bytes [g]. *)
Definition match_post (sym : Z) (g : list Z) (s : state) (r : Z + Z) (s' : state) : Prop :=
  input_ok s' /\ keeps s s' /\
  match r with
  | inl e => e <> 0 /\ -11 <= e <= 1 /\ out_ok g s'
  | inr j => exists e f v g', 0 <= sym - 257 < 29 /\ 0 <= e < 2 ^ len_extra (sym - 257) /\
      0 <= j < 30 /\ code_bits dl j = Some v /\ 0 <= f < 2 ^ dist_extra j /\
      expand1 g (Copy (len_base (sym - 257) + e) (dist_base j + f)) = Some g' /\ out_ok g' s' /\
      sbits s = z_bits (Z.to_nat (len_extra (sym - 257))) e ++ v ++
                z_bits (Z.to_nat (dist_extra j)) f ++ sbits s'
  end.

Lemma put_match_wp g sym s :
  input_ok s -> out_ok g s -> 257 <= sym ->
  wp (put_match decode dh sym) (match_post sym g s)
     (fun e s' => e = 1 /\ keeps s s' /\ out_ok g s') s.
Proof.
  intros I Ho Hsym. unfold put_match. destruct (Z.geb_spec (sym - 257) 29) as [H|H].
  { apply wp_ret. split_and!; try done; lia. }
  destruct (lens_table (sym - 257)) as (E1 & E2 & Hx); [lia|].
  apply wp_bind. eapply wp_lift; [exact E1|]. apply wp_bind. eapply wp_lift; [exact E2|].
  apply wp_bind. eapply wp_mono; [apply bits_wp; [done|lia]| |].
  2: { intros e s' (-> & F & _). split_and!; [done|by apply frame_keeps|by eapply frame_out]. }
  intros e s1 (I1 & F1 & He & Es1). apply wp_bind.
  eapply wp_mono; [by apply (decode_wp decode dh dl)| |].
  2: { intros e' s' (-> & F). assert (F' : frame s s') by (by etrans).
       split_and!; [done|by apply frame_keeps|by eapply frame_out]. }
  intros j s2 (I2 & F2 & Hj). assert (F12 : frame s s2) by (by etrans).
  destruct (Z.ltb_spec j 0) as [Hneg|Hpos].
  { apply wp_ret. destruct Hj as [[? _]| ->]; [lia|].
    split_and!; try done; [by apply frame_keeps|by eapply frame_out]. }
  destruct Hj as [[Hj (v & Ev & _ & Es2)]| ->]; [|lia].
  destruct (dist_table j) as (E3 & E4 & Hy & Hb); [lia|].
  apply wp_bind. eapply wp_lift; [exact E3|]. apply wp_bind. eapply wp_lift; [exact E4|].
  apply wp_bind. eapply wp_mono; [apply bits_wp; [done|lia]| |].
  2: { intros e' s' (-> & F & _). assert (F' : frame s s') by (by etrans).
       split_and!; [done|by apply frame_keeps|by eapply frame_out]. }
  intros f s3 (I3 & F3 & Hf & Es3). assert (F : frame s s3) by (by etrans). clear F1 F2 F3 F12.
  pose proof (frame_out g s s3 F Ho) as Ho3. pose proof Ho3 as [Hcnt Hby Hbuf].
  apply wp_bind, wp_get. destruct (Z.gtb_spec (dist_base j + f) (outcnt s3)) as [Hfar|Hnear].
  { apply wp_ret. split_and!; try done; try lia; by apply frame_keeps. }
  destruct (copy_bytes_total (Z.to_nat (len_base (sym - 257) + e)) (dist_base j + f) g) as [g' Hg']; [lia|].
  assert (Hx1 : expand1 g (Copy (len_base (sym - 257) + e) (dist_base j + f)) = Some g').
  { cbn [expand1]. destruct (Z.leb_spec 1 (dist_base j + f)); [|lia].
    destruct (Z.leb_spec (dist_base j + f) (Z.of_nat (length g))); [done|lia]. }
  assert (Hsb : sbits s = z_bits (Z.to_nat (len_extra (sym - 257))) e ++ v ++
                z_bits (Z.to_nat (dist_extra j)) f ++ sbits s3) by (by rewrite Es1, Es2, Es3).
  assert (Hlen : 0 <= len_base (sym - 257) + e).
  { pose proof (copy_bytes_app _ _ _ _ Hg') as _. assert (0 <= len_base (sym - 257)); [|lia].
    apply aget_Some in E1 as [_ E1]. assert (Hall : Forall (fun x => 0 <= x) lens)
      by (repeat constructor; lia). by eapply Forall_lookup_1 in Hall. }
  destruct (out s3) as [o|] eqn:Eo.
  - destruct (Z.gtb_spec (outcnt s3 + (len_base (sym - 257) + e)) (outlen s3)).
    { apply wp_ret. split_and!; try done; try lia; by apply frame_keeps. }
    destruct (copy_back_spec (Z.to_nat (len_base (sym - 257) + e)) (dist_base j + f) g g' s3 o)
      as (s4 & E5 & F4 & Ho4); try done; try lia.
    apply wp_bind. unfold wp at 1. rewrite E5. apply wp_ret. split_and!.
    + by eapply oframe_input.
    + etrans; [by apply frame_keeps|by apply oframe_keeps].
    + exists e, f, v, g'. rewrite (oframe_sbits _ _ F4). split_and!; try done; lia.
  - apply wp_bind, wp_modify, wp_ret.
    destruct (copy_bytes_app _ _ _ _ Hg') as (k & -> & Hk).
    pose proof (copy_bytes_bytes _ _ _ _ Hby Hg') as Hb'. apply Forall_app in Hb' as [_ Hbk].
    destruct (count_step g s3 k Eo Ho3 Hbk) as [F4 Ho4]. rewrite Hk, Z2Nat.id in F4, Ho4 by lia. split_and!.
    + by eapply oframe_input.
    + etrans; [by apply frame_keeps|by apply oframe_keeps].
    + exists e, f, v, (g ++ k). rewrite (oframe_sbits _ _ F4). split_and!; try done; lia.
Qed.

Definition codes_post (g : list Z) (s : state) (r : Z) (s' : state) : Prop :=
  input_ok s' /\ keeps s s' /\ -11 <= r <= 1 /\
  exists g', out_ok g' s' /\
    (r = 0 -> exists ts w, coded ll dl ts w /\ expand g ts = Some g' /\ sbits s = w ++ sbits s').

Lemma codes_loop_wp fuel g s :
  input_ok s -> out_ok g s -> (length (sbits s) < fuel)%nat ->
  wp (codes_loop decode fuel lh dh) (codes_post g s)
     (fun e s' => e = 1 /\ keeps s s' /\ exists g', out_ok g' s') s.
Proof.
  revert g s. induction fuel as [|fuel IH]; intros g s I Ho Hf; [lia|]. cbn [codes_loop].
  apply wp_bind. eapply wp_mono; [by apply (decode_wp decode lh ll)| |].
  2: { intros e s' (-> & F). split_and!; [done|by apply frame_keeps|]. exists g. by eapply frame_out. }
  intros sym s1 (I1 & F1 & Hsym). pose proof (frame_out g s s1 F1 Ho) as Ho1.
  pose proof (frame_keeps _ _ F1) as K1.
  destruct (Z.ltb_spec sym 0) as [Hneg|Hpos].
  { apply wp_ret. destruct Hsym as [[? _]| ->]; [lia|]. split_and!; try done; try lia.
    exists g. split; [done|lia]. }
  destruct Hsym as [[Hsym (w & Ew & Hw & Es)]| ->]; [|lia].
  assert (Hf1 : (length (sbits s1) < fuel)%nat) by (rewrite Es, length_app in Hf; lia).
  apply wp_bind. destruct (Z.ltb_spec sym 256) as [Hlit|Hlit].
  - destruct (put_literal_spec g s1 sym Ho1) as [(s2 & E & F2 & Ho2 & _)|(E & _ & _)];
      [unfold is_byte; lia| |]; unfold wp at 1; rewrite E.
    + destruct (Z.eqb_spec sym 256); [lia|].
      pose proof (oframe_sbits _ _ F2) as Es2. pose proof (oframe_keeps _ _ F2) as K2.
      eapply wp_mono; [apply IH; [by eapply oframe_input|exact Ho2|by rewrite Es2]| |].
      * intros r s3 (I3 & K3 & Hr & g' & Ho3 & H0).
        split_and!; try done; try lia; [by do 2 (etrans; [eassumption|])|].
        exists g'. split; [done|]. intros H. destruct (H0 H) as (ts & bs & Hc & He & Eb).
        exists (Lit sym :: ts), (w ++ bs). split_and!; [by constructor; [lia|..]|done|].
        by rewrite Es, <- Es2, Eb, app_assoc.
      * intros e s3 (-> & K3 & H3). split_and!; [done|by do 2 (etrans; [eassumption|])|done].
    + apply wp_ret. split_and!; try done; try lia. exists g. split; [done|lia].
  - destruct (Z.gtb_spec sym 256) as [Hm|Hm].
    + eapply wp_mono; [apply (put_match_wp g); [done|done|lia]| |].
      2: { intros e s' (-> & K2 & Ho2). split_and!; [done|by etrans|by exists g]. }
      intros [err|j] s2 (I2 & K2 & H2).
      { apply wp_ret. destruct H2 as (? & ? & ?). split_and!; try done; try lia; [by etrans|].
        exists g. split; [done|lia]. }
      destruct H2 as (e & f & v & g1 & Hk & He & Hj & Ev & Hff & Hx & Ho2 & Eb).
      destruct (Z.eqb_spec j 256); [lia|].
      eapply wp_mono; [apply (IH g1); [done|exact Ho2|]| |].
      * rewrite Eb, !length_app in Hf1. lia.
      * intros r s3 (I3 & K3 & Hr & g' & Ho3 & H0).
        split_and!; try done; try lia; [by do 2 (etrans; [eassumption|])|].
        exists g'. split; [done|]. intros H. destruct (H0 H) as (ts & bs & Hc & Hxp & Eb').
        replace sym with (257 + (sym - 257)) in Ew by lia.
        eexists (Copy _ _ :: ts), _. split; [by eapply (coded_copy ll dl (sym - 257) e w j f v ts bs)|].
        cbn [expand]. rewrite Hx. split; [exact Hxp|]. by rewrite Es, Eb, Eb', <- !app_assoc.
      * intros er s3 (-> & K3 & H3). split_and!; [done|by do 2 (etrans; [eassumption|])|done].
    + assert (sym = 256) as -> by lia. apply wp_ret. apply (wp_ret 0). split_and!; try done; try lia.
      exists g. split; [done|]. intros _. exists [], w. split; [by constructor|]. done.
Qed.

(** ** Every coded list of tokens is accepted *)

Context (Nl : not_over ll 15) (Nd : not_over dl 15).

Lemma put_match_complete g g' k e w j f v rest s :
  input_ok s -> out_ok g s -> 0 <= k < 29 -> 0 <= e < 2 ^ len_extra k -> 0 <= j < 30 ->
  code_bits dl j = Some v -> 0 <= f < 2 ^ dist_extra j ->
  expand1 g (Copy (len_base k + e) (dist_base j + f)) = Some g' -> fits g' s ->
  w = z_bits (Z.to_nat (len_extra k)) e ++ v ++ z_bits (Z.to_nat (dist_extra j)) f ++ rest ->
  sbits s = w ->
  exists s', put_match decode dh (257 + k) s = Ok (inr j) s' /\ input_ok s' /\ keeps s s' /\
    out_ok g' s' /\ sbits s' = rest.
Proof.
  intros I Ho Hk He Hj Ev Hf Hx Hfit -> Es. unfold put_match.
  replace (257 + k - 257) with k by lia. destruct (Z.geb_spec k 29) as [H|_]; [lia|].
  destruct (lens_table k Hk) as (E1 & E2 & Hxl). rewrite (bind_lift _ _ _ _ E1), (bind_lift _ _ _ _ E2).
  destruct (bits_complete s (len_extra k) e _ I ltac:(lia) He Es) as (s1 & B1 & I1 & F1 & S1).
  rewrite (bind_ok _ _ _ _ _ B1).
  destruct (decode_complete decode dh dl s1 j v _ Hd Nd I1 Ev S1) as (s2 & B2 & I2 & F2 & S2).
  rewrite (bind_ok _ _ _ _ _ B2). destruct (Z.ltb_spec j 0) as [H|_]; [lia|].
  destruct (dist_table j Hj) as (E3 & E4 & Hxd & Hb). rewrite (bind_lift _ _ _ _ E3), (bind_lift _ _ _ _ E4).
  destruct (bits_complete s2 (dist_extra j) f _ I2 ltac:(lia) Hf S2) as (s3 & B3 & I3 & F3 & S3).
  rewrite (bind_ok _ _ _ _ _ B3), bind_get.
  assert (F : frame s s3) by (do 2 (etrans; [eassumption|]); done).
  pose proof (frame_out g s s3 F Ho) as Ho3. pose proof Ho3 as [Hcnt Hby _].
  cbn [expand1] in Hx. destruct (Z.leb_spec (dist_base j + f) (Z.of_nat (length g))) as [Hd1|Hd1];
    [|by rewrite andb_false_r in Hx]. destruct (Z.leb_spec 1 (dist_base j + f)) as [Hd2|Hd2]; [|done].
  cbn [andb] in Hx. destruct (Z.gtb_spec (dist_base j + f) (outcnt s3)) as [H|_]; [lia|].
  destruct (copy_bytes_app _ _ _ _ Hx) as (q & -> & Hq).
  assert (Hlen : 0 <= len_base k + e).
  { assert (0 <= len_base k); [|lia]. apply aget_Some in E1 as [_ E1].
    assert (Hall : Forall (fun x => 0 <= x) lens) by (repeat constructor; lia).
    by eapply Forall_lookup_1 in Hall. }
  pose proof (fits_keeps _ _ _ (frame_keeps _ _ F) Hfit) as Hfit3.
  destruct (out s3) as [o|] eqn:Eo.
  - destruct Hfit3 as [?|Hfit3]; [congruence|]. rewrite length_app, Hq in Hfit3.
    destruct (Z.gtb_spec (outcnt s3 + (len_base k + e)) (outlen s3)) as [H|_]; [lia|].
    destruct (copy_back_spec (Z.to_nat (len_base k + e)) (dist_base j + f) g (g ++ q) s3 o)
      as (s4 & E5 & F4 & Ho4); try done; try lia.
    rewrite (bind_ok _ _ _ _ _ E5). exists s4. rewrite (oframe_sbits _ _ F4).
    split_and!; try done; [by eapply oframe_input|].
    etrans; [by apply frame_keeps|by apply oframe_keeps].
  - rewrite bind_modify. pose proof (copy_bytes_bytes _ _ _ _ Hby Hx) as Hb'.
    apply Forall_app in Hb' as [_ Hbq].
    destruct (count_step g s3 q Eo Ho3 Hbq) as [F4 Ho4]. rewrite Hq, Z2Nat.id in F4, Ho4 by lia.
    eexists. split; [reflexivity|]. rewrite (oframe_sbits _ _ F4).
    split_and!; try done; [by eapply oframe_input|].
    etrans; [by apply frame_keeps|by apply oframe_keeps].
Qed.

Lemma codes_loop_complete fuel ts w g g' rest s :
  coded ll dl ts w -> expand g ts = Some g' -> sbits s = w ++ rest ->
  input_ok s -> out_ok g s -> fits g' s -> (length ts < fuel)%nat ->
  exists s', codes_loop decode fuel lh dh s = Ok 0 s' /\ input_ok s' /\ keeps s s' /\
    out_ok g' s' /\ sbits s' = rest.
Proof.
  intros Hc. revert fuel g s. induction Hc as [w Ew|c w ts bs Hc Ew Hcs IH|k e w j f v ts bs Hk Ew He Hj Ev Hf Hcs IH];
    intros fuel g s Hx Es I Ho Hfit Hfuel; (destruct fuel as [|fuel]; [lia|]);
    cbn [codes_loop expand length] in *.
  - destruct (decode_complete decode lh ll s 256 w _ Hl Nl I Ew Es) as (s1 & B1 & I1 & F1 & S1).
    rewrite (bind_ok _ _ _ _ _ B1). injection Hx as <-. exists s1. split; [done|].
    split_and!; try done; [by apply frame_keeps|by eapply frame_out].
  - rewrite <- app_assoc in Es.
    destruct (decode_complete decode lh ll s c w _ Hl Nl I Ew Es) as (s1 & B1 & I1 & F1 & S1).
    rewrite (bind_ok _ _ _ _ _ B1). destruct (Z.ltb_spec c 0), (Z.ltb_spec c 256); try lia.
    pose proof (fits_keeps _ _ _ (frame_keeps _ _ F1) Hfit) as Hfit1.
    pose proof (frame_out _ _ _ F1 Ho) as Ho1. cbn [expand1 mbind option_bind] in Hx.
    destruct (put_literal_spec g s1 c Ho1 Hc) as [(s2 & E & F2 & Ho2 & _)|(_ & Hn & Hfull)].
    + rewrite (bind_ok _ _ _ _ _ E). destruct (Z.eqb_spec c 256); [lia|].
      destruct (IH fuel (g ++ [c]) s2 Hx) as (s3 & E3 & I3 & K3 & Ho3 & S3); try done.
      * by rewrite (oframe_sbits _ _ F2).
      * by eapply oframe_input.
      * eapply fits_keeps; [by apply oframe_keeps|done].
      * lia.
      * exists s3. split_and!; try done. etrans; [by apply frame_keeps|].
        etrans; [by apply oframe_keeps|done].
    + exfalso. destruct (expand_app _ _ _ Hx) as [q ->]. rewrite <- app_assoc in Hfit1.
      destruct Hfit1 as [?|H']; [done|]. rewrite !length_app in H'. cbn [length] in H'.
      pose proof (og_cnt _ _ Ho1). lia.
  - rewrite <- app_assoc in Es.
    destruct (decode_complete decode lh ll s (257 + k) w _ Hl Nl I Ew Es) as (s1 & B1 & I1 & F1 & S1).
    rewrite (bind_ok _ _ _ _ _ B1). destruct (Z.ltb_spec (257 + k) 0), (Z.ltb_spec (257 + k) 256); try lia.
    destruct (Z.gtb_spec (257 + k) 256); [|lia].
    apply bind_Some in Hx as (g1 & Hx1 & Hx).
    pose proof (fits_keeps _ _ _ (frame_keeps _ _ F1) Hfit) as Hfit1.
    pose proof (frame_out _ _ _ F1 Ho) as Ho1. rewrite <- !app_assoc in S1.
    assert (Hfit2 : fits g1 s1) by (destruct (expand_app _ _ _ Hx) as [q ->]; by eapply fits_app).
    destruct (put_match_complete g g1 k e _ j f v (bs ++ rest) s1 I1 Ho1 Hk He Hj Ev Hf Hx1 Hfit2 eq_refl S1)
      as (s2 & E2 & I2 & K2 & Ho2 & S2).
    rewrite (bind_ok _ _ _ _ _ E2). destruct (Z.eqb_spec j 256); [lia|].
    destruct (IH fuel g1 s2 Hx) as (s3 & E3 & I3 & K3 & Ho3 & S3); try done; [by eapply fits_keeps|lia|].
    exists s3. split_and!; try done. etrans; [by apply frame_keeps|]. by etrans.
Qed.
End Codes.
