(* ===== verification/PuffBlocks.v ===== *)
(** * Correctness of the blocks of the inflater

    [stored], [fixed] and [dynamic] of contrib/puff against the blocks of the
    deflate format. *)
From stdpp Require Import base numbers list.
From Stdlib Require Import ZArith Lia Bool.
From S2P Require Import Prelude Huffman Deflate Puff PuffFacts PuffTables PuffCodes.

(** ** Stored blocks *)

Lemma bytes_bits_split l h rest :
  Forall is_byte l -> Forall is_byte h -> bytes_bits l = bytes_bits h ++ rest ->
  exists l', l = h ++ l' /\ rest = bytes_bits l'.
Proof.
  intros Hl Hh. revert l Hl. induction Hh as [|b h Hb Hh IH]; intros l Hl E; [by exists l|].
  destruct Hl as [|c l Hc Hl]; [done|]. rewrite !bytes_bits_cons, <- app_assoc in E.
  apply app_inj_1 in E as [Eb E]; [|by rewrite !length_z_bits].
  apply (f_equal bits_z) in Eb. rewrite !bits_z_z_bits_small in Eb by (unfold is_byte in *; simpl; lia).
  destruct (IH l Hl E) as (l' & -> & ->). exists l'. by subst.
Qed.

(** The length of a stored block and its complement, as bytes. *)
Definition stored_head (data : list Z) : list Z :=
  let n := Z.of_nat (length data) in [n mod 256; n / 256; 255 - n mod 256; 255 - n / 256].

Lemma z_bits_16 a b : is_byte a -> z_bits 16 (a + 256 * b) = z_bits 8 a ++ z_bits 8 b.
Proof.
  intros Ha. unfold is_byte in Ha. change 16%nat with (8 + 8)%nat. rewrite z_bits_app. f_equal.
  - rewrite <- (z_bits_wrap 8 8) by lia. unfold wrap. change (2 ^ 8) with 256.
    rewrite Z.mul_comm, Z.mod_add, Z.mod_small by lia. done.
  - change (Z.of_nat 8) with 8. rewrite Z.shiftr_div_pow2 by lia. change (2 ^ 8) with 256.
    rewrite Z.mul_comm, Z.div_add, Z.div_small by lia. done.
Qed.

Lemma stored_head_bytes data : Z.of_nat (length data) < 2 ^ 16 -> Forall is_byte (stored_head data).
Proof.
  intros H. change (2 ^ 16) with 65536 in H. unfold stored_head, is_byte.
  repeat constructor; Z.div_mod_to_equations; lia.
Qed.

Lemma stored_bits_bytes data :
  Z.of_nat (length data) < 2 ^ 16 -> stored_bits data = bytes_bits (stored_head data ++ data).
Proof.
  intros H. rewrite bytes_bits_app. unfold stored_bits. rewrite app_assoc. f_equal.
  change (2 ^ 16) with 65536 in H. unfold stored_head. set (n := Z.of_nat (length data)) in *.
  assert (Hn : 0 <= n) by (subst n; lia). clearbody n.
  rewrite !bytes_bits_cons, app_assoc. change (bytes_bits []) with (@nil bool). rewrite app_nil_r.
  rewrite <- z_bits_16 by (unfold is_byte; Z.div_mod_to_equations; lia).
  rewrite <- z_bits_16 by (unfold is_byte; Z.div_mod_to_equations; lia).
  f_equal; f_equal; Z.div_mod_to_equations; lia.
Qed.

Lemma next_in_step s b bs :
  input_ok s -> unread s = b :: bs ->
  next_in s = Ok b (set_incnt (incnt s + 1) s) /\ input_ok (set_incnt (incnt s + 1) s) /\
  unread (set_incnt (incnt s + 1) s) = bs /\ is_byte b.
Proof.
  intros I E. pose proof (unread_length s I) as Hl. rewrite E in Hl. cbn [length] in Hl.
  pose proof (unread_bytes s I) as Hb. rewrite E in Hb. apply Forall_cons in Hb as [Hb _].
  destruct (unread_cons s) as (c & Ec & Eu); [destruct I; lia|apply I|].
  rewrite E in Eu. injection Eu as <- Eu. split_and!; try done.
  - unfold next_in. rewrite bind_get, (bind_lift _ _ _ _ Ec), bind_modify. done.
  - destruct I. constructor; cbn; try done; lia.
Qed.

Lemma unread_nil_iff s : input_ok s -> unread s = [] -> incnt s = inlen s.
Proof. intros I E. pose proof (unread_length s I) as H. rewrite E in H. cbn in H. lia. Qed.

Lemma unread_skip s k :
  0 <= incnt s -> 0 <= k -> unread (set_incnt (incnt s + k) s) = drop (Z.to_nat k) (unread s).
Proof.
  intros Hi Hk. unfold unread. cbn [inlen incnt inp set_incnt].
  rewrite skipn_firstn_comm, drop_drop. f_equal; [lia|]. f_equal. lia.
Qed.

(** Copying bytes from the input to the buffer. *)
Lemma stored_copy_spec data rest g s o :
  input_ok s -> out_ok g s -> out s = Some o -> unread s = data ++ rest ->
  outcnt s + Z.of_nat (length data) <= outlen s ->
  exists s', stored_copy (length data) s = Ok tt s' /\ input_ok s' /\ keeps s s' /\
    out_ok (g ++ data) s' /\ unread s' = rest /\ bitcnt s' = bitcnt s.
Proof.
  revert g s o. induction data as [|b data IH]; intros g s o I Ho Eo E Hr; cbn [stored_copy length].
  { exists s. by rewrite app_nil_r. }
  destruct (next_in_step s b (data ++ rest) I E) as (En & I1 & E1 & Hb).
  rewrite (bind_ok _ _ _ _ _ En). set (s1 := set_incnt (incnt s + 1) s) in *.
  assert (F1 : frame s s1) by done. pose proof (frame_out _ _ _ F1 Ho) as Ho1.
  cbn [length] in Hr.
  destruct (store_step g s1 b o Eo Ho1 ltac:(cbn; lia) Hb) as (s2 & E2 & F2 & Ho2).
  rewrite <- bind_assoc, (bind_ok _ _ _ _ _ E2).
  assert (Eo2 : exists o2, out s2 = Some o2).
  { destruct F2 as (_ & _ & _ & _ & _ & _ & _ & El). change (out s1) with (out s) in El.
    rewrite Eo in El. destruct (out s2); [by eexists|done]. }
  destruct Eo2 as [o2 Eo2].
  destruct (IH (g ++ [b]) s2 o2) as (s3 & E3 & I3 & K3 & Ho3 & U3 & B3); try done.
  - by eapply oframe_input.
  - destruct F2 as (Ei & Eil & Ein & _). unfold unread in *. by rewrite Ei, Eil, Ein.
  - rewrite (og_cnt _ _ Ho2), length_app. destruct F2 as (_ & _ & _ & _ & _ & -> & _).
    pose proof (og_cnt _ _ Ho). cbn. lia.
  - exists s3. rewrite <- app_assoc in Ho3. split_and!; try done.
    + etrans; [by apply frame_keeps|]. etrans; [by apply oframe_keeps|done].
    + destruct F2 as (_ & _ & _ & _ & Eb & _). by rewrite B3, Eb.
Qed.

Lemma lnot_low len : Z.land (Z.lnot len) 255 = 255 - len mod 256.
Proof.
  change 255 with (Z.ones 8) at 1. rewrite Z.land_ones by lia. change (2 ^ 8) with 256.
  unfold Z.lnot, Z.pred. Z.div_mod_to_equations. lia.
Qed.

Lemma lnot_high len : 0 <= len < 65536 -> Z.land (Z.shiftr (Z.lnot len) 8) 255 = 255 - len / 256.
Proof.
  intros H. change 255 with (Z.ones 8) at 1. rewrite Z.land_ones, Z.shiftr_div_pow2 by lia.
  change (2 ^ 8) with 256. unfold Z.lnot, Z.pred. Z.div_mod_to_equations. lia.
Qed.

Definition stored_post (g : list Z) (s : state) (r : Z) (s' : state) : Prop :=
  input_ok s' /\ keeps s s' /\ -2 <= r <= 2 /\
  exists g', out_ok g' s' /\
    (r = 0 -> exists data, g' = g ++ data /\ Z.of_nat (length data) < 2 ^ 16 /\
       unread s = stored_head data ++ data ++ unread s' /\ bitcnt s' = 0) /\
    (forall data rest, unread s = stored_head data ++ data ++ rest ->
       Z.of_nat (length data) < 2 ^ 16 -> fits (g ++ data) s ->
       r = 0 /\ g' = g ++ data /\ unread s' = rest /\ bitcnt s' = 0).

(** Too few bytes for the head of a block. *)
Lemma stored_post_err g s r s' :
  input_ok s' -> keeps s s' -> r <> 0 -> -2 <= r <= 2 -> out_ok g s' ->
  (forall data rest, unread s = stored_head data ++ data ++ rest ->
     Z.of_nat (length data) < 2 ^ 16 -> fits (g ++ data) s -> False) ->
  stored_post g s r s'.
Proof.
  intros I K Hr Hb Ho H. split_and!; try done; try lia. exists g. split; [done|]. split; [done|].
  intros data rest Eu Hl Hf. by destruct (H data rest).
Qed.

Lemma stored_head_inv b0 b1 b2 b3 (l : list Z) data rest :
  b0 :: b1 :: b2 :: b3 :: l = stored_head data ++ data ++ rest ->
  Z.of_nat (length data) = b0 + 256 * b1 /\ b2 = 255 - b0 /\ b3 = 255 - b1 /\ l = data ++ rest.
Proof.
  unfold stored_head. cbn [app]. intros [= -> -> -> -> ->].
  split_and!; try done; Z.div_mod_to_equations; lia.
Qed.

(** The part of [stored] after the head. *)
Lemma stored_body g s s0 len l :
  input_ok s0 -> keeps s s0 -> out_ok g s0 -> bitcnt s0 = 0 -> unread s0 = l -> 0 <= len < 65536 ->
  unread s = [len mod 256; len / 256; 255 - len mod 256; 255 - len / 256] ++ l ->
  exists r s', (s ← get;
    if incnt s + len >? inlen s then mret 2 else
    match out s with
    | Some _ =>
        if outcnt s + len >? outlen s then mret 1
        else stored_copy (Z.to_nat len);; mret 0
    | None =>
        modify (fun s => set_outcnt (outcnt s + len) s);;
        modify (fun s => set_incnt (incnt s + len) s);;
        mret 0
    end) s0 = Ok r s' /\ stored_post g s r s'.
Proof.
  intros I K Ho Hbc El Hlen Eu. rewrite bind_get.
  assert (Hinv : forall data rest, unread s = stored_head data ++ data ++ rest ->
            Z.of_nat (length data) = len /\ l = data ++ rest).
  { intros data rest E. rewrite Eu in E. apply stored_head_inv in E as (E & _ & _ & ->).
    split; [|done]. rewrite E. Z.div_mod_to_equations. lia. }
  pose proof (unread_length s0 I) as Hul. rewrite El in Hul.
  destruct (Z.gtb_spec (incnt s0 + len) (inlen s0)) as [Hshort|Henough].
  { exists 2, s0. split; [done|]. apply stored_post_err; try done.
    intros data rest E _ _. destruct (Hinv _ _ E) as [E1 ->]. rewrite length_app in Hul. lia. }
  set (data := take (Z.to_nat len) l). set (rest := drop (Z.to_nat len) l).
  assert (Hsplit : l = data ++ rest) by (symmetry; apply take_drop).
  assert (Hld : length data = Z.to_nat len) by (unfold data; rewrite length_take; lia).
  assert (Hhead : unread s = stored_head data ++ data ++ rest).
  { rewrite Eu, Hsplit. unfold stored_head. rewrite Hld, Z2Nat.id by lia. done. }
  assert (Huniq : forall d r, unread s = stored_head d ++ d ++ r -> d = data /\ r = rest).
  { intros d r E. destruct (Hinv _ _ E) as [E1 E2]. rewrite Hsplit in E2.
    apply app_inj_1 in E2 as [-> ->]; [done|lia]. }
  assert (Hdone : forall s', input_ok s' -> keeps s s' -> out_ok (g ++ data) s' -> unread s' = rest ->
            bitcnt s' = 0 -> stored_post g s 0 s').
  { intros s' I' K' Ho' U' B'. split_and!; try done. exists (g ++ data). split; [done|]. split.
    - intros _. exists data. split_and!; try done; [lia|]. by rewrite U'.
    - intros d r E _ _. by destruct (Huniq d r E) as [-> ->]. }
  pose proof (unread_bytes s0 I) as Hby. rewrite El, Hsplit in Hby. apply Forall_app in Hby as [Hbd Hbr].
  destruct (out s0) as [o|] eqn:Eo.
  - destruct (Z.gtb_spec (outcnt s0 + len) (outlen s0)) as [Hfull|Hroom].
    { exists 1, s0. split; [done|]. apply stored_post_err; try done.
      intros d r E _ Hfit. destruct (Huniq d r E) as [-> ->].
      pose proof (fits_keeps _ _ _ K Hfit) as [H|H]; [congruence|].
      rewrite length_app in H. pose proof (og_cnt _ _ Ho). lia. }
    destruct (stored_copy_spec data rest g s0 o) as (s' & E & I' & K' & Ho' & U' & B'); try done.
    { by rewrite El. } { lia. }
    rewrite Hld in E. rewrite (bind_ok _ _ _ _ _ E). exists 0, s'. split; [done|].
    apply Hdone; try done; [by etrans|congruence].
  - rewrite bind_modify, bind_modify. exists 0. eexists. split; [reflexivity|].
    destruct (count_step g s0 data Eo Ho Hbd) as [F2 Ho2]. rewrite Hld, Z2Nat.id in F2, Ho2 by lia.
    apply Hdone.
    + destruct I. constructor; cbn; try done; lia.
    + etrans; [exact K|]. etrans; [by apply oframe_keeps|]. done.
    + apply (frame_out _ (set_outcnt (outcnt s0 + len) s0)); done.
    + unfold rest. rewrite <- El. apply (unread_skip s0); destruct I; lia.
    + done.
Qed.

Lemma stored_run g s :
  input_ok s -> out_ok g s -> exists r s', stored s = Ok r s' /\ stored_post g s r s'.
Proof.
  intros I Ho. unfold stored. rewrite bind_modify, bind_get. set (s0 := set_bits 0 0 s).
  assert (F0 : frame s s0) by done. pose proof (frame_keeps _ _ F0) as K0.
  pose proof (frame_out _ _ _ F0 Ho) as Ho0.
  assert (I0 : input_ok s0) by (destruct I; constructor; cbn; try done; lia).
  change (unread s) with (unread s0). pose proof (unread_length s0 I0) as Hul.
  destruct (Z.gtb_spec (incnt s0 + 4) (inlen s0)) as [Hshort|Henough].
  { exists 2, s0. split; [done|]. apply stored_post_err; try done.
    intros data rest E _ _. change (unread s) with (unread s0) in E.
    rewrite E in Hul. unfold stored_head in Hul. cbn [app length] in Hul. lia. }
  destruct (unread s0) as [|b0 [|b1 [|b2 [|b3 l]]]] eqn:E0; cbn [length] in Hul; try lia.
  destruct (next_in_step s0 _ _ I0 E0) as (N1 & I1 & E1 & Hb0). rewrite (bind_ok _ _ _ _ _ N1).
  destruct (next_in_step _ _ _ I1 E1) as (N2 & I2 & E2 & Hb1). rewrite (bind_ok _ _ _ _ _ N2).
  destruct (next_in_step _ _ _ I2 E2) as (N3 & I3 & E3 & Hb2). rewrite (bind_ok _ _ _ _ _ N3).
  cbn [set_incnt incnt] in *.
  set (s3 := set_incnt (incnt s0 + 1 + 1 + 1) (set_incnt (incnt s0 + 1 + 1) (set_incnt (incnt s0 + 1) s0))) in *.
  assert (F3 : frame s s3) by done. pose proof (frame_keeps _ _ F3) as K3.
  pose proof (frame_out _ _ _ F3 Ho) as Ho3.
  unfold is_byte in Hb0, Hb1. rewrite Z.shiftl_mul_pow2 by lia. rewrite (lor_add 8) by lia.
  change (2 ^ 8) with 256. set (len := b0 + b1 * 256).
  assert (Hm : len mod 256 = b0) by (subst len; Z.div_mod_to_equations; lia).
  assert (Hd : len / 256 = b1) by (subst len; Z.div_mod_to_equations; lia).
  assert (Hlen : 0 <= len < 65536) by (subst len; lia).
  rewrite lnot_low, Hm. destruct (Z.eqb_spec b2 (255 - b0)) as [->|Hne]; cbn [negb].
  2: { exists (-2), s3. split; [done|]. apply stored_post_err; try done.
       intros data rest E _ _. change (unread s) with (unread s0) in E. rewrite E0 in E.
       apply stored_head_inv in E. lia. }
  destruct (next_in_step s3 _ _ I3 E3) as (N4 & I4 & E4 & Hb3). rewrite (bind_ok _ _ _ _ _ N4).
  set (s4 := set_incnt _ s3) in *.
  assert (F4 : frame s s4) by done. pose proof (frame_keeps _ _ F4) as K4.
  pose proof (frame_out _ _ _ F4 Ho) as Ho4.
  rewrite lnot_high, Hd by done. destruct (Z.eqb_spec b3 (255 - b1)) as [->|Hne]; cbn [negb].
  2: { exists (-2), s4. split; [done|]. apply stored_post_err; try done.
       intros data rest E _ _. change (unread s) with (unread s0) in E. rewrite E0 in E.
       apply stored_head_inv in E. lia. }
  apply (stored_body g s s4 len l); try done.
  change (unread s) with (unread s0). by rewrite E0, Hm, Hd.
Qed.

(** ** The bits of a block *)

Definition bits_of (s : state) : list bool := sbits s.

Lemma sbits_aligned s : bitcnt s = 0 -> sbits s = bytes_bits (unread s).
Proof. intros E. unfold sbits. by rewrite E. Qed.

(** What a block writer must meet, for a block of type [ty]. *)
Definition block_post (ty : Z) (g : list Z) (s : state) (r : Z) (s' : state) : Prop :=
  input_ok s' /\ -11 <= r <= 2 /\ (exists g', out_ok g' s' /\
    (r = 0 -> block ty g (sbits s) g' (sbits s'))).

Lemma stored_block g s r s' :
  input_ok s -> stored_post g s r s' ->
  block_post 0 g s r s' /\
  (forall g' rest, block 0 g (sbits s) g' rest -> fits g' s ->
     r = 0 /\ out_ok g' s' /\ sbits s' = rest).
Proof.
  intros I (I' & K & Hr & g' & Ho & Hs & Hc). split.
  - split_and!; try done; try lia. exists g'. split; [done|]. intros E.
    destruct (Hs E) as (data & -> & Hl & Eu & Eb).
    rewrite (sbits_aligned s' Eb). unfold sbits. rewrite Eu, (app_assoc (stored_head data)), bytes_bits_app,
      <- stored_bits_bytes by done.
    pose proof (unread_bytes s I) as Hby. rewrite Eu, !Forall_app in Hby.
    apply block_stored; try tauto; rewrite ?length_z_bits, ?length_bytes_bits.
    + destruct I. lia.
    + rewrite Nat.mul_comm. by apply Nat.Div0.mod_mul.
  - intros g2 rest Hb Hfit. apply block_stored_inv in Hb as (pad & data & Hp & Hrest & Hby & Hlen & E2 & ->).
    assert (Hbits : length pad = Z.to_nat (bitcnt s)).
    { pose proof (sbits_length s I) as Hsl. pose proof (ok_bitcnt s I). rewrite E2 in Hsl.
      rewrite !length_app, stored_bits_bytes, length_bytes_bits in Hsl by done.
      apply (f_equal Z.of_nat) in Hrest. rewrite Nat2Z.inj_mod in Hrest.
      change (Z.of_nat 8) with 8 in Hrest. change (Z.of_nat 0) with 0 in Hrest.
      Z.div_mod_to_equations. lia. }
    unfold sbits in E2. apply app_inj_1 in E2 as [Ep Eb]; [|by rewrite length_z_bits].
    rewrite stored_bits_bytes in Eb by done.
    apply bytes_bits_split in Eb as (l' & El & ->); [|by apply unread_bytes|].
    2: { apply Forall_app_2; [by apply stored_head_bytes|done]. }
    rewrite <- app_assoc in El. destruct (Hc data l' El Hlen Hfit) as (-> & -> & <- & Eb).
    split_and!; try done. by apply sbits_aligned.
Qed.
