(* ===== verification/PuffDynamic.v ===== *)
(** * Correctness of the code descriptions of the inflater

    The tables of [fixed]; the header of a dynamic block, from the lengths of
    the code length code to the two codes of the block. *)
From stdpp Require Import base numbers list.
From Stdlib Require Import ZArith Lia Bool.
From S2P Require Import Prelude Huffman Deflate Puff PuffFacts PuffTables PuffCodes PuffBlocks.

(** ** The fixed codes *)

Lemma holds_map lens : holds (map Some lens) lens.
Proof.
  intros i x [Hi H]%aget_Some. unfold rd, aget. destruct (Z.leb_spec 0 i); [|lia].
  rewrite list_lookup_fmap, H. done.
Qed.

Lemma not_over_fixed_ll : not_over fixed_ll 15.
Proof. apply not_over_iff. vm_compute. discriminate. Qed.

Lemma not_over_fixed_dl : not_over fixed_dl 15.
Proof. apply not_over_iff. vm_compute. discriminate. Qed.

Lemma fixed_lens_ok : lens_ok fixed_ll /\ lens_ok fixed_dl.
Proof. split; apply (bool_decide_unpack _); vm_compute; exact I. Qed.

(** The static variables of [fixed]: arrays of the declared sizes, holding the
    fixed tables once [virgin] is cleared. *)
Record fx_ok (f : statics) : Prop := {
  fx_lroom : room (lencode_f f) 288;
  fx_droom : room (distcode_f f) 30;
  fx_tabs : virgin f = 0 -> tab_ok (lencode_f f) fixed_ll /\ tab_ok (distcode_f f) fixed_dl }.

Lemma fx_ok_init : fx_ok statics_init.
Proof. constructor; [split; vm_compute; lia|split; vm_compute; lia|done]. Qed.

Lemma fixed_tables_ok f :
  fx_ok f -> exists f', fixed_tables f = Some f' /\ fx_ok f' /\ virgin f' = 0.
Proof.
  intros [Hl Hd _]. unfold fixed_tables.
  assert (E : (lengths ← fill 144 0 8 (cells FIXLCODES None); lengths ← fill 112 144 9 lengths;
               lengths ← fill 24 256 7 lengths; fill (Z.to_nat (FIXLCODES - 280)) 280 8 lengths)
              = Some (map Some fixed_ll)) by (vm_compute; reflexivity).
  apply bind_Some in E as (l1 & -> & E). cbn [mbind option_bind].
  apply bind_Some in E as (l2 & -> & E). cbn [mbind option_bind].
  apply bind_Some in E as (l3 & -> & E). cbn [mbind option_bind]. rewrite E. cbn [mbind option_bind].
  change FIXLCODES with (Z.of_nat (length fixed_ll)).
  destruct (construct_spec (lencode_f f) fixed_ll (map Some fixed_ll)) as (e1 & h1 & -> & C1 & S1 & _ & H1);
    [apply holds_map|apply fixed_lens_ok|exact Hl|]. cbn [mbind option_bind].
  destruct (fill_spec (Z.to_nat MAXDCODES) 0 5 (map Some fixed_ll)) as (l4 & -> & _ & H4);
    [lia|by vm_compute|]. cbn [mbind option_bind].
  change MAXDCODES with (Z.of_nat (length fixed_dl)).
  assert (HL : holds l4 fixed_dl).
  { intros i x Hi. pose proof (aget_Some_lt _ _ _ Hi) as Hr. change (Z.of_nat (length fixed_dl)) with 30 in Hr.
    rewrite H4. change (0 + Z.of_nat (Z.to_nat MAXDCODES)) with 30.
    apply aget_Some in Hi as [_ Hi]. unfold fixed_dl in Hi. apply lookup_replicate in Hi as [-> _].
    destruct (Z.leb_spec 0 i), (Z.ltb_spec i 30); try lia. done. }
  destruct (construct_spec (distcode_f f) fixed_dl l4) as (e2 & h2 & -> & C2 & S2 & _ & H2);
    [exact HL|apply fixed_lens_ok|exact Hd|]. cbn [mbind option_bind].
  destruct H1 as [[_ H1]|(_ & T1 & _)]; [destruct H1; apply not_over_fixed_ll|].
  destruct H2 as [[_ H2]|(_ & T2 & _)]; [destruct H2; apply not_over_fixed_dl|].
  eexists. split; [reflexivity|]. split; [|done].
  destruct Hl, Hd. constructor; cbn; [split; [done|congruence]|split; [done|congruence]|done].
Qed.

(** ** The lengths of the code length code *)

(** The values [hl] have been stored in the permuted order. *)
Definition permuted (L : list (option Z)) (hl : list Z) : Prop :=
  length L = 316%nat /\
  forall i x o, aget hl i = Some x -> aget order i = Some o -> rd L o = Some x.

Lemma order_inj i j o : aget order i = Some o -> aget order j = Some o -> i = j.
Proof.
  intros [Hi Ei]%aget_Some [Hj Ej]%aget_Some.
  assert (Hnd : NoDup order) by (apply (bool_decide_unpack _); vm_compute; exact I).
  pose proof (NoDup_lookup _ _ _ _ Hnd Ei Ej). lia.
Qed.

Lemma order_range i o : aget order i = Some o -> 0 <= o < 19.
Proof.
  intros [_ Ei]%aget_Some. assert (Hf : Forall (fun o => 0 <= o < 19) order)
    by (apply (bool_decide_unpack _); vm_compute; exact I).
  by eapply Forall_lookup_1 in Hf.
Qed.

Lemma order_surj o : 0 <= o < 19 -> exists i, 0 <= i < 19 /\ aget order i = Some o.
Proof.
  intros Ho. assert (Hf : Forall (fun o => Exists (fun i => aget order i = Some o) (seqZ 0 19)) (seqZ 0 19))
    by (apply (bool_decide_unpack _); vm_compute; exact I).
  rewrite Forall_forall in Hf. specialize (Hf o ltac:(apply elem_of_seqZ; lia)).
  apply Exists_exists in Hf as (i & Hi%elem_of_seqZ & E). exists i. split; [lia|done].
Qed.

Lemma aget_snoc {A} (l : list A) x i y :
  aget (l ++ [x]) i = Some y -> aget l i = Some y \/ i = Z.of_nat (length l) /\ y = x.
Proof.
  intros [Hi H]%aget_Some. apply lookup_app_Some in H as [H|[Hl H]].
  - left. by apply aget_Some.
  - right. apply list_lookup_singleton_Some in H as [? <-]. split; [lia|done].
Qed.

Lemma permuted_snoc L hl x :
  permuted L hl -> (length hl < 19)%nat ->
  exists o L', aget order (Z.of_nat (length hl)) = Some o /\ aset L o (Some x) = Some L' /\
    permuted L' (hl ++ [x]).
Proof.
  intros [HL Hp] Hlt. destruct (aget_range order (Z.of_nat (length hl))) as [o Ho];
    [change (length order) with 19%nat; lia|].
  pose proof (order_range _ _ Ho) as Hr. destruct (aset_cell L o x) as (L' & E & El & H'); [lia|].
  exists o, L'. split_and!; try done. split; [congruence|]. intros i y o' Hi Ho'. rewrite H'.
  apply aget_snoc in Hi as [Hi|[-> ->]].
  - destruct (Z.eqb_spec o' o) as [->|]; [|by eapply Hp]. pose proof (order_inj _ _ _ Ho Ho') as E1.
    apply aget_Some_lt in Hi. lia.
  - rewrite Ho in Ho'. injection Ho' as <-. by rewrite Z.eqb_refl.
Qed.

Lemma read_clens_wp n L hl s :
  input_ok s -> permuted L hl -> (length hl + n <= 19)%nat ->
  wp (read_clens n (Z.of_nat (length hl)) L)
     (fun L' s' => input_ok s' /\ frame s s' /\ exists k, length k = n /\
        Forall (fun x => 0 <= x < 8) k /\ permuted L' (hl ++ k) /\ sbits s = (k ≫= z_bits 3) ++ sbits s')
     (fun e s' => e = 1 /\ frame s s') s.
Proof.
  revert L hl s. induction n as [|n IH]; intros L hl s I Hp Hn; cbn [read_clens].
  { apply wp_ret. split; [done|]. split; [done|]. exists []. by rewrite app_nil_r. }
  destruct (aget_range order (Z.of_nat (length hl))) as [o Ho]; [change (length order) with 19%nat; lia|].
  apply wp_bind. eapply wp_lift; [exact Ho|]. apply wp_bind.
  eapply wp_mono; [apply bits_wp; [done|lia]| |].
  2: { intros e s' (-> & F & _). by split. }
  intros b s1 (I1 & F1 & Hb & Es). destruct (permuted_snoc L hl b Hp ltac:(lia)) as (o' & L' & Ho' & EL & Hp').
  rewrite Ho in Ho'. injection Ho' as <-. apply wp_bind. eapply wp_lift; [exact EL|].
  replace (Z.of_nat (length hl) + 1) with (Z.of_nat (length (hl ++ [b]))) by (rewrite length_app; cbn; lia).
  eapply wp_mono; [apply IH; [done|done|rewrite length_app; cbn; lia]| |].
  - intros L2 s2 (I2 & F2 & k & Hk & Hf & Hp2 & Es2). split; [done|]. split; [by etrans|].
    exists (b :: k). rewrite <- app_assoc in Hp2. split_and!; try done; [by rewrite <- Hk|by constructor|].
    rewrite Es, Es2. cbn [mbind list_bind]. by rewrite <- app_assoc.
  - intros e s2 (-> & F2). split; [done|by etrans].
Qed.

Lemma zero_clens_spec n L hl :
  permuted L hl -> (length hl + n <= 19)%nat ->
  exists L', zero_clens n (Z.of_nat (length hl)) L = Some L' /\ permuted L' (hl ++ replicate n 0).
Proof.
  revert L hl. induction n as [|n IH]; intros L hl Hp Hn; cbn [zero_clens].
  { exists L. by rewrite app_nil_r. }
  destruct (permuted_snoc L hl 0 Hp ltac:(lia)) as (o & L' & -> & EL & Hp'). cbn [mbind option_bind].
  rewrite EL. cbn [mbind option_bind].
  replace (Z.of_nat (length hl) + 1) with (Z.of_nat (length (hl ++ [0]))) by (rewrite length_app; cbn; lia).
  destruct (IH L' (hl ++ [0])) as (L2 & E2 & Hp2); [done|rewrite length_app; cbn; lia|].
  exists L2. rewrite <- app_assoc in Hp2. done.
Qed.

(** The array holds the lengths of the code length code. *)
Lemma permuted_holds L hl n :
  permuted L (hl ++ replicate n 0) -> (length hl + n = 19)%nat -> Forall (fun x => 0 <= x < 8) hl ->
  exists cl, clens_of hl cl /\ holds L cl /\ lens_ok cl.
Proof.
  intros [HL Hp] Hn Hf. exists (map (fun o => default 0 (rd L o)) (seqZ 0 19)).
  assert (Hat : forall o x, aget (map (fun o => default 0 (rd L o)) (seqZ 0 19)) o = Some x ->
            0 <= o < 19 /\ x = default 0 (rd L o)).
  { intros o x [Ho H]%aget_Some. apply list_lookup_fmap_Some in H as (o' & -> & H).
    apply lookup_seqZ in H as [-> H]. split; [lia|]. do 2 f_equal. lia. }
  assert (Hdef : forall i, default 0 (aget (hl ++ replicate n 0) i) = default 0 (aget hl i)).
  { intros i. unfold aget. destruct (Z.leb_spec 0 i); [|done]. destruct (decide (Z.to_nat i < length hl)%nat).
    - by rewrite lookup_app_l.
    - rewrite lookup_app_r by lia. rewrite (lookup_ge_None_2 hl) by lia.
      destruct (replicate n 0 !! (Z.to_nat i - length hl)%nat) eqn:E; [|done].
      by apply lookup_replicate in E as [-> _]. }
  assert (Hord : forall i o, 0 <= i < 19 -> aget order i = Some o -> rd L o = Some (default 0 (aget hl i))).
  { intros i o Hi Ho. destruct (aget_range (hl ++ replicate n 0) i) as [x Hx].
    { rewrite length_app, length_replicate. lia. }
    rewrite <- Hdef, Hx. cbn. by eapply Hp. }
  split; [split|split].
  - by rewrite length_map, length_seqZ.
  - intros i o Ho. change clen_order with order in Ho. pose proof (aget_Some_lt _ _ _ Ho) as Hi.
    change (Z.of_nat (length order)) with 19 in Hi. pose proof (order_range _ _ Ho) as Hr.
    destruct (aget_range (map (fun o => default 0 (rd L o)) (seqZ 0 19)) o) as [x Hx].
    { rewrite length_map, length_seqZ. lia. }
    rewrite Hx. f_equal. apply Hat in Hx as [_ ->]. by rewrite (Hord i o).
  - intros o x [Ho ->]%Hat. destruct (order_surj o Ho) as (i & Hi & Ei). by rewrite (Hord i o).
  - apply Forall_lookup. intros k x Hx.
    assert (Hk : aget (map (fun o => default 0 (rd L o)) (seqZ 0 19)) (Z.of_nat k) = Some x).
    { apply aget_Some. rewrite Nat2Z.id. split; [lia|done]. }
    apply Hat in Hk as [Ho ->]. destruct (order_surj _ Ho) as (i & Hi & Ei). rewrite (Hord i _ Hi Ei). cbn.
    unfold MAXBITS. destruct (aget hl i) as [y|] eqn:Ey; cbn; [|lia].
    apply aget_Some in Ey as [_ Ey]. eapply Forall_lookup_1 in Hf; [|exact Ey]. lia.
Qed.

(** ** The run-length coded lengths *)

(** The first lengths of the array. *)
Definition have (L : list (option Z)) (l : list Z) : Prop := length L = 316%nat /\ holds L l /\ lens_ok l.

Lemma have_nil L : length L = 316%nat -> have L [].
Proof. intros H. split; [done|]. split; [by intros i x [_ Hx]%aget_Some|by constructor]. Qed.

Lemma have_fill L l n x :
  have L l -> 0 <= x <= 15 -> (length l + n <= 316)%nat ->
  exists L', fill n (Z.of_nat (length l)) x L = Some L' /\ have L' (l ++ replicate n x).
Proof.
  intros (HL & Hh & Ho) Hx Hn. destruct (fill_spec n (Z.of_nat (length l)) x L) as (L' & E & El & H'); [lia|lia|].
  exists L'. split; [done|]. split; [congruence|]. split.
  - intros i y [Hi Hy]%aget_Some. rewrite H'. apply lookup_app_Some in Hy as [Hy|[Hl Hy]].
    + pose proof (lookup_lt_Some _ _ _ Hy). destruct (Z.leb_spec (Z.of_nat (length l)) i); [lia|]. cbn [andb].
      apply Hh. by apply aget_Some.
    + apply lookup_replicate in Hy as [-> Hy].
      destruct (Z.leb_spec (Z.of_nat (length l)) i), (Z.ltb_spec i (Z.of_nat (length l) + Z.of_nat n)); try lia. done.
  - apply Forall_app_2; [done|]. apply Forall_replicate. unfold MAXBITS. lia.
Qed.

Lemma have_one L l x :
  have L l -> 0 <= x <= 15 -> (length l < 316)%nat ->
  exists L', aset L (Z.of_nat (length l)) (Some x) = Some L' /\ have L' (l ++ [x]).
Proof.
  intros H Hx Hn. destruct (have_fill L l 1 x H Hx ltac:(lia)) as (L' & E & H').
  cbn [fill] in E. apply bind_Some in E as (L2 & E & [= ->]). by exists L'.
Qed.

Lemma holds_last L l x : holds L (l ++ [x]) -> rd L (Z.of_nat (length (l ++ [x])) - 1) = Some x.
Proof.
  intros H. apply H. rewrite length_app. cbn [length]. apply aget_Some. split; [lia|].
  replace (Z.to_nat (Z.of_nat (length l + 1) - 1)) with (length l) by lia. by apply list_lookup_middle.
Qed.

Section Rle.
Context (decode : huffman -> M state Z) {D : Decoder decode}.
Context (cl : list Z) (h : huffman) (Hcl : tab_ok h cl) (Hlen : length cl = 19%nat).

Definition rle_post (total : Z) (l : list Z) (s : state) (r : Z + list (option Z)) (s' : state) : Prop :=
  input_ok s' /\ frame s s' /\
  match r with
  | inl e => -10 <= e <= -5
  | inr L' => exists l' w, rle cl l w l' /\ Z.of_nat (length l') = total /\ have L' l' /\
                sbits s = w ++ sbits s'
  end.

(** One more item of the list. *)
Lemma rle_post_step total l s s1 k r s' w1 :
  frame s s1 -> sbits s = w1 ++ sbits s1 ->
  (forall w l', rle cl (l ++ k) w l' -> rle cl l (w1 ++ w) l') ->
  rle_post total (l ++ k) s1 r s' -> rle_post total l s r s'.
Proof.
  intros F Es Hr (I & F' & H). split; [done|]. split; [by etrans|]. destruct r as [e|L']; [done|].
  destruct H as (l' & w & Hw & Ht & Hh & Eb). exists l', (w1 ++ w). split_and!; try done; [by apply Hr|].
  by rewrite Es, Eb, app_assoc.
Qed.

Lemma read_lengths_wp fuel total L l s :
  input_ok s -> have L l -> Z.of_nat (length l) <= total <= 316 ->
  (Z.to_nat total < fuel + length l)%nat ->
  wp (read_lengths decode fuel h total (Z.of_nat (length l)) L)
     (rle_post total l s) (fun e s' => e = 1 /\ frame s s') s.
Proof.
  revert L l s. induction fuel as [|fuel IH]; intros L l s I Hh Ht Hf; [lia|]. cbn [read_lengths].
  destruct (Z.ltb_spec (Z.of_nat (length l)) total) as [Hlt|Hge].
  2: { apply wp_ret. split; [done|]. split; [done|]. exists l, []. split_and!; try done; [by constructor|lia]. }
  assert (Hmono : forall s1 s2 k w1 L1, frame s s1 -> frame s1 s2 -> input_ok s2 -> have L1 (l ++ k) ->
            (1 <= length k)%nat -> Z.of_nat (length (l ++ k)) <= total -> sbits s = w1 ++ sbits s2 ->
            (forall w l', rle cl (l ++ k) w l' -> rle cl l (w1 ++ w) l') ->
            wp (read_lengths decode fuel h total (Z.of_nat (length (l ++ k))) L1)
               (rle_post total l s) (fun e s' => e = 1 /\ frame s s') s2).
  { intros s1 s2 k w1 L1 F1 F2 I2 H1 Hk Hkt Es Hr. assert (F : frame s s2) by (by etrans).
    eapply wp_mono; [apply (IH L1 (l ++ k)); try done; [lia|rewrite length_app; lia]| |].
    - intros r s' H. by apply (rle_post_step total l s s2 k r s' w1).
    - intros e s' (-> & F'). split; [done|by etrans]. }
  assert (Htail : forall s1 s2 x rep w1, frame s s1 -> frame s1 s2 -> input_ok s2 -> 0 <= x <= 15 -> 1 <= rep ->
            sbits s = w1 ++ sbits s2 ->
            (forall w l', rle cl (l ++ replicate (Z.to_nat rep) x) w l' -> rle cl l (w1 ++ w) l') ->
            wp (if Z.of_nat (length l) + rep >? total then mret (inl (-6))
                else lengths ← lift (fill (Z.to_nat rep) (Z.of_nat (length l)) x L);
                     read_lengths decode fuel h total (Z.of_nat (length l) + rep) lengths)
               (rle_post total l s) (fun e s' => e = 1 /\ frame s s') s2).
  { intros s1 s2 x rep w1 F1 F2 I2 Hx Hrep Es Hr. destruct (Z.gtb_spec (Z.of_nat (length l) + rep) total).
    { apply wp_ret. split; [done|]. split; [by etrans|lia]. }
    destruct (have_fill L l (Z.to_nat rep) x Hh Hx ltac:(lia)) as (L' & E & H').
    apply wp_bind. eapply wp_lift; [exact E|].
    replace (Z.of_nat (length l) + rep) with (Z.of_nat (length (l ++ replicate (Z.to_nat rep) x)))
      by (rewrite length_app, length_replicate; lia).
    apply (Hmono s1 s2 _ w1); try done; rewrite ?length_app, length_replicate; lia. }
  apply wp_bind. eapply wp_mono; [by apply (decode_wp decode h cl)| |].
  2: { intros e s' (-> & F). by split. }
  intros sym s1 (I1 & F1 & Hsym). destruct (Z.ltb_spec sym 0) as [Hneg|Hpos].
  { apply wp_ret. split; [done|]. split; [done|]. destruct Hsym as [[? _]| ->]; lia. }
  destruct Hsym as [[Hs (w & Ew & _ & Es)]| ->]; [|lia]. rewrite Hlen in Hs.
  destruct (Z.ltb_spec sym 16) as [Hlit|Hrep].
  - destruct (have_one L l sym Hh ltac:(lia) ltac:(lia)) as (L' & E & H').
    apply wp_bind. eapply wp_lift; [exact E|].
    replace (Z.of_nat (length l) + 1) with (Z.of_nat (length (l ++ [sym]))) by (rewrite length_app; cbn; lia).
    apply (Hmono s1 s1 _ w); try done; try (rewrite length_app; cbn [length]; lia).
    intros w' l' H. by apply (rle_len cl l sym); [lia|..].
  - assert (Hx : forall need s2 b, frame s1 s2 -> sbits s1 = z_bits need b ++ sbits s2 ->
              sbits s = (w ++ z_bits need b) ++ sbits s2) by (intros ? ? ? _ E; by rewrite Es, E, app_assoc).
    apply wp_bind. destruct (Z.eqb_spec sym 16) as [->|H16].
    + destruct (Z.eqb_spec (Z.of_nat (length l)) 0).
      { apply wp_ret. apply (wp_ret (inl (-5))). split; [done|]. split; [done|lia]. }
      destruct l as [|x l _] using rev_ind; [done|]. destruct Hh as (HL & Hh & Hok).
      apply wp_bind. eapply wp_lift; [by apply holds_last|]. apply wp_bind.
      eapply wp_mono; [apply bits_wp; [done|lia]| |].
      2: { intros e s' (-> & F & _). split; [done|by etrans]. }
      intros b s2 (I2 & F2 & Hb & Eb). apply (wp_ret (inr (x, 3 + b))).
      apply (Htail s1 s2 x (3 + b) (w ++ z_bits 2 b)); try done; try lia.
      * apply Forall_app in Hok as [_ Hok]. apply Forall_cons in Hok as [? _]. unfold MAXBITS in *. lia.
      * by apply (Hx 2%nat).
      * intros w' l' H. rewrite <- app_assoc. apply (rle_prev cl l x b w); [done|done|].
        by rewrite <- app_assoc in H.
    + destruct (Z.eqb_spec sym 17) as [->|H17]; apply wp_bind;
        (eapply wp_mono; [apply bits_wp; [done|lia]| |]);
        try (intros e s' (-> & F & _); split; [done|by etrans]).
      * intros b s2 (I2 & F2 & Hb & Eb). apply (wp_ret (inr (0, 3 + b))).
        apply (Htail s1 s2 0 (3 + b) (w ++ z_bits 3 b)); try done; try lia; [by apply (Hx 3%nat)|].
        intros w' l' H. rewrite <- app_assoc. by apply (rle_zeros cl l b w).
      * intros b s2 (I2 & F2 & Hb & Eb). apply (wp_ret (inr (0, 11 + b))).
        assert (sym = 18) as -> by lia.
        apply (Htail s1 s2 0 (11 + b) (w ++ z_bits 7 b)); try done; try lia; [by apply (Hx 7%nat)|].
        intros w' l' H. rewrite <- app_assoc. by apply (rle_many cl l b w).
Qed.

Context (Ncl : not_over cl 15).

Lemma rle_app l w l' : rle cl l w l' -> exists k, l' = l ++ k.
Proof.
  induction 1 as [l|l x w bs l' _ _ _ [k ->]|l x e w bs l' _ _ _ [k ->]|l e w bs l' _ _ _ [k ->]|l e w bs l' _ _ _ [k ->]];
    [exists []; by rewrite app_nil_r|eexists; rewrite <- !app_assoc; reflexivity..].
Qed.

(** A run of [rep] copies of [x] that fits is stored. *)
Lemma run_complete L l rep x total :
  have L l -> 0 <= x <= 15 -> 1 <= rep -> Z.of_nat (length l) + rep <= total <= 316 ->
  (Z.of_nat (length l) + rep >? total) = false /\
  exists L', fill (Z.to_nat rep) (Z.of_nat (length l)) x L = Some L' /\
    have L' (l ++ replicate (Z.to_nat rep) x) /\
    Z.of_nat (length l) + rep = Z.of_nat (length (l ++ replicate (Z.to_nat rep) x)).
Proof.
  intros Hh Hx Hr Ht. split; [destruct (Z.gtb_spec (Z.of_nat (length l) + rep) total); [lia|done]|].
  destruct (have_fill L l (Z.to_nat rep) x Hh Hx ltac:(lia)) as (L' & E & H').
  exists L'. split_and!; try done. rewrite length_app, length_replicate. lia.
Qed.

Lemma read_lengths_complete fuel l w l' rest L s :
  rle cl l w l' -> Z.of_nat (length l') <= 316 -> sbits s = w ++ rest -> input_ok s -> have L l ->
  (length l' < fuel + length l)%nat ->
  exists s' L', read_lengths decode fuel h (Z.of_nat (length l')) (Z.of_nat (length l)) L s = Ok (inr L') s' /\
    input_ok s' /\ frame s s' /\ have L' l' /\ sbits s' = rest.
Proof.
  intros Hr Ht. revert fuel L s. induction Hr as [l|l x w bs l' Hx Ew Hr IH|l x e w bs l' Ew He Hr IH|l e w bs l' Ew He Hr IH|l e w bs l' Ew He Hr IH];
    intros fuel L s Es I Hh Hf;
    (destruct fuel as [|fuel];
     [exfalso; try (match goal with H : rle _ _ _ _ |- _ => apply rle_app in H as [? E] end;
                    rewrite E, !length_app in Hf); lia|]); cbn [read_lengths].
  - rewrite Z.ltb_irrefl. by exists s, L.
  - destruct (rle_app _ _ _ Hr) as [k Ek]. assert (Hlt : (length l < length l')%nat)
      by (rewrite Ek, !length_app; cbn; lia).
    destruct (Z.ltb_spec (Z.of_nat (length l)) (Z.of_nat (length l'))) as [_|?]; [|lia].
    rewrite <- app_assoc in Es.
    destruct (decode_complete decode h cl s x w _ Hcl Ncl I Ew Es) as (s1 & B1 & I1 & F1 & S1).
    rewrite (bind_ok _ _ _ _ _ B1). destruct (Z.ltb_spec x 0) as [?|_]; [lia|]. destruct (Z.ltb_spec x 16) as [_|?]; [|lia].
    destruct (have_one L l x Hh ltac:(lia) ltac:(lia)) as (L1 & E1 & H1). rewrite (bind_lift _ _ _ _ E1).
    replace (Z.of_nat (length l) + 1) with (Z.of_nat (length (l ++ [x]))) by (rewrite length_app; cbn; lia).
    destruct (IH Ht fuel L1 s1 S1 I1 H1) as (s2 & L2 & E2 & I2 & F2 & H2 & S2); [rewrite length_app; cbn; lia|].
    exists s2, L2. split_and!; try done. by etrans.
  - destruct (rle_app _ _ _ Hr) as [k Ek].
    assert (Hlt : (length (l ++ [x]) + Z.to_nat (3 + e) <= length l')%nat)
      by (rewrite Ek, !length_app, length_replicate; cbn; lia).
    destruct (Z.ltb_spec (Z.of_nat (length (l ++ [x]))) (Z.of_nat (length l'))) as [_|?]; [|lia].
    rewrite <- !app_assoc in Es.
    destruct (decode_complete decode h cl s 16 w _ Hcl Ncl I Ew Es) as (s1 & B1 & I1 & F1 & S1).
    rewrite (bind_ok _ _ _ _ _ B1). cbn [Z.ltb Z.compare Z.eqb Pos.compare Pos.compare_cont Pos.eqb].
    destruct (Z.eqb_spec (Z.of_nat (length (l ++ [x]))) 0) as [E0|_]; [rewrite length_app in E0; cbn in E0; lia|].
    rewrite bind_assoc, (bind_lift _ x) by (by apply holds_last, Hh).
    destruct (bits_complete s1 2 e _ I1 ltac:(lia) He S1) as (s2 & B2 & I2 & F2 & S2).
    rewrite bind_assoc, (bind_ok _ _ _ _ _ B2), bind_ret.
    destruct (run_complete L (l ++ [x]) (3 + e) x (Z.of_nat (length l')) Hh) as (-> & L1 & E1 & H1 & El);
      [destruct Hh as (_ & _ & Hok); apply Forall_app in Hok as [_ Hok]; apply Forall_cons in Hok as [? _];
       unfold MAXBITS in *; lia|lia|lia|].
    rewrite (bind_lift _ _ _ _ E1), El, <- app_assoc.
    destruct (IH Ht fuel L1 s2 S2 I2) as (s3 & L3 & E3 & I3 & F3 & H3 & S3);
      [by rewrite <- app_assoc in H1|rewrite !length_app in *; lia|].
    exists s3, L3. split_and!; try done. etrans; [exact F1|]. by etrans.
  - destruct (rle_app _ _ _ Hr) as [k Ek].
    assert (Hlt : (length l + Z.to_nat (3 + e) <= length l')%nat)
      by (rewrite Ek, !length_app, length_replicate; lia).
    destruct (Z.ltb_spec (Z.of_nat (length l)) (Z.of_nat (length l'))) as [_|?]; [|lia].
    rewrite <- !app_assoc in Es.
    destruct (decode_complete decode h cl s 17 w _ Hcl Ncl I Ew Es) as (s1 & B1 & I1 & F1 & S1).
    rewrite (bind_ok _ _ _ _ _ B1). cbn [Z.ltb Z.compare Z.eqb Pos.compare Pos.compare_cont Pos.eqb].
    destruct (bits_complete s1 3 e _ I1 ltac:(lia) He S1) as (s2 & B2 & I2 & F2 & S2).
    rewrite bind_assoc, (bind_ok _ _ _ _ _ B2), bind_ret.
    destruct (run_complete L l (3 + e) 0 (Z.of_nat (length l')) Hh) as (-> & L1 & E1 & H1 & El); [lia..|].
    rewrite (bind_lift _ _ _ _ E1), El.
    destruct (IH Ht fuel L1 s2 S2 I2 H1) as (s3 & L3 & E3 & I3 & F3 & H3 & S3); [rewrite length_app, length_replicate; lia|].
    exists s3, L3. split_and!; try done. etrans; [exact F1|]. by etrans.
  - destruct (rle_app _ _ _ Hr) as [k Ek].
    assert (Hlt : (length l + Z.to_nat (11 + e) <= length l')%nat)
      by (rewrite Ek, !length_app, length_replicate; lia).
    destruct (Z.ltb_spec (Z.of_nat (length l)) (Z.of_nat (length l'))) as [_|?]; [|lia].
    rewrite <- !app_assoc in Es.
    destruct (decode_complete decode h cl s 18 w _ Hcl Ncl I Ew Es) as (s1 & B1 & I1 & F1 & S1).
    rewrite (bind_ok _ _ _ _ _ B1). cbn [Z.ltb Z.compare Z.eqb Pos.compare Pos.compare_cont Pos.eqb].
    destruct (bits_complete s1 7 e _ I1 ltac:(lia) He S1) as (s2 & B2 & I2 & F2 & S2).
    rewrite bind_assoc, (bind_ok _ _ _ _ _ B2), bind_ret.
    destruct (run_complete L l (11 + e) 0 (Z.of_nat (length l')) Hh) as (-> & L1 & E1 & H1 & El); [lia..|].
    rewrite (bind_lift _ _ _ _ E1), El.
    destruct (IH Ht fuel L1 s2 S2 I2 H1) as (s3 & L3 & E3 & I3 & F3 & H3 & S3); [rewrite length_app, length_replicate; lia|].
    exists s3, L3. split_and!; try done. etrans; [exact F1|]. by etrans.
Qed.
End Rle.
