(* ===== verification/PuffSpec.v ===== *)
(** * Correctness of [puff]

    The blocks together: [puff] is defined and terminates on every input,
    accepts exactly the streams of the deflate format, and the two versions of
    [decode] give the same function. *)
From stdpp Require Import base numbers list.
From Stdlib Require Import ZArith Lia Bool.
From S2P Require Import Prelude Huffman Deflate Puff PuffFacts PuffTables PuffCodes PuffBlocks PuffDynamic.

(** ** Usable codes *)

Lemma count_zero_one lens :
  lens_ok lens ->
  (Z.of_nat (length lens) = bl_count lens 0 + bl_count lens 1 <-> Forall (fun l => l <= 1) lens).
Proof.
  assert (Hle : forall lens, bl_count lens 0 + bl_count lens 1 <= Z.of_nat (length lens)).
  { induction lens0 as [|y k IHk]; [done|]. rewrite !bl_count_cons, length_cons.
    destruct (Z.eqb_spec y 0), (Z.eqb_spec y 1); lia. }
  induction 1 as [|x lens Hx Hok IH]; [done|].
  rewrite !bl_count_cons, length_cons, Forall_cons, <- IH. specialize (Hle lens).
  destruct (Z.eqb_spec x 0), (Z.eqb_spec x 1); lia.
Qed.

(** What [construct] gives, as [construct_spec] has it. *)
Definition built (lens : list Z) (err : Z) (h : huffman) : Prop :=
  (forall l, 0 <= l <= 15 -> rd (count h) l = Some (bl_count lens l)) /\
  ((err < 0 /\ ~ not_over lens 15) \/
   (not_over lens 15 /\ tab_ok h lens /\
    (err = codes_left lens 15 \/ err = 0 /\ Forall (fun x => x = 0) lens))).

Lemma bad_code_spec lens err h :
  lens_ok lens -> built lens err h ->
  exists b, bad_code err h (Z.of_nat (length lens)) = Some b /\ (b = false <-> usable lens) /\
    (b = false -> tab_ok h lens).
Proof.
  intros Hok [Hc Hb]. unfold bad_code, incomplete_bad, ztrue.
  destruct Hb as [[Hneg Hno]|(Hno & Ht & He)].
  - exists true. destruct (Z.eqb_spec err 0); [lia|]. destruct (Z.ltb_spec err 0); [|lia].
    split; [done|]. split; [|done]. split; [done|]. intros [? _]. done.
  - pose proof (proj1 (not_over_iff lens 15) Hno) as Hleft.
    pose proof (count_zero_one lens Hok) as Hcnt.
    destruct (Z.eqb_spec err 0) as [E0|E0]; cbn [negb].
    + exists false. split; [done|]. split; [|done]. split; [|done]. intros _. split; [done|].
      destruct He as [E|[_ Hz]]; [left; lia|right]. eapply Forall_impl; [exact Hz|]. cbn. lia.
    + destruct He as [E|[? _]]; [|lia]. destruct (Z.ltb_spec err 0); [lia|].
      rewrite !Hc by lia. cbn [mbind option_bind]. eexists. split; [reflexivity|]. split; [|done].
      rewrite negb_false_iff, Z.eqb_eq, Hcnt. split; [intros H1; split; [done|by right]|].
      intros [_ [H1|H1]]; [lia|done].
Qed.

(** ** [codes], with its fuel *)

Lemma code_bits_pos lens s w : code_bits lens s = Some w -> (0 < length w)%nat.
Proof. intros (l & [_ Hl] & ->)%code_bits_Some. rewrite length_msb_bits. lia. Qed.

Lemma coded_length ll dl ts w : coded ll dl ts w -> (length ts < length w)%nat.
Proof.
  induction 1 as [w H|b w ts bs _ H _ IH|k e w j f v ts bs _ H _ _ _ _ _ IH];
    apply code_bits_pos in H; cbn [length]; rewrite ?length_app; lia.
Qed.

Lemma sbits_fuel s : input_ok s -> (length (sbits s) < S (Z.to_nat (8 * inlen s + 8)))%nat.
Proof. intros I. pose proof (sbits_length s I). destruct I. lia. Qed.

(** What the codes of a block do, from the lengths of the two codes. *)
Definition coded_post (ll dl : list Z) (g : list Z) (s : state) (r : Z) (s' : state) : Prop :=
  input_ok s' /\ keeps s s' /\ -11 <= r <= 1 /\
  exists g', out_ok g' s' /\
    (r = 0 -> exists ts w, coded ll dl ts w /\ expand g ts = Some g' /\ sbits s = w ++ sbits s').

Definition left_early (s : state) (e : Z) (s' : state) : Prop :=
  e = 1 /\ keeps s s' /\ exists g', out_ok g' s'.

Lemma left_early_keeps s0 s e s' : keeps s0 s -> left_early s e s' -> left_early s0 e s'.
Proof. intros K (-> & K' & H). split; [done|]. split; [by etrans|done]. Qed.

Section Puff.
Context (decode : huffman -> M state Z) {D : Decoder decode}.

Lemma codes_wp ll dl lh dh g s :
  tab_ok lh ll -> tab_ok dh dl -> (length ll <= 288)%nat -> (length dl <= 30)%nat ->
  input_ok s -> out_ok g s ->
  wp (codes decode lh dh) (coded_post ll dl g s) (left_early s) s.
Proof.
  intros Hl Hd Hll Hdl I Ho. unfold codes. apply wp_bind, wp_get.
  eapply (codes_loop_wp decode ll dl); try done. by apply sbits_fuel.
Qed.

Lemma codes_complete ll dl lh dh ts w g g' rest s :
  tab_ok lh ll -> tab_ok dh dl -> (length ll <= 288)%nat -> (length dl <= 30)%nat ->
  not_over ll 15 -> not_over dl 15 -> coded ll dl ts w -> expand g ts = Some g' -> sbits s = w ++ rest ->
  input_ok s -> out_ok g s -> fits g' s ->
  exists s', codes decode lh dh s = Ok 0 s' /\ input_ok s' /\ keeps s s' /\
    out_ok g' s' /\ sbits s' = rest.
Proof.
  intros Hl Hd Hll Hdl Nl Nd Hc Hx Es I Ho Hf. unfold codes. rewrite bind_get.
  eapply (codes_loop_complete decode ll dl); try done.
  pose proof (coded_length _ _ _ _ Hc). pose proof (sbits_fuel s I) as H1.
  rewrite Es, length_app in H1. lia.
Qed.

(** ** The end of a dynamic block's description *)

(** The array [lengths] splits into the lengths of the two codes. *)
Lemma have_split L ll dl :
  have L (ll ++ dl) ->
  holds L ll /\ lens_ok ll /\ holds (drop (length ll) L) dl /\ lens_ok dl.
Proof.
  intros (HL & Hh & Hok). apply Forall_app in Hok as [Hok1 Hok2]. split_and!; try done.
  - intros i x [Hi H]%aget_Some. apply Hh, aget_Some. split; [done|]. by apply lookup_app_l_Some.
  - intros i x [Hi H]%aget_Some.
    assert (E : rd L (Z.of_nat (length ll) + i) = Some x).
    { apply Hh, aget_Some. split; [lia|]. rewrite lookup_app_r by lia. rewrite <- H. f_equal. lia. }
    unfold rd, aget in *. destruct (Z.leb_spec 0 i); [|lia].
    destruct (Z.leb_spec 0 (Z.of_nat (length ll) + i)); [|lia]. rewrite lookup_drop.
    rewrite <- E. do 2 f_equal. lia.
Qed.

Lemma dynamic_codes_wp lh dh L ll dl g s :
  have L (ll ++ dl) -> room lh (length ll) -> room dh (length dl) ->
  257 <= Z.of_nat (length ll) <= 286 -> (length dl <= 30)%nat -> input_ok s -> out_ok g s ->
  wp (dynamic_codes decode lh dh (Z.of_nat (length ll)) (Z.of_nat (length dl)) L)
     (fun r s' => input_ok s' /\ keeps s s' /\ -11 <= r <= 1 /\ exists g', out_ok g' s' /\
        (r = 0 -> aget ll 256 <> Some 0 /\ usable ll /\ usable dl /\
           exists ts w, coded ll dl ts w /\ expand g ts = Some g' /\ sbits s = w ++ sbits s'))
     (left_early s) s.
Proof.
  intros Hh Hrl Hrd Hll Hdl I Ho. destruct (have_split L ll dl Hh) as (H1 & K1 & H2 & K2).
  unfold dynamic_codes. destruct (aget_range ll 256) as [x Hx]; [lia|].
  apply wp_bind. eapply wp_lift; [by apply H1|].
  assert (Herr : forall e, e <> 0 -> -11 <= e <= 1 -> forall P : Z -> Prop,
            input_ok s /\ keeps s s /\ -11 <= e <= 1 /\ exists g', out_ok g' s /\ (e = 0 -> P e)).
  { intros e He Hr P. split_and!; try done; try lia. by exists g. }
  destruct (Z.eqb_spec x 0) as [->|Hx0].
  { apply wp_ret. split_and!; try done. exists g. by split. }
  apply wp_bind.
  destruct (construct_spec lh ll L H1 K1 Hrl) as (e1 & lh' & E1 & _ & _ & Hb1).
  eapply wp_lift; [exact E1|]. destruct (bad_code_spec ll e1 lh' K1 Hb1) as (b1 & F1 & U1 & T1).
  apply wp_bind. eapply wp_lift; [exact F1|]. destruct b1.
  { apply wp_ret. split_and!; try done. exists g. by split. }
  rewrite Nat2Z.id. apply wp_bind.
  destruct (construct_spec dh dl _ H2 K2 Hrd) as (e2 & dh' & E2 & _ & _ & Hb2).
  eapply wp_lift; [exact E2|]. destruct (bad_code_spec dl e2 dh' K2 Hb2) as (b2 & F2 & U2 & T2).
  apply wp_bind. eapply wp_lift; [exact F2|]. destruct b2.
  { apply wp_ret. split_and!; try done. exists g. by split. }
  eapply wp_mono; [by apply (codes_wp ll dl lh' dh' g); auto with lia| |done].
  intros r s' (I' & K' & Hr & g' & Ho' & H0). split_and!; try done; try lia. exists g'. split; [done|].
  intros Hz. split_and!; [congruence|tauto|tauto|by apply H0].
Qed.

Lemma dynamic_codes_complete lh dh L ll dl ts w g g' rest s :
  have L (ll ++ dl) -> room lh (length ll) -> room dh (length dl) ->
  257 <= Z.of_nat (length ll) <= 286 -> (length dl <= 30)%nat ->
  aget ll 256 <> Some 0 -> usable ll -> usable dl ->
  coded ll dl ts w -> expand g ts = Some g' -> sbits s = w ++ rest ->
  input_ok s -> out_ok g s -> fits g' s ->
  exists s', dynamic_codes decode lh dh (Z.of_nat (length ll)) (Z.of_nat (length dl)) L s = Ok 0 s' /\
    input_ok s' /\ keeps s s' /\ out_ok g' s' /\ sbits s' = rest.
Proof.
  intros Hh Hrl Hrd Hll Hdl Hx Ul Ud Hc He Es I Ho Hf.
  destruct (have_split L ll dl Hh) as (H1 & K1 & H2 & K2).
  unfold dynamic_codes. destruct (aget_range ll 256) as [x Ex]; [lia|].
  rewrite (bind_lift _ x) by (by apply H1). destruct (Z.eqb_spec x 0) as [->|_]; [done|].
  destruct (construct_spec lh ll L H1 K1 Hrl) as (e1 & lh' & E1 & _ & _ & Hb1).
  rewrite (bind_lift _ _ _ _ E1). destruct (bad_code_spec ll e1 lh' K1 Hb1) as (b1 & F1 & U1 & T1).
  rewrite (bind_lift _ _ _ _ F1). destruct b1; [by apply U1 in Ul|]. rewrite Nat2Z.id.
  destruct (construct_spec dh dl _ H2 K2 Hrd) as (e2 & dh' & E2 & _ & _ & Hb2).
  rewrite (bind_lift _ _ _ _ E2). destruct (bad_code_spec dl e2 dh' K2 Hb2) as (b2 & F2 & U2 & T2).
  rewrite (bind_lift _ _ _ _ F2). destruct b2; [by apply U2 in Ud|].
  apply (codes_complete ll dl lh' dh' ts w g g' rest s); auto with lia; [apply Ul|apply Ud].
Qed.

(** ** Dynamic blocks *)

Lemma rle_some_code cl l w l' :
  rle cl l w l' -> l = l' \/ exists x v, code_bits cl x = Some v.
Proof. destruct 1; [by left|right; eauto..]. Qed.

Lemma code_not_all_zero cl x v : code_bits cl x = Some v -> ~ Forall (fun y => y = 0) cl.
Proof.
  intros (l & [[_ Ha]%aget_Some Hl] & _)%code_bits_Some Hz. eapply Forall_lookup_1 in Hz; [|exact Ha]. lia.
Qed.

Definition block_ok (ty : Z) (g : list Z) (s : state) (r : Z) (s' : state) : Prop :=
  input_ok s' /\ keeps s s' /\ -11 <= r <= 2 /\
  exists g', out_ok g' s' /\ (r = 0 -> block ty g (sbits s) g' (sbits s')).

Lemma block_err ty g s0 s r :
  input_ok s -> frame s0 s -> out_ok g s0 -> r <> 0 -> -11 <= r <= 2 -> block_ok ty g s0 r s.
Proof.
  intros I F Ho Hr Hb. split_and!; try done; try lia; [by apply frame_keeps|].
  exists g. split; [by eapply frame_out|done].
Qed.

Lemma early_frame g s0 s e : frame s0 s -> out_ok g s0 -> e = 1 -> left_early s0 e s.
Proof.
  intros F Ho ->. split; [done|]. split; [by apply frame_keeps|]. exists g. by eapply frame_out.
Qed.

Lemma room_init n : (n <= 286)%nat ->
  room (Huffman (cells (MAXBITS + 1) None) (cells MAXLCODES None)) n.
Proof. intros H. split; [done|]. change (length (cells MAXLCODES None)) with 286%nat. exact H. Qed.

Lemma room_init_dist n : (n <= 30)%nat ->
  room (Huffman (cells (MAXBITS + 1) None) (cells MAXDCODES None)) n.
Proof. intros H. split; [done|]. change (length (cells MAXDCODES None)) with 30%nat. exact H. Qed.

Lemma permuted_nil : permuted (cells MAXCODES None) [].
Proof. split; [done|]. intros i x o [_ H]%aget_Some. by rewrite lookup_nil in H. Qed.

Lemma dynamic_wp g s :
  input_ok s -> out_ok g s -> wp (dynamic decode) (block_ok 2 g s) (left_early s) s.
Proof.
  intros I Ho. unfold dynamic.
  apply wp_bind. eapply wp_mono; [apply bits_wp; [done|lia]| |].
  2: { intros e s' (-> & F & _). by eapply early_frame. }
  intros b1 s1 (I1 & F1 & Hb1 & Es1).
  apply wp_bind. eapply wp_mono; [apply bits_wp; [done|lia]| |].
  2: { intros e s' (-> & F & _). eapply early_frame; [by etrans|done|done]. }
  intros b2 s2 (I2 & F2 & Hb2 & Es2). assert (F02 : frame s s2) by (by etrans).
  apply wp_bind. eapply wp_mono; [apply bits_wp; [done|lia]| |].
  2: { intros e s' (-> & F & _). eapply early_frame; [by etrans|done|done]. }
  intros b3 s3 (I3 & F3 & Hb3 & Es3). assert (F03 : frame s s3) by (by etrans).
  change (2 ^ 5) with 32 in *. change (2 ^ 4) with 16 in *.
  unfold MAXLCODES at 1, MAXDCODES at 1.
  destruct (Z.gtb_spec (b1 + 257) 286) as [|Hnl], (Z.gtb_spec (b2 + 1) 30) as [|Hnd]; cbn [orb];
    try (apply wp_ret; by apply block_err).
  apply wp_bind. eapply wp_mono; [apply (read_clens_wp _ _ []); [done|apply permuted_nil|cbn; lia]| |].
  2: { intros e s' (-> & F). eapply early_frame; [by etrans|done|done]. }
  intros L s4 (I4 & F4 & hl & Hhl & Hhf & Hp & Es4). assert (F04 : frame s s4) by (by etrans).
  cbn [app] in Hp.
  destruct (zero_clens_spec (Z.to_nat (19 - (b3 + 4))) L hl Hp) as (L1 & E1 & Hp1); [lia|].
  replace (Z.of_nat (length hl)) with (b3 + 4) in E1 by lia.
  apply wp_bind. eapply wp_lift; [exact E1|].
  destruct (permuted_holds L1 hl _ Hp1 ltac:(lia) Hhf) as (cl & Hcl & Hh & Hok).
  assert (Hcl19 : length cl = 19%nat) by apply Hcl.
  destruct (construct_spec _ cl L1 Hh Hok (room_init (length cl) ltac:(lia)))
    as (err & h & E2 & Hc16 & Hsy & Hct & Hb).
  rewrite Hcl19 in E2. change (Z.of_nat 19) with 19 in E2.
  apply wp_bind. eapply wp_lift; [exact E2|]. cbn beta iota.
  destruct (Z.eqb_spec err 0) as [Herr|Herr]; cbn [negb]; [|apply wp_ret; by apply block_err].
  destruct Hb as [[? _]|(Hno & Htab & Hleft)]; [lia|].
  apply wp_bind. eapply wp_mono; [apply (read_lengths_wp decode cl h Htab Hcl19 _ _ L1 [])| |].
  { done. } { apply have_nil, Hp1. } { cbn; lia. } { unfold MAXCODES, MAXLCODES, MAXDCODES; cbn; lia. }
  2: { intros e s' (-> & F). eapply early_frame; [by etrans|done|done]. }
  intros [e|L2] s5 (I5 & F5 & H5).
  { apply wp_ret. apply block_err; [done|by etrans|done|lia|lia]. }
  destruct H5 as (l' & w & Hrle & Hlen & Hh2 & Es5). assert (F05 : frame s s5) by (by etrans).
  rewrite <- (take_drop (Z.to_nat (b1 + 257)) l') in Hrle, Hh2.
  set (ll := take (Z.to_nat (b1 + 257)) l') in *. set (dl := drop (Z.to_nat (b1 + 257)) l') in *.
  assert (Lll : Z.of_nat (length ll) = b1 + 257) by (unfold ll; rewrite length_take; lia).
  assert (Ldl : Z.of_nat (length dl) = b2 + 1) by (unfold dl; rewrite length_drop; lia).
  pose proof (frame_out _ _ _ F05 Ho) as Ho5.
  replace (b1 + 257) with (Z.of_nat (length ll)) by lia. replace (b2 + 1) with (Z.of_nat (length dl)) by lia.
  eapply wp_mono; [apply (dynamic_codes_wp h _ L2 ll dl g)| |]; try done.
  { split; [done|]. rewrite Hsy. change (length (symbol _)) with 286%nat. lia. }
  { apply room_init_dist. lia. } { lia. } { lia. }
  2: { intros e s' H'. eapply left_early_keeps; [by apply frame_keeps|done]. }
  intros r s6 (I6 & K6 & Hr & g' & Ho6 & H0).
  split_and!; try done; try lia; [etrans; [by apply frame_keeps|done]|].
  exists g'. split; [done|]. intros Hz. destruct (H0 Hz) as (Heob & Ull & Udl & ts & w2 & Hcd & Hx & Es6).
  rewrite Es1, Es2, Es3, Es4, Es5, Es6.
  assert (Eh : header ll dl (header_bits (Z.of_nat (length ll)) (Z.of_nat (length dl)) (Z.of_nat (length hl)) hl w)).
  { exists hl, cl, w. cbv zeta. split_and!; try done; try lia.
    destruct Hleft as [?|[_ Hzero]]; [lia|]. exfalso.
    destruct (rle_some_code _ _ _ _ Hrle) as [E|(x & v & Hv)]; [|by eapply code_not_all_zero].
    apply (f_equal length) in E. rewrite length_app in E. cbn in E. lia. }
  pose proof (block_dynamic g ll dl _ ts w2 g' (sbits s6) Eh Hcd Hx) as Hbl.
  unfold header_bits in Hbl. rewrite Lll, Ldl, Hhl in Hbl.
  replace (b1 + 257 - 257) with b1 in Hbl by lia. replace (b2 + 1 - 1) with b2 in Hbl by lia.
  replace (Z.of_nat (Z.to_nat (b3 + 4)) - 4) with b3 in Hbl by lia.
  rewrite <- !app_assoc in Hbl. exact Hbl.
Qed.

(** The lengths of the code length code as they come. *)
Lemma read_clens_complete n L hl k rest s :
  input_ok s -> permuted L hl -> (length hl + n <= 19)%nat -> length k = n ->
  Forall (fun x => 0 <= x < 8) k -> sbits s = (k ≫= z_bits 3) ++ rest ->
  exists L' s', read_clens n (Z.of_nat (length hl)) L s = Ok L' s' /\ input_ok s' /\ frame s s' /\
    permuted L' (hl ++ k) /\ sbits s' = rest.
Proof.
  intros I Hp Hn Hk Hf Es. pose proof (read_clens_wp n L hl s I Hp Hn) as H.
  assert (Hbits : forall k, length (k ≫= z_bits 3) = (3 * length k)%nat).
  { induction k0 as [|y k0 IH]; [done|]. cbn [mbind list_bind]. rewrite length_app, length_z_bits, IH.
    cbn [length]. lia. }
  assert (Hinj : forall k1 k2 r1 r2, Forall (fun x => 0 <= x < 8) k1 -> Forall (fun x => 0 <= x < 8) k2 ->
            length k1 = length k2 -> (k1 ≫= z_bits 3) ++ r1 = (k2 ≫= z_bits 3) ++ r2 -> k1 = k2 /\ r1 = r2).
  { induction k1 as [|x k1 IH]; intros [|y k2] r1 r2 H1 H2 Hl E; try done.
    apply Forall_cons in H1 as [Hx H1], H2 as [Hy H2]. cbn [mbind list_bind] in E.
    rewrite <- !app_assoc in E. apply app_inj_1 in E as [Exy E]; [|by rewrite !length_z_bits].
    apply (f_equal bits_z) in Exy. rewrite !bits_z_z_bits_small in Exy by done.
    destruct (IH k2 r1 r2 H1 H2 ltac:(cbn in Hl; lia) E) as [-> ->]. by subst. }
  assert (Hnolimit : forall s', wp (read_clens n (Z.of_nat (length hl)) L) (fun _ _ => True)
                       (fun e s1 => e = 1 /\ frame s s1) s -> read_clens n (Z.of_nat (length hl)) L s <> Exc 1 s').
  { intros s' _. clear H. revert L hl k s I Hp Hn Hk Hf Es. induction n as [|n IH]; intros L hl k s I Hp Hn Hk Hf Es; [done|].
    destruct k as [|x k]; [done|]. cbn [length] in Hk. apply Forall_cons in Hf as [Hx Hf].
    cbn [mbind list_bind] in Es. rewrite <- app_assoc in Es. cbn [read_clens].
    destruct (permuted_snoc L hl x Hp ltac:(lia)) as (o & L1 & Ho & E1 & Hp1).
    rewrite (bind_lift _ _ _ _ Ho).
    destruct (bits_complete s 3 x _ I ltac:(lia) Hx Es) as (s1 & B1 & I1 & F1 & S1).
    rewrite (bind_ok _ _ _ _ _ B1), (bind_lift _ _ _ _ E1).
    replace (Z.of_nat (length hl) + 1) with (Z.of_nat (length (hl ++ [x]))) by (rewrite length_app; cbn; lia).
    apply (IH L1 (hl ++ [x]) k s1); try done; [rewrite length_app; cbn; lia|lia]. }
  unfold wp in H. destruct (read_clens n (Z.of_nat (length hl)) L s) as [L' s'|e s'| |] eqn:E; try done.
  - destruct H as (I' & F & k' & Hk' & Hf' & Hp' & Es'). rewrite Es in Es'.
    apply Hinj in Es' as [<- Er]; [|done|done|congruence]. by exists L', s'.
  - destruct H as [-> F]. exfalso. eapply Hnolimit; [|done]. unfold wp. by rewrite E.
Qed.

Lemma clens_of_unique hl cl cl' : clens_of hl cl -> clens_of hl cl' -> cl = cl'.
Proof.
  intros [H1 K1] [H2 K2]. apply list_eq_same_length with 19%nat; [done..|].
  intros i x y Hi Hx Hy. destruct (order_surj (Z.of_nat i)) as (j & _ & Ej); [lia|].
  change order with clen_order in Ej. pose proof (K1 _ _ Ej) as E1. pose proof (K2 _ _ Ej) as E2.
  apply aget_Some in E1 as [_ E1], E2 as [_ E2]. rewrite Nat2Z.id in E1, E2. congruence.
Qed.

Lemma dynamic_complete g g' s bs rest :
  block 2 g bs g' rest -> sbits s = bs -> input_ok s -> out_ok g s -> fits g' s ->
  exists s', dynamic decode s = Ok 0 s' /\ input_ok s' /\ keeps s s' /\ out_ok g' s' /\ sbits s' = rest.
Proof.
  intros (ll & dl & h & ts & w & Hh & Hcd & Hx & ->)%block_dynamic_inv Es I Ho Hfit.
  destruct Hh as (hl & cl & v & -> & Hll & Hdl & Hnc & Hhf & Hcl & Ncl & Cl0 & Hrle & Heob & Ull & Udl).
  unfold header_bits in Es. rewrite <- !app_assoc in Es. unfold dynamic.
  change (2 ^ 5) with 32 in *. 
  destruct (bits_complete s 5 (Z.of_nat (length ll) - 257) _ I ltac:(lia) ltac:(lia) Es) as (s1 & B1 & I1 & F1 & S1).
  rewrite (bind_ok _ _ _ _ _ B1). cbv zeta.
  destruct (bits_complete s1 5 (Z.of_nat (length dl) - 1) _ I1 ltac:(lia) ltac:(lia) S1) as (s2 & B2 & I2 & F2 & S2).
  rewrite (bind_ok _ _ _ _ _ B2).
  destruct (bits_complete s2 4 (Z.of_nat (length hl) - 4) _ I2 ltac:(lia) ltac:(lia) S2) as (s3 & B3 & I3 & F3 & S3).
  rewrite (bind_ok _ _ _ _ _ B3).
  replace (Z.of_nat (length ll) - 257 + 257) with (Z.of_nat (length ll)) by lia.
  replace (Z.of_nat (length dl) - 1 + 1) with (Z.of_nat (length dl)) by lia.
  replace (Z.of_nat (length hl) - 4 + 4) with (Z.of_nat (length hl)) by lia.
  unfold MAXLCODES at 1, MAXDCODES at 1.
  destruct (Z.gtb_spec (Z.of_nat (length ll)) 286); [lia|].
  destruct (Z.gtb_spec (Z.of_nat (length dl)) 30); [lia|]. cbn [orb]. rewrite Nat2Z.id.
  destruct (read_clens_complete (length hl) (cells MAXCODES None) [] hl _ s3 I3 permuted_nil ltac:(cbn; lia) eq_refl Hhf S3)
    as (L & s4 & B4 & I4 & F4 & Hp & S4). change (Z.of_nat (length (@nil Z))) with 0 in B4.
  rewrite (bind_ok _ _ _ _ _ B4). cbn [app] in Hp.
  destruct (zero_clens_spec (Z.to_nat (19 - Z.of_nat (length hl))) L hl Hp) as (L1 & E1 & Hp1); [lia|].
  rewrite (bind_lift _ _ _ _ E1).
  destruct (permuted_holds L1 hl _ Hp1 ltac:(lia) Hhf) as (cl' & Hcl' & Hh & Hok).
  assert (cl' = cl) as -> by (by eapply clens_of_unique). assert (Hcl19 : length cl = 19%nat) by apply Hcl.
  destruct (construct_spec _ cl L1 Hh Hok (room_init (length cl) ltac:(lia)))
    as (err & t & E2 & Hc16 & Hsy & Hct & Hb).
  rewrite Hcl19 in E2. change (Z.of_nat 19) with 19 in E2. rewrite (bind_lift _ _ _ _ E2).
  destruct Hb as [[_ Hno]|(_ & Htab & Hleft)]; [done|].
  assert (err = 0) as -> by (destruct Hleft as [?|[? _]]; lia). cbn [Z.eqb negb].
  destruct (read_lengths_complete decode cl t Htab Hcl19 Ncl (S (Z.to_nat MAXCODES)) [] v (ll ++ dl) (w ++ rest) L1 s4 Hrle)
    as (s5 & L2 & B5 & I5 & F5 & Hh2 & S5); [rewrite length_app; lia|exact S4|done|apply have_nil, Hp1| |].
  { rewrite length_app. unfold MAXCODES, MAXLCODES, MAXDCODES. cbn [length]. lia. }
  rewrite length_app, Nat2Z.inj_add in B5. change (Z.of_nat (length (@nil Z))) with 0 in B5.
  rewrite (bind_ok _ _ _ _ _ B5).
  assert (F : frame s s5) by (do 4 (etrans; [eassumption|]); done).
  destruct (dynamic_codes_complete t (Huffman (cells (MAXBITS + 1) None) (cells MAXDCODES None)) L2 ll dl ts w g g' rest s5)
    as (s6 & B6 & I6 & K6 & Ho6 & S6); try done.
  { split; [done|]. rewrite Hsy. change (length (symbol _)) with 286%nat. lia. }
  { apply room_init_dist. lia. } { lia. }
  { by eapply frame_out. } { eapply fits_keeps; [by apply frame_keeps|done]. }
  exists s6. split_and!; try done. etrans; [by apply frame_keeps|done].
Qed.
End Puff.
