(* ===== verification/PuffTop.v ===== *)
(** * Correctness of [puff], on whole streams

    The loop over the blocks: [puff] is defined and terminates on every input,
    and returns 0 exactly on the streams of the deflate format that fit the
    output, with the bytes they expand to. *)
From stdpp Require Import base numbers list.
From Stdlib Require Import ZArith Lia Bool.
From S2P Require Import Prelude Huffman Deflate Puff PuffFacts PuffTables PuffCodes PuffBlocks PuffDynamic.
From S2P Require Import PuffSpec.

(** ** One block *)

(** What a block leaves alone: all of [keeps] but the static variables. *)
Definition limits (s s' : state) : Prop :=
  inp s' = inp s /\ inlen s' = inlen s /\ outlen s' = outlen s /\
  option_map length (out s') = option_map length (out s).

#[export] Instance limits_refl : Reflexive limits.
Proof. by intros s. Qed.
#[export] Instance limits_trans : Transitive limits.
Proof. unfold limits. intros a b c. intuition congruence. Qed.

Lemma keeps_limits s s' : keeps s s' -> limits s s'.
Proof. unfold keeps, limits. tauto. Qed.

Lemma frame_limits s s' : frame s s' -> limits s s'.
Proof. intros. by apply keeps_limits, frame_keeps. Qed.

Lemma fits_limits g s s' : limits s s' -> fits g s -> fits g s'.
Proof. intros (_ & _ & El & Eo) [H|H]; [left|right; lia]. rewrite H in Eo. by destruct (out s'). Qed.

(** The state between blocks, with the bytes [g] written. *)
Record between (g : list Z) (s : state) : Prop := {
  bw_in : input_ok s;
  bw_out : out_ok g s;
  bw_fx : fx_ok (fx s) }.

Lemma between_keeps g g' s s' :
  between g s -> keeps s s' -> input_ok s' -> out_ok g' s' -> between g' s'.
Proof. intros [_ _ H] (_ & _ & _ & E & _) ? ?. constructor; [done..|by rewrite E]. Qed.

Lemma between_frame g s s' : between g s -> frame s s' -> input_ok s' -> between g s'.
Proof.
  intros B F I. apply (between_keeps g g s); [done|by apply frame_keeps|done|eapply frame_out; [done|apply B]].
Qed.

(** A run that returns [r], with [B] on the bits consumed when [r] is 0. *)
Definition ran (B : list bool -> list Z -> list bool -> Prop) (s : state) (r : Z) (s' : state) : Prop :=
  limits s s' /\ -11 <= r <= 2 /\ exists g', between g' s' /\ (r = 0 -> B (sbits s) g' (sbits s')).

(** A run that leaves through [longjmp]. *)
Definition jumped (s : state) (e : Z) (s' : state) : Prop :=
  e = 1 /\ limits s s' /\ fx_ok (fx s') /\ exists g', out_ok g' s'.

Lemma jumped_limits s0 s e s' : limits s0 s -> jumped s e s' -> jumped s0 e s'.
Proof. intros L (-> & L' & H). split; [done|]. split; [by etrans|done]. Qed.

Lemma left_early_jumped g s e s' : between g s -> left_early s e s' -> jumped s e s'.
Proof.
  intros B (-> & K & H). split; [done|]. split; [by apply keeps_limits|]. split; [|done].
  destruct K as (_ & _ & _ & -> & _). apply B.
Qed.

Lemma frame_jumped g s s' : between g s -> frame s s' -> jumped s 1 s'.
Proof.
  intros B F. apply (left_early_jumped g); [done|]. apply (early_frame g); [done|apply B|done].
Qed.

Lemma block_ok_ran ty g s r s' : between g s -> block_ok ty g s r s' -> ran (block ty g) s r s'.
Proof.
  intros B (I & K & Hr & g' & Ho & H). split; [by apply keeps_limits|]. split; [done|].
  exists g'. split; [|done]. by apply (between_keeps g g' s).
Qed.

Lemma length_fixed_ll : (length fixed_ll <= 288)%nat.
Proof. apply Nat.leb_le. vm_compute. reflexivity. Qed.

Lemma length_fixed_dl : (length fixed_dl <= 30)%nat.
Proof. apply Nat.leb_le. vm_compute. reflexivity. Qed.

Section Top.
Context (decode : huffman -> M state Z) {D : Decoder decode}.

Lemma stored_ran g s : between g s -> wp stored (ran (block 0 g) s) (jumped s) s.
Proof.
  intros B. destruct (stored_run g s (bw_in _ _ B) (bw_out _ _ B)) as (r & s' & E & P).
  unfold wp. rewrite E. apply (block_ok_ran 0 g); [done|].
  destruct (stored_block g s r s' (bw_in _ _ B) P) as [(I & Hr & g' & Ho & H) _].
  split; [done|]. split; [apply P|]. split; [done|]. by exists g'.
Qed.

(** The tables are there when [fixed] uses them. *)
Lemma fixed_setup g s :
  between g s -> exists s', (s ← get;
    if ztrue (virgin (fx s)) then f ← lift (fixed_tables (fx s)); modify (set_fx f) else mret tt) s = Ok tt s' /\
    between g s' /\ limits s s' /\ sbits s' = sbits s /\
    tab_ok (lencode_f (fx s')) fixed_ll /\ tab_ok (distcode_f (fx s')) fixed_dl.
Proof.
  intros B. pose proof B as [I Ho Hf]. rewrite bind_get. unfold ztrue.
  destruct (Z.eqb_spec (virgin (fx s)) 0) as [E|E]; cbn [negb].
  - destruct (fx_tabs _ Hf E). exists s. split; [reflexivity|]. split; [exact B|]. split; [reflexivity|]. split; [reflexivity|]. by split.
  - destruct (fixed_tables_ok _ Hf) as (f & Ef & Hf' & Hv). rewrite (bind_lift _ _ _ _ Ef). clear Ef.
    exists (set_fx f s). destruct (fx_tabs _ Hf' Hv). split; [reflexivity|].
    split; [constructor; [by destruct I|by destruct Ho|exact Hf']|].
    split; [by unfold limits|]. split; [reflexivity|]. by split.
Qed.

Lemma fixed_split s :
  fixed decode s = ((s ← get;
    if ztrue (virgin (fx s)) then f ← lift (fixed_tables (fx s)); modify (set_fx f) else mret tt);;
    s ← get; codes decode (lencode_f (fx s)) (distcode_f (fx s))) s.
Proof. unfold fixed. by rewrite bind_assoc. Qed.

Lemma fixed_ran g s : between g s -> wp (fixed decode) (ran (block 1 g) s) (jumped s) s.
Proof.
  intros B. destruct (fixed_setup g s B) as (s1 & E & B1 & L1 & Es & T1 & T2).
  unfold wp. rewrite fixed_split, (bind_ok _ _ _ _ _ E), bind_get. clear E.
  pose proof (codes_wp decode _ _ _ _ g s1 T1 T2 length_fixed_ll length_fixed_dl (bw_in _ _ B1) (bw_out _ _ B1)) as H.
  unfold wp in H. destruct (codes _ _ _ s1) as [r s2|e s2| |]; try done.
  - destruct H as (I2 & K2 & Hr & g' & Ho2 & H0). split; [etrans; [done|by apply keeps_limits]|].
    split; [lia|]. exists g'. split; [by eapply between_keeps|]. intros Hz.
    destruct (H0 Hz) as (ts & w & Hc & Hx & Ew). rewrite <- Es, Ew. by apply (block_fixed g ts w).
  - eapply jumped_limits; [done|]. by eapply left_early_jumped.
Qed.

Lemma dynamic_ran g s : between g s -> wp (dynamic decode) (ran (block 2 g) s) (jumped s) s.
Proof.
  intros B. eapply wp_mono; [apply (dynamic_wp decode g); apply B| |]; intros.
  - by apply block_ok_ran.
  - by eapply left_early_jumped.
Qed.

Lemma fixed_complete g g' s rest :
  between g s -> block 1 g (sbits s) g' rest -> fits g' s ->
  exists s', fixed decode s = Ok 0 s' /\ limits s s' /\ between g' s' /\ sbits s' = rest.
Proof.
  intros B (ts & w & Hc & Hx & Ew)%block_fixed_inv Hfit.
  destruct (fixed_setup g s B) as (s1 & E & B1 & L1 & Es & T1 & T2).
  rewrite fixed_split, (bind_ok _ _ _ _ _ E), bind_get. clear E.
  destruct (codes_complete decode fixed_ll fixed_dl _ _ ts w g g' rest s1 T1 T2 length_fixed_ll length_fixed_dl)
    as (s2 & E2 & I2 & K2 & Ho2 & S2); [apply not_over_fixed_ll|apply not_over_fixed_dl|done|done|congruence|apply B1|apply B1|by eapply fits_limits|].
  exists s2. split_and!; try done; [etrans; [done|by apply keeps_limits]|by eapply between_keeps].
Qed.

Lemma dynamic_finish g g' s rest :
  between g s -> block 2 g (sbits s) g' rest -> fits g' s ->
  exists s', dynamic decode s = Ok 0 s' /\ limits s s' /\ between g' s' /\ sbits s' = rest.
Proof.
  intros B Hb Hfit.
  destruct (dynamic_complete decode g g' s _ rest Hb eq_refl (bw_in _ _ B) (bw_out _ _ B) Hfit)
    as (s' & E & I & K & Ho & S). exists s'.
  split_and!; [exact E|by apply keeps_limits|by eapply between_keeps|exact S].
Qed.

Lemma stored_complete g g' s rest :
  between g s -> block 0 g (sbits s) g' rest -> fits g' s ->
  exists s', stored s = Ok 0 s' /\ limits s s' /\ between g' s' /\ sbits s' = rest.
Proof.
  intros B Hb Hfit. destruct (stored_run g s (bw_in _ _ B) (bw_out _ _ B)) as (r & s' & E & P).
  destruct (stored_block g s r s' (bw_in _ _ B) P) as [(I & _) H].
  destruct (H g' rest Hb Hfit) as (-> & Ho & S). exists s'. destruct P as (_ & K & _).
  split_and!; [exact E|by apply keeps_limits|by eapply between_keeps|exact S].
Qed.

(** The block of any type. *)
Definition any_block (ty : Z) : M state Z :=
  if ty =? 0 then stored else if ty =? 1 then fixed decode else if ty =? 2 then dynamic decode else mret (-1).

Lemma puff_loop_S fuel s :
  puff_loop decode (S fuel) s =
  (last ← bits 1; ty ← bits 2; err ← any_block ty;
   if negb (err =? 0) then mret err else if ztrue last then mret err else puff_loop decode fuel) s.
Proof. reflexivity. Qed.

Lemma any_block_ran ty g s : between g s -> 0 <= ty < 4 ->
  wp (any_block ty) (fun r s' => ran (block ty g) s r s' /\ (r = 0 -> ty < 3)) (jumped s) s.
Proof.
  intros B Hty. assert (ty = 0 \/ ty = 1 \/ ty = 2 \/ ty = 3) as [-> |[-> |[-> | ->]]] by lia.
  - eapply wp_mono; [by apply stored_ran| |done]. intros r s' H. split; [exact H|lia].
  - eapply wp_mono; [by apply (fixed_ran g)| |done]. intros r s' H. split; [exact H|lia].
  - eapply wp_mono; [by apply (dynamic_ran g)| |done]. intros r s' H. split; [exact H|lia].
  - apply (wp_ret (-1)). split; [|lia]. split; [done|]. split; [lia|]. exists g. split; [done|lia].
Qed.

Lemma any_block_complete ty g g' s rest :
  0 <= ty < 3 -> between g s -> block ty g (sbits s) g' rest -> fits g' s ->
  exists s', any_block ty s = Ok 0 s' /\ limits s s' /\ between g' s' /\ sbits s' = rest.
Proof.
  intros Hty. assert (ty = 0 \/ ty = 1 \/ ty = 2) as [-> |[-> | ->]] by lia; intros B Hb Hf.
  - by eapply stored_complete.
  - by eapply fixed_complete.
  - by eapply dynamic_finish.
Qed.

(** A block does not add bits to those that are left. *)
Lemma block_shrinks ty g bs g' rest : block ty g bs g' rest -> (length rest <= length bs)%nat.
Proof. destruct 1; rewrite !length_app; lia. Qed.

Lemma stream_shrinks g bs g' rest : stream g bs g' rest -> (length rest <= length bs)%nat.
Proof.
  induction 1 as [ty out bs out' rest _ H|ty out bs out1 mid out' rest _ H _ IH];
    apply block_shrinks in H; cbn [length]; rewrite length_app; lia.
Qed.

Lemma puff_loop_ran fuel g s :
  between g s -> (length (sbits s) < fuel)%nat ->
  wp (puff_loop decode fuel) (ran (stream g) s) (jumped s) s.
Proof.
  revert g s. induction fuel as [|fuel IH]; intros g s B Hf; [lia|].
  unfold wp. rewrite puff_loop_S. apply wp_bind.
  eapply wp_mono; [apply bits_wp; [apply B|lia]| |].
  2: { intros e s' (-> & F & _). by eapply frame_jumped. }
  intros last s1 (I1 & F1 & Hlast & E1). apply wp_bind.
  eapply wp_mono; [apply bits_wp; [done|lia]| |].
  2: { intros e s' (-> & F & _). eapply frame_jumped; [done|by etrans]. }
  intros ty s2 (I2 & F2 & Hty & E2). assert (F : frame s s2) by (by etrans).
  pose proof (between_frame _ _ _ B F I2) as B2. pose proof (frame_limits _ _ F) as L. clear F1 F2 F.
  apply wp_bind. eapply wp_mono; [by apply (any_block_ran ty g)| |].
  2: { intros e s' H. by eapply jumped_limits. }
  intros r s3 [(L3 & Hr & g3 & B3 & H3) Hty3].
  destruct (Z.eqb_spec r 0) as [-> |Hne]; cbn [negb].
  2: { apply wp_ret. split; [by etrans|]. split; [done|]. exists g3. by split. }
  specialize (H3 eq_refl). specialize (Hty3 eq_refl). unfold ztrue.
  rewrite E2 in E1. clear E2. change (Z.to_nat 1) with 1%nat in E1. change (Z.to_nat 2) with 2%nat in E1.
  rewrite E1 in Hf.
  assert (last = 0 \/ last = 1) as [-> | ->] by lia; cbn [Z.eqb negb].
  - pose proof (block_shrinks _ _ _ _ _ H3). rewrite !length_app, !length_z_bits in Hf.
    eapply wp_mono; [apply (IH g3); [done|lia]| |].
    2: { intros e s' H'. eapply jumped_limits; [|done]. by etrans. }
    intros r s4 (L4 & Hr4 & g4 & B4 & H4). split; [etrans; [done|by etrans]|]. split; [done|].
    exists g4. split; [done|]. intros Hz. rewrite E1.
    apply (stream_more ty g (sbits s2) g3 (sbits s3)); [lia|done|by apply H4].
  - apply wp_ret. split; [by etrans|]. split; [done|]. exists g3. split; [done|]. intros _. rewrite E1.
    apply (stream_last ty g (sbits s2) g3 (sbits s3)); [lia|done].
Qed.

(** Reading the head of a block. *)
Lemma head_complete g s last ty bs :
  between g s -> 0 <= ty < 3 -> sbits s = last :: z_bits 2 ty ++ bs ->
  exists s1 s2, bits 1 s = Ok (Z.b2z last) s1 /\ bits 2 s1 = Ok ty s2 /\ between g s2 /\
    limits s s2 /\ sbits s2 = bs.
Proof.
  intros B Hty E. destruct (bits1_cons s last _ (bw_in _ _ B) E) as (s1 & E1 & I1 & F1 & S1).
  destruct (bits_complete s1 2 ty _ I1 ltac:(lia) ltac:(lia) S1) as (s2 & E2 & I2 & F2 & S2).
  assert (F : frame s s2) by (by etrans).
  exists s1, s2. split_and!; try done; [by eapply between_frame|by apply frame_limits].
Qed.

Lemma puff_loop_complete fuel g s g' rest :
  stream g (sbits s) g' rest -> between g s -> fits g' s -> (length (sbits s) < fuel)%nat ->
  exists s', puff_loop decode fuel s = Ok 0 s' /\ limits s s' /\ between g' s' /\ sbits s' = rest.
Proof.
  intros Hs. remember (sbits s) as bs eqn:E. revert fuel s E.
  induction Hs as [ty g bs g' rest Hty Hb|ty g bs g1 mid g' rest Hty Hb Hs IH];
    intros fuel s E B Hfit Hf; (destruct fuel as [|fuel]; [lia|]); rewrite puff_loop_S; symmetry in E;
    destruct (head_complete g s _ ty bs B Hty E) as (s1 & s2 & E1 & E2 & B2 & L2 & S2);
    rewrite (bind_ok _ _ _ _ _ E1), (bind_ok _ _ _ _ _ E2); clear E1 E2; rewrite <- S2 in Hb.
  - destruct (any_block_complete ty g g' s2 rest Hty B2 Hb) as (s3 & E3 & L3 & B3 & S3); [by eapply fits_limits|].
    rewrite (bind_ok _ _ _ _ _ E3). exists s3. split_and!; [done|by etrans|done|done].
  - assert (Hfit1 : fits g1 s2).
    { destruct (stream_app _ _ _ _ Hs) as [k ->]. eapply fits_limits; [done|by eapply fits_app]. }
    destruct (any_block_complete ty g g1 s2 mid Hty B2 Hb Hfit1) as (s3 & E3 & L3 & B3 & S3).
    rewrite (bind_ok _ _ _ _ _ E3). cbn [Z.eqb negb ztrue Z.b2z].
    assert (L : limits s s3) by (by etrans).
    destruct (IH fuel s3 (eq_sym S3) B3) as (s4 & E4 & L4 & B4 & S4);
      [by eapply fits_limits|rewrite <- S2 in Hf; pose proof (block_shrinks _ _ _ _ _ Hb) as Hk;
       cbn [length] in Hf; rewrite length_app in Hf; lia|].
    exists s4. split_and!; [exact E4|by etrans|done|done].
Qed.
End Top.

(** ** The function *)

(** What a caller of [puff] must provide: the bytes of the source, a buffer of
    [destlen] bytes or NIL, the static variables of earlier calls. *)
Record call_ok (dest : option (list Z)) (destlen : Z) (source : list Z) (sourcelen : Z) (f : statics) : Prop := {
  ca_source : 0 <= sourcelen <= Z.of_nat (length source);
  ca_bytes : Forall is_byte source;
  ca_dest : match dest with Some d => 0 <= destlen <= Z.of_nat (length d) | None => True end;
  ca_fx : fx_ok f }.

(** The bits of the stream. *)
Definition source_bits (source : list Z) (sourcelen : Z) : list bool :=
  bytes_bits (take (Z.to_nat sourcelen) source).

(** There is room for the bytes [g]. *)
Definition dest_fits (g : list Z) (dest : option (list Z)) (destlen : Z) : Prop :=
  dest = None \/ Z.of_nat (length g) <= destlen.

(** The bytes [g] are at the front of the buffer, of the same size as before. *)
Definition dest_holds (g : list Z) (dest d : option (list Z)) : Prop :=
  option_map length d = option_map length dest /\
  match d with Some o => take (length g) o = g | None => True end.

Definition puff_start (dest : option (list Z)) (destlen : Z) (source : list Z) (sourcelen : Z) (f : statics) : state :=
  State dest destlen 0 source sourcelen 0 0 0 f.

Section Call.
Context (decode : huffman -> M state Z) {D : Decoder decode}.
Context (dest : option (list Z)) (destlen : Z) (source : list Z) (sourcelen : Z) (f : statics).
Context (C : call_ok dest destlen source sourcelen f).
#[local] Abbreviation start := (puff_start dest destlen source sourcelen f).

Lemma start_between : between [] start.
Proof using C.
  destruct C as [Hs Hb Hd Hf]. constructor; [constructor; cbn; try done; lia| |done].
  constructor; cbn; [done|done|]. destruct dest; [|done]. split; [lia|done].
Qed.

Lemma start_bits : sbits start = source_bits source sourcelen.
Proof using. unfold sbits, unread, source_bits. cbn. by rewrite Z.sub_0_r. Qed.

Lemma start_fuel : (length (sbits start) < S (Z.to_nat (8 * sourcelen)))%nat.
Proof using C.
  pose proof (sbits_length start (bw_in _ _ start_between)) as H. cbn in H. destruct C. lia.
Qed.

Lemma start_incnt s bs : limits start s -> input_ok s -> sbits s = bs ->
  incnt s = sourcelen - Z.of_nat (length bs) / 8.
Proof using.
  intros (_ & El & _) I Es. rewrite (incnt_sbits s I), Es, El. done.
Qed.

Lemma limits_dest g s : limits start s -> out_ok g s -> dest_holds g dest (out s).
Proof using.
  intros (_ & _ & _ & Eo) [_ _ H]. split; [exact Eo|]. destruct (out s); [apply H|done].
Qed.

(** [puff] always returns: no access is out of bounds or to a cell without a
    value, no loop runs for ever.  The counts are what has been written and read
    when the code is not positive, and are left alone when it is. *)
Lemma puff_total :
  exists err dl sl d f', puff decode dest destlen source sourcelen f = Returns err dl sl d f' /\
    -11 <= err <= 2 /\ option_map length d = option_map length dest /\ fx_ok f' /\
    (0 < err -> dl = destlen /\ sl = sourcelen) /\
    (err <= 0 -> 0 <= dl /\ (dest <> None -> dl <= destlen) /\ 0 <= sl <= sourcelen) /\
    (err = 0 -> exists g rest, stream [] (source_bits source sourcelen) g rest /\
       dl = Z.of_nat (length g) /\ sl = sourcelen - Z.of_nat (length rest) / 8 /\ dest_holds g dest d).
Proof using C D.
  pose proof (puff_loop_ran decode _ [] start start_between start_fuel) as H.
  unfold puff. cbv zeta. change (State dest destlen 0 source sourcelen 0 0 0 f) with start.
  unfold wp in H. destruct (puff_loop _ _ _) as [r s|e s| |]; try done.
  - destruct H as (L & Hr & g & B & H0). pose proof L as (_ & El & Eol & Eo).
    destruct (Z.leb_spec r 0) as [Hle|Hgt]; do 5 eexists; (split; [reflexivity|]);
      (split; [lia|]); (split; [exact Eo|]); (split; [apply B|]).
    2: { split; [done|]. split; lia. }
    split; [lia|]. split.
    + intros _. pose proof (og_cnt _ _ (bw_out _ _ B)). split; [lia|]. split.
      * intros Hd. pose proof (og_buf _ _ (bw_out _ _ B)) as Hb. rewrite Eol in Hb. cbn in Hb, Eo.
        destruct (out s); [lia|]. by destruct dest.
      * pose proof (ok_in _ (bw_in _ _ B)) as Hi. rewrite El in Hi. exact Hi.
    + intros Hz. exists g, (sbits s). rewrite <- start_bits. split; [by apply H0|].
      split; [apply B|]. split; [by apply start_incnt; [|apply B|]|]. apply limits_dest; [done|apply B].
  - destruct H as (_ & (_ & _ & _ & Eo) & Hf & _). do 5 eexists. split; [reflexivity|].
    split; [lia|]. split; [exact Eo|]. split; [done|]. split; [done|]. split; lia.
Qed.

Lemma puff_accepts g rest :
  stream [] (source_bits source sourcelen) g rest -> dest_fits g dest destlen ->
  exists d f', puff decode dest destlen source sourcelen f =
      Returns 0 (Z.of_nat (length g)) (sourcelen - Z.of_nat (length rest) / 8) d f' /\
    fx_ok f' /\ dest_holds g dest d.
Proof using C D.
  intros Hs Hfit. rewrite <- start_bits in Hs.
  destruct (puff_loop_complete decode (S (Z.to_nat (8 * sourcelen))) [] start g rest Hs start_between Hfit start_fuel)
    as (s & E & L & B & S). unfold puff. cbv zeta.
  change (State dest destlen 0 source sourcelen 0 0 0 f) with start. rewrite E. clear E.
  exists (out s), (fx s). cbn [Z.leb Z.compare]. split; [|split; [apply B|apply limits_dest; [done|apply B]]].
  f_equal; [apply B|]. by apply start_incnt; [|apply B|].
Qed.
End Call.
