(* ===== verification/PuffEquiv.v ===== *)
(** * The two versions of [decode] give the same [puff]

    On an error the fast version of [decode] leaves other bits in the buffer
    than the slow one; every caller then returns at once, so the difference is
    not seen.  The two runs are related step by step. *)
From stdpp Require Import base numbers list.
From Stdlib Require Import ZArith Lia Bool.
From S2P Require Import Prelude Huffman Deflate Puff PuffFacts PuffCodes PuffTop.

(** What is seen of a state after the function has returned. *)
Definition seen (s1 s2 : state) : Prop :=
  out s1 = out s2 /\ outcnt s1 = outcnt s2 /\ incnt s1 = incnt s2 /\ fx s1 = fx s2.

(** Two runs agree: the same result in the same state, or, when the value [a]
    makes the caller return ([stop a]), states that look the same. *)
Definition agree {A} (stop : A -> Prop) (r1 r2 : res state A) : Prop :=
  match r1, r2 with
  | Ok a s, Ok a' s' => a = a' /\ (s = s' \/ stop a /\ seen s s')
  | Exc e s, Exc e' s' => e = e' /\ out s = out s' /\ fx s = fx s'
  | Ub, Ub => True
  | NoFuel, NoFuel => True
  | _, _ => False
  end.

(** The same, from every state of the input that is in order, which it stays. *)
Definition agrees {A} (stop : A -> Prop) (m1 m2 : M state A) : Prop :=
  forall s, input_ok s ->
    agree stop (m1 s) (m2 s) /\ forall a s', m1 s = Ok a s' -> ~ stop a -> input_ok s'.

Definition never {A} (a : A) : Prop := False.

Lemma agree_refl {A} (stop : A -> Prop) r : agree stop r r.
Proof. destruct r; cbn; auto. Qed.

Lemma agree_bind_same {A B} (stop : B -> Prop) (m : M state A) (k1 k2 : A -> M state B) s :
  (forall a s', m s = Ok a s' -> agree stop (k1 a s') (k2 a s')) ->
  agree stop ((m ≫= k1) s) ((m ≫= k2) s).
Proof. intros H. unfold mbind, M_bind. destruct (m s); [by apply H|by cbn|done..]. Qed.

Section Agree.
Context {A B : Type}.
Implicit Types (stop : A -> Prop).

Lemma agrees_same stop (m : M state A) :
  (forall s a s', input_ok s -> m s = Ok a s' -> ~ stop a -> input_ok s') -> agrees stop m m.
Proof. intros H s I. split; [apply agree_refl|]. intros a s' E Hs. by eapply H. Qed.

Lemma agrees_ret stop (a : A) : agrees stop (mret a) (mret a).
Proof. apply agrees_same. by intros s a' s' I [= <- <-] _. Qed.

(** After [m1] and [m2]: the callers go on in the same way, and on a value that
    stops, return it without looking at the state. *)
Lemma agrees_bind stop (stop' : B -> Prop) (m1 m2 : M state A) (k1 k2 : A -> M state B) :
  agrees stop m1 m2 ->
  (forall a, ~ stop a -> agrees stop' (k1 a) (k2 a)) ->
  (forall a, stop a -> exists b, stop' b /\ k1 a = mret b /\ k2 a = mret b) ->
  (forall a, stop a \/ ~ stop a) ->
  agrees stop' (m1 ≫= k1) (m2 ≫= k2).
Proof.
  intros Hm Hk Hs Hd s I. destruct (Hm s I) as [Ha Hi]. unfold mbind, M_bind.
  destruct (m1 s) as [a s1|e s1| |], (m2 s) as [a' s1'|e' s1'| |]; try done; cbn in Ha.
  destruct Ha as [<- Ha]. destruct (Hd a) as [Ht|Ht].
  - destruct (Hs a Ht) as (b & Hb & -> & ->). split.
    + split; [done|]. destruct Ha as [-> |[_ Ha]]; [by left|by right].
    + by intros b' s' [= <- <-].
  - destruct Ha as [-> |[? _]]; [|done]. apply (Hk a Ht). by eapply Hi.
Qed.
End Agree.

Lemma agrees_step {A B} (stop : B -> Prop) (m : M state A) (k1 k2 : A -> M state B) :
  (forall s a s', input_ok s -> m s = Ok a s' -> input_ok s') ->
  (forall a, agrees stop (k1 a) (k2 a)) -> agrees stop (m ≫= k1) (m ≫= k2).
Proof.
  intros Hm Hk. apply (agrees_bind never); [|intros a _; apply Hk|by intros a []|intros a; right; by intros []].
  apply agrees_same. intros. by eapply Hm.
Qed.

Lemma agrees_lift {A B} (stop : B -> Prop) (o : option A) (k1 k2 : A -> M state B) :
  (forall a, o = Some a -> agrees stop (k1 a) (k2 a)) -> agrees stop (lift o ≫= k1) (lift o ≫= k2).
Proof. intros H. destruct o as [a|]; [by apply H|by intros s I]. Qed.

(** ** The operations keep the input in order *)

Definition safe_in {A} (m : M state A) : Prop :=
  forall s a s', input_ok s -> m s = Ok a s' -> input_ok s'.

Lemma agrees_safe {A} (stop : A -> Prop) (m : M state A) : safe_in m -> agrees stop m m.
Proof. intros H. apply agrees_same. intros s a s' I E _. by eapply H. Qed.

Lemma safe_bind {A B} (m : M state A) (k : A -> M state B) :
  safe_in m -> (forall a, safe_in (k a)) -> safe_in (m ≫= k).
Proof.
  intros Hm Hk s b s' I. unfold mbind, M_bind. destruct (m s) as [a s1| | |] eqn:E; try done.
  intros E'. eapply Hk; [|exact E']. by eapply Hm.
Qed.

Lemma safe_ret {A} (a : A) : safe_in (mret a).
Proof. by intros s b s' I [= <- <-]. Qed.

Lemma safe_get : safe_in get.
Proof. by intros s b s' I [= <- <-]. Qed.

Lemma safe_lift {A} (o : option A) : safe_in (lift o).
Proof. destruct o; [apply safe_ret|by intros s b s' I]. Qed.

Lemma safe_throw {A} e : safe_in (@throw state A e).
Proof. by intros s b s' I. Qed.

Lemma safe_modify f : (forall s, input_ok s -> input_ok (f s)) -> safe_in (modify f).
Proof. intros H s b s' I [= <- <-]. by apply H. Qed.

Lemma safe_outcnt n : safe_in (modify (fun s => set_outcnt (outcnt s + n) s)).
Proof. apply safe_modify. by intros s []. Qed.

Lemma safe_store c : safe_in (store_out c).
Proof.
  apply safe_bind; [apply safe_get|]. intros s. destruct (out s); [|apply safe_ret].
  apply safe_bind; [apply safe_lift|]. intros o. apply safe_modify. by intros s' [].
Qed.

Lemma safe_bits need : 0 <= need <= 13 -> safe_in (bits need).
Proof.
  intros Hn s a s' I E. pose proof (bits_wp s need I Hn) as H. unfold wp in H. rewrite E in H. apply H.
Qed.

Lemma safe_copy_back len dist : safe_in (copy_back len dist).
Proof.
  induction len as [|len IH]; [apply safe_ret|]. cbn [copy_back].
  apply safe_bind; [apply safe_get|intros s]. apply safe_bind; [apply safe_lift|intros o].
  apply safe_bind; [apply safe_lift|intros b]. apply safe_bind; [apply safe_store|intros _].
  apply safe_bind; [apply safe_outcnt|intros _]. exact IH.
Qed.

Lemma safe_literal sym : safe_in (put_literal sym).
Proof.
  apply safe_bind; [apply safe_get|intros s]. destruct (out s).
  - destruct (_ =? _); [apply safe_ret|]. apply safe_bind; [apply safe_store|intros _].
    apply safe_bind; [apply safe_outcnt|intros _]. apply safe_ret.
  - apply safe_bind; [apply safe_outcnt|intros _]. apply safe_ret.
Qed.

Lemma safe_clens n index lengths : safe_in (read_clens n index lengths).
Proof.
  revert index lengths. induction n as [|n IH]; intros index lengths; [apply safe_ret|]. cbn [read_clens].
  apply safe_bind; [apply safe_lift|intros o]. apply safe_bind; [apply safe_bits; lia|intros b].
  apply safe_bind; [apply safe_lift|intros l]. apply IH.
Qed.

(** ** The two versions of [decode] *)

(** A state is its unread bits and what [frame] keeps. *)
Lemma state_eq s0 s1 s2 :
  frame s0 s1 -> frame s0 s2 -> input_ok s1 -> input_ok s2 -> sbits s1 = sbits s2 -> s1 = s2.
Proof.
  intros F1 F2 I1 I2 E.
  assert (Ei : incnt s1 = incnt s2).
  { rewrite (incnt_sbits s1 I1), (incnt_sbits s2 I2), E.
    destruct F1 as (_ & _ & _ & _ & -> & _), F2 as (_ & _ & _ & _ & -> & _). done. }
  assert (Ec : bitcnt s1 = bitcnt s2).
  { pose proof (sbits_length s1 I1) as H1. pose proof (sbits_length s2 I2) as H2. rewrite E in H1.
    destruct F1 as (_ & _ & _ & _ & E1 & _), F2 as (_ & _ & _ & _ & E2 & _). rewrite E1 in H1. rewrite E2 in H2. lia. }
  assert (Eb : bitbuf s1 = bitbuf s2).
  { unfold sbits in E. rewrite Ec in E. apply app_inj_1 in E as [E _]; [|by rewrite !length_z_bits].
    apply (f_equal bits_z) in E. destruct I1 as [_ _ _ Hc1 Hb1], I2 as [_ _ _ Hc2 Hb2]. rewrite Ec in Hb1.
    by rewrite !bits_z_z_bits_small in E by (rewrite Z2Nat.id by lia; lia). }
  destruct F1 as (? & ? & ? & ? & ? & ?), F2 as (? & ? & ? & ? & ? & ?).
  destruct s1, s2; cbn in *. congruence.
Qed.

Definition negative (v : Z) : Prop := v < 0.

Section Two.
Context (d1 d2 : huffman -> M state Z) {D1 : Decoder d1} {D2 : Decoder d2}.

Lemma decode_agrees h : agrees negative (d1 h) (d2 h).
Proof.
  intros s I. pose proof (D1 h s I) as H1. pose proof (D2 h s I) as H2.
  destruct (hwalk h 15 1 0 0 0 (sbits s)) as [sym rest|rest| |]; cbn [decodes] in H1, H2.
  - destruct H1 as (s1 & -> & I1 & F1 & S1), H2 as (s2 & -> & I2 & F2 & S2).
    assert (s1 = s2) as -> by (apply (state_eq s); congruence).
    split; [by split; [|left]|]. by intros a s' [= <- <-].
  - destruct H1 as (s1 & -> & I1 & F1 & S1), H2 as (s2 & -> & I2 & F2 & S2).
    split; [|intros a s' [= <- <-] _; exact I1]. split; [done|]. right. split; [done|].
    destruct F1 as (? & ? & ? & ? & ? & ?), F2 as (? & ? & ? & ? & ? & ?). unfold seen. intuition congruence.
  - destruct H1 as (s1 & -> & F1), H2 as (s2 & -> & F2). split; [|done].
    destruct F1 as (? & ? & ? & ? & ? & ?), F2 as (? & ? & ? & ? & ? & ?). split; [done|]. intuition congruence.
  - by rewrite H1, H2.
Qed.

Lemma negative_dec v : negative v \/ ~ negative v.
Proof. unfold negative. lia. Qed.

(** After a call of [decode], the caller returns a negative symbol, wrapped or
    not, and goes on with another. *)
Lemma decode_then {B} (stop : B -> Prop) h (wr : Z -> B) (k1 k2 : Z -> M state B) :
  (forall v, v < 0 -> stop (wr v)) -> (forall v, 0 <= v -> agrees stop (k1 v) (k2 v)) ->
  agrees stop (sym ← d1 h; if sym <? 0 then mret (wr sym) else k1 sym)
              (sym ← d2 h; if sym <? 0 then mret (wr sym) else k2 sym).
Proof.
  intros Hw Hk. apply (agrees_bind negative); [apply decode_agrees| | |apply negative_dec].
  - intros v Hv. unfold negative in Hv. destruct (Z.ltb_spec v 0); [lia|]. apply Hk. lia.
  - intros v Hv. unfold negative in Hv. destruct (Z.ltb_spec v 0); [|lia]. exists (wr v). split; [|done].
    apply Hw. lia.
Qed.

Definition early (r : Z + Z) : Prop := match r with inl e => e <> 0 | inr _ => False end.
Definition failed (r : Z) : Prop := r <> 0.

Lemma put_match_agrees dh sym : 257 <= sym ->
  agrees early (put_match d1 dh sym) (put_match d2 dh sym).
Proof.
  intros Hsym. unfold put_match. destruct (Z.geb_spec (sym - 257) 29) as [H|H]; [apply agrees_ret|].
  destruct (lens_table (sym - 257)) as (_ & E2 & Hx); [lia|].
  apply agrees_lift; intros base _. apply agrees_lift; intros ext E. rewrite E2 in E. injection E as <-.
  apply agrees_step; [apply safe_bits; lia|intros b].
  apply (decode_then early dh inl); [cbn; lia|]. intros j Hj.
  apply agrees_lift; intros dbase Eb. apply agrees_lift; intros dext0 Ee.
  assert (Hj30 : j < 30) by (apply aget_Some_lt in Eb; exact (proj2 Eb)).
  destruct (dist_table j) as (_ & E4 & Hy & _); [lia|]. rewrite E4 in Ee. injection Ee as <-.
  apply agrees_step; [apply safe_bits; lia|intros f].
  apply agrees_safe.
  apply safe_bind; [apply safe_get|intros s1].
  destruct (_ >? _); [apply safe_ret|]. destruct (out s1).
  - destruct (_ >? _); [apply safe_ret|]. apply safe_bind; [apply safe_copy_back|intros _; apply safe_ret].
  - apply safe_bind; [apply safe_outcnt|intros _; apply safe_ret].
Qed.

Lemma early_dec r : early r \/ ~ early r.
Proof. destruct r as [e|j]; cbn; [lia|tauto]. Qed.

Lemma codes_loop_agrees fuel lh dh :
  agrees failed (codes_loop d1 fuel lh dh) (codes_loop d2 fuel lh dh).
Proof.
  induction fuel as [|fuel IH]; [by intros s I|]. cbn [codes_loop].
  apply (decode_then failed lh id); [unfold failed, id; lia|]. intros sym Hs.
  apply (agrees_bind early); [| | |apply early_dec].
  - destruct (Z.ltb_spec sym 256); [apply agrees_safe, safe_literal|].
    destruct (Z.gtb_spec sym 256); [apply put_match_agrees; lia|apply agrees_ret].
  - intros [e|j] _; [apply agrees_ret|]. destruct (j =? 256); [apply agrees_ret|done].
  - intros [e|j]; [|done]. intros He. by exists e.
Qed.

Lemma codes_agrees lh dh : agrees failed (codes d1 lh dh) (codes d2 lh dh).
Proof. apply agrees_step; [apply safe_get|]. intros s. apply codes_loop_agrees. Qed.

Lemma fixed_agrees : agrees failed (fixed d1) (fixed d2).
Proof.
  apply agrees_step; [apply safe_get|]. intros s. apply agrees_step.
  - destruct (ztrue _); [|apply safe_ret]. apply safe_bind; [apply safe_lift|intros f].
    apply safe_modify. by intros s' [].
  - intros _. apply agrees_step; [apply safe_get|]. intros s'. apply codes_agrees.
Qed.

Definition early_l (r : Z + list (option Z)) : Prop := match r with inl e => e <> 0 | inr _ => False end.

Lemma early_l_dec r : early_l r \/ ~ early_l r.
Proof. destruct r as [e|j]; cbn; [lia|tauto]. Qed.

(** The repeat count of symbols 16 to 18. *)
Lemma safe_repeat index sym lengths :
  safe_in (A := Z + Z * Z)
    (if sym =? 16 then
       if index =? 0 then mret (inl (-5))
       else len ← lift (rd lengths (index - 1)); b ← bits 2; mret (inr (len, 3 + b))
     else if sym =? 17 then b ← bits 3; mret (inr (0, 3 + b))
     else b ← bits 7; mret (inr (0, 11 + b))).
Proof.
  destruct (sym =? 16); [destruct (index =? 0); [apply safe_ret|]|destruct (sym =? 17)];
    repeat first [apply safe_ret | apply safe_lift | apply safe_bits; lia | apply safe_bind; [|intros ?]].
Qed.

Lemma read_lengths_agrees fuel h total index lengths :
  agrees early_l (read_lengths d1 fuel h total index lengths) (read_lengths d2 fuel h total index lengths).
Proof.
  revert index lengths. induction fuel as [|fuel IH]; intros index lengths; [by intros s I|]. cbn [read_lengths].
  destruct (index <? total); [|apply agrees_ret].
  apply (decode_then early_l h inl); [cbn; lia|]. intros sym Hs. destruct (sym <? 16).
  - apply agrees_lift. intros l _. apply IH.
  - apply agrees_step; [apply safe_repeat|]. intros [e|[len rep]]; [apply agrees_ret|].
    destruct (_ >? _); [apply agrees_ret|]. apply agrees_lift. intros l _. apply IH.
Qed.

Lemma dynamic_codes_agrees lh dh nlen ndist lengths :
  agrees failed (dynamic_codes d1 lh dh nlen ndist lengths) (dynamic_codes d2 lh dh nlen ndist lengths).
Proof.
  apply agrees_lift; intros eob _. destruct (eob =? 0); [apply agrees_ret|].
  apply agrees_lift; intros [e1 h1] _. apply agrees_lift; intros [] _; [apply agrees_ret|].
  apply agrees_lift; intros [e2 h2] _. apply agrees_lift; intros [] _; [apply agrees_ret|]. apply codes_agrees.
Qed.

Lemma dynamic_agrees : agrees failed (dynamic d1) (dynamic d2).
Proof.
  unfold dynamic. apply agrees_step; [apply safe_bits; lia|intros b1].
  apply agrees_step; [apply safe_bits; lia|intros b2]. apply agrees_step; [apply safe_bits; lia|intros b3].
  destruct (_ || _); [apply agrees_ret|]. apply agrees_step; [apply safe_clens|intros l].
  apply agrees_lift; intros l' _. apply agrees_lift; intros [e h] _. destruct (negb (e =? 0)); [apply agrees_ret|].
  apply (agrees_bind early_l); [apply read_lengths_agrees| | |apply early_l_dec].
  - intros [e'|l2] _; [apply agrees_ret|apply dynamic_codes_agrees].
  - intros [e'|l2] He; [by exists e'|done].
Qed.

Lemma any_block_agrees ty s : input_ok s -> agree failed (any_block d1 ty s) (any_block d2 ty s).
Proof.
  intros I. unfold any_block. destruct (ty =? 0); [apply agree_refl|].
  destruct (ty =? 1); [by apply fixed_agrees|]. destruct (ty =? 2); [by apply dynamic_agrees|apply agree_refl].
Qed.

Lemma puff_loop_agrees fuel g s :
  between g s -> agree failed (puff_loop d1 fuel s) (puff_loop d2 fuel s).
Proof.
  revert g s. induction fuel as [|fuel IH]; intros g s B; [done|]. rewrite !puff_loop_S.
  pose proof (bits_wp s 1 (bw_in _ _ B) ltac:(lia)) as H1. unfold wp in H1.
  apply agree_bind_same. intros last s1 E1. rewrite E1 in H1. destruct H1 as (I1 & F1 & _ & _).
  pose proof (bits_wp s1 2 I1 ltac:(lia)) as H2. unfold wp in H2.
  apply agree_bind_same. intros ty s2 E2. rewrite E2 in H2. destruct H2 as (I2 & F2 & Hty & _).
  assert (F : frame s s2) by (by etrans). pose proof (between_frame _ _ _ B F I2) as B2.
  pose proof (any_block_agrees ty s2 I2) as Ha. pose proof (any_block_ran d1 ty g s2 B2 Hty) as Hw.
  unfold wp in Hw. unfold mbind, M_bind.
  destruct (any_block d1 ty s2) as [r s3|e s3| |], (any_block d2 ty s2) as [r' s3'|e' s3'| |]; try done.
  destruct Ha as [<- Ha]. destruct Hw as [(_ & _ & g3 & B3 & _) _].
  destruct (Z.eqb_spec r 0) as [-> |Hne]; cbn [negb]; [|by split].
  destruct Ha as [<- |[? _]]; [|done]. destruct (ztrue last); [by split; [|left]|]. by apply (IH g3).
Qed.

Lemma puff_agrees dest destlen source sourcelen f :
  call_ok dest destlen source sourcelen f ->
  puff d1 dest destlen source sourcelen f = puff d2 dest destlen source sourcelen f.
Proof.
  intros C. pose proof (puff_loop_agrees (S (Z.to_nat (8 * sourcelen))) [] _ (start_between _ _ _ _ _ C)) as H.
  unfold puff_start in H. unfold puff. cbv zeta. revert H.
  destruct (puff_loop d1 _ _) as [r s|e s| |], (puff_loop d2 _ _) as [r' s'|e' s'| |]; try done; cbn.
  - intros [<- [<- |[_ (-> & -> & -> & ->)]]]; done.
  - by intros (_ & -> & ->).
Qed.
End Two.
