(* ===== verification/PuffProps.v ===== *)
(** * The theorems on contrib/puff

    What the functions of puff.c promise to their callers, from the lemmas of
    the other [Puff] files.  A theorem with a parameter [decode] holds for both
    versions of the source, by the interface [Decoder]. *)
From stdpp Require Import base numbers list.
From Stdlib Require Import ZArith Lia Bool.
From S2P Require Import Prelude Huffman Deflate Puff PuffFacts PuffTables PuffCodes PuffDynamic PuffTop.
From S2P Require Import PuffEquiv.

(** ** Inputs for the witnesses *)

(** "a", compressed with the fixed codes. *)
Definition fixed_a : list Z := [75; 4; 0].

Lemma call_ok_a dest : dest = None \/ dest = Some [0; 0] -> call_ok dest 2 fixed_a 3 statics_init.
Proof.
  intros Hd. constructor; [by cbn|by repeat constructor| |apply fx_ok_init].
  by destruct Hd as [-> | ->].
Qed.

Lemma fixed_a_coded : coded fixed_ll fixed_dl [Lit 97] ([true; false; false; true; false; false; false; true] ++ replicate 7 false).
Proof. constructor; [done|by vm_compute|constructor; by vm_compute]. Qed.

Lemma fixed_a_stream : stream [] (source_bits fixed_a 3) [97] (replicate 6 false).
Proof.
  pose proof (block_fixed [] [Lit 97] _ [97] (replicate 6 false) fixed_a_coded eq_refl) as H.
  exact (stream_last 1 [] _ [97] _ ltac:(done) H).
Qed.

Definition puff_statics (r : outcome) : statics :=
  match r with Returns _ _ _ _ f => f | _ => statics_init end.

(** ** The theorems *)

(** C17: whatever the bytes of the source and the size of the buffer, [puff]
    returns: no array access is out of bounds or to a cell without a value, and
    no loop runs for ever.  The result is one of the documented codes, the
    buffer keeps its size, the static tables stay valid for the next call; the
    counts stay within the limits and are left alone on a positive code. *)
Theorem puff_safe (decode : huffman -> M state Z) (D : Decoder decode) dest destlen source sourcelen f :
  call_ok dest destlen source sourcelen f ->
  exists err dl sl d f', puff decode dest destlen source sourcelen f = Returns err dl sl d f' /\
    -11 <= err <= 2 /\ option_map length d = option_map length dest /\ fx_ok f' /\
    (0 < err -> dl = destlen /\ sl = sourcelen) /\
    (err <= 0 -> 0 <= dl /\ (dest <> None -> dl <= destlen) /\ 0 <= sl <= sourcelen).
Proof.
  intros C. destruct (puff_total decode dest destlen source sourcelen f C)
    as (err & dl & sl & d & f' & E & Hr & Hd & Hf & Hp & Hn & _).
  by exists err, dl, sl, d, f'.
Qed.

Lemma puff_safe_witness :
  exists err dl sl d f', puff decode_fast (Some [0; 0]) 2 fixed_a 3 statics_init = Returns err dl sl d f' /\
    -11 <= err <= 2 /\ option_map length d = option_map length (Some [0; 0]) /\ fx_ok f' /\
    (0 < err -> dl = 2 /\ sl = 3) /\
    (err <= 0 -> 0 <= dl /\ (Some [0; 0] <> None -> dl <= 2) /\ 0 <= sl <= 3).
Proof. apply (puff_safe decode_fast decode_fast_decoder), call_ok_a. by right. Defined.

(** C14: when [puff] returns 0, the source begins with a stream of the deflate
    format; [*destlen] is the number of bytes it expands to, the bytes are in the
    buffer, and [*sourcelen] is the number of bytes the stream takes. *)
Theorem puff_sound (decode : huffman -> M state Z) (D : Decoder decode)
    dest destlen source sourcelen f dl sl d f' :
  call_ok dest destlen source sourcelen f ->
  puff decode dest destlen source sourcelen f = Returns 0 dl sl d f' ->
  exists g rest, stream [] (source_bits source sourcelen) g rest /\
    dl = Z.of_nat (length g) /\ sl = sourcelen - Z.of_nat (length rest) / 8 /\ dest_holds g dest d.
Proof.
  intros C E. destruct (puff_total decode dest destlen source sourcelen f C)
    as (err & dl' & sl' & d' & f2 & E' & _ & _ & _ & _ & _ & H).
  rewrite E in E'. injection E' as <- <- <- <- <-. by apply H.
Qed.

Lemma puff_sound_witness :
  exists g rest, stream [] (source_bits fixed_a 3) g rest /\
    1 = Z.of_nat (length g) /\ 3 = 3 - Z.of_nat (length rest) / 8 /\
    dest_holds g (Some [0; 0]) (Some [97; 0]).
Proof.
  apply (puff_sound decode_slow decode_slow_decoder (Some [0; 0]) 2 fixed_a 3 statics_init 1 3 (Some [97; 0])
           (puff_statics (puff decode_slow (Some [0; 0]) 2 fixed_a 3 statics_init))).
  - apply call_ok_a. by right.
  - vm_compute. reflexivity.
Defined.

(** C13: every stream of the deflate format whose bytes fit the buffer is
    accepted: [puff] returns 0 with the number of bytes the stream expands to, the
    bytes in the buffer, and the number of bytes of the source it took. *)
Theorem puff_complete (decode : huffman -> M state Z) (D : Decoder decode)
    dest destlen source sourcelen f g rest :
  call_ok dest destlen source sourcelen f ->
  stream [] (source_bits source sourcelen) g rest -> dest_fits g dest destlen ->
  exists d f', puff decode dest destlen source sourcelen f =
      Returns 0 (Z.of_nat (length g)) (sourcelen - Z.of_nat (length rest) / 8) d f' /\
    fx_ok f' /\ dest_holds g dest d.
Proof. intros C. by apply puff_accepts. Qed.

Lemma puff_complete_witness :
  exists d f', puff decode_fast (Some [0; 0]) 2 fixed_a 3 statics_init =
      Returns 0 1 3 d f' /\ fx_ok f' /\ dest_holds [97] (Some [0; 0]) d.
Proof.
  apply (puff_complete decode_fast decode_fast_decoder (Some [0; 0]) 2 fixed_a 3 statics_init [97] (replicate 6 false)).
  - apply call_ok_a. by right.
  - apply fixed_a_stream.
  - by right.
Defined.

(** C18: the version of [decode] with the bit buffer in a local variable and the
    version for SLOW give the same [puff]: the same code, counts, buffer and
    static variables, on every call, valid stream or not. *)
Theorem puff_fast_slow dest destlen source sourcelen f :
  call_ok dest destlen source sourcelen f ->
  puff decode_fast dest destlen source sourcelen f = puff decode_slow dest destlen source sourcelen f.
Proof. apply (puff_agrees decode_fast decode_slow). Qed.

Lemma puff_fast_slow_witness :
  puff decode_fast None 2 fixed_a 3 statics_init = puff decode_slow None 2 fixed_a 3 statics_init.
Proof. apply puff_fast_slow, call_ok_a. by left. Defined.



(** C24: a successful [puff] writes at most 1032 bytes for each byte it takes
    from the source, which bounds the buffer a caller has to provide and keeps
    the counters within the range of their type. *)
Theorem puff_bound (decode : huffman -> M state Z) (D : Decoder decode)
    dest destlen source sourcelen f dl sl d f' :
  call_ok dest destlen source sourcelen f ->
  puff decode dest destlen source sourcelen f = Returns 0 dl sl d f' -> dl <= 1032 * sl.
Proof.
  intros C E. destruct (puff_total decode dest destlen source sourcelen f C)
    as (err & dl' & sl' & d' & f2 & E' & _ & _ & _ & _ & _ & H).
  rewrite E in E'. injection E' as <- <- <- <- <-. destruct (H eq_refl) as (g & rest & Hs & -> & -> & _).
  apply stream_bound_bits in Hs. cbn [length] in Hs. pose proof (start_bits dest destlen source sourcelen f) as Hb.
  pose proof (sbits_length _ (bw_in _ _ (start_between _ _ _ _ _ C))) as Hl. rewrite Hb in Hl. cbn in Hl.
  Z.div_mod_to_equations. lia.
Qed.

Lemma puff_bound_witness : 1 <= 1032 * 3.
Proof.
  apply (puff_bound decode_slow decode_slow_decoder (Some [0; 0]) 2 fixed_a 3 statics_init 1 3 (Some [97; 0])
           (puff_statics (puff decode_slow (Some [0; 0]) 2 fixed_a 3 statics_init))).
  - apply call_ok_a. by right.
  - vm_compute. reflexivity.
Defined.




