(* ===== verification/Runw.v ===== *)
(** * The WebAssembly server (utilities/runw/runw_web.c)

    [main] with its loop over connections, over an environment that answers the
    system calls: the answers are a list, consumed in order, and the run blocks
    when they are used up.  An answer that the interface of the call excludes (a
    descriptor already open, a pointer in use) ends the run with [BADENV], so the
    theorems hold for every list of answers.

    The state holds the resources of the process: descriptors, virtual machines,
    configurations and buffers.  Each call is checked against the protocol of its
    interface by [use]; a violation (a second close, a run of a deleted machine, a
    write past a buffer) is [Ub].

    WasmEdge, the C library's conversion of doubles, and binary floating point
    are parameters.  The addresses that accept and getsockname fill in are not
    looked at by the program and are left out, as is the number in argv[3], which
    only names the namespace file. *)
From stdpp Require Import base numbers list gmap pretty.
From Stdlib Require Import ZArith Lia Bool String.
From S2P Require Import Prelude.

#[local] Open Scope string_scope.
#[local] Open Scope Z_scope.

(** Binary floating point, as the program uses it. *)
Class Double := {
  double : Type;
  of_int : Z -> double;
  dadd : double -> double -> double;
  dmul : double -> double -> double;
  ddiv : double -> double -> double;
  to_int : double -> Z;
  print_f : double -> string }.

(** ** Resources *)

(** A virtual machine is created, given its WASI module, run. *)
Inductive vmstate := Created | Ready | Ran.

#[export] Instance vmstate_eq_dec : EqDecision vmstate.
Proof. solve_decision. Defined.

Inductive event :=
| Open (fd : Z)
| Close (fd : Z)
| Send (fd : Z) (msg : string)
| ConfCreate (c : Z)
| ConfDelete (c : Z)
| VMCreate (v c : Z)
| VMInit (v : Z)
| VMRun (v : Z) (path : string)
| VMDelete (v : Z)
| Malloc (p size : Z)
| Write (p : Z) (msg : string)
| Free (p : Z).

Record resources := Resources {
  fds : gset Z;
  confs : gset Z;
  vms : gmap Z vmstate;
  bufs : gmap Z Z }.

Definition no_resources : resources := Resources ∅ ∅ ∅ ∅.

(** The resources after a call, [None] when the protocol forbids it.  A machine
    runs once, after its initialisation; a string needs a byte for its end. *)
Definition use (r : resources) (e : event) : option resources :=
  match e with
  | Open fd => if decide (fd ∈ fds r) then None
               else Some (Resources ({[fd]} ∪ fds r) (confs r) (vms r) (bufs r))
  | Close fd => if decide (fd ∈ fds r)
                then Some (Resources (fds r ∖ {[fd]}) (confs r) (vms r) (bufs r)) else None
  | Send fd _ => if decide (fd ∈ fds r) then Some r else None
  | ConfCreate c => if decide (c ∈ confs r) then None
                    else Some (Resources (fds r) ({[c]} ∪ confs r) (vms r) (bufs r))
  | ConfDelete c => if decide (c ∈ confs r)
                    then Some (Resources (fds r) (confs r ∖ {[c]}) (vms r) (bufs r)) else None
  | VMCreate v c => if decide (c ∈ confs r /\ vms r !! v = None)
                    then Some (Resources (fds r) (confs r) (<[v := Created]> (vms r)) (bufs r)) else None
  | VMInit v => if decide (vms r !! v = Some Created)
                then Some (Resources (fds r) (confs r) (<[v := Ready]> (vms r)) (bufs r)) else None
  | VMRun v _ => if decide (vms r !! v = Some Ready)
                 then Some (Resources (fds r) (confs r) (<[v := Ran]> (vms r)) (bufs r)) else None
  | VMDelete v => if decide (is_Some (vms r !! v))
                  then Some (Resources (fds r) (confs r) (delete v (vms r)) (bufs r)) else None
  | Malloc p size => if decide (bufs r !! p = None)
                     then Some (Resources (fds r) (confs r) (vms r) (<[p := size]> (bufs r))) else None
  | Write p msg => size ← bufs r !! p; if Z.of_nat (String.length msg) <? size then Some r else None
  | Free p => if decide (is_Some (bufs r !! p))
              then Some (Resources (fds r) (confs r) (vms r) (delete p (bufs r))) else None
  end.

Section Server.
Context `{Double}.
(** Whether malloc may fail. *)
Context (oom : bool).

(** The variables of the file, the answers to come, the calls made so far. *)
Record server := Server {
  answers : list Z;
  owned : resources;
  trace : list event;
  VMCxt : Z;
  ConfCxt : Z;
  netns_elapsed : double;
  webserver_elapsed : double;
  loadwasm_elapsed : double;
  execwasm_elapsed : double;
  execwasm_msec : Z;
  runw_setup_msec : Z }.

Definition set_answers l s := Server l (owned s) (trace s) (VMCxt s) (ConfCxt s) (netns_elapsed s)
  (webserver_elapsed s) (loadwasm_elapsed s) (execwasm_elapsed s) (execwasm_msec s) (runw_setup_msec s).
Definition set_owned r t s := Server (answers s) r t (VMCxt s) (ConfCxt s) (netns_elapsed s)
  (webserver_elapsed s) (loadwasm_elapsed s) (execwasm_elapsed s) (execwasm_msec s) (runw_setup_msec s).
Definition set_VMCxt v s := Server (answers s) (owned s) (trace s) v (ConfCxt s) (netns_elapsed s)
  (webserver_elapsed s) (loadwasm_elapsed s) (execwasm_elapsed s) (execwasm_msec s) (runw_setup_msec s).
Definition set_ConfCxt c s := Server (answers s) (owned s) (trace s) (VMCxt s) c (netns_elapsed s)
  (webserver_elapsed s) (loadwasm_elapsed s) (execwasm_elapsed s) (execwasm_msec s) (runw_setup_msec s).
Definition set_netns d s := Server (answers s) (owned s) (trace s) (VMCxt s) (ConfCxt s) d
  (webserver_elapsed s) (loadwasm_elapsed s) (execwasm_elapsed s) (execwasm_msec s) (runw_setup_msec s).
Definition set_webserver d s := Server (answers s) (owned s) (trace s) (VMCxt s) (ConfCxt s) (netns_elapsed s)
  d (loadwasm_elapsed s) (execwasm_elapsed s) (execwasm_msec s) (runw_setup_msec s).
Definition set_loadwasm d s := Server (answers s) (owned s) (trace s) (VMCxt s) (ConfCxt s) (netns_elapsed s)
  (webserver_elapsed s) d (execwasm_elapsed s) (execwasm_msec s) (runw_setup_msec s).
Definition set_execwasm d m s := Server (answers s) (owned s) (trace s) (VMCxt s) (ConfCxt s) (netns_elapsed s)
  (webserver_elapsed s) (loadwasm_elapsed s) d m (runw_setup_msec s).
Definition set_runw_setup m s := Server (answers s) (owned s) (trace s) (VMCxt s) (ConfCxt s) (netns_elapsed s)
  (webserver_elapsed s) (loadwasm_elapsed s) (execwasm_elapsed s) (execwasm_msec s) m.

(** ** Calls *)

(** How a run ends: waiting for the environment, an answer that cannot be, or
    the exit status of the process. *)
Definition BLOCKED : Z := 1000.
Definition BADENV : Z := 1001.
Definition EXIT_FAILURE : Z := 1.
Definition SIGPIPE_STATUS : Z := 141.

Definition ask : M server Z :=
  s ← get;
  match answers s with
  | [] => throw BLOCKED
  | a :: l => modify (set_answers l);; mret a
  end.

(** An answer that the interface allows. *)
Definition expect (ok : Z -> bool) : M server Z :=
  a ← ask; if ok a then mret a else throw BADENV.

Definition emit (e : event) : M server unit :=
  s ← get; r ← lift (use (owned s) e); modify (set_owned r (trace s ++ [e])).

(** A call that returns a new descriptor or -1. *)
Definition new_fd : M server Z :=
  s ← get;
  fd ← expect (fun a => (a =? -1) || ((0 <=? a) && negb (bool_decide (a ∈ fds (owned s)))));
  (if fd =? -1 then mret tt else emit (Open fd));; mret fd.

(** The answer of [send]: the number of bytes, -1, or -2 when the peer has
    closed the connection and SIGPIPE, which the program leaves at its default
    action, ends the process. *)
Definition send_call (rsz : Z) : M server unit :=
  n ← expect (fun a => (-2 <=? a) && (a <=? rsz)); if n =? -2 then throw SIGPIPE_STATUS else mret tt.

(** 0 on success, -1 on failure. *)
Definition status_call : M server Z := expect (fun a => (a =? 0) || (a =? -1)).

(** [clock_gettime]: seconds and nanoseconds. *)
Definition clock_gettime : M server (Z * Z) := sec ← ask; nsec ← ask; mret (sec, nsec).

(** The microseconds between two times. *)
Definition microseconds (start fin : Z * Z) : double :=
  dadd (dmul (of_int (fst fin - fst start)) (of_int 1000000))
       (ddiv (of_int (snd fin - snd start)) (of_int 1000)).

(** ** WasmVMInit *)

Definition WasmVMInit : M server Z :=
  start ← clock_gettime;
  s ← get;
  v ← expect (fun a => (0 <=? a) && bool_decide (vms (owned s) !! a = None));
  (if v =? 0 then emit (ConfDelete (ConfCxt s));; throw EXIT_FAILURE
   else emit (VMCreate v (ConfCxt s));; modify (set_VMCxt v));;
  wasi ← ask;
  (if wasi =? 0 then emit (VMDelete v);; emit (ConfDelete (ConfCxt s));; throw EXIT_FAILURE
   else emit (VMInit v));;
  fin ← clock_gettime;
  modify (set_loadwasm (microseconds start fin));;
  mret 0.

(** ** The responses *)

Definition crlf : string := String (Ascii.ascii_of_nat 13) (String (Ascii.ascii_of_nat 10) EmptyString).

Definition header_lines : string :=
  "HTTP/1.1 200 OK" ++ crlf ++ "Server: runw" ++ crlf ++ "Content-type: text/plain" ++ crlf.

Definition success_response (s : server) (wasm_cleanup : double) : string :=
  header_lines ++ "Invocation-elapsed: " ++ pretty (execwasm_msec s) ++ crlf ++
  "runw-setup: " ++ pretty (runw_setup_msec s) ++ crlf ++
  "Misc-stats: " ++ print_f (netns_elapsed s) ++ "," ++ print_f (webserver_elapsed s) ++ "," ++
  print_f (loadwasm_elapsed s) ++ "," ++ print_f wasm_cleanup ++ crlf ++ crlf ++ "Success" ++ crlf.

Definition failure_response : string := header_lines ++ crlf ++ "Failure" ++ crlf.

(** [rsz = snprintf(NULL, 0, ...); resp = malloc(rsz + 1); sprintf(resp, ...)]:
    a null pointer is not checked for. *)
Definition make_response (msg : string) : M server Z :=
  let rsz := Z.of_nat (String.length msg) in
  s ← get;
  p ← expect (fun a => (if oom then 0 <=? a else 0 <? a) && bool_decide (bufs (owned s) !! a = None));
  (if p =? 0 then mret tt else emit (Malloc p (rsz + 1)));;
  emit (Write p msg);;
  mret p.

(** ** The loop *)

(** One turn of [while (1)]. *)
Definition turn (sockfd : Z) (wasm : string) : M server unit :=
  newsockfd ← new_fd;
  if newsockfd <? 0 then mret tt else
  sockn ← status_call;
  if sockn <? 0 then mret tt else
  start ← clock_gettime;
  s ← get;
  emit (VMRun (VMCxt s) wasm);;
  res ← ask;
  fin ← clock_gettime;
  let elapsed := ddiv (microseconds start fin) (of_int 1000) in
  modify (set_execwasm elapsed (to_int elapsed));;
  start ← clock_gettime;
  emit (VMDelete (VMCxt s));;
  fin ← clock_gettime;
  let wasm_cleanup := microseconds start fin in
  s ← get;
  let msg := if ztrue res then success_response s wasm_cleanup else failure_response in
  resp ← make_response msg;
  emit (Send newsockfd msg);;
  send_call (Z.of_nat (String.length msg));;
  emit (Free resp);;
  emit (Close newsockfd);;
  _ ← WasmVMInit;
  mret tt.

Fixpoint serve (fuel : nat) (sockfd : Z) (wasm : string) : M server unit :=
  match fuel with
  | O => nofuel
  | S fuel => turn sockfd wasm;; serve fuel sockfd wasm
  end.

(** The set-up of [main]: the network namespace, the configuration, the
    listening socket, the first machine.  [inl status]: [main] returns. *)
Definition setup : M server (Z + Z) :=
  setup_start ← clock_gettime;
  start ← clock_gettime;
  net_ns ← new_fd;
  status ← expect (fun a => ((a =? 0) && (0 <=? net_ns)) || (a =? -1));
  (if negb (status =? 0) then throw 255 else emit (Close net_ns));;
  fin ← clock_gettime;
  modify (set_netns (microseconds start fin));;
  s ← get;
  conf ← expect (fun a => (0 <=? a) && negb (bool_decide (a ∈ confs (owned s))));
  (if conf =? 0 then throw EXIT_FAILURE else emit (ConfCreate conf);; modify (set_ConfCxt conf));;
  start ← clock_gettime;
  sockfd ← new_fd;
  if sockfd =? -1 then mret (inl 1) else
  r ← status_call;
  if r <? 0 then mret (inl 1) else
  r ← status_call;
  if r <? 0 then mret (inl 1) else
  r ← status_call;
  if negb (r =? 0) then mret (inl 1) else
  r ← status_call;
  if negb (r =? 0) then mret (inl 1) else
  fin ← clock_gettime;
  modify (set_webserver (microseconds start fin));;
  _ ← WasmVMInit;
  setup_end ← clock_gettime;
  let msec := to_int (ddiv (microseconds setup_start setup_end) (of_int 1000)) in
  modify (set_runw_setup (if msec <? 1 then 1 else msec));;
  mret (inr sockfd).

(** Each turn waits for an answer, so one turn more than there are answers never
    ends. *)
Definition main (argv : list string) : M server Z :=
  wasm ← lift (argv !! 1%nat);
  _ ← lift (argv !! 3%nat);
  r ← setup;
  match r with
  | inl status => mret status
  | inr sockfd => s ← get; serve (S (Datatypes.length (answers s))) sockfd wasm;; mret 0
  end.

Definition server_init (l : list Z) : server :=
  Server l no_resources [] 0 0 (of_int 0) (of_int 0) (of_int 0) (of_int 0) 0 0.
End Server.
