(* ===== verification/RunwFacts.v ===== *)
(** * The server keeps the protocol of its resources

    Every call of [main], whatever the environment answers, respects the
    protocol of [use]; the resources at the head of the loop; what one turn does. *)
From stdpp Require Import base numbers list gmap pretty.
From Stdlib Require Import ZArith Lia Bool String.
From S2P Require Import Prelude Runw.

#[local] Open Scope Z_scope.

Section Facts.
Context `{Double}.

(** How a run may end. *)
Definition run_end (e : Z) : Prop := e ∈ [BLOCKED; BADENV; EXIT_FAILURE; 255; SIGPIPE_STATUS].

(** The rest of a state, apart from the answers and the resources. *)
Definition ends (e : Z) (s : server) : Prop := run_end e.

Lemma expect_wp ok Q s :
  (forall a l, answers s = a :: l -> ok a = true -> Q a (set_answers l s)) -> wp (expect ok) Q ends s.
Proof.
  intros HQ. unfold expect, ask. apply wp_bind. unfold wp, mbind, M_bind, get.
  destruct (answers s) as [|a l] eqn:E; cbn.
  - unfold ends, run_end. set_solver.
  - destruct (ok a) eqn:Eo; cbn; [by apply HQ|unfold ends, run_end; set_solver].
Qed.

Lemma ask_wp Q s : (forall a l, answers s = a :: l -> Q a (set_answers l s)) -> wp ask Q ends s.
Proof.
  intros HQ. unfold ask, wp, mbind, M_bind, get.
  destruct (answers s) as [|a l] eqn:E; cbn; [unfold ends, run_end; set_solver|by apply HQ].
Qed.

Lemma throw_wp {A} e (Q : A -> server -> Prop) s : run_end e -> wp (throw e) Q ends s.
Proof. done. Qed.

Lemma emit_wp e r (Q : unit -> server -> Prop) s :
  use (owned s) e = Some r -> Q tt (set_owned r (trace s ++ [e]) s) -> wp (emit e) Q ends s.
Proof. intros E HQ. unfold emit. apply wp_bind, wp_get, wp_bind. eapply wp_lift; [exact E|exact HQ]. Qed.

Lemma clock_wp Q s : (forall t l, Q t (set_answers l s)) -> wp clock_gettime Q ends s.
Proof.
  intros HQ. unfold clock_gettime. apply wp_bind, ask_wp. intros a l _. apply wp_bind, ask_wp. intros b l' _.
  apply wp_ret. apply HQ.
Qed.

Lemma new_fd_wp (Q : Z -> server -> Prop) s :
  (forall l, Q (-1) (set_answers l s)) ->
  (forall fd l, 0 <= fd -> fd ∉ fds (owned s) ->
     Q fd (set_owned (Resources ({[fd]} ∪ fds (owned s)) (confs (owned s)) (vms (owned s)) (bufs (owned s)))
             (trace s ++ [Open fd]) (set_answers l s))) ->
  wp new_fd Q ends s.
Proof.
  intros H1 H2. unfold new_fd. apply wp_bind, wp_get, wp_bind, expect_wp. intros a l _ Ha. apply wp_bind.
  destruct (Z.eqb_spec a (-1)) as [-> |Hne]; [apply wp_ret, wp_ret, H1|]. cbn [orb] in Ha.
  apply andb_true_iff in Ha as [Hp Hn]. apply Z.leb_le in Hp. apply negb_true_iff, bool_decide_eq_false in Hn.
  eapply emit_wp; [|apply wp_ret, H2; [exact Hp|exact Hn]]. cbn [use set_answers owned].
  by rewrite decide_False.
Qed.

Lemma status_wp Q s : (forall a l, a = 0 \/ a = -1 -> Q a (set_answers l s)) -> wp status_call Q ends s.
Proof.
  intros HQ. apply expect_wp. intros a l _ Ha. apply HQ.
  apply orb_true_iff in Ha as [E|E]; apply Z.eqb_eq in E; auto.
Qed.

(** The machine that runs next has been created and initialised, and nothing
    else is held but the listening socket and descriptors [leaked]. *)
Record loop_ok (sockfd : Z) (leaked : gset Z) (s : server) : Prop := {
  lo_fds : fds (owned s) = {[sockfd]} ∪ leaked;
  lo_confs : confs (owned s) = {[ConfCxt s]};
  lo_vms : vms (owned s) = {[VMCxt s := Ready]};
  lo_bufs : bufs (owned s) = ∅ }.

Lemma WasmVMInit_wp F s (Q : Z -> server -> Prop) :
  owned s = Resources F {[ConfCxt s]} ∅ ∅ ->
  (forall s', owned s' = Resources F {[ConfCxt s']} {[VMCxt s' := Ready]} ∅ -> Q 0 s') ->
  wp WasmVMInit Q ends s.
Proof.
  intros Eo HQ. unfold WasmVMInit. apply wp_bind, clock_wp. intros t1 l1. apply wp_bind, wp_get.
  apply wp_bind, expect_wp. intros v l2 _ _. apply wp_bind. cbn [set_answers ConfCxt].
  destruct (Z.eqb_spec v 0) as [Ev|Ev].
  { apply wp_bind. eapply emit_wp.
    - cbn. rewrite Eo. cbn. by rewrite decide_True by set_solver.
    - apply throw_wp. unfold run_end. set_solver. }
  apply wp_bind. eapply emit_wp.
  { cbn. rewrite Eo. cbn. rewrite decide_True by (split; [set_solver|done]). reflexivity. }
  apply wp_modify. apply wp_bind, ask_wp. intros w l3 _. apply wp_bind.
  destruct (Z.eqb_spec w 0) as [Ew|Ew].
  { apply wp_bind. eapply emit_wp.
    - cbn. rewrite decide_True by (rewrite lookup_insert_eq; by eexists). reflexivity.
    - apply wp_bind. eapply emit_wp; [cbn; by rewrite decide_True by set_solver|].
      apply throw_wp. unfold run_end. set_solver. }
  eapply emit_wp.
  { cbn. rewrite decide_True by (by rewrite lookup_insert_eq). reflexivity. }
  apply wp_bind, clock_wp. intros t2 l4. apply wp_bind, wp_modify, wp_ret. apply HQ. cbn.
  by rewrite insert_insert_eq, insert_empty.
Qed.

(** Storing the response, in memory that was there. *)
Lemma make_response_wp msg F c v (Q : Z -> server -> Prop) s :
  owned s = Resources F c v ∅ ->
  (forall p s', owned s' = Resources F c v {[p := Z.of_nat (String.length msg) + 1]} ->
     VMCxt s' = VMCxt s -> ConfCxt s' = ConfCxt s ->
     (exists e, trace s' = trace s ++ e) -> Q p s') ->
  wp (make_response false msg) Q ends s.
Proof.
  intros Eo HQ. unfold make_response. apply wp_bind, wp_get, wp_bind, expect_wp. intros p l _ Hp.
  apply andb_true_iff in Hp as [Hp _]. apply Z.ltb_lt in Hp. apply wp_bind.
  destruct (Z.eqb_spec p 0); [lia|]. eapply emit_wp; [cbn; rewrite Eo; cbn; by rewrite decide_True by done|].
  apply wp_bind. eapply emit_wp.
  { cbn. rewrite lookup_insert_eq. cbn. by destruct (Z.ltb_spec (Z.of_nat (String.length msg)) (Z.of_nat (String.length msg) + 1)); [|lia]. }
  apply wp_ret. apply HQ; cbn; rewrite ?Eo; cbn; try done.
  - eexists. by rewrite <- app_assoc.
Qed.

Lemma used_gone (v : Z) (x y : vmstate) : delete v (<[v := x]> {[v := y]}) = (∅ : gmap Z vmstate).
Proof. apply map_eq. intros i. destruct (decide (i = v)) as [-> |]; by simplify_map_eq. Qed.

Lemma freed_gone (p n : Z) : delete p {[p := n]} = (∅ : gmap Z Z).
Proof. apply map_eq. intros i. destruct (decide (i = p)) as [-> |]; by simplify_map_eq. Qed.

(** A turn keeps the resources of the loop, but for the descriptor of a
    connection whose address cannot be had. *)
Lemma turn_wp sockfd leaked wasm s :
  loop_ok sockfd leaked s ->
  wp (turn false sockfd wasm)
     (fun _ s' => loop_ok sockfd leaked s' \/
        exists fd, fd ∉ fds (owned s) /\ loop_ok sockfd ({[fd]} ∪ leaked) s') ends s.
Proof.
  intros [Lf Lc Lv Lb]. unfold turn. apply wp_bind, new_fd_wp.
  { intros l. apply wp_ret. by left. }
  intros fd l1 Hfd Hnew. destruct (Z.ltb_spec fd 0); [lia|]. apply wp_bind, status_wp. intros a l2 Ha.
  destruct (Z.ltb_spec a 0) as [Hneg|Hpos].
  { apply wp_ret. right. exists fd. split; [done|]. constructor; cbn; try done. rewrite Lf. set_solver. }
  apply wp_bind, clock_wp. intros t1 l3. apply wp_bind, wp_get. apply wp_bind. eapply emit_wp.
  { cbn. rewrite Lv. rewrite decide_True by (by rewrite lookup_singleton_eq). reflexivity. }
  apply wp_bind, ask_wp. intros res l4 _. apply wp_bind, clock_wp. intros t2 l5.
  apply wp_bind, wp_modify. apply wp_bind, clock_wp. intros t3 l6. apply wp_bind. eapply emit_wp.
  { cbn. rewrite decide_True by (rewrite lookup_insert_eq; by eexists). reflexivity. }
  apply wp_bind, clock_wp. intros t4 l7. apply wp_bind, wp_get. apply wp_bind.
  eapply make_response_wp.
  { cbn. rewrite Lc, Lb, used_gone. reflexivity. }
  intros p s1 E1 EV EC _. cbn in EV, EC. apply wp_bind. eapply emit_wp.
  { rewrite E1. cbn. rewrite decide_True by set_solver. reflexivity. }
  apply wp_bind. unfold send_call. apply wp_bind, expect_wp. intros n l8 _ _.
  destruct (n =? -2); [apply throw_wp; unfold run_end; set_solver|]. apply wp_ret.
  apply wp_bind. eapply emit_wp.
  { cbn. rewrite decide_True by (rewrite lookup_singleton_eq; by eexists). rewrite freed_gone.
    reflexivity. }
  apply wp_bind. eapply emit_wp; [cbn; by rewrite decide_True by set_solver|].
  apply wp_bind. eapply WasmVMInit_wp.
  { cbn. rewrite EC. replace (({[fd]} ∪ fds (owned s)) ∖ {[fd]}) with (fds (owned s)) by set_solver. reflexivity. }
  intros s2 E2. apply wp_ret. left. constructor; rewrite E2; done.
Qed.

(** ** Every turn waits for an answer *)

Definition eats {A} (m : M server A) : Prop :=
  forall s a s', m s = Ok a s' -> (Datatypes.length (answers s') <= Datatypes.length (answers s))%nat.

Lemma eats_bind {A B} (m : M server A) (k : A -> M server B) :
  eats m -> (forall a, eats (k a)) -> eats (m ≫= k).
Proof.
  intros Hm Hk s b s'. unfold mbind, M_bind. destruct (m s) as [a s1| | |] eqn:E; try done.
  intros E'. apply Hm in E. apply Hk in E'. lia.
Qed.

Lemma eats_ret {A} (a : A) : eats (mret a).
Proof. by intros s b s' [= <- <-]. Qed.

Lemma eats_throw {A} e : eats (@throw server A e).
Proof. by intros s b s'. Qed.

Lemma eats_get : eats get.
Proof. by intros s b s' [= <- <-]. Qed.

Lemma eats_modify f : (forall s, answers (f s) = answers s) -> eats (modify f).
Proof. intros H0 s b s' [= <- <-]. by rewrite H0. Qed.

Lemma eats_emit e : eats (emit e).
Proof.
  apply eats_bind; [apply eats_get|]. intros s. apply eats_bind; [|intros r; by apply eats_modify].
  destruct (use _ _); [apply eats_ret|by intros ? ? ?].
Qed.

Lemma eats_ask : eats ask.
Proof.
  intros s a s'. unfold ask, mbind, M_bind, get. destruct (answers s) as [|b l]; [done|].
  intros [= <- <-]. cbn. lia.
Qed.

Lemma eats_expect ok : eats (expect ok).
Proof. apply eats_bind; [apply eats_ask|]. intros a. destruct (ok a); [apply eats_ret|apply eats_throw]. Qed.

Lemma eats_clock : eats clock_gettime.
Proof. do 2 (apply eats_bind; [apply eats_ask|intros ?]). apply eats_ret. Qed.

Ltac eats := repeat first
  [ apply eats_ret | apply eats_throw | apply eats_get | apply eats_emit | apply eats_ask | apply eats_expect
  | apply eats_clock | (apply eats_modify; reflexivity) | (apply eats_bind; [|intros ?]) | case_match ].

Lemma eats_init : eats WasmVMInit.
Proof. unfold WasmVMInit. eats. Qed.

Lemma eats_response oom msg : eats (make_response oom msg).
Proof. unfold make_response. eats. Qed.

(** One answer at least. *)
Definition eats_one {A} (m : M server A) : Prop :=
  forall s a s', m s = Ok a s' -> (Datatypes.length (answers s') < Datatypes.length (answers s))%nat.

Lemma eats_one_bind {A B} (m : M server A) (k : A -> M server B) :
  eats_one m -> (forall a, eats (k a)) -> eats_one (m ≫= k).
Proof.
  intros Hm Hk s b s'. unfold mbind, M_bind. destruct (m s) as [a s1| | |] eqn:E; try done.
  intros E'. apply Hm in E. apply Hk in E'. lia.
Qed.

Lemma eats_one_expect ok : eats_one (expect ok).
Proof.
  apply eats_one_bind; [|intros a; eats]. intros s a s'. unfold ask, mbind, M_bind, get.
  destruct (answers s) as [|b l]; [done|]. intros [= <- <-]. cbn. lia.
Qed.

Lemma eats_one_new_fd : eats_one new_fd.
Proof.
  intros s a s'. unfold new_fd. rewrite bind_get.
  match goal with |- ?m s = _ -> _ => enough (He : eats_one m) by apply He end.
  apply eats_one_bind; [apply eats_one_expect|intros fd; eats].
Qed.

Lemma turn_eats oom sockfd wasm : eats_one (turn oom sockfd wasm).
Proof.
  apply eats_one_bind; [apply eats_one_new_fd|]. intros fd. unfold send_call, status_call.
  eats; first [apply eats_init | apply eats_response].
Qed.

Lemma serve_wp fuel sockfd leaked wasm s :
  loop_ok sockfd leaked s -> (Datatypes.length (answers s) < fuel)%nat ->
  wp (serve false fuel sockfd wasm) (fun _ _ => False) ends s.
Proof.
  revert leaked s. induction fuel as [|fuel IH]; intros leaked s L Hf; [lia|]. cbn [serve].
  pose proof (turn_wp sockfd leaked wasm s L) as Hw. apply wp_bind. unfold wp in Hw |- * at 1.
  destruct (turn false sockfd wasm s) as [u s1|e s1| |] eqn:E; try done.
  apply turn_eats in E. destruct Hw as [L1|(fd & _ & L1)]; (eapply IH; [exact L1|lia]).
Qed.

Lemma setup_wp s :
  owned s = no_resources ->
  wp setup (fun r s' => match r with inl st => st = 1 | inr sockfd => loop_ok sockfd ∅ s' end) ends s.
Proof.
  intros Eo. unfold setup. do 2 (apply wp_bind, clock_wp; intros ? ?). apply wp_bind, new_fd_wp.
  - intros ?. apply wp_bind, expect_wp. intros st l' _ Hst. apply wp_bind.
    destruct (Z.eqb_spec st 0) as [-> |]; [done|]. apply throw_wp. unfold run_end. set_solver.
  - intros net ? Hn Hnew. apply wp_bind, expect_wp. intros st l' _ Hst. apply wp_bind.
    destruct (Z.eqb_spec st 0) as [-> |]; cbn [negb]; [|apply throw_wp; unfold run_end; set_solver].
    eapply emit_wp; [cbn; by rewrite decide_True by set_solver|].
    apply wp_bind, clock_wp; intros ? ?. apply wp_bind, wp_modify, wp_bind, wp_get, wp_bind, expect_wp.
    intros c ? _ _. apply wp_bind. destruct (Z.eqb_spec c 0); [apply throw_wp; unfold run_end; set_solver|].
    apply wp_bind. eapply emit_wp; [cbn; rewrite Eo; cbn; by rewrite decide_False by set_solver|].
    apply wp_modify. apply wp_bind, clock_wp; intros ? ?. apply wp_bind, new_fd_wp; [intros ?; by apply wp_ret|].
    intros fd ? Hfd _. destruct (Z.eqb_spec fd (-1)); [lia|].
    do 2 (apply wp_bind, status_wp; intros ? ? ?; case_match; [by apply wp_ret|]).
    do 2 (apply wp_bind, status_wp; intros ? ? ?; case_match; [by apply wp_ret|]).
    apply wp_bind, clock_wp; intros ? ?. apply wp_bind, wp_modify, wp_bind.
    eapply WasmVMInit_wp; [cbn; rewrite (union_empty_r_L {[c]}); reflexivity|].
    intros s2 E2. apply wp_bind, clock_wp; intros ? ?. apply wp_bind, wp_modify, wp_ret.
    constructor; cbn; rewrite E2; cbn; try done. set_solver.
Qed.

Lemma main_wp argv s :
  (4 <= Datatypes.length argv)%nat -> owned s = no_resources ->
  wp (main false argv) (fun st _ => st = 1) ends s.
Proof.
  intros Ha Eo. unfold main. destruct (lookup_lt_is_Some_2 argv 1) as [w Ew]; [lia|].
  destruct (lookup_lt_is_Some_2 argv 3) as [n En]; [lia|].
  apply wp_bind. eapply wp_lift; [exact Ew|]. apply wp_bind. eapply wp_lift; [exact En|].
  apply wp_bind. eapply wp_mono; [by apply setup_wp| |done]. intros [st|sockfd] s1 H1; [by apply wp_ret|].
  apply wp_bind, wp_get, wp_bind. eapply wp_mono; [apply (serve_wp _ sockfd ∅); [done|lia]|done|done].
Qed.

(** ** Runs with known answers *)

Lemma expect_step {B} ok a l (k : Z -> M server B) s :
  answers s = a :: l -> ok a = true -> (expect ok ≫= k) s = k a (set_answers l s).
Proof. intros E Eo. unfold expect, ask. rewrite !bind_assoc, bind_get, E, bind_assoc, bind_modify, bind_ret. by rewrite Eo. Qed.

Lemma ask_step {B} a l (k : Z -> M server B) s :
  answers s = a :: l -> (ask ≫= k) s = k a (set_answers l s).
Proof. intros E. unfold ask. by rewrite bind_assoc, bind_get, E, bind_assoc, bind_modify, bind_ret. Qed.

Lemma emit_step {B} e r (k : unit -> M server B) s :
  use (owned s) e = Some r -> (emit e ≫= k) s = k tt (set_owned r (trace s ++ [e]) s).
Proof. intros E. unfold emit. by rewrite bind_assoc, bind_get, bind_assoc, (bind_lift _ _ _ _ E), bind_modify. Qed.

Lemma emit_violates {B} e (k : unit -> M server B) s : use (owned s) e = None -> (emit e ≫= k) s = Ub.
Proof. intros E. unfold emit, mbind, M_bind, get, lift. by rewrite E. Qed.

Lemma clock_step {B} a b l (k : Z * Z -> M server B) s :
  answers s = a :: b :: l -> (clock_gettime ≫= k) s = k (a, b) (set_answers l s).
Proof.
  intros E. unfold clock_gettime. rewrite bind_assoc, (ask_step a (b :: l)) by done.
  by rewrite bind_assoc, (ask_step b l), bind_ret by done.
Qed.

Lemma new_fd_step {B} fd l (k : Z -> M server B) s :
  answers s = fd :: l -> 0 <= fd -> fd ∉ fds (owned s) ->
  (new_fd ≫= k) s = k fd (set_owned (Resources ({[fd]} ∪ fds (owned s)) (confs (owned s)) (vms (owned s)) (bufs (owned s)))
                            (trace s ++ [Open fd]) (set_answers l s)).
Proof.
  intros E Hp Hn. unfold new_fd. rewrite bind_assoc, bind_get, bind_assoc, (expect_step _ fd l) by
    (done || (apply orb_true_iff; right; apply andb_true_iff; split;
              [by apply Z.leb_le|by apply negb_true_iff, bool_decide_eq_false])).
  rewrite bind_assoc. destruct (Z.eqb_spec fd (-1)); [lia|].
  erewrite emit_step; [by rewrite bind_ret|]. cbn. by rewrite decide_False.
Qed.

Lemma WasmVMInit_step {B} F s v wasi a b c d l (k : Z -> M server B) :
  owned s = Resources F {[ConfCxt s]} ∅ ∅ -> answers s = [a; b; v; wasi; c; d] ++ l -> 0 < v -> wasi <> 0 ->
  exists s', (WasmVMInit ≫= k) s = k 0 s' /\ answers s' = l /\ VMCxt s' = v /\ ConfCxt s' = ConfCxt s /\
    owned s' = Resources F {[ConfCxt s]} {[v := Ready]} ∅ /\
    trace s' = trace s ++ [VMCreate v (ConfCxt s); VMInit v].
Proof.
  intros Eo Ea Hv Hw. eexists. split.
  { unfold WasmVMInit. rewrite bind_assoc, (clock_step a b ([v; wasi; c; d] ++ l)) by done.
    rewrite bind_assoc, bind_get, bind_assoc. cbn [app]. rewrite (expect_step _ v (wasi :: c :: d :: l)); [|done|].
    2: { cbn. rewrite Eo. cbn. destruct (Z.leb_spec 0 v); [done|lia]. }
    rewrite bind_assoc. destruct (Z.eqb_spec v 0); [lia|]. rewrite bind_assoc. erewrite emit_step.
    2: { cbn. rewrite Eo. cbn. rewrite decide_True by (split; [set_solver|done]). reflexivity. }
    rewrite bind_modify, bind_assoc, (ask_step wasi (c :: d :: l)) by done. rewrite bind_assoc.
    destruct (Z.eqb_spec wasi 0); [done|]. erewrite emit_step.
    2: { cbn. rewrite decide_True by (by rewrite lookup_insert_eq). rewrite insert_insert_eq, insert_empty. reflexivity. }
    rewrite bind_assoc, (clock_step c d l) by done. rewrite bind_assoc, bind_modify, bind_ret. reflexivity. }
  cbn. split_and!; try done. by rewrite <- app_assoc.
Qed.

(** The response to a request whose run took from [t1] to [t2] and its clean-up
    from [t3] to [t4]. *)
Definition response (s : server) (res : Z) (t1 t2 t3 t4 : Z * Z) : string :=
  let elapsed := ddiv (microseconds t1 t2) (of_int 1000) in
  if ztrue res then success_response (set_execwasm elapsed (to_int elapsed) s) (microseconds t3 t4)
  else failure_response.

(** A turn up to the response, from the answers of accept to the last clock. *)
Lemma turn_prefix oom sockfd leaked wasm s fd res t1 n1 t2 n2 t3 n3 t4 n4 l :
  loop_ok sockfd leaked s -> 0 <= fd -> fd ∉ fds (owned s) ->
  answers s = [fd; 0; t1; n1; res; t2; n2; t3; n3; t4; n4] ++ l ->
  exists s1,
    turn oom sockfd wasm s =
      (let msg := response s res (t1, n1) (t2, n2) (t3, n3) (t4, n4) in
       resp ← make_response oom msg;
       emit (Send fd msg);;
       send_call (Z.of_nat (String.length msg));;
       emit (Free resp);;
       emit (Close fd);;
       _ ← WasmVMInit;
       mret tt) s1 /\
    answers s1 = l /\ ConfCxt s1 = ConfCxt s /\
    owned s1 = Resources ({[fd]} ∪ fds (owned s)) {[ConfCxt s]} ∅ ∅ /\
    trace s1 = trace s ++ [Open fd; VMRun (VMCxt s) wasm; VMDelete (VMCxt s)].
Proof.
  intros [Lf Lc Lv Lb] Hfd Hn Ea. eexists. split.
  { unfold turn. rewrite (new_fd_step fd ([0; t1; n1; res; t2; n2; t3; n3; t4; n4] ++ l)) by done.
    destruct (Z.ltb_spec fd 0); [lia|]. unfold status_call.
    rewrite (expect_step _ 0 ([t1; n1; res; t2; n2; t3; n3; t4; n4] ++ l)) by done. cbn [Z.ltb Z.compare].
    rewrite (clock_step t1 n1 ([res; t2; n2; t3; n3; t4; n4] ++ l)), bind_get by done. erewrite emit_step.
    2: { cbn. rewrite Lv, decide_True by (by rewrite lookup_singleton_eq). reflexivity. }
    rewrite (ask_step res ([t2; n2; t3; n3; t4; n4] ++ l)), (clock_step t2 n2 ([t3; n3; t4; n4] ++ l)), bind_modify,
      (clock_step t3 n3 ([t4; n4] ++ l)) by done.
    erewrite emit_step.
    2: { cbn. rewrite decide_True by (rewrite lookup_insert_eq; by eexists).
         rewrite Lc, Lb, used_gone. reflexivity. }
    rewrite (clock_step t4 n4 l), bind_get by done. reflexivity. }
  cbn. split_and!; try done. by rewrite <- !app_assoc.
Qed.

Lemma serve_turn sockfd leaked wasm s fd res t1 n1 t2 n2 t3 n3 t4 n4 p sent u1 m1 v wasi u2 m2 l :
  loop_ok sockfd leaked s -> 0 <= fd -> fd ∉ fds (owned s) -> 0 < p ->
  -1 <= sent <= Z.of_nat (String.length (response s res (t1, n1) (t2, n2) (t3, n3) (t4, n4))) -> 0 < v -> wasi <> 0 ->
  answers s = [fd; 0; t1; n1; res; t2; n2; t3; n3; t4; n4; p; sent; u1; m1; v; wasi; u2; m2] ++ l ->
  let msg := response s res (t1, n1) (t2, n2) (t3, n3) (t4, n4) in
  exists s', turn false sockfd wasm s = Ok tt s' /\
    loop_ok sockfd leaked s' /\ VMCxt s' = v /\ answers s' = l /\
    trace s' = trace s ++ [Open fd; VMRun (VMCxt s) wasm; VMDelete (VMCxt s);
                           Malloc p (Z.of_nat (String.length msg) + 1); Write p msg; Send fd msg; Free p; Close fd;
                           VMCreate v (ConfCxt s); VMInit v].
Proof.
  intros L Hfd Hn Hp Hsent Hv Hw Ea.
  destruct (turn_prefix false sockfd leaked wasm s fd res t1 n1 t2 n2 t3 n3 t4 n4
              ([p; sent; u1; m1; v; wasi; u2; m2] ++ l) L Hfd Hn Ea) as (s1 & -> & A1 & C1 & O1 & T1).
  cbv zeta in *. set (msg := response _ _ _ _ _ _) in *. clearbody msg.
  unfold make_response. rewrite bind_assoc, bind_get, bind_assoc.
  rewrite (expect_step _ p ([sent; u1; m1; v; wasi; u2; m2] ++ l)); [|exact A1|].
  2: { cbn. rewrite O1. cbn. destruct (Z.ltb_spec 0 p); [done|lia]. }
  rewrite bind_assoc. destruct (Z.eqb_spec p 0); [lia|]. erewrite emit_step.
  2: { cbn. rewrite O1. cbn. rewrite decide_True by done. reflexivity. }
  rewrite bind_assoc. erewrite emit_step.
  2: { cbn. rewrite lookup_insert_eq. cbn.
       destruct (Z.ltb_spec (Z.of_nat (String.length msg)) (Z.of_nat (String.length msg) + 1)); [reflexivity|lia]. }
  rewrite bind_ret. erewrite emit_step; [|cbn; rewrite decide_True by set_solver; reflexivity].
  unfold send_call. rewrite bind_assoc, (expect_step _ sent ([u1; m1; v; wasi; u2; m2] ++ l)); [|done|].
  2: { destruct (Z.leb_spec (-2) sent), (Z.leb_spec sent (Z.of_nat (String.length msg))); first [lia|done]. }
  destruct (Z.eqb_spec sent (-2)); [lia|]. rewrite bind_ret. erewrite emit_step.
  2: { cbn. rewrite insert_empty, decide_True by (rewrite lookup_singleton_eq; by eexists). rewrite freed_gone. reflexivity. }
  erewrite emit_step; [|cbn; rewrite decide_True by set_solver; reflexivity].
  match goal with |- context [(WasmVMInit ≫= ?k) ?st] =>
    destruct (WasmVMInit_step (fds (owned s)) st v wasi u1 m1 u2 m2 l k) as (s' & -> & A2 & V2 & C2 & O2 & T2) end;
    [cbn; rewrite C1; f_equal; set_solver|done|done|done|].
  cbn in C2, O2, T2. exists s'. split_and!; try done.
  - destruct L as [Lf _ _ _]. constructor; rewrite O2; cbn; try done; [by rewrite C2|by rewrite V2].
  - rewrite T2, T1, C1, <- !app_assoc. done.
Qed.
End Facts.
