(* ===== verification/RunwProps.v ===== *)
(** * The theorems on the WebAssembly server

    What [main] of runw_web.c does with its resources and with a request, for
    every sequence of answers of the environment. *)
From stdpp Require Import base numbers list gmap pretty.
From Stdlib Require Import ZArith Lia Bool String.
From S2P Require Import Prelude Runw RunwFacts.

#[local] Open Scope Z_scope.

(** Whole numbers in place of binary floating point, for the witnesses. *)
#[local] Instance int_double : Double := {
  double := Z; of_int := id; dadd := Z.add; dmul := Z.mul; ddiv := Z.quot; to_int := id; print_f := pretty }.

Section Props.
Context `{Double}.


(** C28: a connection whose address is known gets exactly one response and its
    descriptor is closed: the function runs once, in the machine made for it; the
    machine is deleted and a new one prepared; nothing stays allocated.  The buffer
    is one byte longer than the response. *)
Theorem runw_serves sockfd leaked wasm s fd res t1 n1 t2 n2 t3 n3 t4 n4 p sent u1 m1 v wasi u2 m2 l :
  loop_ok sockfd leaked s -> 0 <= fd -> fd ∉ fds (owned s) -> 0 < p ->
  -1 <= sent <= Z.of_nat (String.length (response s res (t1, n1) (t2, n2) (t3, n3) (t4, n4))) ->
  0 < v -> wasi <> 0 ->
  answers s = [fd; 0; t1; n1; res; t2; n2; t3; n3; t4; n4; p; sent; u1; m1; v; wasi; u2; m2] ++ l ->
  let msg := response s res (t1, n1) (t2, n2) (t3, n3) (t4, n4) in
  exists s', turn false sockfd wasm s = Ok tt s' /\ loop_ok sockfd leaked s' /\ VMCxt s' = v /\ answers s' = l /\
    trace s' = trace s ++ [Open fd; VMRun (VMCxt s) wasm; VMDelete (VMCxt s);
                           Malloc p (Z.of_nat (String.length msg) + 1); Write p msg; Send fd msg; Free p; Close fd;
                           VMCreate v (ConfCxt s); VMInit v].
Proof. apply serve_turn. Qed.

(** C29: the descriptor of a connection for which getsockname fails is never
    closed: after such connections the server holds all of them. *)
Theorem runw_leak oom sockfd wasm F s fuel :
  NoDup F -> Forall (fun fd => 0 <= fd) F -> (forall fd, fd ∈ F -> fd ∉ fds (owned s)) ->
  answers s = (F ≫= fun fd => [fd; -1]) -> (List.length F < fuel)%nat ->
  exists s', serve oom fuel sockfd wasm s = Exc BLOCKED s' /\
    fds (owned s') = list_to_set F ∪ fds (owned s) /\ trace s' = trace s ++ map Open F.
Proof.
  revert s fuel. induction F as [|fd F IH]; intros s fuel Hd Hp Hn Ea Hf; (destruct fuel as [|fuel]; [lia|]).
  - exists s. cbn [serve]. unfold turn, new_fd, expect, ask. rewrite !bind_assoc, !bind_get.
    unfold mbind, M_bind, get, modify. cbn in Ea. rewrite Ea. cbn. split; [done|]. split; [set_solver|].
    by rewrite app_nil_r.
  - apply NoDup_cons in Hd as [Hfd Hd]. apply Forall_cons in Hp as [Hp0 Hp]. cbn [serve].
    cbn [mbind list_bind app] in Ea. unfold turn. rewrite bind_assoc.
    rewrite (new_fd_step fd (-1 :: (F ≫= fun fd => [fd; -1]))); [|exact Ea|exact Hp0|apply Hn; set_solver].
    destruct (Z.ltb_spec fd 0); [lia|]. rewrite bind_assoc. unfold status_call.
    rewrite (expect_step _ (-1) (F ≫= fun fd => [fd; -1])) by done. cbn [Z.ltb Z.compare]. rewrite bind_ret.
    match goal with |- context [serve _ _ _ _ ?st] =>
      destruct (IH st fuel Hd Hp) as (s' & E & Ef & Et) end; [|done|cbn in Hf; lia|].
    + intros fd' Hin. cbn. intros [->%elem_of_singleton|Hin2]%elem_of_union; [done|]. apply (Hn fd'); [set_solver|done].
    + exists s'. split; [exact E|]. rewrite Ef, Et. cbn. split; [set_solver|]. by rewrite <- app_assoc.
Qed.

(** C30: the result of malloc is not checked: when it is a null pointer, the
    response is written through it. *)
Theorem runw_malloc_unchecked sockfd leaked wasm s fd res t1 n1 t2 n2 t3 n3 t4 n4 l :
  loop_ok sockfd leaked s -> 0 <= fd -> fd ∉ fds (owned s) ->
  answers s = [fd; 0; t1; n1; res; t2; n2; t3; n3; t4; n4; 0] ++ l ->
  turn true sockfd wasm s = Ub.
Proof.
  intros L Hfd Hn Ea.
  destruct (turn_prefix true sockfd leaked wasm s fd res t1 n1 t2 n2 t3 n3 t4 n4 ([0] ++ l) L Hfd Hn Ea)
    as (s1 & -> & A1 & _ & O1 & _).
  unfold make_response. cbv zeta. rewrite bind_assoc, bind_get, bind_assoc, (expect_step _ 0 l); [|exact A1|].
  2: { rewrite O1. done. }
  rewrite bind_assoc. cbn [Z.eqb]. rewrite bind_ret, bind_assoc. apply emit_violates.
  cbn. by rewrite O1.
Qed.
End Props.

(** ** Concrete runs *)


(** The server at the head of its loop, with answers to come. *)
Definition ready_for (l : list Z) : server :=
  Server l (Resources {[4]} {[10]} {[100 := Ready]} ∅) [] 100 10 0 0 0 0 0 1.

Definition ready : server := ready_for [5; 0; 1; 0; 1; 1; 5000000; 2; 0; 2; 0; 9; 20; 3; 0; 101; 1; 3; 0].

Lemma ready_ok l : loop_ok 4 ∅ (ready_for l).
Proof. constructor; cbn; [set_solver|done..]. Qed.


Lemma runw_serves_witness :
  let msg := response ready 1 (1, 0) (1, 5000000) (2, 0) (2, 0) in
  exists s', turn false 4 "f.wasm" ready = Ok tt s' /\ loop_ok 4 ∅ s' /\ VMCxt s' = 101 /\ answers s' = [] /\
    trace s' = [] ++ [Open 5; VMRun 100 "f.wasm"; VMDelete 100;
                      Malloc 9 (Z.of_nat (String.length msg) + 1); Write 9 msg; Send 5 msg; Free 9; Close 5;
                      VMCreate 101 10; VMInit 101].
Proof.
  apply (runw_serves 4 ∅ "f.wasm" ready 5 1 1 0 1 5000000 2 0 2 0 9 20 3 0 101 1 3 0 []); first [done|apply ready_ok|cbn; lia|cbn; set_solver].
Defined.

Lemma runw_leak_witness :
  exists s', serve false 3 4 "f.wasm" (ready_for [5; -1; 6; -1])
               = Exc BLOCKED s' /\
    fds (owned s') = list_to_set [5; 6] ∪ {[4]} /\ trace s' = [] ++ map Open [5; 6].
Proof.
  apply (runw_leak false 4 "f.wasm" [5; 6]
           (ready_for [5; -1; 6; -1]) 3).
  - apply (bool_decide_unpack _). vm_compute. exact I.
  - by repeat constructor.
  - cbn. set_solver.
  - reflexivity.
  - cbn. lia.
Defined.

Lemma runw_malloc_unchecked_witness :
  turn true 4 "f.wasm" (ready_for [5; 0; 1; 0; 1; 1; 0; 2; 0; 2; 0; 0]) = Ub.
Proof.
  apply (runw_malloc_unchecked 4 ∅ "f.wasm" _ 5 1 1 0 1 0 2 0 2 0 []); first [done|apply ready_ok|cbn; set_solver].
Defined.
