(* ===== verification/Trees.v ===== *)
(** * The block writer of deflate: data and the Huffman trees (trees.c)

    The functions of trees.c up to [build_tree], over explicit arguments: a
    function takes the arrays it reads and returns those it writes, [None] when
    an access is out of bounds (or the fuel of a loop runs out; [TreesBuild]
    shows that neither happens).

    [ct_data] is a pair of 16-bit unions, as in the source: [fc] is Freq or
    Code, [dl] is Dad or Len.  [W] is the width of [ulg].  The arrays that the
    source leaves uninitialised start with arbitrary values. *)
From stdpp Require Import base numbers list.
From Stdlib Require Import ZArith Lia Bool.
From S2P Require Import Prelude.

Definition LENGTH_CODES : Z := 29.
Definition LITERALS : Z := 256.
Definition L_CODES : Z := LITERALS + 1 + LENGTH_CODES.
Definition D_CODES : Z := 30.
Definition BL_CODES : Z := 19.
Definition HEAP_SIZE : Z := 2 * L_CODES + 1.
Definition MAX_BITS : Z := 15.
Definition Buf_size : Z := 16.
Definition MAX_BL_BITS : Z := 7.
Definition END_BLOCK : Z := 256.
Definition REP_3_6 : Z := 16.
Definition REPZ_3_10 : Z := 17.
Definition REPZ_11_138 : Z := 18.
Definition SMALLEST : Z := 1.

Definition extra_lbits : list Z :=
  [0; 0; 0; 0; 0; 0; 0; 0; 1; 1; 1; 1; 2; 2; 2; 2; 3; 3; 3; 3; 4; 4; 4; 4; 5; 5; 5; 5; 0].
Definition extra_dbits : list Z :=
  [0; 0; 0; 0; 1; 1; 2; 2; 3; 3; 4; 4; 5; 5; 6; 6; 7; 7; 8; 8; 9; 9; 10; 10; 11; 11; 12; 12; 13; 13].
Definition extra_blbits : list Z := [0; 0; 0; 0; 0; 0; 0; 0; 0; 0; 0; 0; 0; 0; 0; 0; 2; 3; 7].
Definition bl_order : list Z := [16; 17; 18; 0; 8; 7; 9; 6; 10; 5; 11; 4; 12; 3; 13; 2; 14; 1; 15].

Record ct_data := Ct { fc : Z; dl : Z }.

#[export] Instance ct_data_eq_dec : EqDecision ct_data.
Proof. solve_decision. Defined.

Definition tree := list ct_data.

(** [tree[n].fc = v] and [tree[n].dl = v]. *)
Definition set_fc (t : tree) (n v : Z) : option tree := c ← aget t n; aset t n (Ct (wrap 16 v) (dl c)).
Definition set_dl (t : tree) (n v : Z) : option tree := c ← aget t n; aset t n (Ct (fc c) (wrap 16 v)).

(** [tree[n].Freq += k]. *)
Definition add_freq (t : tree) (n k : Z) : option tree := c ← aget t n; set_fc t n (fc c + k).

Record static_tree_desc := StaticDesc {
  static_tree : option tree;
  extra_bits : list Z;
  extra_base : Z;
  elems : Z;
  max_length : Z }.

Record tree_desc := Desc { dyn_tree : tree; max_code : Z; stat_desc : static_tree_desc }.

(** The fields of [deflate_state] that the construction of all trees shares. *)
Record huff_state := Huff {
  bl_count : list Z;
  heap : list Z;
  heap_len : Z;
  heap_max : Z;
  depth : list Z;
  opt_len : Z;
  static_len : Z }.

(** ** The heap *)

(** The macro [smaller]. *)
Definition smaller (t : tree) (depth : list Z) (n m : Z) : option bool :=
  a ← aget t n; b ← aget t m;
  if fc a <? fc b then Some true
  else if fc a =? fc b then dn ← aget depth n; dm ← aget depth m; Some (dn <=? dm)
  else Some false.

Fixpoint pqdownheap_loop (fuel : nat) (t : tree) (depth heap : list Z) (heap_len v k j : Z)
    : option (list Z) :=
  match fuel with
  | O => None
  | S fuel =>
      if j <=? heap_len then
        j ← (if j <? heap_len then
               r ← aget heap (j + 1); l ← aget heap j; b ← smaller t depth r l;
               Some (if b : bool then j + 1 else j)
             else Some j);
        son ← aget heap j;
        b ← smaller t depth v son;
        if b : bool then aset heap k v
        else heap ← aset heap k son; pqdownheap_loop fuel t depth heap heap_len v j (Z.shiftl j 1)
      else aset heap k v
  end.

(** [j] at least doubles in each turn. *)
Definition pqdownheap (t : tree) (depth heap : list Z) (heap_len k : Z) : option (list Z) :=
  v ← aget heap k; pqdownheap_loop (S (Z.to_nat heap_len)) t depth heap heap_len v k (Z.shiftl k 1).

(** [pqremove]: the element removed, the heap and its length. *)
Definition pqremove (t : tree) (depth heap : list Z) (heap_len : Z) : option (Z * list Z * Z) :=
  top ← aget heap SMALLEST;
  last ← aget heap heap_len;
  heap ← aset heap SMALLEST last;
  heap ← pqdownheap t depth heap (heap_len - 1) SMALLEST;
  Some (top, heap, heap_len - 1).

Section Width.
Context (W : Z).

(** ** [gen_bitlen] *)

(** The variables of the first pass. *)
Record bitlen := Bitlen {
  b_tree : tree; b_count : list Z; b_overflow : Z; b_opt : Z; b_static : Z }.

Definition bitlen_step (stat : static_tree_desc) (max_code n : Z) (v : bitlen) : option bitlen :=
  e ← aget (b_tree v) n;
  dad ← aget (b_tree v) (dl e);
  let bits := dl dad + 1 in
  let '(bits, overflow) :=
    if bits >? max_length stat then (max_length stat, b_overflow v + 1) else (bits, b_overflow v) in
  t ← set_dl (b_tree v) n bits;
  if n >? max_code then Some (Bitlen t (b_count v) overflow (b_opt v) (b_static v))
  else
    c ← aget (b_count v) bits;
    cnt ← aset (b_count v) bits (wrap 16 (c + 1));
    xbits ← (if n >=? extra_base stat then aget (extra_bits stat) (n - extra_base stat) else Some 0);
    let f := fc e in
    slen ← (match static_tree stat with
            | Some st => se ← aget st n; Some (wrap W (b_static v + f * (dl se + xbits)))
            | None => Some (b_static v)
            end);
    Some (Bitlen t cnt overflow (wrap W (b_opt v + f * (bits + xbits))) slen).

(** [for (; h < HEAP_SIZE; h++)], with [n] turns. *)
Fixpoint bitlen_pass (n : nat) (stat : static_tree_desc) (max_code : Z) (heap : list Z) (h : Z) (v : bitlen)
    : option bitlen :=
  match n with
  | O => Some v
  | S n => e ← aget heap h; v ← bitlen_step stat max_code e v; bitlen_pass n stat max_code heap (h + 1) v
  end.

(** [while (s->bl_count[bits] == 0) bits--;] *)
Fixpoint find_bits (fuel : nat) (cnt : list Z) (bits : Z) : option Z :=
  match fuel with
  | O => None
  | S fuel => c ← aget cnt bits; if c =? 0 then find_bits fuel cnt (bits - 1) else Some bits
  end.

(** [s->bl_count[i] += k] *)
Definition add_count (cnt : list Z) (i k : Z) : option (list Z) :=
  c ← aget cnt i; aset cnt i (wrap 16 (c + k)).

(** [do ... while (overflow > 0)] *)
Fixpoint fix_overflow (fuel : nat) (max_length : Z) (cnt : list Z) (overflow : Z) : option (list Z) :=
  match fuel with
  | O => None
  | S fuel =>
      bits ← find_bits (Z.to_nat max_length) cnt (max_length - 1);
      cnt ← add_count cnt bits (-1);
      cnt ← add_count cnt (bits + 1) 2;
      cnt ← add_count cnt max_length (-1);
      let overflow := overflow - 2 in
      if overflow >? 0 then fix_overflow fuel max_length cnt overflow else Some cnt
  end.

(** [while (n != 0)]: the tree, [h] and [opt_len]. *)
Fixpoint relength_inner (fuel : nat) (max_code bits : Z) (heap : list Z) (n h : Z) (t : tree) (opt : Z)
    : option (tree * Z * Z) :=
  match fuel with
  | O => None
  | S fuel =>
      if n =? 0 then Some (t, h, opt)
      else
        m ← aget heap (h - 1);
        if m >? max_code then relength_inner fuel max_code bits heap n (h - 1) t opt
        else
          e ← aget t m;
          if dl e =? bits then relength_inner fuel max_code bits heap (n - 1) (h - 1) t opt
          else
            t ← set_dl t m bits;
            relength_inner fuel max_code bits heap (n - 1) (h - 1) t (wrap W (opt + (bits - dl e) * fc e))
  end.

(** [for (bits = max_length; bits != 0; bits--)] *)
Fixpoint relength (n : nat) (max_code : Z) (cnt heap : list Z) (h : Z) (t : tree) (opt : Z)
    : option (tree * Z) :=
  match n with
  | O => Some (t, opt)
  | S n' =>
      c ← aget cnt (Z.of_nat n);
      '(t, h, opt) ← relength_inner (S (Z.to_nat HEAP_SIZE)) max_code (Z.of_nat n) heap c h t opt;
      relength n' max_code cnt heap h t opt
  end.

(** The tree, the counts and the two lengths. *)
Definition gen_bitlen (d : tree_desc) (s : huff_state) : option (tree_desc * huff_state) :=
  let stat := stat_desc d in
  root ← aget (heap s) (heap_max s);
  t ← set_dl (dyn_tree d) root 0;
  v ← bitlen_pass (Z.to_nat (HEAP_SIZE - (heap_max s + 1))) stat (max_code d) (heap s) (heap_max s + 1)
        (Bitlen t (replicate (Z.to_nat (MAX_BITS + 1)) 0) 0 (opt_len s) (static_len s));
  if b_overflow v =? 0 then
    Some (Desc (b_tree v) (max_code d) stat,
          Huff (b_count v) (heap s) (heap_len s) (heap_max s) (depth s) (b_opt v) (b_static v))
  else
    cnt ← fix_overflow (Z.to_nat HEAP_SIZE) (max_length stat) (b_count v) (b_overflow v);
    '(t, opt) ← relength (Z.to_nat (max_length stat)) (max_code d) cnt (heap s) HEAP_SIZE (b_tree v) (b_opt v);
    Some (Desc t (max_code d) stat,
          Huff cnt (heap s) (heap_len s) (heap_max s) (depth s) opt (b_static v)).

(** ** [gen_codes] *)

(** [do ... while (--len > 0)], on 32-bit unsigned variables. *)
Fixpoint bi_reverse_loop (n : nat) (code res : Z) : Z :=
  let res := Z.lor res (Z.land code 1) in
  match n with
  | O | S O => wrap 32 (Z.shiftl res 1)
  | S n => bi_reverse_loop n (Z.shiftr code 1) (wrap 32 (Z.shiftl res 1))
  end.

Definition bi_reverse (code len : Z) : Z := Z.shiftr (bi_reverse_loop (Z.to_nat len) code 0) 1.

Fixpoint make_next (n : nat) (bits code : Z) (cnt next : list Z) : option (list Z) :=
  match n with
  | O => Some next
  | S n =>
      c ← aget cnt (bits - 1);
      let code := wrap 32 (Z.shiftl (code + c) 1) in
      next ← aset next bits (wrap 16 code);
      make_next n (bits + 1) code cnt next
  end.

Fixpoint codes_pass (k : nat) (n : Z) (t : tree) (next : list Z) : option tree :=
  match k with
  | O => Some t
  | S k =>
      e ← aget t n;
      if dl e =? 0 then codes_pass k (n + 1) t next
      else
        code ← aget next (dl e);
        next ← aset next (dl e) (wrap 16 (code + 1));
        t ← set_fc t n (bi_reverse code (dl e));
        codes_pass k (n + 1) t next
  end.

Definition gen_codes (t : tree) (max_code : Z) (cnt : list Z) : option tree :=
  next ← make_next (Z.to_nat MAX_BITS) 1 0 cnt (replicate (Z.to_nat (MAX_BITS + 1)) 0);
  codes_pass (Z.to_nat (max_code + 1)) 0 t next.

(** ** [build_tree] *)

(** The loop over the elements: the tree, the heap, its length, [depth], [max_code]. *)
Fixpoint init_heap (k : nat) (n : Z) (t : tree) (heap : list Z) (heap_len : Z) (depth : list Z) (max_code : Z)
    : option (tree * list Z * Z * list Z * Z) :=
  match k with
  | O => Some (t, heap, heap_len, depth, max_code)
  | S k =>
      e ← aget t n;
      if negb (fc e =? 0) then
        heap ← aset heap (heap_len + 1) n;
        depth ← aset depth n 0;
        init_heap k (n + 1) t heap (heap_len + 1) depth n
      else t ← set_dl t n 0; init_heap k (n + 1) t heap heap_len depth max_code
  end.

(** The variables of [build_tree]. *)
Record build := Build {
  u_tree : tree; u_heap : list Z; u_len : Z; u_max : Z; u_depth : list Z;
  u_code : Z; u_opt : Z; u_static : Z }.

(** [while (s->heap_len < 2)] *)
Fixpoint force_two (fuel : nat) (stree : option tree) (v : build) : option build :=
  match fuel with
  | O => None
  | S fuel =>
      if u_len v <? 2 then
        let '(max_code, node) := if u_code v <? 2 then (u_code v + 1, u_code v + 1) else (u_code v, 0) in
        heap ← aset (u_heap v) (u_len v + 1) node;
        t ← set_fc (u_tree v) node 1;
        depth ← aset (u_depth v) node 0;
        slen ← (match stree with
                | Some st => e ← aget st node; Some (wrap W (u_static v - dl e))
                | None => Some (u_static v)
                end);
        force_two fuel stree (Build t heap (u_len v + 1) (u_max v) depth max_code (wrap W (u_opt v - 1)) slen)
      else Some v
  end.

(** [for (n = s->heap_len/2; n >= 1; n--) pqdownheap(s, tree, n);] *)
Fixpoint heapify (n : nat) (t : tree) (depth heap : list Z) (heap_len : Z) : option (list Z) :=
  match n with
  | O => Some heap
  | S n' => heap ← pqdownheap t depth heap heap_len (Z.of_nat n); heapify n' t depth heap heap_len
  end.

(** [do ... while (s->heap_len >= 2)]: combining the two least frequent nodes. *)
Fixpoint combine (fuel : nat) (node : Z) (v : build) : option build :=
  match fuel with
  | O => None
  | S fuel =>
      '(n, heap, len) ← pqremove (u_tree v) (u_depth v) (u_heap v) (u_len v);
      m ← aget heap SMALLEST;
      heap ← aset heap (u_max v - 1) n;
      heap ← aset heap (u_max v - 2) m;
      en ← aget (u_tree v) n;
      em ← aget (u_tree v) m;
      t ← set_fc (u_tree v) node (fc en + fc em);
      dn ← aget (u_depth v) n;
      dm ← aget (u_depth v) m;
      depth ← aset (u_depth v) node (wrap 8 ((if dn >=? dm then dn else dm) + 1));
      t ← set_dl t m node;
      t ← set_dl t n node;
      heap ← aset heap SMALLEST node;
      heap ← pqdownheap t depth heap len SMALLEST;
      let v := Build t heap len (u_max v - 2) depth (u_code v) (u_opt v) (u_static v) in
      if len >=? 2 then combine fuel (node + 1) v else Some v
  end.

Definition build_tree (d : tree_desc) (s : huff_state) : option (tree_desc * huff_state) :=
  let stat := stat_desc d in
  '(t, hp, len, dep, mcode) ←
    init_heap (Z.to_nat (elems stat)) 0 (dyn_tree d) (heap s) 0 (depth s) (-1);
  v ← force_two 3 (static_tree stat)
        (Build t hp len HEAP_SIZE dep mcode (opt_len s) (static_len s));
  hp ← heapify (Z.to_nat (u_len v / 2)) (u_tree v) (u_depth v) (u_heap v) (u_len v);
  v ← combine (Z.to_nat (u_len v)) (elems stat)
        (Build (u_tree v) hp (u_len v) (u_max v) (u_depth v) (u_code v) (u_opt v) (u_static v));
  top ← aget (u_heap v) SMALLEST;
  hp ← aset (u_heap v) (u_max v - 1) top;
  '(d, s) ← gen_bitlen (Desc (u_tree v) (u_code v) stat)
              (Huff (bl_count s) hp (u_len v) (u_max v - 1) (u_depth v) (u_opt v) (u_static v));
  t ← gen_codes (dyn_tree d) (max_code d) (bl_count s);
  Some (Desc t (max_code d) stat, s).
End Width.
