(* ===== verification/TreesCodes.v ===== *)
(** * The codes of a tree (bi_reverse and gen_codes of trees.c)

    [gen_codes] gives every element of nonzero length the canonical code of its
    length, first bit in the lowest position: [coded_tree]. *)
From stdpp Require Import base numbers list.
From Stdlib Require Import ZArith Lia Bool.
From S2P Require Import Prelude Huffman Trees.

(** ** [bi_reverse] *)

Lemma bi_reverse_loop_spec n code r :
  (0 < n)%nat -> 0 <= r -> (r + 1) * 2 ^ Z.of_nat n <= 2 ^ 31 ->
  Z.shiftr (bi_reverse_loop n code (2 * r)) 1 = r * 2 ^ Z.of_nat n + bits_z (msb_bits n code).
Proof.
  revert code r. induction n as [|n IH]; intros code r Hn Hr Hb; [lia|].
  assert (Eb : Z.land code 1 = Z.b2z (Z.odd code)).
  { change 1 with (Z.ones 1). rewrite Z.land_ones by lia. change (2 ^ 1) with 2.
    rewrite Zmod_odd. by destruct (Z.odd code). }
  assert (Hodd : 0 <= Z.b2z (Z.odd code) <= 1) by (by destruct (Z.odd code)).
  assert (Ew : wrap 32 (Z.shiftl (2 * r + Z.b2z (Z.odd code)) 1) = 2 * (2 * r + Z.b2z (Z.odd code))).
  { rewrite shiftl1. apply Z.mod_small. rewrite Nat2Z.inj_succ, Z.pow_succ_r in Hb by lia.
    pose proof (Z.pow_pos_nonneg 2 (Z.of_nat n) ltac:(lia) ltac:(lia)).
    change (2 ^ 31) with 2147483648 in Hb. change (2 ^ 32) with 4294967296. nia. }
  cbn [bi_reverse_loop]. rewrite Eb, lor_bit, Ew. unfold msb_bits. cbn [z_bits rev].
  rewrite bits_z_app. cbn [bits_z]. fold (msb_bits n (Z.div2 code)).
  rewrite Z.mul_0_r, Z.add_0_r, length_msb_bits. destruct n as [|n].
  - rewrite Z.shiftr_div_pow2 by lia. change (2 ^ 1) with 2. change (2 ^ Z.of_nat 1) with 2.
    change (bits_z (msb_bits 0 (Z.div2 code))) with 0. change (2 ^ Z.of_nat 0) with 1.
    rewrite (Z.mul_comm 2), Z.div_mul by lia. lia.
  - rewrite IH; [|lia|lia|].
    + rewrite Z.div2_spec. rewrite !Nat2Z.inj_succ, !Z.pow_succ_r by lia. lia.
    + rewrite (Nat2Z.inj_succ (S n)), Z.pow_succ_r in Hb by lia. nia.
Qed.

Lemma bi_reverse_bits len code :
  1 <= len <= 16 ->
  0 <= bi_reverse code len < 2 ^ len /\
  z_bits (Z.to_nat len) (bi_reverse code len) = msb_bits (Z.to_nat len) code.
Proof.
  intros Hl. unfold bi_reverse.
  pose proof (bi_reverse_loop_spec (Z.to_nat len) code 0) as E. change (2 * 0) with 0 in E.
  rewrite E; [|lia|lia|].
  - rewrite Z.mul_0_l, Z.add_0_l. pose proof (bits_z_bound (msb_bits (Z.to_nat len) code)) as Hb.
    rewrite length_msb_bits, Z2Nat.id in Hb by lia. split; [exact Hb|].
    rewrite <- (length_msb_bits (Z.to_nat len) code) at 1. apply z_bits_bits_z.
  - rewrite Z2Nat.id by lia. rewrite Z.add_0_l, Z.mul_1_l. apply Z.pow_le_mono_r; lia.
Qed.

(** ** [gen_codes] *)

(** The lengths of the first [k] elements. *)
Definition lens_of (t : tree) (k : Z) : list Z := map dl (take (Z.to_nat k) t).

Lemma lens_of_length t k : 0 <= k <= Z.of_nat (length t) -> Z.of_nat (length (lens_of t k)) = k.
Proof. intros H. unfold lens_of. rewrite length_map, length_take. lia. Qed.

Lemma aget_lens_of t k n :
  0 <= n < k -> aget (lens_of t k) n = option_map dl (aget t n).
Proof.
  intros Hn. unfold lens_of, aget. destruct (Z.leb_spec 0 n); [|lia].
  rewrite list_lookup_fmap, lookup_take_lt by lia. by destruct (t !! Z.to_nat n).
Qed.

Lemma lens_of_ext t t' k :
  length t' = length t -> (forall n, 0 <= n < k -> option_map dl (aget t' n) = option_map dl (aget t n)) ->
  lens_of t' k = lens_of t k.
Proof.
  intros El H. apply list_eq. intros i. unfold lens_of.
  rewrite !list_lookup_fmap. destruct (decide (i < Z.to_nat k)%nat) as [Hi|Hi].
  - rewrite !lookup_take_lt by done. specialize (H (Z.of_nat i) ltac:(lia)). unfold aget in H.
    destruct (Z.leb_spec 0 (Z.of_nat i)); [|lia]. rewrite Nat2Z.id in H. exact H.
  - by rewrite !lookup_take_ge by lia.
Qed.

(** The elements below [k] of nonzero length hold the codes of the lengths. *)
Definition coded_tree (t : tree) (k : Z) : Prop :=
  forall n e, 0 <= n < k -> aget t n = Some e -> 0 < dl e ->
    0 <= fc e < 2 ^ dl e /\
    code_bits (lens_of t k) n = Some (z_bits (Z.to_nat (dl e)) (fc e)).

(** [cnt] has the numbers of codes of each length. *)
Definition counts (cnt lens : list Z) : Prop :=
  length cnt = 16%nat /\ forall l, (l <= 15)%nat -> aget cnt (Z.of_nat l) = Some (code_count lens l).

Section Codes.
Context (lens : list Z) (Hover : not_over lens 15).

Lemma first_code_bound l : (1 <= l <= 15)%nat -> 0 <= first_code lens l + code_count lens l <= 2 ^ Z.of_nat l.
Proof using Hover.
  intros Hl. pose proof (Hover l ltac:(lia)) as H. rewrite codes_left_eq in H.
  pose proof (first_code_nonneg lens l). pose proof (code_count_nonneg lens l). lia.
Qed.

Lemma pow15 l : (l <= 15)%nat -> 0 < 2 ^ Z.of_nat l <= 32768.
Proof using. intros H. split; [apply Z.pow_pos_nonneg; lia|]. change 32768 with (2 ^ 15). apply Z.pow_le_mono_r; lia. Qed.

Lemma make_next_spec n l cnt next :
  counts cnt lens -> (n + l = 15)%nat -> length next = 16%nat ->
  (forall k, (1 <= k <= l)%nat -> aget next (Z.of_nat k) = Some (first_code lens k)) ->
  exists next', make_next n (Z.of_nat l + 1) (first_code lens l) cnt next = Some next' /\ length next' = 16%nat /\
    forall k, (1 <= k <= 15)%nat -> aget next' (Z.of_nat k) = Some (first_code lens k).
Proof using Hover.
  intros [_ Hc]. revert l next. induction n as [|n IH]; intros l next Hl Hn Hk.
  { exists next. assert (l = 15%nat) as -> by lia. done. }
  cbn [make_next]. replace (Z.of_nat l + 1 - 1) with (Z.of_nat l) by lia. rewrite Hc by lia. cbn [mbind option_bind].
  assert (Ef : wrap 32 (Z.shiftl (first_code lens l + code_count lens l) 1) = first_code lens (S l)).
  { rewrite shiftl1. cbn [first_code]. apply Z.mod_small. pose proof (first_code_bound (S l) ltac:(lia)) as H.
    pose proof (pow15 (S l) ltac:(lia)). cbn [first_code] in H. pose proof (first_code_nonneg lens l).
    pose proof (code_count_nonneg lens l). pose proof (code_count_nonneg lens (S l)).
    change (2 ^ 32) with 4294967296. lia. }
  rewrite Ef. assert (Ew : wrap 16 (first_code lens (S l)) = first_code lens (S l)).
  { apply Z.mod_small. pose proof (first_code_bound (S l) ltac:(lia)). pose proof (pow15 (S l) ltac:(lia)).
    pose proof (first_code_nonneg lens (S l)). pose proof (code_count_nonneg lens (S l)).
    change (2 ^ 16) with 65536. lia. }
  rewrite Ew. destruct (aset_ok next (Z.of_nat l + 1) (first_code lens (S l))) as (next' & -> & El & Hg); [lia|].
  cbn [mbind option_bind]. replace (Z.of_nat l + 1) with (Z.of_nat (S l)) in * by lia.
  apply (IH (S l)); [lia|congruence|]. intros k Hk'. rewrite Hg.
  destruct (Z.eqb_spec (Z.of_nat k) (Z.of_nat (S l))) as [E|E]; [by replace k with (S l) by lia|].
  apply Hk. lia.
Qed.

(** The next code of each length after the first [n] elements. *)
Definition next_ok (next : list Z) (n : Z) : Prop :=
  length next = 16%nat /\
  forall l, (1 <= l <= 15)%nat -> aget next (Z.of_nat l) = Some (first_code lens l + rank lens n (Z.of_nat l)).

Lemma codes_pass_spec k n t next :
  Forall (fun l => 0 <= l <= 15) lens -> 0 <= n -> n + Z.of_nat k = Z.of_nat (length lens) ->
  (length lens <= length t)%nat -> lens_of t (Z.of_nat (length lens)) = lens -> next_ok next n ->
  (forall i e, 0 <= i < n -> aget t i = Some e -> 0 < dl e ->
     0 <= fc e < 2 ^ dl e /\ code_bits lens i = Some (z_bits (Z.to_nat (dl e)) (fc e))) ->
  exists t', codes_pass k n t next = Some t' /\ length t' = length t /\
    (forall i, option_map dl (aget t' i) = option_map dl (aget t i)) /\
    (forall i, n + Z.of_nat k <= i -> aget t' i = aget t i) /\
    (forall i e, 0 <= i < Z.of_nat (length lens) -> aget t' i = Some e -> 0 < dl e ->
       0 <= fc e < 2 ^ dl e /\ code_bits lens i = Some (z_bits (Z.to_nat (dl e)) (fc e))).
Proof using Hover.
  intros Hf. revert n t next. induction k as [|k IH]; intros n t next Hn Hk Hlen Hl Hnext Hdone.
  { exists t. cbn [codes_pass]. split_and!; try done. intros i e Hi. apply Hdone. lia. }
  cbn [codes_pass]. destruct (aget_range t n) as [e He]; [lia|]. rewrite He. cbn [mbind option_bind].
  assert (Hx : aget lens n = Some (dl e)) by (rewrite <- Hl, aget_lens_of, He by lia; done).
  assert (Hr : 0 <= dl e <= 15).
  { pose proof Hx as [_ H]%aget_Some. exact (Forall_lookup_1 _ _ _ _ Hf H). }
  destruct Hnext as [Hnl Hnext].
  destruct (Z.eqb_spec (dl e) 0) as [E0|E0].
  - destruct (IH (n + 1) t next) as (t' & -> & El & Ed & Eo & Hc); try done; try lia.
    + split; [done|]. intros l Hl'. rewrite (rank_next _ _ _ _ Hx), E0.
      destruct (Z.eqb_spec 0 (Z.of_nat l)); [lia|]. rewrite Z.add_0_r. by apply Hnext.
    + intros i x Hi Hix Hpos. destruct (decide (i = n)) as [->|].
      { rewrite He in Hix. injection Hix as <-. lia. }
      apply Hdone; [lia|done|done].
    + exists t'. split_and!; try done. intros i Hi. apply Eo. lia.
  - assert (Hsym : is_sym lens n (dl e)) by (split; [done|lia]).
    pose proof (Hnext (Z.to_nat (dl e)) ltac:(lia)) as Hc. rewrite Z2Nat.id in Hc by lia.
    fold (code_val lens n (dl e)) in Hc. rewrite Hc. cbn [mbind option_bind].
    pose proof (code_val_fits lens n (dl e) 15 Hsym Hover ltac:(lia)) as Hv.
    pose proof (pow15 (Z.to_nat (dl e)) ltac:(lia)) as Hp. rewrite Z2Nat.id in Hp by lia.
    assert (Ew : wrap 16 (code_val lens n (dl e) + 1) = code_val lens n (dl e) + 1).
    { apply Z.mod_small. change (2 ^ 16) with 65536. lia. }
    rewrite Ew.
    destruct (aset_ok next (dl e) (code_val lens n (dl e) + 1)) as (next' & -> & Enl & Hg); [lia|].
    cbn [mbind option_bind]. unfold set_fc. rewrite He. cbn [mbind option_bind].
    destruct (bi_reverse_bits (dl e) (code_val lens n (dl e))) as [Hrb Hrz]; [lia|].
    assert (Ewr : wrap 16 (bi_reverse (code_val lens n (dl e)) (dl e)) = bi_reverse (code_val lens n (dl e)) (dl e)).
    { apply Z.mod_small. change (2 ^ 16) with 65536. lia. }
    rewrite Ewr. set (c := bi_reverse _ _) in *.
    destruct (aset_ok t n (Ct c (dl e))) as (t1 & -> & El1 & Hg1); [lia|]. cbn [mbind option_bind].
    assert (Hd1 : forall i, option_map dl (aget t1 i) = option_map dl (aget t i)).
    { intros i. rewrite Hg1. destruct (Z.eqb_spec i n) as [->|]; [by rewrite He|done]. }
    destruct (IH (n + 1) t1 next') as (t' & -> & El & Ed & Eo & Hcd); try done; try lia.
    + rewrite <- Hl at 2. apply lens_of_ext; [done|]. intros i _. apply Hd1.
    + split; [congruence|]. intros l Hl'. rewrite Hg, (rank_next _ _ _ _ Hx).
      destruct (Z.eqb_spec (Z.of_nat l) (dl e)) as [E|E], (Z.eqb_spec (dl e) (Z.of_nat l)) as [E'|E']; try lia.
      * unfold code_val. rewrite <- E, Nat2Z.id. f_equal. lia.
      * rewrite Z.add_0_r. by apply Hnext.
    + intros i x Hi Hix Hpos. rewrite Hg1 in Hix. destruct (Z.eqb_spec i n) as [->|].
      * injection Hix as <-. cbn [dl fc] in *. split; [done|]. apply code_bits_Some. exists (dl e).
        split; [done|]. by rewrite Hrz.
      * apply Hdone; [lia|done|done].
    + exists t'. split; [done|]. split; [congruence|]. split; [intros i; by rewrite Ed|]. split; [|done].
      intros i Hi. rewrite Eo by lia. rewrite Hg1. destruct (Z.eqb_spec i n); [lia|done].
Qed.
End Codes.

Lemma gen_codes_spec t max_code cnt :
  -1 <= max_code < Z.of_nat (length t) ->
  let lens := lens_of t (max_code + 1) in
  Forall (fun l => 0 <= l <= 15) lens -> not_over lens 15 -> counts cnt lens ->
  exists t', gen_codes t max_code cnt = Some t' /\ length t' = length t /\
    lens_of t' (max_code + 1) = lens /\ coded_tree t' (max_code + 1) /\
    forall i, max_code < i -> aget t' i = aget t i.
Proof.
  intros Hm lens Hf Ho Hc. unfold gen_codes.
  assert (Hll : Z.of_nat (length lens) = max_code + 1) by (apply lens_of_length; lia).
  destruct (make_next_spec lens Ho 15 0 cnt (replicate 16 0)) as (next & En & Hnl & Hn); try done.
  { intros k Hk. lia. }
  change (Z.to_nat MAX_BITS) with 15%nat. change (Z.to_nat (MAX_BITS + 1)) with 16%nat.
  change (Z.of_nat 0 + 1) with 1 in En. change (first_code lens 0) with 0 in En. rewrite En. cbn [mbind option_bind].
  destruct (codes_pass_spec lens Ho (Z.to_nat (max_code + 1)) 0 t next) as (t' & -> & El & Ed & Eo & Hcd);
    try done; try lia.
  - by rewrite Hll.
  - split; [done|]. intros l Hl. rewrite Hn by done. f_equal. change (rank lens 0 (Z.of_nat l)) with 0. lia.
  - exists t'. assert (E : lens_of t' (max_code + 1) = lens) by (apply lens_of_ext; [done|auto]).
    split_and!; try done.
    + intros n e Hn' He Hpos. rewrite E. apply Hcd; [lia|done|done].
    + intros i Hi. apply Eo. lia.
Qed.
