(* ===== verification/TreesHeap.v ===== *)
(** * The heap of build_tree

    [pqdownheap] permutes the elements [heap[1..heap_len]] and touches no
    other; it ends and stays within its arrays. *)
From stdpp Require Import base numbers list.
From Stdlib Require Import ZArith Lia Bool.
From S2P Require Import Prelude Trees.

(** Exchanging two elements. *)
Lemma swap_permutation {A} (l : list A) i j x y :
  l !! i = Some x -> l !! j = Some y -> <[j := x]> (<[i := y]> l) ≡ₚ l.
Proof.
  intros Hi Hj. destruct (decide (i = j)) as [->|Hne].
  { rewrite list_insert_insert_eq. rewrite list_insert_id; [done|congruence]. }
  apply lookup_lt_Some in Hi as Li. apply lookup_lt_Some in Hj as Lj.
  apply Permutation_inj. split; [by rewrite !length_insert|].
  exists (fun k => if decide (k = i) then j else if decide (k = j) then i else k). split.
  - intros a b. repeat case_decide; congruence.
  - intros k. destruct (decide (k = j)) as [->|Hk].
    + rewrite list_lookup_insert_eq by (by rewrite length_insert).
      case_decide; [done|]. congruence.
    + rewrite list_lookup_insert_ne by done. destruct (decide (k = i)) as [->|Hk'].
      * rewrite list_lookup_insert_eq by done. congruence.
      * by rewrite list_lookup_insert_ne.
Qed.

(** The nodes in the heap. *)
Definition slice (hp : list Z) (len : Z) : list Z := take (Z.to_nat len) (drop 1 hp).

Lemma slice_length hp len : 0 <= len < Z.of_nat (length hp) -> Z.of_nat (length (slice hp len)) = len.
Proof. intros H. unfold slice. rewrite length_take, length_drop. lia. Qed.

Lemma slice_lookup hp len i x :
  1 <= i <= len -> aget hp i = Some x -> x ∈ slice hp len.
Proof.
  intros Hi [H0 Hx]%aget_Some. apply list_elem_of_lookup. exists (Z.to_nat (i - 1)). unfold slice.
  rewrite lookup_take_lt by lia. rewrite lookup_drop. rewrite <- Hx. f_equal. lia.
Qed.

(** [hp'] is [hp] with the first [len] nodes permuted. *)
Definition reheap (hp hp' : list Z) (len : Z) : Prop :=
  length hp' = length hp /\ slice hp' len ≡ₚ slice hp len /\
  forall i, i < 1 \/ len < i -> aget hp' i = aget hp i.

Lemma reheap_refl len hp : reheap hp hp len.
Proof. done. Qed.

Lemma reheap_trans a b c len : reheap a b len -> reheap b c len -> reheap a c len.
Proof.
  intros (H1 & H2 & H3) (K1 & K2 & K3). split; [congruence|]. split; [by rewrite K2|].
  intros i Hi. by rewrite K3, H3.
Qed.

Lemma reheap_perm hp hp' len :
  0 <= len < Z.of_nat (length hp) -> hp' ≡ₚ hp ->
  (forall i, i < 1 \/ len < i -> aget hp' i = aget hp i) -> reheap hp hp' len.
Proof.
  intros Hl Hp Hi. assert (El : length hp' = length hp) by (by apply Permutation_length).
  split; [done|]. split; [|done].
  assert (E1 : take 1 hp' = take 1 hp).
  { apply list_eq. intros k. destruct (decide (k < 1)%nat); [|by rewrite !lookup_take_ge by lia].
    rewrite !lookup_take_lt by done. specialize (Hi (Z.of_nat k) ltac:(lia)). unfold aget in Hi.
    destruct (Z.leb_spec 0 (Z.of_nat k)); [|lia]. by rewrite Nat2Z.id in Hi. }
  assert (E2 : drop (Z.to_nat len) (drop 1 hp') = drop (Z.to_nat len) (drop 1 hp)).
  { apply list_eq. intros k. rewrite !lookup_drop.
    specialize (Hi (Z.of_nat (1 + (Z.to_nat len + k))) ltac:(lia)). unfold aget in Hi.
    destruct (Z.leb_spec 0 (Z.of_nat (1 + (Z.to_nat len + k)))); [|lia]. by rewrite Nat2Z.id in Hi. }
  rewrite <- (take_drop 1 hp'), <- (take_drop 1 hp), E1 in Hp. apply Permutation_app_inv_l in Hp.
  rewrite <- (take_drop (Z.to_nat len) (drop 1 hp')), <- (take_drop (Z.to_nat len) (drop 1 hp)), E2 in Hp.
  by apply Permutation_app_inv_r in Hp.
Qed.

(** The nodes can be compared. *)
Definition node_ok (t : tree) (dep : list Z) (n : Z) : Prop :=
  0 <= n < Z.of_nat (length t) /\ n < Z.of_nat (length dep).

Lemma smaller_total t dep n m : node_ok t dep n -> node_ok t dep m -> exists b, smaller t dep n m = Some b.
Proof.
  intros [H1 H2] [H3 H4]. unfold smaller.
  destruct (aget_range t n H1) as [a ->], (aget_range t m H3) as [b ->]. cbn [mbind option_bind].
  destruct (fc a <? fc b); [by eexists|]. destruct (fc a =? fc b); [|by eexists].
  destruct (aget_range dep n) as [c Ec]; [lia|]. destruct (aget_range dep m) as [d Ed]; [lia|].
  rewrite Ec. cbn [mbind option_bind]. rewrite Ed. by eexists.
Qed.

(** The left or the right son, whichever is smaller. *)
Definition pick_son (t : tree) (dep hp : list Z) (len j : Z) : option Z :=
  if j <? len then
    r ← aget hp (j + 1); l ← aget hp j; b ← smaller t dep r l; Some (if b : bool then j + 1 else j)
  else Some j.

Lemma pick_son_total t dep hp len j :
  1 <= j <= len -> len < Z.of_nat (length hp) ->
  (forall i x, 1 <= i <= len -> aget hp i = Some x -> node_ok t dep x) ->
  exists j', pick_son t dep hp len j = Some j' /\ j <= j' <= len.
Proof.
  intros Hj Hl Hok. unfold pick_son. destruct (Z.ltb_spec j len); [|exists j; split; [done|lia]].
  destruct (aget_range hp (j + 1)) as [r Hr]; [lia|]. destruct (aget_range hp j) as [l Hlf]; [lia|].
  rewrite Hr, Hlf. cbn [mbind option_bind].
  destruct (smaller_total t dep r l) as [b ->]; [apply (Hok (j + 1)); [lia|done]|apply (Hok j); [lia|done]|].
  cbn [mbind option_bind]. eexists. split; [done|]. destruct b; lia.
Qed.

Lemma pqdownheap_loop_spec fuel t dep hp0 hp len v k j :
  1 <= k <= len -> k < j -> len < Z.of_nat (length hp) -> (Z.to_nat (len + 1 - j) < fuel)%nat ->
  length hp = length hp0 -> node_ok t dep v ->
  (forall i x, 1 <= i <= len -> aget hp i = Some x -> node_ok t dep x) ->
  <[Z.to_nat k := v]> hp ≡ₚ hp0 -> (forall i, i < 1 \/ len < i -> aget hp i = aget hp0 i) ->
  exists hp', pqdownheap_loop fuel t dep hp len v k j = Some hp' /\ reheap hp0 hp' len.
Proof.
  revert hp k j. induction fuel as [|fuel IH]; intros hp k j Hk Hkj Hl Hf Hlen Hv Hok Hp Hout; [lia|].
  assert (Hstop : exists hp', aset hp k v = Some hp' /\ reheap hp0 hp' len).
  { rewrite aset_Some by lia. eexists. split; [done|]. apply reheap_perm; [lia|done|].
    intros i Hi. rewrite aget_insert by lia. destruct (Z.eqb_spec i k); [lia|]. by apply Hout. }
  cbn [pqdownheap_loop]. destruct (Z.leb_spec j len) as [Hj|Hj]; [|exact Hstop].
  fold (pick_son t dep hp len j).
  destruct (pick_son_total t dep hp len j) as (j' & -> & Hj'); [lia..|done|]. cbn [mbind option_bind].
  destruct (aget_range hp j') as [son Hs]; [lia|]. rewrite Hs. cbn [mbind option_bind].
  destruct (smaller_total t dep v son) as [b ->]; [done|by apply (Hok j'); [lia|]|]. cbn [mbind option_bind].
  destruct b; [exact Hstop|].
  rewrite aset_Some by lia. cbn [mbind option_bind]. rewrite shiftl1. apply IH; rewrite ?length_insert; try done; try lia.
  - intros i x Hi. rewrite aget_insert by lia. destruct (Z.eqb_spec i k) as [->|].
    + intros [= <-]. by apply (Hok j'); [lia|].
    + by apply Hok.
  - rewrite <- Hp. rewrite <- (list_insert_insert_eq hp (Z.to_nat k) son v) at 1.
    rewrite (list_insert_insert_eq hp (Z.to_nat k)).
    assert (E : <[Z.to_nat j' := v]> (<[Z.to_nat k := son]> hp)
                = <[Z.to_nat j' := v]> (<[Z.to_nat k := son]> (<[Z.to_nat k := v]> hp))).
    { by rewrite list_insert_insert_eq. }
    rewrite E. apply swap_permutation.
    + apply list_lookup_insert_eq. lia.
    + rewrite list_lookup_insert_ne by lia. by apply aget_Some in Hs as [_ Hs].
  - intros i Hi. rewrite aget_insert by lia. destruct (Z.eqb_spec i k); [lia|]. by apply Hout.
Qed.

Lemma pqdownheap_spec t dep hp len k :
  1 <= k <= len -> len < Z.of_nat (length hp) -> Forall (node_ok t dep) (slice hp len) ->
  exists hp', pqdownheap t dep hp len k = Some hp' /\ reheap hp hp' len.
Proof.
  intros Hk Hl Hf. unfold pqdownheap. destruct (aget_range hp k) as [v Hv]; [lia|]. rewrite Hv. cbn [mbind option_bind].
  assert (Hok : forall i x, 1 <= i <= len -> aget hp i = Some x -> node_ok t dep x).
  { intros i x Hi Hx. rewrite Forall_forall in Hf. apply Hf. by eapply slice_lookup. }
  rewrite shiftl1. apply pqdownheap_loop_spec; try done; try lia; [by apply (Hok k)|].
  rewrite list_insert_id; [done|]. by apply aget_Some in Hv as [_ Hv].
Qed.

Lemma reheap_nodes t dep hp hp' len :
  reheap hp hp' len -> Forall (node_ok t dep) (slice hp len) -> Forall (node_ok t dep) (slice hp' len).
Proof. intros (_ & Hp & _). by rewrite Hp. Qed.

Lemma heapify_spec n t dep hp len :
  Z.of_nat n <= len -> len < Z.of_nat (length hp) -> Forall (node_ok t dep) (slice hp len) ->
  exists hp', heapify n t dep hp len = Some hp' /\ reheap hp hp' len.
Proof.
  revert hp. induction n as [|n IH]; intros hp Hn Hl Hf; [by exists hp|]. cbn [heapify].
  destruct (pqdownheap_spec t dep hp len (Z.of_nat (S n))) as (h1 & -> & R1); [lia|done|done|]. cbn [mbind option_bind].
  destruct (IH h1) as (h2 & -> & R2); [lia|destruct R1; lia|by eapply reheap_nodes|].
  exists h2. split; [done|]. by eapply reheap_trans.
Qed.

(** Removing the element at the top: the others stay. *)
Lemma pqremove_spec t dep hp len :
  2 <= len -> len < Z.of_nat (length hp) -> Forall (node_ok t dep) (slice hp len) ->
  exists top hp', pqremove t dep hp len = Some (top, hp', len - 1) /\ length hp' = length hp /\
    top :: slice hp' (len - 1) ≡ₚ slice hp len /\ forall i, i < 1 \/ len < i -> aget hp' i = aget hp i.
Proof.
  intros H2 Hl Hf. unfold pqremove, SMALLEST.
  destruct (aget_range hp 1) as [top Ht]; [lia|]. destruct (aget_range hp len) as [last Hla]; [lia|].
  rewrite Ht, Hla. cbn [mbind option_bind]. destruct (aset_ok hp 1 last) as (h1 & -> & El & Hg); [lia|].
  cbn [mbind option_bind].
  assert (Hs : top :: slice h1 (len - 1) ≡ₚ slice hp len).
  { unfold slice. apply aget_Some in Ht as [_ Ht]. apply aget_Some in Hla as [_ Hla].
    destruct hp as [|x0 [|x1 hp]]; [done|done|]. injection Ht as ->.
    destruct h1 as [|y0 [|y1 h1]]; [done|done|]. cbn [drop].
    assert (Ey : y1 = last) by (specialize (Hg 1); by injection Hg).
    assert (Eh : h1 = hp).
    { apply list_eq. intros i. specialize (Hg (Z.of_nat (S (S i)))). unfold aget in Hg.
      destruct (Z.leb_spec 0 (Z.of_nat (S (S i)))); [|lia]. rewrite Nat2Z.id in Hg. cbn in Hg.
      destruct (Z.eqb_spec (Z.of_nat (S (S i))) 1); [lia|done]. }
    subst y1 h1. replace (Z.to_nat len) with (S (S (Z.to_nat (len - 2)))) in * by lia.
    replace (Z.to_nat (len - 1)) with (S (Z.to_nat (len - 2))) by lia. cbn [take lookup list_lookup] in *.
    rewrite (take_S_r hp _ last) by done. rewrite <- Permutation_cons_append. done. }
  assert (Hn : Forall (node_ok t dep) (slice h1 (len - 1))).
  { rewrite <- Hs in Hf. by apply Forall_cons in Hf as [_ Hf]. }
  destruct (pqdownheap_spec t dep h1 (len - 1) 1) as (h2 & -> & (El2 & Hp & Ho)); [lia|lia|done|].
  cbn [mbind option_bind]. exists top, h2. split; [done|]. split; [congruence|]. split; [by rewrite Hp|].
  intros i Hi. rewrite Ho by lia. rewrite Hg. destruct (Z.eqb_spec i 1); [lia|done].
Qed.
