(* ===== verification/TreesShape.v ===== *)
(** * The shape of a Huffman tree

    The binary tree that the Dad links of [build_tree] stand for, the depths of
    its nodes, and Kraft's equality for depths cut off at a maximum: the excess
    of the cut-off lengths is half the number of nodes that lie too deep, which
    is what [gen_bitlen] repairs. *)
From stdpp Require Import base numbers list sets.
From Stdlib Require Import ZArith Lia Bool.
From S2P Require Import Prelude Huffman Trees.

Inductive btree :=
| BLeaf (s : Z)
| BNode (id : Z) (l r : btree).

Definition root (T : btree) : Z := match T with BLeaf s => s | BNode id _ _ => id end.

(** The nodes below the root, and all nodes. *)
Fixpoint below (T : btree) : list Z :=
  match T with
  | BLeaf _ => []
  | BNode _ l r => (root l :: below l) ++ (root r :: below r)
  end.
Definition nodes (T : btree) : list Z := root T :: below T.

Fixpoint leaves (T : btree) : list Z :=
  match T with BLeaf s => [s] | BNode _ l r => leaves l ++ leaves r end.

Fixpoint inner (T : btree) : list Z :=
  match T with BLeaf s => [] | BNode id l r => id :: inner l ++ inner r end.

Lemma nodes_perm T : nodes T ≡ₚ inner T ++ leaves T.
Proof.
  induction T as [s|id l IHl r IHr]; [done|].
  change (nodes (BNode id l r)) with (id :: nodes l ++ nodes r). rewrite IHl, IHr. cbn [inner leaves app].
  solve_Permutation.
Qed.

(** The nodes with their depths, the root at [d]. *)
Fixpoint depths (T : btree) (d : nat) : list (Z * nat) :=
  match T with
  | BLeaf s => [(s, d)]
  | BNode id l r => (id, d) :: depths l (S d) ++ depths r (S d)
  end.

Lemma depths_fst T d : map fst (depths T d) = nodes T.
Proof.
  revert d. induction T as [s|id l IHl r IHr]; intros d; [done|]. unfold nodes in *.
  cbn [depths map root below]. by rewrite map_app, IHl, IHr.
Qed.

Lemma depths_root T d : (root T, d) ∈ depths T d.
Proof. destruct T; cbn; left. Qed.

Lemma depths_ge T d n k : (n, k) ∈ depths T d -> (d <= k)%nat.
Proof.
  revert d. induction T as [s|id l IHl r IHr]; intros d; cbn [depths].
  - intros [= -> ->]%list_elem_of_singleton. lia.
  - intros [[= -> ->]|[H|H]%elem_of_app]%elem_of_cons; [lia|apply IHl in H; lia|apply IHr in H; lia].
Qed.

Lemma depths_inj T d n k k' : NoDup (nodes T) -> (n, k) ∈ depths T d -> (n, k') ∈ depths T d -> k = k'.
Proof.
  rewrite <- (depths_fst T d). generalize (depths T d). induction l as [|[m j] l IH]; cbn [map fst]; [by intros _ H%elem_of_nil|].
  intros [Hm Hd]%NoDup_cons [[= -> ->]|H1]%elem_of_cons [[= ->]|H2]%elem_of_cons; try done; subst.
  - destruct Hm. apply list_elem_of_fmap. by exists (m, k').
  - destruct Hm. apply list_elem_of_fmap. by exists (m, k).
  - by apply IH.
Qed.

(** ** Representation in the array *)

Definition dlat (t : tree) (n : Z) : option Z := option_map dl (aget t n).

(** The Dad of every node below the root. *)
Fixpoint rep (t : tree) (T : btree) : Prop :=
  match T with
  | BLeaf _ => True
  | BNode id l r => dlat t (root l) = Some id /\ dlat t (root r) = Some id /\ rep t l /\ rep t r
  end.

Lemma rep_frame t t' T : rep t T -> (forall n, n ∈ below T -> dlat t' n = dlat t n) -> rep t' T.
Proof.
  induction T as [s|id l IHl r IHr]; [done|]. cbn [rep below]. intros (H1 & H2 & H3 & H4) Hf.
  split_and!.
  - rewrite Hf; [done|]. set_solver.
  - rewrite Hf; [done|]. set_solver.
  - apply IHl; [done|]. intros n Hn. apply Hf. set_solver.
  - apply IHr; [done|]. intros n Hn. apply Hf. set_solver.
Qed.

(** A node below the root has a Dad one level up. *)
Lemma rep_dad t T d n :
  rep t T -> n ∈ below T ->
  exists p k, dlat t n = Some p /\ (p, k) ∈ depths T d /\ (n, S k) ∈ depths T d /\ p ∈ inner T.
Proof.
  revert d. induction T as [s|id l IHl r IHr]; intros d; cbn [rep below depths inner]; [by intros _ ?%elem_of_nil|].
  intros (H1 & H2 & H3 & H4) [[->|Hn]%elem_of_cons|[->|Hn]%elem_of_cons]%elem_of_app.
  - exists id, d. pose proof (depths_root l (S d)). set_solver.
  - destruct (IHl (S d) H3 Hn) as (p & k & ? & ? & ? & ?). exists p, k. set_solver.
  - exists id, d. pose proof (depths_root r (S d)). set_solver.
  - destruct (IHr (S d) H4 Hn) as (p & k & ? & ? & ? & ?). exists p, k. set_solver.
Qed.

(** ** Kraft's equality *)

Section Kraft.
Context (M : nat).

(** The weight of the leaves with their depths cut off, and the nodes too deep. *)
Fixpoint weight (T : btree) (d : nat) : Z :=
  match T with
  | BLeaf _ => 2 ^ (Z.of_nat M - Z.of_nat (d `min` M))
  | BNode _ l r => weight l (S d) + weight r (S d)
  end.

Fixpoint too_deep (T : btree) (d : nat) : Z :=
  (if decide (M < d)%nat then 1 else 0) +
  match T with BLeaf _ => 0 | BNode _ l r => too_deep l (S d) + too_deep r (S d) end.

Lemma weight_deep T d :
  (M < d)%nat -> weight T d = Z.of_nat (length (leaves T)) /\ too_deep T d = 2 * Z.of_nat (length (leaves T)) - 1.
Proof.
  revert d. induction T as [s|id l IHl r IHr]; intros d Hd; cbn [weight too_deep leaves].
  - rewrite decide_True by done. replace (d `min` M)%nat with M by lia. rewrite Z.sub_diag. done.
  - destruct (IHl (S d)) as [-> ->]; [lia|]. destruct (IHr (S d)) as [-> ->]; [lia|].
    rewrite decide_True by done. rewrite length_app. lia.
Qed.

Lemma leaves_pos T : (0 < length (leaves T))%nat.
Proof. induction T; cbn [leaves]; rewrite ?length_app; [cbn; lia|lia]. Qed.

Lemma kraft_cut T d :
  (d <= M)%nat -> 2 * weight T d = 2 * 2 ^ (Z.of_nat M - Z.of_nat d) + too_deep T d.
Proof.
  revert d. induction T as [s|id l IHl r IHr]; intros d Hd; cbn [weight too_deep].
  - rewrite decide_False by lia. replace (d `min` M)%nat with d by lia. lia.
  - rewrite decide_False by lia. destruct (decide (d = M)) as [->|].
    + destruct (weight_deep l (S M)) as [-> ->]; [lia|]. destruct (weight_deep r (S M)) as [-> ->]; [lia|].
      rewrite Z.sub_diag. change (2 ^ 0) with 1. lia.
    + pose proof (IHl (S d) ltac:(lia)). pose proof (IHr (S d) ltac:(lia)).
      replace (Z.of_nat M - Z.of_nat d) with (Z.succ (Z.of_nat M - Z.of_nat (S d))) by lia.
      rewrite Z.pow_succ_r by lia. lia.
Qed.

(** The number of leaves whose cut-off depth is [k]. *)
Fixpoint leaf_count (T : btree) (d k : nat) : Z :=
  match T with
  | BLeaf _ => if decide (d `min` M = k)%nat then 1 else 0
  | BNode _ l r => leaf_count l (S d) k + leaf_count r (S d) k
  end.

Lemma leaf_count_nonneg T d k : 0 <= leaf_count T d k.
Proof. revert d. induction T; intros d; cbn [leaf_count]; [case_decide; lia|]. specialize (IHT1 (S d)). specialize (IHT2 (S d)). lia. Qed.

Lemma leaf_count_deep T d : (M <= d)%nat -> leaf_count T d M = Z.of_nat (length (leaves T)).
Proof.
  revert d. induction T as [s|id l IHl r IHr]; intros d Hd; cbn [leaf_count leaves].
  - by rewrite decide_True by lia.
  - rewrite IHl, IHr, length_app by lia. lia.
Qed.

Lemma too_deep_nonneg T d : 0 <= too_deep T d.
Proof. revert d. induction T; intros d; cbn [too_deep]; case_decide; try specialize (IHT1 (S d)); try specialize (IHT2 (S d)); lia. Qed.

(** With nodes too deep, more than half as many leaves are at the maximum. *)
Lemma too_deep_leaves T d :
  (d <= M)%nat -> too_deep T d = 0 \/ too_deep T d + 2 <= 2 * leaf_count T d M.
Proof.
  revert d. induction T as [s|id l IHl r IHr]; intros d Hd; cbn [too_deep leaf_count].
  - left. by rewrite decide_False by lia.
  - rewrite decide_False by lia. destruct (decide (d = M)) as [->|].
    + right. destruct (weight_deep l (S M)) as [_ ->]; [lia|]. destruct (weight_deep r (S M)) as [_ ->]; [lia|].
      rewrite !leaf_count_deep by lia. lia.
    + destruct (IHl (S d)) as [El|El], (IHr (S d)) as [Er|Er]; try lia;
        pose proof (leaf_count_nonneg l (S d) M); pose proof (leaf_count_nonneg r (S d) M); lia.
Qed.
End Kraft.

(** ** Codes left over, for counts of each length *)

Fixpoint left_over (c : nat -> Z) (n : nat) : Z :=
  match n with O => 1 | S n' => 2 * left_over c n' - c n end.

(** The share of the codes that is taken. *)
Fixpoint taken (c : nat -> Z) (n : nat) : Z :=
  match n with O => 0 | S n' => 2 * taken c n' + c n end.

Lemma left_over_taken c n : left_over c n = 2 ^ Z.of_nat n - taken c n.
Proof.
  induction n as [|n IH]; [done|]. cbn [left_over taken]. rewrite IH, Nat2Z.inj_succ, Z.pow_succ_r by lia. lia.
Qed.

Lemma codes_left_left_over lens n : codes_left lens n = left_over (code_count lens) n.
Proof. induction n as [|n IH]; [done|]. cbn [codes_left left_over]. by rewrite IH. Qed.

Lemma left_over_ext c c' n : (forall k, (1 <= k <= n)%nat -> c k = c' k) -> left_over c n = left_over c' n.
Proof. induction n as [|n IH]; intros H; [done|]. cbn [left_over]. rewrite IH, H by (intros; apply H || lia; lia). done. Qed.

Lemma taken_add c c' n : taken (fun k => c k + c' k) n = taken c n + taken c' n.
Proof. induction n as [|n IH]; [done|]. cbn [taken]. rewrite IH. lia. Qed.

Lemma taken_single n j : (1 <= j <= n)%nat -> taken (fun k => if decide (j = k) then 1 else 0) n = 2 ^ (Z.of_nat n - Z.of_nat j).
Proof.
  induction n as [|n IH]; intros Hj; [lia|]. cbn [taken]. case_decide as E.
  - subst j. assert (H0 : forall m, (m <= n)%nat -> taken (fun k => if decide (S n = k) then 1 else 0) m = 0).
    { induction m as [|m IHm]; intros Hm; [done|]. cbn [taken]. rewrite IHm by lia. case_decide; lia. }
    rewrite H0 by lia. by rewrite Z.sub_diag.
  - rewrite IH by lia. replace (Z.of_nat (S n) - Z.of_nat j) with (Z.succ (Z.of_nat n - Z.of_nat j)) by lia.
    rewrite Z.pow_succ_r by lia. lia.
Qed.

Lemma taken_weight M T d : (1 <= d)%nat -> (1 <= M)%nat -> taken (leaf_count M T d) M = weight M T d.
Proof.
  revert d. induction T as [s|id l IHl r IHr]; intros d Hd HM; cbn [leaf_count weight].
  - by rewrite taken_single by lia.
  - rewrite (taken_add (leaf_count M l (S d)) (leaf_count M r (S d))). by rewrite IHl, IHr by lia.
Qed.

(** The whole tree: twice the lack of codes is the number of nodes too deep. *)
Lemma kraft_tree M id l r :
  (1 <= M)%nat -> 2 * left_over (leaf_count M (BNode id l r) 0) M = - too_deep M (BNode id l r) 0.
Proof.
  intros HM. rewrite left_over_taken. cbn [leaf_count].
  rewrite (taken_add (leaf_count M l 1) (leaf_count M r 1)), !taken_weight by lia.
  pose proof (kraft_cut M (BNode id l r) 0 ltac:(lia)) as H. cbn [weight] in H.
  change (Z.of_nat 0) with 0 in H. rewrite Z.sub_0_r in H. lia.
Qed.
