(* ===== verification/TreesBitlen.v ===== *)
(** * gen_bitlen: the lengths of the codes

    The first pass gives every node its depth, cut off at the maximum; the
    repair of the counts makes the code complete again; the second pass gives the
    leaves lengths with the repaired counts. *)
From stdpp Require Import base numbers list sets.
From Stdlib Require Import ZArith Lia Bool.
From S2P Require Import Prelude Huffman Trees TreesCodes TreesShape.

Definition fcat (t : tree) (n : Z) : option Z := option_map fc (aget t n).

(** ** What a tree costs, in bits *)

Definition freq_at (t : tree) (n : Z) : Z := default 0 (fcat t n).
Definition len_at (t : tree) (n : Z) : Z := default 0 (dlat t n).

(** The extra bits of the symbol [n]. *)
Definition xbits_of (stat : static_tree_desc) (n : Z) : Z :=
  if n >=? extra_base stat then default 0 (aget (extra_bits stat) (n - extra_base stat)) else 0.

(** The occurrences of [n] under codes with the lengths [len], and under the static codes. *)
Definition bit_cost (stat : static_tree_desc) (t : tree) (len : Z -> Z) (n : Z) : Z :=
  freq_at t n * (len n + xbits_of stat n).
Definition static_cost (stat : static_tree_desc) (t : tree) (n : Z) : Z :=
  match static_tree stat with Some st => bit_cost stat t (len_at st) n | None => 0 end.

(** Storing a length, with what is read afterwards. *)
Lemma set_dl_ok t n v :
  0 <= n < Z.of_nat (length t) -> 0 <= v < 2 ^ 16 ->
  exists t', set_dl t n v = Some t' /\ length t' = length t /\ (forall m, fcat t' m = fcat t m) /\
    forall m, dlat t' m = if m =? n then Some v else dlat t m.
Proof.
  intros Hn Hv. unfold set_dl. destruct (aget_range t n Hn) as [c Hc]. rewrite Hc. cbn [mbind option_bind].
  assert (Ew : wrap 16 v = v) by (by apply Z.mod_small). rewrite Ew.
  destruct (aset_ok t n (Ct (fc c) v) Hn) as (t' & -> & El & Hg). exists t'. split_and!; try done.
  - intros m. unfold fcat. rewrite Hg. destruct (Z.eqb_spec m n) as [->|]; [by rewrite Hc|done].
  - intros m. unfold dlat. rewrite Hg. by destruct (m =? n).
Qed.

Lemma dlat_range t n x : dlat t n = Some x -> 0 <= n < Z.of_nat (length t).
Proof. unfold dlat. intros H. destruct (aget t n) eqn:E; [|done]. by apply aget_Some_lt in E. Qed.

Lemma dlat_aget t n x : dlat t n = Some x -> exists e, aget t n = Some e /\ dl e = x.
Proof. unfold dlat. intros H. destruct (aget t n) as [e|]; [|done]. exists e. by injection H. Qed.

(** ** Depths as a function *)

Fixpoint assoc (l : list (Z * nat)) (n : Z) : nat :=
  match l with [] => O | (m, k) :: l => if m =? n then k else assoc l n end.

Lemma assoc_spec l n k : NoDup (map fst l) -> (n, k) ∈ l -> assoc l n = k.
Proof.
  induction l as [|[m j] l IH]; cbn [map fst assoc]; [by intros _ ?%elem_of_nil|].
  intros [Hm Hd]%NoDup_cons [[= -> ->]|Hin]%elem_of_cons; [by rewrite Z.eqb_refl|].
  destruct (Z.eqb_spec m n) as [->|]; [|by apply IH]. destruct Hm. apply list_elem_of_fmap. by exists (n, k).
Qed.

Lemma filter_assoc (P : Z -> nat -> Prop) `{forall n k, Decision (P n k)} l0 l :
  NoDup (map fst l0) -> (forall p, p ∈ l -> p ∈ l0) ->
  length (filter (fun n => P n (assoc l0 n)) (map fst l)) = length (filter (fun p : Z * nat => P p.1 p.2) l).
Proof.
  intros Hd. induction l as [|[n k] l IH]; intros Hin; [done|]. cbn [map fst].
  rewrite !filter_cons. cbn [fst snd]. rewrite (assoc_spec l0 n k) by (done || (apply Hin; left)).
  destruct (decide (P n k)); cbn [length]; rewrite IH; try done; intros q Hq; apply Hin; by right.
Qed.

Section Pass.
Context (W : Z) (stat : static_tree_desc) (mc : Z) (T : btree) (t0 : tree) (M : nat).
Context (HM : max_length stat = Z.of_nat M) (HM15 : (1 <= M <= 15)%nat).
Context (Hnd : NoDup (nodes T)) (Hrep : rep t0 T).
Context (Hin : forall n, n ∈ nodes T -> 0 <= n < Z.of_nat (length t0)).
Context (Hleaf : forall n, n ∈ leaves T -> n <= mc) (Hinner : forall n, n ∈ inner T -> mc < n).
Context (Hextra : forall n, n ∈ leaves T -> extra_base stat <= n ->
           n - extra_base stat < Z.of_nat (length (extra_bits stat))).
Context (Hstat : match static_tree stat with
                 | Some st => forall n, n ∈ leaves T -> 0 <= n < Z.of_nat (length st)
                 | None => True end).
Context (Hsmall : (length (nodes T) <= 1000)%nat).
(** [opt_len] and [static_len] before the pass. *)
Context (o0 s0 : Z).

Definition dep (n : Z) : nat := assoc (depths T 0) n.

Lemma dep_spec n k : (n, k) ∈ depths T 0 -> dep n = k.
Proof. intros H. apply assoc_spec; [by rewrite depths_fst|done]. Qed.

(** The processed leaves of cut-off depth [l], and the nodes too deep. *)
Definition cnt_of (ns : list Z) (l : nat) : Z :=
  Z.of_nat (length (filter (fun n => n <= mc /\ (dep n `min` M)%nat = l) ns)).
Definition ovf_of (ns : list Z) : Z := Z.of_nat (length (filter (fun n => (M < dep n)%nat) ns)).

Record pass_inv (ps : list Z) (v : bitlen) : Prop := {
  pi_len : length (b_tree v) = length t0;
  pi_done n : n ∈ ps -> dlat (b_tree v) n = Some (Z.of_nat (dep n `min` M));
  pi_rest n : n ∉ ps -> dlat (b_tree v) n = dlat t0 n;
  pi_fc n : fcat (b_tree v) n = fcat t0 n;
  pi_cnt_len : length (b_count v) = 16%nat;
  pi_cnt l : (l <= 15)%nat -> aget (b_count v) (Z.of_nat l) = Some (cnt_of ps l);
  pi_ovf : b_overflow v = ovf_of ps;
  pi_opt : wrap W o0 = o0 ->
    b_opt v = wrap W (o0 + sum_over (bit_cost stat t0 (fun n => Z.of_nat (dep n `min` M))) (filter (fun n => n <= mc) ps));
  pi_static : wrap W s0 = s0 -> b_static v = wrap W (s0 + sum_over (static_cost stat t0) (filter (fun n => n <= mc) ps)) }.

Lemma leaf_sum_snoc f ps n :
  sum_over f (filter (fun n => n <= mc) (ps ++ [n])) =
  sum_over f (filter (fun n => n <= mc) ps) + (if decide (n <= mc) then f n else 0).
Proof. rewrite filter_app, sum_over_app, filter_cons. case_decide; cbn; lia. Qed.

Lemma cnt_of_snoc ps n l :
  cnt_of (ps ++ [n]) l = cnt_of ps l + (if decide (n <= mc /\ (dep n `min` M)%nat = l) then 1 else 0).
Proof. unfold cnt_of. rewrite filter_app, length_app, filter_cons. case_decide; cbn; lia. Qed.

Lemma ovf_of_snoc ps n : ovf_of (ps ++ [n]) = ovf_of ps + (if decide (M < dep n)%nat then 1 else 0).
Proof. unfold ovf_of. rewrite filter_app, length_app, filter_cons. case_decide; cbn; lia. Qed.

Lemma cnt_of_le ps l : cnt_of ps l <= Z.of_nat (length ps).
Proof. unfold cnt_of. pose proof (length_filter (fun n => n <= mc /\ (dep n `min` M)%nat = l) ps). lia. Qed.

Lemma bitlen_step_spec ps n v :
  pass_inv ps v -> n ∈ below T -> n ∉ ps -> (exists p, dlat t0 n = Some p /\ p ∈ ps) ->
  (length ps <= 1000)%nat ->
  exists v', bitlen_step W stat mc n v = Some v' /\ pass_inv (ps ++ [n]) v'.
Proof.
  intros [Il Id Ir If Icl Ic Io Iop Ist] Hn Hnp (p & Hp & Hpp) Hps.
  destruct (rep_dad t0 T 0 n Hrep Hn) as (p' & k & Hp' & Hk & Hnk & _).
  rewrite Hp in Hp'. injection Hp' as <-. pose proof (dep_spec _ _ Hk) as Dp. pose proof (dep_spec _ _ Hnk) as Dn.
  unfold bitlen_step. destruct (dlat_aget (b_tree v) n p) as (e & He & Hde); [by rewrite Ir|].
  destruct (dlat_aget (b_tree v) p _ (Id p Hpp)) as (ep & Hep & Hdp).
  rewrite He. cbn [mbind option_bind]. rewrite Hde, Hep. cbn [mbind option_bind]. rewrite Hdp, HM, Dp.
  assert (Hb : (if Z.of_nat (k `min` M) + 1 >? Z.of_nat M
                then (Z.of_nat M, b_overflow v + 1) else (Z.of_nat (k `min` M) + 1, b_overflow v))
               = (Z.of_nat (dep n `min` M), ovf_of (ps ++ [n]))).
  { rewrite ovf_of_snoc, Dn, Io. destruct (Z.gtb_spec (Z.of_nat (k `min` M) + 1) (Z.of_nat M)).
    - rewrite decide_True by lia. f_equal. lia.
    - rewrite decide_False by lia. f_equal; lia. }
  rewrite Hb. set (b := (dep n `min` M)%nat) in *.
  assert (Hb15 : (b <= 15)%nat) by (subst b; lia).
  assert (Hn0 : n ∈ nodes T) by (by right).
  destruct (set_dl_ok (b_tree v) n (Z.of_nat b)) as (t' & -> & El & Hfc & Hdl).
  { rewrite Il. by apply Hin. } { change (2 ^ 16) with 65536. lia. }
  cbn [mbind option_bind].
  assert (Hdone : forall m, m ∈ ps ++ [n] -> dlat t' m = Some (Z.of_nat (dep m `min` M))).
  { intros m Hm. rewrite Hdl. destruct (Z.eqb_spec m n) as [->|]; [done|]. apply Id. set_solver. }
  assert (Hrest : forall m, m ∉ ps ++ [n] -> dlat t' m = dlat t0 m).
  { intros m Hm. rewrite Hdl. destruct (Z.eqb_spec m n) as [->|]; [set_solver|]. apply Ir. set_solver. }
  assert (Hnl : n ∈ inner T \/ n ∈ leaves T).
  { rewrite nodes_perm in Hn0. by apply elem_of_app in Hn0. }
  destruct (Z.gtb_spec n mc) as [Hgt|Hle].
  - eexists. split; [reflexivity|]. constructor; cbn; try done; [congruence|intros m; by rewrite Hfc| | |].
    + intros l Hl. rewrite Ic, cnt_of_snoc by done. rewrite decide_False by lia. f_equal. lia.
    + intros Ho. rewrite leaf_sum_snoc, decide_False, Z.add_0_r by lia. by apply Iop.
    + intros Hs. rewrite leaf_sum_snoc, decide_False, Z.add_0_r by lia. by apply Ist.
  - destruct Hnl as [Hi|Hlf]; [apply Hinner in Hi; lia|].
    rewrite Ic by done. cbn [mbind option_bind].
    assert (Ew : wrap 16 (cnt_of ps b + 1) = cnt_of ps b + 1).
    { apply Z.mod_small. pose proof (cnt_of_le ps b). unfold cnt_of in *. change (2 ^ 16) with 65536. lia. }
    rewrite Ew. destruct (aset_ok (b_count v) (Z.of_nat b) (cnt_of ps b + 1)) as (c' & -> & Ecl & Hg); [lia|].
    cbn [mbind option_bind].
    assert (Hx : (if n >=? extra_base stat then aget (extra_bits stat) (n - extra_base stat) else Some 0) = Some (xbits_of stat n)).
    { unfold xbits_of. destruct (Z.geb_spec n (extra_base stat)); [|done].
      destruct (aget_range (extra_bits stat) (n - extra_base stat)) as [x ->]; [|done]. specialize (Hextra n Hlf). lia. }
    rewrite Hx. cbn [mbind option_bind].
    assert (Hfe : fc e = freq_at t0 n) by (unfold freq_at; rewrite <- If; unfold fcat; by rewrite He).
    assert (Hs : exists sl, (match static_tree stat with
            | Some st => se ← aget st n; Some (wrap W (b_static v + fc e * (dl se + xbits_of stat n)))
            | None => Some (b_static v) end) = Some sl /\
            (wrap W s0 = s0 -> sl = wrap W (s0 + sum_over (static_cost stat t0) (filter (fun n => n <= mc) (ps ++ [n]))))).
    { rewrite leaf_sum_snoc, decide_True, Z.add_assoc by lia. unfold static_cost at 2. destruct (static_tree stat) as [st|].
      - destruct (aget_range st n (Hstat n Hlf)) as [se Ese]. rewrite Ese. eexists. split; [reflexivity|]. intros Hs.
        rewrite Ist by done. rewrite wrap_add_l. unfold bit_cost, len_at, dlat. by rewrite Ese, Hfe.
      - eexists. split; [reflexivity|]. intros Hs. rewrite Ist by done. by rewrite Z.add_0_r. }
    destruct Hs as (sl & -> & Hsl). cbn [mbind option_bind]. eexists. split; [reflexivity|].
    constructor; cbn; try done; [congruence|intros m; by rewrite Hfc|congruence| |].
    + intros l Hl. rewrite Hg, cnt_of_snoc. destruct (Z.eqb_spec (Z.of_nat l) (Z.of_nat b)) as [E|E].
      * rewrite decide_True by (subst b; lia). do 2 f_equal. replace l with b by lia. done.
      * rewrite decide_False by (subst b; lia). rewrite Ic by done. f_equal. lia.
    + intros Ho. rewrite Iop by done. rewrite leaf_sum_snoc, decide_True, Z.add_assoc, wrap_add_l by lia. by rewrite Hfe.
Qed.

(** A list of nodes in which every node comes after its Dad. *)
Fixpoint in_order (ps ns : list Z) : Prop :=
  match ns with
  | [] => True
  | n :: ns => (exists p, dlat t0 n = Some p /\ p ∈ ps) /\ in_order (ps ++ [n]) ns
  end.

Lemma bitlen_pass_spec hp ns ps h v :
  pass_inv ps v -> in_order ps ns -> NoDup (ps ++ ns) -> (forall n, n ∈ ns -> n ∈ below T) ->
  (length (ps ++ ns) <= 1000)%nat -> 0 <= h -> take (length ns) (drop (Z.to_nat h) hp) = ns ->
  exists v', bitlen_pass W (length ns) stat mc hp h v = Some v' /\ pass_inv (ps ++ ns) v'.
Proof.
  revert ps h v. induction ns as [|n ns IH]; intros ps h v Hi Ho Hd Hb Hl Hh Ht; cbn [length bitlen_pass].
  { exists v. by rewrite app_nil_r. }
  destruct Ho as [Hp Ho]. cbn [length] in Ht.
  assert (Hn : aget hp h = Some n).
  { apply aget_Some. split; [done|]. pose proof (f_equal (.!! 0%nat) Ht) as E. cbn beta in E.
    rewrite lookup_take_lt, lookup_drop in E by lia. rewrite Nat.add_0_r in E. exact E. }
  rewrite Hn. cbn [mbind option_bind].
  assert (Hnp : n ∉ ps).
  { apply NoDup_app in Hd as (_ & Hd & _). intros Hx. apply (Hd n Hx). left. }
  destruct (bitlen_step_spec ps n v Hi) as (v1 & -> & Hi1); [apply Hb; left|done|done| |].
  { rewrite length_app in Hl. lia. }
  cbn [mbind option_bind]. destruct (IH (ps ++ [n]) (h + 1) v1) as (v' & E & Hi'); try done.
  - by rewrite <- app_assoc.
  - intros m Hm. apply Hb. by right.
  - by rewrite <- app_assoc.
  - lia.
  - apply aget_Some in Hn as [_ Hn]. rewrite (drop_S _ n) in Ht by done. cbn [take] in Ht. injection Ht as Ht.
    by replace (Z.to_nat (h + 1)) with (S (Z.to_nat h)) by lia.
  - exists v'. rewrite <- app_assoc in Hi'. done.
Qed.

(** Over all nodes, the counts are those of the tree. *)
Lemma leaf_count_filter U d :
  (forall n, n ∈ leaves U -> n <= mc) -> (forall n, n ∈ inner U -> mc < n) -> forall l,
  Z.of_nat (length (filter (fun p : Z * nat => p.1 <= mc /\ (p.2 `min` M)%nat = l) (depths U d))) = leaf_count M U d l.
Proof.
  revert d. induction U as [s|id a IHa b IHb]; intros d Hlf Hi l; cbn [depths leaf_count leaves inner] in *.
  - rewrite filter_cons. cbn [fst snd]. assert (s <= mc) by (apply Hlf; left). repeat case_decide; cbn; try done; try tauto.
  - rewrite filter_cons. cbn [fst snd]. assert (mc < id) by (apply Hi; left).
    rewrite decide_False by lia. rewrite filter_app, length_app, Nat2Z.inj_add, IHa, IHb; try done; set_solver.
Qed.

Lemma too_deep_filter U d :
  Z.of_nat (length (filter (fun p : Z * nat => (M < p.2)%nat) (depths U d))) = too_deep M U d.
Proof.
  revert d. induction U as [s|id a IHa b IHb]; intros d; cbn [depths too_deep]; rewrite filter_cons; cbn [fst snd].
  - case_decide; done.
  - rewrite filter_app. case_decide; cbn [length]; rewrite length_app, ?Nat2Z.inj_succ, Nat2Z.inj_add, IHa, IHb; lia.
Qed.

Lemma depths_nodup : NoDup (map fst (depths T 0)).
Proof. by rewrite depths_fst. Qed.

Lemma cnt_of_nodes ns l : ns ≡ₚ nodes T -> cnt_of ns l = leaf_count M T 0 l.
Proof.
  intros Hp. unfold cnt_of. rewrite Hp, <- (depths_fst T 0). unfold dep.
  etrans; [|exact (leaf_count_filter T 0 Hleaf Hinner l)]. f_equal.
  exact (filter_assoc (fun n k => n <= mc /\ (k `min` M)%nat = l) (depths T 0) (depths T 0) depths_nodup (fun _ H => H)).
Qed.

Lemma ovf_of_nodes ns : ns ≡ₚ nodes T -> ovf_of ns = too_deep M T 0.
Proof.
  intros Hp. unfold ovf_of. rewrite Hp, <- (depths_fst T 0). unfold dep.
  etrans; [|exact (too_deep_filter T 0)]. f_equal.
  exact (@filter_assoc (fun n k => (M < k)%nat) (fun _ k => decide_rel lt M k) (depths T 0) (depths T 0) depths_nodup (fun _ H => H)).
Qed.
End Pass.
