(* ===== verification/TreesRepair.v ===== *)
(** * gen_bitlen: repairing an overflow of the lengths

    [fix_overflow] moves leaves down until the code is complete again;
    [relength] hands out the lengths by the new counts. *)
From stdpp Require Import base numbers list sets.
From Stdlib Require Import ZArith Lia Bool.
From S2P Require Import Prelude Huffman Trees TreesShape TreesBitlen.

(** ** Sums over the lengths *)

Fixpoint total (c : nat -> Z) (n : nat) : Z := match n with O => 0 | S n' => total c n' + c n end.

Definition delta (j k : nat) : Z := if decide (j = k) then 1 else 0.

Lemma taken_ext c c' n : (forall k, (1 <= k <= n)%nat -> c k = c' k) -> taken c n = taken c' n.
Proof. induction n as [|n IH]; intros H; [done|]. cbn [taken]. rewrite IH, H by (intros; try apply H; lia). done. Qed.

Lemma total_ext c c' n : (forall k, (1 <= k <= n)%nat -> c k = c' k) -> total c n = total c' n.
Proof. induction n as [|n IH]; intros H; [done|]. cbn [total]. rewrite IH, H by (intros; try apply H; lia). done. Qed.

Lemma taken_scale a c n : taken (fun k => a * c k) n = a * taken c n.
Proof. induction n as [|n IH]; [cbn; lia|]. cbn [taken]. rewrite IH. lia. Qed.

Lemma total_add c c' n : total (fun k => c k + c' k) n = total c n + total c' n.
Proof. induction n as [|n IH]; [done|]. cbn [total]. rewrite IH. lia. Qed.

Lemma total_scale a c n : total (fun k => a * c k) n = a * total c n.
Proof. induction n as [|n IH]; [cbn; lia|]. cbn [total]. rewrite IH. lia. Qed.

Lemma total_delta j n : (1 <= j)%nat -> total (delta j) n = if decide (j <= n)%nat then 1 else 0.
Proof.
  intros Hj. induction n as [|n IH]; [by rewrite decide_False by lia|]. cbn [total]. rewrite IH. unfold delta.
  repeat case_decide; lia.
Qed.

Lemma total_nonneg c n : (forall k, 0 <= c k) -> 0 <= total c n.
Proof. intros H. induction n as [|n IH]; [done|]. cbn [total]. specialize (H (S n)). lia. Qed.

Lemma total_ge c n k : (forall j, 0 <= c j) -> (1 <= k <= n)%nat -> c k <= total c n.
Proof.
  intros H. induction n as [|n IH]; intros Hk; [lia|]. cbn [total]. destruct (decide (k = S n)) as [->|].
  - pose proof (total_nonneg c n H). lia.
  - specialize (IH ltac:(lia)). specialize (H (S n)). lia.
Qed.

Lemma taken_last c n : (forall k, (1 <= k <= n)%nat -> c k = 0) -> taken c (S n) = c (S n).
Proof.
  intros H. cbn [taken]. assert (E : taken c n = 0); [|lia].
  rewrite (taken_ext c (fun _ => 0 * 0)) by (intros k Hk; rewrite H by done; lia).
  rewrite (taken_scale 0 (fun _ => 0)). lia.
Qed.

Lemma total_last c n : (forall k, (1 <= k <= n)%nat -> c k = 0) -> total c (S n) = c (S n).
Proof.
  intros H. cbn [total]. assert (E : total c n = 0); [|lia].
  rewrite (total_ext c (fun _ => 0 * 0)) by (intros k Hk; rewrite H by done; lia).
  rewrite (total_scale 0 (fun _ => 0)). lia.
Qed.

(** The array holds the counts [c]. *)
Definition holds_counts (cnt : list Z) (c : nat -> Z) : Prop :=
  length cnt = 16%nat /\ forall l, (l <= 15)%nat -> aget cnt (Z.of_nat l) = Some (c l).

Lemma add_count_ok cnt c i k :
  holds_counts cnt c -> (i <= 15)%nat -> 0 <= c i + k < 2 ^ 16 ->
  exists cnt', add_count cnt (Z.of_nat i) k = Some cnt' /\ holds_counts cnt' (fun l => c l + k * delta i l).
Proof.
  intros [Hl Hc] Hi Hk. unfold add_count. rewrite Hc by done. cbn [mbind option_bind].
  assert (Ew : wrap 16 (c i + k) = c i + k) by (by apply Z.mod_small). rewrite Ew.
  destruct (aset_ok cnt (Z.of_nat i) (c i + k)) as (cnt' & -> & El & Hg); [lia|]. exists cnt'. split; [done|].
  split; [congruence|]. intros l Hl'. rewrite Hg. unfold delta.
  destruct (Z.eqb_spec (Z.of_nat l) (Z.of_nat i)).
  - rewrite decide_True by lia. replace l with i by lia. f_equal. lia.
  - rewrite decide_False by lia. rewrite Hc by done. f_equal. lia.
Qed.

(** The greatest length below the maximum that is in use. *)
Lemma find_bits_spec cnt c k :
  holds_counts cnt c -> (k <= 15)%nat -> (exists b, (1 <= b <= k)%nat /\ c b <> 0) ->
  exists b, find_bits (S k) cnt (Z.of_nat k) = Some (Z.of_nat b) /\ (1 <= b <= k)%nat /\ c b <> 0.
Proof.
  intros [Hl Hc]. induction k as [|k IH]; intros Hk (b & Hb & Hcb); [lia|]. cbn [find_bits].
  rewrite Hc by done. cbn [mbind option_bind]. destruct (Z.eqb_spec (c (S k)) 0) as [E|E].
  - replace (Z.of_nat (S k) - 1) with (Z.of_nat k) by lia. destruct IH as (b' & Eb & Hb' & Hcb'); [lia| |].
    { exists b. split; [|done]. assert (b <> S k) by (by intros ->). lia. }
    exists b'. split; [exact Eb|]. split; [lia|done].
  - exists (S k). split; [done|]. split; [lia|done].
Qed.

(** What the counts of a complete code meet, and the counts of [e] codes too many. *)
Record counts_ok (M : nat) (L e : Z) (c : nat -> Z) : Prop := {
  co_nonneg k : 0 <= c k;
  co_zero k : k = 0%nat \/ (M < k)%nat -> c k = 0;
  co_total : total c M = L;
  co_left : left_over c M = - e;
  co_max : 0 < e -> e + 1 <= c M }.

Lemma fix_overflow_spec M L fuel cnt c e :
  (1 <= M <= 15)%nat -> L <= 2 ^ Z.of_nat M -> L <= 1000 -> counts_ok M L e c -> 0 < e ->
  holds_counts cnt c -> (Z.to_nat e <= fuel)%nat ->
  exists cnt' c', fix_overflow fuel (Z.of_nat M) cnt (2 * e) = Some cnt' /\ holds_counts cnt' c' /\ counts_ok M L 0 c'.
Proof.
  intros HM HL HL1 Hco He Hcnt. revert cnt c e Hco He Hcnt.
  induction fuel as [|fuel IH]; intros cnt c e [Hn Hz Ht Hl Hm] He Hcnt Hf; [lia|]. cbn [fix_overflow].
  pose proof (Hm He) as HcM. destruct M as [|m]; [lia|].
  assert (Hle : forall k, (1 <= k <= S m)%nat -> c k <= L) by (intros k Hk; rewrite <- Ht; by apply total_ge).
  assert (Hex : exists b, (1 <= b <= m)%nat /\ c b <> 0).
  { destruct (decide (Exists (fun b => c b <> 0) (seq 1 m))) as [H|H].
    - apply Exists_exists in H as (b & Hb%elem_of_seq & Hcb). exists b. split; [lia|done].
    - exfalso. assert (H0 : forall k, (1 <= k <= m)%nat -> c k = 0).
      { intros k Hk. destruct (decide (c k = 0)) as [|Hck]; [done|]. destruct H. apply Exists_exists.
        exists k. split; [apply elem_of_seq; lia|done]. }
      rewrite left_over_taken, (taken_last c m H0) in Hl. rewrite (total_last c m H0) in Ht. lia. }
  destruct (find_bits_spec cnt c m Hcnt ltac:(lia) Hex) as (b & Eb & Hb & Hcb).
  rewrite Nat2Z.id. replace (Z.of_nat (S m) - 1) with (Z.of_nat m) by lia. rewrite Eb. cbn [mbind option_bind].
  pose proof (Hn b) as Hnb. pose proof (Hle b ltac:(lia)). pose proof (Hle (S b) ltac:(lia)).
  pose proof (Hle (S m) ltac:(lia)). pose proof (Hn (S b)).
  destruct (add_count_ok cnt c b (-1) Hcnt) as (c1 & -> & Hc1); [lia|change (2 ^ 16) with 65536; lia|].
  cbn [mbind option_bind]. replace (Z.of_nat b + 1) with (Z.of_nat (S b)) by lia.
  destruct (add_count_ok c1 _ (S b) 2 Hc1) as (c2 & -> & Hc2); [lia| |].
  { change (2 ^ 16) with 65536. unfold delta. rewrite decide_False by lia. lia. }
  cbn [mbind option_bind].
  destruct (add_count_ok c2 _ (S m) (-1) Hc2) as (c3 & -> & Hc3); [lia| |].
  { change (2 ^ 16) with 65536. unfold delta. case_decide; case_decide; lia. }
  cbn [mbind option_bind].
  set (c' := fun l => c l + -1 * delta b l + 2 * delta (S b) l + -1 * delta (S m) l).
  assert (Hok : counts_ok (S m) L (e - 1) c').
  { constructor.
    - intros k. unfold c', delta. specialize (Hn k). repeat case_decide; subst; lia.
    - intros k Hk. unfold c', delta. rewrite (Hz k Hk). repeat case_decide; lia.
    - unfold c'. rewrite !total_add, !total_scale, !total_delta by lia. repeat case_decide; lia.
    - rewrite left_over_taken in Hl |- *. unfold c'. rewrite !taken_add, !taken_scale.
      unfold delta. rewrite !taken_single by lia. rewrite Z.sub_diag. change (2 ^ 0) with 1.
      replace (Z.of_nat (S m) - Z.of_nat b) with (Z.succ (Z.of_nat (S m) - Z.of_nat (S b))) by lia.
      rewrite Z.pow_succ_r by lia. lia.
    - intros He'. unfold c', delta. repeat case_decide; lia. }
  replace (2 * e - 2) with (2 * (e - 1)) by lia. destruct (Z.gtb_spec (2 * (e - 1)) 0) as [Hpos|Hz0].
  - destruct (IH c3 c' (e - 1) Hok) as (cnt' & c'' & E & ? & ?); [lia|done|lia|]. by exists cnt', c''.
  - exists c3, c'. split; [done|]. split; [done|]. replace 0 with (e - 1) by lia. done.
Qed.

(** ** Handing out the lengths *)

Section Relength.
Context (W mc : Z).

(** The heap read downwards from [h] gives [ns]. *)
Definition reads (hp : list Z) (h : Z) (ns : list Z) : Prop :=
  forall i x, ns !! i = Some x -> aget hp (h - 1 - Z.of_nat i) = Some x.

Lemma reads_tail hp h n ns : reads hp h (n :: ns) -> aget hp (h - 1) = Some n /\ reads hp (h - 1) ns.
Proof.
  intros H. split.
  - rewrite <- (H 0%nat n eq_refl). f_equal. lia.
  - intros i x Hi. rewrite <- (H (S i) x Hi). f_equal. lia.
Qed.

Definition leaf_nodes (ns : list Z) : list Z := filter (fun n => n <= mc) ns.

Definition lengths_in (t : tree) (ns : list Z) (l : nat) : Z :=
  Z.of_nat (length (filter (fun n => dlat t n = Some (Z.of_nat l)) (leaf_nodes ns))).

Lemma lengths_in_app t a b l : lengths_in t (a ++ b) l = lengths_in t a l + lengths_in t b l.
Proof. unfold lengths_in, leaf_nodes. rewrite !filter_app, length_app. lia. Qed.

Lemma lengths_in_cons t n ns l :
  lengths_in t (n :: ns) l =
  (if decide (n <= mc /\ dlat t n = Some (Z.of_nat l)) then 1 else 0) + lengths_in t ns l.
Proof.
  unfold lengths_in, leaf_nodes. rewrite filter_cons. case_decide as H1; [rewrite filter_cons|].
  - case_decide; case_decide; cbn [length]; tauto || lia.
  - case_decide; [tauto|lia].
Qed.

Lemma lengths_in_ext t t' ns l :
  (forall n, n ∈ ns -> n <= mc -> dlat t' n = dlat t n) -> lengths_in t' ns l = lengths_in t ns l.
Proof.
  induction ns as [|n ns IH]; intros H; [done|]. rewrite !lengths_in_cons, IH by (intros; apply H; set_solver).
  f_equal. case_decide as E; case_decide as E'; try done; destruct_and?; rewrite H in *; (tauto || (left; fail) || set_solver).
Qed.

(** All leaves of [ns] have one length. *)
Lemma lengths_in_all t ns b l :
  (forall n, n ∈ ns -> n <= mc -> dlat t n = Some (Z.of_nat b)) ->
  lengths_in t ns l = if decide (l = b) then Z.of_nat (length (leaf_nodes ns)) else 0.
Proof.
  induction ns as [|n ns IH]; intros H; [by case_decide|]. rewrite lengths_in_cons, IH by (intros; apply H; set_solver).
  unfold leaf_nodes. rewrite filter_cons. destruct (decide (n <= mc)) as [Hn|Hn].
  - rewrite H by (done || left). destruct (decide (l = b)) as [->|Hlb].
    + rewrite decide_True by done. cbn [length]. lia.
    + rewrite decide_False; [lia|]. intros [_ E]. injection E as E. lia.
  - rewrite (decide_False (P := _ /\ _)) by tauto. repeat case_decide; lia.
Qed.

(** What the change of the lengths of [ns] from those of [t] to [b] adds to the bits. *)
Definition change_cost (t : tree) (len : Z -> Z) (n : Z) : Z := (len n - len_at t n) * freq_at t n.

Lemma change_cost_ext t t1 len len1 ns :
  (forall n, n ∈ ns -> len1 n = len n) -> (forall n, n ∈ ns -> dlat t1 n = dlat t n) -> (forall n, fcat t1 n = fcat t n) ->
  sum_over (change_cost t1 len1) (leaf_nodes ns) = sum_over (change_cost t len) (leaf_nodes ns).
Proof.
  intros Hl Hd Hf. apply sum_over_ext. intros n [_ Hn]%list_elem_of_filter. unfold change_cost, len_at, freq_at.
  by rewrite Hl, Hd, Hf.
Qed.

Lemma relength_inner_spec fuel b hp ns n h t opt :
  NoDup ns -> (length ns < fuel)%nat -> reads hp h ns -> (b <= 15)%nat ->
  (n <= length (leaf_nodes ns))%nat -> (forall m, m ∈ ns -> 0 <= m < Z.of_nat (length t)) ->
  exists now later t' opt', ns = now ++ later /\ length (leaf_nodes now) = n /\
    relength_inner W fuel mc (Z.of_nat b) hp (Z.of_nat n) h t opt = Some (t', h - Z.of_nat (length now), opt') /\
    length t' = length t /\ (forall m, fcat t' m = fcat t m) /\
    (forall m, m ∈ now -> m <= mc -> dlat t' m = Some (Z.of_nat b)) /\
    (forall m, m ∉ now \/ mc < m -> dlat t' m = dlat t m) /\
    (wrap W opt = opt -> opt' = wrap W (opt + sum_over (change_cost t (fun _ => Z.of_nat b)) (leaf_nodes now))).
Proof.
  intros Hd Hf Hr Hb. revert ns n h t opt Hd Hf Hr.
  induction fuel as [|fuel IH]; intros ns n h t opt Hd Hf Hr Hn Hin; [lia|]. cbn [relength_inner].
  destruct (Z.eqb_spec (Z.of_nat n) 0) as [E|E].
  { exists [], ns, t, opt. replace (h - Z.of_nat (length [])) with h by (cbn; lia). split_and!; try done.
    - cbn. lia.
    - by intros m ?%elem_of_nil.
    - intros Ho. change (opt = wrap W (opt + 0)). by rewrite Z.add_0_r. }
  destruct ns as [|m ns]; [cbn in Hn; lia|]. apply reads_tail in Hr as [Hm Hr]. rewrite Hm. cbn [mbind option_bind].
  apply NoDup_cons in Hd as [Hmn Hd]. cbn [length] in Hf.
  unfold leaf_nodes in Hn. rewrite filter_cons in Hn. destruct (Z.gtb_spec m mc) as [Hgt|Hle].
  - rewrite decide_False in Hn by lia.
    destruct (IH ns n (h - 1) t opt) as (now & later & t' & opt' & -> & El & Er & Hlen & Hfc & Hnow & Hoth & Hopt); try done; [lia|set_solver|].
    assert (Elf : leaf_nodes (m :: now) = leaf_nodes now) by (unfold leaf_nodes; by rewrite filter_cons, decide_False by lia).
    exists (m :: now), later, t', opt'. rewrite Elf. split_and!; try done.
    + rewrite Er. cbn [length]. do 2 f_equal. f_equal. lia.
    + intros k [->|Hk]%elem_of_cons; [lia|]. by apply Hnow.
    + intros k Hk. apply Hoth. set_solver.
  - rewrite decide_True in Hn by lia. cbn [length] in Hn.
    destruct (aget_range t m) as [e He]; [apply Hin; left|]. rewrite He. cbn [mbind option_bind].
    assert (Hstep : forall t1 opt1, length t1 = length t -> (forall k, fcat t1 k = fcat t k) ->
      dlat t1 m = Some (Z.of_nat b) -> (forall k, k <> m -> dlat t1 k = dlat t k) ->
      (wrap W opt = opt -> opt1 = wrap W (opt + (Z.of_nat b - dl e) * fc e)) ->
      exists now later t' opt', m :: ns = now ++ later /\ length (leaf_nodes now) = n /\
        relength_inner W fuel mc (Z.of_nat b) hp (Z.of_nat n - 1) (h - 1) t1 opt1 = Some (t', h - Z.of_nat (length now), opt') /\
        length t' = length t /\ (forall m, fcat t' m = fcat t m) /\
        (forall m, m ∈ now -> m <= mc -> dlat t' m = Some (Z.of_nat b)) /\
        (forall m, m ∉ now \/ mc < m -> dlat t' m = dlat t m) /\
        (wrap W opt = opt -> opt' = wrap W (opt + sum_over (change_cost t (fun _ => Z.of_nat b)) (leaf_nodes now)))).
    { intros t1 opt1 El1 Hf1 Hd1 Ho1 Hopt1. replace (Z.of_nat n - 1) with (Z.of_nat (n - 1)) by lia.
      destruct (IH ns (n - 1)%nat (h - 1) t1 opt1)
        as (now & later & t' & opt' & -> & El & Er & Hlen & Hfc & Hnow & Hoth & Hopt); try done; [lia|unfold leaf_nodes; lia| |].
      { intros k Hk. rewrite El1. apply Hin. by right. }
      assert (Elf : leaf_nodes (m :: now) = m :: leaf_nodes now) by (unfold leaf_nodes; by rewrite filter_cons, decide_True by lia).
      exists (m :: now), later, t', opt'. rewrite Elf. split_and!; try done.
      + cbn [length]. lia.
      + rewrite Er. cbn [length]. do 2 f_equal. f_equal. lia.
      + congruence.
      + intros k. by rewrite Hfc.
      + intros k [->|Hk]%elem_of_cons Hkm; [|by apply Hnow]. rewrite Hoth; [done|]. left. set_solver.
      + intros k Hk. rewrite Hoth by set_solver. apply Ho1. intros ->. set_solver by lia.
      + intros Ho. assert (Ew : wrap W opt1 = opt1).
        { by rewrite (Hopt1 Ho), wrap_idem. }
        rewrite (Hopt Ew), (Hopt1 Ho), wrap_add_l, sum_over_cons.
        rewrite (change_cost_ext t t1 (fun _ => Z.of_nat b)); [|done| |done].
        * unfold change_cost at 2, len_at, freq_at, dlat, fcat. rewrite He. cbn. f_equal. lia.
        * intros k Hk. apply Ho1. intros ->. set_solver. }
    destruct (Z.eqb_spec (dl e) (Z.of_nat b)) as [Ed|Ed].
    + apply Hstep; try done; [unfold dlat; rewrite He; cbn; by rewrite Ed|].
      intros Ho. rewrite Ed, Z.sub_diag, Z.mul_0_l, Z.add_0_r. done.
    + destruct (set_dl_ok t m (Z.of_nat b)) as (t1 & -> & El1 & Hf1 & Hd1); [apply Hin; left|change (2 ^ 16) with 65536; lia|].
      cbn [mbind option_bind]. apply Hstep; try done.
      * by rewrite Hd1, Z.eqb_refl.
      * intros k Hk. rewrite Hd1. by destruct (Z.eqb_spec k m).
Qed.

Lemma relength_spec n cnt hp c ns h t opt :
  (n <= 15)%nat -> holds_counts cnt c -> (forall l, 0 <= c l) -> NoDup ns ->
  (length ns <= 573)%nat -> reads hp h ns -> total c n = Z.of_nat (length (leaf_nodes ns)) ->
  (forall m, m ∈ ns -> 0 <= m < Z.of_nat (length t)) ->
  exists t' opt', relength W n mc cnt hp h t opt = Some (t', opt') /\ length t' = length t /\
    (forall m, fcat t' m = fcat t m) /\
    (forall m, m ∈ ns -> m <= mc -> exists l, (1 <= l <= n)%nat /\ dlat t' m = Some (Z.of_nat l)) /\
    (forall l, (1 <= l <= n)%nat -> lengths_in t' ns l = c l) /\
    (forall m, m ∉ ns \/ mc < m -> dlat t' m = dlat t m) /\
    (wrap W opt = opt -> opt' = wrap W (opt + sum_over (change_cost t (len_at t')) (leaf_nodes ns))).
Proof.
  intros Hn15 Hc Hpos. revert ns h t opt. induction n as [|n IH]; intros ns h t opt Hd Hl Hr Ht Hin.
  { assert (Enil : leaf_nodes ns = []) by (destruct (leaf_nodes ns); [done|cbn in Ht; lia]).
    exists t, opt. cbn [relength]. rewrite Enil. split_and!; try done; [|lia|].
    - intros m Hm Hmc. exfalso. assert (Hx : m ∈ leaf_nodes ns) by (by apply list_elem_of_filter).
      rewrite Enil in Hx. by apply elem_of_nil in Hx.
    - intros Ho. change (opt = wrap W (opt + 0)). by rewrite Z.add_0_r. }
  cbn [relength]. destruct Hc as [Hcl Hcg]. rewrite Hcg by lia. cbn [mbind option_bind]. cbn [total] in Ht.
  pose proof (total_nonneg c n Hpos) as Htn. pose proof (Hpos (S n)).
  destruct (relength_inner_spec (S (Z.to_nat HEAP_SIZE)) (S n) hp ns (Z.to_nat (c (S n))) h t opt)
    as (now & later & t1 & opt1 & -> & El & Er & Hlen & Hfc & Hnow & Hoth & Hopt1); try done.
  { change (S (Z.to_nat HEAP_SIZE)) with 574%nat. lia. }
  { lia. }
  rewrite Z2Nat.id in Er by lia. rewrite Er. cbn [mbind option_bind].
  apply NoDup_app in Hd as (Hd1 & Hd2 & Hd3). rewrite length_app in Hl.
  destruct (IH ltac:(lia) later (h - Z.of_nat (length now)) t1 opt1) as (t' & opt' & E & Hlen' & Hfc' & Hex & Hcnt & Hoth' & Hopt'); try done.
  - lia.
  - intros i x Hi. rewrite <- (Hr (length now + i)%nat x); [f_equal; lia|]. rewrite lookup_app_r by lia. rewrite <- Hi. f_equal. lia.
  - unfold leaf_nodes in *. rewrite filter_app, length_app in Ht. lia.
  - intros m Hm. rewrite Hlen. apply Hin, elem_of_app. by right.
  - assert (Hnow' : forall m, m ∈ now -> m <= mc -> dlat t' m = Some (Z.of_nat (S n))).
    { intros m Hm Hmc. rewrite Hoth'; [by apply Hnow|]. left. by apply Hd2. }
    exists t', opt'. split; [done|]. split; [congruence|]. split; [intros m; by rewrite Hfc'|]. split_and!.
    + intros m [Hm|Hm]%elem_of_app Hmc; [exists (S n); split; [lia|by apply Hnow']|].
      destruct (Hex m Hm Hmc) as (l & Hl' & ?). exists l. split; [lia|done].
    + intros l Hl'. rewrite lengths_in_app, (lengths_in_all t' now (S n)) by done. case_decide as El'.
      * subst l. rewrite El, Z2Nat.id by lia.
        assert (E0 : lengths_in t' later (S n) = 0); [|lia]. unfold lengths_in.
        assert (Hnil : filter (fun m => dlat t' m = Some (Z.of_nat (S n))) (leaf_nodes later) = []); [|by rewrite Hnil].
        apply elem_of_nil_inv. intros m [Hm1 [Hm2 Hm3]%list_elem_of_filter]%list_elem_of_filter.
        destruct (Hex m Hm3 Hm2) as (l & Hl'' & E'). rewrite Hm1 in E'. injection E' as E'. lia.
      * rewrite Hcnt by lia. lia.
    + intros m [Hm|Hm]; [apply not_elem_of_app in Hm as [Hm1 Hm2]|]; rewrite Hoth', Hoth; auto.
    + intros Ho. assert (Ew : wrap W opt1 = opt1).
      { by rewrite (Hopt1 Ho), wrap_idem. }
      rewrite (Hopt' Ew), (Hopt1 Ho), wrap_add_l. unfold leaf_nodes at 3. rewrite filter_app, sum_over_app.
      fold (leaf_nodes now) (leaf_nodes later). f_equal.
      rewrite (change_cost_ext t t1 (len_at t') (len_at t') later); [|done| |done].
      * rewrite Z.add_assoc. do 2 f_equal. apply sum_over_ext. intros m [Hm Hmn]%list_elem_of_filter.
        unfold change_cost. unfold len_at at 2. by rewrite (Hnow' m).
      * intros m Hm. apply Hoth. left. intros Hx. by apply (Hd2 m).
Qed.
End Relength.
