(* ===== verification/TreesLengths.v ===== *)
(** * gen_bitlen: the lengths are those of a complete code

    Both ways through [gen_bitlen], for a tree whose nodes the heap lists with
    every node after its Dad: the leaves get lengths from 1 to the maximum with
    no code left over, and [bl_count] counts them. *)
From stdpp Require Import base numbers list sets.
From Stdlib Require Import ZArith Lia Bool.
From S2P Require Import Prelude Huffman Trees TreesCodes TreesShape TreesBitlen TreesRepair.

Lemma in_order_ext t t' ps ns :
  (forall n, n ∈ ns -> dlat t' n = dlat t n) -> in_order t ps ns -> in_order t' ps ns.
Proof.
  revert ps. induction ns as [|n ns IH]; intros ps H; [done|]. cbn [in_order]. intros [(p & Hp & Hpp) Ho].
  split; [exists p; split; [by rewrite H by left|done]|]. apply IH; [|done]. intros m Hm. apply H. by right.
Qed.

Lemma leaf_count_zero M T d k : (k < d `min` M \/ M < k)%nat -> leaf_count M T d k = 0.
Proof.
  revert d. induction T as [s|id l IHl r IHr]; intros d Hk; cbn [leaf_count].
  - rewrite decide_False by lia. done.
  - rewrite IHl, IHr by lia. done.
Qed.

Lemma leaf_count_total M T d :
  (1 <= d)%nat -> (1 <= M)%nat -> total (leaf_count M T d) M = Z.of_nat (length (leaves T)).
Proof.
  intros Hd HM. revert d Hd. induction T as [s|id l IHl r IHr]; intros d Hd; cbn [leaf_count leaves].
  - change (total (delta (d `min` M)) M = 1). rewrite total_delta by lia. by rewrite decide_True by lia.
  - rewrite total_add, IHl, IHr, length_app by lia. lia.
Qed.

(** The counts of a tree, with half the number of nodes that lie too deep to repair. *)
Lemma leaf_counts_ok M id l r :
  (1 <= M)%nat -> exists e, too_deep M (BNode id l r) 0 = 2 * e /\
    counts_ok M (Z.of_nat (length (leaves (BNode id l r)))) e (leaf_count M (BNode id l r) 0).
Proof.
  intros HM. exists (- left_over (leaf_count M (BNode id l r) 0) M). pose proof (kraft_tree M id l r HM) as Hk.
  split; [lia|]. constructor.
  - intros k. apply leaf_count_nonneg.
  - intros k [->|HkM]; [|by apply leaf_count_zero; right].
    cbn [leaf_count]. rewrite !leaf_count_zero by lia. done.
  - cbn [leaf_count leaves]. rewrite total_add, !leaf_count_total, length_app by lia. lia.
  - lia.
  - pose proof (too_deep_leaves M (BNode id l r) 0 ltac:(lia)). lia.
Qed.

Lemma lengths_in_cnt mc T M t ns l :
  (forall n, n ∈ ns -> dlat t n = Some (Z.of_nat (dep T n `min` M))) -> lengths_in mc t ns l = cnt_of mc T M ns l.
Proof.
  induction ns as [|n ns IH]; intros H; [done|]. rewrite lengths_in_cons, IH by (intros; apply H; by right).
  change (n :: ns) with ([n] ++ ns). unfold cnt_of. rewrite filter_app, length_app, Nat2Z.inj_add. f_equal.
  rewrite filter_cons, H by left. case_decide as E1; case_decide as E2; cbn [length]; try done; exfalso.
  - apply E2. destruct E1 as [? [= E1]]. split; [done|lia].
  - apply E1. destruct E2 as [? E2]. split; [done|]. by rewrite E2.
Qed.

(** The facts about the result, for the leaves [ls] of a code with lengths up to [M]. *)
Record lengths_ok (M : nat) (ls : list Z) (t t' : tree) (cnt : list Z) : Prop := {
  lo_len : length t' = length t;
  lo_fc n : fcat t' n = fcat t n;
  lo_leaf n : n ∈ ls -> exists l, (1 <= l <= M)%nat /\ dlat t' n = Some (Z.of_nat l);
  lo_cnt_len : length cnt = 16%nat;
  lo_cnt l : (l <= 15)%nat ->
    aget cnt (Z.of_nat l) = Some (Z.of_nat (length (filter (fun n => dlat t' n = Some (Z.of_nat l)) ls)));
  lo_left : left_over (fun l => Z.of_nat (length (filter (fun n => dlat t' n = Some (Z.of_nat l)) ls))) M = 0 }.

(** From the counts handed out to what the result holds. *)
Lemma lengths_ok_intro M mc ns ls t t' cnt c :
  (1 <= M)%nat -> leaf_nodes mc ns ≡ₚ ls -> length t' = length t -> (forall n, fcat t' n = fcat t n) ->
  (forall n, n ∈ ls -> exists l, (1 <= l <= M)%nat /\ dlat t' n = Some (Z.of_nat l)) ->
  holds_counts cnt c -> counts_ok M (Z.of_nat (length ls)) 0 c -> (forall l, (1 <= l <= M)%nat -> lengths_in mc t' ns l = c l) ->
  lengths_ok M ls t t' cnt.
Proof.
  intros HM Hp El Hf Hl [Hcl Hc] Hok Heq.
  assert (Hall : forall l, Z.of_nat (length (filter (fun n => dlat t' n = Some (Z.of_nat l)) ls)) = c l).
  { intros l. destruct (decide (1 <= l <= M)%nat) as [H|H].
    - rewrite <- Heq by done. unfold lengths_in. by rewrite Hp.
    - rewrite (co_zero _ _ _ _ Hok l) by lia.
      destruct (filter _ ls) as [|x fs] eqn:E; [done|]. exfalso.
      assert (Hx : x ∈ x :: fs) by left. rewrite <- E in Hx. apply list_elem_of_filter in Hx as [Hx1 Hx2].
      destruct (Hl x Hx2) as (k & Hk & Hx). rewrite Hx1 in Hx. injection Hx as Hx. lia. }
  constructor; try done.
  - intros l Hl'. by rewrite Hc, Hall.
  - rewrite (left_over_ext _ c) by (intros k _; apply Hall). rewrite (co_left _ _ _ _ Hok). lia.
Qed.

Section Lengths.
Context (W : Z) (d : tree_desc) (s : huff_state) (M : nat) (id : Z) (lt rt : btree) (ns : list Z).
Abbreviation stat := (stat_desc d).
Abbreviation t := (dyn_tree d).
Abbreviation mc := (max_code d).
Abbreviation T := (BNode id lt rt).

Record tree_ok : Prop := {
  to_max : max_length stat = Z.of_nat M;
  to_M : (1 <= M <= 15)%nat;
  to_nodup : NoDup (nodes T);
  to_rep : rep t T;
  to_range n : n ∈ nodes T -> 0 <= n < Z.of_nat (length t);
  to_leaf n : n ∈ leaves T -> n <= mc;
  to_inner n : n ∈ inner T -> mc < n;
  to_extra n : n ∈ leaves T -> extra_base stat <= n -> n - extra_base stat < Z.of_nat (length (extra_bits stat));
  to_static : match static_tree stat with
              | Some st => forall n, n ∈ leaves T -> 0 <= n < Z.of_nat (length st)
              | None => True end;
  to_fits : Z.of_nat (length (leaves T)) <= 2 ^ Z.of_nat M;
  to_small : (length (nodes T) <= 573)%nat;
  to_below : ns ≡ₚ below T;
  to_order : in_order t [id] ns;
  to_heap : length (heap s) = 573%nat;
  to_hmax : heap_max s = 573 - 1 - Z.of_nat (length ns);
  to_root : aget (heap s) (heap_max s) = Some id;
  to_ns : drop (Z.to_nat (heap_max s + 1)) (heap s) = ns }.

Lemma leaf_nodes_below : tree_ok -> leaf_nodes mc ns ≡ₚ leaves T.
Proof.
  intros H. pose proof (nodes_perm T) as Hp. unfold nodes in Hp. cbn [root inner leaves app] in Hp.
  apply Permutation_cons_inv in Hp. unfold leaf_nodes. rewrite (to_below H), Hp.
  rewrite !filter_app. pose proof (to_inner H) as Hi. pose proof (to_leaf H) as Hl. cbn [inner leaves] in Hi, Hl.
  assert (Hf : forall k : list Z, (forall n, n ∈ k -> mc < n) -> filter (fun n => n <= mc) k = []).
  { induction k as [|x k IH]; intros Hk; [done|]. rewrite filter_cons, decide_False.
    - apply IH. intros n Hn. apply Hk. by right.
    - pose proof (Hk x ltac:(left)). lia. }
  assert (Ht : forall k : list Z, (forall n, n ∈ k -> n <= mc) -> filter (fun n => n <= mc) k = k).
  { induction k as [|x k IH]; intros Hk; [done|]. rewrite filter_cons, decide_True.
    - f_equal. apply IH. intros n Hn. apply Hk. by right.
    - apply Hk. left. }
  rewrite (Hf (inner lt)), (Hf (inner rt)), (Ht (leaves lt)), (Ht (leaves rt)); try done;
    intros n Hn; (apply Hi || apply Hl); set_solver.
Qed.

Lemma reads_rev hp h (k : list Z) :
  0 <= h -> h + Z.of_nat (length k) <= Z.of_nat (length hp) -> take (length k) (drop (Z.to_nat h) hp) = k ->
  reads hp (h + Z.of_nat (length k)) (reverse k).
Proof.
  intros Hh Hl Ht i x Hi. apply lookup_lt_Some in Hi as Li. rewrite length_reverse in Li.
  assert (E : k !! (length k - S i)%nat = Some x).
  { rewrite <- Hi. symmetry. by apply reverse_lookup. }
  apply aget_Some. split; [lia|]. assert (E' : take (length k) (drop (Z.to_nat h) hp) !! (length k - S i)%nat = Some x) by (by rewrite Ht).
  rewrite lookup_take_lt, lookup_drop in E' by lia. rewrite <- E'. f_equal. lia.
Qed.

(** The first pass. *)
Lemma bitlen_pass_nodes (H : tree_ok) t1 :
  length t1 = length t -> (forall m, fcat t1 m = fcat t m) ->
  (forall m, dlat t1 m = if m =? id then Some 0 else dlat t m) ->
  exists v, bitlen_pass W (length ns) stat mc (heap s) (heap_max s + 1)
              (Bitlen t1 (replicate 16 0) 0 (opt_len s) (static_len s)) = Some v /\
    pass_inv W stat mc T t1 M (opt_len s) (static_len s) (id :: ns) v.
Proof.
  intros El Hf Hd. pose proof (to_nodup H) as Hnd. unfold nodes in Hnd. cbn [root] in Hnd.
  apply NoDup_cons in Hnd as [Hid Hnb].
  assert (Hd' : forall n, n ∈ below T -> dlat t1 n = dlat t n).
  { intros n Hn. rewrite Hd. destruct (Z.eqb_spec n id) as [->|]; done. }
  assert (Hdep : dep T id = 0%nat) by (unfold dep; cbn [depths assoc]; by rewrite Z.eqb_refl).
  assert (Hmc : mc < id) by (apply (to_inner H); left).
  pose proof (to_below H) as Hb. pose proof (to_small H) as Hs. unfold nodes in Hs. cbn [length] in Hs.
  assert (Hlb : length ns = length (below T)) by (by rewrite Hb).
  apply (bitlen_pass_spec W stat mc T t1 M) with (ps := [id]).
  all: try by apply H.
  - apply rep_frame with t; [apply H|done].
  - intros n Hn. rewrite El. by apply H.
  - pose proof (to_small H). lia.
  - constructor; cbn [b_tree b_count b_overflow]; try done.
    + intros n ->%list_elem_of_singleton. by rewrite Hd, Z.eqb_refl, Hdep.
    + intros l Hl. unfold cnt_of. rewrite filter_cons, decide_False by lia.
      rewrite aget_replicate. destruct (Z.leb_spec 0 (Z.of_nat l)), (Z.ltb_spec (Z.of_nat l) (Z.of_nat 16)); try done; lia.
    + unfold ovf_of. rewrite filter_cons, decide_False by (rewrite Hdep; lia). done.
    + intros Ho. rewrite filter_cons, decide_False by lia. cbn. by rewrite Z.add_0_r.
    + intros Ho. rewrite filter_cons, decide_False by lia. cbn. by rewrite Z.add_0_r.
  - apply in_order_ext with t; [|apply H]. intros n Hn. apply Hd'. by rewrite <- Hb.
  - cbn. apply NoDup_cons. rewrite Hb. done.
  - intros n Hn. by rewrite <- Hb.
  - cbn. lia.
  - rewrite (to_hmax H). lia.
  - rewrite (to_ns H). apply take_ge. lia.
Qed.

(** What stays and what [lengths_ok] says of the result. *)
Definition bitlen_result (d' : tree_desc) (s' : huff_state) : Prop :=
  max_code d' = mc /\ stat_desc d' = stat /\ lengths_ok M (leaves T) t (dyn_tree d') (bl_count s') /\
  (forall n, n ∉ nodes T -> dlat (dyn_tree d') n = dlat t n) /\
  heap s' = heap s /\ depth s' = depth s /\ heap_len s' = heap_len s /\ heap_max s' = heap_max s /\
  (wrap W (opt_len s) = opt_len s ->
   opt_len s' = wrap W (opt_len s + sum_over (bit_cost stat t (len_at (dyn_tree d'))) (leaves T))) /\
  (wrap W (static_len s) = static_len s -> static_len s' = wrap W (static_len s + sum_over (static_cost stat t) (leaves T))).

(** Costs depend on the frequencies and the lengths alone. *)
Lemma bit_cost_ext (ta tb : tree) la lb ns0 :
  (forall n, fcat ta n = fcat tb n) -> (forall n, n ∈ ns0 -> la n = lb n) ->
  sum_over (bit_cost stat ta la) ns0 = sum_over (bit_cost stat tb lb) ns0.
Proof.
  intros Hf Hl. apply sum_over_ext. intros n Hn. unfold bit_cost, freq_at. by rewrite Hf, Hl.
Qed.

Lemma static_cost_ext (ta tb : tree) ns0 :
  (forall n, fcat ta n = fcat tb n) -> sum_over (static_cost stat ta) ns0 = sum_over (static_cost stat tb) ns0.
Proof.
  intros Hf. apply sum_over_ext. intros n Hn. unfold static_cost, bit_cost, freq_at. destruct (static_tree stat); [|done]. by rewrite Hf.
Qed.

Lemma leaf_nodes_all : tree_ok -> leaf_nodes mc (id :: ns) ≡ₚ leaves T.
Proof.
  intros H. assert (Hmc : mc < id) by (apply (to_inner H); left). unfold leaf_nodes.
  rewrite filter_cons, decide_False by lia. by apply leaf_nodes_below.
Qed.

(** The bits under the cut-off depths, and those under the final lengths. *)
Lemma pass_costs (H : tree_ok) t1 v :
  (forall m, fcat t1 m = fcat t m) -> pass_inv W stat mc T t1 M (opt_len s) (static_len s) (id :: ns) v ->
  (wrap W (opt_len s) = opt_len s -> b_opt v = wrap W (opt_len s + sum_over (bit_cost stat t (len_at (b_tree v))) (leaves T))) /\
  (wrap W (static_len s) = static_len s -> b_static v = wrap W (static_len s + sum_over (static_cost stat t) (leaves T))).
Proof.
  intros Hf P. split; intros Hw.
  - rewrite (pi_opt _ _ _ _ _ _ _ _ _ _ P Hw). fold (leaf_nodes mc (id :: ns)). do 2 f_equal. rewrite <- (leaf_nodes_all H).
    apply bit_cost_ext; [done|]. intros n [_ Hn]%list_elem_of_filter. unfold len_at. by rewrite (pi_done _ _ _ _ _ _ _ _ _ _ P).
  - rewrite (pi_static _ _ _ _ _ _ _ _ _ _ P Hw). fold (leaf_nodes mc (id :: ns)). rewrite (leaf_nodes_all H). do 2 f_equal.
    by apply static_cost_ext.
Qed.

Lemma gen_bitlen_spec (H : tree_ok) :
  exists d' s', gen_bitlen W d s = Some (d', s') /\ bitlen_result d' s'.
Proof.
  unfold gen_bitlen, bitlen_result. rewrite (to_root H). cbn [mbind option_bind].
  assert (Hid : id ∈ nodes T) by left.
  destruct (set_dl_ok t id 0) as (t1 & -> & El1 & Hf1 & Hd1); [by apply H|by split|]. cbn [mbind option_bind].
  pose proof (to_heap H) as Hhl. pose proof (to_hmax H) as Hmax.
  assert (Hlen : length ns = Z.to_nat (HEAP_SIZE - (heap_max s + 1))) by (change HEAP_SIZE with 573; lia).
  change (Z.to_nat (MAX_BITS + 1)) with 16%nat. rewrite <- Hlen.
  destruct (bitlen_pass_nodes H t1) as (v & -> & P); [done..|]. cbn [mbind option_bind].
  destruct (pass_costs H t1 v Hf1 P) as [Vo Vs]. destruct P as [Pl Pd Pr Pf Pcl Pc Po _ _].
  assert (Hperm : id :: ns ≡ₚ nodes T) by (unfold nodes; cbn [root]; f_equiv; apply (to_below H)).
  destruct (to_M H) as [HM1 HM15].
  assert (Hns : (length ns <= 572)%nat).
  { pose proof (to_small H) as Hsm. rewrite <- Hperm in Hsm. cbn [length] in Hsm. lia. }
  destruct (leaf_counts_ok M id lt rt HM1) as (e & He & Hco).
  assert (Hs : (length (nodes T) <= 1000)%nat) by (pose proof (to_small H); lia).
  rewrite (ovf_of_nodes T M (to_M H) (to_nodup H) Hs _ Hperm), He in Po.
  set (c := leaf_count M T 0) in *.
  assert (Hcnt : forall l, cnt_of mc T M (id :: ns) l = c l).
  { intros l. apply (cnt_of_nodes stat mc T t M); try apply H; done. }
  assert (Hh : holds_counts (b_count v) c).
  { split; [done|]. intros l Hl. by rewrite Pc, Hcnt. }
  assert (Hmc : mc < id) by (apply (to_inner H); left).
  assert (Hlin : forall l, lengths_in mc (b_tree v) ns l = c l).
  { intros l. rewrite (lengths_in_cnt mc T M).
    - rewrite <- Hcnt. change (id :: ns) with ([id] ++ ns). unfold cnt_of. rewrite filter_app, length_app.
      rewrite filter_cons, decide_False by lia. done.
    - intros n Hn. apply Pd. by right. }
  assert (Hleaves : forall n, n ∈ leaves T -> n ∈ id :: ns).
  { intros n Hn. rewrite Hperm, nodes_perm. apply elem_of_app. by right. }
  assert (Hfar : forall n, n ∉ nodes T -> dlat (b_tree v) n = dlat t n).
  { intros n Hn. rewrite Pr by (by rewrite Hperm). rewrite Hd1. destruct (Z.eqb_spec n id) as [->|]; done. }
  rewrite Po. destruct (Z.eqb_spec (2 * e) 0) as [E|E].
  - do 2 eexists. split; [reflexivity|]. cbn [max_code stat_desc dyn_tree bl_count heap depth heap_len heap_max opt_len static_len].
    split_and!; try done. assert (e = 0) as -> by lia.
    apply (lengths_ok_intro M mc ns (leaves T) t (b_tree v) (b_count v) c); try done; [by apply leaf_nodes_below|congruence| |].
    + intros n. by rewrite Pf, Hf1.
    + intros n Hn. rewrite (Pd n) by auto. eexists. split; [|reflexivity].
      assert (Hd : (n, dep T n) ∈ depths T 0).
      { pose proof (Hleaves n Hn) as Hx. rewrite Hperm in Hx. rewrite <- (depths_fst T 0) in Hx.
        apply list_elem_of_fmap in Hx as ([n' k] & -> & Hx). cbn [fst].
        by rewrite (dep_spec T (to_nodup H) n' k Hx). }
      assert (Hne : n <> id) by (pose proof (to_leaf H n Hn); lia).
      cbn [depths] in Hd. apply elem_of_cons in Hd as [[= ? _]|Hd]; [done|].
      apply elem_of_app in Hd as [Hd|Hd]; apply depths_ge in Hd; lia.
  - assert (He0 : 0 < e) by (pose proof (too_deep_nonneg M T 0); lia).
    rewrite (to_max H).
    assert (HL : Z.of_nat (length (leaves T)) <= 573).
    { pose proof (to_small H). rewrite nodes_perm, length_app in *. lia. }
    destruct (fix_overflow_spec M (Z.of_nat (length (leaves T))) (Z.to_nat HEAP_SIZE) (b_count v) c e)
      as (cnt' & c' & -> & Hh' & Hco'); try done; [apply H|lia| |].
    { pose proof (co_max _ _ _ _ Hco He0). pose proof (total_ge c M M (co_nonneg _ _ _ _ Hco) ltac:(lia)) as Hge.
      rewrite (co_total _ _ _ _ Hco) in Hge. change HEAP_SIZE with 573. lia. }
    cbn [mbind option_bind]. rewrite Nat2Z.id.
    assert (Hrn : reverse ns ≡ₚ ns) by apply reverse_Permutation.
    assert (Hln : leaf_nodes mc (reverse ns) ≡ₚ leaves T).
    { etrans; [|apply leaf_nodes_below, H]. unfold leaf_nodes. by rewrite Hrn. }
    assert (Hnd : NoDup (id :: ns)) by (rewrite Hperm; apply H).
    destruct (relength_spec W mc M cnt' (heap s) c' (reverse ns) HEAP_SIZE (b_tree v) (b_opt v))
      as (t' & opt' & -> & Hl' & Hf' & Hex & Hcn & Hoth & Hopt); try done.
    + apply Hco'.
    + rewrite Hrn. by apply NoDup_cons in Hnd as [_ Hnd].
    + rewrite length_reverse. lia.
    + change HEAP_SIZE with 573. replace 573 with (heap_max s + 1 + Z.of_nat (length ns)) by lia.
      apply reads_rev; [lia|lia|]. rewrite (to_ns H). by apply take_ge.
    + rewrite (co_total _ _ _ _ Hco'), Hln. done.
    + intros m Hm. rewrite Pl, El1. apply (to_range H). rewrite <- Hperm. right. by rewrite <- Hrn.
    + cbn [mbind option_bind]. do 2 eexists. split; [reflexivity|].
      cbn [max_code stat_desc dyn_tree bl_count heap depth heap_len heap_max opt_len static_len]. split_and!; try done.
      * apply (lengths_ok_intro M mc (reverse ns) (leaves T) t t' cnt' c'); try done; [congruence| |].
        -- intros n. by rewrite Hf', Pf, Hf1.
        -- intros n Hn. apply Hex; [|by apply H]. rewrite Hrn. pose proof (to_leaf H n Hn).
           apply Hleaves, elem_of_cons in Hn as [->|Hn']; [lia|done].
      * intros n Hn. rewrite Hoth; [by apply Hfar|]. left. rewrite Hrn. intros Hx. apply Hn. rewrite <- Hperm. by right.
      * intros Ho. rewrite Hopt by (by rewrite (Vo Ho), wrap_idem). rewrite (Vo Ho), wrap_add_l, Hln, <- Z.add_assoc, <- sum_over_add.
        do 2 f_equal. apply sum_over_ext. intros n _. unfold change_cost, bit_cost, freq_at. rewrite Pf, Hf1. lia.
Qed.
End Lengths.
