(* ===== verification/TreesBuild.v ===== *)
(** * build_tree: from the frequencies to a forest and to one tree

    [init_heap] and [force_two] put the used symbols into the heap, at least
    two; [combine] keeps a forest whose roots are in the heap until one tree is
    left. *)
From stdpp Require Import base numbers list sets.
From Stdlib Require Import ZArith Lia Bool.
From S2P Require Import Prelude Huffman Trees TreesCodes TreesHeap TreesShape TreesBitlen.

Lemma set_fc_ok t n v :
  0 <= n < Z.of_nat (length t) ->
  exists t', set_fc t n v = Some t' /\ length t' = length t /\ (forall m, dlat t' m = dlat t m) /\
    forall m, fcat t' m = if m =? n then Some (wrap 16 v) else fcat t m.
Proof.
  intros Hn. unfold set_fc. destruct (aget_range t n Hn) as [c Hc]. rewrite Hc. cbn [mbind option_bind].
  destruct (aset_ok t n (Ct (wrap 16 v) (dl c)) Hn) as (t' & -> & El & Hg). exists t'. split_and!; try done.
  - intros m. unfold dlat. rewrite Hg. destruct (Z.eqb_spec m n) as [->|]; [by rewrite Hc|done].
  - intros m. unfold fcat. rewrite Hg. by destruct (m =? n).
Qed.

(** ** The heap as a list *)

Lemma slice_snoc hp len x :
  0 <= len -> len + 1 < Z.of_nat (length hp) ->
  exists hp', aset hp (len + 1) x = Some hp' /\ length hp' = length hp /\
    slice hp' (len + 1) = slice hp len ++ [x].
Proof.
  intros Hl Hh. destruct (aset_ok hp (len + 1) x) as (hp' & E & El & Hg); [lia|]. exists hp'. split; [done|]. split; [done|].
  rewrite aset_Some in E by lia. injection E as <-. unfold slice.
  replace (Z.to_nat (len + 1)) with (S (Z.to_nat len)) by lia.
  rewrite drop_insert_ge by lia. rewrite (take_S_r _ _ x).
  - by rewrite take_insert_ge by lia.
  - replace (S (Z.to_nat len) - 1)%nat with (Z.to_nat len) by lia. apply list_lookup_insert_eq.
    rewrite length_drop. lia.
Qed.

Lemma slice_insert_out hp len i x :
  0 <= len < i -> slice (<[Z.to_nat i := x]> hp) len = slice hp len.
Proof. intros H. unfold slice. rewrite drop_insert_ge by lia. rewrite take_insert_ge by lia. done. Qed.

(** The first element of the heap, and its replacement. *)
Lemma slice_head hp len x :
  1 <= len -> aget hp 1 = Some x -> exists rest, slice hp len = x :: rest /\
    forall y, slice (<[1%nat := y]> hp) len = y :: rest.
Proof.
  intros Hl [_ Hx]%aget_Some. change (Z.to_nat 1) with 1%nat in Hx. destruct hp as [|h0 [|h1 hp]]; [done..|].
  injection Hx as ->. unfold slice. destruct (Z.to_nat len) as [|k] eqn:E; [lia|]. by eexists.
Qed.

(** Two elements put in front of an end of the array. *)
Lemma drop_two (h h' : list Z) k x y :
  2 <= k -> aget h' (k - 2) = Some x -> aget h' (k - 1) = Some y -> (forall i, k <= i -> aget h' i = aget h i) ->
  drop (Z.to_nat (k - 2)) h' = x :: y :: drop (Z.to_nat k) h.
Proof.
  intros Hk [_ Hx]%aget_Some [_ Hy]%aget_Some Hi. rewrite (drop_S _ x) by done. f_equal.
  replace (S (Z.to_nat (k - 2))) with (Z.to_nat (k - 1)) by lia. rewrite (drop_S _ y) by done. f_equal.
  replace (S (Z.to_nat (k - 1))) with (Z.to_nat k) by lia. apply list_eq. intros i. rewrite !lookup_drop.
  specialize (Hi (Z.of_nat (Z.to_nat k + i)) ltac:(lia)). unfold aget in Hi.
  destruct (Z.leb_spec 0 (Z.of_nat (Z.to_nat k + i))); [|lia]. by rewrite Nat2Z.id in Hi.
Qed.

(** ** The used symbols *)

Definition used (t : tree) (k : nat) : list Z :=
  filter (fun n => fcat t n <> Some 0) (seqZ 0 (Z.of_nat k)).

Lemma used_spec t k n : n ∈ used t k <-> (0 <= n < Z.of_nat k /\ fcat t n <> Some 0).
Proof. unfold used. rewrite list_elem_of_filter, elem_of_seqZ. split; intros; split; try tauto; lia. Qed.

Lemma used_nodup t k : NoDup (used t k).
Proof. apply NoDup_filter, NoDup_seqZ. Qed.

Lemma seqZ_S k : seqZ 0 (Z.of_nat (S k)) = seqZ 0 (Z.of_nat k) ++ [Z.of_nat k].
Proof. rewrite Nat2Z.inj_succ, <- Z.add_1_r, seqZ_app by lia. by rewrite Z.add_0_l. Qed.

Lemma used_S t k :
  used t (S k) = used t k ++ (if decide (fcat t (Z.of_nat k) <> Some 0) then [Z.of_nat k] else []).
Proof. unfold used. rewrite seqZ_S, filter_app, filter_cons. by case_decide. Qed.

Lemma used_length t k : (length (used t k) <= k)%nat.
Proof. unfold used. etrans; [apply length_filter|]. rewrite length_seqZ. lia. Qed.

Lemma used_fcat t t' k : (forall n, fcat t' n = fcat t n) -> used t' k = used t k.
Proof. intros H. unfold used. apply list_filter_iff. intros n. by rewrite H. Qed.

(** The state of the loop after [n] elements. *)
Record init_inv (t0 : tree) (n : nat) (t : tree) (hp : list Z) (len : Z) (dep : list Z) (mc : Z) : Prop := {
  ii_len : length t = length t0;
  ii_fc m : fcat t m = fcat t0 m;
  ii_zero m : 0 <= m < Z.of_nat n -> m ∉ used t0 n -> dlat t m = Some 0;
  ii_rest m : Z.of_nat n <= m -> dlat t m = dlat t0 m;
  ii_hp : length hp = 573%nat;
  ii_slice : slice hp len = used t0 n;
  ii_hlen : len = Z.of_nat (length (used t0 n));
  ii_dep : length dep = 573%nat;
  ii_mc : -1 <= mc < Z.of_nat n;
  ii_max m : m ∈ used t0 n -> m <= mc;
  ii_some : mc = -1 \/ mc ∈ used t0 n }.

Lemma init_heap_spec t0 E k n t hp len dep mc :
  (n + k = E)%nat -> (E <= 286)%nat -> (E <= length t0)%nat -> init_inv t0 n t hp len dep mc ->
  exists t' hp' len' dep' mc', init_heap k (Z.of_nat n) t hp len dep mc = Some (t', hp', len', dep', mc') /\
    init_inv t0 E t' hp' len' dep' mc'.
Proof.
  intros HE HE2 HE3. revert n t hp len dep mc HE.
  induction k as [|k IH]; intros n t hp len dep mc HE Hi.
  { exists t, hp, len, dep, mc. split; [done|]. by replace E with n by lia. }
  destruct Hi as [Il If Iz Ir Ih Is Ihl Id Im Imx Iso]. cbn [init_heap].
  destruct (aget_range t (Z.of_nat n)) as [e He]; [lia|]. rewrite He. cbn [mbind option_bind].
  assert (Hfe : fcat t0 (Z.of_nat n) = Some (fc e)) by (rewrite <- If; unfold fcat; by rewrite He).
  pose proof (used_length t0 n) as Hul. pose proof (used_S t0 n) as HS. rewrite Hfe in HS.
  replace (Z.of_nat n + 1) with (Z.of_nat (S n)) by lia.
  destruct (Z.eqb_spec (fc e) 0) as [E0|E0]; cbn [negb].
  - rewrite decide_False in HS by (rewrite E0; tauto). rewrite app_nil_r in HS.
    destruct (set_dl_ok t (Z.of_nat n) 0) as (t1 & -> & El1 & Hf1 & Hd1); [lia|done|]. cbn [mbind option_bind].
    apply IH; [lia|]. constructor; rewrite ?HS; try done; try lia; [intros m; by rewrite Hf1| |].
    + intros m Hm Hu. rewrite Hd1. destruct (Z.eqb_spec m (Z.of_nat n)); [done|]. apply Iz; [lia|done].
    + intros m Hm. rewrite Hd1. destruct (Z.eqb_spec m (Z.of_nat n)); [lia|]. apply Ir. lia.
  - rewrite decide_True in HS by congruence.
    destruct (slice_snoc hp len (Z.of_nat n)) as (hp1 & -> & El1 & Es1); [lia|lia|]. cbn [mbind option_bind].
    destruct (aset_ok dep (Z.of_nat n) 0) as (dep1 & -> & Eld & _); [lia|]. cbn [mbind option_bind].
    apply IH; [lia|]. constructor; rewrite ?HS; try done; try congruence; try lia.
    + intros m Hm Hu. apply not_elem_of_app in Hu as [Hu1 Hu2]. apply Iz; [|done].
      assert (m <> Z.of_nat n); [|lia]. intros ->. apply Hu2. left.
    + intros m Hm. apply Ir. lia.
    + rewrite length_app. cbn. lia.
    + intros m [Hm|Hm]%elem_of_app; [apply used_spec in Hm; lia|]. apply list_elem_of_singleton in Hm. lia.
    + right. apply elem_of_app. right. left.
Qed.

(** ** The leaves, at least two *)

(** The symbols that are forced into the tree. *)
Definition forced (t0 : tree) (E : nat) (ls : list Z) : list Z := filter (fun n => n ∉ used t0 E) ls.

Record leaves_inv (W : Z) (stree : option tree) (o0 s0 : Z) (t0 : tree) (E : nat) (ls : list Z) (v : build) : Prop := {
  li_nodup : NoDup ls;
  li_used m : m ∈ used t0 E -> m ∈ ls;
  li_range m : m ∈ ls -> 0 <= m <= u_code v;
  li_mc : -1 <= u_code v < Z.of_nat E;
  li_some : u_code v = -1 \/ u_code v ∈ ls;
  li_len : length (u_tree v) = length t0;
  li_zero m : 0 <= m < Z.of_nat E -> m ∉ ls -> dlat (u_tree v) m = Some 0;
  li_hp : length (u_heap v) = 573%nat;
  li_slice : slice (u_heap v) (u_len v) = ls;
  li_hlen : u_len v = Z.of_nat (length ls);
  li_dep : length (u_depth v) = 573%nat;
  li_max : u_max v = HEAP_SIZE;
  li_few : (length ls <= E)%nat;
  li_fc m : 0 <= m < Z.of_nat E -> fcat (u_tree v) m = if decide (m ∈ forced t0 E ls) then Some 1 else fcat t0 m;
  li_two : (length ls <= 2)%nat \/ forced t0 E ls = [];
  li_low m : m ∈ forced t0 E ls -> 0 <= m < 3;
  li_opt : wrap W o0 = o0 -> u_opt v = wrap W (o0 - Z.of_nat (length (forced t0 E ls)));
  li_static : wrap W s0 = s0 ->
    u_static v = wrap W (s0 - match stree with Some st => sum_over (len_at st) (forced t0 E ls) | None => 0 end) }.

Lemma wrap_sub_l w a b : wrap w (wrap w a - b) = wrap w (a - b).
Proof. rewrite <- !Z.add_opp_r. apply wrap_add_l. Qed.

Lemma force_two_spec W o0 s0 t0 E (stree : option tree) fuel ls v :
  (3 <= E <= 286)%nat -> (E <= length t0)%nat ->
  (match stree with Some st => (3 <= length st)%nat | None => True end) ->
  leaves_inv W stree o0 s0 t0 E ls v -> (2 - length ls < fuel)%nat ->
  exists ls' v', force_two W fuel stree v = Some v' /\ leaves_inv W stree o0 s0 t0 E ls' v' /\ (2 <= length ls')%nat.
Proof.
  intros HE HE2 Hst. revert ls v. induction fuel as [|fuel IH]; intros ls v Hi Hf; [lia|]. cbn [force_two].
  pose proof Hi as [In Iu Ir Im Iso Il Iz Ih Is Ihl Id Imx Ifw Ifc Itw Ilo Iop Ist]. destruct (Z.ltb_spec (u_len v) 2) as [H2|H2].
  2:{ exists ls, v. split_and!; try done. lia. }
  set (p := if u_code v <? 2 then _ else _).
  assert (Hp : exists mc' node, p = (mc', node) /\ 0 <= node < 3 /\ node ∉ ls /\ node <= mc' /\ mc' < Z.of_nat E /\
    u_code v <= mc' /\ mc' ∈ ls ++ [node]).
  { subst p. destruct (Z.ltb_spec (u_code v) 2) as [Hc|Hc].
    - do 2 eexists. split; [reflexivity|]. split_and!; try lia.
      + intros Hx. apply Ir in Hx. lia.
      + apply elem_of_app. right. left.
    - do 2 eexists. split; [reflexivity|]. destruct Iso as [?|Iso]; [lia|]. split_and!; try lia.
      + destruct ls as [|x [|y ls]]; [by apply elem_of_nil in Iso| |cbn in Ihl; lia].
        apply list_elem_of_singleton in Iso as <-. intros Hx%list_elem_of_singleton. lia.
      + apply elem_of_app. by left. }
  destruct Hp as (mc' & node & -> & Hn & Hnl & Hnm & Hm & Hcm & Hin).
  destruct (slice_snoc (u_heap v) (u_len v) node) as (hp1 & -> & El1 & Es1); [lia|lia|]. cbn [mbind option_bind].
  destruct (set_fc_ok (u_tree v) node 1) as (t1 & -> & Elt & Hd1 & Hf1); [lia|]. cbn [mbind option_bind].
  destruct (aset_ok (u_depth v) node 0) as (dep1 & -> & Eld & _); [lia|]. cbn [mbind option_bind].
  assert (Hnu : node ∉ used t0 E) by (intros Hx; by apply Hnl, Iu).
  assert (Efo : forced t0 E (ls ++ [node]) = forced t0 E ls ++ [node]).
  { unfold forced. by rewrite filter_app, filter_cons, decide_True. }
  assert (Hs : exists sl, (match stree with
      | Some st => e ← aget st node; Some (wrap W (u_static v - dl e)) | None => Some (u_static v) end) = Some sl /\
      (wrap W s0 = s0 -> sl = wrap W (s0 - match stree with Some st => sum_over (len_at st) (forced t0 E (ls ++ [node])) | None => 0 end))).
  { destruct stree as [st|]; [|by eexists]. destruct (aget_range st node) as [e Ee]; [lia|]. rewrite Ee. eexists. split; [reflexivity|].
    intros Hw. rewrite (Ist Hw), wrap_sub_l, Efo, sum_over_app, sum_over_cons. unfold len_at at 3, dlat. rewrite Ee.
    cbn [option_map default from_option sum_over foldr]. f_equal. unfold id. lia. }
  destruct Hs as (sl & -> & Hsl). cbn [mbind option_bind]. apply (IH (ls ++ [node])); [|rewrite length_app; cbn; lia].
  constructor; cbn; try done; try congruence; try lia.
  - apply NoDup_app. split_and!; [done| |apply NoDup_singleton]. intros x Hx ->%list_elem_of_singleton. done.
  - intros m Hu. apply elem_of_app. left. by apply Iu.
  - intros m [Hx|Hx]%elem_of_app; [apply Ir in Hx; lia|]. apply list_elem_of_singleton in Hx. lia.
  - by right.
  - intros m Hx [Hy _]%not_elem_of_app. rewrite Hd1. by apply Iz.
  - rewrite length_app. cbn. lia.
  - rewrite length_app. cbn. lia.
  - intros m Hx. rewrite Hf1, Ifc, Efo by done. destruct (Z.eqb_spec m node) as [->|Hne].
    + rewrite decide_True; [done|]. apply elem_of_app. right. left.
    + apply decide_ext. rewrite elem_of_app, list_elem_of_singleton. tauto.
  - left. rewrite length_app. cbn. lia.
  - intros m. rewrite Efo, elem_of_app, list_elem_of_singleton. intros [Hx| ->]; [by apply Ilo|lia].
  - intros Hw. rewrite (Iop Hw), wrap_sub_l, Efo, length_app. cbn [length]. f_equal. lia.
Qed.

(** ** The forest *)

Lemma in_order_mono t ps ps' ns :
  (forall p, p ∈ ps -> p ∈ ps') -> in_order t ps ns -> in_order t ps' ns.
Proof.
  revert ps ps'. induction ns as [|n ns IH]; intros ps ps' H; [done|]. cbn [in_order]. intros [(p & ? & ?) Ho].
  split; [exists p; split; [done|by apply H]|]. apply (IH (ps ++ [n])); [|done].
  intros q [Hq|Hq]%elem_of_app; apply elem_of_app; [left; by apply H|by right].
Qed.

Lemma in_order_frame t t' ps ns :
  (forall n, n ∈ ns -> dlat t' n = dlat t n) -> in_order t ps ns -> in_order t' ps ns.
Proof.
  revert ps. induction ns as [|n ns IH]; intros ps H; [done|]. cbn [in_order]. intros [(p & Hp & Hpp) Ho].
  split; [exists p; split; [by rewrite H by left|done]|]. apply IH; [|done]. intros m Hm. apply H. by right.
Qed.

Section Combine.
Context (t0 : tree) (E : nat) (ls : list Z) (mc : Z).
Context (HE : (E <= 286)%nat) (Ht0 : length t0 = (2 * E + 1)%nat) (Hls : (2 <= length ls <= E)%nat).
Context (Hrange : forall n, n ∈ ls -> 0 <= n < Z.of_nat E).

Record comb_inv (F : list btree) (node : Z) (v : build) : Prop := {
  ci_nodup : NoDup (F ≫= nodes);
  ci_roots : map root F ≡ₚ slice (u_heap v) (u_len v);
  ci_leaves : F ≫= leaves ≡ₚ ls;
  ci_inner n : n ∈ F ≫= inner -> Z.of_nat E <= n < node;
  ci_rep : Forall (rep (u_tree v)) F;
  ci_out : drop (Z.to_nat (u_max v)) (u_heap v) ≡ₚ F ≫= below;
  ci_order : in_order (u_tree v) (map root F) (drop (Z.to_nat (u_max v)) (u_heap v));
  ci_heap : length (u_heap v) = 573%nat;
  ci_node : Z.of_nat E <= node;
  ci_len : u_len v = Z.of_nat (length ls) - (node - Z.of_nat E);
  ci_max : u_max v = 573 - 2 * (node - Z.of_nat E);
  ci_tree : length (u_tree v) = length t0;
  ci_depth : length (u_depth v) = 573%nat;
  ci_rest n : n ∉ F ≫= nodes -> dlat (u_tree v) n = dlat t0 n;
  ci_code : u_code v = mc }.

Lemma bind_nodes_perm (F : list btree) : F ≫= nodes ≡ₚ (F ≫= inner) ++ (F ≫= leaves).
Proof. induction F as [|T F IH]; [done|]. rewrite !bind_cons, IH, nodes_perm. solve_Permutation. Qed.

Lemma root_nodes F n : n ∈ map root F -> n ∈ F ≫= nodes.
Proof.
  intros (T & -> & HT)%list_elem_of_fmap. apply list_elem_of_bind. exists T. split; [by left|done].
Qed.

Lemma forest_range F node v n : comb_inv F node v -> n ∈ F ≫= nodes -> 0 <= n < node.
Proof.
  intros H. rewrite bind_nodes_perm. intros [Hn|Hn]%elem_of_app.
  - apply (ci_inner _ _ _ H) in Hn. lia.
  - rewrite (ci_leaves _ _ _ H) in Hn. apply Hrange in Hn. pose proof (ci_node _ _ _ H). lia.
Qed.

Lemma forest_nodes_ok F node v :
  comb_inv F node v -> node <= Z.of_nat (length t0) -> Forall (node_ok (u_tree v) (u_depth v)) (slice (u_heap v) (u_len v)).
Proof.
  intros H Hn. rewrite <- (ci_roots _ _ _ H). apply Forall_forall. intros x Hx%root_nodes.
  apply (forest_range _ _ _ _ H) in Hx. split; rewrite ?(ci_tree _ _ _ H), ?(ci_depth _ _ _ H); lia.
Qed.

(** Joining the trees with the roots [n] and [m]. *)
Lemma join_forest F n rest m rest' :
  map root F ≡ₚ n :: rest -> rest = m :: rest' ->
  exists A B F', F ≡ₚ A :: B :: F' /\ root A = n /\ root B = m /\ map root F' = rest'.
Proof.
  intros Hp ->. symmetry in Hp. destruct (Permutation_map_inv _ _ Hp) as (k & Ek & Hk).
  destruct k as [|A [|B F']]; [done..|]. injection Ek as -> -> ->. by exists A, B, F'.
Qed.

Lemma join_nodes F F' A B node :
  F ≡ₚ A :: B :: F' ->
  (BNode node A B :: F') ≫= nodes ≡ₚ node :: (F ≫= nodes) /\
  (BNode node A B :: F') ≫= leaves ≡ₚ F ≫= leaves /\
  (BNode node A B :: F') ≫= inner ≡ₚ node :: (F ≫= inner).
Proof.
  intros ->. rewrite !bind_cons. change (nodes (BNode node A B)) with (node :: nodes A ++ nodes B).
  cbn [leaves inner]. split_and!; solve_Permutation.
Qed.

(** The part of the step that the program does on the tree and the order. *)
Lemma comb_join F F' A B node (t t' : tree) out :
  NoDup (F ≫= nodes) -> F ≡ₚ A :: B :: F' -> node ∉ F ≫= nodes -> Forall (rep t) F ->
  out ≡ₚ F ≫= below -> in_order t (map root F) out ->
  (forall x, dlat t' x = if (x =? root A) || (x =? root B) then Some node else dlat t x) ->
  let J := BNode node A B in
  NoDup ((J :: F') ≫= nodes) /\ Forall (rep t') (J :: F') /\
  root B :: root A :: out ≡ₚ (J :: F') ≫= below /\ in_order t' (map root (J :: F')) (root B :: root A :: out).
Proof.
  intros Hnd HF Hn Hrep Hout Hord Hd J. rewrite HF in Hnd, Hn, Hrep, Hout.
  assert (Hout' : out ≡ₚ below A ++ below B ++ (F' ≫= below)) by done.
  assert (Hnd' : NoDup (root A :: root B :: below A ++ below B ++ (F' ≫= nodes))).
  { assert (E1 : root A :: root B :: below A ++ below B ++ (F' ≫= nodes) ≡ₚ (A :: B :: F') ≫= nodes).
    { rewrite !bind_cons. unfold nodes at 2 3. solve_Permutation. }
    by rewrite E1. }
  apply NoDup_cons in Hnd' as [HA Hnd']. apply NoDup_cons in Hnd' as [HB Hnd'].
  assert (Hbelow : forall x, x ∈ F' ≫= below -> x ∈ F' ≫= nodes).
  { intros x (T & Hx & HT)%list_elem_of_bind. apply list_elem_of_bind. exists T. split; [by right|done]. }
  assert (Hout2 : forall x, x ∈ out -> dlat t' x = dlat t x).
  { intros x Hx. rewrite Hout' in Hx. rewrite Hd.
    assert (x <> root A /\ x <> root B) as [? ?].
    { split; intros ->; [apply HA; right|apply HB]; rewrite !elem_of_app in Hx |- *; naive_solver. }
    destruct (Z.eqb_spec x (root A)), (Z.eqb_spec x (root B)); done. }
  assert (HdA : dlat t' (root A) = Some node) by (by rewrite Hd, Z.eqb_refl).
  assert (HdB : dlat t' (root B) = Some node) by (by rewrite Hd, Z.eqb_refl, orb_true_r).
  apply Forall_cons in Hrep as [RA Hrep]. apply Forall_cons in Hrep as [RB Hrep]. split_and!.
  - destruct (join_nodes F F' A B node HF) as (E2 & _). subst J. rewrite E2, HF. by apply NoDup_cons.
  - apply Forall_cons. split.
    + cbn [rep J]. split_and!; [done|done| |].
      * apply rep_frame with t; [done|]. intros x Hx. apply Hout2. rewrite Hout'. set_solver.
      * apply rep_frame with t; [done|]. intros x Hx. apply Hout2. rewrite Hout'. set_solver.
    + apply Forall_forall. intros T HT. apply rep_frame with t; [by eapply Forall_forall in Hrep|].
      intros x Hx. apply Hout2. rewrite Hout', !elem_of_app. do 2 right. apply list_elem_of_bind. by exists T.
  - rewrite bind_cons, Hout'. cbn [below J]. solve_Permutation.
  - cbn [map root J in_order]. split; [exists node; split; [done|left]|].
    split; [exists node; split; [done|apply elem_of_app; left; left]|].
    apply in_order_frame with t; [done|]. apply in_order_mono with (map root F); [|done].
    intros p Hp. rewrite HF in Hp. cbn [map] in Hp. rewrite !elem_of_app, !elem_of_cons in *. naive_solver.
Qed.

(** The frequencies of the symbols and the lengths of the block so far. *)
Definition keeps_costs (v v' : build) : Prop :=
  (forall n, n < Z.of_nat E -> fcat (u_tree v') n = fcat (u_tree v) n) /\ u_opt v' = u_opt v /\ u_static v' = u_static v.

Lemma comb_turn F node v :
  comb_inv F node v -> 2 <= u_len v ->
  exists F' v', comb_inv F' (node + 1) v' /\ u_len v' = u_len v - 1 /\ keeps_costs v v' /\
    (forall fuel, combine (S fuel) node v = if u_len v' >=? 2 then combine fuel (node + 1) v' else Some v').
Proof.
  intros H H2. pose proof H as [Cn Cr Cl Ci Cp Co Cord Ch Cnd Clen Cm Ct Cd Crest Cc].
  assert (Hnode : node < Z.of_nat (length t0)) by lia.
  pose proof (forest_nodes_ok F node v H ltac:(lia)) as Hok.
  destruct (pqremove_spec (u_tree v) (u_depth v) (u_heap v) (u_len v)) as (n & h1 & E1 & El1 & Hp1 & Ho1); [lia|lia|done|].
  destruct (aget_range h1 1) as [m Hm]; [lia|].
  destruct (slice_head h1 (u_len v - 1) m) as (rest & Es1 & Es2); [lia|done|].
  destruct (join_forest F n (slice h1 (u_len v - 1)) m rest) as (A & B & F' & HF & RA & RB & RF); [by rewrite Cr, Hp1|done|].
  assert (Hnm : Forall (fun x => x ∈ F ≫= nodes) [n; m]).
  { assert (Hr : forall x, x ∈ [n; m] -> x ∈ map root F).
    { intros x Hx. rewrite HF. cbn [map]. rewrite RA, RB. set_solver. }
    apply Forall_forall. intros x Hx. by apply root_nodes, Hr. }
  apply Forall_cons in Hnm as [Hn Hnm]. apply Forall_cons in Hnm as [Hm' _].
  pose proof (forest_range F node v n H Hn) as Rn. pose proof (forest_range F node v m H Hm') as Rm.
  assert (Hnn : node ∉ F ≫= nodes) by (intros Hx%(forest_range F node v _ H); lia).
  destruct (aset_ok h1 (u_max v - 1) n) as (h2 & E2 & El2 & Hg2); [lia|].
  destruct (aset_ok h2 (u_max v - 2) m) as (h3 & E3 & El3 & Hg3); [lia|].
  destruct (aget_range (u_tree v) n) as [en Hen]; [lia|]. destruct (aget_range (u_tree v) m) as [em Hem]; [lia|].
  destruct (set_fc_ok (u_tree v) node (fc en + fc em)) as (t1 & Et1 & Elt1 & Hd1 & Hf1); [lia|].
  destruct (aget_range (u_depth v) n) as [dn Hdn]; [lia|]. destruct (aget_range (u_depth v) m) as [dm Hdm]; [lia|].
  destruct (aset_ok (u_depth v) node (wrap 8 ((if dn >=? dm then dn else dm) + 1))) as (dep1 & Ed & Eld & _); [lia|].
  destruct (set_dl_ok t1 m node) as (t2 & Et2 & Elt2 & Hf2 & Hd2); [lia|change (2 ^ 16) with 65536; lia|].
  destruct (set_dl_ok t2 n node) as (t3 & Et3 & Elt3 & Hf3 & Hd3); [lia|change (2 ^ 16) with 65536; lia|].
  destruct (aset_ok h3 1 node) as (h4 & E4 & El4 & Hg4); [lia|].
  assert (Hd : forall x, dlat t3 x = if (x =? root A) || (x =? root B) then Some node else dlat (u_tree v) x).
  { intros x. rewrite Hd3, Hd2, Hd1, RA, RB. by destruct (x =? n), (x =? m). }
  destruct (comb_join F F' A B node (u_tree v) t3 _ Cn HF Hnn Cp Co Cord Hd) as (Jn & Jr & Jo & Jord).
  destruct (join_nodes F F' A B node HF) as (Nn & Nl & Ni).
  set (J := BNode node A B) in *.
  assert (Es4 : slice h4 (u_len v - 1) = map root (J :: F')).
  { rewrite aset_Some in E2, E3, E4 by lia. injection E2 as <-. injection E3 as <-. injection E4 as <-.
    assert (Hm3 : aget (<[Z.to_nat (u_max v - 2):=m]> (<[Z.to_nat (u_max v - 1):=n]> h1)) 1 = Some m).
    { rewrite !aget_insert by (rewrite ?length_insert; lia).
      destruct (Z.eqb_spec 1 (u_max v - 2)), (Z.eqb_spec 1 (u_max v - 1)); try lia. done. }
    destruct (slice_head _ (u_len v - 1) m ltac:(lia) Hm3) as (rest3 & Es3 & Es3').
    change (Z.to_nat 1) with 1%nat. rewrite Es3'. rewrite !slice_insert_out in Es3 by lia.
    rewrite Es3 in Es1. injection Es1 as ->. cbn [map]. by rewrite RF. }
  destruct (pqdownheap_spec t3 dep1 h4 (u_len v - 1) 1) as (h5 & E5 & (El5 & Hp5 & Ho5)); [lia|lia| |].
  { rewrite Es4. apply Forall_forall. intros x Hx%root_nodes. subst J. rewrite Nn in Hx.
    apply elem_of_cons in Hx as [->|Hx]; [split; lia|]. apply (forest_range F node v _ H) in Hx. split; lia. }
  assert (Hout5 : drop (Z.to_nat (u_max v - 2)) h5 = root B :: root A :: drop (Z.to_nat (u_max v)) (u_heap v)).
  { assert (Hfar : forall i, u_max v - 2 <= i -> aget h5 i = aget h3 i).
    { intros i Hi. rewrite Ho5 by lia. rewrite Hg4. destruct (Z.eqb_spec i 1); [lia|done]. }
    apply drop_two; [lia| | |].
    - by rewrite Hfar, Hg3, Z.eqb_refl, RB by lia.
    - rewrite Hfar, Hg3, Hg2, Z.eqb_refl, RA by lia. destruct (Z.eqb_spec (u_max v - 1) (u_max v - 2)); [lia|done].
    - intros i Hi. rewrite Hfar, Hg3, Hg2, Ho1 by lia.
      destruct (Z.eqb_spec i (u_max v - 2)), (Z.eqb_spec i (u_max v - 1)); lia || done. }
  exists (J :: F'), (Build t3 h5 (u_len v - 1) (u_max v - 2) dep1 (u_code v) (u_opt v) (u_static v)).
  split; [|split; [done|split]].
  - constructor; cbn [u_tree u_heap u_len u_max u_depth u_code]; rewrite ?Hout5; try done; try lia; try congruence.
    + by rewrite Hp5, Es4.
    + subst J. by rewrite Nl.
    + intros x Hx. subst J. rewrite Ni in Hx. apply elem_of_cons in Hx as [->|Hx]; [lia|]. apply Ci in Hx. lia.
    + intros x Hx. subst J. rewrite Nn in Hx. apply not_elem_of_cons in Hx as [Hx1 Hx2]. rewrite Hd, <- Crest by done.
      rewrite RA, RB. destruct (Z.eqb_spec x n) as [E0|_]; [by rewrite E0 in Hx2|]. destruct (Z.eqb_spec x m) as [E0|_]; [by rewrite E0 in Hx2|done].
  - split; [|done]. intros x Hx. cbn [u_tree]. rewrite Hf3, Hf2, Hf1. destruct (Z.eqb_spec x node); [lia|done].
  - intros fuel. cbn [combine u_len]. rewrite E1. cbn [mbind option_bind]. unfold SMALLEST. rewrite Hm. cbn [mbind option_bind].
    rewrite E2. cbn [mbind option_bind]. rewrite E3. cbn [mbind option_bind]. rewrite Hen. cbn [mbind option_bind].
    rewrite Hem. cbn [mbind option_bind]. rewrite Et1. cbn [mbind option_bind]. rewrite Hdn. cbn [mbind option_bind].
    rewrite Hdm. cbn [mbind option_bind]. rewrite Ed. cbn [mbind option_bind]. rewrite Et2. cbn [mbind option_bind].
    rewrite Et3. cbn [mbind option_bind]. rewrite E4. cbn [mbind option_bind]. by rewrite E5.
Qed.

Lemma combine_spec fuel F node v :
  comb_inv F node v -> 2 <= u_len v -> (Z.to_nat (u_len v) <= S fuel)%nat ->
  exists T node' v', combine fuel node v = Some v' /\ comb_inv [T] node' v' /\ u_len v' = 1 /\ keeps_costs v v'.
Proof.
  revert F node v. induction fuel as [|fuel IH]; intros F node v H H2 Hf; [lia|].
  destruct (comb_turn F node v H H2) as (F' & v' & H' & Hl & (K1 & K2 & K3) & ->). destruct (Z.geb_spec (u_len v') 2) as [Hge|Hlt].
  - destruct (IH F' (node + 1) v') as (T & node' & v2 & E2 & I2 & L2 & J1 & J2 & J3); [done|lia|lia|].
    exists T, node', v2. do 3 (split; [done|]). split; [|split; congruence]. intros n Hn. by rewrite J1, K1.
  - assert (Hl1 : u_len v' = 1) by lia. pose proof (ci_roots _ _ _ H') as Hr.
    pose proof (slice_length (u_heap v') (u_len v')) as Hsl. rewrite <- Hr, length_map, (ci_heap _ _ _ H') in Hsl.
    destruct F' as [|T [|T2 F2]]; [cbn in Hsl; lia| |cbn in Hsl; lia]. by exists T, (node + 1), v'.
Qed.

(** The forest at the beginning: every leaf is a tree. *)
Lemma comb_start v :
  NoDup ls -> slice (u_heap v) (u_len v) ≡ₚ ls -> u_len v = Z.of_nat (length ls) -> u_max v = 573 ->
  length (u_heap v) = 573%nat -> length (u_depth v) = 573%nat -> u_tree v = t0 -> u_code v = mc ->
  comb_inv (map BLeaf ls) (Z.of_nat E) v.
Proof.
  intros Hnd Hs Hl Hm Hh Hd Ht Hc.
  assert (En : map BLeaf ls ≫= nodes = ls).
  { clear. induction ls as [|x k IH]; [done|]. cbn [map]. rewrite bind_cons, IH. done. }
  assert (El : map BLeaf ls ≫= leaves = ls).
  { clear. induction ls as [|x k IH]; [done|]. cbn [map]. rewrite bind_cons, IH. done. }
  assert (Ei : map BLeaf ls ≫= inner = []).
  { clear. induction ls as [|x k IH]; [done|]. cbn [map]. by rewrite bind_cons, IH. }
  assert (Eb : map BLeaf ls ≫= below = []).
  { clear. induction ls as [|x k IH]; [done|]. cbn [map]. by rewrite bind_cons, IH. }
  assert (Er : map root (map BLeaf ls) = ls) by (rewrite map_map; apply map_id).
  assert (Eo : drop (Z.to_nat (u_max v)) (u_heap v) = []) by (apply drop_ge; lia).
  constructor; rewrite ?En, ?El, ?Ei, ?Eb, ?Er, ?Eo; try done; try lia.
  - by intros n ?%elem_of_nil.
  - apply Forall_forall. intros T (x & -> & _)%list_elem_of_fmap. done.
  - by rewrite Ht.
  - intros n _. by rewrite Ht.
Qed.
End Combine.
