(* ===== verification/TreesSpec.v ===== *)
(** * build_tree gives a complete code

    For every tree descriptor of the right shape, whatever the frequencies,
    [build_tree] returns: the lengths are those of a complete prefix code up to
    the maximum, every symbol with a nonzero frequency has a code, the codes
    are the canonical ones, and [max_code] is the last symbol with a code. *)
From stdpp Require Import base numbers list sets.
From Stdlib Require Import ZArith Lia Bool.
From S2P Require Import Prelude Huffman Trees TreesCodes TreesHeap TreesShape TreesBitlen TreesRepair.
From S2P Require Import TreesLengths TreesBuild.

(** ** Counting lengths *)

Lemma bl_count_lens_of t k l :
  (k <= length t)%nat ->
  Huffman.bl_count (lens_of t (Z.of_nat k)) (Z.of_nat l) =
  Z.of_nat (length (filter (fun n => dlat t n = Some (Z.of_nat l)) (seqZ 0 (Z.of_nat k)))).
Proof.
  unfold lens_of, Huffman.bl_count. rewrite Nat2Z.id. induction k as [|k IH]; intros Hk; [done|].
  rewrite seqZ_S, filter_app, length_app, Nat2Z.inj_add, <- IH by lia.
  destruct (lookup_lt_is_Some_2 t k) as [e He]; [lia|]. rewrite (take_S_r _ _ e He), map_app, filter_app, length_app.
  rewrite Nat2Z.inj_add. f_equal. cbn [map]. rewrite !filter_cons. unfold dlat, aget.
  destruct (Z.leb_spec 0 (Z.of_nat k)); [|lia]. rewrite Nat2Z.id, He. cbn [option_map].
  case_decide as E1; case_decide as E2; cbn; try done; [by rewrite E1 in E2|]. by injection E2 as E2.
Qed.

Lemma code_count_perm t k ls l :
  (k <= length t)%nat -> NoDup ls ->
  (forall n, 0 <= n < Z.of_nat k -> n ∉ ls -> dlat t n = Some 0) -> (forall n, n ∈ ls -> 0 <= n < Z.of_nat k) ->
  code_count (lens_of t (Z.of_nat k)) (S l) =
  Z.of_nat (length (filter (fun n => dlat t n = Some (Z.of_nat (S l))) ls)).
Proof.
  intros Hk Hnd H0 Hr. cbn [code_count]. rewrite bl_count_lens_of by done. f_equal.
  apply Permutation_length, NoDup_Permutation; [by apply NoDup_filter, NoDup_seqZ|by apply NoDup_filter|].
  intros n. rewrite !list_elem_of_filter, elem_of_seqZ. split.
  - intros [Hd Hn]. split; [done|]. destruct (decide (n ∈ ls)) as [|Hnl]; [done|].
    rewrite H0 in Hd by (done || lia). injection Hd as Hd. lia.
  - intros [Hd Hn]. split; [done|]. apply Hr in Hn. lia.
Qed.

Lemma codes_left_beyond lens n k :
  Forall (fun l => 0 <= l <= Z.of_nat n) lens -> codes_left lens n = 0 -> codes_left lens (n + k) = 0.
Proof.
  intros Hf H0. induction k as [|k IH]; [by rewrite Nat.add_0_r|]. rewrite Nat.add_succ_r. cbn [codes_left code_count].
  rewrite IH. unfold Huffman.bl_count. destruct (filter _ lens) as [|x fs] eqn:E; [done|]. exfalso.
  assert (Hx : x ∈ x :: fs) by left. rewrite <- E in Hx. apply list_elem_of_filter in Hx as [-> Hx].
  rewrite Forall_forall in Hf. apply Hf in Hx. lia.
Qed.

(** ** build_tree *)

(** The arrays and constants of a tree have the sizes of the source. *)
Record desc_ok (M : nat) (stat : static_tree_desc) (t : tree) : Prop := {
  do_elems : 3 <= elems stat <= 286;
  do_tree : Z.of_nat (length t) = 2 * elems stat + 1;
  do_max : max_length stat = Z.of_nat M;
  do_M : (1 <= M <= 15)%nat;
  do_fits : elems stat <= 2 ^ Z.of_nat M;
  do_extra : elems stat <= extra_base stat + Z.of_nat (length (extra_bits stat));
  do_static st : static_tree stat = Some st -> elems stat <= Z.of_nat (length st) }.

Record huff_ok (s : huff_state) : Prop := {
  ho_heap : length (heap s) = 573%nat;
  ho_depth : length (depth s) = 573%nat }.

(** What a tree holds after [build_tree]. *)
Record built (M : nat) (t : tree) (max_code : Z) : Prop := {
  bt_range : 0 <= max_code < Z.of_nat (length t);
  bt_lens : Forall (fun l => 0 <= l <= Z.of_nat M) (lens_of t (max_code + 1));
  bt_complete : codes_left (lens_of t (max_code + 1)) M = 0;
  bt_codes : coded_tree t (max_code + 1);
  bt_last : exists l, dlat t max_code = Some l /\ 0 < l }.

Lemma built_not_over M t mc : (M <= 15)%nat -> built M t mc -> not_over (lens_of t (mc + 1)) 15.
Proof.
  intros HM [_ Hf Hc _ _]. apply not_over_iff. replace 15%nat with (M + (15 - M))%nat by lia.
  by rewrite (codes_left_beyond _ M).
Qed.

(** From the lengths to the codes. *)
Lemma gen_codes_built M t0 t cnt mc ls :
  (1 <= M <= 15)%nat -> NoDup ls -> (forall n, n ∈ ls -> 0 <= n <= mc) -> mc ∈ ls -> mc < Z.of_nat (length t) ->
  (forall n, 0 <= n <= mc -> n ∉ ls -> dlat t n = Some 0) -> lengths_ok M ls t0 t cnt ->
  exists t', gen_codes t mc cnt = Some t' /\ built M t' mc /\ length t' = length t /\
    (forall n, 0 <= n <= mc -> dlat t' n = dlat t n) /\ (forall i, mc < i -> aget t' i = aget t i).
Proof.
  intros HM Hnd Hr Hmc Hlen H0 [Ll Lf Lleaf Lcl Lc Lleft]. pose proof (Hr mc Hmc) as Hm0.
  set (lens := lens_of t (mc + 1)).
  assert (Hcc : forall l, code_count lens (S l) =
            Z.of_nat (length (filter (fun n => dlat t n = Some (Z.of_nat (S l))) ls))).
  { intros l. subst lens. replace (mc + 1) with (Z.of_nat (Z.to_nat (mc + 1))) by lia. apply code_count_perm; [lia|done| |].
    - intros n Hn. apply H0. lia.
    - intros n Hn. apply Hr in Hn. lia. }
  assert (Hf : Forall (fun l => 0 <= l <= Z.of_nat M) lens).
  { apply Forall_lookup. intros i x Hi.
    assert (Hx : aget lens (Z.of_nat i) = Some x) by (apply aget_Some; split; [lia|by rewrite Nat2Z.id]).
    pose proof (aget_Some_lt _ _ _ Hx) as Hil. unfold lens in Hil. rewrite lens_of_length in Hil by lia.
    unfold lens in Hx. rewrite aget_lens_of in Hx by lia. change (dlat t (Z.of_nat i) = Some x) in Hx.
    destruct (decide (Z.of_nat i ∈ ls)) as [Hin|Hin].
    - destruct (Lleaf _ Hin) as (l & Hl & Hd). rewrite Hx in Hd. injection Hd as ->. lia.
    - rewrite H0 in Hx by (done || lia). injection Hx as <-. lia. }
  assert (Hleft : codes_left lens M = 0).
  { rewrite codes_left_left_over, <- Lleft. apply left_over_ext. intros k Hk. destruct k as [|k]; [lia|]. apply Hcc. }
  assert (Ho : not_over lens 15).
  { apply not_over_iff. replace 15%nat with (M + (15 - M))%nat by lia. by rewrite (codes_left_beyond _ M). }
  assert (Hcnt : counts cnt lens).
  { split; [done|]. intros l Hl. rewrite Lc by done. f_equal. destruct l as [|l]; [|by rewrite Hcc].
    cbn [code_count]. destruct (filter _ ls) as [|x fs] eqn:E; [done|]. exfalso.
    assert (Hx : x ∈ x :: fs) by left. rewrite <- E in Hx. apply list_elem_of_filter in Hx as [Hx1 Hx2].
    destruct (Lleaf x Hx2) as (k & Hk & Hx). rewrite Hx1 in Hx. injection Hx as Hx. lia. }
  destruct (gen_codes_spec t mc cnt) as (t' & E & El & Elens & Hcd & Hout); [lia| |done|done|].
  { eapply Forall_impl; [exact Hf|]. cbn. lia. }
  fold lens in Elens. exists t'. split; [done|].
  assert (Hdl : forall n, 0 <= n <= mc -> dlat t' n = dlat t n).
  { intros n Hn. unfold dlat. rewrite <- !(aget_lens_of _ (mc + 1)) by lia. fold lens. by rewrite Elens. }
  split; [|done]. constructor; rewrite ?Elens; try done; [lia|].
  destruct (Lleaf mc Hmc) as (l & Hl & Hd). exists (Z.of_nat l). rewrite Hdl by lia. split; [done|lia].
Qed.

(** What [build_tree] does to the symbols: those in use get codes. *)
Definition serves (t0 t : tree) (E mc : Z) : Prop :=
  forall n, 0 <= n < E -> fcat t0 n <> Some 0 -> n <= mc /\ exists l, dlat t n = Some l /\ 0 < l.

(** The last steps, from the one tree that [combine] leaves. *)
Lemma build_tail W M stat (t0 t1 : tree) E ls mc T node v cnt :
  desc_ok M stat t0 -> Z.of_nat E = elems stat -> (2 <= length ls <= E)%nat ->
  (forall n, n ∈ ls -> 0 <= n <= mc) -> mc < Z.of_nat E ->
  length t1 = length t0 -> comb_inv t1 E ls mc [T] node v -> u_len v = 1 ->
  exists top hp d s, aget (u_heap v) SMALLEST = Some top /\ aset (u_heap v) (u_max v - 1) top = Some hp /\
    gen_bitlen W (Desc (u_tree v) (u_code v) stat)
      (Huff cnt hp (u_len v) (u_max v - 1) (u_depth v) (u_opt v) (u_static v)) = Some (d, s) /\
    max_code d = mc /\ stat_desc d = stat /\ lengths_ok M ls (u_tree v) (dyn_tree d) (bl_count s) /\
    (forall n, n < Z.of_nat E -> n ∉ ls -> dlat (dyn_tree d) n = dlat t1 n) /\ huff_ok s /\
    length (dyn_tree d) = length t0 /\
    (wrap W (u_opt v) = u_opt v -> opt_len s = wrap W (u_opt v + sum_over (bit_cost stat (u_tree v) (len_at (dyn_tree d))) ls)) /\
    (wrap W (u_static v) = u_static v -> static_len s = wrap W (u_static v + sum_over (static_cost stat (u_tree v)) ls)).
Proof.
  intros [De Dt Dm DM Df Dx Ds] HE Hls Hr Hmc Hlt H H1.
  destruct (H) as [Cn Cr Cl Ci Cp Co Cord Ch Cnd Clen Cm Ct Cd Crest Cc].
  cbn [mbind list_bind app] in *. rewrite ?app_nil_r in *.
  assert (Htop : aget (u_heap v) SMALLEST = Some (root T)).
  { destruct (aget_range (u_heap v) 1) as [x Hx]; [lia|]. destruct (slice_head (u_heap v) 1 x) as (rest & Es & _); [lia|done|].
    rewrite H1, Es in Cr. cbn [map] in Cr. apply Permutation_length_1_inv in Cr. injection Cr as -> _. exact Hx. }
  assert (exists id lt rt, T = BNode id lt rt) as (id & lt & rt & ->).
  { destruct T as [x|id lt rt]; [|by eauto]. cbn [leaves] in Cl. rewrite <- Cl in Hls. cbn in Hls. lia. }
  destruct (aset_ok (u_heap v) (u_max v - 1) id) as (hp & Ehp & Elh & Hg); [lia|].
  set (d0 := Desc (u_tree v) (u_code v) stat).
  set (s0 := Huff cnt hp (u_len v) (u_max v - 1) (u_depth v) (u_opt v) (u_static v)).
  set (ns := drop (Z.to_nat (u_max v)) (u_heap v)) in *.
  assert (Hns : drop (Z.to_nat (u_max v)) hp = ns).
  { rewrite aset_Some in Ehp by lia. injection Ehp as <-. subst ns. apply drop_insert_lt. lia. }
  assert (Hlns : Z.of_nat (length ns) = 573 - u_max v) by (subst ns; rewrite length_drop; lia).
  assert (Hok : tree_ok d0 s0 M id lt rt ns).
  { constructor; cbn [stat_desc dyn_tree max_code heap heap_max d0 s0]; try done.
    - by apply Forall_cons in Cp as [Cp _].
    - intros n Hn. pose proof (forest_range t1 E ls mc ltac:(lia) ltac:(lia) Hls ltac:(intros k Hk; apply Hr in Hk; lia) _ _ _ n H) as Hx.
      cbn [mbind list_bind] in Hx. rewrite app_nil_r in Hx. specialize (Hx Hn). lia.
    - intros n Hn. rewrite Cl in Hn. rewrite Cc. by apply Hr.
    - intros n Hn. apply Ci in Hn. lia.
    - intros n Hn Hb. rewrite Cl in Hn. apply Hr in Hn. lia.
    - destruct (static_tree stat) as [st|]; [|done]. intros n Hn. rewrite Cl in Hn. apply Hr in Hn. specialize (Ds st eq_refl). lia.
    - rewrite Cl. lia.
    - unfold nodes. cbn [length]. rewrite <- Co. lia.
    - by rewrite Elh.
    - lia.
    - by rewrite Hg, Z.eqb_refl.
    - by replace (u_max v - 1 + 1) with (u_max v) by lia. }
  destruct (gen_bitlen_spec W d0 s0 M id lt rt ns Hok) as (d & s & E1 & Hm & Hst & [Ll Lf Lleaf Lcl Lc Lleft] & Hfar & Hh & Hdp & _ & _ & Hopt & Hsta).
  assert (Hpl : forall P `{forall x, Decision (P x)}, length (filter P (leaves (BNode id lt rt))) = length (filter P ls)).
  { intros P HP. apply Permutation_length. by rewrite Cl. }
  exists (root (BNode id lt rt)), hp, d, s. split_and!; try done.
  - by rewrite Hm.
  - constructor; try done.
    + intros n Hn. apply Lleaf. by rewrite Cl.
    + intros l Hl. rewrite Lc by done. do 2 f_equal. apply Hpl.
    + rewrite <- Lleft. apply left_over_ext. intros k _. f_equal. symmetry. apply Hpl.
  - intros n Hn Hnl. assert (Hnt : n ∉ nodes (BNode id lt rt)).
    { rewrite nodes_perm, not_elem_of_app, Cl. split; [|done]. intros Hx%Ci. lia. }
    rewrite Hfar by done. by apply Crest.
  - constructor; [rewrite Hh|rewrite Hdp]; cbn; congruence.
  - rewrite Ll. cbn. congruence.
  - intros Hw. rewrite (Hopt Hw). by rewrite Cl.
  - intros Hw. rewrite (Hsta Hw). by rewrite Cl.
Qed.

(** ** The bits of the block *)

Lemma split_leaves t0 E ls : NoDup ls -> (forall m, m ∈ used t0 E -> m ∈ ls) -> ls ≡ₚ used t0 E ++ forced t0 E ls.
Proof.
  intros Hn Hu. apply NoDup_Permutation; [done| |].
  - apply NoDup_app. split; [apply used_nodup|]. split; [|by apply NoDup_filter].
    intros x Hx [Hx' _]%list_elem_of_filter. done.
  - intros x. rewrite elem_of_app. unfold forced. rewrite list_elem_of_filter.
    destruct (decide (x ∈ used t0 E)) as [H|H]; [|tauto]. specialize (Hu x H). tauto.
Qed.

Lemma sum_used t0 E f :
  (forall n, fcat t0 n = Some 0 -> f n = 0) -> sum_over f (used t0 E) = sum_over f (seqZ 0 (Z.of_nat E)).
Proof. intros H. apply sum_over_filter. intros n _ Hn. apply H. destruct (decide (fcat t0 n = Some 0)); tauto. Qed.

(** A code for two symbols has one bit for each. *)
Lemma two_leaves_one M ls t t' cnt n :
  (1 <= M)%nat -> lengths_ok M ls t t' cnt -> length ls = 2%nat -> n ∈ ls -> dlat t' n = Some 1.
Proof.
  intros HM L H2 Hn. destruct ls as [|x [|y [|]]]; try done.
  destruct (lo_leaf _ _ _ _ _ L x ltac:(set_solver)) as (a & Ha & Ea). destruct (lo_leaf _ _ _ _ _ L y ltac:(set_solver)) as (b & Hb & Eb).
  pose proof (lo_left _ _ _ _ _ L) as Hl. rewrite left_over_taken in Hl.
  assert (Et : taken (fun l => Z.of_nat (length (filter (fun n => dlat t' n = Some (Z.of_nat l)) [x; y]))) M =
    taken (fun k => (if decide (a = k) then 1 else 0) + (if decide (b = k) then 1 else 0)) M).
  { clear Hl. assert (He : forall k, Z.of_nat (length (filter (fun n => dlat t' n = Some (Z.of_nat k)) [x; y])) =
      (if decide (a = k) then 1 else 0) + (if decide (b = k) then 1 else 0)).
    { intros k. rewrite !filter_cons, Ea, Eb. cbn [filter list_filter].
      repeat case_decide; cbn [length]; try done; simplify_eq; try lia. }
    clear -He. induction M as [|k IH]; [done|]. cbn [taken]. by rewrite IH, He. }
  rewrite Et, (taken_add (fun k => if decide (a = k) then 1 else 0)), !taken_single in Hl by done.
  assert (Hab : forall c : nat, (1 <= c <= M)%nat -> c <> 1%nat -> 2 ^ (Z.of_nat M - Z.of_nat c) < 2 ^ (Z.of_nat M - 1)).
  { intros c Hc Hne. apply Z.pow_lt_mono_r; lia. }
  assert (Hle : forall c : nat, (1 <= c <= M)%nat -> 2 ^ (Z.of_nat M - Z.of_nat c) <= 2 ^ (Z.of_nat M - 1)).
  { intros c Hc. apply Z.pow_le_mono_r; lia. }
  replace (Z.of_nat M) with (Z.succ (Z.of_nat M - 1)) in Hl at 1 by lia. rewrite Z.pow_succ_r in Hl by lia.
  pose proof (Hle a Ha). pose proof (Hle b Hb).
  destruct (decide (a = 1%nat)) as [->|Na]; [|pose proof (Hab a Ha Na); lia].
  destruct (decide (b = 1%nat)) as [->|Nb]; [|pose proof (Hab b Hb Nb); lia].
  apply elem_of_cons in Hn as [->|Hn]; [done|]. by apply list_elem_of_singleton in Hn as ->.
Qed.

(** With one symbol in use and no forced one there is one leaf. *)
Lemma lone_used t0 E j ls :
  NoDup ls -> (forall m, m ∈ used t0 E -> m ∈ ls) -> (forall n, 0 <= n < Z.of_nat E -> fcat t0 n <> Some 0 -> n = j) ->
  forced t0 E ls = [] -> (length ls <= 1)%nat.
Proof.
  intros Hn Hu H1 Hf. pose proof (split_leaves t0 E ls Hn Hu) as Hp. rewrite Hf, app_nil_r in Hp.
  assert (Hj : forall m, m ∈ ls -> m = j) by (intros m Hm; rewrite Hp in Hm; apply used_spec in Hm as [? ?]; by apply H1).
  destruct ls as [|x [|y ls]]; cbn; try lia. pose proof (Hj x ltac:(left)). pose proof (Hj y ltac:(right; left)). subst.
  apply NoDup_cons in Hn as [[] _]. left.
Qed.

(** The cost of all leaves is that of the symbols in use, and a bit for each forced one. *)
Lemma leaf_costs stat M t0 t1 t2 E ls cnt :
  (1 <= M)%nat -> NoDup ls -> (2 <= length ls)%nat -> (forall m, m ∈ ls -> 0 <= m < Z.of_nat E) ->
  (forall m, m ∈ used t0 E -> m ∈ ls) -> ((length ls <= 2)%nat \/ forced t0 E ls = []) ->
  (forall m, 0 <= m < Z.of_nat E -> fcat t1 m = if decide (m ∈ forced t0 E ls) then Some 1 else fcat t0 m) ->
  (forall m, m ∈ forced t0 E ls -> xbits_of stat m = 0) -> lengths_ok M ls t1 t2 cnt ->
  sum_over (bit_cost stat t1 (len_at t2)) ls =
    sum_over (bit_cost stat t0 (len_at t2)) (seqZ 0 (Z.of_nat E)) + Z.of_nat (length (forced t0 E ls)) /\
  forall len, sum_over (bit_cost stat t1 len) ls =
    sum_over (bit_cost stat t0 len) (seqZ 0 (Z.of_nat E)) + sum_over len (forced t0 E ls).
Proof.
  intros HM Hn H2 Hr Hu Htwo Hf Hx L.
  assert (Hlen : forall len, sum_over (bit_cost stat t1 len) ls =
    sum_over (bit_cost stat t0 len) (seqZ 0 (Z.of_nat E)) + sum_over len (forced t0 E ls)).
  { intros len. rewrite (split_leaves t0 E ls Hn Hu) at 1. rewrite sum_over_app. f_equal.
    - rewrite <- (sum_used t0 E); [|intros n Hz; unfold bit_cost, freq_at; by rewrite Hz]. apply sum_over_ext. intros m Hm.
      unfold bit_cost, freq_at. rewrite Hf by (apply used_spec in Hm; tauto).
      rewrite decide_False; [done|]. intros [Hm' _]%list_elem_of_filter. done.
    - apply sum_over_ext. intros m Hm. unfold bit_cost, freq_at.
      pose proof Hm as [_ Hm']%list_elem_of_filter. rewrite Hf, decide_True by (done || by apply Hr).
      rewrite (Hx m Hm). cbn [default from_option]. unfold id. lia. }
  split; [|done]. rewrite Hlen. f_equal. destruct Htwo as [Htwo| ->]; [|done].
  assert (Hone : forall m, m ∈ forced t0 E ls -> len_at t2 m = 1).
  { intros m [_ Hm]%list_elem_of_filter. unfold len_at. by rewrite (two_leaves_one M ls t1 t2 cnt m HM L ltac:(lia) Hm). }
  revert Hone. generalize (forced t0 E ls). intros l. induction l as [|m l IH]; intros Hone; [done|].
  rewrite sum_over_cons, Hone, IH by (left || (intros k Hk; apply Hone; by right)). cbn [length]. lia.
Qed.

Lemma build_tree_spec W M d s :
  desc_ok M (stat_desc d) (dyn_tree d) -> huff_ok s ->
  exists d' s', build_tree W d s = Some (d', s') /\ stat_desc d' = stat_desc d /\ huff_ok s' /\
    length (dyn_tree d') = length (dyn_tree d) /\ max_code d' < elems (stat_desc d) /\
    built M (dyn_tree d') (max_code d') /\
    serves (dyn_tree d) (dyn_tree d') (elems (stat_desc d)) (max_code d') /\
    (forall n, max_code d' < n < elems (stat_desc d) -> dlat (dyn_tree d') n = Some 0) /\
    ((forall n, 0 <= n < 3 -> xbits_of (stat_desc d) n = 0) ->
     (wrap W (opt_len s) = opt_len s -> opt_len s' =
        wrap W (opt_len s + sum_over (bit_cost (stat_desc d) (dyn_tree d) (len_at (dyn_tree d'))) (seqZ 0 (elems (stat_desc d))))) /\
     (wrap W (static_len s) = static_len s -> static_len s' =
        wrap W (static_len s + sum_over (static_cost (stat_desc d) (dyn_tree d)) (seqZ 0 (elems (stat_desc d)))))) /\
    (forall j, 0 <= j < elems (stat_desc d) -> fcat (dyn_tree d) j <> Some 0 ->
     (forall n, 0 <= n < elems (stat_desc d) -> fcat (dyn_tree d) n <> Some 0 -> n = j) -> dlat (dyn_tree d') j = Some 1).
Proof.
  intros Hd [Hh Hp]. pose proof Hd as [De Dt Dm DM Df Dx Ds]. unfold build_tree. set (stat := stat_desc d) in *.
  set (E := Z.to_nat (elems stat)). assert (HE : Z.of_nat E = elems stat) by lia. set (t0 := dyn_tree d) in *.
  destruct (init_heap_spec t0 E E 0 t0 (heap s) 0 (depth s) (-1)) as (t1 & h1 & len & dep & mc0 & E1 & I); [lia|lia|lia| |].
  { constructor; try done; try lia. intros m Hm%used_spec. lia. }
  change (Z.of_nat 0) with 0 in E1. rewrite E1. cbn [mbind option_bind]. destruct I as [Il If Iz Ir Ih Is Ihl Id Im Imx Iso].
  destruct (force_two_spec W (opt_len s) (static_len s) t0 E (static_tree stat) 3 (used t0 E) (Build t1 h1 len HEAP_SIZE dep mc0 (opt_len s) (static_len s)))
    as (ls & v & -> & L & H2); [lia|lia| | |lia|].
  { destruct (static_tree stat) as [st|]; [|done]. specialize (Ds st eq_refl). lia. }
  { assert (Enil : forced t0 E (used t0 E) = []) by (apply elem_of_nil_inv; intros x [? ?]%list_elem_of_filter; done).
    constructor; cbn; try done; try lia; [apply used_nodup| |apply used_length| | | | |].
    - intros m Hm. pose proof (Imx m Hm). apply used_spec in Hm as [? _]. lia.
    - intros m Hm. by rewrite Enil, decide_False by apply not_elem_of_nil.
    - by right.
    - intros m. rewrite Enil. by intros ?%elem_of_nil.
    - intros Hw. rewrite Enil. cbn. by rewrite Z.sub_0_r.
    - intros Hw. rewrite Enil. destruct (static_tree stat); cbn; by rewrite Z.sub_0_r. }
  cbn [mbind option_bind]. destruct L as [Ln Lu Lr Lm Lso Ll Lz Lh Ls Lhl Ld Lmx Lf Lfc Ltw Llo Lop Lst].
  assert (HEr : forall n, n ∈ ls -> 0 <= n < Z.of_nat E) by (intros n Hn; apply Lr in Hn; lia).
  assert (Hnok : Forall (node_ok (u_tree v) (u_depth v)) (slice (u_heap v) (u_len v))).
  { rewrite Ls. apply Forall_forall. intros x Hx%HEr. split; lia. }
  destruct (heapify_spec (Z.to_nat (u_len v / 2)) (u_tree v) (u_depth v) (u_heap v) (u_len v)) as (h2 & -> & (El2 & Hp2 & _));
    [|lia|done|].
  { rewrite Z2Nat.id by (apply Z.div_pos; lia). apply Z.div_le_upper_bound; lia. }
  cbn [mbind option_bind]. rewrite <- HE.
  assert (Hlt : length (u_tree v) = (2 * E + 1)%nat) by lia.
  set (v0 := Build (u_tree v) h2 (u_len v) (u_max v) (u_depth v) (u_code v) (u_opt v) (u_static v)).
  assert (HE286 : (E <= 286)%nat) by lia. assert (Hls2 : (2 <= length ls <= E)%nat) by lia.
  assert (C0 : comb_inv (u_tree v) E ls (u_code v) (map BLeaf ls) (Z.of_nat E) v0).
  { apply comb_start; cbn [v0 u_heap u_len u_max u_depth u_tree u_code]; try done; try congruence. }
  destruct (combine_spec (u_tree v) E ls (u_code v) HE286 Hlt Hls2 HEr (Z.to_nat (u_len v)) _ _ v0 C0)
    as (T & node & v1 & E4 & C1 & Hl1 & K1 & K2 & K3); [cbn; lia|cbn; lia|]. rewrite E4. cbn [mbind option_bind].
  destruct (build_tail W M stat t0 (u_tree v) E ls (u_code v) T node v1 (bl_count s))
    as (top & hp & d2 & s2 & Et & Ehp & Eg & Em & Est & Hlok & Hfar & Hs2 & Hl2 & Hco & Hcs); try done; [lia|].
  rewrite Et. cbn [mbind option_bind]. rewrite Ehp. cbn [mbind option_bind]. rewrite Eg. cbn [mbind option_bind].
  destruct Lso as [Lso|Lso].
  { destruct ls as [|x ls]; [cbn in H2; lia|]. specialize (Lr x ltac:(left)). lia. }
  rewrite Em.
  destruct (gen_codes_built M (u_tree v1) (dyn_tree d2) (bl_count s2) (u_code v) ls)
    as (t' & -> & Hb & Elt & Hdl & Hoth); try done; [lia| |].
  { intros n Hn Hnl. rewrite Hfar by (done || lia). apply Lz; [lia|done]. }
  cbn [mbind option_bind]. do 2 eexists. split; [reflexivity|]. cbn [stat_desc dyn_tree max_code].
  split_and!; try done; [lia|lia| | | |].
  4:{ intros j Hj Hf Hone. assert (Hin : j ∈ ls) by (apply Lu, used_spec; split; [lia|done]). pose proof (Lr j Hin).
      rewrite Hdl by lia. apply (two_leaves_one M ls _ _ _ j ltac:(lia) Hlok); [|done].
      destruct Ltw as [|Hnf]; [lia|].
      pose proof (lone_used t0 E j ls Ln Lu ltac:(intros n Hn; apply Hone; lia) Hnf). lia. }
  3:{ intros Hx. cbn [v0 u_tree u_opt u_static] in K1, K2, K3.
      destruct (leaf_costs stat M t0 (u_tree v1) (dyn_tree d2) E ls (bl_count s2)) as [Co Cs]; try done; [lia| | |].
      { intros m Hm. rewrite K1 by lia. by apply Lfc. }
      { intros m Hm. apply Hx. by apply Llo. }
      assert (Elen : sum_over (bit_cost stat t0 (len_at t')) (seqZ 0 (Z.of_nat E)) =
                     sum_over (bit_cost stat t0 (len_at (dyn_tree d2))) (seqZ 0 (Z.of_nat E))).
      { apply sum_over_ext. intros n Hn%elem_of_seqZ. unfold bit_cost, len_at. destruct (decide (n <= u_code v)).
        - by rewrite Hdl by lia.
        - unfold dlat. by rewrite Hoth by lia. }
      rewrite Elen. split; intros Hw.
      - rewrite Hco by (rewrite K2, (Lop Hw); apply wrap_idem). rewrite K2, (Lop Hw), wrap_add_l, Co. f_equal. lia.
      - rewrite Hcs by (rewrite K3, (Lst Hw); apply wrap_idem). rewrite K3, (Lst Hw), wrap_add_l. f_equal.
        unfold static_cost. destruct (static_tree stat) as [st|]; [|].
        { change (fun n => bit_cost stat ?t (len_at st) n) with (bit_cost stat t (len_at st)). rewrite (Cs (len_at st)). lia. }
        assert (Ez : forall l, sum_over (fun _ => 0) l = 0) by (induction l as [|? l IH]; [done|by rewrite sum_over_cons, IH]).
        rewrite !Ez. lia. }
  2:{ intros n Hn. unfold dlat. rewrite Hoth by lia. change (dlat (dyn_tree d2) n = Some 0).
      assert (Hnl : n ∉ ls) by (intros Hx; apply Lr in Hx; lia). rewrite Hfar by (done || lia). apply Lz; [lia|done]. }
  intros n Hn Hf.
  assert (Hin : n ∈ ls) by (apply Lu, used_spec; split; [lia|done]). pose proof (Lr n Hin) as Hnr. split; [lia|].
  destruct (lo_leaf _ _ _ _ _ Hlok n Hin) as (l & Hl & Hd'). exists (Z.of_nat l). rewrite Hdl by lia. split; [done|lia].
Qed.
