(* ===== verification/TreesWriter.v ===== *)
(** * The block writer of deflate: bits, symbols and blocks (trees.c)

    The rest of trees.c, over the part of [deflate_state] that it uses.  The
    symbol buffer [sym_buf] is the part of [pending_buf] from [lit_bufsize] on,
    so the writer and the reader of the symbols share one array.  The release
    build is modelled (no ZLIB_DEBUG, static tables from trees.h). *)
From stdpp Require Import base numbers list.
From Stdlib Require Import ZArith Lia Bool.
From S2P Require Import Prelude Trees TreesTables.

(** ** Bits *)

Record writer := Writer { pending_buf : list Z; pending : Z; bi_buf : Z; bi_valid : Z }.

Definition put_byte (w : writer) (c : Z) : option writer :=
  buf ← aset (pending_buf w) (pending w) (wrap 8 c);
  Some (Writer buf (pending w + 1) (bi_buf w) (bi_valid w)).

Definition put_short (w : writer) (v : Z) : option writer :=
  w ← put_byte w (Z.land v 255); put_byte w (Z.shiftr (wrap 16 v) 8).

Definition send_bits (w : writer) (value length : Z) : option writer :=
  let buf := wrap 16 (Z.lor (bi_buf w) (Z.shiftl (wrap 16 value) (bi_valid w))) in
  if bi_valid w >? Buf_size - length then
    w' ← put_short (Writer (pending_buf w) (pending w) buf (bi_valid w)) buf;
    Some (Writer (pending_buf w') (pending w')
            (Z.shiftr (wrap 16 value) (Buf_size - bi_valid w)) (bi_valid w + (length - Buf_size)))
  else Some (Writer (pending_buf w) (pending w) buf (bi_valid w + length)).

Definition send_code (w : writer) (c : Z) (t : tree) : option writer := e ← aget t c; send_bits w (fc e) (dl e).

Definition bi_flush (w : writer) : option writer :=
  if bi_valid w =? 16 then
    w' ← put_short w (bi_buf w); Some (Writer (pending_buf w') (pending w') 0 0)
  else if bi_valid w >=? 8 then
    w' ← put_byte w (wrap 8 (bi_buf w));
    Some (Writer (pending_buf w') (pending w') (Z.shiftr (bi_buf w) 8) (bi_valid w - 8))
  else Some w.

Definition bi_windup (w : writer) : option writer :=
  w' ← (if bi_valid w >? 8 then put_short w (bi_buf w)
        else if bi_valid w >? 0 then put_byte w (wrap 8 (bi_buf w))
        else Some w);
  Some (Writer (pending_buf w') (pending w') 0 0).

(** ** The description of the trees *)

(** [max_count] and [min_count] after a run of [curlen] before [nextlen]. *)
Definition run_limits (curlen nextlen : Z) : Z * Z :=
  if nextlen =? 0 then (138, 3) else if curlen =? nextlen then (6, 3) else (7, 4).

Fixpoint scan_loop (k : nat) (n prevlen nextlen count max_count min_count : Z) (t bl : tree) : option tree :=
  match k with
  | O => Some bl
  | S k =>
      let curlen := nextlen in
      e ← aget t (n + 1);
      let nextlen := dl e in
      let count := count + 1 in
      if (count <? max_count) && (curlen =? nextlen) then
        scan_loop k (n + 1) prevlen nextlen count max_count min_count t bl
      else
        bl ← (if count <? min_count then add_freq bl curlen count
              else if negb (curlen =? 0) then
                bl ← (if negb (curlen =? prevlen) then add_freq bl curlen 1 else Some bl);
                add_freq bl REP_3_6 1
              else if count <=? 10 then add_freq bl REPZ_3_10 1
              else add_freq bl REPZ_11_138 1);
        let '(max_count, min_count) := run_limits curlen nextlen in
        scan_loop k (n + 1) curlen nextlen 0 max_count min_count t bl
  end.

(** The scanned tree with its guard, and [bl_tree]. *)
Definition scan_tree (t : tree) (max_code : Z) (bl : tree) : option (tree * tree) :=
  e ← aget t 0;
  let nextlen := dl e in
  let '(max_count, min_count) := if nextlen =? 0 then (138, 3) else (7, 4) in
  t ← set_dl t (max_code + 1) 65535;
  bl ← scan_loop (Z.to_nat (max_code + 1)) 0 (-1) nextlen 0 max_count min_count t bl;
  Some (t, bl).

(** [do { send_code(s, curlen, s->bl_tree); } while (--count != 0)] *)
Fixpoint send_repeat (n : nat) (w : writer) (c : Z) (t : tree) : option writer :=
  match n with O => Some w | S n => w ← send_code w c t; send_repeat n w c t end.

Fixpoint send_loop (k : nat) (w : writer) (n prevlen nextlen count max_count min_count : Z) (t bl : tree)
    : option writer :=
  match k with
  | O => Some w
  | S k =>
      let curlen := nextlen in
      e ← aget t (n + 1);
      let nextlen := dl e in
      let count := count + 1 in
      if (count <? max_count) && (curlen =? nextlen) then
        send_loop k w (n + 1) prevlen nextlen count max_count min_count t bl
      else
        w ← (if count <? min_count then send_repeat (Z.to_nat count) w curlen bl
             else if negb (curlen =? 0) then
               '(w, count) ← (if negb (curlen =? prevlen) then w ← send_code w curlen bl; Some (w, count - 1)
                              else Some (w, count));
               w ← send_code w REP_3_6 bl; send_bits w (count - 3) 2
             else if count <=? 10 then w ← send_code w REPZ_3_10 bl; send_bits w (count - 3) 3
             else w ← send_code w REPZ_11_138 bl; send_bits w (count - 11) 7);
        let '(max_count, min_count) := run_limits curlen nextlen in
        send_loop k w (n + 1) curlen nextlen 0 max_count min_count t bl
  end.

Definition send_tree (w : writer) (t : tree) (max_code : Z) (bl : tree) : option writer :=
  e ← aget t 0;
  let nextlen := dl e in
  let '(max_count, min_count) := if nextlen =? 0 then (138, 3) else (7, 4) in
  send_loop (Z.to_nat (max_code + 1)) w 0 (-1) nextlen 0 max_count min_count t bl.

Fixpoint send_ranks (k : nat) (w : writer) (rank : Z) (bl : tree) : option writer :=
  match k with
  | O => Some w
  | S k =>
      o ← aget bl_order rank; e ← aget bl o;
      w ← send_bits w (dl e) 3; send_ranks k w (rank + 1) bl
  end.

Definition send_all_trees (w : writer) (ltree dtree bl : tree) (lcodes dcodes blcodes : Z) : option writer :=
  w ← send_bits w (lcodes - 257) 5;
  w ← send_bits w (dcodes - 1) 5;
  w ← send_bits w (blcodes - 4) 4;
  w ← send_ranks (Z.to_nat blcodes) w 0 bl;
  w ← send_tree w ltree (lcodes - 1) bl;
  send_tree w dtree (dcodes - 1) bl.

(** ** The symbols *)

Definition d_code (dist : Z) : option Z :=
  if dist <? 256 then aget _dist_code dist else aget _dist_code (256 + Z.shiftr dist 7).

(** A match: the length code and its extra bits, the distance code and its. *)
Definition send_match (w : writer) (dist lc : Z) (ltree dtree : tree) : option writer :=
  code ← aget _length_code lc;
  w ← send_code w (code + LITERALS + 1) ltree;
  extra ← aget extra_lbits code;
  w ← (if negb (extra =? 0) then b ← aget base_length code; send_bits w (lc - b) extra else Some w);
  let dist := wrap 32 (dist - 1) in
  code ← d_code dist;
  w ← send_code w code dtree;
  extra ← aget extra_dbits code;
  if negb (extra =? 0) then b ← aget base_dist code; send_bits w (wrap 32 (dist - b)) extra else Some w.

(** [do ... while (sx < s->sym_next)] *)
Fixpoint compress_loop (fuel : nat) (lit_bufsize sym_next sx : Z) (w : writer) (ltree dtree : tree)
    : option writer :=
  match fuel with
  | O => None
  | S fuel =>
      d0 ← aget (pending_buf w) (lit_bufsize + sx);
      d1 ← aget (pending_buf w) (lit_bufsize + (sx + 1));
      lc ← aget (pending_buf w) (lit_bufsize + (sx + 2));
      let dist := Z.land d0 255 + Z.shiftl (Z.land d1 255) 8 in
      w ← (if dist =? 0 then send_code w lc ltree else send_match w dist lc ltree dtree);
      if sx + 3 <? sym_next then compress_loop fuel lit_bufsize sym_next (sx + 3) w ltree dtree else Some w
  end.

Definition compress_block (lit_bufsize sym_next : Z) (w : writer) (ltree dtree : tree) : option writer :=
  w ← (if negb (sym_next =? 0) then
         compress_loop (Z.to_nat sym_next) lit_bufsize sym_next 0 w ltree dtree
       else Some w);
  send_code w END_BLOCK ltree.

(** The [n] bytes at [buf]. *)
Definition read_bytes (buf : list Z) (n : Z) : option (list Z) :=
  if n <=? Z.of_nat (length buf) then Some (take (Z.to_nat n) buf) else None.

(** [zmemcpy(s->pending_buf + s->pending, buf, stored_len)], and the advance of [pending]. *)
Fixpoint put_bytes (w : writer) (l : list Z) : option writer :=
  match l with
  | [] => Some w
  | c :: l =>
      buf ← aset (pending_buf w) (pending w) c;
      put_bytes (Writer buf (pending w + 1) (bi_buf w) (bi_valid w)) l
  end.

Definition STORED_BLOCK : Z := 0.
Definition STATIC_TREES : Z := 1.
Definition DYN_TREES : Z := 2.
Definition Z_FIXED : Z := 4.
Definition Z_BINARY : Z := 0.
Definition Z_TEXT : Z := 1.
Definition Z_UNKNOWN : Z := 2.

Definition tr_stored_block (w : writer) (buf : list Z) (stored_len last : Z) : option writer :=
  w ← send_bits w (Z.shiftl STORED_BLOCK 1 + last) 3;
  w ← bi_windup w;
  w ← put_short w (wrap 16 stored_len);
  w ← put_short w (wrap 16 (Z.lnot stored_len));
  data ← read_bytes buf stored_len;
  put_bytes w data.

Definition tr_align (w : writer) : option writer :=
  w ← send_bits w (Z.shiftl STATIC_TREES 1) 3;
  w ← send_code w END_BLOCK static_ltree;
  bi_flush w.

Definition tr_flush_bits (w : writer) : option writer := bi_flush w.
