(* ===== verification/TreesState.v ===== *)
(** * The block writer of deflate: the state and the entry points (trees.c)

    The fields of [deflate_state] that trees.c uses; [dyn_ltree], [dyn_dtree]
    and [bl_tree] are the [dyn_tree] of the three descriptors, which point to
    them.  [data_type] is [strm->data_type].  [W] is the width of [ulg]. *)
From stdpp Require Import base numbers list.
From Stdlib Require Import ZArith Lia Bool.
From S2P Require Import Prelude Trees TreesTables TreesWriter.

Definition static_l_desc : static_tree_desc := StaticDesc (Some static_ltree) extra_lbits (LITERALS + 1) L_CODES MAX_BITS.
Definition static_d_desc : static_tree_desc := StaticDesc (Some static_dtree) extra_dbits 0 D_CODES MAX_BITS.
Definition static_bl_desc : static_tree_desc := StaticDesc None extra_blbits 0 BL_CODES MAX_BL_BITS.

Record deflate_state := State {
  l_desc : tree_desc; d_desc : tree_desc; bl_desc : tree_desc;
  huff : huff_state;
  wr : writer;
  lit_bufsize : Z; sym_next : Z; sym_end : Z; matches : Z;
  level : Z; strategy : Z; data_type : Z }.

Definition with_tree (d : tree_desc) (t : tree) : tree_desc := Desc t (max_code d) (stat_desc d).
Definition with_lens (h : huff_state) (opt stat : Z) : huff_state :=
  Huff (bl_count h) (heap h) (heap_len h) (heap_max h) (depth h) opt stat.

Definition dyn_ltree (s : deflate_state) : tree := dyn_tree (l_desc s).
Definition dyn_dtree (s : deflate_state) : tree := dyn_tree (d_desc s).
Definition bl_tree (s : deflate_state) : tree := dyn_tree (bl_desc s).

Definition set_writer (s : deflate_state) (w : writer) : deflate_state :=
  State (l_desc s) (d_desc s) (bl_desc s) (huff s) w (lit_bufsize s) (sym_next s) (sym_end s) (matches s)
    (level s) (strategy s) (data_type s).

Section Width.
Context (W : Z).

(** ** A new block *)

(** [for (n = 0; n < k; n++) tree[n].Freq = 0] *)
Fixpoint clear_freqs (k : nat) (n : Z) (t : tree) : option tree :=
  match k with O => Some t | S k => t ← set_fc t n 0; clear_freqs k (n + 1) t end.

Definition init_block (s : deflate_state) : option deflate_state :=
  lt ← clear_freqs (Z.to_nat L_CODES) 0 (dyn_ltree s);
  dt ← clear_freqs (Z.to_nat D_CODES) 0 (dyn_dtree s);
  bt ← clear_freqs (Z.to_nat BL_CODES) 0 (bl_tree s);
  lt ← set_fc lt END_BLOCK 1;
  Some (State (with_tree (l_desc s) lt) (with_tree (d_desc s) dt) (with_tree (bl_desc s) bt)
          (with_lens (huff s) 0 0) (wr s) (lit_bufsize s) 0 (sym_end s) 0
          (level s) (strategy s) (data_type s)).

Definition tr_init (s : deflate_state) : option deflate_state :=
  init_block
    (State (Desc (dyn_ltree s) (max_code (l_desc s)) static_l_desc)
       (Desc (dyn_dtree s) (max_code (d_desc s)) static_d_desc)
       (Desc (bl_tree s) (max_code (bl_desc s)) static_bl_desc)
       (huff s) (Writer (pending_buf (wr s)) (pending (wr s)) 0 0)
       (lit_bufsize s) (sym_next s) (sym_end s) (matches s) (level s) (strategy s) (data_type s)).

(** ** Symbols *)

(** [s->sym_buf[s->sym_next++] = c] *)
Definition put_sym (s : deflate_state) (c : Z) : option deflate_state :=
  buf ← aset (pending_buf (wr s)) (lit_bufsize s + sym_next s) (wrap 8 c);
  let w := wr s in
  Some (State (l_desc s) (d_desc s) (bl_desc s) (huff s)
          (Writer buf (pending w) (bi_buf w) (bi_valid w))
          (lit_bufsize s) (sym_next s + 1) (sym_end s) (matches s) (level s) (strategy s) (data_type s)).

Definition set_trees (s : deflate_state) (lt dt : tree) (matches : Z) : deflate_state :=
  State (with_tree (l_desc s) lt) (with_tree (d_desc s) dt) (bl_desc s) (huff s) (wr s)
    (lit_bufsize s) (sym_next s) (sym_end s) matches (level s) (strategy s) (data_type s).

(** [_tr_tally]: the state and whether the block is to be flushed. *)
Definition tr_tally (s : deflate_state) (dist lc : Z) : option (deflate_state * bool) :=
  s ← put_sym s dist;
  s ← put_sym s (Z.shiftr dist 8);
  s ← put_sym s lc;
  s ← (if dist =? 0 then
         lt ← add_freq (dyn_ltree s) lc 1; Some (set_trees s lt (dyn_dtree s) (matches s))
       else
         let dist := wrap 32 (dist - 1) in
         code ← aget _length_code lc;
         lt ← add_freq (dyn_ltree s) (code + LITERALS + 1) 1;
         code ← d_code dist;
         dt ← add_freq (dyn_dtree s) code 1;
         Some (set_trees s lt dt (wrap 32 (matches s + 1))));
  Some (s, sym_next s =? sym_end s).

(** The macros [_tr_tally_lit] and [_tr_tally_dist] of deflate.h. *)
Definition tr_tally_lit (s : deflate_state) (c : Z) : option (deflate_state * bool) :=
  let cc := wrap 8 c in
  s ← put_sym s 0;
  s ← put_sym s 0;
  s ← put_sym s cc;
  lt ← add_freq (dyn_ltree s) cc 1;
  let s := set_trees s lt (dyn_dtree s) (matches s) in
  Some (s, sym_next s =? sym_end s).

Definition tr_tally_dist (s : deflate_state) (distance length : Z) : option (deflate_state * bool) :=
  let len := wrap 8 length in
  let dist := wrap 16 distance in
  s ← put_sym s dist;
  s ← put_sym s (Z.shiftr dist 8);
  s ← put_sym s len;
  let dist := wrap 16 (dist - 1) in
  code ← aget _length_code len;
  lt ← add_freq (dyn_ltree s) (code + LITERALS + 1) 1;
  code ← d_code dist;
  dt ← add_freq (dyn_dtree s) code 1;
  let s := set_trees s lt dt (matches s) in
  Some (s, sym_next s =? sym_end s).

(** ** The end of a block *)

(** [for (n = 0; n <= 31; n++, block_mask >>= 1)]: a blocked byte is in use. *)
Fixpoint blocked (k : nat) (n block_mask : Z) (t : tree) : option bool :=
  match k with
  | O => Some false
  | S k =>
      e ← aget t n;
      if negb (Z.land block_mask 1 =? 0) && negb (fc e =? 0) then Some true
      else blocked k (n + 1) (Z.shiftr block_mask 1) t
  end.

(** [for (n = 32; n < LITERALS; n++)]: a byte from [n] on is in use. *)
Fixpoint any_used (k : nat) (n : Z) (t : tree) : option bool :=
  match k with
  | O => Some false
  | S k => e ← aget t n; if negb (fc e =? 0) then Some true else any_used k (n + 1) t
  end.

Definition detect_data_type (t : tree) : option Z :=
  b ← blocked 32 0 4093624447 t;
  if b : bool then Some Z_BINARY
  else
    tab ← aget t 9; lf ← aget t 10; cr ← aget t 13;
    if negb (fc tab =? 0) || negb (fc lf =? 0) || negb (fc cr =? 0) then Some Z_TEXT
    else
      b ← any_used (Z.to_nat (LITERALS - 32)) 32 t;
      Some (if b : bool then Z_TEXT else Z_BINARY).

(** [for (max_blindex = BL_CODES-1; max_blindex >= 3; max_blindex--)] *)
Fixpoint last_blindex (k : nat) (max_blindex : Z) (bl : tree) : option Z :=
  match k with
  | O => Some max_blindex
  | S k =>
      o ← aget bl_order max_blindex; e ← aget bl o;
      if negb (dl e =? 0) then Some max_blindex else last_blindex k (max_blindex - 1) bl
  end.

Definition set_descs (s : deflate_state) (l d b : tree_desc) (h : huff_state) : deflate_state :=
  State l d b h (wr s) (lit_bufsize s) (sym_next s) (sym_end s) (matches s) (level s) (strategy s) (data_type s).

Definition build_bl_tree (s : deflate_state) : option (deflate_state * Z) :=
  '(lt, bt) ← scan_tree (dyn_ltree s) (max_code (l_desc s)) (bl_tree s);
  '(dt, bt) ← scan_tree (dyn_dtree s) (max_code (d_desc s)) bt;
  '(bd, h) ← build_tree W (with_tree (bl_desc s) bt) (huff s);
  max_blindex ← last_blindex (Z.to_nat (BL_CODES - 3)) (BL_CODES - 1) (dyn_tree bd);
  let h := with_lens h (wrap W (opt_len h + (3 * (max_blindex + 1) + 5 + 5 + 4))) (static_len h) in
  Some (set_descs s (with_tree (l_desc s) lt) (with_tree (d_desc s) dt) bd h, max_blindex).

Definition set_data_type (s : deflate_state) (ty : Z) : deflate_state :=
  State (l_desc s) (d_desc s) (bl_desc s) (huff s) (wr s) (lit_bufsize s) (sym_next s) (sym_end s) (matches s)
    (level s) (strategy s) ty.

(** The trees of a block: the state, [opt_lenb], [static_lenb] and [max_blindex]. *)
Definition build_trees (s : deflate_state) : option (deflate_state * Z * Z * Z) :=
  s ← (if data_type s =? Z_UNKNOWN then ty ← detect_data_type (dyn_ltree s); Some (set_data_type s ty)
       else Some s);
  '(ld, h) ← build_tree W (l_desc s) (huff s);
  let s := set_descs s ld (d_desc s) (bl_desc s) h in
  '(dd, h) ← build_tree W (d_desc s) (huff s);
  let s := set_descs s (l_desc s) dd (bl_desc s) h in
  '(s, max_blindex) ← build_bl_tree s;
  let opt_lenb := Z.shiftr (wrap W (opt_len (huff s) + 3 + 7)) 3 in
  let static_lenb := Z.shiftr (wrap W (static_len (huff s) + 3 + 7)) 3 in
  let opt_lenb := if (static_lenb <=? opt_lenb) || (strategy s =? Z_FIXED) then static_lenb else opt_lenb in
  Some (s, opt_lenb, static_lenb, max_blindex).

(** [buf] is [None] for the null pointer. *)
Definition tr_flush_block (s : deflate_state) (buf : option (list Z)) (stored_len last : Z)
    : option deflate_state :=
  '(s, opt_lenb, static_lenb, max_blindex) ←
    (if level s >? 0 then build_trees s
     else Some (s, wrap W (stored_len + 5), wrap W (stored_len + 5), 0));
  w ← (match buf, wrap W (stored_len + 4) <=? opt_lenb with
       | Some b, true => tr_stored_block (wr s) b stored_len last
       | _, _ =>
           if static_lenb =? opt_lenb then
             w ← send_bits (wr s) (Z.shiftl STATIC_TREES 1 + last) 3;
             compress_block (lit_bufsize s) (sym_next s) w static_ltree static_dtree
           else
             w ← send_bits (wr s) (Z.shiftl DYN_TREES 1 + last) 3;
             w ← send_all_trees w (dyn_ltree s) (dyn_dtree s) (bl_tree s)
                   (max_code (l_desc s) + 1) (max_code (d_desc s) + 1) (max_blindex + 1);
             compress_block (lit_bufsize s) (sym_next s) w (dyn_ltree s) (dyn_dtree s)
       end);
  s ← init_block (set_writer s w);
  if negb (last =? 0) then w ← bi_windup (wr s); Some (set_writer s w) else Some s.
End Width.
