(* ===== verification/TreesDetect.v ===== *)
(** * Text or binary: detect_data_type (trees.c)

    The comment on [detect_data_type] gives the two lists of bytes and the rule;
    the function, which walks a bit mask, decides that rule. *)
From stdpp Require Import base numbers list.
From Stdlib Require Import ZArith Lia Bool.
From S2P Require Import Prelude Trees TreesWriter TreesState.

(** The byte [n] occurs in the block. *)
Definition byte_used (t : tree) (n : Z) : Prop := exists e, aget t n = Some e /\ fc e <> 0.

(** The "block list" (0..6, 14..25, 28..31) and the "allow list" (9, 10, 13, 32..255). *)
Definition block_listed (n : Z) : Prop := 0 <= n <= 6 \/ 14 <= n <= 25 \/ 28 <= n <= 31.
Definition allow_listed (n : Z) : Prop := n = 9 \/ n = 10 \/ n = 13 \/ 32 <= n < 256.

Lemma byte_used_iff (t : tree) n e : aget t n = Some e -> byte_used t n <-> negb (fc e =? 0) = true.
Proof.
  intros E. rewrite negb_true_iff, Z.eqb_neq. split; [|by exists e]. intros (e' & E' & H). congruence.
Qed.

Lemma any_used_spec k n (t : tree) :
  0 <= n -> n + Z.of_nat k <= Z.of_nat (length t) ->
  exists b, any_used k n t = Some b /\ (b = true <-> exists i, n <= i < n + Z.of_nat k /\ byte_used t i).
Proof.
  revert n. induction k as [|k IH]; intros n Hn Hk; cbn [any_used].
  - exists false. split; [done|]. split; [done|]. intros (i & ? & _). lia.
  - destruct (aget_range t n) as [e E]; [lia|]. rewrite E. cbn [mbind option_bind].
    pose proof (byte_used_iff t n e E) as He. destruct (negb (fc e =? 0)).
    + exists true. split; [done|]. split; [|done]. intros _. exists n. split; [lia|by apply He].
    + destruct (IH (n + 1)) as (b & -> & Hb); [lia..|]. exists b. split; [done|]. rewrite Hb. split.
      * intros (i & ? & ?). exists i. split; [lia|done].
      * intros (i & Hi & Hu). exists i. split; [|done]. destruct (decide (i = n)) as [->|]; [by apply He in Hu|lia].
Qed.

Lemma mask_bit0 m : negb (Z.land m 1 =? 0) = Z.testbit m 0.
Proof.
  change 1 with (Z.ones 1). rewrite Z.land_ones by lia. change (2 ^ 1) with 2. rewrite Z.bit0_odd, Zodd_mod.
  pose proof (Z.mod_pos_bound m 2). destruct (Z.eqb_spec (m mod 2) 0), (Z.eqb_spec (m mod 2) 1); cbn; lia.
Qed.

Lemma blocked_spec k n mask (t : tree) :
  0 <= n -> n + Z.of_nat k <= Z.of_nat (length t) ->
  exists b, blocked k n mask t = Some b /\
    (b = true <-> exists i, n <= i < n + Z.of_nat k /\ Z.testbit mask (i - n) = true /\ byte_used t i).
Proof.
  revert n mask. induction k as [|k IH]; intros n mask Hn Hk; cbn [blocked].
  - exists false. split; [done|]. split; [done|]. intros (i & ? & _). lia.
  - destruct (aget_range t n) as [e E]; [lia|]. rewrite E. cbn [mbind option_bind]. rewrite mask_bit0.
    pose proof (byte_used_iff t n e E) as He. destruct (Z.testbit mask 0 && negb (fc e =? 0)) eqn:Eb.
    + apply andb_true_iff in Eb as [E0 E1]. exists true. split; [done|]. split; [|done]. intros _.
      exists n. rewrite Z.sub_diag. split; [lia|]. split; [done|by apply He].
    + destruct (IH (n + 1) (Z.shiftr mask 1)) as (b & -> & Hb); [lia..|]. exists b. split; [done|]. rewrite Hb.
      split; intros (i & Hi & Hm & Hu).
      * exists i. split; [lia|]. split; [|done]. rewrite Z.shiftr_spec in Hm by lia. rewrite <- Hm. f_equal. lia.
      * exists i. destruct (decide (i = n)) as [->|].
        { rewrite Z.sub_diag in Hm. apply He in Hu. by rewrite Hm, Hu in Eb. }
        split; [lia|]. split; [|done]. rewrite Z.shiftr_spec by lia. rewrite <- Hm. f_equal. lia.
Qed.

(** The bits of 0xf3ffc07f. *)
Lemma mask_listed i : 0 <= i < 32 -> Z.testbit 4093624447 i = true <-> block_listed i.
Proof.
  intros Hi. unfold block_listed.
  assert (H : forallb (fun k => eqb (Z.testbit 4093624447 (Z.of_nat k))
     (let i := Z.of_nat k in (i <=? 6) || (14 <=? i) && (i <=? 25) || (28 <=? i))) (seq 0 32) = true) by reflexivity.
  rewrite forallb_forall in H. specialize (H (Z.to_nat i)). rewrite in_seq, Z2Nat.id in H by lia.
  specialize (H ltac:(lia)). apply eqb_prop in H. rewrite H.
  rewrite !orb_true_iff, andb_true_iff, !Z.leb_le. lia.
Qed.

Lemma detect_spec (t : tree) :
  (256 <= length t)%nat ->
  exists ty, detect_data_type t = Some ty /\ (ty = Z_TEXT \/ ty = Z_BINARY) /\
    (ty = Z_TEXT <-> (forall n, block_listed n -> ~ byte_used t n) /\ exists n, allow_listed n /\ byte_used t n).
Proof.
  intros H. unfold detect_data_type. destruct (blocked_spec 32 0 4093624447 t) as (b & -> & Hb); [lia..|].
  cbn [mbind option_bind]. assert (Hb' : b = true <-> exists n, block_listed n /\ byte_used t n).
  { rewrite Hb. split; intros (i & Hi & Hu).
    - destruct Hu as [Hm Hu]. rewrite Z.sub_0_r in Hm. exists i. split; [|done]. apply mask_listed; [lia|done].
    - assert (0 <= i < 32) by (unfold block_listed in Hi; lia). exists i. split; [lia|]. split; [|done].
      rewrite Z.sub_0_r. by apply mask_listed. }
  clear Hb. destruct b.
  { exists Z_BINARY. split; [done|]. split; [by right|]. split; [done|]. intros [Hno _].
    destruct (proj1 Hb' eq_refl) as (i & Hi & Hu). by destruct (Hno i Hi). }
  assert (Hno : forall n, block_listed n -> ~ byte_used t n).
  { intros n Hn Hu. by discriminate (proj2 Hb' (ex_intro _ n (conj Hn Hu))). }
  destruct (aget_range t 9) as [e9 E9]; [lia|]. destruct (aget_range t 10) as [e10 E10]; [lia|].
  destruct (aget_range t 13) as [e13 E13]; [lia|]. rewrite E9, E10, E13. cbn [mbind option_bind].
  pose proof (byte_used_iff t 9 e9 E9) as U9. pose proof (byte_used_iff t 10 e10 E10) as U10.
  pose proof (byte_used_iff t 13 e13 E13) as U13.
  destruct (negb (fc e9 =? 0) || negb (fc e10 =? 0) || negb (fc e13 =? 0)) eqn:Eo.
  - exists Z_TEXT. split; [done|]. split; [by left|]. split; [|done]. intros _. split; [done|].
    rewrite !orb_true_iff in Eo. unfold allow_listed. destruct Eo as [[Eo|Eo]|Eo].
    + exists 9. split; [lia|by apply U9].
    + exists 10. split; [lia|by apply U10].
    + exists 13. split; [lia|by apply U13].
  - rewrite !orb_false_iff in Eo. destruct Eo as [[N9 N10] N13]. rewrite N9 in U9. rewrite N10 in U10. rewrite N13 in U13.
    change (Z.to_nat (LITERALS - 32)) with 224%nat. destruct (any_used_spec 224 32 t) as (b & -> & Ha); [lia..|].
    cbn [mbind option_bind]. exists (if b then Z_TEXT else Z_BINARY). split; [done|]. split; [destruct b; tauto|]. split.
    + intros E. destruct b; [|done]. split; [done|]. destruct (proj1 Ha eq_refl) as (i & Hi & Hu). exists i. split; [|done].
      unfold allow_listed. lia.
    + intros (_ & n & Hn & Hu). destruct b; [done|]. unfold allow_listed in Hn.
      destruct Hn as [->|[->|[->|Hn]]]; [by apply U9 in Hu|by apply U10 in Hu|by apply U13 in Hu|].
      discriminate (proj2 Ha). exists n. split; [lia|done].
Qed.
