(* ===== verification/TreesSend.v ===== *)
(** * The bits that the block writer sends

    [sent] is the string of bits that a writer has put out: the bytes in
    [pending_buf] and the bits in [bi_buf].  [emits w w' bs] says that the step
    from [w] to [w'] appends [bs] and writes nowhere past the bits sent. *)
From stdpp Require Import base numbers list.
From Stdlib Require Import ZArith Lia Bool.
From S2P Require Import Prelude Trees TreesCodes TreesBitlen TreesTables TreesWriter.

Definition sent (w : writer) : list bool :=
  bytes_bits (take (Z.to_nat (pending w)) (pending_buf w)) ++ z_bits (Z.to_nat (bi_valid w)) (bi_buf w).

Definition nbits (w : writer) : Z := 8 * pending w + bi_valid w.
Definition size (w : writer) : Z := Z.of_nat (length (pending_buf w)).

Record writer_ok (w : writer) : Prop := {
  wo_pending : 0 <= pending w <= size w;
  wo_bytes : Forall is_byte (take (Z.to_nat (pending w)) (pending_buf w));
  wo_valid : 0 <= bi_valid w <= 16;
  wo_buf : 0 <= bi_buf w < 2 ^ bi_valid w;
  wo_room : nbits w <= 8 * size w }.

Lemma sent_length w : writer_ok w -> Z.of_nat (length (sent w)) = nbits w.
Proof.
  intros [H1 _ H2 _ _]. unfold sent, nbits, size in *. rewrite length_app, length_bytes_bits, length_z_bits, length_take. lia.
Qed.

Record emits (w w' : writer) (bs : list bool) : Prop := {
  em_ok : writer_ok w';
  em_sent : sent w' = sent w ++ bs;
  em_nbits : nbits w' = nbits w + Z.of_nat (length bs);
  em_size : size w' = size w;
  em_frame i : nbits w' <= 8 * i -> aget (pending_buf w') i = aget (pending_buf w) i }.

Lemma emits_refl w : writer_ok w -> emits w w [].
Proof. intros H. constructor; try done; [by rewrite app_nil_r|cbn; lia]. Qed.

Lemma emits_trans a b c x y : emits a b x -> emits b c y -> emits a c (x ++ y).
Proof.
  intros [O1 S1 N1 Z1 F1] [O2 S2 N2 Z2 F2]. constructor; try done.
  - by rewrite S2, S1, app_assoc.
  - rewrite length_app. lia.
  - congruence.
  - intros i Hi. rewrite F2, F1 by lia. done.
Qed.

(** ** Fields of bits *)

Lemma z_bits_join n m b v :
  0 <= b < 2 ^ Z.of_nat n -> z_bits n b ++ z_bits m v = z_bits (n + m) (b + v * 2 ^ Z.of_nat n).
Proof.
  intros Hb. rewrite z_bits_app. f_equal.
  - apply z_bits_ext. intros i Hi. rewrite <- (Z.mod_pow2_bits_low (b + v * 2 ^ Z.of_nat n) (Z.of_nat n)) by lia.
    rewrite Z.mod_add, Z.mod_small by lia. done.
  - rewrite Z.shiftr_div_pow2, Z.div_add, Z.div_small, Z.add_0_l by lia. done.
Qed.

Lemma z_bits_split n m v : z_bits (n + m) v = z_bits n (wrap (Z.of_nat n) v) ++ z_bits m (v / 2 ^ Z.of_nat n).
Proof. rewrite z_bits_app, z_bits_wrap, Z.shiftr_div_pow2 by lia. done. Qed.

Lemma wrap_bound w x : 0 <= w -> 0 <= wrap w x < 2 ^ w.
Proof. intros Hw. apply Z.mod_pos_bound. apply Z.pow_pos_nonneg; lia. Qed.

(** ** Bytes *)

Lemma put_byte_spec w c :
  0 <= pending w < size w ->
  exists w', put_byte w c = Some w' /\ pending w' = pending w + 1 /\ size w' = size w /\
    bi_buf w' = bi_buf w /\ bi_valid w' = bi_valid w /\
    take (Z.to_nat (pending w')) (pending_buf w') = take (Z.to_nat (pending w)) (pending_buf w) ++ [wrap 8 c] /\
    forall i, i <> pending w -> aget (pending_buf w') i = aget (pending_buf w) i.
Proof.
  intros Hp. unfold put_byte, size in *. rewrite aset_Some by lia. cbn [mbind option_bind]. eexists. split; [reflexivity|].
  cbn [pending pending_buf bi_buf bi_valid]. split; [done|]. split; [by rewrite length_insert|]. split; [done|]. split; [done|].
  split.
  - replace (Z.to_nat (pending w + 1)) with (S (Z.to_nat (pending w))) by lia.
    rewrite (take_S_r _ _ (wrap 8 c)) by (apply list_lookup_insert_eq; lia). by rewrite take_insert_ge by lia.
  - intros i Hi. rewrite aget_insert by lia. by destruct (Z.eqb_spec i (pending w)).
Qed.

Lemma put_short_spec w v :
  0 <= pending w -> pending w + 2 <= size w ->
  exists w', put_short w v = Some w' /\ pending w' = pending w + 2 /\ size w' = size w /\
    bi_buf w' = bi_buf w /\ bi_valid w' = bi_valid w /\
    take (Z.to_nat (pending w')) (pending_buf w') =
      take (Z.to_nat (pending w)) (pending_buf w) ++ [v mod 256; v / 256 mod 256] /\
    forall i, i < pending w \/ pending w + 2 <= i -> aget (pending_buf w') i = aget (pending_buf w) i.
Proof.
  intros Hp Hs. unfold put_short.
  destruct (put_byte_spec w (Z.land v 255)) as (w1 & -> & P1 & S1 & B1 & V1 & T1 & F1); [lia|]. cbn [mbind option_bind].
  destruct (put_byte_spec w1 (Z.shiftr (wrap 16 v) 8)) as (w2 & -> & P2 & S2 & B2 & V2 & T2 & F2); [lia|].
  exists w2. split; [done|]. split_and!; try congruence; [lia| |].
  - rewrite T2, T1, <- app_assoc. cbn [app]. do 2 f_equal; [|f_equal].
    + change 255 with (Z.ones 8). rewrite Z.land_ones by lia. unfold wrap. by rewrite Z.mod_mod by done.
    + rewrite Z.shiftr_div_pow2 by lia. unfold wrap. change (2 ^ 8) with 256. change (2 ^ 16) with (256 * 256).
      rewrite Z.rem_mul_r by done. rewrite (Z.mul_comm 256), Z.div_add by done.
      rewrite (Z.div_small (v mod 256)) by (apply Z.mod_pos_bound; lia). rewrite Z.add_0_l. by rewrite Z.mod_mod.
  - intros i Hi. rewrite F2, F1 by lia. done.
Qed.

Lemma bytes_bits_short v : 0 <= v < 2 ^ 16 -> bytes_bits [v mod 256; v / 256 mod 256] = z_bits 16 v.
Proof.
  intros Hv. rewrite !bytes_bits_cons. cbn [bytes_bits]. change (bytes_bits []) with (@nil bool). rewrite app_nil_r.
  change 16%nat with (8 + 8)%nat. rewrite z_bits_split. change (2 ^ Z.of_nat 8) with 256. unfold wrap.
  change (2 ^ Z.of_nat 8) with 256. f_equal. f_equal. apply Z.mod_small. change (2 ^ 16) with (256 * 256) in Hv.
  split; [apply Z.div_pos; lia|]. apply Z.div_lt_upper_bound; lia.
Qed.

Lemma byte_mod x : is_byte (x mod 256).
Proof. apply Z.mod_pos_bound. lia. Qed.

(** ** [send_bits] *)

Lemma send_bits_spec w value length :
  writer_ok w -> 0 <= length <= 16 -> 0 <= value < 2 ^ length -> nbits w + length <= 8 * size w ->
  exists w', send_bits w value length = Some w' /\ emits w w' (z_bits (Z.to_nat length) value).
Proof.
  intros Hw Hl Hv Hroom. pose proof Hw as [O1 O2 O3 O4 O5]. unfold send_bits. change Buf_size with 16.
  assert (Hp16 : 2 ^ length <= 2 ^ 16) by (apply Z.pow_le_mono_r; lia).
  assert (Ew : wrap 16 value = value) by (apply Z.mod_small; lia). rewrite !Ew.
  set (v := bi_valid w) in *. set (b := bi_buf w) in *. set (X := b + value * 2 ^ v).
  assert (EX : Z.lor b (Z.shiftl value v) = X).
  { rewrite Z.shiftl_mul_pow2 by lia. apply lor_add; [lia|exact O4]. }
  rewrite EX. pose proof (Z.pow_pos_nonneg 2 v ltac:(lia) ltac:(lia)) as Hpv.
  assert (HX : 0 <= X < 2 ^ (v + length)).
  { rewrite Z.pow_add_r by lia. subst X. nia. }
  assert (Ebits : z_bits (Z.to_nat v) b ++ z_bits (Z.to_nat length) value = z_bits (Z.to_nat v + Z.to_nat length) X).
  { rewrite z_bits_join by (rewrite Z2Nat.id by lia; done). by rewrite Z2Nat.id by lia. }
  destruct (Z.gtb_spec v (16 - length)) as [Hg|Hg].
  - assert (Hhi : Z.shiftr value (16 - v) = X / 2 ^ 16).
    { rewrite Z.shiftr_div_pow2 by lia. replace (2 ^ 16) with (2 ^ v * 2 ^ (16 - v)).
      2:{ rewrite <- Z.pow_add_r by lia. f_equal. lia. }
      rewrite <- Z.div_div by (try apply Z.pow_nonzero; try apply Z.pow_pos_nonneg; lia).
      f_equal. subst X. rewrite Z.div_add by lia. rewrite (Z.div_small b) by done. done. }
    rewrite Hhi. set (w0 := Writer _ _ _ _).
    assert (Hdiv : 0 <= X / 2 ^ 16 < 2 ^ (v + (length - 16))).
    { split; [apply Z.div_pos; lia|]. apply Z.div_lt_upper_bound; [lia|]. rewrite <- Z.pow_add_r by lia.
      replace (16 + (v + (length - 16))) with (v + length) by lia. lia. }
    unfold nbits in Hroom.
    destruct (put_short_spec w0 (wrap 16 X)) as (w1 & E & P1 & S1 & _ & _ & T1 & F1); [cbn; lia|unfold size in *; cbn; lia|].
    rewrite E. cbn [mbind option_bind]. eexists. split; [reflexivity|].
    pose proof (wrap_bound 16 X ltac:(lia)) as Hwb.
    constructor; unfold sent, nbits, size in *; cbn [pending pending_buf bi_buf bi_valid w0] in *.
    + constructor; unfold size, nbits; cbn [pending pending_buf bi_buf bi_valid]; try done; [lia| |lia|lia].
      rewrite T1. apply Forall_app. split; [done|]. repeat constructor; apply byte_mod.
    + rewrite T1, bytes_bits_app, bytes_bits_short, <- !app_assoc by done. f_equal. fold v b. rewrite Ebits.
      replace (Z.to_nat v + Z.to_nat length)%nat with (16 + Z.to_nat (v + (length - 16)))%nat by lia.
      rewrite z_bits_split. done.
    + rewrite length_z_bits. lia.
    + done.
    + intros i Hi. apply F1. lia.
  - eexists. split; [reflexivity|].
    assert (EwX : wrap 16 X = X).
    { apply Z.mod_small. split; [lia|]. eapply Z.lt_le_trans; [apply HX|]. apply Z.pow_le_mono_r; lia. }
    rewrite EwX. constructor; unfold sent, nbits, size in *; cbn [pending pending_buf bi_buf bi_valid].
    + constructor; unfold size, nbits; cbn [pending pending_buf bi_buf bi_valid]; try done; lia.
    + rewrite <- app_assoc. f_equal. fold v b. rewrite Ebits. f_equal. lia.
    + rewrite length_z_bits. fold v. lia.
    + done.
    + done.
Qed.

Lemma send_code_spec w c t x l :
  writer_ok w -> aget t c = Some (Ct x l) -> 0 <= l <= 16 -> 0 <= x < 2 ^ l -> nbits w + l <= 8 * size w ->
  exists w', send_code w c t = Some w' /\ emits w w' (z_bits (Z.to_nat l) x).
Proof. intros Hw He Hl Hx Hr. unfold send_code. rewrite He. by apply send_bits_spec. Qed.

(** ** Emptying the bit buffer *)

Lemma z_bits_0 n : z_bits n 0 = replicate n false.
Proof. induction n as [|n IH]; [done|]. cbn [z_bits replicate]. by rewrite <- IH. Qed.

(** Zeros above a field. *)
Lemma z_bits_pad n m b : 0 <= b < 2 ^ Z.of_nat n -> z_bits (n + m) b = z_bits n b ++ replicate m false.
Proof. intros Hb. rewrite z_bits_app, Z.shiftr_div_pow2, Z.div_small, z_bits_0 by lia. done. Qed.

Lemma bi_windup_spec w :
  writer_ok w -> exists w' k, bi_windup w = Some w' /\ emits w w' (replicate k false) /\ bi_valid w' = 0 /\
    (k < 8)%nat /\ (nbits w + Z.of_nat k) mod 8 = 0.
Proof.
  intros [O1 O2 O3 O4 O5]. unfold bi_windup, sent, nbits in *. destruct (Z.gtb_spec (bi_valid w) 8) as [H8|H8].
  - assert (Hp : 2 ^ bi_valid w <= 2 ^ 16) by (apply Z.pow_le_mono_r; lia).
    destruct (put_short_spec w (bi_buf w)) as (w1 & -> & P1 & S1 & _ & _ & T1 & F1); [lia|lia|].
    cbn [mbind option_bind]. eexists _, (16 - Z.to_nat (bi_valid w))%nat. split; [reflexivity|].
    assert (E : z_bits 16 (bi_buf w) = z_bits (Z.to_nat (bi_valid w)) (bi_buf w) ++ replicate (16 - Z.to_nat (bi_valid w)) false).
    { rewrite <- z_bits_pad by (rewrite Z2Nat.id by lia; done). f_equal. lia. }
    split; [|split; [done|split; [lia|]]].
    2:{ replace (8 * pending w + bi_valid w + Z.of_nat (16 - Z.to_nat (bi_valid w))) with ((pending w + 2) * 8) by lia.
        by apply Z.mod_mul. }
    constructor; unfold sent, nbits; cbn [pending pending_buf bi_buf bi_valid]; try done.
    + constructor; unfold size, nbits in *; cbn [pending pending_buf bi_buf bi_valid]; try done; [lia| |lia].
      rewrite T1. apply Forall_app. split; [done|]. repeat constructor; apply byte_mod.
    + rewrite T1, bytes_bits_app, bytes_bits_short, E by lia. cbn [z_bits Z.to_nat]. by rewrite app_nil_r, <- app_assoc.
    + rewrite length_replicate. lia.
    + intros i Hi. apply F1. lia.
  - destruct (Z.gtb_spec (bi_valid w) 0) as [H0|H0].
    + assert (Hp : 2 ^ bi_valid w <= 2 ^ 8) by (apply Z.pow_le_mono_r; lia).
      destruct (put_byte_spec w (wrap 8 (bi_buf w))) as (w1 & -> & P1 & S1 & _ & _ & T1 & F1); [lia|].
      cbn [mbind option_bind]. eexists _, (8 - Z.to_nat (bi_valid w))%nat. split; [reflexivity|].
      assert (Ew : wrap 8 (wrap 8 (bi_buf w)) = bi_buf w).
      { assert (E1 : wrap 8 (bi_buf w) = bi_buf w) by (apply Z.mod_small; lia). by rewrite !E1. }
      rewrite Ew in T1.
      assert (E : z_bits 8 (bi_buf w) = z_bits (Z.to_nat (bi_valid w)) (bi_buf w) ++ replicate (8 - Z.to_nat (bi_valid w)) false).
      { rewrite <- z_bits_pad by (rewrite Z2Nat.id by lia; done). f_equal. lia. }
      split; [|split; [done|split; [lia|]]].
      2:{ replace (8 * pending w + bi_valid w + Z.of_nat (8 - Z.to_nat (bi_valid w))) with ((pending w + 1) * 8) by lia.
          by apply Z.mod_mul. }
      constructor; unfold sent, nbits; cbn [pending pending_buf bi_buf bi_valid]; try done.
      * constructor; unfold size, nbits in *; cbn [pending pending_buf bi_buf bi_valid]; try done; [lia| |lia].
        rewrite T1. apply Forall_app. split; [done|]. repeat constructor; change (2 ^ 8) with 256 in Hp; lia.
      * rewrite T1, bytes_bits_app, bytes_bits_cons, E. change (bytes_bits []) with (@nil bool).
        cbn [z_bits Z.to_nat]. by rewrite !app_nil_r, <- app_assoc.
      * rewrite length_replicate. lia.
      * intros i Hi. apply F1. lia.
    + assert (Hv0 : bi_valid w = 0) by lia. cbn [mbind option_bind]. exists (Writer (pending_buf w) (pending w) 0 0), 0%nat.
      split; [done|]. split; [|split; [done|split; [lia|]]].
      2:{ rewrite Hv0. replace (8 * pending w + 0 + Z.of_nat 0) with (pending w * 8) by lia. by apply Z.mod_mul. }
      constructor; unfold sent, nbits; cbn [pending pending_buf bi_buf bi_valid]; try done.
      * constructor; unfold size, nbits in *; cbn [pending pending_buf bi_buf bi_valid]; try done; lia.
      * rewrite Hv0. cbn. by rewrite !app_nil_r.
      * cbn. lia.
Qed.

Lemma bi_flush_spec w :
  writer_ok w -> exists w', bi_flush w = Some w' /\ emits w w' [] /\ bi_valid w' < 8.
Proof.
  intros Hw. pose proof Hw as [O1 O2 O3 O4 O5]. unfold bi_flush, nbits in *. destruct (Z.eqb_spec (bi_valid w) 16) as [H16|H16].
  - rewrite H16 in *. destruct (put_short_spec w (bi_buf w)) as (w1 & -> & P1 & S1 & _ & _ & T1 & F1); [lia|lia|].
    cbn [mbind option_bind]. eexists. split; [reflexivity|]. split; [|done].
    constructor; unfold sent, nbits; cbn [pending pending_buf bi_buf bi_valid]; try done.
    + constructor; unfold size, nbits in *; cbn [pending pending_buf bi_buf bi_valid]; try done; [lia| |lia].
      rewrite T1. apply Forall_app. split; [done|]. repeat constructor; apply byte_mod.
    + rewrite T1, bytes_bits_app, bytes_bits_short by done. rewrite H16. cbn [z_bits Z.to_nat]. by rewrite !app_nil_r.
    + cbn. lia.
    + intros i Hi. apply F1. lia.
  - destruct (Z.geb_spec (bi_valid w) 8) as [H8|H8]; [|exists w; split_and!; [done|by apply emits_refl|lia]].
    destruct (put_byte_spec w (wrap 8 (bi_buf w))) as (w1 & -> & P1 & S1 & _ & _ & T1 & F1); [lia|].
    cbn [mbind option_bind]. eexists. split; [reflexivity|]. split; [|cbn; lia].
    assert (Ew : wrap 8 (wrap 8 (bi_buf w)) = wrap 8 (bi_buf w)) by (apply Z.mod_small; apply wrap_bound; lia).
    rewrite Ew in T1.
    assert (Hd : Z.shiftr (bi_buf w) 8 = bi_buf w / 2 ^ 8) by (apply Z.shiftr_div_pow2; lia).
    constructor; unfold sent, nbits; cbn [pending pending_buf bi_buf bi_valid]; try done.
    + constructor; unfold size, nbits in *; cbn [pending pending_buf bi_buf bi_valid]; try done; [lia| |lia| |lia].
      * rewrite T1. apply Forall_app. split; [done|]. repeat constructor; apply wrap_bound; lia.
      * rewrite Hd. split; [apply Z.div_pos; lia|]. apply Z.div_lt_upper_bound; [lia|]. rewrite <- Z.pow_add_r by lia.
        replace (8 + (bi_valid w - 8)) with (bi_valid w) by lia. apply O4.
    + rewrite T1, bytes_bits_app, bytes_bits_cons. change (bytes_bits []) with (@nil bool). rewrite !app_nil_r, <- app_assoc.
      f_equal. rewrite Hd. replace (Z.to_nat (bi_valid w)) with (8 + Z.to_nat (bi_valid w - 8))%nat by lia.
      by rewrite z_bits_split.
    + cbn. lia.
    + intros i Hi. apply F1. lia.
Qed.

(** ** Bytes from an aligned position *)

Lemma put_short_emits w v :
  writer_ok w -> bi_valid w = 0 -> pending w + 2 <= size w -> 0 <= v < 2 ^ 16 ->
  exists w', put_short w v = Some w' /\ emits w w' (z_bits 16 v) /\ bi_valid w' = 0.
Proof.
  intros [O1 O2 O3 O4 O5] H0 Hs Hv. destruct (put_short_spec w v) as (w1 & E & P1 & S1 & B1 & V1 & T1 & F1); [lia|done|].
  rewrite H0 in *. exists w1. split; [done|]. split; [|congruence]. unfold nbits in *.
  constructor; unfold sent, nbits; rewrite ?V1, ?B1; try done.
  - constructor; unfold size, nbits in *; rewrite ?V1, ?B1; try done; [lia| |lia].
    rewrite T1. apply Forall_app. split; [done|]. repeat constructor; apply byte_mod.
  - rewrite T1, bytes_bits_app, bytes_bits_short, H0 by done. cbn [z_bits Z.to_nat]. by rewrite !app_nil_r.
  - rewrite H0, P1, length_z_bits. lia.
  - intros i Hi. apply F1. lia.
Qed.

Lemma put_bytes_emits l w :
  writer_ok w -> bi_valid w = 0 -> pending w + Z.of_nat (length l) <= size w -> Forall is_byte l ->
  exists w', put_bytes w l = Some w' /\ emits w w' (bytes_bits l) /\ bi_valid w' = 0.
Proof.
  revert w. induction l as [|c l IH]; intros w Hw H0 Hs Hl; cbn [put_bytes].
  { exists w. split_and!; [done|by apply emits_refl|done]. }
  apply Forall_cons in Hl as [Hc Hl]. cbn [length] in Hs. pose proof Hw as [O1 O2 O3 O4 O5].
  destruct (put_byte_spec w c) as (w1 & E & P1 & S1 & B1 & V1 & T1 & F1); [lia|].
  unfold put_byte in E. assert (Ec : wrap 8 c = c) by (by apply Z.mod_small). rewrite Ec in E, T1.
  destruct (aset (pending_buf w) (pending w) c) as [buf|] eqn:Eb; [|done]. injection E as <-. cbn [mbind option_bind].
  set (w1 := Writer buf (pending w + 1) (bi_buf w) (bi_valid w)) in *.
  assert (He : emits w w1 (bytes_bits [c])).
  { unfold nbits in *. constructor; unfold sent, nbits; rewrite ?V1, ?B1; try done.
    - constructor; unfold size, nbits in *; rewrite ?V1, ?B1; try done; [lia| |lia].
      rewrite T1. apply Forall_app. split; [done|]. apply Forall_singleton, Hc.
    - rewrite T1, bytes_bits_app, H0. cbn [z_bits Z.to_nat]. by rewrite !app_nil_r.
    - rewrite length_bytes_bits, P1. cbn. lia.
    - intros i Hi. apply F1. lia. }
  destruct (IH w1) as (w2 & E2 & He2 & H2); [apply He|by rewrite V1|lia|done|].
  exists w2. split; [done|]. split; [|done]. change (c :: l) with ([c] ++ l). rewrite bytes_bits_app. by eapply emits_trans.
Qed.
