(* ===== verification/TreesSyms.v ===== *)
(** * Symbols and the tokens they stand for

    A symbol of [sym_buf] is a pair of a distance, zero for a literal, and a
    literal or a length less 3.  The static tables of trees.h give every match
    the codes and the extra bits of the format, and the fixed codes. *)
From stdpp Require Import base numbers list.
From Stdlib Require Import ZArith Lia Bool.
From S2P Require Import Prelude Huffman Deflate Trees TreesCodes TreesBitlen TreesTables TreesWriter.
From S2P Require Import TreesSend.

Definition symbol : Type := Z * Z.

Definition valid_sym (y : symbol) : Prop := 0 <= y.1 <= 32768 /\ 0 <= y.2 < 256.

Definition token_of (y : symbol) : token := if y.1 =? 0 then Lit y.2 else Copy (y.2 + 3) y.1.

(** The bits of a symbol under the codes [ll] and [dl]. *)
Definition sym_bits (ll dl : list Z) (y : symbol) : option (list bool) :=
  if y.1 =? 0 then code_bits ll y.2
  else
    c ← aget _length_code y.2; a ← code_bits ll (257 + c);
    j ← d_code (y.1 - 1); b ← code_bits dl j;
    Some (a ++ z_bits (Z.to_nat (len_extra c)) (y.2 + 3 - len_base c) ++
          b ++ z_bits (Z.to_nat (dist_extra j)) (y.1 - dist_base j)).

Fixpoint syms_bits (ll dl : list Z) (ys : list symbol) : option (list (list bool)) :=
  match ys with
  | [] => Some []
  | y :: ys => b ← sym_bits ll dl y; bs ← syms_bits ll dl ys; Some (b :: bs)
  end.

(** ** The tables *)

Definition oeqb (o : option Z) (x : Z) : bool := match o with Some y => y =? x | None => false end.

Definition length_row (lc : Z) : bool :=
  match aget _length_code lc with
  | Some c =>
      (0 <=? c) && (c <? 29) && oeqb (aget extra_lbits c) (len_extra c) &&
      (0 <=? lc + 3 - len_base c) && (lc + 3 - len_base c <? 2 ^ len_extra c) &&
      ((len_extra c =? 0) || oeqb (aget base_length c) (len_base c - 3)) && (0 <=? len_extra c) && (len_extra c <=? 5)
  | None => false
  end.

Definition dist_row (d : Z) : bool :=
  match d_code d with
  | Some j =>
      match aget base_dist j, aget extra_dbits j with
      | Some b, Some x => (0 <=? j) && (j <? 30) && (0 <=? d - b) && (d - b <? 2 ^ x)
      | _, _ => false
      end
  | None => false
  end.

Definition base_row (j : Z) : bool :=
  oeqb (aget base_dist j) (dist_base j - 1) && oeqb (aget extra_dbits j) (dist_extra j) &&
  (0 <=? dist_extra j) && (dist_extra j <=? 13).

(** [p] holds for the [n] numbers from [i] on. *)
Fixpoint rows_from (p : Z -> bool) (n : nat) (i : Z) : bool :=
  match n with O => true | S n => p i && rows_from p n (i + 1) end.

Definition rows (p : Z -> bool) (n : nat) : bool := rows_from p n 0.

Lemma rows_spec p n i : rows p n = true -> 0 <= i < Z.of_nat n -> p i = true.
Proof.
  unfold rows. assert (H : forall k, rows_from p n k = true -> k <= i < k + Z.of_nat n -> p i = true).
  { induction n as [|n IH]; intros k; [lia|]. cbn [rows_from]. intros [Hp Hr]%andb_prop Hi.
    destruct (Z.eq_dec i k) as [->|]; [done|]. apply (IH (k + 1)); [done|lia]. }
  intros Hr Hi. by apply (H 0).
Qed.

Lemma oeqb_true o x : oeqb o x = true -> o = Some x.
Proof. destruct o; cbn; [|done]. by intros ->%Z.eqb_eq. Qed.

Lemma length_rows : rows length_row 256 = true.
Proof. vm_compute. reflexivity. Qed.

Lemma dist_rows : rows dist_row (Z.to_nat 32768) = true.
Proof. vm_compute. reflexivity. Qed.

Lemma base_rows : rows base_row 30 = true.
Proof. vm_compute. reflexivity. Qed.

Lemma length_code_spec lc :
  0 <= lc < 256 ->
  exists c, aget _length_code lc = Some c /\ 0 <= c < 29 /\ aget extra_lbits c = Some (len_extra c) /\
    0 <= len_extra c <= 5 /\ 0 <= lc + 3 - len_base c < 2 ^ len_extra c /\
    (len_extra c <> 0 -> aget base_length c = Some (len_base c - 3)).
Proof.
  intros H. pose proof (rows_spec length_row 256 lc length_rows H) as Hr. unfold length_row in Hr.
  destruct (aget _length_code lc) as [c|]; [|done]. exists c. rewrite !andb_true_iff, orb_true_iff in Hr.
  destruct Hr as (((((((H1 & H2) & H3) & H4) & H5) & H6) & H7) & H8). apply oeqb_true in H3.
  apply Z.leb_le in H1, H4, H7, H8. apply Z.ltb_lt in H2, H5. split_and!; try done.
  intros Hne. destruct H6 as [H6%Z.eqb_eq|H6]; [done|]. by apply oeqb_true.
Qed.

Lemma d_code_spec d :
  0 <= d < 32768 ->
  exists j, d_code d = Some j /\ 0 <= j < 30 /\ aget extra_dbits j = Some (dist_extra j) /\
    0 <= dist_extra j <= 13 /\ 0 <= d + 1 - dist_base j < 2 ^ dist_extra j /\
    (dist_extra j <> 0 -> aget base_dist j = Some (dist_base j - 1)).
Proof.
  intros H. pose proof (rows_spec dist_row (Z.to_nat 32768) d dist_rows ltac:(rewrite Z2Nat.id; lia)) as Hr.
  unfold dist_row in Hr.
  destruct (d_code d) as [j|]; [|done]. exists j.
  destruct (aget base_dist j) as [b|] eqn:Eb, (aget extra_dbits j) as [x|] eqn:Ex; try done.
  rewrite !andb_true_iff in Hr. destruct Hr as (((H1 & H2) & H3) & H4).
  apply Z.leb_le in H1, H3. apply Z.ltb_lt in H2, H4.
  pose proof (rows_spec base_row 30 j base_rows ltac:(lia)) as Hb. unfold base_row in Hb. rewrite !andb_true_iff in Hb.
  destruct Hb as (((B1 & B2) & B3) & B4). rewrite Eb in B1. rewrite Ex in B2. apply oeqb_true in B1, B2.
  injection B1 as ->. injection B2 as ->. apply Z.leb_le in B3, B4.
  replace (d + 1 - dist_base j) with (d - (dist_base j - 1)) by lia. split_and!; done.
Qed.

(** ** The tokens of a block *)

Lemma syms_coded ll dl ys bs e :
  Forall valid_sym ys -> syms_bits ll dl ys = Some bs -> code_bits ll 256 = Some e ->
  coded ll dl (map token_of ys) (concat bs ++ e).
Proof.
  intros Hv. revert bs. induction ys as [|[d lc] ys IH]; intros bs; cbn [syms_bits map].
  { intros [= <-] He. by apply coded_end. }
  apply Forall_cons in Hv as [[Hd Hl] Hv]. cbn [fst snd] in *.
  intros (b & Hb & (bs' & Hbs & [= <-])%bind_Some)%bind_Some He. cbn [concat]. rewrite <- app_assoc.
  specialize (IH Hv bs' Hbs He). unfold sym_bits, token_of in *. cbn [fst snd] in *. destruct (Z.eqb_spec d 0) as [->|Hd0].
  - by apply coded_lit.
  - destruct (length_code_spec lc Hl) as (c & Ec & Hc & _ & Hx & Hlc & _). rewrite Ec in Hb.
    destruct (d_code_spec (d - 1) ltac:(lia)) as (j & Ej & Hj & _ & Hxj & Hdj & _). cbn [mbind option_bind] in Hb.
    rewrite Ej in Hb. destruct (code_bits ll (257 + c)) as [a|] eqn:Ea; [|done]. cbn [mbind option_bind] in Hb.
    destruct (code_bits dl j) as [b'|] eqn:Eb; [|done]. injection Hb as <-. rewrite <- !app_assoc.
    replace (lc + 3) with (len_base c + (lc + 3 - len_base c)) at 1 by lia.
    replace d with (dist_base j + (d - dist_base j)) at 1 by lia.
    apply coded_copy; try done. by replace (d - dist_base j) with (d - 1 + 1 - dist_base j) by lia.
Qed.

(** ** Trees that hold the codes *)

(** [t] holds the code of every symbol that has one in [lens]. *)
Definition tree_codes (t : tree) (lens : list Z) : Prop :=
  forall n w, code_bits lens n = Some w ->
    exists x l, aget t n = Some (Ct x l) /\ 1 <= l <= 15 /\ 0 <= x < 2 ^ l /\ w = z_bits (Z.to_nat l) x.

Lemma coded_tree_codes t k :
  0 <= k <= Z.of_nat (length t) -> coded_tree t k -> Forall (fun l => 0 <= l <= 15) (lens_of t k) ->
  tree_codes t (lens_of t k).
Proof.
  intros Hk Hc Hf n w Hw. pose proof Hw as (l & [Hl Hl0] & _)%code_bits_Some.
  pose proof (aget_Some_lt _ _ _ Hl) as Hn. rewrite lens_of_length in Hn by done.
  pose proof Hl as [_ Hlk]%aget_Some. pose proof (Forall_lookup_1 _ _ _ _ Hf Hlk) as Hl15.
  rewrite aget_lens_of in Hl by done. destruct (aget t n) as [[x l']|] eqn:E; [|done]. cbn in Hl. injection Hl as ->.
  destruct (Hc n _ Hn E) as [Hx Hb]; [done|]. cbn [fc dl] in *. exists x, l. rewrite Hb in Hw. injection Hw as <-.
  split_and!; try done; lia.
Qed.

Lemma send_code_codes w c t lens b :
  writer_ok w -> tree_codes t lens -> code_bits lens c = Some b -> nbits w + Z.of_nat (length b) <= 8 * size w ->
  exists w', send_code w c t = Some w' /\ emits w w' b.
Proof.
  intros Hw Ht Hb Hr. destruct (Ht c b Hb) as (x & l & E & Hl & Hx & ->). rewrite length_z_bits in Hr.
  apply (send_code_spec w c t x l); try done; lia.
Qed.

Definition code_row (t : tree) (lens : list Z) (n : Z) : bool :=
  match code_bits lens n, aget t n with
  | Some w, Some (Ct x l) =>
      (1 <=? l) && (l <=? 15) && (0 <=? x) && (x <? 2 ^ l) && bool_decide (w = z_bits (Z.to_nat l) x)
  | None, _ => true
  | _, None => false
  end.

Lemma code_rows t lens : rows (code_row t lens) (length lens) = true -> tree_codes t lens.
Proof.
  intros H n w Hw. pose proof Hw as (l0 & [Hl _] & _)%code_bits_Some. pose proof (aget_Some_lt _ _ _ Hl) as Hn.
  pose proof (rows_spec _ _ n H Hn) as Hr. unfold code_row in Hr. rewrite Hw in Hr.
  destruct (aget t n) as [[x l]|]; [|done]. exists x, l. rewrite !andb_true_iff, bool_decide_eq_true in Hr.
  destruct Hr as ((((H1 & H2) & H3) & H4) & H5). apply Z.leb_le in H1, H2, H3. apply Z.ltb_lt in H4. split_and!; done.
Qed.

Lemma static_ltree_codes : tree_codes static_ltree fixed_ll.
Proof. apply code_rows. vm_compute. reflexivity. Qed.

Lemma static_dtree_codes : tree_codes static_dtree fixed_dl.
Proof. apply code_rows. vm_compute. reflexivity. Qed.
