(* ===== verification/TreesCompress.v ===== *)
(** * compress_block: the symbols of a block, coded

    As long as the bits written stay behind the symbols not yet read, the block
    is the symbols in order, each with its codes and extra bits, and the end of
    block. *)
From stdpp Require Import base numbers list.
From Stdlib Require Import ZArith Lia Bool.
From S2P Require Import Prelude Huffman Deflate Trees TreesTables TreesWriter TreesSend TreesSyms.

(** Sending [bits] of [b] between two other pieces. *)
Lemma send_extra w n v :
  writer_ok w -> 0 <= n <= 16 -> 0 <= v < 2 ^ n -> nbits w + n <= 8 * size w ->
  exists w', (if negb (n =? 0) then send_bits w v n else Some w) = Some w' /\ emits w w' (z_bits (Z.to_nat n) v).
Proof.
  intros Hw Hn Hv Hr. destruct (Z.eqb_spec n 0) as [->|]; cbn [negb]; [|by apply send_bits_spec].
  exists w. split; [done|by apply emits_refl].
Qed.

Section Trees.
Context (lt dt : tree) (ll dl : list Z) (Hlt : tree_codes lt ll) (Hdt : tree_codes dt dl).

Lemma send_match_spec w d lc b :
  writer_ok w -> valid_sym (d, lc) -> d <> 0 -> sym_bits ll dl (d, lc) = Some b ->
  nbits w + Z.of_nat (length b) <= 8 * size w ->
  exists w', send_match w d lc lt dt = Some w' /\ emits w w' b.
Proof.
  intros Hw [Hd Hl] Hd0 Hb Hr. cbn [fst snd] in *. unfold sym_bits in Hb. cbn [fst snd] in Hb.
  destruct (Z.eqb_spec d 0); [done|]. unfold send_match.
  destruct (length_code_spec lc Hl) as (c & Ec & Hc & Ex & Hx & Hlc & Eb). rewrite Ec in Hb |- *.
  destruct (d_code_spec (d - 1) ltac:(lia)) as (j & Ej & Hj & Exj & Hxj & Hdj & Ebj). cbn [mbind option_bind] in Hb |- *.
  rewrite Ej in Hb. destruct (code_bits ll (257 + c)) as [a|] eqn:Ea; [|done]. cbn [mbind option_bind] in Hb.
  destruct (code_bits dl j) as [b'|] eqn:Eb'; [|done]. injection Hb as <-.
  rewrite !length_app, !length_z_bits in Hr. change (c + LITERALS + 1) with (c + 256 + 1).
  replace (c + 256 + 1) with (257 + c) by lia.
  destruct (send_code_codes w _ lt ll a Hw Hlt Ea) as (w1 & -> & M1); [lia|]. cbn [mbind option_bind].
  rewrite Ex. cbn [mbind option_bind].
  destruct (send_extra w1 (len_extra c) (lc + 3 - len_base c)) as (w2 & E2 & M2);
    [apply M1|lia|done|rewrite (em_nbits _ _ _ M1), (em_size _ _ _ M1); lia|].
  assert (E2' : (if negb (len_extra c =? 0) then b ← aget base_length c; send_bits w1 (lc - b) (len_extra c) else Some w1) = Some w2).
  { rewrite <- E2. destruct (Z.eqb_spec (len_extra c) 0) as [|Hne]; [done|]. cbn [negb]. rewrite Eb by done.
    cbn [mbind option_bind]. f_equal. lia. }
  rewrite E2'. cbn [mbind option_bind].
  assert (Ew : wrap 32 (d - 1) = d - 1) by (apply Z.mod_small; change (2 ^ 32) with 4294967296; lia). rewrite !Ew.
  rewrite Ej. cbn [mbind option_bind]. pose proof (emits_trans _ _ _ _ _ M1 M2) as M12.
  destruct (send_code_codes w2 _ dt dl b' ltac:(apply M2) Hdt Eb') as (w3 & -> & M3).
  { rewrite (em_nbits _ _ _ M12), (em_size _ _ _ M12), length_app, length_z_bits. lia. }
  cbn [mbind option_bind]. rewrite Exj. cbn [mbind option_bind]. pose proof (emits_trans _ _ _ _ _ M12 M3) as M13.
  destruct (send_extra w3 (dist_extra j) (d - dist_base j)) as (w4 & E4 & M4);
    [apply M3|lia|replace (d - dist_base j) with (d - 1 + 1 - dist_base j) by lia; done| |].
  { rewrite (em_nbits _ _ _ M13), (em_size _ _ _ M13), !length_app, length_z_bits. lia. }
  exists w4. split.
  - rewrite <- E4. destruct (Z.eqb_spec (dist_extra j) 0) as [|Hne]; [done|]. cbn [negb]. rewrite Ebj by done.
    cbn [mbind option_bind]. f_equal.
    assert (Hdb : 0 <= d - 1 - (dist_base j - 1) < 2 ^ 32).
    { replace (d - 1 - (dist_base j - 1)) with (d - 1 + 1 - dist_base j) by lia.
      split; [lia|]. eapply Z.lt_le_trans; [apply Hdj|]. apply Z.pow_le_mono_r; lia. }
    replace (d - dist_base j) with (d - 1 - (dist_base j - 1)) by lia. by apply Z.mod_small.
  - pose proof (emits_trans _ _ _ _ _ M13 M4) as M. by rewrite <- !app_assoc in M.
Qed.

Lemma send_sym_spec w d lc b :
  writer_ok w -> valid_sym (d, lc) -> sym_bits ll dl (d, lc) = Some b ->
  nbits w + Z.of_nat (length b) <= 8 * size w ->
  exists w', (if d =? 0 then send_code w lc lt else send_match w d lc lt dt) = Some w' /\ emits w w' b.
Proof.
  intros Hw Hv Hb Hr. destruct (Z.eqb_spec d 0) as [->|Hd]; [|by apply send_match_spec].
  unfold sym_bits in Hb. cbn [fst snd] in Hb. by eapply send_code_codes.
Qed.

(** The symbols [ys] from the position [off] of the buffer on. *)
Fixpoint syms_at (buf : list Z) (off : Z) (ys : list symbol) : Prop :=
  match ys with
  | [] => True
  | y :: ys =>
      aget buf off = Some (y.1 mod 256) /\ aget buf (off + 1) = Some (y.1 / 256) /\ aget buf (off + 2) = Some y.2 /\
      syms_at buf (off + 3) ys
  end.

Lemma syms_at_frame buf buf' off ys :
  (forall i, off <= i -> aget buf' i = aget buf i) -> syms_at buf off ys -> syms_at buf' off ys.
Proof.
  revert off. induction ys as [|y ys IH]; intros off H; [done|]. cbn [syms_at]. intros (H1 & H2 & H3 & H4).
  split_and!; [rewrite H by lia; done..|]. apply IH; [|done]. intros i Hi. apply H. lia.
Qed.

Lemma syms_at_end buf off ys : syms_at buf off ys -> 0 <= off -> (0 < length ys)%nat -> off + 3 * Z.of_nat (length ys) <= Z.of_nat (length buf).
Proof.
  revert off. induction ys as [|y ys IH]; intros off; cbn [syms_at length]; [lia|]. intros (_ & _ & H3 & H4) Ho _.
  apply aget_Some_lt in H3. destruct ys as [|y' ys]; [cbn; lia|]. apply IH in H4; [|lia|cbn; lia]. cbn [length] in *. lia.
Qed.

(** The writer, with [nb] bits, stays behind the reader. *)
Fixpoint keeps_behind (nb off : Z) (bs : list (list bool)) : Prop :=
  match bs with
  | [] => True
  | b :: bs => let nb := nb + Z.of_nat (length b) in nb <= 8 * (off + 3) /\ keeps_behind nb (off + 3) bs
  end.

(** With at most [c] bits for a symbol, the last symbol decides. *)
Lemma keeps_behind_uniform c nb off bs :
  24 <= c -> Forall (fun b => Z.of_nat (length b) <= c) bs ->
  nb + c * Z.of_nat (length bs) <= 8 * (off + 3 * Z.of_nat (length bs)) -> keeps_behind nb off bs.
Proof.
  intros Hc. revert nb off. induction bs as [|b bs IH]; intros nb off; [done|]. cbn [keeps_behind length].
  intros [Hb Hf]%Forall_cons H. split; [|apply IH; [done|lia]]. nia.
Qed.

Lemma compress_loop_spec fuel L n sx w ys bs :
  writer_ok w -> 0 <= L + sx -> sx + 3 * Z.of_nat (length ys) = n -> (0 < length ys <= fuel)%nat ->
  Forall valid_sym ys -> syms_bits ll dl ys = Some bs -> syms_at (pending_buf w) (L + sx) ys ->
  keeps_behind (nbits w) (L + sx) bs ->
  exists w', compress_loop fuel L n sx w lt dt = Some w' /\ emits w w' (concat bs).
Proof.
  revert sx w ys bs. induction fuel as [|fuel IH]; intros sx w ys bs Hw HL Hn Hlen Hv Hb Hs Hk; [lia|].
  destruct ys as [|[d lc] ys]; [cbn in Hlen; lia|]. cbn [compress_loop]. pose proof Hs as Hs0.
  cbn [syms_at fst snd] in Hs. destruct Hs as (G0 & G1 & G2 & Hs). cbn [length] in Hn, Hlen.
  replace (L + (sx + 1)) with (L + sx + 1) by lia. replace (L + (sx + 2)) with (L + sx + 2) by lia.
  rewrite G0, G1, G2. cbn [mbind option_bind]. apply Forall_cons in Hv as [Hv1 Hv]. pose proof Hv1 as [Hd Hlc]. cbn [fst snd] in Hd, Hlc.
  assert (Hd2 : 0 <= d / 256 < 256) by (split; [apply Z.div_pos; lia|apply Z.div_lt_upper_bound; lia]).
  assert (Ed : Z.land (d mod 256) 255 + Z.shiftl (Z.land (d / 256) 255) 8 = d).
  { change 255 with (Z.ones 8). rewrite !Z.land_ones, Z.shiftl_mul_pow2 by lia. change (2 ^ 8) with 256.
    rewrite Z.mod_mod, (Z.mod_small (d / 256)) by lia. rewrite (Z.div_mod d 256) at 3 by lia. lia. }
  rewrite Ed. cbn [syms_bits] in Hb. destruct (sym_bits ll dl (d, lc)) as [b|] eqn:Eb; [|done]. cbn [mbind option_bind] in Hb.
  destruct (syms_bits ll dl ys) as [bs'|] eqn:Ebs; [|done]. injection Hb as <-.
  cbn [keeps_behind] in Hk. destruct Hk as [Hk1 Hk].
  assert (Hsz : L + sx + 3 <= size w) by (apply aget_Some_lt in G2; unfold size; lia).
  destruct (send_sym_spec w d lc b Hw Hv1 Eb) as (w1 & -> & M1); [lia|]. cbn [mbind option_bind].
  assert (Hs1 : syms_at (pending_buf w1) (L + sx + 3) ys).
  { apply syms_at_frame with (pending_buf w); [|done]. intros i Hi. apply (em_frame _ _ _ M1). rewrite (em_nbits _ _ _ M1). lia. }
  cbn [concat]. destruct (Z.ltb_spec (sx + 3) n) as [Hlt'|Hge].
  - replace (L + sx + 3) with (L + (sx + 3)) in * by lia.
    destruct (IH (sx + 3) w1 ys bs') as (w2 & -> & M2); try done; [apply M1|lia|lia|lia|by rewrite (em_nbits _ _ _ M1)|].
    exists w2. split; [done|]. by eapply emits_trans.
  - destruct ys as [|y ys]; [|cbn [length] in Hn; lia]. injection Ebs as <-. exists w1. cbn [concat]. by rewrite app_nil_r.
Qed.

Lemma compress_block_spec L w ys bs e :
  writer_ok w -> 0 <= L -> Forall valid_sym ys -> syms_bits ll dl ys = Some bs -> code_bits ll 256 = Some e ->
  syms_at (pending_buf w) L ys -> keeps_behind (nbits w) L bs ->
  nbits w + Z.of_nat (length (concat bs ++ e)) <= 8 * size w ->
  exists w', compress_block L (3 * Z.of_nat (length ys)) w lt dt = Some w' /\ emits w w' (concat bs ++ e).
Proof.
  intros Hw HL Hv Hb He Hs Hk Hr. unfold compress_block. rewrite length_app in Hr.
  assert (H : exists w1, (if negb (3 * Z.of_nat (length ys) =? 0)
      then compress_loop (Z.to_nat (3 * Z.of_nat (length ys))) L (3 * Z.of_nat (length ys)) 0 w lt dt else Some w) = Some w1 /\
      emits w w1 (concat bs)).
  { destruct ys as [|y ys]; [exists w; injection Hb as <-; split; [done|by apply emits_refl]|].
    destruct (Z.eqb_spec (3 * Z.of_nat (length (y :: ys))) 0) as [E|E]; [cbn [length] in E; lia|]. cbn [negb].
    apply compress_loop_spec with (y :: ys); rewrite ?Z.add_0_r; try done; cbn [length]; lia. }
  destruct H as (w1 & -> & M1). cbn [mbind option_bind].
  destruct (send_code_codes w1 END_BLOCK lt ll e ltac:(apply M1) Hlt He) as (w2 & -> & M2).
  { rewrite (em_nbits _ _ _ M1), (em_size _ _ _ M1). lia. }
  exists w2. split; [done|]. by eapply emits_trans.
Qed.
End Trees.
