(* ===== verification/TreesRle.v ===== *)
(** * The run-length code of the lengths (scan_tree and send_tree)

    Both functions cut the list of lengths into the same runs: [runs].  The
    runs expand to the lengths; [scan_tree] counts their symbols and [send_tree]
    sends them, which is [Deflate.rle]. *)
From stdpp Require Import base numbers list.
From Stdlib Require Import ZArith Lia Bool.
From S2P Require Import Prelude Huffman Deflate Trees TreesCodes TreesShape TreesBitlen TreesBuild.
From S2P Require Import TreesTables TreesWriter TreesSend TreesSyms.

Inductive run :=
| ROne (x : Z)
| RPrev (n : Z)
| RZeros (n : Z)
| RMany (n : Z).

Definition run_sym (o : run) : Z :=
  match o with ROne x => x | RPrev _ => 16 | RZeros _ => 17 | RMany _ => 18 end.

Definition run_tail (o : run) : list bool :=
  match o with ROne _ => [] | RPrev n => z_bits 2 (n - 3) | RZeros n => z_bits 3 (n - 3) | RMany n => z_bits 7 (n - 11) end.

Definition run_ok (o : run) : Prop :=
  match o with ROne x => 0 <= x < 16 | RPrev n => 3 <= n <= 6 | RZeros n => 3 <= n <= 10 | RMany n => 11 <= n <= 138 end.

(** The lengths [l] extended by a run. *)
Definition run_expand (l : list Z) (o : run) : option (list Z) :=
  match o with
  | ROne x => Some (l ++ [x])
  | RPrev n => p ← last l; Some (l ++ replicate (Z.to_nat n) p)
  | RZeros n => Some (l ++ replicate (Z.to_nat n) 0)
  | RMany n => Some (l ++ replicate (Z.to_nat n) 0)
  end.

Fixpoint runs_expand (l : list Z) (os : list run) : option (list Z) :=
  match os with [] => Some l | o :: os => l ← run_expand l o; runs_expand l os end.

Fixpoint runs_bits (cl : list Z) (os : list run) : option (list bool) :=
  match os with
  | [] => Some []
  | o :: os => w ← code_bits cl (run_sym o); bs ← runs_bits cl os; Some (w ++ run_tail o ++ bs)
  end.

Lemma runs_expand_app l a b : runs_expand l (a ++ b) = l' ← runs_expand l a; runs_expand l' b.
Proof. revert l. induction a as [|o a IH]; intros l; [done|]. cbn [app runs_expand]. destruct (run_expand l o); [apply IH|done]. Qed.

Lemma runs_bits_app cl a b x y :
  runs_bits cl a = Some x -> runs_bits cl b = Some y -> runs_bits cl (a ++ b) = Some (x ++ y).
Proof.
  revert x. induction a as [|o a IH]; intros x; cbn [app runs_bits]; [by intros [= <-]|].
  intros (w & -> & (z & Hz & [= <-])%bind_Some)%bind_Some Hy. cbn [mbind option_bind]. rewrite (IH z Hz Hy).
  cbn [mbind option_bind]. by rewrite <- !app_assoc.
Qed.

Lemma runs_bits_split cl a b bs :
  runs_bits cl (a ++ b) = Some bs -> exists x y, runs_bits cl a = Some x /\ runs_bits cl b = Some y /\ bs = x ++ y.
Proof.
  revert bs. induction a as [|o a IH]; intros bs; cbn [app runs_bits]; [by exists [], bs|].
  intros (w & -> & (z & (x & y & -> & -> & ->)%IH & [= <-])%bind_Some)%bind_Some. cbn [mbind option_bind].
  eexists _, y. split; [done|]. split; [done|]. by rewrite <- !app_assoc.
Qed.

(** The runs are a list of code lengths in the format. *)
Lemma runs_rle cl os l l' bs :
  Forall run_ok os -> runs_expand l os = Some l' -> runs_bits cl os = Some bs -> rle cl l bs l'.
Proof.
  intros Hok. revert l bs. induction os as [|o os IH]; intros l bs; cbn [runs_expand runs_bits].
  { intros [= <-] [= <-]. constructor. }
  apply Forall_cons in Hok as [Ho Hok].
  intros (l1 & H1 & H2)%bind_Some (w & Hw & (z & Hz & [= <-])%bind_Some)%bind_Some. specialize (IH Hok l1 z H2 Hz).
  destruct o as [x|n|n|n]; cbn [run_expand run_sym run_tail run_ok app] in *.
  - injection H1 as <-. by apply rle_len with x.
  - destruct (last l) as [p|] eqn:Ep; [|done]. injection H1 as <-. apply last_Some in Ep as [l0 ->].
    apply rle_prev; [done|lia|]. rewrite app_assoc. by replace (3 + (n - 3)) with n by lia.
  - injection H1 as <-. apply rle_zeros; [done|lia|]. by replace (3 + (n - 3)) with n by lia.
  - injection H1 as <-. apply rle_many; [done|lia|]. by replace (11 + (n - 11)) with n by lia.
Qed.

(** Without a nonzero length among the runs, all lengths are zero. *)
Lemma runs_zero os l l' :
  (forall x, ROne x ∈ os -> x = 0) -> Forall (fun x => x = 0) l -> runs_expand l os = Some l' -> Forall (fun x => x = 0) l'.
Proof.
  revert l. induction os as [|o os IH]; intros l H Hl; cbn [runs_expand]; [by intros [= <-]|].
  intros (l1 & H1 & H2)%bind_Some. apply (IH l1); [intros x Hx; apply H; by right| |done].
  destruct o as [x|n|n|n]; cbn [run_expand] in H1.
  - injection H1 as <-. apply Forall_app. split; [done|]. apply Forall_singleton, H. left.
  - destruct (last l) as [p|] eqn:Ep; [|done]. injection H1 as <-. apply last_Some in Ep as [l0 ->].
    apply Forall_app. split; [done|]. apply Forall_app in Hl as [_ Hp]. apply Forall_singleton in Hp as ->.
    by apply Forall_replicate.
  - injection H1 as <-. apply Forall_app. split; [done|]. by apply Forall_replicate.
  - injection H1 as <-. apply Forall_app. split; [done|]. by apply Forall_replicate.
Qed.

(** ** Cutting into runs *)

(** What goes out for [count] times [cur] after [prev]. *)
Definition flush_run (prev cur count : Z) : list run :=
  if count <? (run_limits prev cur).2 then replicate (Z.to_nat count) (ROne cur)
  else if negb (cur =? 0) then
    (if negb (cur =? prev) then [ROne cur; RPrev (count - 1)] else [RPrev count])
  else if count <=? 10 then [RZeros count] else [RMany count].

Fixpoint runs (nexts : list Z) (prev cur count : Z) : list run :=
  match nexts with
  | [] => []
  | next :: nexts =>
      if (count + 1 <? (run_limits prev cur).1) && (cur =? next) then runs nexts prev next (count + 1)
      else flush_run prev cur (count + 1) ++ runs nexts cur next 0
  end.

(** The runs of a list of lengths. *)
Definition runs_of (lens : list Z) : list run :=
  match lens with [] => [] | x :: r => runs (r ++ [65535]) (-1) x 0 end.

Lemma expand_ones l n x : runs_expand l (replicate n (ROne x)) = Some (l ++ replicate n x).
Proof.
  revert l. induction n as [|n IH]; intros l; cbn [replicate runs_expand run_expand mbind option_bind]; [by rewrite app_nil_r|].
  by rewrite IH, <- app_assoc.
Qed.

Lemma flush_run_spec prev cur count l :
  0 <= cur < 16 -> 1 <= count <= (run_limits prev cur).1 -> (prev = cur -> last l = Some cur) ->
  Forall run_ok (flush_run prev cur count) /\
  runs_expand l (flush_run prev cur count) = Some (l ++ replicate (Z.to_nat count) cur).
Proof.
  intros Hcur Hc Hp. unfold flush_run. unfold run_limits in *.
  destruct (Z.eqb_spec cur 0) as [->|H0]; cbn [fst snd] in *.
  - destruct (Z.ltb_spec count 3); [split; [by apply Forall_replicate|apply expand_ones]|]. cbn [negb].
    destruct (Z.leb_spec count 10); (split; [apply Forall_singleton; cbn; lia|]); done.
  - destruct (Z.eqb_spec prev cur) as [E|E]; cbn [fst snd] in *.
    + destruct (Z.ltb_spec count 3); [split; [by apply Forall_replicate|apply expand_ones]|]. cbn [negb]. rewrite E, Z.eqb_refl. cbn [negb].
      split; [apply Forall_singleton; cbn; lia|]. cbn [runs_expand run_expand]. by rewrite (Hp E).
    + destruct (Z.ltb_spec count 4); [split; [by apply Forall_replicate|apply expand_ones]|]. cbn [negb].
      destruct (Z.eqb_spec cur prev); [congruence|]. cbn [negb]. split; [repeat constructor; cbn; lia|].
      cbn [runs_expand run_expand mbind option_bind]. rewrite last_snoc. cbn [mbind option_bind]. rewrite <- app_assoc.
      replace (Z.to_nat count) with (S (Z.to_nat (count - 1))) by lia. done.
Qed.

Lemma limits_pos prev cur : 3 <= (run_limits prev cur).2 < (run_limits prev cur).1.
Proof. unfold run_limits. repeat case_match; cbn; lia. Qed.

Lemma runs_spec r prev cur count l g :
  Forall (fun x => 0 <= x < 16) (cur :: r) -> ~ (0 <= g < 16) -> 0 <= count < (run_limits prev cur).1 ->
  (prev = cur -> last l = Some cur) ->
  Forall run_ok (runs (r ++ [g]) prev cur count) /\
  runs_expand l (runs (r ++ [g]) prev cur count) = Some (l ++ replicate (Z.to_nat count) cur ++ cur :: r).
Proof.
  intros Hf Hg. revert prev cur count l Hf. induction r as [|x r IH]; intros prev cur count l Hf Hc Hp;
    apply Forall_cons in Hf as [Hcur Hf]; cbn [app runs].
  - destruct (Z.eqb_spec cur g); [lia|]. rewrite andb_false_r, app_nil_r.
    destruct (flush_run_spec prev cur (count + 1) l) as [H1 H2]; [done|lia|done|]. split; [done|]. rewrite H2.
    replace (Z.to_nat (count + 1)) with (S (Z.to_nat count)) by lia. by rewrite replicate_S_end.
  - destruct ((count + 1 <? (run_limits prev cur).1) && (cur =? x)) eqn:E.
    + apply andb_prop in E as [E1%Z.ltb_lt <-%Z.eqb_eq].
      destruct (IH prev cur (count + 1) l) as [H1 H2]; [done|lia|done|]. split; [done|]. rewrite H2.
      replace (Z.to_nat (count + 1)) with (S (Z.to_nat count)) by lia. by rewrite replicate_S_end, <- app_assoc.
    + destruct (flush_run_spec prev cur (count + 1) l) as [H1 H2]; [done|lia|done|].
      pose proof (limits_pos cur x).
      destruct (IH cur x 0 (l ++ replicate (Z.to_nat (count + 1)) cur)) as [H3 H4]; [done|lia| |].
      { intros <-. replace (Z.to_nat (count + 1)) with (S (Z.to_nat count)) by lia.
        rewrite replicate_S_end, app_assoc. apply last_snoc. }
      split; [by apply Forall_app|]. rewrite runs_expand_app, H2. cbn [mbind option_bind]. rewrite H4.
      replace (Z.to_nat (count + 1)) with (S (Z.to_nat count)) by lia. change (replicate (Z.to_nat 0) x) with (@nil Z).
      rewrite replicate_S_end, <- !app_assoc. done.
Qed.

Lemma runs_of_spec lens l :
  Forall (fun x => 0 <= x < 16) lens ->
  Forall run_ok (runs_of lens) /\ runs_expand l (runs_of lens) = Some (l ++ lens).
Proof.
  intros Hf. destruct lens as [|x r]; [by cbn; rewrite app_nil_r|]. unfold runs_of.
  pose proof (limits_pos (-1) x). apply (runs_spec r (-1) x 0 l 65535); [done|lia|lia|].
  intros <-. apply Forall_cons in Hf as [? _]. lia.
Qed.

Lemma flush_run_length prev cur count : 1 <= count -> Z.of_nat (length (flush_run prev cur count)) <= count.
Proof.
  intros Hc. pose proof (limits_pos prev cur). unfold flush_run.
  destruct (Z.ltb_spec count (run_limits prev cur).2); [rewrite length_replicate; lia|].
  repeat case_match; cbn [length]; lia.
Qed.

Lemma runs_length nexts prev cur count :
  0 <= count -> Z.of_nat (length (runs nexts prev cur count)) <= count + Z.of_nat (length nexts).
Proof.
  revert prev cur count. induction nexts as [|x r IH]; intros prev cur count Hc; [cbn; lia|]. cbn [runs length].
  case_match.
  - specialize (IH prev x (count + 1)). lia.
  - rewrite length_app. pose proof (flush_run_length prev cur (count + 1)). specialize (IH cur x 0). lia.
Qed.

(** ** Counting and sending *)

(** The lengths that follow element [n]. *)
Fixpoint next_lens (t : tree) (n : Z) (nexts : list Z) : Prop :=
  match nexts with [] => True | x :: r => dlat t (n + 1) = Some x /\ next_lens t (n + 1) r end.

Definition uses (os : list run) (x : Z) : Z := Z.of_nat (length (filter (fun o => run_sym o = x) os)).

Lemma uses_app a b x : uses (a ++ b) x = uses a x + uses b x.
Proof. unfold uses. rewrite filter_app, length_app. lia. Qed.

Lemma uses_bound os x : 0 <= uses os x <= Z.of_nat (length os).
Proof. unfold uses. pose proof (length_filter (fun o => run_sym o = x) os). lia. Qed.

Lemma uses_all os x y : Forall (fun o => run_sym o = x) os -> uses os y = if decide (x = y) then Z.of_nat (length os) else 0.
Proof.
  unfold uses. induction 1 as [|o os Ho _ IH]; [by case_decide|]. rewrite filter_cons, Ho.
  case_decide as E; rewrite ?decide_True, ?decide_False in IH by done; cbn [length]; lia.
Qed.

Lemma uses_elem os o : o ∈ os -> 1 <= uses os (run_sym o).
Proof.
  intros H. unfold uses. assert (Hf : o ∈ filter (fun o' => run_sym o' = run_sym o) os) by (by apply list_elem_of_filter).
  destruct (filter _ os); [by apply elem_of_nil in Hf|cbn; lia].
Qed.

(** [bl'] is [bl] with the frequencies of the symbols of [os] counted. *)
Record counted (bl bl' : tree) (os : list run) : Prop := {
  cd_length : length bl' = length bl;
  cd_dl x : dlat bl' x = dlat bl x;
  cd_fc x f : fcat bl x = Some f -> 0 <= f -> f + Z.of_nat (length os) < 2 ^ 16 -> fcat bl' x = Some (f + uses os x) }.

Lemma counted_refl bl : counted bl bl [].
Proof. constructor; try done. intros x f -> _ _. f_equal. unfold uses. cbn. lia. Qed.

Lemma counted_trans a b c x y : counted a b x -> counted b c y -> counted a c (x ++ y).
Proof.
  intros [L1 D1 F1] [L2 D2 F2]. constructor; [congruence|congruence|]. intros n f Hf H0 Hb. rewrite length_app in Hb.
  pose proof (uses_bound x n). rewrite (F2 n (f + uses x n)); [by rewrite uses_app, Z.add_assoc|apply F1; try done; lia|lia|lia].
Qed.

Lemma add_freq_counted bl x os :
  0 <= x < Z.of_nat (length bl) -> Forall (fun o => run_sym o = x) os ->
  exists bl', add_freq bl x (Z.of_nat (length os)) = Some bl' /\ counted bl bl' os.
Proof.
  intros Hx Hos. unfold add_freq. destruct (aget_range bl x Hx) as [e He]. rewrite He. cbn [mbind option_bind].
  destruct (set_fc_ok bl x (fc e + Z.of_nat (length os)) Hx) as (bl' & -> & El & Hd & Hf). exists bl'. split; [done|].
  constructor; [done|done|]. intros y f Hy H0 Hb. rewrite Hf, (uses_all os x y Hos).
  destruct (Z.eqb_spec y x) as [->|Hne].
  - unfold fcat in Hy. rewrite He in Hy. injection Hy as <-. rewrite decide_True by done. f_equal. by apply Z.mod_small; lia.
  - rewrite decide_False by done. rewrite Z.add_0_r. exact Hy.
Qed.

(** One flush of [scan_tree]. *)
Lemma scan_flush (bl : tree) prev cur count :
  0 <= cur < 16 -> 1 <= count -> (19 <= length bl)%nat ->
  exists bl', (if count <? (run_limits prev cur).2 then add_freq bl cur count
              else if negb (cur =? 0) then
                bl ← (if negb (cur =? prev) then add_freq bl cur 1 else Some bl);
                add_freq bl REP_3_6 1
              else if count <=? 10 then add_freq bl REPZ_3_10 1
              else add_freq bl REPZ_11_138 1) = Some bl' /\ counted bl bl' (flush_run prev cur count).
Proof.
  intros Hcur Hc Hl. unfold flush_run. destruct (count <? (run_limits prev cur).2).
  { destruct (add_freq_counted bl cur (replicate (Z.to_nat count) (ROne cur))) as (b & E & C); [lia|by apply Forall_replicate|].
    rewrite length_replicate, Z2Nat.id in E by lia. by exists b. }
  destruct (negb (cur =? 0)).
  - destruct (negb (cur =? prev)).
    + destruct (add_freq_counted bl cur [ROne cur]) as (b1 & E1 & C1); [lia|by apply Forall_singleton|].
      change (Z.of_nat (length [ROne cur])) with 1 in E1. rewrite E1. cbn [mbind option_bind].
      destruct (add_freq_counted b1 REP_3_6 [RPrev (count - 1)]) as (b2 & E2 & C2); [rewrite (cd_length _ _ _ C1); change REP_3_6 with 16; lia|by apply Forall_singleton|].
      exists b2. split; [done|]. exact (counted_trans _ _ _ _ _ C1 C2).
    + cbn [mbind option_bind]. apply (add_freq_counted bl REP_3_6 [RPrev count]); [change REP_3_6 with 16; lia|by apply Forall_singleton].
  - destruct (count <=? 10).
    + apply (add_freq_counted bl REPZ_3_10 [RZeros count]); [change REPZ_3_10 with 17; lia|by apply Forall_singleton].
    + apply (add_freq_counted bl REPZ_11_138 [RMany count]); [change REPZ_11_138 with 18; lia|by apply Forall_singleton].
Qed.

Lemma scan_loop_spec nexts n prev cur count (t bl : tree) :
  0 <= count -> (19 <= length bl)%nat -> next_lens t n nexts ->
  (match nexts with [] => True | _ => 0 <= cur < 16 end) -> Forall (fun x => 0 <= x < 16) (removelast nexts) ->
  exists bl', scan_loop (length nexts) n prev cur count (run_limits prev cur).1 (run_limits prev cur).2 t bl = Some bl' /\
    counted bl bl' (runs nexts prev cur count).
Proof.
  revert n prev cur count bl. induction nexts as [|x r IH]; intros n prev cur count bl Hc Hl Hn Hcur Hr; cbn [length scan_loop runs].
  { exists bl. split; [done|apply counted_refl]. }
  destruct Hn as [Hx Hn]. apply dlat_aget in Hx as (e & -> & Ee). cbn [mbind option_bind]. rewrite Ee.
  assert (Hx : match r with [] => True | _ => 0 <= x < 16 end).
  { destruct r; [done|]. cbn [removelast] in Hr. by apply Forall_cons in Hr as [? _]. }
  assert (Hr' : Forall (fun x => 0 <= x < 16) (removelast r)).
  { destruct r; [by constructor|]. cbn [removelast] in Hr |- *. by apply Forall_cons in Hr as [_ ?]. }
  destruct ((count + 1 <? (run_limits prev cur).1) && (cur =? x)) eqn:E.
  - apply andb_prop in E as [_ <-%Z.eqb_eq]. apply IH; try done. lia.
  - destruct (scan_flush bl prev cur (count + 1)) as (b1 & -> & C1); [done|lia|done|]. cbn [mbind option_bind].
    destruct (run_limits cur x) as [mx mn] eqn:El.
    destruct (IH (n + 1) cur x 0 b1) as (b2 & E2 & C2); try done; [by rewrite (cd_length _ _ _ C1)|].
    rewrite El in E2. cbn [fst snd] in E2. rewrite E2. exists b2. split; [done|]. by eapply counted_trans.
Qed.

(** One flush of [send_tree]. *)
Section Send.
Context (cl : list Z) (bl : tree) (Hbl : tree_codes bl cl).

Lemma send_repeat_spec n w x bs :
  writer_ok w -> runs_bits cl (replicate n (ROne x)) = Some bs -> nbits w + Z.of_nat (length bs) <= 8 * size w ->
  exists w', send_repeat n w x bl = Some w' /\ emits w w' bs.
Proof.
  revert w bs. induction n as [|n IH]; intros w bs Hw; cbn [replicate runs_bits send_repeat].
  { intros [= <-] _. exists w. split; [done|by apply emits_refl]. }
  intros (b & Hb & (bs' & Hbs & [= <-])%bind_Some)%bind_Some Hr. cbn [run_sym run_tail app] in *. rewrite length_app in Hr.
  destruct (send_code_codes w x bl cl b Hw Hbl Hb) as (w1 & -> & M1); [lia|]. cbn [mbind option_bind].
  destruct (IH w1 bs') as (w2 & -> & M2); [apply M1|done|rewrite (em_nbits _ _ _ M1), (em_size _ _ _ M1); lia|].
  exists w2. split; [done|]. by eapply emits_trans.
Qed.

(** A code followed by extra bits. *)
Lemma send_run w c n v b :
  writer_ok w -> code_bits cl c = Some b -> 0 <= n <= 16 -> 0 <= v < 2 ^ n ->
  nbits w + Z.of_nat (length (b ++ z_bits (Z.to_nat n) v)) <= 8 * size w ->
  exists w', (w ← send_code w c bl; send_bits w v n) = Some w' /\ emits w w' (b ++ z_bits (Z.to_nat n) v).
Proof.
  intros Hw Hb Hn Hv Hr. rewrite length_app, length_z_bits in Hr.
  destruct (send_code_codes w c bl cl b Hw Hbl Hb) as (w1 & -> & M1); [lia|]. cbn [mbind option_bind].
  destruct (send_bits_spec w1 v n) as (w2 & -> & M2); [apply M1|done|done|rewrite (em_nbits _ _ _ M1), (em_size _ _ _ M1); lia|].
  exists w2. split; [done|]. by eapply emits_trans.
Qed.

Lemma send_flush w prev cur count bs :
  writer_ok w -> 0 <= cur < 16 -> 1 <= count <= (run_limits prev cur).1 ->
  runs_bits cl (flush_run prev cur count) = Some bs -> nbits w + Z.of_nat (length bs) <= 8 * size w ->
  exists w', (if count <? (run_limits prev cur).2 then send_repeat (Z.to_nat count) w cur bl
             else if negb (cur =? 0) then
               '(w, count) ← (if negb (cur =? prev) then w ← send_code w cur bl; Some (w, count - 1)
                              else Some (w, count));
               w ← send_code w REP_3_6 bl; send_bits w (count - 3) 2
             else if count <=? 10 then w ← send_code w REPZ_3_10 bl; send_bits w (count - 3) 3
             else w ← send_code w REPZ_11_138 bl; send_bits w (count - 11) 7) = Some w' /\ emits w w' bs.
Proof.
  intros Hw Hcur Hc Hb Hr. unfold flush_run in Hb. unfold run_limits in *.
  destruct (Z.eqb_spec cur 0) as [->|H0]; cbn [fst snd negb] in *.
  - destruct (Z.ltb_spec count 3); [by apply send_repeat_spec|].
    destruct (Z.leb_spec count 10); cbn [runs_bits run_sym run_tail] in Hb;
      apply bind_Some in Hb as (b & Hb & [= <-]).
    + apply (send_run w 17 3 (count - 3) b); try done; lia.
    + apply (send_run w 18 7 (count - 11) b); try done; lia.
  - destruct (Z.eqb_spec prev cur) as [E|E]; cbn [fst snd] in *.
    + destruct (Z.ltb_spec count 3); [by apply send_repeat_spec|]. rewrite E, Z.eqb_refl in *. cbn [negb mbind option_bind] in *.
      cbn [runs_bits run_sym run_tail] in Hb. apply bind_Some in Hb as (b & Hb & [= <-]).
      apply (send_run w 16 2 (count - 3) b); try done; lia.
    + destruct (Z.ltb_spec count 4); [by apply send_repeat_spec|]. destruct (Z.eqb_spec cur prev); [congruence|]. cbn [negb] in *.
      cbn [runs_bits run_sym run_tail] in Hb. apply bind_Some in Hb as (a & Ha & (x & Hx & [= <-])%bind_Some).
      apply bind_Some in Hx as (b & Hb & [= <-]). cbn [app] in *. rewrite length_app in Hr.
      destruct (send_code_codes w cur bl cl a Hw Hbl Ha) as (w1 & -> & M1); [lia|]. cbn [mbind option_bind].
      replace (count - 1 - 3) with (count - 1 - 3) by lia.
      destruct (send_run w1 16 2 (count - 1 - 3) b) as (w2 & E2 & M2); try done; [apply M1|change (2 ^ 2) with 4; lia| |].
      { rewrite (em_nbits _ _ _ M1), (em_size _ _ _ M1), !length_app, length_z_bits in *. cbn [length] in Hr. lia. }
      exists w2. split; [exact E2|]. exact (emits_trans _ _ _ _ _ M1 M2).
Qed.

Lemma send_loop_spec nexts n prev cur count t w bs :
  writer_ok w -> 0 <= count < (run_limits prev cur).1 -> next_lens t n nexts ->
  (match nexts with [] => True | _ => 0 <= cur < 16 end) -> Forall (fun x => 0 <= x < 16) (removelast nexts) ->
  runs_bits cl (runs nexts prev cur count) = Some bs -> nbits w + Z.of_nat (length bs) <= 8 * size w ->
  exists w', send_loop (length nexts) w n prev cur count (run_limits prev cur).1 (run_limits prev cur).2 t bl = Some w' /\
    emits w w' bs.
Proof.
  revert n prev cur count w bs. induction nexts as [|x r IH]; intros n prev cur count w bs Hw Hc Hn Hcur Hr Hb Hroom;
    cbn [length send_loop runs] in *.
  { injection Hb as <-. exists w. split; [done|by apply emits_refl]. }
  destruct Hn as [Hx Hn]. apply dlat_aget in Hx as (e & -> & Ee). cbn [mbind option_bind]. rewrite Ee.
  assert (Hx : match r with [] => True | _ => 0 <= x < 16 end).
  { destruct r; [done|]. cbn [removelast] in Hr. by apply Forall_cons in Hr as [? _]. }
  assert (Hr' : Forall (fun x => 0 <= x < 16) (removelast r)).
  { destruct r; [by constructor|]. cbn [removelast] in Hr |- *. by apply Forall_cons in Hr as [_ ?]. }
  destruct ((count + 1 <? (run_limits prev cur).1) && (cur =? x)) eqn:E.
  - apply andb_prop in E as [E1%Z.ltb_lt <-%Z.eqb_eq]. apply IH; try done. lia.
  - apply runs_bits_split in Hb as (b1 & b2 & Hb1 & Hb2 & ->). rewrite length_app in Hroom.
    destruct (send_flush w prev cur (count + 1) b1) as (w1 & -> & M1); [done|done|lia|done|lia|]. cbn [mbind option_bind].
    destruct (run_limits cur x) as [mx mn] eqn:El. pose proof (limits_pos cur x) as Hpos. rewrite El in Hpos. cbn [fst snd] in Hpos.
    destruct (IH (n + 1) cur x 0 w1 b2) as (w2 & E2 & M2); try done; [apply M1|rewrite El; cbn; lia| |].
    { rewrite (em_nbits _ _ _ M1), (em_size _ _ _ M1). lia. }
    rewrite El in E2. cbn [fst snd] in E2. rewrite E2. exists w2. split; [done|]. by eapply emits_trans.
Qed.
End Send.

(** ** Whole trees *)

Lemma next_lens_intro t n nexts :
  (forall i y, nexts !! i = Some y -> dlat t (n + 1 + Z.of_nat i) = Some y) -> next_lens t n nexts.
Proof.
  revert n. induction nexts as [|x r IH]; intros n H; [done|]. cbn [next_lens]. split.
  - specialize (H 0%nat x eq_refl). by rewrite Z.add_0_r in H.
  - apply IH. intros i y Hi. specialize (H (S i) y Hi). rewrite <- H. f_equal. lia.
Qed.

(** The lengths up to [mc] and the guard after them. *)
Definition guarded (t : tree) (mc : Z) : Prop := dlat t (mc + 1) = Some 65535.

Lemma guarded_lens t mc lens :
  0 <= mc -> mc + 1 < Z.of_nat (length t) -> lens_of t (mc + 1) = lens -> guarded t mc ->
  exists x r, lens = x :: r /\ dlat t 0 = Some x /\ next_lens t 0 (r ++ [65535]) /\ S (length r) = Z.to_nat (mc + 1).
Proof.
  intros Hmc Hlen Hl Hg. pose proof (lens_of_length t (mc + 1) ltac:(lia)) as Hll. rewrite Hl in Hll.
  destruct lens as [|x r]; [cbn in Hll; lia|]. cbn [length] in Hll. exists x, r.
  assert (Hat : forall i y, (x :: r) !! i = Some y -> dlat t (Z.of_nat i) = Some y).
  { intros i y Hi. rewrite <- Hl in Hi. pose proof (lookup_lt_Some _ _ _ Hi) as Hi'. rewrite Hl in Hi'. cbn [length] in Hi'.
    unfold dlat. rewrite <- (aget_lens_of t (mc + 1)) by lia. apply aget_Some. split; [lia|]. by rewrite Nat2Z.id. }
  split; [done|]. split; [by apply (Hat 0%nat)|]. split; [|lia]. apply next_lens_intro. intros i y Hi.
  apply lookup_app_Some in Hi as [Hi|[Hi1 Hi2]].
  - specialize (Hat (S i) y Hi). rewrite <- Hat. f_equal. lia.
  - destruct (i - length r)%nat as [|k] eqn:Ek; [|done]. injection Hi2 as <-. unfold guarded in Hg. rewrite <- Hg. f_equal. lia.
Qed.

Lemma scan_tree_spec (t : tree) mc (bl : tree) lens :
  0 <= mc -> mc + 1 < Z.of_nat (length t) -> lens_of t (mc + 1) = lens -> Forall (fun x => 0 <= x < 16) lens ->
  (19 <= length bl)%nat ->
  exists t' bl', scan_tree t mc bl = Some (t', bl') /\ length t' = length t /\ (forall n, fcat t' n = fcat t n) /\
    (forall n, n <= mc -> dlat t' n = dlat t n) /\ guarded t' mc /\ counted bl bl' (runs_of lens).
Proof.
  intros Hmc Hlen Hl Hf Hbl.
  destruct (set_dl_ok t (mc + 1) 65535) as (t' & Et & El & Hfc & Hd); [lia|by split|].
  assert (Hg : guarded t' mc) by (unfold guarded; by rewrite Hd, Z.eqb_refl).
  assert (Hdl : forall n, n <= mc -> dlat t' n = dlat t n) by (intros n Hn; rewrite Hd; destruct (Z.eqb_spec n (mc + 1)); [lia|done]).
  assert (Hl' : lens_of t' (mc + 1) = lens) by (rewrite <- Hl; apply lens_of_ext; [done|]; intros n Hn; apply Hdl; lia).
  destruct (guarded_lens t' mc lens Hmc ltac:(lia) Hl' Hg) as (x & r & -> & Hx & Hn & Hr).
  apply Forall_cons in Hf as [Hx16 Hf].
  unfold scan_tree. pose proof Hx as Hx0. rewrite Hdl in Hx0 by lia. apply dlat_aget in Hx0 as (e & -> & <-). cbn [mbind option_bind].
  rewrite Et. cbn [mbind option_bind].
  destruct (scan_loop_spec (r ++ [65535]) 0 (-1) (dl e) 0 t' bl) as (bl' & Es & C); try done.
  { by destruct r. }
  { by rewrite removelast_last. }
  assert (El0 : run_limits (-1) (dl e) = if dl e =? 0 then (138, 3) else (7, 4)).
  { unfold run_limits. destruct (dl e =? 0); [done|]. destruct (Z.eqb_spec (-1) (dl e)); [lia|done]. }
  rewrite El0, length_app in Es. replace (length r + length [65535%Z])%nat with (Z.to_nat (mc + 1)) in Es by (cbn [length]; lia).
  exists t', bl'. split; [|done]. destruct (dl e =? 0); cbn [fst snd] in Es; by rewrite Es.
Qed.

Lemma send_tree_spec cl bl (Hbl : tree_codes bl cl) (t : tree) mc w lens bs :
  writer_ok w -> 0 <= mc -> mc + 1 < Z.of_nat (length t) -> lens_of t (mc + 1) = lens -> guarded t mc ->
  Forall (fun x => 0 <= x < 16) lens -> runs_bits cl (runs_of lens) = Some bs ->
  nbits w + Z.of_nat (length bs) <= 8 * size w ->
  exists w', send_tree w t mc bl = Some w' /\ emits w w' bs.
Proof.
  intros Hw Hmc Hlen Hl Hg Hf Hb Hr.
  destruct (guarded_lens t mc lens Hmc ltac:(lia) Hl Hg) as (x & r & -> & Hx & Hn & Hr').
  apply Forall_cons in Hf as [Hx16 Hf]. unfold send_tree.
  apply dlat_aget in Hx as (e & -> & <-). cbn [mbind option_bind].
  pose proof (limits_pos (-1) (dl e)).
  destruct (send_loop_spec cl bl Hbl (r ++ [65535]) 0 (-1) (dl e) 0 t w bs) as (w' & Es & M); try done; [lia| | |].
  { by destruct r. }
  { by rewrite removelast_last. }
  assert (El0 : run_limits (-1) (dl e) = if dl e =? 0 then (138, 3) else (7, 4)).
  { unfold run_limits. destruct (dl e =? 0); [done|]. destruct (Z.eqb_spec (-1) (dl e)); [lia|done]. }
  rewrite El0, length_app in Es. replace (length r + length [65535%Z])%nat with (Z.to_nat (mc + 1)) in Es by (cbn [length]; lia).
  exists w'. split; [|done]. destruct (dl e =? 0); cbn [fst snd] in Es; by rewrite Es.
Qed.
