(* ===== verification/TreesHeader.v ===== *)
(** * The header of a dynamic block (build_bl_tree and send_all_trees)

    The counts, the lengths of the bit length codes in their order up to the
    last one that is in use, and the runs of the two lists of lengths: the
    header of the format. *)
From stdpp Require Import base numbers list.
From Stdlib Require Import ZArith Lia Bool.
From S2P Require Import Prelude Huffman Deflate Trees TreesCodes TreesShape TreesBitlen TreesTables TreesSpec.
From S2P Require Import TreesWriter TreesState TreesSend TreesSyms TreesRle.

Definition hl_of (t : tree) (os : list Z) : list Z := map (fun o => default 0 (dlat t o)) os.

Lemma length_bind_bits n (l : list Z) : length (l ≫= z_bits n) = (n * length l)%nat.
Proof. induction l as [|x l IH]; [cbn; lia|]. rewrite bind_cons, length_app, IH, length_z_bits. cbn [length]. lia. Qed.

Lemma bl_order_range i o : aget bl_order i = Some o -> 0 <= o < 19.
Proof.
  intros [_ H]%aget_Some. assert (Hf : Forall (fun o => 0 <= o < 19) bl_order) by (repeat constructor; lia).
  by apply (Forall_lookup_1 _ _ _ _ Hf H).
Qed.

Lemma lens_of_pad t mc k :
  0 <= mc < k -> k <= Z.of_nat (length t) -> (forall n, mc < n < k -> dlat t n = Some 0) ->
  lens_of t k = lens_of t (mc + 1) ++ replicate (Z.to_nat (k - (mc + 1))) 0.
Proof.
  intros Hm Hk H0. pose proof (lens_of_length t k ltac:(lia)) as L1. pose proof (lens_of_length t (mc + 1) ltac:(lia)) as L2.
  apply list_eq. intros i. destruct (decide (i < length (lens_of t (mc + 1)))%nat) as [Hi|Hi].
  - rewrite lookup_app_l by done. unfold lens_of. rewrite !list_lookup_fmap, !lookup_take_lt by lia. done.
  - rewrite lookup_app_r by lia. destruct (decide (Z.of_nat i < k)) as [Hik|Hik].
    + rewrite lookup_replicate_2 by lia. specialize (H0 (Z.of_nat i) ltac:(lia)). unfold dlat in H0.
      rewrite <- (aget_lens_of t k) in H0 by lia. apply aget_Some in H0 as [_ H0]. by rewrite Nat2Z.id in H0.
    + rewrite (lookup_ge_None_2 (lens_of t k)) by lia. symmetry. apply lookup_ge_None_2. rewrite length_replicate. lia.
Qed.

(** ** [last_blindex] *)

Lemma last_blindex_spec k t :
  (k <= 16)%nat -> (19 <= length t)%nat ->
  exists b, last_blindex k (Z.of_nat k + 2) t = Some b /\ 2 <= b <= Z.of_nat k + 2 /\
    (forall i o, b < i <= Z.of_nat k + 2 -> aget bl_order i = Some o -> dlat t o = Some 0).
Proof.
  intros Hk Hl. induction k as [|k IH]; cbn [last_blindex].
  { exists 2. split; [done|]. split; [lia|]. intros i o Hi. lia. }
  destruct (aget_range bl_order (Z.of_nat (S k) + 2)) as [o Ho]; [cbn [bl_order length]; lia|]. rewrite Ho. cbn [mbind option_bind].
  pose proof (bl_order_range _ _ Ho). destruct (aget_range t o) as [e He]; [lia|]. rewrite He. cbn [mbind option_bind].
  destruct (Z.eqb_spec (dl e) 0) as [E|E]; cbn [negb].
  - destruct IH as (b & Eb & Hb & H0); [lia|]. replace (Z.of_nat (S k) + 2 - 1) with (Z.of_nat k + 2) by lia.
    exists b. split; [done|]. split; [lia|]. intros i o' Hi Ho'. destruct (decide (i = Z.of_nat (S k) + 2)) as [->|].
    + rewrite Ho in Ho'. injection Ho' as <-. unfold dlat. rewrite He. cbn. by rewrite E.
    + apply (H0 i); [lia|done].
  - eexists. split; [reflexivity|]. split; [lia|]. intros i o' Hi. lia.
Qed.

(** Every length from 0 to 15 comes after the first three in the order. *)
Lemma bl_order_low x : 0 <= x < 16 -> exists i, 3 <= i < 19 /\ aget bl_order i = Some x.
Proof.
  intros Hx. assert (H : Forall (fun x => Exists (fun i => aget bl_order i = Some x) (seqZ 3 16)) (seqZ 0 16)).
  { apply (bool_decide_unpack _). vm_compute. exact I. }
  rewrite Forall_forall in H. specialize (H x). rewrite elem_of_seqZ, Exists_exists in H.
  destruct H as (i & Hi & E); [lia|]. apply elem_of_seqZ in Hi. exists i. split; [lia|done].
Qed.

(** ** [send_ranks] *)

Lemma send_ranks_spec k w rank t :
  writer_ok w -> 0 <= rank -> rank + Z.of_nat k <= 19 -> (19 <= length t)%nat ->
  (forall o, 0 <= o < 19 -> exists l, dlat t o = Some l /\ 0 <= l < 8) -> nbits w + 3 * Z.of_nat k <= 8 * size w ->
  exists w', send_ranks k w rank t = Some w' /\
    emits w w' (hl_of t (take k (drop (Z.to_nat rank) bl_order)) ≫= z_bits 3).
Proof.
  intros Hw H0 Hk Hl Hd. revert w rank Hw H0 Hk. induction k as [|k IH]; intros w rank Hw H0 Hk Hr; cbn [send_ranks].
  { exists w. split; [done|by apply emits_refl]. }
  destruct (aget_range bl_order rank) as [o Ho]; [cbn [bl_order length]; lia|]. rewrite Ho. cbn [mbind option_bind].
  pose proof (bl_order_range _ _ Ho) as Hor. destruct (Hd o Hor) as (l & El & Hl8).
  pose proof El as (e & -> & Ee)%dlat_aget. cbn [mbind option_bind]. rewrite Ee.
  destruct (send_bits_spec w l 3) as (w1 & -> & M1); [done|lia|lia|lia|]. cbn [mbind option_bind].
  pose proof (em_nbits _ _ _ M1) as N1. rewrite length_z_bits in N1.
  destruct (IH w1 (rank + 1)) as (w2 & -> & M2); [apply M1|lia|lia|rewrite N1, (em_size _ _ _ M1); lia|].
  exists w2. split; [done|]. apply aget_Some in Ho as [_ Ho]. rewrite (drop_S _ o) by done. cbn [take hl_of map].
  rewrite El, bind_cons. cbn [default]. replace (S (Z.to_nat rank)) with (Z.to_nat (rank + 1)) by lia.
  exact (emits_trans _ _ _ _ _ M1 M2).
Qed.

Lemma hl_clens t cl b :
  cl = lens_of t 19 -> (19 <= length t)%nat -> 2 <= b <= 18 ->
  (forall i o, b < i <= 18 -> aget bl_order i = Some o -> dlat t o = Some 0) ->
  clens_of (hl_of t (take (Z.to_nat (b + 1)) bl_order)) cl.
Proof.
  intros -> Hl Hb H0. pose proof (lens_of_length t 19 ltac:(lia)) as Ll. split; [lia|]. intros i o Ho.
  change clen_order with bl_order in Ho. pose proof (bl_order_range _ _ Ho) as Hor. pose proof (aget_Some_lt _ _ _ Ho) as Hi.
  rewrite aget_lens_of by done. change (option_map dl (aget t o)) with (dlat t o).
  destruct (decide (i <= b)) as [Hib|Hib].
  - assert (E : aget (hl_of t (take (Z.to_nat (b + 1)) bl_order)) i = Some (default 0 (dlat t o))).
    { apply aget_Some in Ho as [H1 Ho]. apply aget_Some. split; [done|]. unfold hl_of.
      rewrite list_lookup_fmap, lookup_take_lt, Ho by lia. done. }
    rewrite E. cbn [default]. destruct (aget_range t o) as [e He]; [lia|]. unfold dlat. by rewrite He.
  - assert (E : aget (hl_of t (take (Z.to_nat (b + 1)) bl_order)) i = None).
    { destruct (aget (hl_of _ _) i) eqn:E; [|done]. apply aget_Some_lt in E. unfold hl_of in E. rewrite length_map, length_take in E. lia. }
    rewrite E. cbn [default]. cbn [bl_order length] in Hi. apply (H0 i o); [lia|done].
Qed.

(** ** The whole header *)

(** A tree of lengths that can be sent. *)
Record sendable (t : tree) (mc : Z) (lens : list Z) : Prop := {
  sd_mc : 0 <= mc; sd_len : mc + 1 < Z.of_nat (length t); sd_lens : lens_of t (mc + 1) = lens;
  sd_guard : guarded t mc; sd_range : Forall (fun x => 0 <= x < 16) lens }.

Lemma send_all_trees_spec w lt dt bt mcl mcd b ll dl cl bsl bsd :
  writer_ok w -> sendable lt mcl ll -> sendable dt mcd dl -> 256 <= mcl <= 285 -> mcd <= 29 -> 3 <= b <= 18 ->
  cl = lens_of bt 19 -> (19 <= length bt)%nat -> tree_codes bt cl -> Forall (fun l => 0 <= l < 8) cl ->
  runs_bits cl (runs_of ll) = Some bsl -> runs_bits cl (runs_of dl) = Some bsd ->
  let h := header_bits (mcl + 1) (mcd + 1) (b + 1) (hl_of bt (take (Z.to_nat (b + 1)) bl_order)) (bsl ++ bsd) in
  nbits w + Z.of_nat (length h) <= 8 * size w ->
  exists w', send_all_trees w lt dt bt (mcl + 1) (mcd + 1) (b + 1) = Some w' /\ emits w w' h.
Proof.
  intros Hw [L1 L2 L3 L4 L5] [D1 D2 D3 D4 D5] Hl Hd Hb Hcl Hbt Hbc Hf Hbl Hbd h Hr. subst h. unfold header_bits in *.
  rewrite !length_app, !length_z_bits in Hr.
  set (hl := hl_of bt (take (Z.to_nat (b + 1)) bl_order)) in *.
  assert (Hhl : length (hl ≫= z_bits 3) = (3 * Z.to_nat (b + 1))%nat).
  { rewrite length_bind_bits. unfold hl, hl_of. rewrite length_map, length_take. cbn [bl_order length]. lia. }
  rewrite Hhl in Hr. unfold send_all_trees.
  destruct (send_bits_spec w (mcl + 1 - 257) 5) as (w1 & -> & M1); [done|lia|lia|lia|]. cbn [mbind option_bind].
  pose proof (em_nbits _ _ _ M1) as N1. rewrite length_z_bits in N1. pose proof (em_size _ _ _ M1) as S1.
  destruct (send_bits_spec w1 (mcd + 1 - 1) 5) as (w2 & -> & M2); [apply M1|lia|lia|lia|]. cbn [mbind option_bind].
  pose proof (em_nbits _ _ _ M2) as N2. rewrite length_z_bits in N2. pose proof (em_size _ _ _ M2) as S2.
  destruct (send_bits_spec w2 (b + 1 - 4) 4) as (w3 & -> & M3); [apply M2|lia|lia|lia|]. cbn [mbind option_bind].
  pose proof (em_nbits _ _ _ M3) as N3. rewrite length_z_bits in N3. pose proof (em_size _ _ _ M3) as S3.
  destruct (send_ranks_spec (Z.to_nat (b + 1)) w3 0 bt) as (w4 & -> & M4); [apply M3|lia|lia|done| |lia|].
  { intros o Ho. destruct (aget_range bt o) as [e He]; [lia|]. exists (Trees.dl e). unfold dlat. rewrite He. split; [done|].
    assert (Hx : aget cl o = Some (Trees.dl e)) by (rewrite Hcl, aget_lens_of by done; by rewrite He).
    apply aget_Some in Hx as [_ Hx]. exact (Forall_lookup_1 _ _ _ _ Hf Hx). }
  cbn [mbind option_bind]. change (drop (Z.to_nat 0) bl_order) with bl_order in M4. fold hl in M4.
  pose proof (em_nbits _ _ _ M4) as N4. rewrite Hhl in N4. pose proof (em_size _ _ _ M4) as S4.
  replace (mcl + 1 - 1) with mcl by lia. replace (mcd + 1 - 1) with mcd in * by lia.
  destruct (send_tree_spec cl bt Hbc lt mcl w4 ll bsl) as (w5 & -> & M5); try done; [apply M4|lia|]. cbn [mbind option_bind].
  pose proof (em_nbits _ _ _ M5) as N5. pose proof (em_size _ _ _ M5) as S5.
  destruct (send_tree_spec cl bt Hbc dt mcd w5 dl bsd) as (w6 & -> & M6); try done; [apply M5|lia|].
  exists w6. split; [done|].
  pose proof (emits_trans _ _ _ _ _ M1 (emits_trans _ _ _ _ _ M2 (emits_trans _ _ _ _ _ M3
    (emits_trans _ _ _ _ _ M4 (emits_trans _ _ _ _ _ M5 M6))))) as M.
  replace (mcl + 1 - 257) with (mcl + 1 - 257) by lia. exact M.
Qed.

Lemma header_intro lt dt bt mcl mcd b ll dl cl bsl bsd :
  sendable lt mcl ll -> sendable dt mcd dl -> 256 <= mcl <= 285 -> mcd <= 29 -> 3 <= b <= 18 ->
  cl = lens_of bt 19 -> (19 <= length bt)%nat -> Forall (fun l => 0 <= l < 8) cl ->
  (forall i o, b < i <= 18 -> aget bl_order i = Some o -> dlat bt o = Some 0) ->
  runs_bits cl (runs_of ll) = Some bsl -> runs_bits cl (runs_of dl) = Some bsd ->
  not_over cl 15 -> codes_left cl 15 = 0 -> aget ll 256 <> Some 0 ->
  not_over ll 15 -> codes_left ll 15 = 0 -> not_over dl 15 -> codes_left dl 15 = 0 ->
  header ll dl (header_bits (mcl + 1) (mcd + 1) (b + 1) (hl_of bt (take (Z.to_nat (b + 1)) bl_order)) (bsl ++ bsd)).
Proof.
  intros [L1 L2 L3 L4 L5] [D1 D2 D3 D4 D5] Hl Hd Hb Hcl Hbt Hf H0 Hbl Hbd Ho Hc H256 Hol Hcll Hod Hcd.
  pose proof (lens_of_length lt (mcl + 1) ltac:(lia)) as El. rewrite L3 in El.
  pose proof (lens_of_length dt (mcd + 1) ltac:(lia)) as Ed. rewrite D3 in Ed.
  set (hl := hl_of bt (take (Z.to_nat (b + 1)) bl_order)).
  assert (Ehl : Z.of_nat (length hl) = b + 1).
  { unfold hl, hl_of. rewrite length_map, length_take. cbn [bl_order length]. lia. }
  exists hl, cl, (bsl ++ bsd). cbv zeta. rewrite El, Ed, Ehl. split; [done|]. split; [lia|]. split; [lia|]. split; [lia|].
  split.
  { apply Forall_lookup. intros i x Hi. unfold hl, hl_of in Hi. rewrite list_lookup_fmap in Hi.
    destruct (take _ bl_order !! i) as [o|] eqn:Eo; [|done]. injection Hi as <-.
    apply lookup_take_Some in Eo as [Eo _].
    pose proof (bl_order_range (Z.of_nat i) o ltac:(apply aget_Some; split; [lia|by rewrite Nat2Z.id])) as Hor.
    destruct (aget_range bt o) as [e He]; [lia|]. unfold dlat. rewrite He. cbn [option_map default].
    assert (Hx : aget cl o = Some (Trees.dl e)) by (rewrite Hcl, aget_lens_of by done; by rewrite He).
    apply aget_Some in Hx as [_ Hx]. exact (Forall_lookup_1 _ _ _ _ Hf Hx). }
  split; [by apply hl_clens; [|lia|lia|]|]. split; [done|]. split; [done|]. split.
  { destruct (runs_of_spec ll [] L5) as [R1 R2]. destruct (runs_of_spec dl ([] ++ ll) D5) as [R3 R4].
    apply (runs_rle cl (runs_of ll ++ runs_of dl)).
    - by apply Forall_app.
    - rewrite runs_expand_app, R2. exact R4.
    - by apply runs_bits_app. }
  split; [done|]. split; split; (done || by left).
Qed.
