(* ===== verification/TreesTally.v ===== *)
(** * The symbols of a block (init_block and _tr_tally)

    [block_inv s ys]: between two blocks and while a block is collected, the
    state holds the symbols [ys] of the current block and their frequencies. *)
From stdpp Require Import base numbers list.
From Stdlib Require Import ZArith Lia Bool.
From S2P Require Import Prelude Huffman Deflate Trees TreesCodes TreesShape TreesBitlen TreesBuild TreesSpec.
From S2P Require Import TreesTables TreesWriter TreesState TreesSend TreesSyms TreesCompress.

(** The codes that a symbol uses. *)
Definition lit_of (y : symbol) : Z := if y.1 =? 0 then y.2 else 257 + default 0 (aget _length_code y.2).
Definition dist_of (y : symbol) : option Z := if y.1 =? 0 then None else d_code (y.1 - 1).

Definition lfreq (ys : list symbol) (n : Z) : Z :=
  Z.of_nat (length (filter (fun y => lit_of y = n) ys)) + (if n =? 256 then 1 else 0).
Definition dfreq (ys : list symbol) (n : Z) : Z :=
  Z.of_nat (length (filter (fun y => dist_of y = Some n) ys)).

Lemma lfreq_snoc ys y n : lfreq (ys ++ [y]) n = lfreq ys n + (if decide (lit_of y = n) then 1 else 0).
Proof. unfold lfreq. rewrite filter_app, length_app, filter_cons. case_decide; cbn [length filter list_filter]; lia. Qed.

Lemma dfreq_snoc ys y n : dfreq (ys ++ [y]) n = dfreq ys n + (if decide (dist_of y = Some n) then 1 else 0).
Proof. unfold dfreq. rewrite filter_app, length_app, filter_cons. case_decide; cbn [length filter list_filter]; lia. Qed.

Lemma lfreq_bound ys n : 0 <= lfreq ys n <= Z.of_nat (length ys) + 1.
Proof. unfold lfreq. pose proof (length_filter (fun y => lit_of y = n) ys). destruct (n =? 256); lia. Qed.

Lemma dfreq_bound ys n : 0 <= dfreq ys n <= Z.of_nat (length ys).
Proof. unfold dfreq. pose proof (length_filter (fun y => dist_of y = Some n) ys). lia. Qed.

Lemma lfreq_elem ys y : y ∈ ys -> 0 < lfreq ys (lit_of y).
Proof.
  intros H. unfold lfreq. assert (Hf : y ∈ filter (fun y' => lit_of y' = lit_of y) ys) by (by apply list_elem_of_filter).
  destruct (filter _ ys); [by apply elem_of_nil in Hf|]. cbn [length]. destruct (lit_of y =? 256); lia.
Qed.

Lemma dfreq_elem ys y j : y ∈ ys -> dist_of y = Some j -> 0 < dfreq ys j.
Proof.
  intros H Hj. unfold dfreq. assert (Hf : y ∈ filter (fun y' => dist_of y' = Some j) ys) by (by apply list_elem_of_filter).
  destruct (filter _ ys); [by apply elem_of_nil in Hf|]. cbn [length]. lia.
Qed.

Lemma lit_of_range y : valid_sym y -> 0 <= lit_of y < 286 /\ lit_of y <> 256.
Proof.
  intros [Hd Hl]. unfold lit_of. destruct (y.1 =? 0); [lia|].
  destruct (length_code_spec y.2 Hl) as (c & -> & Hc & _). cbn [default from_option id]. lia.
Qed.

Lemma dist_of_range y j : valid_sym y -> dist_of y = Some j -> 0 <= j < 30.
Proof.
  intros [Hd Hl]. unfold dist_of. destruct (Z.eqb_spec y.1 0); [done|].
  destruct (d_code_spec (y.1 - 1) ltac:(lia)) as (j' & -> & Hj & _). by intros [= <-].
Qed.

(** ** The state *)

(** The shape of the state, with no word on the frequencies and symbols. *)
Record shape_ok (s : deflate_state) : Prop := {
  sh_l : desc_ok 15 static_l_desc (dyn_ltree s);
  sh_d : desc_ok 15 static_d_desc (dyn_dtree s);
  sh_b : desc_ok 7 static_bl_desc (bl_tree s);
  sh_ls : stat_desc (l_desc s) = static_l_desc;
  sh_ds : stat_desc (d_desc s) = static_d_desc;
  sh_bs : stat_desc (bl_desc s) = static_bl_desc;
  sh_huff : huff_ok (huff s);
  sh_writer : writer_ok (wr s);
  sh_size : size (wr s) = 4 * lit_bufsize s;
  sh_bufsize : 1 <= lit_bufsize s <= 32768;
  sh_end : sym_end s = 3 * (lit_bufsize s - 1) }.

Record block_inv (s : deflate_state) (ys : list symbol) : Prop := {
  bi_shape : shape_ok s;
  bi_lf n : 0 <= n < 286 -> fcat (dyn_ltree s) n = Some (lfreq ys n);
  bi_df n : 0 <= n < 30 -> fcat (dyn_dtree s) n = Some (dfreq ys n);
  bi_bf n : 0 <= n < 19 -> fcat (bl_tree s) n = Some 0;
  bi_syms_ok : Forall valid_sym ys;
  bi_syms : syms_at (pending_buf (wr s)) (lit_bufsize s) ys;
  bi_next : sym_next s = 3 * Z.of_nat (length ys);
  bi_static : static_len (huff s) = 0;
  bi_few : Z.of_nat (length ys) <= lit_bufsize s - 1 }.

(** The bytes sent do not reach the symbols. *)
Definition apart (s : deflate_state) : Prop := nbits (wr s) <= 8 * lit_bufsize s.

(** ** [init_block] *)

Lemma clear_freqs_spec k n t :
  0 <= n -> n + Z.of_nat k <= Z.of_nat (length t) ->
  exists t', clear_freqs k n t = Some t' /\ length t' = length t /\
    forall m, fcat t' m = if (n <=? m) && (m <? n + Z.of_nat k) then Some 0 else fcat t m.
Proof.
  revert n t. induction k as [|k IH]; intros n t Hn Hk; cbn [clear_freqs].
  { exists t. split_and!; try done. intros m. destruct (Z.leb_spec n m), (Z.ltb_spec m (n + Z.of_nat 0)); try done. lia. }
  destruct (set_fc_ok t n 0) as (t1 & -> & El & _ & Hf); [lia|]. cbn [mbind option_bind].
  destruct (IH (n + 1) t1) as (t' & -> & El' & Hz); [lia|lia|]. exists t'. split; [done|]. split; [congruence|].
  intros m. rewrite Hz, Hf.
  destruct (Z.leb_spec (n + 1) m), (Z.ltb_spec m (n + 1 + Z.of_nat k)), (Z.eqb_spec m n), (Z.leb_spec n m),
    (Z.ltb_spec m (n + Z.of_nat (S k))); try done; lia.
Qed.

Lemma fcat_cleared n k (o : option Z) m :
  n <= m < n + k -> (if (n <=? m) && (m <? n + k) then Some 0 else o) = Some 0.
Proof. intros H. destruct (Z.leb_spec n m), (Z.ltb_spec m (n + k)); done || lia. Qed.

Lemma desc_ok_length M st t t' : desc_ok M st t -> length t' = length t -> desc_ok M st t'.
Proof. intros [H1 H2 H3 H4 H5 H6 H7] E. constructor; try done. by rewrite E. Qed.

Lemma init_block_spec s :
  shape_ok s -> exists s', init_block s = Some s' /\ block_inv s' [] /\ wr s' = wr s /\ lit_bufsize s' = lit_bufsize s /\
    level s' = level s /\ strategy s' = strategy s /\ data_type s' = data_type s.
Proof.
  intros [Hl Hd Hb Els Eds Ebs [Hh1 Hh2] Hw Hsz Hbs He]. unfold init_block.
  pose proof (do_tree _ _ _ Hl) as Tl. pose proof (do_tree _ _ _ Hd) as Td. pose proof (do_tree _ _ _ Hb) as Tb.
  cbn [elems static_l_desc static_d_desc static_bl_desc] in Tl, Td, Tb.
  change L_CODES with 286 in *. change D_CODES with 30 in *. change BL_CODES with 19 in *.
  destruct (clear_freqs_spec (Z.to_nat 286) 0 (dyn_ltree s)) as (lt & -> & Ll & Zl); [lia|lia|]. cbn [mbind option_bind].
  destruct (clear_freqs_spec (Z.to_nat 30) 0 (dyn_dtree s)) as (dt & -> & Ld & Zd); [lia|lia|]. cbn [mbind option_bind].
  destruct (clear_freqs_spec (Z.to_nat 19) 0 (bl_tree s)) as (bt & -> & Lb & Zb); [lia|lia|]. cbn [mbind option_bind].
  destruct (set_fc_ok lt END_BLOCK 1) as (lt' & -> & Ll' & _ & Hf); [change END_BLOCK with 256; lia|]. cbn [mbind option_bind].
  eexists. split; [reflexivity|]. split; [|done]. constructor; cbn; try done; try lia.
  - constructor; cbn; try done; (eapply desc_ok_length; [eassumption|congruence]).
  - intros n Hn. unfold dyn_ltree. cbn. rewrite Hf. change END_BLOCK with 256. unfold lfreq. cbn [filter list_filter length].
    destruct (Z.eqb_spec n 256); [done|]. rewrite Zl. apply fcat_cleared. lia.
  - intros n Hn. unfold dyn_dtree. cbn. rewrite Zd. apply fcat_cleared. lia.
  - intros n Hn. unfold bl_tree. cbn. rewrite Zb. apply fcat_cleared. lia.
Qed.

(** ** [_tr_tally] *)

Definition set_sym (s : deflate_state) (buf : list Z) (next : Z) : deflate_state :=
  State (l_desc s) (d_desc s) (bl_desc s) (huff s)
    (Writer buf (pending (wr s)) (bi_buf (wr s)) (bi_valid (wr s)))
    (lit_bufsize s) next (sym_end s) (matches s) (level s) (strategy s) (data_type s).

Lemma put_sym_spec s c :
  0 <= lit_bufsize s + sym_next s < size (wr s) ->
  exists buf, put_sym s c = Some (set_sym s buf (sym_next s + 1)) /\ length buf = length (pending_buf (wr s)) /\
    forall i, aget buf i = if i =? lit_bufsize s + sym_next s then Some (wrap 8 c) else aget (pending_buf (wr s)) i.
Proof.
  intros H. unfold put_sym, size in *.
  destruct (aset_ok (pending_buf (wr s)) (lit_bufsize s + sym_next s) (wrap 8 c)) as (buf & -> & El & Hg); [lia|].
  cbn [mbind option_bind]. exists buf. split_and!; done.
Qed.

(** The three bytes of a symbol. *)
Lemma put_syms_spec s a b c :
  0 <= lit_bufsize s + sym_next s -> lit_bufsize s + sym_next s + 3 <= size (wr s) ->
  exists buf, (s ← put_sym s a; s ← put_sym s b; put_sym s c) = Some (set_sym s buf (sym_next s + 3)) /\
    length buf = length (pending_buf (wr s)) /\
    aget buf (lit_bufsize s + sym_next s) = Some (wrap 8 a) /\
    aget buf (lit_bufsize s + sym_next s + 1) = Some (wrap 8 b) /\
    aget buf (lit_bufsize s + sym_next s + 2) = Some (wrap 8 c) /\
    forall i, i < lit_bufsize s + sym_next s -> aget buf i = aget (pending_buf (wr s)) i.
Proof.
  intros H0 H3. set (p := lit_bufsize s + sym_next s) in *.
  destruct (put_sym_spec s a) as (b1 & -> & L1 & G1); [fold p; lia|]. cbn [mbind option_bind].
  destruct (put_sym_spec (set_sym s b1 (sym_next s + 1)) b) as (b2 & -> & L2 & G2);
    [unfold size in *; cbn [set_sym lit_bufsize sym_next wr pending_buf]; lia|]. cbn [mbind option_bind].
  destruct (put_sym_spec (set_sym (set_sym s b1 (sym_next s + 1)) b2 (sym_next (set_sym s b1 (sym_next s + 1)) + 1)) c) as (b3 & -> & L3 & G3);
    [unfold size in *; cbn [set_sym lit_bufsize sym_next wr pending_buf] in *; lia|].
  cbn [set_sym lit_bufsize sym_next wr pending_buf] in *. fold p in G1.
  replace (lit_bufsize s + (sym_next s + 1)) with (p + 1) in G2 by lia.
  replace (lit_bufsize s + (sym_next s + 1 + 1)) with (p + 2) in G3 by lia.
  exists b3. split; [unfold set_sym; cbn; do 2 f_equal; lia|]. split; [congruence|].
  split_and!; [| |by rewrite G3, Z.eqb_refl|]; intros; rewrite G3, G2, ?G1;
    repeat match goal with |- context [Z.eqb ?x ?y] => destruct (Z.eqb_spec x y) end; try done; lia.
Qed.

Lemma syms_at_snoc buf off ys y :
  syms_at buf off ys ->
  aget buf (off + 3 * Z.of_nat (length ys)) = Some (y.1 mod 256) ->
  aget buf (off + 3 * Z.of_nat (length ys) + 1) = Some (y.1 / 256) ->
  aget buf (off + 3 * Z.of_nat (length ys) + 2) = Some y.2 -> syms_at buf off (ys ++ [y]).
Proof.
  revert off. induction ys as [|x ys IH]; intros off Hs H1 H2 H3; cbn [app syms_at length] in *.
  - rewrite Z.add_0_r in *. done.
  - destruct Hs as (G1 & G2 & G3 & Hs). split_and!; try done. apply IH; [done|..];
      [rewrite <- H1|rewrite <- H2|rewrite <- H3]; f_equal; lia.
Qed.

Lemma syms_at_mono buf buf' off ys k :
  (forall i, i < k -> aget buf' i = aget buf i) -> off + 3 * Z.of_nat (length ys) <= k -> syms_at buf off ys -> syms_at buf' off ys.
Proof.
  revert off. induction ys as [|y ys IH]; intros off H Hk; [done|]. cbn [syms_at length] in *. intros (H1 & H2 & H3 & H4).
  split_and!; [rewrite H by lia; done..|]. apply IH; [done|lia|done].
Qed.

(** The writer does not see the symbols. *)
Lemma set_sym_writer s buf next k :
  writer_ok (wr s) -> pending (wr s) <= k -> length buf = length (pending_buf (wr s)) ->
  (forall i, i < k -> aget buf i = aget (pending_buf (wr s)) i) ->
  writer_ok (wr (set_sym s buf next)) /\ sent (wr (set_sym s buf next)) = sent (wr s) /\
  nbits (wr (set_sym s buf next)) = nbits (wr s) /\ size (wr (set_sym s buf next)) = size (wr s).
Proof.
  intros [O1 O2 O3 O4 O5] Hp El Hg. unfold sent, nbits, size in *. cbn [set_sym wr pending_buf pending bi_buf bi_valid].
  assert (Et : take (Z.to_nat (pending (wr s))) buf = take (Z.to_nat (pending (wr s))) (pending_buf (wr s))).
  { apply list_eq. intros i. destruct (decide (i < Z.to_nat (pending (wr s)))%nat) as [Hi|Hi];
      [|by rewrite !lookup_take_ge by lia]. rewrite !lookup_take_lt by done.
    specialize (Hg (Z.of_nat i) ltac:(lia)). unfold aget in Hg. destruct (Z.leb_spec 0 (Z.of_nat i)); [|lia].
    by rewrite Nat2Z.id in Hg. }
  split; [|rewrite Et, El; done]. constructor; unfold size, nbits; cbn; rewrite ?El, ?Et; done.
Qed.

Lemma add_freq_spec t n f :
  0 <= n < Z.of_nat (length t) -> fcat t n = Some f -> 0 <= f < 65535 ->
  exists t', add_freq t n 1 = Some t' /\ length t' = length t /\
    forall m, fcat t' m = if m =? n then Some (f + 1) else fcat t m.
Proof.
  intros Hn Hf Hb. unfold add_freq. destruct (aget_range t n Hn) as [e He]. rewrite He. cbn [mbind option_bind].
  destruct (set_fc_ok t n (fc e + 1) Hn) as (t' & -> & El & _ & Hg). exists t'. split; [done|]. split; [done|].
  intros m. rewrite Hg. unfold fcat in Hf. rewrite He in Hf. injection Hf as <-.
  destruct (m =? n); [|done]. f_equal. apply Z.mod_small. change (2 ^ 16) with 65536. lia.
Qed.

Lemma wrap8_div d : 0 <= d < 65536 -> wrap 8 (Z.shiftr d 8) = d / 256.
Proof.
  intros H. rewrite Z.shiftr_div_pow2 by lia. apply Z.mod_small. change (2 ^ 8) with 256.
  split; [apply Z.div_pos; lia|apply Z.div_lt_upper_bound; lia].
Qed.

Lemma tr_tally_spec s ys d lc :
  block_inv s ys -> apart s -> valid_sym (d, lc) -> Z.of_nat (length ys) < lit_bufsize s - 1 ->
  exists s', tr_tally s d lc = Some (s', Z.of_nat (length ys) + 1 =? lit_bufsize s - 1) /\
    block_inv s' (ys ++ [(d, lc)]) /\ sent (wr s') = sent (wr s) /\ nbits (wr s') = nbits (wr s) /\
    lit_bufsize s' = lit_bufsize s /\ level s' = level s /\ strategy s' = strategy s /\ data_type s' = data_type s.
Proof.
  intros [Hsh Hlf Hdf Hbf Hv Hs Hn Hfew] Hap Hy Hroom. pose proof Hy as [Hd Hl]. cbn [fst snd] in Hd, Hl.
  pose proof Hsh as [Tl Td Tb Els Eds Ebs Hh Hw Hsz Hbs He].
  pose proof (do_tree _ _ _ Tl) as Ll. pose proof (do_tree _ _ _ Td) as Ld. cbn [elems static_l_desc static_d_desc] in Ll, Ld.
  change L_CODES with 286 in Ll. change D_CODES with 30 in Ld. unfold apart, nbits in Hap.
  pose proof (wo_valid _ Hw) as Hbv. pose proof (wo_pending _ Hw) as Hpd.
  destruct (put_syms_spec s d (Z.shiftr d 8) lc) as (buf & Ep & Elb & G0 & G1 & G2 & G3); [lia|lia|].
  assert (Ep' : forall A (k : deflate_state -> option A),
    (s ← put_sym s d; s ← put_sym s (Z.shiftr d 8); s ← put_sym s lc; k s) = k (set_sym s buf (sym_next s + 3))).
  { intros A k. change (k (set_sym s buf (sym_next s + 3))) with (mbind k (Some (set_sym s buf (sym_next s + 3)))).
    rewrite <- Ep. destruct (put_sym s d); [|done]. cbn [mbind option_bind]. by destruct (put_sym _ _). }
  unfold tr_tally. rewrite Ep'. clear Ep Ep'. set (s1 := set_sym s buf (sym_next s + 3)).
  destruct (set_sym_writer s buf (sym_next s + 3) (lit_bufsize s + sym_next s) Hw) as (W1 & W2 & W3 & W4); [lia|done|done|].
  fold s1 in W1, W2, W3, W4.
  assert (Hs1 : syms_at buf (lit_bufsize s) (ys ++ [(d, lc)])).
  { apply syms_at_snoc; rewrite <- ?Hn; cbn [fst snd].
    - apply syms_at_mono with (pending_buf (wr s)) (lit_bufsize s + sym_next s); [done|lia|done].
    - exact G0. - rewrite G1. by rewrite wrap8_div by lia. - rewrite G2. f_equal. apply Z.mod_small. change (2 ^ 8) with 256. lia. }
  pose proof (lit_of_range (d, lc) Hy) as [Hlo _].
  assert (Hlit : exists lt, add_freq (dyn_ltree s) (lit_of (d, lc)) 1 = Some lt /\ length lt = length (dyn_ltree s) /\
    forall m, 0 <= m < 286 -> fcat lt m = Some (lfreq (ys ++ [(d, lc)]) m)).
  { pose proof (lfreq_bound ys (lit_of (d, lc))).
    destruct (add_freq_spec (dyn_ltree s) (lit_of (d, lc)) (lfreq ys (lit_of (d, lc)))) as (lt & E & El & Hf);
      [lia|apply Hlf; lia|lia|]. exists lt. split; [done|]. split; [done|]. intros m Hm. rewrite Hf, lfreq_snoc.
    destruct (Z.eqb_spec m (lit_of (d, lc))) as [->|Hne]; [by rewrite decide_True|].
    rewrite decide_False by done. rewrite Z.add_0_r. by apply Hlf. }
  destruct Hlit as (lt & Elt & Ellt & Hlf').
  assert (Hend : forall lt' dt' m, let s' := set_trees s1 lt' dt' m in
    length lt' = length (dyn_ltree s) -> length dt' = length (dyn_dtree s) ->
    (forall n, 0 <= n < 286 -> fcat lt' n = Some (lfreq (ys ++ [(d, lc)]) n)) ->
    (forall n, 0 <= n < 30 -> fcat dt' n = Some (dfreq (ys ++ [(d, lc)]) n)) ->
    exists s2, Some (s', sym_next s' =? sym_end s') = Some (s2, Z.of_nat (length ys) + 1 =? lit_bufsize s - 1) /\
      block_inv s2 (ys ++ [(d, lc)]) /\ sent (wr s2) = sent (wr s) /\ nbits (wr s2) = nbits (wr s) /\
      lit_bufsize s2 = lit_bufsize s /\ level s2 = level s /\ strategy s2 = strategy s /\ data_type s2 = data_type s).
  { intros lt' dt' m s' E1 E2 F1 F2. exists s'. split.
    - do 2 f_equal. cbn. rewrite Hn, He.
      destruct (Z.eqb_spec (3 * Z.of_nat (length ys) + 3) (3 * (lit_bufsize s - 1))), (Z.eqb_spec (Z.of_nat (length ys) + 1) (lit_bufsize s - 1)); done || lia.
    - split; [|done]. constructor; cbn; try done.
      + constructor; cbn; try done; [by eapply desc_ok_length|by eapply desc_ok_length|exact (eq_trans W4 Hsz)].
      + apply Forall_app. split; [done|by apply Forall_singleton].
      + rewrite length_app. cbn. lia.
      + rewrite length_app. cbn. lia. }
  destruct (Z.eqb_spec d 0) as [E0|E0].
  - assert (Elo : lit_of (d, lc) = lc) by (unfold lit_of; cbn [fst snd]; rewrite E0; done).
    change (dyn_ltree s1) with (dyn_ltree s). rewrite Elo in Elt. rewrite Elt. cbn [mbind option_bind].
    apply (Hend lt (dyn_dtree s) (matches s)); try done. intros n Hn'. rewrite dfreq_snoc, decide_False.
    + rewrite Z.add_0_r. by apply Hdf.
    + unfold dist_of. cbn [fst snd]. by rewrite E0.
  - destruct (length_code_spec lc Hl) as (c & Ec & Hc & _). destruct (d_code_spec (d - 1) ltac:(lia)) as (j & Ej & Hj & _).
    assert (Ew : wrap 32 (d - 1) = d - 1) by (apply Z.mod_small; change (2 ^ 32) with 4294967296; lia).
    rewrite Ec. cbn [mbind option_bind]. rewrite Ew.
    assert (Elo : lit_of (d, lc) = c + LITERALS + 1).
    { unfold lit_of. cbn [fst snd]. destruct (Z.eqb_spec d 0); [done|]. rewrite Ec. cbn [default from_option id]. change LITERALS with 256. lia. }
    change (dyn_ltree s1) with (dyn_ltree s). rewrite Elo in Elt. rewrite Elt. cbn [mbind option_bind]. rewrite Ej. cbn [mbind option_bind].
    change (dyn_dtree s1) with (dyn_dtree s). pose proof (dfreq_bound ys j).
    destruct (add_freq_spec (dyn_dtree s) j (dfreq ys j)) as (dt & -> & Eld & Hfd); [lia|by apply Hdf|lia|]. cbn [mbind option_bind].
    apply (Hend lt dt); try done. intros n Hn'. rewrite Hfd, dfreq_snoc.
    assert (Edo : dist_of (d, lc) = Some j) by (unfold dist_of; cbn [fst snd]; destruct (Z.eqb_spec d 0); done).
    rewrite Edo. destruct (Z.eqb_spec n j) as [->|Hne]; [by rewrite decide_True|].
    rewrite decide_False by congruence. rewrite Z.add_0_r. by apply Hdf.
Qed.

(** ** The macros of deflate.h *)

Lemma tally_lit_eq s c : 0 <= c < 256 -> tr_tally_lit s c = tr_tally s 0 c.
Proof.
  intros Hc. assert (Ec : wrap 8 c = c) by (apply Z.mod_small; change (2 ^ 8) with 256; lia).
  unfold tr_tally_lit, tr_tally. rewrite Ec. change (Z.shiftr 0 8) with 0. cbn [Z.eqb].
    destruct (put_sym s 0) as [s1|]; [|done]. cbn [mbind option_bind]. destruct (put_sym s1 0) as [s2|]; [|done].
    cbn [mbind option_bind]. destruct (put_sym s2 c) as [s3|]; [|done]. cbn [mbind option_bind].
    by destruct (add_freq (dyn_ltree s3) c 1).
Qed.

Lemma tally_dist_eq s distance length :
  1 <= distance < 2 ^ 16 -> 0 <= length < 256 ->
  tr_tally_dist s distance length =
    '(s', full) ← tr_tally s distance length; Some (set_trees s' (dyn_ltree s') (dyn_dtree s') (matches s), full).
Proof.
  intros Hd Hl. change (2 ^ 16) with 65536 in Hd.
  assert (El : wrap 8 length = length) by (apply Z.mod_small; change (2 ^ 8) with 256; lia).
  assert (Ed : wrap 16 distance = distance) by (apply Z.mod_small; change (2 ^ 16) with 65536; lia).
  assert (E1 : wrap 16 (distance - 1) = distance - 1) by (apply Z.mod_small; change (2 ^ 16) with 65536; lia).
  assert (E2 : wrap 32 (distance - 1) = distance - 1) by (apply Z.mod_small; change (2 ^ 32) with 4294967296; lia).
  unfold tr_tally_dist, tr_tally. rewrite El, Ed, E1, E2. destruct (Z.eqb_spec distance 0); [lia|].
    assert (Hm : forall t x u, put_sym t x = Some u -> matches u = matches t).
    { intros t x u. unfold put_sym. destruct (aset _ _ _); [|done]. by intros [= <-]. }
    destruct (put_sym s distance) as [s1|] eqn:P1; [|done]. cbn [mbind option_bind].
    destruct (put_sym s1 (Z.shiftr distance 8)) as [s2|] eqn:P2; [|done]. cbn [mbind option_bind].
    destruct (put_sym s2 length) as [s3|] eqn:P3; [|done]. cbn [mbind option_bind].
    assert (Em : matches s3 = matches s) by (rewrite (Hm _ _ _ P3), (Hm _ _ _ P2); by apply (Hm _ _ _ P1)).
    destruct (aget _length_code length) as [k|]; [|done]. cbn [mbind option_bind].
    destruct (add_freq (dyn_ltree s3) (k + LITERALS + 1) 1) as [lt|]; [|done]. cbn [mbind option_bind].
    destruct (d_code (distance - 1)) as [j|]; [|done]. cbn [mbind option_bind].
    destruct (add_freq (dyn_dtree s3) j 1) as [dt|]; [|done]. cbn [mbind option_bind]. by rewrite Em.
Qed.

(** The same symbols with another count of matches. *)
Lemma block_inv_matches s ys m : block_inv s ys -> block_inv (set_trees s (dyn_ltree s) (dyn_dtree s) m) ys.
Proof. intros [[Tl Td Tb Els Eds Ebs Hh Hw Hsz Hbs He] Hlf Hdf Hbf Hv Hs Hn Hst Hfew]. constructor; [by constructor|done..]. Qed.

Lemma put_sym_pending s c s' : put_sym s c = Some s' -> pending (wr s') = pending (wr s).
Proof. unfold put_sym. intros (buf & _ & [= <-])%bind_Some. done. Qed.

Lemma tr_tally_pending s d lc s' b : tr_tally s d lc = Some (s', b) -> pending (wr s') = pending (wr s).
Proof.
  unfold tr_tally. intros (s1 & E1 & (s2 & E2 & (s3 & E3 & (s4 & E4 & [= <- <-])%bind_Some)%bind_Some)%bind_Some)%bind_Some.
  rewrite <- (put_sym_pending _ _ _ E1), <- (put_sym_pending _ _ _ E2), <- (put_sym_pending _ _ _ E3).
  destruct (d =? 0).
  - by apply bind_Some in E4 as (lt & _ & [= <-]).
  - apply bind_Some in E4 as (k & _ & (lt & _ & (j & _ & (dt & _ & [= <-])%bind_Some)%bind_Some)%bind_Some). done.
Qed.

(** What a macro does to the state. *)
Record tallied (s s' : deflate_state) (ys : list symbol) : Prop := {
  ta_inv : block_inv s' ys;
  ta_sent : sent (wr s') = sent (wr s);
  ta_nbits : nbits (wr s') = nbits (wr s);
  ta_pending : pending (wr s') = pending (wr s);
  ta_bufsize : lit_bufsize s' = lit_bufsize s;
  ta_level : level s' = level s;
  ta_strategy : strategy s' = strategy s }.

Lemma tally_lit_spec s ys c :
  block_inv s ys -> apart s -> 0 <= c < 256 -> Z.of_nat (length ys) < lit_bufsize s - 1 ->
  exists s', tr_tally_lit s c = Some (s', Z.of_nat (length ys) + 1 =? lit_bufsize s - 1) /\ tallied s s' (ys ++ [(0, c)]).
Proof.
  intros Hi Ha Hc Hr. rewrite tally_lit_eq by done.
  destruct (tr_tally_spec s ys 0 c Hi Ha) as (s' & E & Hi' & Hs & Hn & Hb & Hl & Hst & _); [by split; cbn; lia|done|].
  exists s'. split; [done|]. by constructor; try eapply tr_tally_pending.
Qed.

Lemma tally_dist_spec s ys d lc :
  block_inv s ys -> apart s -> 1 <= d <= 32768 -> 0 <= lc < 256 -> Z.of_nat (length ys) < lit_bufsize s - 1 ->
  exists s', tr_tally_dist s d lc = Some (s', Z.of_nat (length ys) + 1 =? lit_bufsize s - 1) /\ tallied s s' (ys ++ [(d, lc)]).
Proof.
  intros Hi Ha Hd Hc Hr. rewrite tally_dist_eq by (change (2 ^ 16) with 65536; lia).
  destruct (tr_tally_spec s ys d lc Hi Ha) as (s' & E & Hi' & Hs & Hn & Hb & Hl & Hst & _); [by split; cbn; lia|done|].
  rewrite E. cbn [mbind option_bind]. eexists. split; [done|].
  constructor; try done; [by apply block_inv_matches|]. by apply (tr_tally_pending _ _ _ _ _ E).
Qed.
