(* ===== verification/TreesDyn.v ===== *)
(** * The trees of a dynamic block

    [_tr_flush_block] up to the choice of the encoding: after [build_trees]
    every symbol of the block has its codes, and the three trees make a header
    of the format. *)
From stdpp Require Import base numbers list.
From Stdlib Require Import ZArith Lia Bool.
From S2P Require Import Prelude Huffman Deflate Trees TreesCodes TreesShape TreesBitlen TreesBuild TreesSpec.
From S2P Require Import TreesTables TreesWriter TreesState TreesSend TreesSyms TreesCompress TreesRle.
From S2P Require Import TreesHeader TreesTally.

(** ** Codes exist *)

Lemma code_bits_exists lens n l : aget lens n = Some l -> 0 < l -> exists w, code_bits lens n = Some w.
Proof. intros H Hl. unfold code_bits. rewrite H. cbn [mbind option_bind]. destruct (Z.ltb_spec 0 l); [by eexists|lia]. Qed.

Lemma dlat_code t k n l : 0 <= n < k -> dlat t n = Some l -> 0 < l -> exists w, code_bits (lens_of t k) n = Some w.
Proof. intros Hn Hd Hl. apply (code_bits_exists _ _ l); [|done]. by rewrite aget_lens_of. Qed.

Lemma runs_bits_exists cl os :
  (forall o, o ∈ os -> exists w, code_bits cl (run_sym o) = Some w) -> exists bs, runs_bits cl os = Some bs.
Proof.
  induction os as [|o os IH]; intros H; [by eexists|]. destruct (H o ltac:(left)) as [w Hw].
  destruct IH as [bs Hbs]; [intros o' Ho; apply H; by right|]. cbn [runs_bits]. rewrite Hw. cbn [mbind option_bind].
  rewrite Hbs. by eexists.
Qed.

Lemma syms_bits_exists ll dl ys :
  Forall valid_sym ys -> (forall y, y ∈ ys -> exists w, code_bits ll (lit_of y) = Some w) ->
  (forall y j, y ∈ ys -> dist_of y = Some j -> exists w, code_bits dl j = Some w) ->
  exists bs, syms_bits ll dl ys = Some bs.
Proof.
  intros Hv. induction ys as [|[d lc] ys IH]; intros Hl Hd; [by eexists|]. apply Forall_cons in Hv as [Hy Hv].
  destruct IH as [bs Hbs]; [done|intros y Hy'; apply Hl; by right|intros y j Hy'; apply Hd; by right|].
  cbn [syms_bits]. assert (Hb : exists b, sym_bits ll dl (d, lc) = Some b); [|by destruct Hb as [b ->]; rewrite Hbs; eexists].
  destruct (Hl (d, lc) ltac:(left)) as [w Hw]. specialize (Hd (d, lc)).
  unfold sym_bits, lit_of, dist_of in *. cbn [fst snd] in *. destruct Hy as [Hyd Hyl]. cbn [fst snd] in *.
  destruct (Z.eqb_spec d 0); [by eexists|].
  destruct (length_code_spec lc Hyl) as (c & Ec & _). rewrite Ec in *. cbn [mbind option_bind default from_option id] in *. rewrite Hw.
  destruct (d_code_spec (d - 1) ltac:(lia)) as (j & Ej & _). rewrite Ej in *. cbn [mbind option_bind].
  destruct (Hd j ltac:(left) eq_refl) as [w' ->]. by eexists.
Qed.

(** ** How many bits *)

Lemma code_bits_max lens n w k : Forall (fun l => 0 <= l <= k) lens -> code_bits lens n = Some w -> Z.of_nat (length w) <= k.
Proof.
  intros Hf Hw. pose proof Hw as (l & [Hl _] & _)%code_bits_Some. destruct (code_bits_length _ _ _ _ Hw Hl) as [H0 ->].
  apply aget_Some in Hl as [_ Hl]. pose proof (Forall_lookup_1 _ _ _ _ Hf Hl). cbn in *. lia.
Qed.

Lemma runs_bits_max cl os bs :
  Forall (fun l => 0 <= l <= 7) cl -> runs_bits cl os = Some bs -> Z.of_nat (length bs) <= 14 * Z.of_nat (length os).
Proof.
  intros Hf. revert bs. induction os as [|o os IH]; intros bs; cbn [runs_bits]; [by intros [= <-]|].
  intros (w & Hw & (z & Hz & [= <-])%bind_Some)%bind_Some. apply IH in Hz. apply (code_bits_max _ _ _ 7 Hf) in Hw.
  rewrite !length_app. cbn [length]. assert (length (run_tail o) <= 7)%nat; [|lia].
  destruct o; cbn [run_tail length]; rewrite ?length_z_bits; lia.
Qed.

Lemma sym_bits_max ll dl y b :
  valid_sym y -> Forall (fun l => 0 <= l <= 15) ll -> Forall (fun l => 0 <= l <= 15) dl -> sym_bits ll dl y = Some b ->
  Z.of_nat (length b) <= 48.
Proof.
  intros [Hd Hl] Fl Fd. unfold sym_bits. destruct (Z.eqb_spec y.1 0).
  { intros Hw. apply (code_bits_max _ _ _ 15 Fl) in Hw. lia. }
  destruct (length_code_spec y.2 Hl) as (c & -> & _ & _ & Hx & _). destruct (d_code_spec (y.1 - 1) ltac:(lia)) as (j & Ej & _ & _ & Hj & _).
  cbn [mbind option_bind]. rewrite Ej. destruct (code_bits ll (257 + c)) as [a|] eqn:Ea; [|done]. cbn [mbind option_bind].
  destruct (code_bits dl j) as [b'|] eqn:Eb; [|done]. intros [= <-].
  apply (code_bits_max _ _ _ 15 Fl) in Ea. apply (code_bits_max _ _ _ 15 Fd) in Eb. rewrite !length_app, !length_z_bits. lia.
Qed.

Lemma syms_bits_max ll dl ys bs k :
  (forall y b, y ∈ ys -> sym_bits ll dl y = Some b -> Z.of_nat (length b) <= k) -> syms_bits ll dl ys = Some bs ->
  Forall (fun b => Z.of_nat (length b) <= k) bs /\ length bs = length ys.
Proof.
  revert bs. induction ys as [|y ys IH]; intros bs H; cbn [syms_bits]; [by intros [= <-]|].
  intros (b & Hb & (bs' & Hbs & [= <-])%bind_Some)%bind_Some. destruct (IH bs') as [F L]; [intros; eapply H; [by right|done]|done|].
  split; [|cbn; lia]. constructor; [|done]. apply (H y); [left|done].
Qed.

Lemma concat_max (bs : list (list bool)) k :
  Forall (fun b => Z.of_nat (length b) <= k) bs -> Z.of_nat (length (concat bs)) <= k * Z.of_nat (length bs).
Proof. induction 1 as [|b bs Hb _ IH]; [cbn; lia|]. cbn [concat length]. rewrite length_app. lia. Qed.

(** ** The three trees *)

(** The trees of the state hold the codes of a dynamic block of the symbols [ys]. *)
Record dyn_ready (s : deflate_state) (ys : list symbol) (b : Z) (ll dl : list Z) (h e : list bool) (bs : list (list bool)) : Prop := {
  dr_lt : tree_codes (dyn_ltree s) ll;
  dr_dt : tree_codes (dyn_dtree s) dl;
  dr_llr : Forall (fun l => 0 <= l <= 15) ll;
  dr_dlr : Forall (fun l => 0 <= l <= 15) dl;
  dr_syms : syms_bits ll dl ys = Some bs;
  dr_eob : code_bits ll 256 = Some e;
  dr_header : header ll dl h;
  dr_hlen : Z.of_nat (length h) <= 4495;
  dr_send w : writer_ok w -> nbits w + Z.of_nat (length h) <= 8 * size w ->
    exists w', send_all_trees w (dyn_ltree s) (dyn_dtree s) (bl_tree s)
      (max_code (l_desc s) + 1) (max_code (d_desc s) + 1) (b + 1) = Some w' /\ emits w w' h }.

Lemma built_range M t mc : built M t mc -> (M <= 15)%nat -> Forall (fun l => 0 <= l <= 15) (lens_of t (mc + 1)).
Proof. intros [_ Hf _ _ _] HM. eapply Forall_impl; [exact Hf|]. cbn. lia. Qed.

Lemma built_complete15 M t mc : (M <= 15)%nat -> built M t mc -> codes_left (lens_of t (mc + 1)) 15 = 0.
Proof. intros HM [_ Hf Hc _ _]. replace 15%nat with (M + (15 - M))%nat by lia. by apply codes_left_beyond. Qed.

(** Scanning a tree that was built makes it sendable. *)
Lemma scan_built M t mc (bl : tree) E :
  (M <= 15)%nat -> built M t mc -> mc < E -> Z.of_nat (length t) = 2 * E + 1 -> (19 <= length bl)%nat ->
  exists t' bl', scan_tree t mc bl = Some (t', bl') /\ length t' = length t /\
    sendable t' mc (lens_of t (mc + 1)) /\ counted bl bl' (runs_of (lens_of t (mc + 1))) /\ tree_codes t' (lens_of t (mc + 1)).
Proof.
  intros HM Hb Hm Hlen Hbl. pose proof (bt_range _ _ _ Hb) as Hr. pose proof (built_range _ _ _ Hb HM) as Hf.
  assert (Hf16 : Forall (fun x => 0 <= x < 16) (lens_of t (mc + 1))) by (eapply Forall_impl; [exact Hf|]; cbn; lia).
  destruct (scan_tree_spec t mc bl _ ltac:(lia) ltac:(lia) eq_refl Hf16 Hbl) as (t' & bl' & E1 & El & Hfc & Hd & Hg & C).
  assert (El' : lens_of t' (mc + 1) = lens_of t (mc + 1)) by (apply lens_of_ext; [done|]; intros n Hn; apply Hd; lia).
  exists t', bl'. split; [done|]. split; [done|]. split; [constructor; try done; lia|]. split; [done|].
  rewrite <- El'. apply coded_tree_codes; [lia| |by rewrite El'].
  intros n e Hn He Hpos. rewrite El'. apply (bt_codes _ _ _ Hb n); [lia| |done].
  specialize (Hfc n). specialize (Hd n ltac:(lia)). unfold fcat, dlat in *. rewrite He in Hfc, Hd.
  destruct (aget t n) as [e'|]; [|done]. cbn in *. injection Hfc as Ef. injection Hd as Ed. destruct e, e'; cbn in *; congruence.
Qed.

Lemma run_sym_range o : run_ok o -> 0 <= run_sym o < 19.
Proof. destruct o; cbn; lia. Qed.

(** The code of the runs, from the frequencies that [scan_tree] counted. *)
Lemma bl_codes os bt2 bt3 mcb :
  (forall x, 0 <= x < 19 -> fcat bt2 x = Some (uses os x)) -> Forall run_ok os -> built 7 bt3 mcb ->
  serves bt2 bt3 19 mcb -> (forall n, mcb < n < 19 -> dlat bt3 n = Some 0) -> mcb < 19 -> (19 <= length bt3)%nat ->
  let cl := lens_of bt3 19 in
  (forall o, o ∈ os -> exists w, code_bits cl (run_sym o) = Some w) /\
  tree_codes bt3 cl /\ Forall (fun l => 0 <= l <= 7) cl /\ not_over cl 15 /\ codes_left cl 15 = 0.
Proof.
  intros Hu Hok Hb Hs Hz Hm Hl cl. pose proof (bt_range _ _ _ Hb) as Hr.
  assert (Ecl : cl = lens_of bt3 (mcb + 1) ++ replicate (Z.to_nat (19 - (mcb + 1))) 0) by (apply lens_of_pad; [lia|lia|done]).
  assert (Hco : forall n w, code_bits cl n = Some w <-> code_bits (lens_of bt3 (mcb + 1)) n = Some w).
  { intros n w. by rewrite Ecl, code_bits_pad. }
  split_and!.
  - intros o Ho. pose proof (proj1 (Forall_forall _ _) Hok o Ho) as Hro. pose proof (run_sym_range o Hro) as Hrs.
    destruct (Hs (run_sym o) Hrs) as [Hle (l & Hd & Hl0)].
    { rewrite Hu by done. pose proof (uses_elem os o Ho). intros [= E]. lia. }
    destruct (dlat_code bt3 (mcb + 1) (run_sym o) l) as [w Hw]; [lia|done|done|]. exists w. by apply Hco.
  - intros n w Hw. apply Hco in Hw. revert w Hw.
    apply (coded_tree_codes bt3 (mcb + 1)); [lia|apply Hb|apply (built_range 7); [done|lia]].
  - rewrite Ecl. apply Forall_app. split.
    + destruct Hb as [_ Hf _ _ _]. eapply Forall_impl; [exact Hf|]. cbn. lia.
    + apply Forall_replicate. lia.
  - intros l Hl'. rewrite Ecl, codes_left_pad. apply (built_not_over 7); [lia|done|done].
  - rewrite Ecl, codes_left_pad. by apply (built_complete15 7); [lia|].
Qed.

(** One of the lengths 1 to 15 is sent by itself. *)
Lemma runs_one ll :
  Forall (fun x => 0 <= x < 16) ll -> (exists i l, aget ll i = Some l /\ 0 < l) ->
  exists x, 1 <= x < 16 /\ ROne x ∈ runs_of ll.
Proof.
  intros Hf (i & l & Hi & Hl). destruct (runs_of_spec ll [] Hf) as [Hok He].
  destruct (decide (Exists (fun o => 1 <= run_sym o < 16) (runs_of ll))) as [H|H].
  - apply Exists_exists in H as ([x|n|n|n] & Ho & Hx); cbn [run_sym] in Hx; [|lia..]. by exists x.
  - exfalso. assert (Hz : Forall (fun x => x = 0) ll).
    { apply (runs_zero (runs_of ll) []); [|by constructor|by rewrite He]. intros x Hx.
      rewrite Forall_forall in Hok. specialize (Hok _ Hx). cbn [run_ok] in Hok.
      destruct (decide (x = 0)) as [|Hx0]; [done|]. destruct H. apply Exists_exists. exists (ROne x). cbn [run_sym]. split; [done|lia]. }
    apply aget_Some in Hi as [_ Hi]. pose proof (Forall_lookup_1 _ _ _ _ Hz Hi). cbn in *. lia.
Qed.

Lemma blindex_low t b (os : list run) x :
  (forall o, o ∈ os -> exists w, code_bits (lens_of t 19) (run_sym o) = Some w) -> ROne x ∈ os -> 1 <= x < 16 ->
  (19 <= length t)%nat -> 2 <= b -> (forall i o, b < i <= 18 -> aget bl_order i = Some o -> dlat t o = Some 0) -> 3 <= b.
Proof.
  intros Hc Hx Hr Hl Hb H0. destruct (decide (b = 2)) as [->|]; [|lia]. exfalso.
  destruct (bl_order_low x) as (i & Hi & Ei); [lia|]. specialize (H0 i x ltac:(lia) Ei).
  destruct (Hc _ Hx) as [w Hw]. apply code_bits_Some in Hw as (l & [Hl' Hl0] & _). cbn [run_sym] in Hl'.
  rewrite aget_lens_of in Hl' by lia. unfold dlat in H0. rewrite H0 in Hl'. injection Hl' as <-. lia.
Qed.

Lemma build_bl_tree_spec W s ys :
  shape_ok s -> (forall n, 0 <= n < 19 -> fcat (bl_tree s) n = Some 0) ->
  built 15 (dyn_ltree s) (max_code (l_desc s)) -> built 15 (dyn_dtree s) (max_code (d_desc s)) ->
  256 <= max_code (l_desc s) < 286 -> max_code (d_desc s) < 30 -> Forall valid_sym ys ->
  (forall y, y ∈ ys -> exists w, code_bits (lens_of (dyn_ltree s) (max_code (l_desc s) + 1)) (lit_of y) = Some w) ->
  (forall y j, y ∈ ys -> dist_of y = Some j -> exists w, code_bits (lens_of (dyn_dtree s) (max_code (d_desc s) + 1)) j = Some w) ->
  (exists w, code_bits (lens_of (dyn_ltree s) (max_code (l_desc s) + 1)) 256 = Some w) ->
  exists s' b ll dl h e bs, build_bl_tree W s = Some (s', b) /\ shape_ok s' /\ wr s' = wr s /\
    lit_bufsize s' = lit_bufsize s /\ sym_next s' = sym_next s /\ strategy s' = strategy s /\ level s' = level s /\
    (wrap W (static_len (huff s)) = static_len (huff s) -> static_len (huff s') = static_len (huff s)) /\
    dl = lens_of (dyn_dtree s) (max_code (d_desc s) + 1) /\ dyn_ready s' ys b ll dl h e bs.
Proof.
  intros [Tl Td Tb Els Eds Ebs Hh Hw Hsz Hbs He] Hb0 Bl Bd Hml Hmd Hv Hyl Hyd [e Heob].
  pose proof (do_tree _ _ _ Tl) as Ll. pose proof (do_tree _ _ _ Td) as Ld. pose proof (do_tree _ _ _ Tb) as Lb.
  cbn [elems static_l_desc static_d_desc static_bl_desc] in Ll, Ld, Lb.
  change L_CODES with 286 in Ll. change D_CODES with 30 in Ld. change BL_CODES with 19 in Lb.
  set (ll := lens_of (dyn_ltree s) (max_code (l_desc s) + 1)) in *.
  set (dl := lens_of (dyn_dtree s) (max_code (d_desc s) + 1)) in *.
  pose proof (bt_range _ _ _ Bl) as Rl. pose proof (bt_range _ _ _ Bd) as Rd.
  unfold build_bl_tree.
  destruct (scan_built 15 (dyn_ltree s) (max_code (l_desc s)) (bl_tree s) 286) as (lt & bt1 & -> & Elt & Sl & C1 & Cl);
    [lia|done|lia|done|lia|]. cbn [mbind option_bind]. fold ll in Sl, C1, Cl.
  destruct (scan_built 15 (dyn_dtree s) (max_code (d_desc s)) bt1 30) as (dt & bt2 & -> & Edt & Sd & C2 & Cd);
    [lia|done|lia|done|rewrite (cd_length _ _ _ C1); lia|]. cbn [mbind option_bind]. fold dl in Sd, C2, Cd.
  pose proof (counted_trans _ _ _ _ _ C1 C2) as C. set (os := runs_of ll ++ runs_of dl) in *.
  pose proof (sd_range _ _ _ Sl) as Fl16. pose proof (sd_range _ _ _ Sd) as Fd16.
  destruct (runs_of_spec ll [] Fl16) as [Okl _]. destruct (runs_of_spec dl [] Fd16) as [Okd _].
  assert (Hok : Forall run_ok os) by (by apply Forall_app).
  assert (Hlen : forall k, Z.of_nat (length (runs_of k)) <= Z.of_nat (length k)).
  { intros [|x r]; [cbn; lia|]. unfold runs_of. pose proof (runs_length (r ++ [65535]) (-1) x 0 ltac:(lia)) as Hrl. rewrite length_app in Hrl. cbn [length] in Hrl |- *. lia. }
  assert (Hll : Z.of_nat (length ll) <= 286) by (subst ll; rewrite lens_of_length by lia; lia).
  assert (Hld : Z.of_nat (length dl) <= 30) by (subst dl; rewrite lens_of_length by lia; lia).
  assert (Hosl : Z.of_nat (length os) <= 316) by (unfold os; rewrite length_app; pose proof (Hlen ll); pose proof (Hlen dl); lia).
  assert (Hfr : forall x, 0 <= x < 19 -> fcat bt2 x = Some (uses os x)).
  { intros x Hx. rewrite (cd_fc _ _ _ C x 0); [done|by apply Hb0|lia|change (2 ^ 16) with 65536; lia]. }
  pose proof (cd_length _ _ _ C) as Lb2.
  destruct (build_tree_spec W 7 (with_tree (bl_desc s) bt2) (huff s)) as (bd & h3 & -> & Est & Hh3 & Lb3 & Mb & Bb & Sb & Zb & Cost & _).
  { cbn [with_tree stat_desc dyn_tree]. rewrite Ebs. by apply (desc_ok_length 7 _ (bl_tree s)). }
  { done. }
  cbn [with_tree stat_desc dyn_tree] in *. rewrite Ebs in *. cbn [elems static_bl_desc] in *. change BL_CODES with 19 in *.
  cbn [mbind option_bind]. set (bt3 := dyn_tree bd) in *. assert (L3 : length bt3 = 39%nat) by lia.
  destruct (bl_codes os bt2 bt3 (max_code bd) Hfr Hok Bb Sb Zb Mb ltac:(lia)) as (Hex & Cb & Fb & Ob & Kb).
  set (cl := lens_of bt3 19) in *.
  destruct (last_blindex_spec 16 bt3) as (b & Eb & Hb & Hb00); [lia|lia|].
  change (Z.of_nat 16 + 2) with 18 in *. change (Z.to_nat (19 - 3)) with 16%nat. change (19 - 1) with 18.
  rewrite Eb. cbn [mbind option_bind].
  destruct (runs_one ll Fl16) as (x & Hx & Hxo).
  { destruct (bt_last _ _ _ Bl) as (l & Hl & Hl0). exists (max_code (l_desc s)), l. split; [|done]. subst ll. by rewrite aget_lens_of by lia. }
  assert (Hb3 : 3 <= b).
  { apply (blindex_low bt3 b os x); try done; [|lia|lia]. apply elem_of_app. by left. }
  destruct (runs_bits_exists cl (runs_of ll)) as [bsl Hbsl]; [intros o Ho; apply Hex, elem_of_app; by left|].
  destruct (runs_bits_exists cl (runs_of dl)) as [bsd Hbsd]; [intros o Ho; apply Hex, elem_of_app; by right|].
  destruct (syms_bits_exists ll dl ys Hv Hyl Hyd) as [bs Hbs2].
  assert (F8 : Forall (fun l => 0 <= l < 8) cl) by (eapply Forall_impl; [exact Fb|]; cbn; lia).
  set (hd := header_bits (max_code (l_desc s) + 1) (max_code (d_desc s) + 1) (b + 1) (hl_of bt3 (take (Z.to_nat (b + 1)) bl_order)) (bsl ++ bsd)).
  do 2 eexists. exists ll, dl, hd, e, bs. split; [reflexivity|]. split; [|split_and!; try done].
  - constructor; cbn; try done; [by eapply desc_ok_length|by eapply desc_ok_length| |].
    + apply (desc_ok_length 7 _ (bl_tree s)); [done|]. change (length bt3 = length (bl_tree s)). lia.
    + destruct Hh3. by constructor.
  - intros Hwr. cbn [huff set_descs with_lens static_len]. destruct Cost as [_ Cs].
    { intros n Hn. assert (n = 0 \/ n = 1 \/ n = 2) as [-> | [-> | ->]] by lia; by vm_compute. }
    rewrite (Cs Hwr). unfold static_cost. cbn [static_tree static_bl_desc].
    change (sum_over (fun _ => 0) (seqZ 0 19)) with 0. by rewrite Z.add_0_r.
  - constructor; try done.
    + by apply (built_range 15).
    + by apply (built_range 15).
    + apply (header_intro lt dt bt3 _ _ b ll dl cl); try done; try lia.
      * apply code_bits_Some in Heob as (l & [Hl Hl0] & _). intros E0. rewrite E0 in Hl. injection Hl as <-. lia.
      * by apply (built_not_over 15).
      * by apply (built_complete15 15).
      * by apply (built_not_over 15).
      * by apply (built_complete15 15).
    + unfold hd, header_bits. rewrite !length_app, !length_z_bits. apply (runs_bits_max cl _ _ Fb) in Hbsl, Hbsd.
      assert (Hhl : length (hl_of bt3 (take (Z.to_nat (b + 1)) bl_order) ≫= z_bits 3) = (3 * Z.to_nat (b + 1))%nat).
      { rewrite length_bind_bits. unfold hl_of. rewrite length_map, length_take. cbn [bl_order length]. lia. }
      rewrite Hhl. pose proof (Hlen ll). pose proof (Hlen dl). unfold os in Hosl. rewrite length_app in Hosl. lia.
    + intros w Hw' Hr. apply (send_all_trees_spec w lt dt bt3 (max_code (l_desc s)) (max_code (d_desc s)) b ll dl cl); try done; lia.
Qed.
