(* ===== verification/TreesCost.v ===== *)
(** * The bits of a block with the static codes

    [static_len] counts 31 bits at most for a symbol, and 7 for the end of the
    block; [spill] is what the symbols take beyond the 24 bits that they
    occupy in the symbol buffer. *)
From stdpp Require Import base numbers list.
From Stdlib Require Import ZArith Lia Bool.
From S2P Require Import Prelude Huffman Deflate Trees TreesCodes TreesShape TreesBitlen TreesBuild TreesSpec.
From S2P Require Import TreesTables TreesWriter TreesState TreesSend TreesSyms TreesCompress TreesTally TreesDyn.

Lemma wrap_0 w : wrap w 0 = 0.
Proof. done. Qed.

Lemma wrap_nonneg w a : 0 <= a -> 0 <= wrap w a.
Proof.
  intros H. unfold wrap. destruct (Z.leb_spec 0 w); [apply Z.mod_pos_bound; by apply Z.pow_pos_nonneg|].
  by rewrite Z.pow_neg_r, Z.mod_0_r.
Qed.

(** ** Sums over the symbols *)

Definition total {A} (c : A -> Z) (ys : list A) : Z := foldr (fun y a => c y + a) 0 ys.

Lemma total_cons {A} (c : A -> Z) y ys : total c (y :: ys) = c y + total c ys.
Proof. done. Qed.

Lemma total_bound {A} (c : A -> Z) k ys : (forall y, y ∈ ys -> c y <= k) -> total c ys <= k * Z.of_nat (length ys).
Proof.
  induction ys as [|y ys IH]; intros H; [cbn; lia|]. pose proof (H y ltac:(left)).
  pose proof (IH ltac:(intros z Hz; apply H; by right)). rewrite total_cons. cbn [length]. lia.
Qed.

Lemma total_sum {A} (c d : A -> Z) ys : total (fun y => c y + d y) ys = total c ys + total d ys.
Proof. induction ys as [|y ys IH]; [done|]. rewrite !total_cons, IH. lia. Qed.

(** What the codes of the symbols cost, code by code and symbol by symbol. *)
Lemma sum_lfreq c ys :
  (forall y, y ∈ ys -> 0 <= lit_of y < 286) ->
  sum_over (fun n => lfreq ys n * c n) (seqZ 0 286) = total (fun y => c (lit_of y)) ys + c 256.
Proof.
  induction ys as [|y ys IH]; intros H.
  - rewrite (sum_over_ext _ (fun n => if decide (256 = n) then c n else 0)).
    + rewrite sum_over_single; [cbn; lia|apply NoDup_seqZ|apply elem_of_seqZ; lia].
    + intros n _. unfold lfreq. cbn [filter list_filter length]. case_decide; destruct (Z.eqb_spec n 256); lia.
  - rewrite (sum_over_ext _ (fun n => (if decide (lit_of y = n) then c n else 0) + lfreq ys n * c n)).
    + rewrite sum_over_add, IH by (intros z Hz; apply H; by right).
      rewrite sum_over_single; [rewrite total_cons; lia|apply NoDup_seqZ|apply elem_of_seqZ].
      pose proof (H y ltac:(left)). lia.
    + intros n _. unfold lfreq. rewrite filter_cons. case_decide; cbn [length]; lia.
Qed.

Lemma sum_dfreq c ys :
  (forall y j, y ∈ ys -> dist_of y = Some j -> 0 <= j < 30) ->
  sum_over (fun n => dfreq ys n * c n) (seqZ 0 30) = total (fun y => match dist_of y with Some j => c j | None => 0 end) ys.
Proof.
  induction ys as [|y ys IH]; intros H.
  - rewrite (sum_over_ext _ (fun _ => 0)); [|done]. clear. generalize (seqZ 0 30). intros l. by induction l.
  - rewrite (sum_over_ext _ (fun n => (if decide (dist_of y = Some n) then c n else 0) + dfreq ys n * c n)).
    + rewrite sum_over_add, IH by (intros z j Hz; apply H; by right). rewrite total_cons. f_equal.
      destruct (dist_of y) as [j|] eqn:E.
      * rewrite <- (sum_over_single c j (seqZ 0 30)); [|apply NoDup_seqZ|].
        -- apply sum_over_ext. intros n _. repeat case_decide; congruence || done.
        -- apply elem_of_seqZ. pose proof (H y j ltac:(left) E). lia.
      * rewrite (sum_over_ext _ (fun _ => 0)); [|done]. clear. generalize (seqZ 0 30). intros l. by induction l.
    + intros n _. unfold dfreq. rewrite filter_cons. case_decide; cbn [length]; lia.
Qed.

(** ** The static codes *)

Definition lit_bits (n : Z) : Z := len_at static_ltree n + xbits_of static_l_desc n.
Definition dist_bits (n : Z) : Z := len_at static_dtree n + xbits_of static_d_desc n.

Lemma lit_bits_max n : 0 <= n < 286 -> 0 <= lit_bits n <= if n <? 257 then 9 else 13.
Proof.
  intros Hn. assert (H : rows (fun n => (0 <=? lit_bits n) && (lit_bits n <=? if n <? 257 then 9 else 13)) 286 = true)
    by (vm_compute; reflexivity).
  pose proof (rows_spec _ _ n H ltac:(lia)) as Hr. cbv beta in Hr. apply andb_true_iff in Hr as [H1%Z.leb_le H2%Z.leb_le]. done.
Qed.

Lemma dist_bits_max n : 0 <= n < 30 -> 0 <= dist_bits n <= 18.
Proof.
  intros Hn. assert (H : rows (fun n => (0 <=? dist_bits n) && (dist_bits n <=? 18)) 30 = true) by (vm_compute; reflexivity).
  pose proof (rows_spec _ _ n H ltac:(lia)) as Hr. cbv beta in Hr. apply andb_true_iff in Hr as [H1%Z.leb_le H2%Z.leb_le]. done.
Qed.

Lemma lit_bits_eob : lit_bits 256 = 7.
Proof. vm_compute. reflexivity. Qed.

Lemma no_extra_bits : (forall n, 0 <= n < 3 -> xbits_of static_l_desc n = 0) /\ (forall n, 0 <= n < 3 -> xbits_of static_d_desc n = 0).
Proof. split; intros n Hn; assert (n = 0 \/ n = 1 \/ n = 2) as [-> | [-> | ->]] by lia; by vm_compute. Qed.

Lemma static_cost_max s ys :
  block_inv s ys ->
  0 <= sum_over (static_cost static_l_desc (dyn_ltree s)) (seqZ 0 286) /\
  0 <= sum_over (static_cost static_d_desc (dyn_dtree s)) (seqZ 0 30) /\
  sum_over (static_cost static_l_desc (dyn_ltree s)) (seqZ 0 286) +
  sum_over (static_cost static_d_desc (dyn_dtree s)) (seqZ 0 30) <= 31 * Z.of_nat (length ys) + 7.
Proof.
  intros Hi. pose proof (bi_syms_ok _ _ Hi) as Hv. rewrite Forall_forall in Hv.
  assert (El : sum_over (static_cost static_l_desc (dyn_ltree s)) (seqZ 0 286) = sum_over (fun n => lfreq ys n * lit_bits n) (seqZ 0 286)).
  { apply sum_over_ext. intros n Hn%elem_of_seqZ. unfold static_cost, bit_cost, freq_at. cbn [static_tree static_l_desc].
    rewrite (bi_lf _ _ Hi) by lia. done. }
  assert (Ed : sum_over (static_cost static_d_desc (dyn_dtree s)) (seqZ 0 30) = sum_over (fun n => dfreq ys n * dist_bits n) (seqZ 0 30)).
  { apply sum_over_ext. intros n Hn%elem_of_seqZ. unfold static_cost, bit_cost, freq_at. cbn [static_tree static_d_desc].
    rewrite (bi_df _ _ Hi) by lia. done. }
  rewrite El, Ed. split; [|split].
  - eapply (sum_over_bound _ ((Z.of_nat (length ys) + 1) * 13)). intros n Hn%elem_of_seqZ. pose proof (lfreq_bound ys n).
    pose proof (lit_bits_max n ltac:(lia)). destruct (n <? 257); nia.
  - eapply (sum_over_bound _ (Z.of_nat (length ys) * 18)). intros n Hn%elem_of_seqZ. pose proof (dfreq_bound ys n).
    pose proof (dist_bits_max n ltac:(lia)). nia.
  - rewrite sum_lfreq, sum_dfreq, lit_bits_eob by (intros; eapply dist_of_range || (apply lit_of_range); eauto).
    rewrite (Z.add_comm _ 7), <- Z.add_assoc, <- total_sum.
    assert (Hb : forall y, y ∈ ys -> lit_bits (lit_of y) + match dist_of y with Some j => dist_bits j | None => 0 end <= 31); [|].
    { intros y Hy. specialize (Hv y Hy). pose proof (lit_bits_max (lit_of y) ltac:(by apply lit_of_range)) as Hlm.
      destruct (dist_of y) as [j|] eqn:Ej; [|destruct (lit_of y <? 257); lia].
      pose proof (dist_bits_max j (dist_of_range y j Hv Ej)). destruct (lit_of y <? 257); lia. }
    pose proof (total_bound _ 31 ys Hb). lia.
Qed.

(** ** The symbol buffer *)

(** The bits of the symbols beyond 24 for each. *)
Definition spill (bs : list (list bool)) : Z := total (fun b => Z.max 0 (Z.of_nat (length b) - 24)) bs.

Lemma spill_nonneg bs : 0 <= spill bs.
Proof. induction bs as [|b bs IH]; [done|]. unfold spill in *. rewrite total_cons. lia. Qed.

(** The writer stays behind the reader when there is room for the spill. *)
Lemma keeps_behind_spill nb off bs : nb + spill bs <= 8 * off -> keeps_behind nb off bs.
Proof.
  revert nb off. induction bs as [|b bs IH]; intros nb off; [done|]. cbn [keeps_behind].
  pose proof (spill_nonneg bs) as Hs. unfold spill in Hs |- *. rewrite total_cons. fold (spill bs) in *. intros H.
  split; [lia|]. apply IH. lia.
Qed.

Lemma spill_length bs : Z.of_nat (length (concat bs)) <= 24 * Z.of_nat (length bs) + spill bs.
Proof.
  induction bs as [|b bs IH]; [done|]. unfold spill in *. rewrite total_cons. cbn [concat length]. rewrite length_app. lia.
Qed.

(** What the symbols may spill: 24 bits for a match, unless all are at distance 1. *)
Definition near (ys : list symbol) : bool := forallb (fun y => y.1 <=? 1) ys.
Definition matches_of (ys : list symbol) : Z := total (fun y => if y.1 =? 0 then 0 else 1) ys.
Definition may_spill (ys : list symbol) : Z := if near ys then 0 else 24 * matches_of ys.

Lemma spill_max (c : symbol -> Z) ll dl ys bs :
  (forall y b, y ∈ ys -> sym_bits ll dl y = Some b -> Z.of_nat (length b) <= 24 + c y) -> (forall y, y ∈ ys -> 0 <= c y) ->
  syms_bits ll dl ys = Some bs -> spill bs <= total c ys /\ length bs = length ys.
Proof.
  revert bs. induction ys as [|y ys IH]; intros bs H Hc; cbn [syms_bits]; [by intros [= <-]|].
  intros (b & Hb & (bs' & Hbs & [= <-])%bind_Some)%bind_Some. pose proof (H y b ltac:(left) Hb). pose proof (Hc y ltac:(left)).
  destruct (IH bs') as [Hs Hl]; [intros; eapply H; [by right|done]|intros; apply Hc; by right|done|].
  unfold spill in *. rewrite !total_cons. cbn [length]. lia.
Qed.

Lemma total_matches ys : total (fun y : symbol => if y.1 =? 0 then 0 else 24) ys = 24 * matches_of ys.
Proof.
  unfold matches_of. induction ys as [|y ys IH]; [done|]. rewrite !total_cons, IH. destruct (y.1 =? 0); lia.
Qed.

(** With the code of the distance 1 in one bit, a match at that distance has 21 bits at most. *)
Lemma near_bits ll dl y b :
  valid_sym y -> y.1 <= 1 -> Forall (fun l => 0 <= l <= 15) ll -> (y.1 <> 0 -> aget dl 0 = Some 1) -> sym_bits ll dl y = Some b ->
  Z.of_nat (length b) <= 24.
Proof.
  intros [Hd Hl] H1 Fl Fd. unfold sym_bits. destruct (Z.eqb_spec y.1 0).
  { intros Hw. apply (code_bits_max _ _ _ 15 Fl) in Hw. lia. }
  destruct (length_code_spec y.2 Hl) as (c & -> & _ & _ & Hx & _). replace (y.1 - 1) with 0 by lia.
  change (d_code 0) with (Some 0). cbn [mbind option_bind]. destruct (code_bits ll (257 + c)) as [a|] eqn:Ea; [|done].
  cbn [mbind option_bind]. destruct (code_bits dl 0) as [b'|] eqn:Eb; [|done]. intros [= <-].
  apply (code_bits_max _ _ _ 15 Fl) in Ea. apply code_bits_Some in Eb as (l & [Hl0 Hl1] & ->).
  rewrite Fd in Hl0 by done. injection Hl0 as <-. change (dist_extra 0) with 0. rewrite !length_app, !length_z_bits.
  rewrite length_msb_bits. cbn [length]. lia.
Qed.

Lemma dynamic_spill ll dl ys bs :
  Forall valid_sym ys -> Forall (fun l => 0 <= l <= 15) ll -> Forall (fun l => 0 <= l <= 15) dl ->
  (near ys = true -> (exists y, y ∈ ys /\ y.1 <> 0) -> aget dl 0 = Some 1) -> syms_bits ll dl ys = Some bs ->
  spill bs <= may_spill ys /\ length bs = length ys.
Proof.
  intros Hv Fl Fd H1 Hb. rewrite Forall_forall in Hv. unfold may_spill. destruct (near ys) eqn:Hn.
  - destruct (spill_max (fun _ => 0) ll dl ys bs) as [Hs Hl]; [|done|done|].
    + intros y b Hy. unfold near in Hn. rewrite forallb_forall in Hn. pose proof (Hn y ltac:(by apply list_elem_of_In)) as Hle%Z.leb_le.
      intros E. pose proof (near_bits ll dl y b (Hv y Hy) Hle Fl) as Hnb. specialize (Hnb ltac:(intros Hy0; apply H1; [done|by exists y]) E). lia.
    + split; [|done]. assert (total (fun _ : symbol => 0) ys = 0) by (clear; induction ys as [|y ys IH]; [done|by rewrite total_cons, IH]). lia.
  - rewrite <- total_matches. apply (spill_max _ ll dl); [|intros y _; destruct (y.1 =? 0); lia|done].
    intros y b Hy E. destruct (Z.eqb_spec y.1 0) as [E0|E0].
    + unfold sym_bits in E. rewrite (proj2 (Z.eqb_eq _ _) E0) in E. apply (code_bits_max _ _ _ 15 Fl) in E. lia.
    + pose proof (sym_bits_max ll dl y b (Hv y Hy) Fl Fd E). lia.
Qed.
