(* ===== verification/TreesBlock.v ===== *)
(** * Blocks (_tr_stored_block, _tr_align, _tr_flush_block)

    Whatever encoding [_tr_flush_block] chooses, the bits it sends are a block
    of the format that expands to what the symbols stand for. *)
From stdpp Require Import base numbers list.
From Stdlib Require Import ZArith Lia Bool.
From S2P Require Import Prelude Huffman Deflate Trees TreesCodes TreesShape TreesBitlen TreesBuild TreesSpec TreesTables.
From S2P Require Import TreesWriter TreesState TreesSend TreesSyms TreesCompress TreesRle TreesHeader TreesTally TreesDyn TreesCost TreesDetect.

(** A block with its header, at the position [pos] of the bit stream. *)
Definition segment (pos : Z) (last : bool) (out : list Z) (w : list bool) (out' : list Z) : Prop :=
  exists ty v, w = last :: z_bits 2 ty ++ v /\ 0 <= ty < 3 /\
    forall rest, (pos + Z.of_nat (length w) + Z.of_nat (length rest)) mod 8 = 0 -> block ty out (v ++ rest) out' rest.

(** The three bits in front of a block. *)
Lemma type_bits ty last :
  0 <= ty < 3 -> 0 <= last <= 1 -> z_bits 3 (Z.shiftl ty 1 + last) = (last =? 1) :: z_bits 2 ty /\ 0 <= Z.shiftl ty 1 + last < 2 ^ 3.
Proof.
  intros Ht Hl. assert (ty = 0 \/ ty = 1 \/ ty = 2) as [-> | [-> | ->]] by lia;
    assert (last = 0 \/ last = 1) as [-> | ->] by lia; (split; [done|by vm_compute]).
Qed.

Lemma send_type w ty last :
  writer_ok w -> 0 <= ty < 3 -> 0 <= last <= 1 -> nbits w + 3 <= 8 * size w ->
  exists w', send_bits w (Z.shiftl ty 1 + last) 3 = Some w' /\ emits w w' ((last =? 1) :: z_bits 2 ty).
Proof.
  intros Hw Ht Hl Hr. destruct (type_bits ty last Ht Hl) as [E Hb].
  destruct (send_bits_spec w (Z.shiftl ty 1 + last) 3) as (w' & Es & M); [done|lia|done|done|].
  exists w'. split; [done|]. rewrite <- E. exact M.
Qed.

(** ** Stored blocks *)

Lemma lnot16 n : 0 <= n < 2 ^ 16 -> wrap 16 (Z.lnot n) = 65535 - n.
Proof.
  intros H. unfold wrap. change (2 ^ 16) with 65536 in *. unfold Z.lnot. replace (Z.pred (- n)) with (65535 - n + (-1) * 65536) by lia. rewrite Z.mod_add by lia.
  apply Z.mod_small. lia.
Qed.

Lemma tr_stored_block_spec w buf n last :
  writer_ok w -> 0 <= last <= 1 -> 0 <= n < 2 ^ 16 -> n <= Z.of_nat (length buf) ->
  Forall is_byte (take (Z.to_nat n) buf) -> nbits w + 8 * n + 42 <= 8 * size w ->
  exists w' k, tr_stored_block w buf n last = Some w' /\
    emits w w' ((last =? 1) :: z_bits 2 0 ++ replicate k false ++ stored_bits (take (Z.to_nat n) buf)) /\
    bi_valid w' = 0 /\ (k < 8)%nat /\ (nbits w + 3 + Z.of_nat k) mod 8 = 0.
Proof.
  intros Hw Hl Hn Hb Hf Hr. unfold tr_stored_block, read_bytes.
  destruct (send_type w STORED_BLOCK last) as (w1 & -> & M1); [done|change STORED_BLOCK with 0; lia|done|lia|]. cbn [mbind option_bind].
  pose proof (em_nbits _ _ _ M1) as N1. cbn [length] in N1. rewrite length_z_bits in N1. pose proof (em_size _ _ _ M1) as S1.
  destruct (bi_windup_spec w1) as (w2 & k & -> & M2 & V2 & Hk & Hal); [apply M1|]. cbn [mbind option_bind].
  pose proof (em_nbits _ _ _ M2) as N2. rewrite length_replicate in N2. pose proof (em_size _ _ _ M2) as S2.
  assert (Ew : wrap 16 n = n) by (by apply Z.mod_small). rewrite Ew.
  unfold nbits in N2. rewrite V2 in N2.
  destruct (put_short_emits w2 n) as (w3 & -> & M3 & V3); [apply M2|done|unfold nbits in *; lia|done|]. cbn [mbind option_bind].
  pose proof (em_nbits _ _ _ M3) as N3. rewrite length_z_bits in N3. pose proof (em_size _ _ _ M3) as S3.
  unfold nbits in N3. rewrite V2, V3 in N3. rewrite lnot16 by done. change (2 ^ 16) with 65536 in Hn.
  destruct (put_short_emits w3 (65535 - n)) as (w4 & -> & M4 & V4); [apply M3|done|unfold nbits in *; lia|change (2 ^ 16) with 65536; lia|].
  cbn [mbind option_bind]. pose proof (em_nbits _ _ _ M4) as N4. rewrite length_z_bits in N4. pose proof (em_size _ _ _ M4) as S4.
  unfold nbits in N4. rewrite V3, V4 in N4. destruct (Z.leb_spec n (Z.of_nat (length buf))); [|lia]. cbn [mbind option_bind].
  assert (Ln : Z.of_nat (length (take (Z.to_nat n) buf)) = n) by (rewrite length_take; lia).
  destruct (put_bytes_emits (take (Z.to_nat n) buf) w4) as (w5 & -> & M5 & V5); [apply M4|done|unfold nbits in *; lia|done|].
  exists w5, k. split; [done|]. split; [|split; [done|split; [done|]]].
  - unfold stored_bits. rewrite Ln.
    pose proof (emits_trans _ _ _ _ _ M1 (emits_trans _ _ _ _ _ M2 (emits_trans _ _ _ _ _ M3 (emits_trans _ _ _ _ _ M4 M5)))) as M.
    cbn [app] in M |- *. exact M.
  - rewrite N1 in Hal. by replace (nbits w + 3 + Z.of_nat k) with (nbits w + Z.of_nat 3 + Z.of_nat k) by lia.
Qed.

Lemma stored_segment pos last out k data :
  (k < 8)%nat -> (pos + 3 + Z.of_nat k) mod 8 = 0 -> Forall is_byte data -> Z.of_nat (length data) < 2 ^ 16 ->
  segment pos last out (last :: z_bits 2 0 ++ replicate k false ++ stored_bits data) (out ++ data).
Proof.
  intros Hk Hal Hf Hl. exists 0, (replicate k false ++ stored_bits data). split; [done|]. split; [lia|]. intros rest Hr.
  rewrite <- app_assoc. apply block_stored; try done; [by rewrite length_replicate|].
  unfold stored_bits in Hr. cbn [length] in Hr. rewrite !length_app, !length_z_bits, length_replicate, length_bytes_bits in Hr.
  cbn [length] in Hr. apply Nat2Z.inj. rewrite Nat2Z.inj_mod. change (Z.of_nat 8) with 8. change (Z.of_nat 0) with 0.
  apply Z.mod_divide in Hal, Hr; try done. apply Z.mod_divide; [done|]. destruct Hal as [a Ha], Hr as [b Hb].
  exists (b - a - 4 - Z.of_nat (length data)). lia.
Qed.

(** ** Fixed and dynamic blocks *)

Lemma fixed_segment pos last out w ts out' :
  coded fixed_ll fixed_dl ts w -> expand out ts = Some out' -> segment pos last out (last :: z_bits 2 1 ++ w) out'.
Proof.
  intros Hc Hx. exists 1, w. split; [done|]. split; [lia|]. intros rest _. by apply block_fixed with ts.
Qed.

Lemma dynamic_segment pos last out ll dl h w ts out' :
  header ll dl h -> coded ll dl ts w -> expand out ts = Some out' -> segment pos last out (last :: z_bits 2 2 ++ h ++ w) out'.
Proof.
  intros Hh Hc Hx. exists 2, (h ++ w). split; [done|]. split; [lia|]. intros rest _. rewrite <- app_assoc.
  by apply block_dynamic with ll dl ts.
Qed.

(** The fixed codes have at most 31 bits for a symbol. *)
Lemma fixed_codes_exist ys : Forall valid_sym ys -> exists bs, syms_bits fixed_ll fixed_dl ys = Some bs /\
  Forall (fun b => Z.of_nat (length b) <= 31) bs /\ length bs = length ys.
Proof.
  intros Hv.
  assert (Hl : rows (fun n => match code_bits fixed_ll n with Some w => (Z.of_nat (length w) <=? if n <? 257 then 9 else 8) | None => false end) 286 = true)
    by (vm_compute; reflexivity).
  assert (Hd : rows (fun n => match code_bits fixed_dl n with Some w => (length w <=? 5)%nat | None => false end) 30 = true)
    by (vm_compute; reflexivity).
  assert (Hl' : forall n, 0 <= n < 286 -> exists w, code_bits fixed_ll n = Some w /\ Z.of_nat (length w) <= (if n <? 257 then 9 else 8)).
  { intros n Hn. pose proof (rows_spec _ _ n Hl ltac:(lia)) as H. cbv beta in H. destruct (code_bits fixed_ll n) as [w|]; [|done].
    exists w. split; [done|]. by apply Z.leb_le. }
  assert (Hd' : forall n, 0 <= n < 30 -> exists w, code_bits fixed_dl n = Some w /\ (length w <= 5)%nat).
  { intros n Hn. pose proof (rows_spec _ _ n Hd ltac:(lia)) as H. cbv beta in H. destruct (code_bits fixed_dl n) as [w|]; [|done].
    exists w. split; [done|]. by apply Nat.leb_le. }
  clear Hl Hd. destruct (syms_bits_exists fixed_ll fixed_dl ys Hv) as [bs Hbs].
  - intros y Hy. rewrite Forall_forall in Hv. destruct (lit_of_range y (Hv y Hy)) as [Hr _].
    destruct (Hl' _ Hr) as (w & Hw & _). by exists w.
  - intros y j Hy Hj. rewrite Forall_forall in Hv. destruct (Hd' j (dist_of_range y j (Hv y Hy) Hj)) as (w & Hw & _). by exists w.
  - exists bs. split; [done|]. apply (syms_bits_max fixed_ll fixed_dl ys); [|done]. intros y b Hy. rewrite Forall_forall in Hv.
    destruct (Hv y Hy) as [Hyd Hyl]. unfold sym_bits. destruct (Z.eqb_spec y.1 0).
    + destruct (Hl' y.2) as (w & Hw & Hlen); [lia|]. rewrite Hw. intros [= <-]. destruct (y.2 <? 257); lia.
    + destruct (length_code_spec y.2 Hyl) as (c & -> & Hc & _ & Hx & _). destruct (d_code_spec (y.1 - 1) ltac:(lia)) as (j & Ej & Hj & _ & Hxj & _).
      cbn [mbind option_bind]. rewrite Ej. destruct (Hl' (257 + c)) as (a & -> & Ha); [lia|]. cbn [mbind option_bind].
      destruct (Hd' j Hj) as (b' & -> & Hb'). intros [= <-]. rewrite !length_app, !length_z_bits.
      destruct (Z.ltb_spec (257 + c) 257); lia.
Qed.

Lemma fixed_eob : code_bits fixed_ll 256 = Some (replicate 7 false).
Proof. vm_compute. reflexivity. Qed.

Lemma tr_align_spec w :
  writer_ok w -> nbits w + 10 <= 8 * size w ->
  exists w', tr_align w = Some w' /\ emits w w' (false :: z_bits 2 1 ++ replicate 7 false) /\ bi_valid w' < 8.
Proof.
  intros Hw Hr. unfold tr_align. replace (Z.shiftl STATIC_TREES 1) with (Z.shiftl 1 1 + 0) by done.
  destruct (send_type w 1 0) as (w1 & -> & M1); [done|lia|lia|lia|]. cbn [mbind option_bind].
  pose proof (em_nbits _ _ _ M1) as N1. cbn [length] in N1. rewrite length_z_bits in N1.
  destruct (send_code_codes w1 END_BLOCK static_ltree fixed_ll (replicate 7 false)) as (w2 & -> & M2);
    [apply M1|apply static_ltree_codes|apply fixed_eob|rewrite (em_size _ _ _ M1), length_replicate; lia|]. cbn [mbind option_bind].
  destruct (bi_flush_spec w2) as (w3 & -> & M3 & V3); [apply M2|]. exists w3. split; [done|]. split; [|done].
  pose proof (emits_trans _ _ _ _ _ M1 (emits_trans _ _ _ _ _ M2 M3)) as M. by rewrite app_nil_r in M.
Qed.

(** ** [_tr_flush_block] *)

Lemma freq_nonzero f : 0 < f -> Some f <> Some 0.
Proof. intros H [= E]. lia. Qed.

Lemma build_trees_spec W s ys :
  block_inv s ys ->
  exists s' ob sb b ll dl h e bs, build_trees W s = Some (s', ob, sb, b) /\ shape_ok s' /\ wr s' = wr s /\
    lit_bufsize s' = lit_bufsize s /\ sym_next s' = sym_next s /\ strategy s' = strategy s /\ level s' = level s /\
    (strategy s = Z_FIXED -> ob = sb) /\ ob <= sb /\ 8 * sb <= 31 * Z.of_nat (length ys) + 17 /\
    (spill bs <= may_spill ys /\ length bs = length ys) /\ dyn_ready s' ys b ll dl h e bs.
Proof.
  intros Hi. destruct (static_cost_max s ys Hi) as (Cl & Cd & Cld).
  destruct Hi as [[Tl Td Tb Els Eds Ebs Hh Hw Hsz Hbs He] Hlf Hdf Hbf Hv Hs Hn Hst Hfew]. unfold build_trees.
  pose proof (do_tree _ _ _ Tl) as Ll. pose proof (do_tree _ _ _ Td) as Ld. cbn [elems static_l_desc static_d_desc] in Ll, Ld.
  change L_CODES with 286 in *. change D_CODES with 30 in *.
  assert (Hty : exists ty, (if data_type s =? Z_UNKNOWN then ty ← detect_data_type (dyn_ltree s); Some (set_data_type s ty) else Some s)
    = Some (set_data_type s ty)).
  { destruct (data_type s =? Z_UNKNOWN); [|exists (data_type s); by destruct s].
    destruct (detect_spec (dyn_ltree s)) as (ty & -> & _); [lia|]. by exists ty. }
  destruct Hty as [ty ->]. cbn [mbind option_bind]. set (s0 := set_data_type s ty).
  destruct (build_tree_spec W 15 (l_desc s0) (huff s0)) as (ld & h1 & -> & El1 & Hh1 & Len1 & M1 & B1 & Sv1 & _ & Cost1 & _).
  { change (l_desc s0) with (l_desc s). rewrite Els. exact Tl. } { done. }
  change (l_desc s0) with (l_desc s) in *. rewrite Els in *. cbn [mbind option_bind elems static_l_desc] in *. change L_CODES with 286 in *.
  destruct (build_tree_spec W 15 (d_desc (set_descs s0 ld (d_desc s0) (bl_desc s0) h1)) h1)
    as (dd & h2 & E2 & El2 & Hh2 & Len2 & M2 & B2 & Sv2 & _ & Cost2 & Lone2).
  { change (desc_ok 15 (stat_desc (d_desc s)) (dyn_dtree s)). by rewrite Eds. } { done. }
  change (huff (set_descs s0 ld (d_desc s0) (bl_desc s0) h1)) with h1. rewrite E2. clear E2.
  change (d_desc (set_descs s0 ld (d_desc s0) (bl_desc s0) h1)) with (d_desc s) in *. rewrite Eds in *.
  cbn [mbind option_bind elems static_d_desc] in *. change D_CODES with 30 in *.
  set (s2 := set_descs _ _ dd _ h2).
  assert (Hlit : forall n, 0 <= n < 286 -> 0 < lfreq ys n -> exists w, code_bits (lens_of (dyn_tree ld) (max_code ld + 1)) n = Some w).
  { intros n Hn' Hf. destruct (Sv1 n Hn') as [Hle (l & Hd & Hl)].
    { change (fcat (dyn_ltree s) n <> Some 0). rewrite Hlf by done. by apply freq_nonzero. }
    apply (dlat_code _ _ _ l); [lia|done|done]. }
  assert (H256 : 0 < lfreq ys 256) by (unfold lfreq; rewrite Z.eqb_refl; lia).
  assert (Hm256 : 256 <= max_code ld).
  { destruct (Sv1 256) as [Hle _]; [lia| |done]. change (fcat (dyn_ltree s) 256 <> Some 0). rewrite Hlf by lia. by apply freq_nonzero. }
  assert (Sh2 : shape_ok s2).
  { constructor; cbn; try done; by eapply desc_ok_length. }
  destruct (build_bl_tree_spec W s2 ys Sh2) as (s3 & b & ll & dl & h & e & bs & E3 & Sh3 & W3 & L3 & N3 & St3 & Lv3 & C3 & Edl & R3); try done.
  { intros y Hy. rewrite Forall_forall in Hv. apply Hlit; [by apply lit_of_range, Hv|by apply lfreq_elem]. }
  { intros y j Hy Hj. rewrite Forall_forall in Hv. pose proof (dist_of_range y j (Hv y Hy) Hj) as Hr.
    destruct (Sv2 j Hr) as [Hle (l & Hd & Hl)].
    { change (fcat (dyn_dtree s) j <> Some 0). rewrite Hdf by done. by eapply freq_nonzero, dfreq_elem. }
    apply (dlat_code _ _ _ l); [|done|done]. change (0 <= j < max_code dd + 1). lia. }
  { apply Hlit; [lia|done]. }
  assert (Hsl : 0 <= static_len (huff s3) <= 31 * Z.of_nat (length ys) + 7).
  { destruct no_extra_bits as [X1 X2]. destruct Cost1 as [_ Es1]; [done|]. destruct Cost2 as [_ Es2]; [done|].
    change (huff s0) with (huff s) in Es1. rewrite Hst in Es1. specialize (Es1 (wrap_0 W)).
    change (dyn_tree (l_desc s)) with (dyn_ltree s) in Es1. change (dyn_tree (d_desc s)) with (dyn_dtree s) in Es2.
    rewrite Es1, Z.add_0_l in Es2. rewrite wrap_idem, wrap_add_l in Es2. specialize (Es2 eq_refl).
    change (huff s2) with h2 in C3. rewrite C3 by (rewrite Es2; apply wrap_idem). rewrite Es2.
    split; [apply wrap_nonneg; lia|]. etrans; [apply wrap_le|]; lia. }
  assert (H8 : 8 * Z.shiftr (wrap W (static_len (huff s3) + 3 + 7)) 3 <= 31 * Z.of_nat (length ys) + 17).
  { rewrite Z.shiftr_div_pow2 by done. change (2 ^ 3) with 8. pose proof (wrap_le W (static_len (huff s3) + 3 + 7) ltac:(lia)).
    pose proof (Z.mul_div_le (wrap W (static_len (huff s3) + 3 + 7)) 8 ltac:(lia)). lia. }
  assert (Hlone : near ys = true -> (exists y, y ∈ ys /\ y.1 <> 0) -> aget dl 0 = Some 1).
  { intros Hne (y & Hy & Hy0).
    unfold near in Hne. rewrite forallb_forall in Hne.
    assert (Hd : forall y j, y ∈ ys -> dist_of y = Some j -> j = 0).
    { intros z j Hz. pose proof (Hne z ltac:(by apply list_elem_of_In)) as Hle%Z.leb_le. rewrite Forall_forall in Hv. destruct (Hv z Hz) as [Hzd _].
      unfold dist_of. destruct (Z.eqb_spec z.1 0); [done|]. replace (z.1 - 1) with 0 by lia. by intros [= <-]. }
    pose proof (Hne y ltac:(by apply list_elem_of_In)) as Hle%Z.leb_le. pose proof (proj1 (Forall_forall _ _) Hv y Hy) as [Hyd _].
    assert (Ey : dist_of y = Some 0) by (unfold dist_of; rewrite (proj2 (Z.eqb_neq _ _) Hy0); by replace (y.1 - 1) with 0 by lia).
    assert (H0 : dlat (dyn_tree dd) 0 = Some 1).
    { apply Lone2; [lia| |].
      - change (fcat (dyn_dtree s) 0 <> Some 0). rewrite Hdf by lia. by eapply freq_nonzero, dfreq_elem.
      - intros n Hn'. change (fcat (dyn_dtree s) n <> Some 0 -> n = 0). rewrite Hdf by done. intros Hnz.
        destruct (filter (fun y => dist_of y = Some n) ys) as [|z l] eqn:Ez; [unfold dfreq in Hnz; by rewrite Ez in Hnz|].
        assert (Hz : z ∈ filter (fun y => dist_of y = Some n) ys) by (rewrite Ez; left). apply list_elem_of_filter in Hz as [Hz1 Hz2].
        by apply (Hd z). }
    rewrite Edl. change (dyn_dtree s2) with (dyn_tree dd). change (max_code (d_desc s2)) with (max_code dd).
    destruct (Sv2 0 ltac:(lia)) as [Hle0 _]. { change (fcat (dyn_dtree s) 0 <> Some 0). rewrite Hdf by lia. by eapply freq_nonzero, dfreq_elem. }
    rewrite aget_lens_of; [exact H0|lia]. }
  destruct (dynamic_spill ll dl ys bs Hv (dr_llr _ _ _ _ _ _ _ _ R3) (dr_dlr _ _ _ _ _ _ _ _ R3) Hlone (dr_syms _ _ _ _ _ _ _ _ R3)) as [Hsp1 Hsp2].
  rewrite E3. cbn [mbind option_bind]. do 4 eexists. exists ll, dl, h, e, bs. split; [reflexivity|]. split_and!; try done.
  - rewrite St3. change (strategy s2) with (strategy s). intros Hfix. rewrite Hfix. by rewrite orb_true_r.
  - destruct (Z.leb_spec (Z.shiftr (wrap W (static_len (huff s3) + 3 + 7)) 3) (Z.shiftr (wrap W (opt_len (huff s3) + 3 + 7)) 3));
      cbn [orb]; [lia|]. destruct (strategy s3 =? Z_FIXED); lia.
Qed.

(** Enough room in the buffer to write the block behind the symbols. *)
Definition room_ok (s : deflate_state) (ys : list symbol) : Prop :=
  nbits (wr s) <= lit_bufsize s + 4 /\ (strategy s = Z_FIXED \/ nbits (wr s) + 4500 + may_spill ys <= 8 * lit_bufsize s).

(** The stored block, if there is one, is what the symbols stand for. *)
Definition buf_ok (buf : option (list Z)) (stored_len : Z) (out out' : list Z) : Prop :=
  match buf with
  | None => True
  | Some b =>
      0 <= stored_len < 2 ^ 16 /\ stored_len <= Z.of_nat (length b) /\ Forall is_byte (take (Z.to_nat stored_len) b) /\
      out' = out ++ take (Z.to_nat stored_len) b
  end.

(** A coded block after its three bits. *)
Lemma coded_block_spec s w lt dt ll dl ys bs e :
  shape_ok s -> writer_ok w -> size w = size (wr s) -> Forall valid_sym ys -> sym_next s = 3 * Z.of_nat (length ys) ->
  Z.of_nat (length ys) <= lit_bufsize s - 1 ->
  tree_codes lt ll -> tree_codes dt dl -> syms_bits ll dl ys = Some bs -> code_bits ll 256 = Some e ->
  length bs = length ys -> Z.of_nat (length e) <= 15 ->
  syms_at (pending_buf w) (lit_bufsize s) ys -> nbits w + spill bs <= 8 * lit_bufsize s ->
  exists w', compress_block (lit_bufsize s) (sym_next s) w lt dt = Some w' /\ emits w w' (concat bs ++ e).
Proof.
  intros Hsh Hw Hws Hv Hn Hfew Hlt Hdt Hb He Hl Hle Hs Hr. destruct Hsh as [_ _ _ _ _ _ _ _ Hsz [Hbs _] _].
  rewrite Hn. apply (compress_block_spec lt dt ll dl); try done; [lia|by apply keeps_behind_spill|].
  pose proof (spill_length bs) as Hcm. rewrite Hl in Hcm. rewrite length_app, Hws, Hsz. lia.
Qed.

Lemma header_frame s w w' bs0 ys :
  syms_at (pending_buf w) (lit_bufsize s) ys -> emits w w' bs0 -> nbits w + Z.of_nat (length bs0) <= 8 * lit_bufsize s ->
  syms_at (pending_buf w') (lit_bufsize s) ys.
Proof.
  intros Hs M Hr. apply syms_at_frame with (pending_buf w); [|done]. intros i Hi. apply (em_frame _ _ _ M).
  rewrite (em_nbits _ _ _ M). lia.
Qed.

(** The bits of the block. *)
Lemma flush_writer W s buf stored_len last ys out out' :
  17 <= W -> block_inv s ys -> 0 <= last <= 1 -> 0 < level s -> expand out (map token_of ys) = Some out' ->
  buf_ok buf stored_len out out' -> room_ok s ys ->
  exists s1 ob sb b w' bs0, build_trees W s = Some (s1, ob, sb, b) /\
    (match buf, wrap W (stored_len + 4) <=? ob with
       | Some b, true => tr_stored_block (wr s1) b stored_len last
       | _, _ =>
           if sb =? ob then
             w ← send_bits (wr s1) (Z.shiftl STATIC_TREES 1 + last) 3;
             compress_block (lit_bufsize s1) (sym_next s1) w static_ltree static_dtree
           else
             w ← send_bits (wr s1) (Z.shiftl DYN_TREES 1 + last) 3;
             w ← send_all_trees w (dyn_ltree s1) (dyn_dtree s1) (bl_tree s1)
                   (max_code (l_desc s1) + 1) (max_code (d_desc s1) + 1) (b + 1);
             compress_block (lit_bufsize s1) (sym_next s1) w (dyn_ltree s1) (dyn_dtree s1)
       end) = Some w' /\ emits (wr s) w' bs0 /\ segment (nbits (wr s)) (last =? 1) out bs0 out' /\
    shape_ok s1 /\ lit_bufsize s1 = lit_bufsize s /\ level s1 = level s /\ strategy s1 = strategy s.
Proof.
  intros HW Hi Hlast Hlev Hx Hbuf [Hnb Hroom]. pose proof Hi as [Hsh _ _ _ Hv Hs Hn _ Hfew].
  pose proof Hsh as [_ _ _ _ _ _ _ Hw Hsz [Hbs _] _].
  destruct (build_trees_spec W s ys Hi) as (s1 & ob & sb & b & ll & dl & h & e & bs & E & Sh1 & W1 & L1 & N1 & St1 & Lv1 & Hfx & Hos & H8 & [Hsp Hbl] & R).
  exists s1, ob, sb, b. rewrite W1, L1, N1.
  destruct (fixed_codes_exist ys Hv) as (fbs & Hfb & Hf31 & Hfl).
  assert (Hcoded : exists w' bs0, (if sb =? ob then
             w ← send_bits (wr s) (Z.shiftl STATIC_TREES 1 + last) 3;
             compress_block (lit_bufsize s) (sym_next s) w static_ltree static_dtree
           else
             w ← send_bits (wr s) (Z.shiftl DYN_TREES 1 + last) 3;
             w ← send_all_trees w (dyn_ltree s1) (dyn_dtree s1) (bl_tree s1)
                   (max_code (l_desc s1) + 1) (max_code (d_desc s1) + 1) (b + 1);
             compress_block (lit_bufsize s) (sym_next s) w (dyn_ltree s1) (dyn_dtree s1)) = Some w' /\ emits (wr s) w' bs0 /\
             segment (nbits (wr s)) (last =? 1) out bs0 out').
  { assert (Hfs : spill fbs <= 7 * Z.of_nat (length ys)).
    { rewrite <- Hfl. apply (total_bound _ 7). intros fb Hin. rewrite Forall_forall in Hf31. specialize (Hf31 fb Hin). lia. }
    destruct (Z.eqb_spec sb ob) as [Eo|Eo].
    - destruct (send_type (wr s) STATIC_TREES last) as (w1 & -> & M1); [done|change STATIC_TREES with 1; lia|done|lia|].
      cbn [mbind option_bind]. pose proof (em_nbits _ _ _ M1) as B1. cbn [length] in B1. rewrite length_z_bits in B1.
      destruct (coded_block_spec s w1 static_ltree static_dtree fixed_ll fixed_dl ys fbs (replicate 7 false))
        as (w2 & -> & M2); try done; [apply M1|apply M1|apply static_ltree_codes|apply static_dtree_codes| |lia|].
      { apply (header_frame s (wr s) w1 _ ys Hs M1). cbn [length]. rewrite length_z_bits. lia. }
      do 2 eexists. split; [reflexivity|]. split; [exact (emits_trans _ _ _ _ _ M1 M2)|].
      apply fixed_segment with (map token_of ys); [|done]. apply syms_coded; [done|done|apply fixed_eob].
    - destruct Hroom as [Hfix|Hroom]; [exfalso; apply Eo; symmetry; by apply Hfx|].
      assert (Hms : 0 <= may_spill ys) by (pose proof (spill_nonneg bs); lia).
      destruct R as [Rlt Rdt Rll Rdl Rsyms Reob Rh Rhl Rsend].
      destruct (send_type (wr s) DYN_TREES last) as (w1 & -> & M1); [done|change DYN_TREES with 2; lia|done|lia|].
      cbn [mbind option_bind]. pose proof (em_nbits _ _ _ M1) as B1. cbn [length] in B1. rewrite length_z_bits in B1.
      destruct (Rsend w1) as (w2 & -> & M2); [apply M1|rewrite (em_size _ _ _ M1), Hsz; lia|]. cbn [mbind option_bind].
      pose proof (emits_trans _ _ _ _ _ M1 M2) as M12. pose proof (em_nbits _ _ _ M2) as B2.
      pose proof (code_bits_max _ _ _ 15 Rll Reob) as He15.
      destruct (coded_block_spec s w2 (dyn_ltree s1) (dyn_dtree s1) ll dl ys bs e)
        as (w3 & -> & M3); try done; [apply M2|apply M12| |lia|].
      { apply (header_frame s (wr s) w2 _ ys Hs M12). rewrite length_app. cbn [length]. rewrite length_z_bits. lia. }
      do 2 eexists. split; [reflexivity|]. split; [exact (emits_trans _ _ _ _ _ M12 M3)|].
      change (((last =? 1) :: z_bits 2 2 ++ h ++ concat bs ++ e)) with (((last =? 1) :: z_bits 2 2) ++ (h ++ concat bs ++ e)).
      rewrite <- app_assoc. apply dynamic_segment with ll dl (map token_of ys); [done| |done]. by apply syms_coded. }
  destruct buf as [bf|].
  - destruct (Z.leb_spec (wrap W (stored_len + 4)) ob) as [Ho|Ho].
    + destruct Hbuf as (Hn16 & Hbl' & Hfb' & ->). change (2 ^ 16) with 65536 in Hn16.
      assert (H17 : 2 ^ 17 <= 2 ^ W) by (apply Z.pow_le_mono_r; lia). change (2 ^ 17) with 131072 in H17.
      assert (E4 : wrap W (stored_len + 4) = stored_len + 4) by (apply Z.mod_small; lia). rewrite E4 in Ho.
      destruct (tr_stored_block_spec (wr s) bf stored_len last) as (w' & k & -> & M & V & Hk & Hal); try done; [rewrite Hsz; lia|].
      do 2 eexists. split; [done|]. split; [reflexivity|]. split; [exact M|]. split; [|done].
      apply stored_segment; try done. rewrite length_take. lia.
    + destruct Hcoded as (w' & bs0 & -> & M & Sg). exists w', bs0. by split_and!.
  - destruct Hcoded as (w' & bs0 & Hc & M & Sg). exists w', bs0. split; [done|]. split; [exact Hc|]. by split_and!.
Qed.
