(* ===== verification/TreesSession.v ===== *)
(** * Sessions of the block writer

    [session s ys out]: from [_tr_init] on, the calls of the entry points of
    trees.c led to the state [s]; the symbols [ys] wait for their block and the
    blocks sent so far expand to [out].  In every such state the bits sent are
    the front of a stream of the format, which the last block completes. *)
From stdpp Require Import base numbers list.
From Stdlib Require Import ZArith Lia Bool.
From S2P Require Import Prelude Huffman Deflate Trees TreesCodes TreesShape TreesBitlen TreesBuild TreesSpec TreesTables.
From S2P Require Import TreesWriter TreesState TreesSend TreesSyms TreesCompress TreesRle TreesHeader TreesTally TreesDyn TreesBlock.

(** What the caller of [_tr_flush_block] has to see to. *)
Record flush_ok (s : deflate_state) (ys : list symbol) (buf : option (list Z)) (n : Z) (out out' : list Z) : Prop := {
  fo_expand : expand out (map token_of ys) = Some out';
  fo_buf : buf_ok buf n out out';
  fo_room : 0 < level s -> room_ok s ys;
  fo_level : level s <= 0 -> buf <> None /\ nbits (wr s) + 8 * n + 42 <= 32 * lit_bufsize s }.

Lemma set_writer_shape s w : shape_ok s -> writer_ok w -> size w = size (wr s) -> shape_ok (set_writer s w).
Proof. intros [Tl Td Tb Els Eds Ebs Hh Hw Hsz Hbs He] Hw' Hs. constructor; cbn; try done. congruence. Qed.

Lemma tr_flush_block_spec W s ys buf n last out out' :
  17 <= W -> block_inv s ys -> 0 <= last <= 1 -> flush_ok s ys buf n out out' ->
  exists s' bs k, tr_flush_block W s buf n last = Some s' /\ block_inv s' [] /\
    emits (wr s) (wr s') (bs ++ replicate k false) /\ segment (nbits (wr s)) (last =? 1) out bs out' /\
    lit_bufsize s' = lit_bufsize s /\ level s' = level s /\ strategy s' = strategy s /\ (last = 0 -> k = 0%nat) /\
    (last = 1 -> (k < 8)%nat /\ bi_valid (wr s') = 0 /\ nbits (wr s') mod 8 = 0).
Proof.
  intros HW Hi Hlast [Hx Hb Hroom Hlev]. pose proof (bi_shape _ _ Hi) as Hsh.
  pose proof Hsh as [_ _ _ _ _ _ _ Hw Hsz [Hbs _] _].
  assert (H : exists s1 w' bs, (forall k, tr_flush_block W s buf n last = k -> (
      s ← init_block (set_writer s1 w');
      if negb (last =? 0) then w ← bi_windup (wr s); Some (set_writer s w) else Some s) = k) /\
    emits (wr s) w' bs /\ segment (nbits (wr s)) (last =? 1) out bs out' /\ shape_ok s1 /\
    lit_bufsize s1 = lit_bufsize s /\ level s1 = level s /\ strategy s1 = strategy s /\ size (wr s1) = size (wr s)).
  { unfold tr_flush_block. destruct (Z.gtb_spec (level s) 0) as [Hl|Hl].
    - specialize (Hroom ltac:(lia)).
      destruct (flush_writer W s buf n last ys out out' HW Hi Hlast Hl Hx Hb Hroom)
        as (s1 & ob & sb & b & w' & bs & -> & E & M & Sg & Sh1 & L1 & V1 & T1). cbn [mbind option_bind]. rewrite E. cbn [mbind option_bind].
      exists s1, w', bs. split; [done|]. split_and!; try done. destruct Sh1 as [_ _ _ _ _ _ _ _ Hsz1 _ _]. congruence.
    - destruct (Hlev Hl) as [Hnn Hfit]. destruct buf as [bf|]; [|done]. destruct Hb as (Hn16 & Hbl & Hf & ->).
      assert (H17 : 2 ^ 17 <= 2 ^ W) by (apply Z.pow_le_mono_r; lia). change (2 ^ 17) with 131072 in H17. change (2 ^ 16) with 65536 in Hn16.
      assert (E4 : wrap W (n + 4) = n + 4) by (apply Z.mod_small; lia). assert (E5 : wrap W (n + 5) = n + 5) by (apply Z.mod_small; lia).
      cbn [mbind option_bind]. rewrite E4, E5. destruct (Z.leb_spec (n + 4) (n + 5)); [|lia].
      destruct (tr_stored_block_spec (wr s) bf n last) as (w' & k & -> & M & V & Hk & Hal); try done; [rewrite Hsz; lia|].
      cbn [mbind option_bind]. exists s, w'. eexists. split; [done|]. split; [exact M|]. split; [|done].
      apply stored_segment; try done. rewrite length_take. change (2 ^ 16) with 65536. lia. }
  destruct H as (s1 & w' & bs & Hrun & M & Sg & Sh1 & L1 & V1 & T1 & Z1).
  destruct (init_block_spec (set_writer s1 w')) as (s2 & E2 & I2 & W2 & L2 & V2 & T2 & _).
  { apply set_writer_shape; [done|apply M|]. rewrite (em_size _ _ _ M). congruence. }
  specialize (Hrun _ eq_refl). rewrite E2 in Hrun. cbn [mbind option_bind] in Hrun. rewrite <- Hrun. cbn [set_writer wr lit_bufsize level strategy] in W2, L2, V2, T2.
  destruct (Z.eqb_spec last 0) as [E0|E0]; cbn [negb].
  - exists s2, bs, 0%nat. split; [done|]. split; [done|]. rewrite W2. cbn [replicate]. rewrite app_nil_r.
    split_and!; try done; [congruence|congruence|congruence|lia].
  - assert (last = 1) as -> by lia. rewrite W2.
    destruct (bi_windup_spec w') as (w3 & k & -> & M3 & V3 & Hk & Hal); [apply M|]. cbn [mbind option_bind].
    exists (set_writer s2 w3), bs, k. split; [done|]. split.
    { destruct I2 as [Ish Ilf Idf Ibf Iv Is In Ist If]. constructor; cbn; try done.
      apply set_writer_shape; [done|apply M3|]. rewrite W2. apply (em_size _ _ _ M3). }
    cbn [set_writer wr lit_bufsize level strategy]. split; [by eapply emits_trans|]. split; [done|]. do 3 (split; [congruence|]).
    split; [lia|]. intros _. split; [done|]. split; [done|]. rewrite (em_nbits _ _ _ M3), length_replicate. exact Hal.
Qed.

(** ** Streams *)

(** [bits], followed by the bits of a stream from [out] on, are a stream. *)
Definition front (bits : list bool) (out : list Z) : Prop :=
  forall bs out' rest, (Z.of_nat (length bits) + Z.of_nat (length bs)) mod 8 = 0 -> stream out bs out' rest ->
    stream [] (bits ++ bs) out' rest.

Lemma front_nil : front [] [].
Proof. intros bs out' rest _ Hs. exact Hs. Qed.

Lemma front_segment bits pos bs out out' :
  front bits out -> Z.of_nat (length bits) mod 8 = pos mod 8 -> segment pos false out bs out' -> front (bits ++ bs) out'.
Proof.
  intros Hf Hp (ty & v & -> & Ht & Hb) bs2 out2 rest Hm Hs. rewrite <- app_assoc.
  apply Hf.
  - rewrite length_app, Nat2Z.inj_add, Z.add_assoc. by rewrite length_app, Nat2Z.inj_add in Hm.
  - cbn [app]. rewrite <- app_assoc. apply stream_more with out' bs2; [done| |done]. apply Hb.
    rewrite length_app, Nat2Z.inj_add in Hm. rewrite <- Z.add_assoc, Z.add_mod, <- Hp, <- Z.add_mod by done.
    by rewrite Z.add_assoc.
Qed.

Lemma front_last bits pos bs k out out' :
  front bits out -> Z.of_nat (length bits) mod 8 = pos mod 8 -> segment pos true out bs out' ->
  (pos + Z.of_nat (length (bs ++ replicate k false))) mod 8 = 0 ->
  stream [] (bits ++ bs ++ replicate k false) out' (replicate k false).
Proof.
  intros Hf Hp (ty & v & -> & Ht & Hb) Hal.
  assert (Hal' : (Z.of_nat (length bits) + Z.of_nat (length ((true :: z_bits 2 ty ++ v) ++ replicate k false))) mod 8 = 0).
  { by rewrite Z.add_mod, Hp, <- Z.add_mod by done. }
  apply Hf; [done|]. cbn [app]. rewrite <- app_assoc. apply stream_last; [done|]. apply Hb.
  by rewrite length_app, Nat2Z.inj_add, Z.add_assoc in Hal.
Qed.

(** The bits sent, followed by the bits of a stream from [out] on, are a stream. *)
Definition written (w : writer) (out : list Z) : Prop := front (sent w) out.

Lemma written_segment w w' bs out out' :
  writer_ok w -> written w out -> emits w w' bs -> segment (nbits w) false out bs out' -> written w' out'.
Proof.
  intros Ho Hw M Hs. unfold written. rewrite (em_sent _ _ _ M). apply front_segment with (nbits w) out; [done| |done].
  by rewrite sent_length.
Qed.

Lemma written_last w w' bs k out out' :
  writer_ok w -> written w out -> emits w w' (bs ++ replicate k false) -> segment (nbits w) true out bs out' -> nbits w' mod 8 = 0 ->
  stream [] (sent w') out' (replicate k false).
Proof.
  intros Ho Hw M Hs Hal. rewrite (em_sent _ _ _ M). rewrite (em_nbits _ _ _ M) in Hal.
  apply (front_last _ (nbits w)) with out; try done. by rewrite sent_length.
Qed.

(** ** The entry points *)

(** What [deflateInit2_] has set when it calls [_tr_init]. *)
Record raw_ok (s : deflate_state) : Prop := {
  ra_l : length (dyn_ltree s) = 573%nat;
  ra_d : length (dyn_dtree s) = 61%nat;
  ra_b : length (bl_tree s) = 39%nat;
  ra_huff : huff_ok (huff s);
  ra_pending : pending (wr s) = 0;
  ra_size : size (wr s) = 4 * lit_bufsize s;
  ra_bufsize : 1 <= lit_bufsize s <= 32768;
  ra_end : sym_end s = 3 * (lit_bufsize s - 1) }.

Lemma tr_init_spec s :
  raw_ok s -> exists s', tr_init s = Some s' /\ block_inv s' [] /\ sent (wr s') = [] /\ nbits (wr s') = 0 /\
    lit_bufsize s' = lit_bufsize s /\ level s' = level s /\ strategy s' = strategy s.
Proof.
  intros [Hl Hd Hb Hh Hp Hsz Hbs He]. unfold tr_init.
  match goal with |- context [init_block ?x] => destruct (init_block_spec x) as (s' & -> & Hi & W & L & Lv & St & _) end.
  - constructor; cbn; try done.
    + constructor; [by vm_compute|change (Z.of_nat (length (dyn_ltree s)) = 573); lia|done|lia|by vm_compute..|].
      intros st [= <-]. by vm_compute.
    + constructor; [by vm_compute|change (Z.of_nat (length (dyn_dtree s)) = 61); lia|done|lia|by vm_compute..|].
      intros st [= <-]. by vm_compute.
    + constructor; [by vm_compute|change (Z.of_nat (length (bl_tree s)) = 39); lia|done|lia|by vm_compute..|done].
    + constructor; unfold size, nbits in *; cbn; rewrite ?Hp; try done; try lia.
  - exists s'. split; [done|]. split; [done|]. rewrite W. unfold sent, nbits. cbn. rewrite Hp. by split_and!.
Qed.

Section Session.
Context (W : Z).

Inductive session : deflate_state -> list symbol -> list Z -> Prop :=
| session_init s0 s :
    raw_ok s0 -> tr_init s0 = Some s -> session s [] []
| session_tally s ys out d lc s' full :
    session s ys out -> apart s -> valid_sym (d, lc) -> Z.of_nat (length ys) < lit_bufsize s - 1 ->
    tr_tally s d lc = Some (s', full) -> session s' (ys ++ [(d, lc)]) out
| session_align s ys out w :
    session s ys out -> nbits (wr s) + 10 <= 8 * lit_bufsize s -> tr_align (wr s) = Some w ->
    session (set_writer s w) ys out
| session_stored s ys out buf n w :
    session s ys out -> nbits (wr s) + 8 * n + 42 <= 8 * lit_bufsize s -> 0 <= n < 2 ^ 16 -> n <= Z.of_nat (length buf) ->
    Forall is_byte (take (Z.to_nat n) buf) -> tr_stored_block (wr s) buf n 0 = Some w ->
    session (set_writer s w) ys (out ++ take (Z.to_nat n) buf)
| session_flush s ys out buf n out' s' :
    session s ys out -> flush_ok s ys buf n out out' -> tr_flush_block W s buf n 0 = Some s' -> session s' [] out'.

Lemma written_sent w w' out : sent w' = sent w -> written w out -> written w' out.
Proof. unfold written. by intros ->. Qed.

(** A step of the writer alone leaves the symbols alone. *)
Lemma block_inv_writer s ys w bs :
  block_inv s ys -> emits (wr s) w bs -> nbits (wr s) + Z.of_nat (length bs) <= 8 * lit_bufsize s -> block_inv (set_writer s w) ys.
Proof.
  intros [Ish Ilf Idf Ibf Iv Is In Ist If] M Hr. constructor; try done.
  - apply set_writer_shape; [done|apply M|apply (em_size _ _ _ M)].
  - by apply (header_frame s (wr s) w bs).
Qed.

Lemma session_inv (HW : 17 <= W) s ys out : session s ys out -> block_inv s ys /\ written (wr s) out.
Proof.
  induction 1 as [s0 s Hraw E|s ys out d lc s' full _ [Hi Hw] Hap Hv Hr E|s ys out w _ [Hi Hw] Hr E
    |s ys out buf n w _ [Hi Hw] Hr Hn Hl Hf E|s ys out buf n out' s' _ [Hi Hw] Hok E].
  - destruct (tr_init_spec s0 Hraw) as (s' & E' & Hi & Hs & Hn & _). rewrite E' in E. injection E as <-.
    split; [done|]. unfold written. rewrite Hs. apply front_nil.
  - destruct (tr_tally_spec s ys d lc Hi Hap Hv Hr) as (s1 & E' & Hi' & Hs & Hn & _). rewrite E' in E. injection E as <- _.
    split; [done|by eapply written_sent].
  - pose proof (bi_shape _ _ Hi) as [_ _ _ _ _ _ _ Wok Wsz [Hb1 _] _].
    destruct (tr_align_spec (wr s) Wok) as (w' & E' & M & _); [lia|]. rewrite E' in E. injection E as <-. split.
    + eapply block_inv_writer; [done|exact M|]. cbn [length]. rewrite length_app, length_z_bits, length_replicate. lia.
    + eapply written_segment; [done|done|exact M|]. apply fixed_segment with []; [|done]. apply coded_end, fixed_eob.
  - pose proof (bi_shape _ _ Hi) as [_ _ _ _ _ _ _ Wok Wsz [Hb1 _] _].
    destruct (tr_stored_block_spec (wr s) buf n 0) as (w' & k & E' & M & _ & Hk & Hal); try done; [lia|].
    rewrite E' in E. injection E as <-. split.
    + eapply block_inv_writer; [done|exact M|]. unfold stored_bits. cbn [length].
      rewrite !length_app, !length_z_bits, length_replicate, length_bytes_bits, length_take. lia.
    + eapply written_segment; [done|done|exact M|]. apply stored_segment; try done. rewrite length_take. lia.
  - destruct (tr_flush_block_spec W s ys buf n 0 out out' HW Hi ltac:(lia) Hok) as (s1 & bs & k & E' & Hi' & M & Sg & _ & _ & _ & Hk & _).
    rewrite E' in E. injection E as <-. split; [done|]. rewrite Hk in M by done. cbn [replicate] in M. rewrite app_nil_r in M.
    pose proof (bi_shape _ _ Hi) as [_ _ _ _ _ _ _ Wok _ _ _]. by eapply written_segment.
Qed.

(** The last block completes the stream. *)
Lemma session_last (HW : 17 <= W) s ys out buf n out' :
  session s ys out -> flush_ok s ys buf n out out' ->
  exists s' k, tr_flush_block W s buf n 1 = Some s' /\ writer_ok (wr s') /\ bi_valid (wr s') = 0 /\ (k < 8)%nat /\
    stream [] (bytes_bits (take (Z.to_nat (pending (wr s'))) (pending_buf (wr s')))) out' (replicate k false).
Proof.
  intros [Hi Hw]%session_inv Hok; [|done].
  destruct (tr_flush_block_spec W s ys buf n 1 out out' HW Hi ltac:(lia) Hok) as (s1 & bs & k & E & Hi' & M & Sg & _ & _ & _ & _ & Hl).
  destruct (Hl eq_refl) as (Hk & Hv & Hal). exists s1, k. split; [done|]. split; [apply M|]. split; [done|]. split; [done|].
  pose proof (bi_shape _ _ Hi) as [_ _ _ _ _ _ _ Wok _ _ _].
  pose proof (written_last _ _ _ _ _ _ Wok Hw M Sg Hal) as Hs. unfold sent in Hs. rewrite Hv in Hs. cbn [Z.to_nat z_bits] in Hs.
  by rewrite app_nil_r in Hs.
Qed.
End Session.
