(* ===== verification/TreesStatic.v ===== *)
(** * The static tables: tr_static_init and trees.h

    A build without STDC computes the tables in [tr_static_init]; the others
    include trees.h, which [gen_trees_header] wrote from the same tables.  The
    two agree: [tr_static_init] gives the tables of [TreesTables]. *)
From stdpp Require Import base numbers list.
From Stdlib Require Import ZArith Lia Bool.
From S2P Require Import Prelude Trees TreesTables.

Record tables := Tables {
  t_ltree : tree; t_dtree : tree; t_dist_code : list Z; t_length_code : list Z; t_base_length : list Z; t_base_dist : list Z }.

(** The global arrays before the program starts. *)
Definition zero_tables : tables :=
  Tables (replicate 288 (Ct 0 0)) (replicate 30 (Ct 0 0)) (replicate 512 0) (replicate 256 0) (replicate 29 0) (replicate 30 0).

(** [k] turns of [a[i++] = v]. *)
Fixpoint fill_from (k : nat) (a : list Z) (i v : Z) : option (list Z) :=
  match k with O => Some a | S k => a ← aset a i (wrap 8 v); fill_from k a (i + 1) v end.

(** The mapping from lengths to codes: [k] codes from [code] on, with [length_code], [base_length] and [length]. *)
Fixpoint init_lengths (k : nat) (code length : Z) (lc base : list Z) : option (list Z * list Z * Z) :=
  match k with
  | O => Some (lc, base, length)
  | S k =>
      base ← aset base code length;
      x ← aget extra_lbits code;
      lc ← fill_from (Z.to_nat (Z.shiftl 1 x)) lc length code;
      init_lengths k (code + 1) (length + Z.shiftl 1 x) lc base
  end.

(** The mapping from distances below 256 to codes. *)
Fixpoint init_dists (k : nat) (code dist : Z) (dc base : list Z) : option (list Z * list Z * Z) :=
  match k with
  | O => Some (dc, base, dist)
  | S k =>
      base ← aset base code dist;
      x ← aget extra_dbits code;
      dc ← fill_from (Z.to_nat (Z.shiftl 1 x)) dc dist code;
      init_dists k (code + 1) (dist + Z.shiftl 1 x) dc base
  end.

(** The mapping from the distances divided by 128. *)
Fixpoint init_far (k : nat) (code dist : Z) (dc base : list Z) : option (list Z * list Z * Z) :=
  match k with
  | O => Some (dc, base, dist)
  | S k =>
      base ← aset base code (Z.shiftl dist 7);
      x ← aget extra_dbits code;
      dc ← fill_from (Z.to_nat (Z.shiftl 1 (x - 7))) dc (256 + dist) code;
      init_far k (code + 1) (dist + Z.shiftl 1 (x - 7)) dc base
  end.

(** [k] turns of [static_ltree[n++].Len = len, bl_count[len]++]. *)
Fixpoint init_lens (k : nat) (n len : Z) (t : tree) (cnt : list Z) : option (tree * list Z) :=
  match k with
  | O => Some (t, cnt)
  | S k => t ← set_dl t n len; cnt ← add_count cnt len 1; init_lens k (n + 1) len t cnt
  end.

(** [static_dtree[n].Len = 5; static_dtree[n].Code = bi_reverse(n, 5);] *)
Fixpoint init_dtree (k : nat) (n : Z) (t : tree) : option tree :=
  match k with
  | O => Some t
  | S k => t ← set_dl t n 5; t ← set_fc t n (bi_reverse n 5); init_dtree k (n + 1) t
  end.

Definition tr_static_init (g : tables) : option tables :=
  '(lc, bl, len) ← init_lengths (Z.to_nat (LENGTH_CODES - 1)) 0 0 (t_length_code g) (t_base_length g);
  lc ← aset lc (len - 1) (wrap 8 (LENGTH_CODES - 1));
  '(dc, bd, dist) ← init_dists 16 0 0 (t_dist_code g) (t_base_dist g);
  '(dc, bd, dist) ← init_far (Z.to_nat (D_CODES - 16)) 16 (Z.shiftr dist 7) dc bd;
  let cnt := replicate (Z.to_nat (MAX_BITS + 1)) 0 in
  '(lt, cnt) ← init_lens 144 0 8 (t_ltree g) cnt;
  '(lt, cnt) ← init_lens 112 144 9 lt cnt;
  '(lt, cnt) ← init_lens 24 256 7 lt cnt;
  '(lt, cnt) ← init_lens 8 280 8 lt cnt;
  lt ← gen_codes lt (L_CODES + 1) cnt;
  dt ← init_dtree (Z.to_nat D_CODES) 0 (t_dtree g);
  Some (Tables lt dt dc lc bl bd).

Definition header_tables : tables :=
  Tables static_ltree static_dtree _dist_code _length_code base_length base_dist.
