(* ===== verification/LzState.v ===== *)
(** * The compressor of deflate.c: streams, states and constants

    [zs] is a [z_stream] with the [deflate_state] behind its pointer, in parts:
    [strm] the buffers of the caller, [win] the sliding window, [dict] the hash
    chains, [lm] the match finder, [tr] what trees.c uses (with [level],
    [strategy] and [matches]), [ctl] the rest.  A pointer into a buffer is an
    index.  [out_bytes] are the bytes written through [next_out]. *)
From stdpp Require Import base numbers list.
From Stdlib Require Import ZArith Lia Bool.
From S2P Require Import Prelude Trees TreesTables TreesWriter TreesState.

(** ** Constants *)

Definition Z_NO_FLUSH : Z := 0.
Definition Z_PARTIAL_FLUSH : Z := 1.
Definition Z_SYNC_FLUSH : Z := 2.
Definition Z_FULL_FLUSH : Z := 3.
Definition Z_FINISH : Z := 4.
Definition Z_BLOCK : Z := 5.
Definition Z_OK : Z := 0.
Definition Z_STREAM_END : Z := 1.
Definition Z_STREAM_ERROR : Z := -2.
Definition Z_MEM_ERROR : Z := -4.
Definition Z_BUF_ERROR : Z := -5.
Definition Z_VERSION_ERROR : Z := -6.
Definition Z_DEFAULT_COMPRESSION : Z := -1.
Definition Z_FILTERED : Z := 1.
Definition Z_HUFFMAN_ONLY : Z := 2.
Definition Z_RLE : Z := 3.
Definition Z_DEFLATED : Z := 8.
Definition MAX_MEM_LEVEL : Z := 9.
Definition PRESET_DICT : Z := 32.
Definition OS_CODE : Z := 3.
Definition MIN_MATCH : Z := 3.
Definition MAX_MATCH : Z := 258.
Definition MIN_LOOKAHEAD : Z := MAX_MATCH + MIN_MATCH + 1.
Definition WIN_INIT : Z := MAX_MATCH.
Definition NIL : Z := 0.
Definition TOO_FAR : Z := 4096.
Definition MAX_STORED : Z := 65535.

Definition INIT_STATE : Z := 42.
Definition GZIP_STATE : Z := 57.
Definition EXTRA_STATE : Z := 69.
Definition NAME_STATE : Z := 73.
Definition COMMENT_STATE : Z := 91.
Definition HCRC_STATE : Z := 103.
Definition BUSY_STATE : Z := 113.
Definition FINISH_STATE : Z := 666.

Inductive block_state := need_more | block_done | finish_started | finish_done.

(** The functions that the table names. *)
Inductive compress_func := deflate_stored_f | deflate_fast_f | deflate_slow_f.

Record config := Config { good_length : Z; max_lazy : Z; nice_length : Z; max_chain : Z; func : compress_func }.

Definition configuration_table : list config :=
  [Config 0 0 0 0 deflate_stored_f; Config 4 4 8 4 deflate_fast_f; Config 4 5 16 8 deflate_fast_f;
   Config 4 6 32 32 deflate_fast_f; Config 4 4 16 16 deflate_slow_f; Config 8 16 32 32 deflate_slow_f;
   Config 8 16 128 128 deflate_slow_f; Config 8 32 128 256 deflate_slow_f;
   Config 32 128 258 1024 deflate_slow_f; Config 32 258 258 4096 deflate_slow_f].

(** ** The state *)

Record gz_header := GzHeader {
  gz_text : Z; gz_time : Z; gz_os : Z; gz_extra : option (list Z); gz_extra_len : Z;
  gz_name : option (list Z); gz_comment : option (list Z); gz_hcrc : Z }.

Record stream := Stream {
  in_buf : list Z; next_in : Z; avail_in : Z; total_in : Z;
  out_bytes : list Z; avail_out : Z; total_out : Z;
  adler : Z; msg : option Z }.

Record window_state := Win {
  w_bits : Z; window : list Z; window_size : Z; high_water : Z;
  block_start : Z; strstart : Z; lookahead : Z; insert : Z }.

Record hash_state := Hash { hash_bits : Z; ins_h : Z; head : list Z; prev : list Z }.

Record match_state := Match {
  match_length : Z; prev_match : Z; match_available : Z; match_start : Z; prev_length : Z;
  max_chain_length : Z; max_lazy_match : Z; good_match : Z; nice_match : Z }.

Record control := Control {
  status : Z; wrapper : Z; gzhead : option gz_header; gzindex : Z; last_flush : Z; pending_out : Z }.

Record zs := ZS { strm : stream; win : window_state; dict : hash_state; lm : match_state; tr : deflate_state; ctl : control }.

Definition w_size (w : window_state) : Z := Z.shiftl 1 (w_bits w).
Definition w_mask (w : window_state) : Z := w_size w - 1.
Definition hash_size (d : hash_state) : Z := Z.shiftl 1 (hash_bits d).
Definition hash_mask (d : hash_state) : Z := hash_size d - 1.
Definition hash_shift (d : hash_state) : Z := (hash_bits d + MIN_MATCH - 1) / MIN_MATCH.
Definition MAX_DIST (w : window_state) : Z := w_size w - MIN_LOOKAHEAD.
Definition pending_buf_size (s : deflate_state) : Z := lit_bufsize s * 4.

(** Assignments to parts of the state. *)
Definition set_strm (z : zs) (x : stream) : zs := ZS x (win z) (dict z) (lm z) (tr z) (ctl z).
Definition set_win (z : zs) (x : window_state) : zs := ZS (strm z) x (dict z) (lm z) (tr z) (ctl z).
Definition set_dict (z : zs) (x : hash_state) : zs := ZS (strm z) (win z) x (lm z) (tr z) (ctl z).
Definition set_lm (z : zs) (x : match_state) : zs := ZS (strm z) (win z) (dict z) x (tr z) (ctl z).
Definition set_tr (z : zs) (x : deflate_state) : zs := ZS (strm z) (win z) (dict z) (lm z) x (ctl z).
Definition set_ctl (z : zs) (x : control) : zs := ZS (strm z) (win z) (dict z) (lm z) (tr z) x.

(** [s->strstart = x, s->lookahead = y] *)
Definition set_pos (w : window_state) (x y : Z) : window_state :=
  Win (w_bits w) (window w) (window_size w) (high_water w) (block_start w) x y (insert w).
Definition set_block (w : window_state) (x : Z) : window_state :=
  Win (w_bits w) (window w) (window_size w) (high_water w) x (strstart w) (lookahead w) (insert w).
Definition set_insert (w : window_state) (x : Z) : window_state :=
  Win (w_bits w) (window w) (window_size w) (high_water w) (block_start w) (strstart w) (lookahead w) x.
Definition set_window (w : window_state) (x : list Z) : window_state :=
  Win (w_bits w) x (window_size w) (high_water w) (block_start w) (strstart w) (lookahead w) (insert w).
Definition set_high (w : window_state) (x : Z) : window_state :=
  Win (w_bits w) (window w) (window_size w) x (block_start w) (strstart w) (lookahead w) (insert w).

Definition set_length (m : match_state) (x : Z) : match_state :=
  Match x (prev_match m) (match_available m) (match_start m) (prev_length m)
    (max_chain_length m) (max_lazy_match m) (good_match m) (nice_match m).
Definition set_start (m : match_state) (x : Z) : match_state :=
  Match (match_length m) (prev_match m) (match_available m) x (prev_length m)
    (max_chain_length m) (max_lazy_match m) (good_match m) (nice_match m).
Definition set_available (m : match_state) (x : Z) : match_state :=
  Match (match_length m) (prev_match m) x (match_start m) (prev_length m)
    (max_chain_length m) (max_lazy_match m) (good_match m) (nice_match m).
(** [s->prev_length = x, s->prev_match = y] *)
Definition set_prev (m : match_state) (x y : Z) : match_state :=
  Match (match_length m) y (match_available m) (match_start m) x
    (max_chain_length m) (max_lazy_match m) (good_match m) (nice_match m).

Definition set_status (c : control) (x : Z) : control :=
  Control x (wrapper c) (gzhead c) (gzindex c) (last_flush c) (pending_out c).
Definition set_wrapper (c : control) (x : Z) : control :=
  Control (status c) x (gzhead c) (gzindex c) (last_flush c) (pending_out c).
Definition set_gzindex (c : control) (x : Z) : control :=
  Control (status c) (wrapper c) (gzhead c) x (last_flush c) (pending_out c).
Definition set_last_flush (c : control) (x : Z) : control :=
  Control (status c) (wrapper c) (gzhead c) (gzindex c) x (pending_out c).
Definition set_pending_out (c : control) (x : Z) : control :=
  Control (status c) (wrapper c) (gzhead c) (gzindex c) (last_flush c) x.

Definition set_msg (s : stream) (x : option Z) : stream :=
  Stream (in_buf s) (next_in s) (avail_in s) (total_in s) (out_bytes s) (avail_out s) (total_out s) (adler s) x.
Definition set_adler (s : stream) (x : Z) : stream :=
  Stream (in_buf s) (next_in s) (avail_in s) (total_in s) (out_bytes s) (avail_out s) (total_out s) x (msg s).

Definition set_matches (s : deflate_state) (x : Z) : deflate_state :=
  State (l_desc s) (d_desc s) (bl_desc s) (huff s) (wr s) (lit_bufsize s) (sym_next s) (sym_end s) x
    (level s) (strategy s) (data_type s).

(** ** Memory *)

(** The [n] bytes at [off]. *)
Definition read_at (l : list Z) (off n : Z) : option (list Z) :=
  if (0 <=? off) && (0 <=? n) && (off + n <=? Z.of_nat (length l))
  then Some (take (Z.to_nat n) (drop (Z.to_nat off) l)) else None.

(** [zmemcpy(l + off, data, ...)] *)
Definition write_at (l : list Z) (off : Z) (data : list Z) : option (list Z) :=
  if (0 <=? off) && (off + Z.of_nat (length data) <=? Z.of_nat (length l))
  then Some (take (Z.to_nat off) l ++ data ++ drop (Z.to_nat off + length data) l) else None.

(** The two checksums that deflate.c calls on bytes it has read or written. *)
Record checksums := Checksums { c_adler32 : Z -> list Z -> option Z; c_crc32 : Z -> list Z -> option Z }.
