(* ===== verification/LzWindow.v ===== *)
(** * The sliding window, the hash chains and the output (deflate.c)

    [read_buf], [slide_hash], [fill_window], [flush_pending] and the macros on
    the hash table, over the state of [LzState].  [None] is an access out of
    bounds (or fuel that runs out).  [W] is the width of [ulg]. *)
From stdpp Require Import base numbers list.
From Stdlib Require Import ZArith Lia Bool.
From S2P Require Import Prelude Trees TreesTables TreesWriter TreesState LzState.

Section Code.
Context (W : Z) (C : checksums).

(** ** Input *)

(** The stream after [read_buf], and the bytes that it copies to [buf]. *)
Definition read_buf (wrapper : Z) (s : stream) (size : Z) : option (stream * list Z) :=
  let len := avail_in s in
  let len := if len >? size then size else len in
  if len =? 0 then Some (s, [])
  else
    data ← read_at (in_buf s) (next_in s) len;
    check ← (if wrapper =? 1 then c_adler32 C (adler s) data
             else if wrapper =? 2 then c_crc32 C (adler s) data
             else Some (adler s));
    Some (Stream (in_buf s) (next_in s + len) (avail_in s - len) (wrap W (total_in s + len))
            (out_bytes s) (avail_out s) (total_out s) check (msg s), data).

(** ** The hash table *)

Definition UPDATE_HASH (d : hash_state) (h c : Z) : Z :=
  Z.land (Z.lxor (Z.shiftl h (hash_shift d)) c) (hash_mask d).

(** [ins_h = window[str], UPDATE_HASH(s, s->ins_h, s->window[str + 1])] *)
Definition start_hash (w : window_state) (d : hash_state) (str : Z) : option hash_state :=
  a ← aget (window w) str; b ← aget (window w) (str + 1);
  Some (Hash (hash_bits d) (UPDATE_HASH d a b) (head d) (prev d)).

(** [INSERT_STRING]: the table and [match_head]. *)
Definition insert_string (w : window_state) (d : hash_state) (str : Z) : option (hash_state * Z) :=
  c ← aget (window w) (str + (MIN_MATCH - 1));
  let h := UPDATE_HASH d (ins_h d) c in
  match_head ← aget (head d) h;
  prev ← aset (prev d) (Z.land str (w_mask w)) match_head;
  head ← aset (head d) h (wrap 16 str);
  Some (Hash (hash_bits d) h head prev, match_head).

Definition CLEAR_HASH (d : hash_state) : hash_state :=
  Hash (hash_bits d) (ins_h d) (map (fun _ => NIL) (head d)) (prev d).

Definition slide (wsize m : Z) : Z := wrap 16 (if m >=? wsize then m - wsize else NIL).

Definition slide_hash (wsize : Z) (d : hash_state) : hash_state :=
  Hash (hash_bits d) (ins_h d) (map (slide wsize) (head d)) (map (slide wsize) (prev d)).

(** ** [fill_window] *)

(** [if (s->strstart >= wsize + MAX_DIST(s))]: the upper half moves down. *)
Definition slide_window (z : zs) (more : Z) : option (zs * Z) :=
  let w := win z in
  let wsize := w_size w in
  if strstart w >=? wsize + MAX_DIST w then
    data ← read_at (window w) wsize (wrap 32 (wsize - more));
    buf ← write_at (window w) 0 data;
    let start := strstart w - wsize in
    let insert := if insert w >? start then start else insert w in
    let w := Win (w_bits w) buf (window_size w) (high_water w) (block_start w - wsize) start (lookahead w) insert in
    Some (ZS (strm z) w (slide_hash wsize (dict z)) (set_start (lm z) (wrap 32 (match_start (lm z) - wsize))) (tr z) (ctl z),
          more + wsize)
  else Some (z, more).

(** [while (s->insert)]: [k] strings to insert; the table and [insert]. *)
Fixpoint insert_loop (k : nat) (w : window_state) (d : hash_state) (str : Z) : option (hash_state * Z) :=
  match k with
  | O => Some (d, 0)
  | S k =>
      '(d, _) ← insert_string w d str;
      if lookahead w + Z.of_nat k <? MIN_MATCH then Some (d, Z.of_nat k) else insert_loop k w d (str + 1)
  end.

(** [if (s->lookahead + s->insert >= MIN_MATCH)] *)
Definition insert_pending (w : window_state) (d : hash_state) : option (hash_state * Z) :=
  if lookahead w + insert w >=? MIN_MATCH then
    let str := strstart w - insert w in
    d ← start_hash w d str;
    insert_loop (Z.to_nat (insert w)) w d str
  else Some (d, insert w).

(** One turn of the loop: the state, and whether it breaks. *)
Definition fill_turn (z : zs) : option (zs * bool) :=
  let more := window_size (win z) - lookahead (win z) - strstart (win z) in
  '(z, more) ← slide_window z (wrap 32 more);
  if avail_in (strm z) =? 0 then Some (z, true)
  else
    let w := win z in
    '(st, data) ← read_buf (wrapper (ctl z)) (strm z) more;
    buf ← write_at (window w) (strstart w + lookahead w) data;
    let w := set_pos (set_window w buf) (strstart w) (lookahead w + Z.of_nat (length data)) in
    '(d, ins) ← insert_pending w (dict z);
    Some (ZS st (set_insert w ins) d (lm z) (tr z) (ctl z), false).

Fixpoint fill_loop (fuel : nat) (z : zs) : option zs :=
  match fuel with
  | O => None
  | S fuel =>
      '(z, stop) ← fill_turn z;
      if stop : bool then Some z
      else if (lookahead (win z) <? MIN_LOOKAHEAD) && negb (avail_in (strm z) =? 0) then fill_loop fuel z
      else Some z
  end.

(** The bytes behind the data, up to the new high water mark, become zero. *)
Definition zero_ahead (w : window_state) : option window_state :=
  if high_water w <? window_size w then
    let curr := strstart w + lookahead w in
    if high_water w <? curr then
      let init := window_size w - curr in
      let init := if init >? WIN_INIT then WIN_INIT else init in
      buf ← write_at (window w) curr (replicate (Z.to_nat init) 0);
      Some (set_high (set_window w buf) (curr + init))
    else if high_water w <? curr + WIN_INIT then
      let init := curr + WIN_INIT - high_water w in
      let init := if init >? window_size w - high_water w then window_size w - high_water w else init in
      buf ← write_at (window w) (high_water w) (replicate (Z.to_nat init) 0);
      Some (set_high (set_window w buf) (high_water w + init))
    else Some w
  else Some w.

(** A turn that reads takes at least a byte of [avail_in]. *)
Definition fill_window (z : zs) : option zs :=
  z ← fill_loop (S (Z.to_nat (avail_in (strm z)))) z;
  w ← zero_ahead (win z);
  Some (set_win z w).

(** ** Output *)

Definition flush_pending (z : zs) : option zs :=
  w ← tr_flush_bits (wr (tr z));
  let s := strm z in
  let len := pending w in
  let len := if len >? avail_out s then avail_out s else len in
  if len =? 0 then Some (set_tr z (set_writer (tr z) w))
  else
    data ← read_at (pending_buf w) (pending_out (ctl z)) len;
    let s := Stream (in_buf s) (next_in s) (avail_in s) (total_in s) (out_bytes s ++ data)
               (avail_out s - len) (wrap W (total_out s + len)) (adler s) (msg s) in
    let pending := pending w - len in
    let out := if pending =? 0 then 0 else pending_out (ctl z) + len in
    let w := Writer (pending_buf w) pending (bi_buf w) (bi_valid w) in
    Some (ZS s (win z) (dict z) (lm z) (set_writer (tr z) w) (set_pending_out (ctl z) out)).

(** [&s->window[(unsigned)s->block_start]], or the null pointer. *)
Definition block_buf (w : window_state) : option (list Z) :=
  if block_start w >=? 0 then Some (drop (Z.to_nat (block_start w)) (window w)) else None.

Definition FLUSH_BLOCK_ONLY (z : zs) (last : Z) : option zs :=
  let w := win z in
  t ← tr_flush_block W (tr z) (block_buf w) (strstart w - block_start w) last;
  flush_pending (set_win (set_tr z t) (set_block w (strstart w))).

(** [lm_init]; the arrays are those of [deflateInit2_]. *)
Definition lm_init (z : zs) : option zs :=
  c ← aget configuration_table (level (tr z));
  let w := win z in
  Some (ZS (strm z) (Win (w_bits w) (window w) (2 * w_size w) (high_water w) 0 0 0 0)
          (let d := CLEAR_HASH (dict z) in Hash (hash_bits d) 0 (head d) (prev d))
          (Match (MIN_MATCH - 1) (prev_match (lm z)) 0 (match_start (lm z)) (MIN_MATCH - 1)
             (max_chain c) (max_lazy c) (good_length c) (nice_length c)) (tr z) (ctl z)).
End Code.
