(* ===== verification/LzMatch.v ===== *)
(** * The match finder and the compression functions (deflate.c)

    [longest_match], [deflate_fast], [deflate_slow], [deflate_rle] and
    [deflate_huff], one definition per turn of a loop.  The build without
    UNALIGNED_OK and FASTEST is modelled; a byte of [window] that was never
    written has an arbitrary value. *)
From stdpp Require Import base numbers list.
From Stdlib Require Import ZArith Lia Bool.
From S2P Require Import Prelude Trees TreesTables TreesWriter TreesState LzState LzWindow.

(** ** [longest_match] *)

(** [k] of the comparisons [*++scan == *++match], up to the first that fails. *)
Fixpoint compare_bytes (k : nat) (w : list Z) (scan mtch : Z) : option (bool * Z * Z) :=
  match k with
  | O => Some (true, scan, mtch)
  | S k =>
      a ← aget w (scan + 1); b ← aget w (mtch + 1);
      if a =? b then compare_bytes k w (scan + 1) (mtch + 1) else Some (false, scan + 1, mtch + 1)
  end.

(** [do { } while (... && scan < strend)]: the end of [scan]. *)
Fixpoint compare_loop (fuel : nat) (w : list Z) (scan mtch strend : Z) : option Z :=
  match fuel with
  | O => None
  | S fuel =>
      '(eq, scan, mtch) ← compare_bytes 8 w scan mtch;
      if (eq : bool) && (scan <? strend) then compare_loop fuel w scan mtch strend else Some scan
  end.

(** The length of the match at [cur_match], when the first checks pass. *)
Definition match_at (w : list Z) (scan cur_match best_len scan_end1 scan_end : Z) : option (option Z) :=
  a ← aget w (cur_match + best_len);
  if negb (a =? scan_end) then Some None
  else
    a ← aget w (cur_match + best_len - 1);
    if negb (a =? scan_end1) then Some None
    else
      a ← aget w cur_match; b ← aget w scan;
      if negb (a =? b) then Some None
      else
        a ← aget w (cur_match + 1); b ← aget w (scan + 1);
        if negb (a =? b) then Some None
        else
          let strend := scan + MAX_MATCH in
          e ← compare_loop 33 w (scan + 2) (cur_match + 2) strend;
          Some (Some (MAX_MATCH - (strend - e))).

(** The loop over the hash chain: [match_start] and [best_len]. *)
Fixpoint chain_loop (fuel : nat) (w prev : list Z) (wmask scan limit nice_match : Z)
    (cur_match chain_length best_len scan_end1 scan_end match_start : Z) : option (Z * Z) :=
  match fuel with
  | O => None
  | S fuel =>
      r ← match_at w scan cur_match best_len scan_end1 scan_end;
      '(best_len, scan_end1, scan_end, match_start, stop) ←
        match r with
        | None => Some (best_len, scan_end1, scan_end, match_start, false)
        | Some len =>
            if len >? best_len then
              if len >=? nice_match then Some (len, scan_end1, scan_end, cur_match, true)
              else
                e1 ← aget w (scan + len - 1); e ← aget w (scan + len);
                Some (len, e1, e, cur_match, false)
            else Some (best_len, scan_end1, scan_end, match_start, false)
        end;
      if stop : bool then Some (match_start, best_len)
      else
        cur_match ← aget prev (Z.land cur_match wmask);
        if cur_match >? limit then
          let chain_length := wrap 32 (chain_length - 1) in
          if negb (chain_length =? 0) then
            chain_loop fuel w prev wmask scan limit nice_match cur_match chain_length best_len scan_end1 scan_end match_start
          else Some (match_start, best_len)
        else Some (match_start, best_len)
  end.

(** The state with [match_start], and the length; a chain goes down. *)
Definition longest_match (z : zs) (cur_match : Z) : option (zs * Z) :=
  let w := win z in let m := lm z in
  let scan := strstart w in
  let best_len := prev_length m in
  let limit := if strstart w >? MAX_DIST w then strstart w - MAX_DIST w else NIL in
  scan_end1 ← aget (window w) (scan + best_len - 1);
  scan_end ← aget (window w) (scan + best_len);
  let chain_length := if prev_length m >=? good_match m then Z.shiftr (max_chain_length m) 2 else max_chain_length m in
  let nice := if wrap 32 (nice_match m) >? lookahead w then lookahead w else nice_match m in
  '(match_start, best_len) ←
    chain_loop (S (Z.to_nat cur_match)) (window w) (prev (dict z)) (w_mask w) scan limit nice
      cur_match chain_length best_len scan_end1 scan_end (match_start m);
  Some (set_lm z (set_start m match_start), if best_len <=? lookahead w then best_len else lookahead w).

(** ** The parts that the functions share *)

(** What a turn of the main loop does next. *)
Inductive next := Continue (z : zs) | Break (z : zs) | Return (z : zs) (b : block_state).

Section Code.
Context (W : Z) (C : checksums).

(** [_tr_tally_lit(s, c, bflush)] *)
Definition tally_lit (z : zs) (c : Z) : option (zs * bool) :=
  '(t, bflush) ← tr_tally_lit (tr z) c; Some (set_tr z t, bflush).
Definition tally_dist (z : zs) (distance length : Z) : option (zs * bool) :=
  '(t, bflush) ← tr_tally_dist (tr z) distance length; Some (set_tr z t, bflush).

(** [if (bflush) FLUSH_BLOCK(s, 0)], at the end of a turn. *)
Definition flush_if (bflush : bool) (z : zs) : option next :=
  if bflush then
    z ← FLUSH_BLOCK_ONLY W z 0;
    Some (if avail_out (strm z) =? 0 then Return z need_more else Continue z)
  else Some (Continue z).

(** What follows the main loop. *)
Definition finish_blocks (z : zs) (flush : Z) : option (zs * block_state) :=
  if flush =? Z_FINISH then
    z ← FLUSH_BLOCK_ONLY W z 1;
    Some (z, if avail_out (strm z) =? 0 then finish_started else finish_done)
  else if negb (sym_next (tr z) =? 0) then
    z ← FLUSH_BLOCK_ONLY W z 0;
    Some (z, if avail_out (strm z) =? 0 then need_more else block_done)
  else Some (z, block_done).

(** [for (;;)] around [turn]: the state and, if it did not break, what it returns. *)
Fixpoint main_loop (turn : zs -> option next) (fuel : nat) (z : zs) : option (zs * option block_state) :=
  match fuel with
  | O => None
  | S fuel =>
      r ← turn z;
      match r with
      | Continue z => main_loop turn fuel z
      | Break z => Some (z, None)
      | Return z b => Some (z, Some b)
      end
  end.

(** A turn that goes on takes a byte of the input. *)
Definition input_left (z : zs) : nat := S (Z.to_nat (lookahead (win z) + avail_in (strm z))).

(** The start of a turn that wants [n] bytes of lookahead. *)
Definition refill (z : zs) (n flush : Z) (k : zs -> option next) : option next :=
  if lookahead (win z) <? n then
    z ← fill_window W C z;
    if (lookahead (win z) <? n) && (flush =? Z_NO_FLUSH) then Some (Return z need_more)
    else if lookahead (win z) =? 0 then Some (Break z)
    else k z
  else k z.

(** [hash_head = NIL; if (s->lookahead >= MIN_MATCH) INSERT_STRING(...)] *)
Definition insert_here (z : zs) : option (zs * Z) :=
  if lookahead (win z) >=? MIN_MATCH then
    '(d, hash_head) ← insert_string (win z) (dict z) (strstart (win z)); Some (set_dict z d, hash_head)
  else Some (z, NIL).

(** [s->lookahead -= x, s->strstart += y] *)
Definition advance (z : zs) (x y : Z) : zs :=
  set_win z (set_pos (win z) (strstart (win z) + y) (lookahead (win z) - x)).

(** ** [deflate_fast] *)

(** [do { s->strstart++; INSERT_STRING(...); } while (--s->match_length != 0)] *)
Fixpoint insert_match (k : nat) (z : zs) : option zs :=
  match k with
  | O => Some z
  | S k =>
      let z := advance z 0 1 in
      '(d, _) ← insert_string (win z) (dict z) (strstart (win z));
      insert_match k (set_dict z d)
  end.

Definition fast_match (z : zs) : option (zs * bool) :=
  let len := match_length (lm z) in
  '(z, bflush) ← tally_dist z (wrap 32 (strstart (win z) - match_start (lm z))) (len - MIN_MATCH);
  let z := advance z len 0 in
  if (len <=? max_lazy_match (lm z)) && (lookahead (win z) >=? MIN_MATCH) then
    z ← insert_match (Z.to_nat (len - 1)) z;
    Some (advance (set_lm z (set_length (lm z) 0)) 0 1, bflush)
  else
    let z := advance z 0 len in
    d ← start_hash (win z) (dict z) (strstart (win z));
    Some (set_lm (set_dict z d) (set_length (lm z) 0), bflush).

(** [_tr_tally_lit(s, s->window[s->strstart], bflush); s->lookahead--; s->strstart++;] *)
Definition emit_literal (z : zs) : option (zs * bool) :=
  c ← aget (window (win z)) (strstart (win z));
  '(z, bflush) ← tally_lit z c;
  Some (advance z 1 1, bflush).

Definition fast_turn (flush : Z) (z : zs) : option next :=
  refill z MIN_LOOKAHEAD flush (fun z =>
    '(z, hash_head) ← insert_here z;
    z ← (if negb (hash_head =? NIL) && (wrap 32 (strstart (win z) - hash_head) <=? MAX_DIST (win z)) then
           '(z, len) ← longest_match z hash_head; Some (set_lm z (set_length (lm z) len))
         else Some z);
    '(z, bflush) ← (if match_length (lm z) >=? MIN_MATCH then fast_match z else emit_literal z);
    flush_if bflush z).

(** [s->insert = s->strstart < MIN_MATCH-1 ? s->strstart : MIN_MATCH-1;] *)
Definition keep_insert (z : zs) : zs :=
  set_win z (set_insert (win z) (if strstart (win z) <? MIN_MATCH - 1 then strstart (win z) else MIN_MATCH - 1)).

Definition deflate_fast (z : zs) (flush : Z) : option (zs * block_state) :=
  '(z, r) ← main_loop (fast_turn flush) (input_left z) z;
  match r with
  | Some b => Some (z, b)
  | None => finish_blocks (keep_insert z) flush
  end.

(** ** [deflate_slow] *)

(** [do { if (++s->strstart <= max_insert) INSERT_STRING(...); } while (--s->prev_length != 0)] *)
Fixpoint insert_prev (k : nat) (max_insert : Z) (z : zs) : option zs :=
  match k with
  | O => Some z
  | S k =>
      let z := advance z 0 1 in
      z ← (if strstart (win z) <=? max_insert then
             '(d, _) ← insert_string (win z) (dict z) (strstart (win z)); Some (set_dict z d)
           else Some z);
      insert_prev k max_insert z
  end.

(** The match at the previous position is adopted. *)
Definition slow_match (z : zs) : option next :=
  let max_insert := wrap 32 (strstart (win z) + lookahead (win z) - MIN_MATCH) in
  let plen := prev_length (lm z) in
  '(z, bflush) ← tally_dist z (wrap 32 (strstart (win z) - 1 - prev_match (lm z))) (plen - MIN_MATCH);
  let z := advance z (plen - 1) 0 in
  z ← insert_prev (Z.to_nat (plen - 2)) max_insert z;
  let z := set_lm z (set_length (set_available (set_prev (lm z) 0 (prev_match (lm z))) 0) (MIN_MATCH - 1)) in
  flush_if bflush (advance z 0 1).

(** The literal before [strstart]. *)
Definition slow_literal (z : zs) : option next :=
  c ← aget (window (win z)) (strstart (win z) - 1);
  '(z, bflush) ← tally_lit z c;
  z ← (if bflush : bool then FLUSH_BLOCK_ONLY W z 0 else Some z);
  let z := advance z 1 1 in
  Some (if avail_out (strm z) =? 0 then Return z need_more else Continue z).

(** The search at the current position. *)
Definition slow_search (z : zs) (hash_head : Z) : option zs :=
  let z := set_lm z (set_length (set_prev (lm z) (match_length (lm z)) (match_start (lm z))) (MIN_MATCH - 1)) in
  if negb (hash_head =? NIL) && (prev_length (lm z) <? max_lazy_match (lm z)) &&
     (wrap 32 (strstart (win z) - hash_head) <=? MAX_DIST (win z)) then
    '(z, len) ← longest_match z hash_head;
    let len := if (len <=? 5) && ((strategy (tr z) =? Z_FILTERED) ||
                  ((len =? MIN_MATCH) && (wrap 32 (strstart (win z) - match_start (lm z)) >? TOO_FAR)))
               then MIN_MATCH - 1 else len in
    Some (set_lm z (set_length (lm z) len))
  else Some z.

Definition slow_turn (flush : Z) (z : zs) : option next :=
  refill z MIN_LOOKAHEAD flush (fun z =>
    '(z, hash_head) ← insert_here z;
    z ← slow_search z hash_head;
    if (prev_length (lm z) >=? MIN_MATCH) && (match_length (lm z) <=? prev_length (lm z)) then slow_match z
    else if negb (match_available (lm z) =? 0) then slow_literal z
    else Some (Continue (advance (set_lm z (set_available (lm z) 1)) 1 1))).

Definition deflate_slow (z : zs) (flush : Z) : option (zs * block_state) :=
  '(z, r) ← main_loop (slow_turn flush) (input_left z) z;
  match r with
  | Some b => Some (z, b)
  | None =>
      z ← (if negb (match_available (lm z) =? 0) then
             c ← aget (window (win z)) (strstart (win z) - 1);
             '(z, _) ← tally_lit z c;
             Some (set_lm z (set_available (lm z) 0))
           else Some z);
      finish_blocks (keep_insert z) flush
  end.

(** ** [deflate_rle] *)

(** [k] of the comparisons [prev == *++scan]. *)
Fixpoint run_bytes (k : nat) (w : list Z) (c scan : Z) : option (bool * Z) :=
  match k with
  | O => Some (true, scan)
  | S k => a ← aget w (scan + 1); if c =? a then run_bytes k w c (scan + 1) else Some (false, scan + 1)
  end.

Fixpoint run_loop (fuel : nat) (w : list Z) (c scan strend : Z) : option Z :=
  match fuel with
  | O => None
  | S fuel =>
      '(eq, scan) ← run_bytes 8 w c scan;
      if (eq : bool) && (scan <? strend) then run_loop fuel w c scan strend else Some scan
  end.

(** How many times the previous byte repeats. *)
Definition run_length (w : window_state) : option Z :=
  if (lookahead w >=? MIN_MATCH) && (strstart w >? 0) then
    c ← aget (window w) (strstart w - 1);
    '(eq, scan) ← run_bytes 3 (window w) c (strstart w - 1);
    if eq : bool then
      let strend := strstart w + MAX_MATCH in
      scan ← run_loop 33 (window w) c scan strend;
      let len := MAX_MATCH - wrap 32 (strend - scan) in
      Some (if len >? lookahead w then lookahead w else len)
    else Some 0
  else Some 0.

Definition rle_turn (flush : Z) (z : zs) : option next :=
  refill z (MAX_MATCH + 1) flush (fun z =>
    len ← run_length (win z);
    let z := set_lm z (set_length (lm z) len) in
    '(z, bflush) ←
      (if len >=? MIN_MATCH then
         '(z, bflush) ← tally_dist z 1 (len - MIN_MATCH);
         let z := advance z len len in
         Some (set_lm z (set_length (lm z) 0), bflush)
       else emit_literal z);
    flush_if bflush z).

Definition no_insert (z : zs) : zs := set_win z (set_insert (win z) 0).

Definition deflate_rle (z : zs) (flush : Z) : option (zs * block_state) :=
  '(z, r) ← main_loop (rle_turn flush) (input_left z) z;
  match r with
  | Some b => Some (z, b)
  | None => finish_blocks (no_insert z) flush
  end.

(** ** [deflate_huff] *)

Definition huff_turn (flush : Z) (z : zs) : option next :=
  refill z 1 flush (fun z =>
    let z := set_lm z (set_length (lm z) 0) in
    '(z, bflush) ← emit_literal z;
    flush_if bflush z).

Definition deflate_huff (z : zs) (flush : Z) : option (zs * block_state) :=
  '(z, r) ← main_loop (huff_turn flush) (input_left z) z;
  match r with
  | Some b => Some (z, b)
  | None => finish_blocks (no_insert z) flush
  end.
End Code.
