(* ===== verification/LzStored.v ===== *)
(** * Storing without compression: deflate_stored (deflate.c) *)
From stdpp Require Import base numbers list.
From Stdlib Require Import ZArith Lia Bool.
From S2P Require Import Prelude Trees TreesTables TreesWriter TreesState LzState LzWindow.

(** The macro [MIN]. *)
Definition MIN (a b : Z) : Z := if a >? b then b else a.

Section Code.
Context (W : Z) (C : checksums).

(** [zmemcpy(strm->next_out, data, ...)] and the advance of the output fields. *)
Definition put_out (s : stream) (data : list Z) : stream :=
  let n := Z.of_nat (length data) in
  Stream (in_buf s) (next_in s) (avail_in s) (total_in s) (out_bytes s ++ data)
    (avail_out s - n) (wrap W (total_out s + n)) (adler s) (msg s).

(** The lengths in the dummy block become [len]. *)
Definition patch_lengths (w : writer) (len : Z) : option writer :=
  b ← aset (pending_buf w) (pending w - 4) (wrap 8 len);
  b ← aset b (pending w - 3) (wrap 8 (Z.shiftr len 8));
  b ← aset b (pending w - 2) (wrap 8 (wrap 32 (Z.lnot len)));
  b ← aset b (pending w - 1) (wrap 8 (Z.shiftr (wrap 32 (Z.lnot len)) 8));
  Some (Writer b (pending w) (bi_buf w) (bi_valid w)).

(** One direct copy: the state, [last], and whether the loop breaks.  [read_buf] has
    all of the [len] bytes; fewer would leave a gap in the output ([None]). *)
Definition copy_turn (flush min_block : Z) (z : zs) (last : Z) : option (zs * Z * bool) :=
  let have := Z.shiftr (bi_valid (wr (tr z)) + 42) 3 in
  if avail_out (strm z) <? have then Some (z, last, true)
  else
    let have := avail_out (strm z) - have in
    let left := wrap 32 (strstart (win z) - block_start (win z)) in
    let len := MAX_STORED in
    let len := if len >? left + avail_in (strm z) then left + avail_in (strm z) else len in
    let len := if len >? have then have else len in
    if (len <? min_block) && (((len =? 0) && negb (flush =? Z_FINISH)) || (flush =? Z_NO_FLUSH) ||
                              negb (len =? wrap 32 (left + avail_in (strm z))))
    then Some (z, last, true)
    else
      let last := if (flush =? Z_FINISH) && (len =? wrap 32 (left + avail_in (strm z))) then 1 else 0 in
      w ← tr_stored_block (wr (tr z)) [] 0 last;
      w ← patch_lengths w len;
      z ← flush_pending W (set_tr z (set_writer (tr z) w));
      '(z, len) ←
        (if negb (left =? 0) then
           let left := if left >? len then len else left in
           data ← read_at (window (win z)) (block_start (win z)) left;
           Some (set_win (set_strm z (put_out (strm z) data)) (set_block (win z) (block_start (win z) + left)), len - left)
         else Some (z, len));
      z ← (if negb (len =? 0) then
             '(s, data) ← read_buf W C (wrapper (ctl z)) (strm z) len;
             if Z.of_nat (length data) =? len then Some (set_strm z (put_out s data)) else None
           else Some z);
      Some (z, last, false).

(** [do ... while (last == 0)] *)
Fixpoint copy_loop (fuel : nat) (flush min_block : Z) (z : zs) : option (zs * Z) :=
  match fuel with
  | O => None
  | S fuel =>
      '(z, last, stop) ← copy_turn flush min_block z 0;
      if (stop : bool) || negb (last =? 0) then Some (z, last) else copy_loop fuel flush min_block z
  end.

(** [s->matches++], up to two: a pending [slide_hash]. *)
Definition count_slide (s : deflate_state) : deflate_state :=
  if matches s <? 2 then set_matches s (matches s + 1) else s.

(** The window after [used] bytes went from the input to the output. *)
Definition keep_history (z : zs) (used : Z) : option zs :=
  if negb (used =? 0) then
    let w := win z in
    '(t, w) ←
      (if used >=? w_size w then
         data ← read_at (in_buf (strm z)) (next_in (strm z) - w_size w) (w_size w);
         buf ← write_at (window w) 0 data;
         Some (set_matches (tr z) 2,
               Win (w_bits w) buf (window_size w) (high_water w) (block_start w) (w_size w) (lookahead w) (w_size w))
       else
         '(t, w) ←
           (if window_size w - strstart w <=? used then
              let start := wrap 32 (strstart w - w_size w) in
              data ← read_at (window w) (w_size w) start;
              buf ← write_at (window w) 0 data;
              let insert := if insert w >? start then start else insert w in
              Some (count_slide (tr z),
                    Win (w_bits w) buf (window_size w) (high_water w) (block_start w) start (lookahead w) insert)
            else Some (tr z, w));
         data ← read_at (in_buf (strm z)) (next_in (strm z) - used) used;
         buf ← write_at (window w) (strstart w) data;
         Some (t, Win (w_bits w) buf (window_size w) (high_water w) (block_start w) (strstart w + used) (lookahead w)
                    (insert w + MIN used (wrap 32 (w_size w - insert w)))));
    Some (set_win (set_tr z t) (set_block w (strstart w)))
  else Some z.

Definition raise_high (w : window_state) : window_state :=
  if high_water w <? strstart w then set_high w (strstart w) else w.

(** The remaining input goes to the window. *)
Definition fill_rest (z : zs) : option zs :=
  let w := win z in
  let have := wrap 32 (window_size w - strstart w) in
  '(t, w, have) ←
    (if (avail_in (strm z) >? have) && (block_start w >=? w_size w) then
       let start := wrap 32 (strstart w - w_size w) in
       data ← read_at (window w) (w_size w) start;
       buf ← write_at (window w) 0 data;
       let insert := if insert w >? start then start else insert w in
       Some (count_slide (tr z),
             Win (w_bits w) buf (window_size w) (high_water w) (block_start w - w_size w) start (lookahead w) insert,
             wrap 32 (have + w_size w))
     else Some (tr z, w, have));
  let have := if have >? avail_in (strm z) then avail_in (strm z) else have in
  '(s, w) ←
    (if negb (have =? 0) then
       '(s, data) ← read_buf W C (wrapper (ctl z)) (strm z) have;
       buf ← write_at (window w) (strstart w) data;
       Some (s, Win (w_bits w) buf (window_size w) (high_water w) (block_start w) (strstart w + have) (lookahead w)
                  (insert w + MIN have (wrap 32 (w_size w - insert w))))
     else Some (strm z, w));
  Some (ZS s (raise_high w) (dict z) (lm z) t (ctl z)).

(** A stored block to [pending_buf], if it is worth it: the state and [last]. *)
Definition store_pending (flush last : Z) (z : zs) : option (zs * Z) :=
  let have := Z.shiftr (bi_valid (wr (tr z)) + 42) 3 in
  let have := MIN (pending_buf_size (tr z) - have) MAX_STORED in
  let min_block := MIN have (w_size (win z)) in
  let left := wrap 32 (strstart (win z) - block_start (win z)) in
  if (left >=? min_block) ||
     ((negb (left =? 0) || (flush =? Z_FINISH)) && negb (flush =? Z_NO_FLUSH) && (avail_in (strm z) =? 0) && (left <=? have))
  then
    let len := MIN left have in
    let last := if (flush =? Z_FINISH) && (avail_in (strm z) =? 0) && (len =? left) then 1 else 0 in
    w ← tr_stored_block (wr (tr z)) (drop (Z.to_nat (block_start (win z))) (window (win z))) len last;
    z ← flush_pending W (set_win (set_tr z (set_writer (tr z) w)) (set_block (win z) (block_start (win z) + len)));
    Some (z, last)
  else Some (z, last).

(** Each turn but the last copies a block that is not empty. *)
Definition deflate_stored (z : zs) (flush : Z) : option (zs * block_state) :=
  let min_block := MIN (pending_buf_size (tr z) - 5) (w_size (win z)) in
  let used := avail_in (strm z) in
  '(z, last) ← copy_loop (S (Z.to_nat (wrap 32 (strstart (win z) - block_start (win z)) + avail_in (strm z)))) flush min_block z;
  z ← keep_history z (used - avail_in (strm z));
  let z := set_win z (raise_high (win z)) in
  if negb (last =? 0) then Some (z, finish_done)
  else if negb (flush =? Z_NO_FLUSH) && negb (flush =? Z_FINISH) && (avail_in (strm z) =? 0) &&
          (strstart (win z) =? block_start (win z))
  then Some (z, block_done)
  else
    z ← fill_rest z;
    '(z, last) ← store_pending flush last z;
    Some (z, if negb (last =? 0) then finish_started else need_more).
End Code.
