(* ===== verification/LzCall.v ===== *)
(** * The entry points of deflate.c

    [deflate] and the functions that set up, tune and inspect a stream.  The
    pointers to the stream and to its state are valid (what [deflateStateCheck]
    can tell from [status] is kept); [next_in] and [next_out] may be null. *)
From stdpp Require Import base numbers list.
From Stdlib Require Import ZArith Lia Bool.
From S2P Require Import Prelude Trees TreesTables TreesWriter TreesState LzState LzWindow LzMatch LzStored.

(** The macro [RANK]. *)
Definition RANK (f : Z) : Z := f * 2 - (if f >? 4 then 9 else 0).

Definition deflateStateCheck (z : zs) : bool :=
  negb (existsb (Z.eqb (status (ctl z)))
    [INIT_STATE; GZIP_STATE; EXTRA_STATE; NAME_STATE; COMMENT_STATE; HCRC_STATE; BUSY_STATE; FINISH_STATE]).

(** [ERR_RETURN] *)
Definition err_return (z : zs) (err : Z) : zs * Z := (set_strm z (set_msg (strm z) (Some err)), err).

Definition with_wr (z : zs) (w : writer) : zs := set_tr z (set_writer (tr z) w).
Definition with_ctl (z : zs) (f : control -> control) : zs := set_ctl z (f (ctl z)).

(** The end of a part of [deflate]: it goes on, or [deflate] returns. *)
Inductive outcome := Next (z : zs) | Done (z : zs) (ret : Z).

Section Code.
Context (W : Z) (C : checksums).

(** [put_byte] of each byte. *)
Fixpoint put_list (w : writer) (l : list Z) : option writer :=
  match l with [] => Some w | c :: l => w ← put_byte w c; put_list w l end.

Definition putShortMSB (w : writer) (b : Z) : option writer :=
  w ← put_byte w (wrap 8 (Z.shiftr b 8)); put_byte w (wrap 8 (Z.land b 255)).

(** [flush_pending(strm); if (s->pending != 0) { s->last_flush = -1; return Z_OK; }] *)
Definition flush_or_return (z : zs) (k : zs -> option outcome) : option outcome :=
  z ← flush_pending W z;
  if negb (pending (wr (tr z)) =? 0) then Some (Done (with_ctl z (fun c => set_last_flush c (-1))) Z_OK) else k z.

(** ** The headers *)

Definition zlib_header (z : zs) : Z :=
  let header := Z.shiftl (Z_DEFLATED + Z.shiftl (w_bits (win z) - 8) 4) 8 in
  let t := tr z in
  let level_flags :=
    if (strategy t >=? Z_HUFFMAN_ONLY) || (level t <? 2) then 0
    else if level t <? 6 then 1 else if level t =? 6 then 2 else 3 in
  let header := Z.lor header (Z.shiftl level_flags 6) in
  let header := if negb (strstart (win z) =? 0) then Z.lor header PRESET_DICT else header in
  header + (31 - header mod 31).

Definition write_zlib_header (z : zs) : option outcome :=
  w ← putShortMSB (wr (tr z)) (zlib_header z);
  w ← (if negb (strstart (win z) =? 0) then
         w ← putShortMSB w (wrap 32 (Z.shiftr (adler (strm z)) 16));
         putShortMSB w (wrap 32 (Z.land (adler (strm z)) 65535))
       else Some w);
  let z := set_strm (with_wr z w) (set_adler (strm z) 1) in
  flush_or_return (with_ctl z (fun c => set_status c BUSY_STATE)) (fun z => Some (Next z)).

(** The byte that tells the compression level. *)
Definition xfl (t : deflate_state) : Z :=
  if level t =? 9 then 2 else if (strategy t >=? Z_HUFFMAN_ONLY) || (level t <? 2) then 4 else 0.

Definition flag {A} (p : option A) (v : Z) : Z := match p with Some _ => v | None => 0 end.
Definition byte_at (v k : Z) : Z := Z.land (Z.shiftr v k) 255.

Definition gzip_start (z : zs) : option outcome :=
  let z := set_strm z (set_adler (strm z) 0) in
  match gzhead (ctl z) with
  | None =>
      w ← put_list (wr (tr z)) [31; 139; 8; 0; 0; 0; 0; 0; xfl (tr z); OS_CODE];
      flush_or_return (with_ctl (with_wr z w) (fun c => set_status c BUSY_STATE)) (fun z => Some (Next z))
  | Some h =>
      let flags := (if negb (gz_text h =? 0) then 1 else 0) + (if negb (gz_hcrc h =? 0) then 2 else 0) +
                   flag (gz_extra h) 4 + flag (gz_name h) 8 + flag (gz_comment h) 16 in
      w ← put_list (wr (tr z))
            [31; 139; 8; flags; byte_at (gz_time h) 0; byte_at (gz_time h) 8; byte_at (gz_time h) 16; byte_at (gz_time h) 24;
             xfl (tr z); Z.land (gz_os h) 255];
      w ← (match gz_extra h with
           | Some _ => put_list w [Z.land (gz_extra_len h) 255; Z.land (Z.shiftr (gz_extra_len h) 8) 255]
           | None => Some w
           end);
      ad ← (if negb (gz_hcrc h =? 0) then
              data ← read_at (pending_buf w) 0 (pending w); c_crc32 C (adler (strm z)) data
            else Some (adler (strm z)));
      let z := set_strm (with_wr z w) (set_adler (strm z) ad) in
      Some (Next (with_ctl z (fun c => set_status (set_gzindex c 0) EXTRA_STATE)))
  end.

(** [HCRC_UPDATE(beg)] *)
Definition HCRC_UPDATE (z : zs) (h : gz_header) (beg : Z) : option zs :=
  let w := wr (tr z) in
  if negb (gz_hcrc h =? 0) && (pending w >? beg) then
    data ← read_at (pending_buf w) beg (pending w - beg);
    ad ← c_crc32 C (adler (strm z)) data;
    Some (set_strm z (set_adler (strm z) ad))
  else Some z.

(** [zmemcpy(s->pending_buf + s->pending, s->gzhead->extra + s->gzindex, n); s->pending += n;] *)
Definition copy_extra (z : zs) (extra : list Z) (n : Z) : option zs :=
  let w := wr (tr z) in
  data ← read_at extra (gzindex (ctl z)) n;
  buf ← write_at (pending_buf w) (pending w) data;
  Some (with_wr z (Writer buf (pending w + n) (bi_buf w) (bi_valid w))).

(** [while (s->pending + left > s->pending_buf_size)], then the rest. *)
Fixpoint extra_loop (fuel : nat) (z : zs) (h : gz_header) (extra : list Z) (beg left : Z) : option outcome :=
  match fuel with
  | O => None
  | S fuel =>
      let w := wr (tr z) in
      if pending w + left >? pending_buf_size (tr z) then
        let copy := pending_buf_size (tr z) - pending w in
        z ← copy_extra z extra copy;
        z ← HCRC_UPDATE z h beg;
        let z := with_ctl z (fun c => set_gzindex c (gzindex c + copy)) in
        flush_or_return z (fun z => extra_loop fuel z h extra 0 (left - copy))
      else
        z ← copy_extra z extra left;
        z ← HCRC_UPDATE z h beg;
        Some (Next (with_ctl z (fun c => set_status (set_gzindex c 0) NAME_STATE)))
  end.

Definition gzip_extra (z : zs) : option outcome :=
  h ← gzhead (ctl z);
  match gz_extra h with
  | Some extra =>
      let left := wrap 32 (Z.land (gz_extra_len h) 65535 - gzindex (ctl z)) in
      extra_loop (S (Z.to_nat left)) z h extra (pending (wr (tr z))) left
  | None => Some (Next (with_ctl z (fun c => set_status c NAME_STATE)))
  end.

(** [do ... while (val != 0)], over a zero-terminated string. *)
Fixpoint string_loop (fuel : nat) (z : zs) (h : gz_header) (str : list Z) (beg : Z) : option outcome :=
  match fuel with
  | O => None
  | S fuel =>
      let put z beg :=
        val ← aget str (gzindex (ctl z));
        w ← put_byte (wr (tr z)) val;
        let z := with_ctl (with_wr z w) (fun c => set_gzindex c (gzindex c + 1)) in
        if negb (val =? 0) then string_loop fuel z h str beg
        else z ← HCRC_UPDATE z h beg; Some (Next z) in
      if pending (wr (tr z)) =? pending_buf_size (tr z) then
        z ← HCRC_UPDATE z h beg;
        flush_or_return z (fun z => put z 0)
      else put z beg
  end.

Definition gzip_name (z : zs) : option outcome :=
  h ← gzhead (ctl z);
  match gz_name h with
  | Some name =>
      r ← string_loop (length name) z h name (pending (wr (tr z)));
      Some (match r with
            | Next z => Next (with_ctl z (fun c => set_status (set_gzindex c 0) COMMENT_STATE))
            | r => r
            end)
  | None => Some (Next (with_ctl z (fun c => set_status c COMMENT_STATE)))
  end.

Definition gzip_comment (z : zs) : option outcome :=
  h ← gzhead (ctl z);
  match gz_comment h with
  | Some comment =>
      r ← string_loop (length comment) z h comment (pending (wr (tr z)));
      Some (match r with
            | Next z => Next (with_ctl z (fun c => set_status c HCRC_STATE))
            | r => r
            end)
  | None => Some (Next (with_ctl z (fun c => set_status c HCRC_STATE)))
  end.

Definition gzip_hcrc (z : zs) : option outcome :=
  h ← gzhead (ctl z);
  let busy z := flush_or_return (with_ctl z (fun c => set_status c BUSY_STATE)) (fun z => Some (Next z)) in
  if negb (gz_hcrc h =? 0) then
    let put z :=
      w ← put_list (wr (tr z)) [Z.land (adler (strm z)) 255; Z.land (Z.shiftr (adler (strm z)) 8) 255];
      busy (set_strm (with_wr z w) (set_adler (strm z) 0)) in
    if pending (wr (tr z)) + 2 >? pending_buf_size (tr z) then flush_or_return z put else put z
  else busy z.

(** [if (s->status == state) part] *)
Definition in_state (state : Z) (part : zs -> option outcome) (o : outcome) : option outcome :=
  match o with
  | Next z => if status (ctl z) =? state then part z else Some (Next z)
  | o => Some o
  end.

Definition write_header (z : zs) : option outcome :=
  let z := if (status (ctl z) =? INIT_STATE) && (wrapper (ctl z) =? 0)
           then with_ctl z (fun c => set_status c BUSY_STATE) else z in
  o ← in_state INIT_STATE write_zlib_header (Next z);
  o ← in_state GZIP_STATE gzip_start o;
  o ← in_state EXTRA_STATE gzip_extra o;
  o ← in_state NAME_STATE gzip_name o;
  o ← in_state COMMENT_STATE gzip_comment o;
  in_state HCRC_STATE gzip_hcrc o.

(** ** The blocks *)

Definition compress (z : zs) (flush : Z) : option (zs * block_state) :=
  let t := tr z in
  if level t =? 0 then deflate_stored W C z flush
  else if strategy t =? Z_HUFFMAN_ONLY then deflate_huff W C z flush
  else if strategy t =? Z_RLE then deflate_rle W C z flush
  else
    c ← aget configuration_table (level t);
    match func c with
    | deflate_stored_f => deflate_stored W C z flush
    | deflate_fast_f => deflate_fast W C z flush
    | deflate_slow_f => deflate_slow W C z flush
    end.

(** What follows a flushed block. *)
Definition flush_marker (z : zs) (flush : Z) : option zs :=
  if flush =? Z_PARTIAL_FLUSH then w ← tr_align (wr (tr z)); Some (with_wr z w)
  else if negb (flush =? Z_BLOCK) then
    w ← tr_stored_block (wr (tr z)) [] 0 0;
    let z := with_wr z w in
    if flush =? Z_FULL_FLUSH then
      let z := set_dict z (CLEAR_HASH (dict z)) in
      Some (if lookahead (win z) =? 0
            then set_win z (set_insert (set_block (set_pos (win z) 0 (lookahead (win z))) 0) 0) else z)
    else Some z
  else Some z.

Definition write_blocks (z : zs) (flush : Z) : option outcome :=
  if negb (avail_in (strm z) =? 0) || negb (lookahead (win z) =? 0) ||
     (negb (flush =? Z_NO_FLUSH) && negb (status (ctl z) =? FINISH_STATE))
  then
    '(z, bstate) ← compress z flush;
    let z := match bstate with
             | finish_started | finish_done => with_ctl z (fun c => set_status c FINISH_STATE)
             | _ => z
             end in
    let out_full z := with_ctl z (fun c => if avail_out (strm z) =? 0 then set_last_flush c (-1) else c) in
    match bstate with
    | need_more | finish_started => Some (Done (out_full z) Z_OK)
    | block_done =>
        z ← flush_marker z flush;
        z ← flush_pending W z;
        Some (if avail_out (strm z) =? 0 then Done (out_full z) Z_OK else Next z)
    | finish_done => Some (Next z)
    end
  else Some (Next z).

Definition write_trailer (z : zs) : option (zs * Z) :=
  let s := strm z in
  w ← (if wrapper (ctl z) =? 2 then
         put_list (wr (tr z))
           [byte_at (adler s) 0; byte_at (adler s) 8; byte_at (adler s) 16; byte_at (adler s) 24;
            byte_at (total_in s) 0; byte_at (total_in s) 8; byte_at (total_in s) 16; byte_at (total_in s) 24]
       else
         w ← putShortMSB (wr (tr z)) (wrap 32 (Z.shiftr (adler s) 16));
         putShortMSB w (wrap 32 (Z.land (adler s) 65535)));
  z ← flush_pending W (with_wr z w);
  let z := with_ctl z (fun c => if wrapper c >? 0 then set_wrapper c (- wrapper c) else c) in
  Some (z, if negb (pending (wr (tr z)) =? 0) then Z_OK else Z_STREAM_END).

(** ** [deflate] *)

(** [next_in_null], [next_out_null]: the pointers are [Z_NULL]. *)
Definition deflate (next_in_null next_out_null : bool) (z : zs) (flush : Z) : option (zs * Z) :=
  if deflateStateCheck z || (flush >? Z_BLOCK) || (flush <? 0) then Some (z, Z_STREAM_ERROR)
  else if next_out_null || (negb (avail_in (strm z) =? 0) && next_in_null) ||
          ((status (ctl z) =? FINISH_STATE) && negb (flush =? Z_FINISH))
  then Some (err_return z Z_STREAM_ERROR)
  else if avail_out (strm z) =? 0 then Some (err_return z Z_BUF_ERROR)
  else
    let old_flush := last_flush (ctl z) in
    let z := with_ctl z (fun c => set_last_flush c flush) in
    o ← (if negb (pending (wr (tr z)) =? 0) then
           z ← flush_pending W z;
           Some (if avail_out (strm z) =? 0 then Done (with_ctl z (fun c => set_last_flush c (-1))) Z_OK else Next z)
         else if (avail_in (strm z) =? 0) && (RANK flush <=? RANK old_flush) && negb (flush =? Z_FINISH) then
           let '(z, r) := err_return z Z_BUF_ERROR in Some (Done z r)
         else Some (Next z));
    match o with
    | Done z r => Some (z, r)
    | Next z =>
        if (status (ctl z) =? FINISH_STATE) && negb (avail_in (strm z) =? 0) then Some (err_return z Z_BUF_ERROR)
        else
          o ← write_header z;
          match o with
          | Done z r => Some (z, r)
          | Next z =>
              o ← write_blocks z flush;
              match o with
              | Done z r => Some (z, r)
              | Next z =>
                  if negb (flush =? Z_FINISH) then Some (z, Z_OK)
                  else if wrapper (ctl z) <=? 0 then Some (z, Z_STREAM_END)
                  else write_trailer z
              end
          end
    end.

(** ** Setting up *)

Definition deflateResetKeep (z : zs) : option (zs * Z) :=
  if deflateStateCheck z then Some (z, Z_STREAM_ERROR)
  else
    let s := strm z in
    let wrapper_ := if wrapper (ctl z) <? 0 then - wrapper (ctl z) else wrapper (ctl z) in
    let s := Stream (in_buf s) (next_in s) (avail_in s) 0 (out_bytes s) (avail_out s) 0
               (if wrapper_ =? 2 then 0 else 1) None in
    let t := set_data_type (tr z) Z_UNKNOWN in
    let w := wr t in
    t ← tr_init (set_writer t (Writer (pending_buf w) 0 (bi_buf w) (bi_valid w)));
    Some (ZS s (win z) (dict z) (lm z) t
            (Control (if wrapper_ =? 2 then GZIP_STATE else INIT_STATE) wrapper_ (gzhead (ctl z)) (gzindex (ctl z)) (-2) 0),
          Z_OK).

Definition deflateReset (z : zs) : option (zs * Z) :=
  '(z, ret) ← deflateResetKeep z;
  if ret =? Z_OK then z ← lm_init z; Some (z, ret) else Some (z, ret).

(** The memory that the calls of ZALLOC return: [None] is a null pointer. *)
Record memory := Memory { m_state : option zs; m_window : option (list Z); m_prev : option (list Z);
  m_head : option (list Z); m_pending : option (list Z) }.

(** [version_ok]: the major version and the size of [z_stream] agree. *)
Definition deflateInit2_ (s : stream) (mem : memory) (level method windowBits memLevel strategy : Z) (version_ok : bool)
    : option (option zs * Z) :=
  if negb version_ok then Some (None, Z_VERSION_ERROR)
  else
    let level := if level =? Z_DEFAULT_COMPRESSION then 6 else level in
    let '(wrap_, windowBits) :=
      if windowBits <? 0 then (0, - windowBits) else if windowBits >? 15 then (2, windowBits - 16) else (1, windowBits) in
    if (memLevel <? 1) || (memLevel >? MAX_MEM_LEVEL) || negb (method =? Z_DEFLATED) ||
       (windowBits <? 8) || (windowBits >? 15) || (level <? 0) || (level >? 9) ||
       (strategy <? 0) || (strategy >? Z_FIXED) || ((windowBits =? 8) && negb (wrap_ =? 1))
    then Some (None, Z_STREAM_ERROR)
    else
      let windowBits := if windowBits =? 8 then 9 else windowBits in
      match m_state mem, m_window mem, m_prev mem, m_head mem, m_pending mem with
      | Some raw, Some window, Some prev, Some head, Some buf =>
          let bufsize := Z.shiftl 1 (memLevel + 6) in
          let t := tr raw in
          let w := wr t in
          '(z, ret) ← deflateReset
            (ZS s
               (Win windowBits window (window_size (win raw)) 0 (block_start (win raw)) (strstart (win raw))
                  (lookahead (win raw)) (insert (win raw)))
               (Hash (memLevel + 7) (ins_h (dict raw)) head prev)
               (lm raw)
               (State (l_desc t) (d_desc t) (bl_desc t) (huff t) (Writer buf (pending w) (bi_buf w) (bi_valid w))
                  bufsize (sym_next t) ((bufsize - 1) * 3) (matches t) level strategy (data_type t))
               (Control INIT_STATE wrap_ None (gzindex (ctl raw)) (last_flush (ctl raw)) (pending_out (ctl raw))));
          Some (Some z, ret)
      | _, _, _, _, _ => Some (None, Z_MEM_ERROR)
      end.

Definition deflateInit_ (s : stream) (mem : memory) (level : Z) (version_ok : bool) : option (option zs * Z) :=
  deflateInit2_ s mem level Z_DEFLATED 15 8 0 version_ok.

Definition deflateEnd (z : zs) : Z :=
  if deflateStateCheck z then Z_STREAM_ERROR
  else if status (ctl z) =? BUSY_STATE then -3 else Z_OK.

(** [dest_null]: [dest] is a null pointer; [mem] is what the calls of ZALLOC for [dest] return. *)
Definition deflateCopy (dest_null : bool) (z : zs) (mem : memory) : option (option zs * Z) :=
  if deflateStateCheck z || dest_null then Some (None, Z_STREAM_ERROR)
  else
    match m_state mem, m_window mem, m_prev mem, m_head mem, m_pending mem with
    | Some _, Some bw, Some bp, Some bh, Some bb =>
        let w := win z in
        let d := dict z in
        let o := wr (tr z) in
        data ← read_at (window w) 0 (w_size w * 2); bw ← write_at bw 0 data;
        data ← read_at (prev d) 0 (w_size w); bp ← write_at bp 0 data;
        data ← read_at (head d) 0 (hash_size d); bh ← write_at bh 0 data;
        data ← read_at (pending_buf o) 0 (pending_buf_size (tr z)); bb ← write_at bb 0 data;
        Some (Some (ZS (strm z) (set_window w bw) (Hash (hash_bits d) (ins_h d) bh bp) (lm z)
                      (set_writer (tr z) (Writer bb (pending o) (bi_buf o) (bi_valid o))) (ctl z)), Z_OK)
    | _, _, _, _, _ => Some (None, Z_MEM_ERROR)
    end.

(** ** Settings and queries *)

Definition deflateSetHeader (z : zs) (h : option gz_header) : zs * Z :=
  if deflateStateCheck z || negb (wrapper (ctl z) =? 2) then (z, Z_STREAM_ERROR)
  else
    let c := ctl z in
    (set_ctl z (Control (status c) (wrapper c) h (gzindex c) (last_flush c) (pending_out c)), Z_OK).

(** The counts of pending bytes and bits. *)
Definition deflatePending (z : zs) : option (Z * Z) :=
  if deflateStateCheck z then None else Some (pending (wr (tr z)), bi_valid (wr (tr z))).

(** [do ... while (bits)] *)
Fixpoint prime_loop (fuel : nat) (w : writer) (bits value : Z) : option writer :=
  match fuel with
  | O => None
  | S fuel =>
      let put := Buf_size - bi_valid w in
      let put := if put >? bits then bits else put in
      let b := Z.lor (bi_buf w) (wrap 16 (Z.shiftl (Z.land value (Z.shiftl 1 put - 1)) (bi_valid w))) in
      w ← tr_flush_bits (Writer (pending_buf w) (pending w) b (bi_valid w + put));
      if negb (bits - put =? 0) then prime_loop fuel w (bits - put) (Z.shiftr value put) else Some w
  end.

Definition deflatePrime (z : zs) (bits value : Z) : option (zs * Z) :=
  if deflateStateCheck z then Some (z, Z_STREAM_ERROR)
  else if (bits <? 0) || (bits >? 16) || (lit_bufsize (tr z) <? pending_out (ctl z) + Z.shiftr (Buf_size + 7) 3)
  then Some (z, Z_BUF_ERROR)
  else w ← prime_loop 17 (wr (tr z)) bits value; Some (with_wr z w, Z_OK).

Definition deflateTune (z : zs) (good lazy nice chain : Z) : zs * Z :=
  if deflateStateCheck z then (z, Z_STREAM_ERROR)
  else
    let m := lm z in
    (set_lm z (Match (match_length m) (prev_match m) (match_available m) (match_start m) (prev_length m)
                 (wrap 32 chain) (wrap 32 lazy) (wrap 32 good) nice), Z_OK).

Definition func_eqb (f g : compress_func) : bool :=
  match f, g with
  | deflate_stored_f, deflate_stored_f | deflate_fast_f, deflate_fast_f | deflate_slow_f, deflate_slow_f => true
  | _, _ => false
  end.

Definition set_level_strategy (t : deflate_state) (level strategy : Z) : deflate_state :=
  State (l_desc t) (d_desc t) (bl_desc t) (huff t) (wr t) (lit_bufsize t) (sym_next t) (sym_end t) (matches t)
    level strategy (data_type t).

(** The second half of [deflateParams]. *)
Definition change_level (z : zs) (lev strat : Z) : option zs :=
  z ← (if negb (level (tr z) =? lev) then
         let z := if (level (tr z) =? 0) && negb (matches (tr z) =? 0) then
                    let d := if matches (tr z) =? 1 then slide_hash (w_size (win z)) (dict z) else CLEAR_HASH (dict z) in
                    set_tr (set_dict z d) (set_matches (tr z) 0)
                  else z in
         c ← aget configuration_table lev;
         let m := lm z in
         Some (set_lm (set_tr z (set_level_strategy (tr z) lev (strategy (tr z))))
                 (Match (match_length m) (prev_match m) (match_available m) (match_start m) (prev_length m)
                    (max_chain c) (max_lazy c) (good_length c) (nice_length c)))
       else Some z);
  Some (set_tr z (set_level_strategy (tr z) (level (tr z)) strat)).

Definition deflateParams (next_in_null next_out_null : bool) (z : zs) (lev strat : Z) : option (zs * Z) :=
  if deflateStateCheck z then Some (z, Z_STREAM_ERROR)
  else
    let lev := if lev =? Z_DEFAULT_COMPRESSION then 6 else lev in
    if (lev <? 0) || (lev >? 9) || (strat <? 0) || (strat >? Z_FIXED) then Some (z, Z_STREAM_ERROR)
    else
      c ← aget configuration_table (level (tr z));
      c' ← aget configuration_table lev;
      '(z, err) ←
        (if (negb (strat =? strategy (tr z)) || negb (func_eqb (func c) (func c'))) && negb (last_flush (ctl z) =? -2) then
           '(z, err) ← deflate next_in_null next_out_null z Z_BLOCK;
           if err =? Z_STREAM_ERROR then Some (z, err)
           else if negb (avail_in (strm z) =? 0) ||
                   negb (wrap W (strstart (win z) - block_start (win z) + lookahead (win z)) =? 0)
           then Some (z, Z_BUF_ERROR)
           else Some (z, Z_OK)
         else Some (z, Z_OK));
      if negb (err =? Z_OK) then Some (z, err) else z ← change_level z lev strat; Some (z, Z_OK).

(** [do ... while (--n)]: [n] strings of the dictionary. *)
Fixpoint insert_dict (n : nat) (w : window_state) (d : hash_state) (str : Z) : option hash_state :=
  match n with
  | O => Some d
  | S n => '(d, _) ← insert_string w d str; insert_dict n w d (str + 1)
  end.

(** [while (s->lookahead >= MIN_MATCH)] *)
Fixpoint dict_loop (fuel : nat) (z : zs) : option zs :=
  match fuel with
  | O => None
  | S fuel =>
      let w := win z in
      if lookahead w >=? MIN_MATCH then
        let n := lookahead w - (MIN_MATCH - 1) in
        d ← insert_dict (Z.to_nat n) w (dict z) (strstart w);
        z ← fill_window W C (set_dict (set_win z (set_pos w (strstart w + n) (MIN_MATCH - 1))) d);
        dict_loop fuel z
      else Some z
  end.

Definition deflateSetDictionary (z : zs) (dictionary : option (list Z)) (dictLength : Z) : option (zs * Z) :=
  match deflateStateCheck z, dictionary with
  | false, Some dictionary =>
      let wrap_ := wrapper (ctl z) in
      if (wrap_ =? 2) || ((wrap_ =? 1) && negb (status (ctl z) =? INIT_STATE)) || negb (lookahead (win z) =? 0)
      then Some (z, Z_STREAM_ERROR)
      else
        data ← read_at dictionary 0 dictLength;
        ad ← (if wrap_ =? 1 then c_adler32 C (adler (strm z)) data else Some (adler (strm z)));
        let w := win z in
        let '(w, d, start) :=
          if dictLength >=? w_size w then
            (if wrap_ =? 0 then (set_insert (set_block (set_pos w 0 (lookahead w)) 0) 0, CLEAR_HASH (dict z)) else (w, dict z),
             dictLength - w_size w)
          else (w, dict z, 0) in
        let s := strm z in
        let len := if dictLength >=? w_size w then w_size w else dictLength in
        let s' := Stream dictionary start len (total_in s) (out_bytes s) (avail_out s) (total_out s) ad (msg s) in
        z ← fill_window W C (ZS s' w d (lm z) (tr z) (set_wrapper (ctl z) 0));
        z ← dict_loop (S (Z.to_nat len)) z;
        let w := win z in
        let start := strstart w + lookahead w in
        let w := Win (w_bits w) (window w) (window_size w) (high_water w) start start 0 (lookahead w) in
        let m := lm z in
        let s' := strm z in
        Some (ZS (Stream (in_buf s) (next_in s) (avail_in s) (total_in s') (out_bytes s') (avail_out s') (total_out s') (adler s') (msg s'))
                w (dict z) (set_available (set_length (set_prev m (MIN_MATCH - 1) (prev_match m)) (MIN_MATCH - 1)) 0)
                (tr z) (set_wrapper (ctl z) wrap_), Z_OK)
  | _, _ => Some (z, Z_STREAM_ERROR)
  end.

(** The bytes that [deflateGetDictionary] copies. *)
Definition deflateGetDictionary (z : zs) : option (list Z) :=
  let w := win z in
  if deflateStateCheck z then None
  else
    let len := strstart w + lookahead w in
    let len := if len >? w_size w then w_size w else len in
    read_at (window w) (strstart w + lookahead w - len) len.

(** The length up to and with the first zero. *)
Fixpoint string_length (str : list Z) : option Z :=
  match str with
  | [] => None
  | c :: str => if c =? 0 then Some 1 else n ← string_length str; Some (1 + n)
  end.

Definition header_length (h : gz_header) : option Z :=
  n ← match gz_name h with Some str => string_length str | None => Some 0 end;
  c ← match gz_comment h with Some str => string_length str | None => Some 0 end;
  Some (match gz_extra h with Some _ => 2 + gz_extra_len h | None => 0 end + n + c + (if negb (gz_hcrc h =? 0) then 2 else 0)).

Definition deflateBound (z : option zs) (sourceLen : Z) : option Z :=
  let fixedlen := wrap W (sourceLen + Z.shiftr sourceLen 3 + Z.shiftr sourceLen 8 + Z.shiftr sourceLen 9 + 4) in
  let storelen := wrap W (sourceLen + Z.shiftr sourceLen 5 + Z.shiftr sourceLen 7 + Z.shiftr sourceLen 11 + 7) in
  match z with
  | None => Some (wrap W ((if fixedlen >? storelen then fixedlen else storelen) + 6))
  | Some z =>
      let c := ctl z in
      wraplen ←
        (if wrapper c =? 0 then Some 0
         else if wrapper c =? 1 then Some (6 + (if negb (strstart (win z) =? 0) then 4 else 0))
         else if wrapper c =? 2 then
           n ← match gzhead c with Some h => header_length h | None => Some 0 end; Some (wrap W (18 + n))
         else Some 6);
      Some (wrap W
        (if negb (w_bits (win z) =? 15) || negb (hash_bits (dict z) =? 8 + 7) then
           (if w_bits (win z) <=? hash_bits (dict z) then fixedlen else storelen) + wraplen
         else sourceLen + Z.shiftr sourceLen 12 + Z.shiftr sourceLen 14 + Z.shiftr sourceLen 25 + 13 - 6 + wraplen))
  end.
End Code.
