(* ===== verification/LzCompress.v ===== *)
(** * compress.c: a buffer compressed in one call

    [dest], [source] and [destLen] are valid pointers; [source] has at least
    [sourceLen] bytes.  The result is the bytes written to [dest], the value left
    in [*destLen] and the return value. *)
From stdpp Require Import base numbers list.
From Stdlib Require Import ZArith Lia Bool.
From S2P Require Import Prelude Trees TreesTables TreesWriter TreesState LzState LzWindow LzMatch LzStored LzCall.

Definition set_avail_out (s : stream) (x : Z) : stream :=
  Stream (in_buf s) (next_in s) (avail_in s) (total_in s) (out_bytes s) x (total_out s) (adler s) (msg s).
Definition set_avail_in (s : stream) (x : Z) : stream :=
  Stream (in_buf s) (next_in s) x (total_in s) (out_bytes s) (avail_out s) (total_out s) (adler s) (msg s).

Section Code.
Context (W : Z) (C : checksums).

(** [const uInt max = (uInt)-1] *)
Definition uint_max : Z := 4294967295.

(** [x > (uLong)max ? max : (uInt)x] *)
Definition capped (x : Z) : Z := if x >? uint_max then uint_max else wrap 32 x.

(** The [do] loop; [fuel] bounds its turns. *)
Fixpoint compress2_loop (fuel : nat) (z : zs) (left_ sourceLen : Z) : option (zs * Z) :=
  match fuel with
  | O => None
  | S fuel =>
      let '(z, left_) :=
        if avail_out (strm z) =? 0 then
          let n := capped left_ in (set_strm z (set_avail_out (strm z) n), wrap W (left_ - n))
        else (z, left_) in
      let '(z, sourceLen) :=
        if avail_in (strm z) =? 0 then
          let n := capped sourceLen in (set_strm z (set_avail_in (strm z) n), wrap W (sourceLen - n))
        else (z, sourceLen) in
      '(z, err) ← deflate W C false false z (if negb (sourceLen =? 0) then Z_NO_FLUSH else Z_FINISH);
      if err =? Z_OK then compress2_loop fuel z left_ sourceLen else Some (z, err)
  end.

(** [stream] is the local variable, as it was found; [mem] is what ZALLOC returns. *)
Definition compress2 (stream : stream) (mem : memory) (destLen : Z) (source : list Z) (sourceLen level : Z) : option (list Z * Z * Z) :=
  '(z, err) ← deflateInit_ stream mem level true;
  if negb (err =? Z_OK) then Some ([], 0, err)
  else
    z ← z;
    let s := strm z in
    let s := Stream source 0 0 (total_in s) [] 0 (total_out s) (adler s) (msg s) in
    '(z, err) ← compress2_loop (2 + Z.to_nat (destLen + sourceLen)) (set_strm z s) destLen sourceLen;
    Some (out_bytes (strm z), total_out (strm z), if err =? Z_STREAM_END then Z_OK else err).

Definition compress (stream : stream) (mem : memory) (destLen : Z) (source : list Z) (sourceLen : Z) : option (list Z * Z * Z) :=
  compress2 stream mem destLen source sourceLen Z_DEFAULT_COMPRESSION.

Definition compressBound (sourceLen : Z) : Z :=
  wrap W (sourceLen + Z.shiftr sourceLen 12 + Z.shiftr sourceLen 14 + Z.shiftr sourceLen 25 + 13).
End Code.
