(* ===== verification/Zpipe.v ===== *)
(** * zpipe.c: a file compressed chunk by chunk

    [def] with the files as lists of bytes: [fread] returns up to [CHUNK] bytes
    and fewer only at the end of the file; [read_error] and [write_error] tell
    which calls of [fread] and [fwrite] fail.  A failed [assert] is [Aborted]. *)
From stdpp Require Import base numbers list.
From Stdlib Require Import ZArith Lia Bool.
From S2P Require Import Prelude Trees TreesTables TreesWriter TreesState LzState LzWindow LzMatch LzStored LzCall LzCompress.

Definition CHUNK : Z := 16384.
Definition Z_ERRNO : Z := -1.

(** The return value, and what the calls of [fwrite] that succeeded have written. *)
Inductive def_end := Aborted | Ended (ret : Z) (written : list Z).

Section Code.
Context (W : Z) (C : checksums) (read_error write_error : nat -> bool).

(** The inner loop: the state, the last return value of [deflate], the output
    and the number of calls of [fwrite]; or the end of [def]. *)
Fixpoint out_loop (fuel : nat) (z : zs) (flush : Z) (written : list Z) (k : nat) : option (def_end + zs * Z * list Z * nat) :=
  match fuel with
  | O => None
  | S fuel =>
      '(z, ret) ← deflate W C false false (set_strm z (set_avail_out (strm z) CHUNK)) flush;
      if ret =? Z_STREAM_ERROR then Some (inl Aborted)
      else
        let have := CHUNK - avail_out (strm z) in
        let data := drop (length (out_bytes (strm z)) - Z.to_nat have) (out_bytes (strm z)) in
        if write_error k then Some (inl (Ended Z_ERRNO written))
        else if avail_out (strm z) =? 0 then out_loop fuel z flush (written ++ data) (S k)
        else Some (inr (z, ret, written ++ data, S k))
  end.

(** The outer loop; [rest] is what is left of the file, [r] counts the reads. *)
Fixpoint in_loop (fuel : nat) (z : zs) (rest : list Z) (r : nat) (written : list Z) (k : nat) : option def_end :=
  match fuel with
  | O => None
  | S fuel' =>
      let data := take (Z.to_nat CHUNK) rest in
      let n := Z.of_nat (length data) in
      if read_error r then Some (Ended Z_ERRNO written)
      else
        let flush := if n <? CHUNK then Z_FINISH else Z_NO_FLUSH in
        let s := strm z in
        let z := set_strm z (Stream data 0 n (total_in s) (out_bytes s) (avail_out s) (total_out s) (adler s) (msg s)) in
        o ← out_loop fuel z flush written k;
        match o with
        | inl e => Some e
        | inr (z, ret, written, k) =>
            if negb (avail_in (strm z) =? 0) then Some Aborted
            else if negb (flush =? Z_FINISH) then in_loop fuel' z (drop (Z.to_nat CHUNK) rest) (S r) written k
            else if negb (ret =? Z_STREAM_END) then Some Aborted
            else Some (Ended Z_OK written)
        end
  end.

(** [strm] is the local variable as it was found, with nothing written through [next_out]. *)
Definition def (fuel : nat) (strm : stream) (mem : memory) (source : list Z) (level : Z) : option def_end :=
  '(z, ret) ← deflateInit_ strm mem level true;
  if negb (ret =? Z_OK) then Some (Ended ret [])
  else z ← z; in_loop fuel z source 0 [] 0.
End Code.
