(* ===== verification/LzFacts.v ===== *)
(** * Memory, hash chains and matches of the compressor

    [read_at] and [write_at] element by element, the hash of three bytes, the
    invariant of the hash chains, and what a match stands for. *)
From stdpp Require Import base numbers list.
From Stdlib Require Import ZArith Lia Bool.
From S2P Require Import Prelude Huffman Deflate Trees TreesTables TreesWriter TreesState TreesSyms LzState LzWindow.

(** ** Memory *)

Lemma aget_None {A} (l : list A) i : i < 0 \/ Z.of_nat (length l) <= i -> aget l i = None.
Proof. intros H. unfold aget. destruct (Z.leb_spec 0 i); [|done]. apply lookup_ge_None_2. lia. Qed.

Lemma aget_take {A} (l : list A) (n : nat) i : i < Z.of_nat n -> aget (take n l) i = aget l i.
Proof. intros Hi. unfold aget. destruct (Z.leb_spec 0 i); [|done]. by rewrite lookup_take_lt by lia. Qed.

Lemma aget_drop {A} (l : list A) (n : nat) i : 0 <= i -> aget (drop n l) i = aget l (Z.of_nat n + i).
Proof.
  intros Hi. unfold aget. rewrite lookup_drop. destruct (Z.leb_spec 0 i), (Z.leb_spec 0 (Z.of_nat n + i)); try lia. f_equal. lia.
Qed.

Lemma aget_app_r {A} (l k : list A) i : Z.of_nat (length l) <= i -> aget (l ++ k) i = aget k (i - Z.of_nat (length l)).
Proof.
  intros Hi. unfold aget. destruct (Z.leb_spec 0 i), (Z.leb_spec 0 (i - Z.of_nat (length l))); try lia.
  rewrite lookup_app_r by lia. f_equal. lia.
Qed.

Lemma aget_map {A B} (f : A -> B) l i : aget (map f l) i = option_map f (aget l i).
Proof. unfold aget. destruct (0 <=? i); [|done]. apply list_lookup_fmap. Qed.

Lemma aget_Forall {A} (P : A -> Prop) l i x : Forall P l -> aget l i = Some x -> P x.
Proof. intros H [_ Hx]%aget_Some. by eapply Forall_lookup_1. Qed.

Lemma Forall_aget {A} (P : A -> Prop) l : (forall i x, aget l i = Some x -> P x) -> Forall P l.
Proof.
  intros H. apply Forall_lookup_2. intros i x Hx. apply (H (Z.of_nat i)). apply aget_Some. split; [lia|]. by rewrite Nat2Z.id.
Qed.

Lemma read_at_ok l off n :
  0 <= off -> 0 <= n -> off + n <= Z.of_nat (length l) ->
  exists data, read_at l off n = Some data /\ Z.of_nat (length data) = n /\
    (forall i, 0 <= i < n -> aget data i = aget l (off + i)) /\ data = take (Z.to_nat n) (drop (Z.to_nat off) l).
Proof.
  intros Ho Hn Hl. unfold read_at. destruct (Z.leb_spec 0 off), (Z.leb_spec 0 n), (Z.leb_spec (off + n) (Z.of_nat (length l))); try lia.
  eexists. split; [reflexivity|]. split; [rewrite length_take, length_drop; lia|]. split; [|done].
  intros i Hi. rewrite aget_take, aget_drop by lia. f_equal. lia.
Qed.

Lemma write_at_ok l off data :
  0 <= off -> off + Z.of_nat (length data) <= Z.of_nat (length l) ->
  exists l', write_at l off data = Some l' /\ length l' = length l /\
    forall i, aget l' i = if (off <=? i) && (i <? off + Z.of_nat (length data)) then aget data (i - off) else aget l i.
Proof.
  intros Ho Hl. unfold write_at. destruct (Z.leb_spec 0 off), (Z.leb_spec (off + Z.of_nat (length data)) (Z.of_nat (length l))); try lia.
  eexists. split; [reflexivity|].
  assert (Ht : length (take (Z.to_nat off) l) = Z.to_nat off) by (rewrite length_take; lia).
  split; [rewrite !length_app, length_drop, Ht; lia|]. intros i.
  destruct (Z.leb_spec off i) as [H1|H1]; cbn [andb].
  - rewrite aget_app_r by lia. rewrite Ht, Z2Nat.id by done. destruct (Z.ltb_spec i (off + Z.of_nat (length data))).
    + by rewrite aget_app_l by lia.
    + rewrite aget_app_r by lia. rewrite aget_drop by lia. f_equal. lia.
  - destruct (decide (i < 0)); [by rewrite !aget_None by lia|]. rewrite aget_app_l by lia. rewrite aget_take by lia. done.
Qed.

Lemma write_at_Forall (P : Z -> Prop) l off data l' : write_at l off data = Some l' -> Forall P l -> Forall P data -> Forall P l'.
Proof.
  unfold write_at. intros H Hl Hd. case_match; [|done]. injection H as <-.
  apply Forall_app. split; [by apply Forall_take|]. apply Forall_app. split; [done|by apply Forall_drop].
Qed.

(** The bytes at [p], zero past the end. *)
Definition at_ (l : list Z) (p : Z) : Z := default 0 (aget l p).

Lemma aget_at l p : 0 <= p < Z.of_nat (length l) -> aget l p = Some (at_ l p).
Proof. intros H. unfold at_. by destruct (aget_range l p H) as [x ->]. Qed.

Lemma at_byte l p : Forall is_byte l -> is_byte (at_ l p).
Proof.
  intros H. unfold at_. destruct (aget l p) as [x|] eqn:E; cbn; [by eapply aget_Forall|]. unfold is_byte. lia.
Qed.

(** ** The hash *)

Section Hash.
Context (d : hash_state) (Hb : 8 <= hash_bits d <= 16).

Definition hash3 (a b c : Z) : Z := UPDATE_HASH d (UPDATE_HASH d a b) c.

Lemma hash_shift_range : 3 <= hash_shift d /\ hash_bits d <= 3 * hash_shift d /\ hash_shift d <= hash_bits d.
Proof.
  unfold hash_shift. change (hash_bits d + MIN_MATCH - 1) with (hash_bits d + 3 - 1). change MIN_MATCH with 3.
  assert (Ht : forall b, 8 <= b <= 16 -> 3 <= (b + 3 - 1) / 3 /\ b <= 3 * ((b + 3 - 1) / 3) /\ (b + 3 - 1) / 3 <= b).
  { intros b H. pose proof (Z.div_mod (b + 3 - 1) 3 ltac:(lia)). pose proof (Z.mod_pos_bound (b + 3 - 1) 3 ltac:(lia)). lia. }
  by apply Ht.
Qed.

Lemma hash_mask_ones : hash_mask d = Z.ones (hash_bits d).
Proof. unfold hash_mask, hash_size, Z.ones. rewrite !Z.shiftl_mul_pow2 by lia. lia. Qed.

Lemma testbit_update h c i :
  0 <= i -> Z.testbit (UPDATE_HASH d h c) i =
    (i <? hash_bits d) && xorb (Z.testbit h (i - hash_shift d)) (Z.testbit c i).
Proof.
  intros Hi. unfold UPDATE_HASH. rewrite hash_mask_ones, Z.land_spec, Z.lxor_spec, Z.testbit_ones_nonneg by lia.
  rewrite Z.shiftl_spec by done. by rewrite andb_comm.
Qed.

Lemma update_range h c : 0 <= UPDATE_HASH d h c < hash_size d.
Proof.
  unfold UPDATE_HASH. rewrite hash_mask_ones, Z.land_ones by lia. unfold hash_size. rewrite (Z.shiftl_mul_pow2 1), Z.mul_1_l by lia.
  apply Z.mod_pos_bound. apply Z.pow_pos_nonneg; lia.
Qed.

(** After three more bytes, a byte is forgotten. *)
Lemma hash_rolls x a b c : UPDATE_HASH d (UPDATE_HASH d (UPDATE_HASH d x a) b) c = hash3 a b c.
Proof.
  unfold hash3. pose proof hash_shift_range. apply Z.bits_inj'. intros i Hi. rewrite !(testbit_update _ _ i) by lia.
  destruct (Z.ltb_spec i (hash_bits d)) as [Hlt|]; [|done]. cbn [andb]. f_equal. set (j := i - hash_shift d).
  destruct (Z.leb_spec 0 j) as [H1|H1]; [|by rewrite !Z.testbit_neg_r by lia].
  rewrite !(testbit_update _ _ j) by lia. do 2 f_equal. set (k := j - hash_shift d).
  destruct (Z.leb_spec 0 k) as [H2|H2]; [|by rewrite !Z.testbit_neg_r by lia].
  rewrite testbit_update by lia. rewrite (Z.testbit_neg_r x) by (subst j k; lia). rewrite xorb_false_l.
  destruct (Z.ltb_spec k (hash_bits d)); [done|subst j k; lia].
Qed.

(** Two bytes and the hash determine the third byte. *)
Lemma hash_third a b c c' : is_byte c -> is_byte c' -> hash3 a b c = hash3 a b c' -> c = c'.
Proof.
  intros Hc Hc' E. apply Z.bits_inj'. intros i Hi. destruct (Z.ltb_spec i 8) as [H8|H8].
  - assert (Hx : Z.testbit (hash3 a b c) i = Z.testbit (hash3 a b c') i) by (by rewrite E).
    unfold hash3 in Hx. rewrite !(testbit_update _ _ i) in Hx by lia. destruct (Z.ltb_spec i (hash_bits d)); [|lia]. cbn [andb] in Hx.
    by destruct (Z.testbit (UPDATE_HASH d a b) _), (Z.testbit c i), (Z.testbit c' i).
  - assert (Hz : forall z, is_byte z -> Z.testbit z i = false).
    { intros z Hz. rewrite <- (Z.mod_small z (2 ^ 8)) by (change (2 ^ 8) with 256; done). by apply Z.mod_pow2_bits_high. }
    by rewrite !Hz.
Qed.
End Hash.

(** ** Matches *)

(** The [len] bytes at [p] repeat those [dist] before. *)
Record match_in (all : list Z) (p dist len : Z) : Prop := {
  mi_dist : 1 <= dist <= p;
  mi_len : 0 <= len;
  mi_end : p + len <= Z.of_nat (length all);
  mi_bytes i : 0 <= i < len -> at_ all (p + i) = at_ all (p - dist + i) }.

Definition upto (all : list Z) (p : Z) : list Z := take (Z.to_nat p) all.

Lemma upto_length all p : 0 <= p <= Z.of_nat (length all) -> Z.of_nat (length (upto all p)) = p.
Proof. intros H. unfold upto. rewrite length_take. lia. Qed.

Lemma aget_upto all p i : 0 <= i < p -> p <= Z.of_nat (length all) -> aget (upto all p) i = Some (at_ all i).
Proof. intros Hi Hp. unfold upto. rewrite aget_take by lia. apply aget_at. lia. Qed.

Lemma upto_snoc all p : 0 <= p < Z.of_nat (length all) -> upto all (p + 1) = upto all p ++ [at_ all p].
Proof.
  intros H. unfold upto. replace (Z.to_nat (p + 1)) with (S (Z.to_nat p)) by lia. apply take_S_r.
  pose proof (aget_at all p H) as E. by apply aget_Some in E as [_ ?].
Qed.

Lemma copy_bytes_upto all n p dist :
  1 <= dist <= p -> p + Z.of_nat n <= Z.of_nat (length all) ->
  (forall i, 0 <= i < Z.of_nat n -> at_ all (p + i) = at_ all (p - dist + i)) ->
  copy_bytes n dist (upto all p) = Some (upto all (p + Z.of_nat n)).
Proof.
  revert p. induction n as [|n IH]; intros p Hd Hl Hb; cbn [copy_bytes]; [by rewrite Z.add_0_r|].
  rewrite upto_length, aget_upto by lia. cbn [mbind option_bind].
  pose proof (Hb 0 ltac:(lia)) as H0. rewrite !Z.add_0_r in H0. rewrite <- H0, <- upto_snoc by lia.
  rewrite IH; [f_equal; f_equal; lia|lia|lia|]. intros i Hi. specialize (Hb (i + 1) ltac:(lia)).
  replace (p + 1 + i) with (p + (i + 1)) by lia. rewrite Hb. f_equal. lia.
Qed.

Lemma expand_match all p dist len :
  match_in all p dist len -> expand1 (upto all p) (Copy len dist) = Some (upto all (p + len)).
Proof.
  intros [Hd Hl He Hb]. unfold expand1. rewrite upto_length by lia.
  destruct (Z.leb_spec 1 dist), (Z.leb_spec dist p); try lia. cbn [andb].
  rewrite copy_bytes_upto by (rewrite ?Z2Nat.id by done; done). by rewrite Z2Nat.id.
Qed.

Lemma expand_app_tokens out ts us : expand out (ts ++ us) = (o ← expand out ts; expand o us).
Proof.
  revert out. induction ts as [|t ts IH]; intros out; [done|]. cbn [app expand]. destruct (expand1 out t) as [o|]; [|done].
  cbn [mbind option_bind]. apply IH.
Qed.

Lemma expand_snoc out ys y all p len :
  expand out (map token_of ys) = Some (upto all p) -> expand1 (upto all p) (token_of y) = Some (upto all len) ->
  expand out (map token_of (ys ++ [y])) = Some (upto all len).
Proof. intros H1 H2. rewrite map_app, expand_app_tokens, H1. cbn [mbind option_bind map expand]. by rewrite H2. Qed.

(** A match is as long as its shortest part. *)
Lemma match_in_le all p dist len len' : match_in all p dist len -> 0 <= len' <= len -> match_in all p dist len'.
Proof. intros [Hd Hl He Hb] H. constructor; try lia. intros i Hi. apply Hb. lia. Qed.
