(* ===== verification/LzHash.v ===== *)
(** * The hash chains of the compressor

    Positions count from the first byte of the input [all]; [base] is the
    position of the first byte of the window.  [chains] says that every entry of
    [head] and [prev] that is followed was put there for a string with the hash
    of its chain, and that chains go down. *)
From stdpp Require Import base numbers list.
From Stdlib Require Import ZArith Lia Bool.
From S2P Require Import Prelude Trees TreesTables TreesWriter TreesState LzState LzWindow LzFacts.

(** The hash of the string at [q]. *)
Definition hash_at (d : hash_state) (all : list Z) (q : Z) : Z := hash3 d (at_ all q) (at_ all (q + 1)) (at_ all (q + 2)).

(** [ins_h] holds the first two bytes of the string at [p]. *)
Definition ready (d : hash_state) (all : list Z) (p : Z) : Prop :=
  forall c, UPDATE_HASH d (ins_h d) c = hash3 d (at_ all p) (at_ all (p + 1)) c.

(** [S] are the positions whose strings are in the table, all below [top]. *)
Record chains (wb : Z) (d : hash_state) (all : list Z) (base top : Z) (S : Z -> Prop) : Prop := {
  ch_bits : 8 <= hash_bits d <= 16;
  ch_wb : 8 <= wb <= 15;
  ch_head_len : Z.of_nat (length (head d)) = hash_size d;
  ch_prev_len : Z.of_nat (length (prev d)) = 2 ^ wb;
  ch_head h v : aget (head d) h = Some v -> 0 <= v < 2 ^ 16 /\ (v <> 0 -> S (base + v) /\ hash_at d all (base + v) = h);
  ch_prev i v : aget (prev d) i = Some v -> 0 <= v < 2 ^ 16;
  ch_below q : S q -> q < top;
  ch_link q v : S q -> base <= q -> top - 2 ^ wb <= q -> aget (prev d) ((q - base) mod 2 ^ wb) = Some v -> v <> 0 ->
    S (base + v) /\ base + v < q /\ hash_at d all (base + v) = hash_at d all q }.

Lemma wsize_pow w : 0 <= w_bits w -> w_size w = 2 ^ w_bits w.
Proof. intros H. unfold w_size. rewrite Z.shiftl_mul_pow2 by done. lia. Qed.

Lemma wmask_mod w x : 0 <= w_bits w -> Z.land x (w_mask w) = x mod 2 ^ w_bits w.
Proof.
  intros H. unfold w_mask. rewrite wsize_pow by done. replace (2 ^ w_bits w - 1) with (Z.ones (w_bits w)) by (rewrite Z.ones_equiv; lia).
  by rewrite Z.land_ones by done.
Qed.

Lemma pow_wb wb : 8 <= wb <= 15 -> 256 <= 2 ^ wb <= 32768.
Proof. intros H. change 256 with (2 ^ 8). change 32768 with (2 ^ 15). split; apply Z.pow_le_mono_r; lia. Qed.

Lemma chains_mono wb d all base top top' S : chains wb d all base top S -> top <= top' -> chains wb d all base top' S.
Proof.
  intros [H1 H2 H3 H4 H5 H6 H7 H8] Hle. constructor; try done.
  - intros q Hq. specialize (H7 q Hq). lia.
  - intros q v Hq Hb Ht. apply H8; [done|done|lia].
Qed.

(** [ins_h] is apart from the table. *)
Lemma chains_ins wb d all base top S h : chains wb d all base top S -> chains wb (Hash (hash_bits d) h (head d) (prev d)) all base top S.
Proof. intros [H1 H2 H3 H4 H5 H6 H7 H8]. by constructor. Qed.

Lemma chains_ext wb d all all' base top S :
  chains wb d all base top S -> (forall q, S q -> hash_at d all' q = hash_at d all q) -> chains wb d all' base top S.
Proof.
  intros [H1 H2 H3 H4 H5 H6 H7 H8] E. constructor; try done.
  - intros h v Hv. destruct (H5 h v Hv) as [Hr Hs]. split; [done|]. intros H0. destruct (Hs H0). split; [done|]. by rewrite E.
  - intros q v Hq Hb Ht Hv H0. destruct (H8 q v Hq Hb Ht Hv H0) as (? & ? & ?). split; [done|]. split; [done|]. by rewrite !E.
Qed.

(** The table after [CLEAR_HASH]. *)
Lemma clear_hash_chains wb d all base top :
  8 <= hash_bits d <= 16 -> 8 <= wb <= 15 -> Z.of_nat (length (head d)) = hash_size d -> Z.of_nat (length (prev d)) = 2 ^ wb ->
  Forall (fun v => 0 <= v < 2 ^ 16) (prev d) -> chains wb (CLEAR_HASH d) all base top (fun _ => False).
Proof.
  intros Hb Hw Hh Hp Hf. constructor; try done.
  - cbn [CLEAR_HASH head]. by rewrite length_map.
  - intros h v. cbn [CLEAR_HASH head]. rewrite aget_map. destruct (aget (head d) h); [|done]. intros [= <-]. by vm_compute.
  - intros i v Hv. by apply (aget_Forall _ _ _ _ Hf Hv).
Qed.

(** ** Sliding *)

Lemma slide_spec wsize v : 0 < wsize -> 0 <= v < 2 ^ 16 -> slide wsize v = if v >=? wsize then v - wsize else 0.
Proof. intros Hw Hv. unfold slide. destruct (Z.geb_spec v wsize); apply Z.mod_small; change NIL with 0; lia. Qed.

Lemma slide_chains wb d all base top S :
  chains wb d all base top S -> chains wb (slide_hash (2 ^ wb) d) all (base + 2 ^ wb) top S.
Proof.
  intros [H1 H2 H3 H4 H5 H6 H7 H8]. pose proof (pow_wb wb H2) as Hp.
  assert (Hs : forall l i v, (forall i v, aget l i = Some v -> 0 <= v < 2 ^ 16) -> aget (map (slide (2 ^ wb)) l) i = Some v ->
    exists u, aget l i = Some u /\ 0 <= v < 2 ^ 16 /\ (v <> 0 -> u <> 0 /\ base + 2 ^ wb + v = base + u)).
  { intros l i v Hl. rewrite aget_map. destruct (aget l i) as [u|] eqn:E; [|done]. intros [= <-]. exists u. split; [done|].
    specialize (Hl i u E). rewrite slide_spec by lia. destruct (Z.geb_spec u (2 ^ wb)); split; try lia. }
  constructor; try done; cbn [slide_hash head prev hash_bits].
  - by rewrite length_map.
  - by rewrite length_map.
  - intros h v Hv. apply Hs in Hv as (u & Hu & Hr & Hn); [|intros; by eapply H5]. split; [done|]. intros H0.
    destruct (Hn H0) as [Hu0 ->]. by apply H5.
  - intros i v Hv. apply Hs in Hv as (u & _ & Hr & _); [done|done].
  - intros q v Hq Hb Ht Hv H0. apply Hs in Hv as (u & Hu & Hr & Hn); [|done]. destruct (Hn H0) as [Hu0 ->].
    apply (H8 q u); try done; [lia|]. rewrite <- Hu. f_equal.
    replace (q - base) with (q - (base + 2 ^ wb) + 1 * 2 ^ wb) by lia. by rewrite Z.mod_add by lia.
Qed.

(** ** [INSERT_STRING] *)

Lemma insert_string_spec w d all base S str :
  chains (w_bits w) d all base (base + str) S -> ready d all (base + str) -> 0 <= str < 2 ^ 16 ->
  aget (window w) (str + 2) = Some (at_ all (base + str + 2)) ->
  exists d' v, insert_string w d str = Some (d', v) /\ hash_bits d' = hash_bits d /\
    chains (w_bits w) d' all base (base + str + 1) (fun q => S q \/ q = base + str) /\ ready d' all (base + str + 1) /\
    0 <= v < 2 ^ 16 /\ (v <> 0 -> S (base + v) /\ hash_at d all (base + v) = hash_at d all (base + str)).
Proof.
  intros C R Hs Hw. pose proof C as [H1 H2 H3 H4 H5 H6 H7 H8]. pose proof (pow_wb _ H2) as Hp.
  unfold insert_string. change (str + (MIN_MATCH - 1)) with (str + 2). rewrite Hw. cbn [mbind option_bind].
  assert (Eh : UPDATE_HASH d (ins_h d) (at_ all (base + str + 2)) = hash_at d all (base + str)) by (apply R).
  rewrite Eh. set (h := hash_at d all (base + str)) in *.
  assert (Hh : 0 <= h < hash_size d) by (apply (update_range d); lia).
  destruct (aget_range (head d) h ltac:(lia)) as [v Hv]. rewrite Hv. cbn [mbind option_bind].
  rewrite wmask_mod by lia. pose proof (Z.mod_pos_bound str (2 ^ w_bits w) ltac:(lia)) as Hm.
  destruct (aset_ok (prev d) (str mod 2 ^ w_bits w) v) as (pv & -> & Lp & Gp); [lia|]. cbn [mbind option_bind].
  destruct (aset_ok (head d) h (wrap 16 str)) as (hd & -> & Lh & Gh); [lia|]. cbn [mbind option_bind].
  assert (Ew : wrap 16 str = str) by (by apply Z.mod_small). rewrite Ew in Gh.
  destruct (H5 h v Hv) as [Hvr Hvs].
  do 2 eexists. split; [reflexivity|]. split; [done|]. split; [|split; [|split; [done|]]].
  - constructor; try done; cbn [head prev hash_bits]; [by rewrite Lh|by rewrite Lp| | | |].
    + intros h' v'. rewrite Gh. destruct (Z.eqb_spec h' h) as [->|].
      * intros [= <-]. split; [done|]. intros _. split; [by right|done].
      * intros Hv'. destruct (H5 h' v' Hv') as [Hr Hq]. split; [done|]. intros H0. destruct (Hq H0). split; [by left|done].
    + intros i v'. rewrite Gp. destruct (i =? str mod 2 ^ w_bits w); [|apply H6]. by intros [= <-].
    + intros q [Hq| ->]; [specialize (H7 q Hq)|]; lia.
    + intros q v' Hq Hb Ht. rewrite Gp. destruct (Z.eqb_spec ((q - base) mod 2 ^ w_bits w) (str mod 2 ^ w_bits w)) as [E|E].
      * assert (Eq : q = base + str).
        { destruct Hq as [Hq|]; [|done]. specialize (H7 q Hq). exfalso. pose proof (Z.div_mod (q - base) (2 ^ w_bits w) ltac:(lia)).
          pose proof (Z.div_mod str (2 ^ w_bits w) ltac:(lia)). rewrite E in *.
          assert (Hk : (q - base) / 2 ^ w_bits w < str / 2 ^ w_bits w) by nia. nia. }
        subst q. intros [= <-] H0. destruct (Hvs H0) as [Hin Hha]. split; [by left|]. split; [by apply H7|]. exact Hha.
      * destruct Hq as [Hq| ->]; [|by replace (base + str - base) with str in E by lia].
        intros Hv' H0. destruct (H8 q v' Hq Hb ltac:(lia) Hv' H0) as (? & ? & ?). split; [by left|done].
  - intros c. cbn [ins_h]. change (UPDATE_HASH (Hash (hash_bits d) h hd pv)) with (UPDATE_HASH d).
    unfold h, hash_at, hash3 at 1. rewrite (hash_rolls d H1). f_equal; f_equal; lia.
  - intros H0. by apply Hvs.
Qed.

Lemma start_hash_spec w d all base p str :
  0 <= str -> str + 1 < Z.of_nat (length (window w)) -> p = base + str ->
  exists h, start_hash w d str = Some (Hash (hash_bits d) h (head d) (prev d)) /\
    (aget (window w) str = Some (at_ all p) -> aget (window w) (str + 1) = Some (at_ all (p + 1)) ->
     ready (Hash (hash_bits d) h (head d) (prev d)) all p).
Proof.
  intros H0 H1 ->. unfold start_hash. destruct (aget_range (window w) str ltac:(lia)) as [a Ha].
  destruct (aget_range (window w) (str + 1) ltac:(lia)) as [b Hb]. rewrite Ha, Hb. cbn [mbind option_bind].
  eexists. split; [reflexivity|]. intros [= ->] [= ->]. intros c. done.
Qed.
