(* ===== verification/LzFill.v ===== *)
(** * The window and its refilling (fill_window)

    [all] is the whole input; the last [avail_in] bytes of it are still to read.
    [win_ok] says that the window holds the bytes before them, [hash_ok] that
    the hash table fits the window. *)
From stdpp Require Import base numbers list.
From Stdlib Require Import ZArith Lia Bool.
From S2P Require Import Prelude Trees TreesTables TreesWriter TreesState LzState LzWindow LzFacts LzHash.

(** The first byte that is not read, the first that is not compressed, the first of the window. *)
Definition pend (z : zs) (all : list Z) : Z := Z.of_nat (length all) - avail_in (strm z).
Definition here (z : zs) (all : list Z) : Z := pend z all - lookahead (win z).
Definition base_of (z : zs) (all : list Z) : Z := here z all - strstart (win z).

Record in_ok (s : stream) (all : list Z) : Prop := {
  io_avail : 0 <= avail_in s <= Z.of_nat (length all);
  io_next : 0 <= next_in s;
  io_end : next_in s + avail_in s <= Z.of_nat (length (in_buf s));
  io_data i : 0 <= i < avail_in s -> aget (in_buf s) (next_in s + i) = Some (at_ all (Z.of_nat (length all) - avail_in s + i)) }.

Record win_ok (w : window_state) (all : list Z) (end_ : Z) : Prop := {
  wi_bits : 9 <= w_bits w <= 15;
  wi_size : window_size w = 2 * w_size w;
  wi_len : Z.of_nat (length (window w)) = window_size w;
  wi_bytes : Forall is_byte (window w);
  wi_start : 0 <= strstart w;
  wi_ahead : 0 <= lookahead w;
  wi_fits : strstart w + lookahead w <= window_size w;
  wi_base : strstart w + lookahead w <= end_;
  wi_data i : 0 <= i < strstart w + lookahead w -> aget (window w) i = Some (at_ all (end_ - lookahead w - strstart w + i));
  wi_block : 0 <= end_ - lookahead w - strstart w + block_start w <= end_ - lookahead w;
  wi_high : 0 <= high_water w <= window_size w;
  wi_insert : 0 <= insert w <= strstart w }.

(** The functions for these two strategies leave the table alone. *)
Definition tracks (st : Z) : Prop := st <> Z_HUFFMAN_ONLY /\ st <> Z_RLE.

(** The table holds whole strings before [insert] more; [ins_h] is up to date when it is next used. *)
Definition hash_ok (st : Z) (w : window_state) (d : hash_state) (all : list Z) (end_ : Z) : Prop :=
  let here := end_ - lookahead w in
  (exists S, chains (w_bits w) d all (here - strstart w) (Z.min (here - insert w) (end_ - 2)) S /\ forall q, S q -> 0 <= q /\ q + 3 <= end_) /\
  (3 <= lookahead w -> insert w = 0 /\ (tracks st -> ready d all here)).

(** ** Strings that wait for more input *)

Lemma insert_loop_spec k w d all base str S :
  chains (w_bits w) d all base (base + str) S -> (forall q, S q -> 0 <= q /\ q + 3 <= base + strstart w + lookahead w) ->
  ready d all (base + str) -> 0 <= base -> 0 <= str -> strstart w = str + Z.of_nat k -> strstart w + lookahead w <= 65536 ->
  (forall i, 0 <= i < strstart w + lookahead w -> aget (window w) i = Some (at_ all (base + i))) ->
  (k <> 0%nat -> 3 <= lookahead w + Z.of_nat k) ->
  exists d' n S', insert_loop k w d str = Some (d', n) /\ 0 <= n <= Z.of_nat k /\ (k <> 0%nat -> 2 <= lookahead w + n) /\
    chains (w_bits w) d' all base (base + strstart w - n) S' /\ (forall q, S' q -> 0 <= q /\ q + 3 <= base + strstart w + lookahead w) /\
    (3 <= lookahead w -> n = 0 /\ ready d' all (base + strstart w)).
Proof.
  revert d str S. induction k as [|k IH]; intros d str S C HS R Hb0 H0 Hk Hfit Hd H3; cbn [insert_loop].
  { exists d, 0, S. replace (base + strstart w - 0) with (base + str) by lia. replace (base + strstart w) with (base + str) by lia.
    split; [done|]. split; [lia|]. split; [done|]. split; [done|]. split; [|done]. intros q Hq. specialize (HS q Hq). lia. }
  specialize (H3 ltac:(done)). change (2 ^ 16) with 65536 in *.
  destruct (insert_string_spec w d all base S str C R) as (d' & v & -> & _ & C' & R' & _); [change (2 ^ 16) with 65536; lia| |].
  { rewrite Hd by lia. do 2 f_equal. lia. }
  cbn [mbind option_bind]. rewrite <- Z.add_assoc in C', R'.
  assert (HS' : forall q, S q \/ q = base + str -> 0 <= q /\ q + 3 <= base + strstart w + lookahead w).
  { intros q [Hq| ->]; [by apply HS|lia]. }
  change MIN_MATCH with 3. destruct (Z.ltb_spec (lookahead w + Z.of_nat k) 3) as [Hlt|Hge].
  - exists d', (Z.of_nat k), (fun q => S q \/ q = base + str). split; [done|]. split; [lia|]. split; [lia|].
    replace (base + strstart w - Z.of_nat k) with (base + (str + 1)) by lia. split; [done|]. split; [done|]. lia.
  - destruct (IH d' (str + 1) _ C' HS' R') as (d2 & n & S2 & -> & Hn & Hn2 & C2 & HS2 & R2); try done; try lia.
    exists d2, n, S2. split; [done|]. split; [lia|]. split; [lia|done].
Qed.

Lemma insert_pending_spec st w d all end_ S :
  win_ok w all end_ -> chains (w_bits w) d all (end_ - lookahead w - strstart w) (Z.min (end_ - lookahead w - insert w) (end_ - 2)) S ->
  (forall q, S q -> 0 <= q /\ q + 3 <= end_) ->
  exists d' n, insert_pending w d = Some (d', n) /\ 0 <= n <= insert w /\ hash_ok st (set_insert w n) d' all end_.
Proof.
  intros [Wb Ws Wl Wby W0 Wa Wf Wba Wd Wbl Wh Wi] C HS. unfold insert_pending. change MIN_MATCH with 3.
  set (base := end_ - lookahead w - strstart w) in *.
  assert (Hsz : window_size w <= 65536).
  { rewrite Ws, wsize_pow by lia. pose proof (pow_wb (w_bits w) ltac:(lia)). lia. }
  destruct (Z.geb_spec (lookahead w + insert w) 3) as [H3|H3].
  - destruct (start_hash_spec w d all base (base + (strstart w - insert w)) (strstart w - insert w)) as (h & -> & R); [lia|lia|done|].
    cbn [mbind option_bind]. specialize (R ltac:(apply Wd; lia) ltac:(rewrite Wd by lia; do 2 f_equal; lia)).
    destruct (insert_loop_spec (Z.to_nat (insert w)) w (Hash (hash_bits d) h (head d) (prev d)) all base (strstart w - insert w) S)
      as (d' & n & S' & -> & Hn & Hn2 & C' & HS' & R'); try done; try lia.
    { apply chains_ins. by replace (base + (strstart w - insert w)) with (Z.min (end_ - lookahead w - insert w) (end_ - 2)) by lia. }
    { intros q Hq. specialize (HS q Hq). lia. }
    exists d', n. split; [done|]. split; [lia|]. split; cbn [set_insert lookahead strstart w_bits insert].
    + exists S'. fold base. replace (Z.min (end_ - lookahead w - n) (end_ - 2)) with (base + strstart w - n) by lia. split; [done|].
      intros q Hq. specialize (HS' q Hq). lia.
    + intros Hl. destruct (R' Hl) as [-> R2]. split; [done|]. intros _. by replace (end_ - lookahead w) with (base + strstart w) by lia.
  - exists d, (insert w). split; [done|]. split; [lia|]. split; cbn [set_insert lookahead strstart w_bits insert].
    + by exists S.
    + lia.
Qed.

(** ** Reading input *)

(** What the code relies on: the checksum functions go on from where they stopped. *)
Class Sums (C : checksums) (A R : list Z -> Z) : Prop := {
  sum_adler_nil : A [] = 1;
  sum_crc_nil : R [] = 0;
  sum_adler l k : Forall is_byte l -> Forall is_byte k -> c_adler32 C (A l) k = Some (A (l ++ k));
  sum_crc l k : Forall is_byte l -> Forall is_byte k -> c_crc32 C (R l) k = Some (R (l ++ k)) }.

(** [total_out] counts the bytes written. *)
Definition out_ok (W : Z) (s : stream) : Prop := total_out s = wrap W (Z.of_nat (length (out_bytes s))).

Section Read.
Context (W : Z) (C : checksums) (A R : list Z -> Z) `{!Sums C A R}.

(** [strm->adler] is the checksum of the bytes read, [total_in] counts them, [total_out] those written. *)
Definition sum_ok (wrapper : Z) (s : stream) (l : list Z) : Prop :=
  (wrapper = 1 -> adler s = A l) /\ (wrapper = 2 -> adler s = R l) /\ total_in s = wrap W (Z.of_nat (length l)) /\ out_ok W s.

Lemma read_buf_spec wrapper s size all :
  in_ok s all -> Forall is_byte all -> 0 <= size -> sum_ok wrapper s (upto all (Z.of_nat (length all) - avail_in s)) ->
  let n := Z.min size (avail_in s) in
  exists s' data, read_buf W C wrapper s size = Some (s', data) /\ Z.of_nat (length data) = n /\
    (forall i, 0 <= i < n -> aget data i = Some (at_ all (Z.of_nat (length all) - avail_in s + i))) /\
    in_ok s' all /\ sum_ok wrapper s' (upto all (Z.of_nat (length all) - avail_in s')) /\
    avail_in s' = avail_in s - n /\ next_in s' = next_in s + n /\ in_buf s' = in_buf s /\ out_bytes s' = out_bytes s /\
    avail_out s' = avail_out s /\ total_out s' = total_out s /\ msg s' = msg s.
Proof.
  intros Hin Hall Hs Hsum n. pose proof Hin as [[Ha0 Ha1] Hn He Hd]. unfold read_buf.
  assert (En : (if avail_in s >? size then size else avail_in s) = n).
  { subst n. destruct (Z.gtb_spec (avail_in s) size); lia. }
  rewrite En. clear En. destruct (Z.eqb_spec n 0) as [E0|E0].
  { exists s, []. rewrite E0, Z.sub_0_r, Z.add_0_r. split_and!; try done. intros i Hi. lia. }
  destruct (read_at_ok (in_buf s) (next_in s) n) as (data & -> & Hl & Hg & _); [lia|lia|lia|]. cbn [mbind option_bind].
  assert (Hdata : forall i, 0 <= i < n -> aget data i = Some (at_ all (Z.of_nat (length all) - avail_in s + i))).
  { intros i Hi. rewrite Hg by done. apply Hd. lia. }
  assert (Hup : upto all (Z.of_nat (length all) - (avail_in s - n)) = upto all (Z.of_nat (length all) - avail_in s) ++ data).
  { apply list_eq. intros i. assert (Hlu : Z.of_nat (length (upto all (Z.of_nat (length all) - avail_in s))) = Z.of_nat (length all) - avail_in s) by (apply upto_length; lia).
    destruct (decide (Z.of_nat i < Z.of_nat (length all) - avail_in s)).
    - rewrite lookup_app_l by lia. unfold upto. by rewrite !lookup_take_lt by lia.
    - rewrite lookup_app_r by lia. destruct (decide (Z.of_nat i < Z.of_nat (length all) - (avail_in s - n))).
      + unfold upto at 1. rewrite lookup_take_lt by lia.
        pose proof (Hdata (Z.of_nat i - (Z.of_nat (length all) - avail_in s)) ltac:(lia)) as [_ E1]%aget_Some.
        replace (i - length (upto all (Z.of_nat (length all) - avail_in s)))%nat
          with (Z.to_nat (Z.of_nat i - (Z.of_nat (length all) - avail_in s))) by lia. rewrite E1.
        rewrite <- aget_at by lia. replace (Z.of_nat (length all) - avail_in s + (Z.of_nat i - (Z.of_nat (length all) - avail_in s))) with (Z.of_nat i) by lia.
        unfold aget. rewrite Nat2Z.id. by destruct (Z.leb_spec 0 (Z.of_nat i)); [|lia].
      + rewrite !lookup_ge_None_2; [done|lia|]. unfold upto. rewrite length_take. lia. }
  assert (Hfd : Forall is_byte data).
  { apply Forall_aget. intros i x Hx. pose proof (aget_Some_lt _ _ _ Hx). rewrite Hdata in Hx by lia. injection Hx as <-. by apply at_byte. }
  assert (Hfu : Forall is_byte (upto all (Z.of_nat (length all) - avail_in s))) by (by apply Forall_take).
  destruct Hsum as (S1 & S2 & S3 & S4). set (l := upto all (Z.of_nat (length all) - avail_in s)) in *.
  assert (Hck : exists check, (if wrapper =? 1 then c_adler32 C (adler s) data else if wrapper =? 2 then c_crc32 C (adler s) data else Some (adler s)) = Some check /\
    (wrapper = 1 -> check = A (l ++ data)) /\ (wrapper = 2 -> check = R (l ++ data))).
  { destruct (Z.eqb_spec wrapper 1) as [->|]; [rewrite S1 by done; eexists; split; [by apply sum_adler|done]|].
    destruct (Z.eqb_spec wrapper 2) as [->|]; [rewrite S2 by done; eexists; split; [by apply sum_crc|done]|]. by exists (adler s). }
  destruct Hck as (check & -> & Hc1 & Hc2). cbn [mbind option_bind]. do 2 eexists. split; [reflexivity|].
  cbn [avail_in next_in in_buf out_bytes avail_out total_out msg]. split; [done|]. split; [done|]. split; [|split; [|done]].
  - constructor; cbn [avail_in next_in in_buf]; try lia. intros i Hi. rewrite <- Z.add_assoc. rewrite Hd by lia. do 2 f_equal. lia.
  - split_and!; cbn [adler total_in]; rewrite ?Hup; [done|done| |done]. rewrite S3, wrap_add_l. f_equal. rewrite length_app. lia.
Qed.

(** ** [fill_window] *)

(** The parts of the state that refer to the input. *)
Record fed (z : zs) (all : list Z) : Prop := {
  fd_in : in_ok (strm z) all;
  fd_win : win_ok (win z) all (pend z all);
  fd_hash : hash_ok (strategy (tr z)) (win z) (dict z) all (pend z all);
  fd_sum : sum_ok (wrapper (ctl z)) (strm z) (upto all (pend z all)) }.

(** What reading and sliding leave alone. *)
Record filled (z z' : zs) (all : list Z) : Prop := {
  fl_tr : tr z' = tr z;
  fl_ctl : ctl z' = ctl z;
  fl_lm : lm z' = set_start (lm z) (match_start (lm z'));
  fl_start : wrap 32 (strstart (win z') - match_start (lm z')) = wrap 32 (strstart (win z) - match_start (lm z));
  fl_here : here z' all = here z all;
  fl_block : base_of z' all + block_start (win z') = base_of z all + block_start (win z);
  fl_bits : w_bits (win z') = w_bits (win z);
  fl_pos : 0 < strstart (win z) -> 0 < strstart (win z');
  fl_avail : 0 <= avail_in (strm z') <= avail_in (strm z);
  fl_next : next_in (strm z') + avail_in (strm z') = next_in (strm z) + avail_in (strm z);
  fl_buf : in_buf (strm z') = in_buf (strm z);
  fl_out : out_bytes (strm z') = out_bytes (strm z) /\ avail_out (strm z') = avail_out (strm z) /\
    total_out (strm z') = total_out (strm z) /\ msg (strm z') = msg (strm z) }.

Lemma filled_refl z all : 0 <= avail_in (strm z) -> filled z z all.
Proof. intros H. constructor; try done. by destruct (lm z). Qed.

Lemma filled_trans a b c all : filled a b all -> filled b c all -> filled a c all.
Proof.
  intros [T1 C1 L1 S1 H1 K1 B1 P1 A1 N1 F1 (O1 & O2 & O3 & O4)] [T2 C2 L2 S2 H2 K2 B2 Q2 A2 N2 F2 (P1' & P2 & P3 & P4)].
  constructor; try congruence; try lia; [|split_and!; congruence]. rewrite L2 at 1. by rewrite L1.
Qed.

Lemma wrap_sub_shift a b k : wrap 32 (a - k - wrap 32 (b - k)) = wrap 32 (a - b).
Proof.
  unfold wrap. rewrite Zminus_mod_idemp_r. f_equal. lia.
Qed.

Lemma slide_window_spec z all :
  fed z all -> lookahead (win z) < MIN_LOOKAHEAD ->
  exists z', slide_window z (window_size (win z) - lookahead (win z) - strstart (win z)) =
    Some (z', window_size (win z') - lookahead (win z') - strstart (win z')) /\
    fed z' all /\ filled z z' all /\ lookahead (win z') = lookahead (win z) /\
    strstart (win z') < w_size (win z') + MAX_DIST (win z') /\ strm z' = strm z.
Proof.
  intros [Hin Hw Hh Hsum] Hla. pose proof Hw as [Wb Ws Wl Wby W0 Wa Wf Wba Wd Wbl Whi Wi]. unfold slide_window.
  pose proof (pow_wb (w_bits (win z)) ltac:(lia)) as Hp. pose proof (wsize_pow (win z) ltac:(lia)) as Ep.
  assert (H512 : 512 <= w_size (win z)) by (rewrite Ep; change 512 with (2 ^ 9); apply Z.pow_le_mono_r; lia).
  unfold MAX_DIST. change MIN_LOOKAHEAD with 262 in *.
  destruct (Z.geb_spec (strstart (win z)) (w_size (win z) + (w_size (win z) - 262))) as [Hge|Hlt].
  2:{ exists z. split_and!; try done; [apply filled_refl, Hin]. }
  set (sz := w_size (win z)) in *. set (st := strstart (win z)) in *. set (la := lookahead (win z)) in *.
  assert (Em : wrap 32 (sz - (window_size (win z) - la - st)) = st + la - sz).
  { unfold wrap. rewrite Z.mod_small; change (2 ^ 32) with 4294967296; lia. }
  rewrite Em. destruct (read_at_ok (window (win z)) sz (st + la - sz)) as (data & -> & Hl & Hg & Edata); [lia|lia|lia|].
  cbn [mbind option_bind]. destruct (write_at_ok (window (win z)) 0 data) as (buf & Ebuf & Lb & Gb); [lia|lia|].
  rewrite Ebuf. cbn [mbind option_bind]. eexists. split; [f_equal; f_equal; cbn; fold sz st la; lia|].
  set (ins := if insert (win z) >? st - sz then st - sz else insert (win z)).
  assert (Hins : 0 <= ins <= st - sz /\ ins <= insert (win z)) by (subst ins; destruct (Z.gtb_spec (insert (win z)) (st - sz)); lia).
  assert (Epend : forall x y, pend (ZS (strm z) x (slide_hash sz (dict z)) y (tr z) (ctl z)) all = pend z all) by done.
  split; [constructor|]; cbn [strm win dict lm tr ctl]; rewrite ?Epend.
  - done.
  - constructor; cbn [window w_bits window_size high_water block_start strstart lookahead insert]; fold sz st la; try done; try lia.
    + eapply write_at_Forall; [done|done|]. subst data. by apply Forall_take, Forall_drop.
    + intros i Hi. rewrite Gb, Hl. destruct (Z.leb_spec 0 i); [|lia]. destruct (Z.ltb_spec i (0 + (st + la - sz))); [|lia]. cbn [andb].
      rewrite Z.sub_0_r, Hg by lia. rewrite Wd by lia. fold la st. do 2 f_equal. lia.
  - destruct Hh as [(S & Hc & HS) Hr]. split; cbn [w_bits strstart lookahead insert]; fold sz st la.
    + exists S. split; [|done]. apply chains_mono with (Z.min (pend z all - la - insert (win z)) (pend z all - 2)); [|lia].
      replace (pend z all - la - (st - sz)) with (pend z all - la - st + 2 ^ w_bits (win z)) by (rewrite <- Ep; fold sz; lia).
      rewrite Ep. by apply slide_chains.
    + intros H3. destruct (Hr H3) as [Hi0 Hrd]. split; [|exact Hrd]. fold ins. lia.
  - done.
  - split; [constructor|]; cbn [strm win dict lm tr ctl set_start match_start strstart w_bits block_start]; try done.
    + fold st sz. apply wrap_sub_shift.
    + unfold base_of, here, pend. cbn. fold sz st la. lia.
    + fold st sz. lia.
    + destruct Hin. lia.
    + fold sz st la. split; [done|]. change (w_size (Win _ _ _ _ _ _ _ _)) with sz. split; [lia|done].
Qed.

(** The window after [data] is read behind the lookahead. *)
Lemma append_window w all end_ n data :
  win_ok w all end_ -> Z.of_nat (length data) = n -> strstart w + lookahead w + n <= window_size w -> Forall is_byte data ->
  (forall i, 0 <= i < n -> aget data i = Some (at_ all (end_ + i))) ->
  exists buf, write_at (window w) (strstart w + lookahead w) data = Some buf /\
    win_ok (set_pos (set_window w buf) (strstart w) (lookahead w + n)) all (end_ + n).
Proof.
  intros [Wb Ws Wl Wby W0 Wa Wf Wba Wd Wbl Whi Wi] Hl Hn Hby Hd.
  destruct (write_at_ok (window w) (strstart w + lookahead w) data) as (buf & E & Lb & Gb); [lia|lia|].
  exists buf. split; [done|].
  constructor; cbn [set_pos set_window w_bits window window_size high_water block_start strstart lookahead insert]; try done; try lia.
  - by eapply write_at_Forall.
  - intros i Hi. rewrite Gb, Hl. destruct (Z.leb_spec (strstart w + lookahead w) i).
    + destruct (Z.ltb_spec i (strstart w + lookahead w + n)); [|lia]. cbn [andb]. rewrite Hd by lia. do 2 f_equal. lia.
    + cbn [andb]. rewrite Wd by lia. do 2 f_equal. lia.
Qed.

Lemma fill_turn_spec z all :
  fed z all -> Forall is_byte all -> lookahead (win z) < MIN_LOOKAHEAD ->
  exists z' stop, fill_turn W C z = Some (z', stop) /\ fed z' all /\ filled z z' all /\
    lookahead (win z') + avail_in (strm z') = lookahead (win z) + avail_in (strm z) /\
    strstart (win z') < w_size (win z') + MAX_DIST (win z') /\
    (if stop then avail_in (strm z') = 0 else avail_in (strm z') < avail_in (strm z)).
Proof.
  intros Hf Hall Hla. pose proof Hf as [Hin0 [Wb Ws Wl _ W0 Wa Wf _ _ _ _ _] _ _]. unfold fill_turn.
  pose proof (wsize_pow (win z) ltac:(lia)) as Ep. pose proof (pow_wb (w_bits (win z)) ltac:(lia)) as Hp.
  assert (Em : wrap 32 (window_size (win z) - lookahead (win z) - strstart (win z)) = window_size (win z) - lookahead (win z) - strstart (win z)).
  { apply Z.mod_small. change (2 ^ 32) with 4294967296. lia. }
  rewrite Em. destruct (slide_window_spec z all Hf Hla) as (z1 & -> & [Hin Hw Hh Hsum] & Fl & El & Hs & Es). cbn [mbind option_bind].
  destruct (Z.eqb_spec (avail_in (strm z1)) 0) as [E0|E0].
  { exists z1, true. split; [done|]. split; [done|]. split; [done|]. rewrite El, Es. split; [done|]. split; [done|]. congruence. }
  pose proof Hw as [Wb1 Ws1 Wl1 _ W01 Wa1 Wf1 _ _ _ _ _].
  set (more := window_size (win z1) - lookahead (win z1) - strstart (win z1)) in *.
  assert (Hmore : 0 < more).
  { pose proof (wsize_pow (win z1) ltac:(lia)) as Ep1. assert (2 ^ 9 <= 2 ^ w_bits (win z1)) by (apply Z.pow_le_mono_r; lia).
    change (2 ^ 9) with 512 in *. subst more. unfold MAX_DIST in Hs. change MIN_LOOKAHEAD with 262 in *. lia. }
  destruct (read_buf_spec (wrapper (ctl z1)) (strm z1) more all Hin Hall ltac:(lia) Hsum)
    as (s' & data & -> & Hl & Hd & Hin' & Hsum' & Ha' & Hn' & Hb' & Ho1 & Ho2 & Ho3 & Ho4). cbn [mbind option_bind].
  set (n := Z.min more (avail_in (strm z1))) in *.
  assert (Hn : 1 <= n <= more /\ n <= avail_in (strm z1)) by (destruct Hin; subst n; lia).
  assert (Hby : Forall is_byte data).
  { apply Forall_aget. intros i x Hx. pose proof (aget_Some_lt _ _ _ Hx). rewrite Hd in Hx by lia. injection Hx as <-. by apply at_byte. }
  destruct (append_window (win z1) all (pend z1 all) n data Hw Hl ltac:(subst more; lia) Hby Hd) as (buf & -> & Hw2). cbn [mbind option_bind].
  rewrite Hl. set (w2 := set_pos (set_window (win z1) buf) (strstart (win z1)) (lookahead (win z1) + n)) in *.
  destruct Hh as [(S & HC & HS) _].
  destruct (insert_pending_spec (strategy (tr z1)) w2 (dict z1) all (pend z1 all + n) S Hw2) as (d' & m & -> & Hm & Hh2).
  { cbn [w2 set_pos set_window w_bits strstart lookahead insert].
    replace (pend z1 all + n - (lookahead (win z1) + n)) with (pend z1 all - lookahead (win z1)) by lia.
    apply chains_mono with (Z.min (pend z1 all - lookahead (win z1) - insert (win z1)) (pend z1 all - 2)); [exact HC|lia]. }
  { intros q Hq. specialize (HS q Hq). lia. }
  cbn [mbind option_bind]. do 2 eexists. split; [reflexivity|].
  assert (Epend : forall x d l t c, pend (ZS s' x d l t c) all = pend z1 all + n) by (intros; unfold pend; cbn [strm]; lia).
  split; [constructor|]; cbn [strm win dict lm tr ctl]; rewrite ?Epend.
  - done.
  - destruct Hw2. constructor; try done. cbn [set_insert insert strstart]. cbn [w2 set_pos set_window insert strstart] in *. lia.
  - done.
  - unfold pend. rewrite Ha' in Hsum'. replace (Z.of_nat (length all) - avail_in (strm z1) + n) with (Z.of_nat (length all) - (avail_in (strm z1) - n)) by lia. done.
  - split; [|split; [|split]].
    + apply filled_trans with z1; [done|].
      constructor; cbn [strm win dict lm tr ctl set_insert w2 set_pos set_window strstart w_bits block_start]; try done; try lia.
      * by destruct (lm z1).
      * unfold here. rewrite Epend. cbn. lia.
      * unfold base_of, here. rewrite Epend. cbn. lia.
    + cbn [set_insert lookahead w2 set_pos]. rewrite Ha', <- El, <- Es. lia.
    + exact Hs.
    + rewrite Ha', <- Es. lia.
Qed.

Lemma fill_loop_spec fuel z all :
  fed z all -> Forall is_byte all -> lookahead (win z) < MIN_LOOKAHEAD -> avail_in (strm z) < Z.of_nat fuel ->
  exists z', fill_loop W C fuel z = Some z' /\ fed z' all /\ filled z z' all /\
    lookahead (win z') + avail_in (strm z') = lookahead (win z) + avail_in (strm z) /\
    strstart (win z') < w_size (win z') + MAX_DIST (win z') /\ (MIN_LOOKAHEAD <= lookahead (win z') \/ avail_in (strm z') = 0).
Proof.
  revert z. induction fuel as [|fuel IH]; intros z Hf Hall Hla Hfu; [destruct Hf as [[[? ?] _ _ _] _ _ _]; lia|]. cbn [fill_loop].
  destruct (fill_turn_spec z all Hf Hall Hla) as (z1 & stop & -> & Hf1 & Fl & El & Hs & Hst). cbn [mbind option_bind].
  destruct stop; [exists z1; split_and!; try done; by right|].
  destruct (Z.ltb_spec (lookahead (win z1)) MIN_LOOKAHEAD) as [H1|H1]; cbn [andb]; [|exists z1; split_and!; try done; by left].
  destruct (Z.eqb_spec (avail_in (strm z1)) 0) as [H0|H0]; cbn [negb]; [exists z1; split_and!; try done; by right|].
  destruct (IH z1 Hf1 Hall H1 ltac:(lia)) as (z2 & -> & Hf2 & Fl2 & El2 & Hs2 & Hst2). exists z2.
  split; [done|]. split; [done|]. split; [by eapply filled_trans|]. split; [lia|done].
Qed.

Lemma zero_ahead_spec w all end_ :
  win_ok w all end_ -> exists buf high, zero_ahead w = Some (set_high (set_window w buf) high) /\
    win_ok (set_high (set_window w buf) high) all end_.
Proof.
  intros [Wb Ws Wl Wby W0 Wa Wf Wba Wd Wbl Whi Wi].
  assert (Hz : forall off n high, strstart w + lookahead w <= off -> 0 <= n -> off + n <= window_size w -> 0 <= high <= window_size w ->
    exists buf, write_at (window w) off (replicate (Z.to_nat n) 0) = Some buf /\ win_ok (set_high (set_window w buf) high) all end_).
  { intros off n high Ho Hn Hl Hh. destruct (write_at_ok (window w) off (replicate (Z.to_nat n) 0)) as (buf & E & Lb & Gb);
      [lia|rewrite length_replicate; lia|]. exists buf. split; [done|].
    constructor; cbn [set_high set_window w_bits window window_size high_water block_start strstart lookahead insert]; try done; try lia.
    - eapply write_at_Forall; [done|done|]. apply Forall_replicate. unfold is_byte. lia.
    - intros i Hi. rewrite Gb. destruct (Z.leb_spec off i); [lia|]. cbn [andb]. by apply Wd. }
  assert (Hid : win_ok (set_high (set_window w (window w)) (high_water w)) all end_) by (by constructor).
  assert (Eid : Some w = Some (set_high (set_window w (window w)) (high_water w))) by (by destruct w).
  unfold zero_ahead. change WIN_INIT with 258. destruct (Z.ltb_spec (high_water w) (window_size w)); [|by exists (window w), (high_water w)].
  destruct (Z.ltb_spec (high_water w) (strstart w + lookahead w)).
  - set (init := if window_size w - (strstart w + lookahead w) >? 258 then 258 else window_size w - (strstart w + lookahead w)).
    assert (Hi : 0 <= init <= window_size w - (strstart w + lookahead w)) by (subst init; destruct (Z.gtb_spec (window_size w - (strstart w + lookahead w)) 258); lia).
    destruct (Hz (strstart w + lookahead w) init (strstart w + lookahead w + init)) as (buf & -> & Hw); try lia.
    cbn [mbind option_bind]. by do 2 eexists.
  - destruct (Z.ltb_spec (high_water w) (strstart w + lookahead w + 258)); [|by exists (window w), (high_water w)].
    set (init := if strstart w + lookahead w + 258 - high_water w >? window_size w - high_water w
                 then window_size w - high_water w else strstart w + lookahead w + 258 - high_water w).
    assert (Hi : 0 <= init <= window_size w - high_water w).
    { subst init. destruct (Z.gtb_spec (strstart w + lookahead w + 258 - high_water w) (window_size w - high_water w)); lia. }
    destruct (Hz (high_water w) init (high_water w + init)) as (buf & -> & Hw); try lia.
    cbn [mbind option_bind]. by do 2 eexists.
Qed.

Lemma fill_window_spec z all :
  fed z all -> Forall is_byte all -> lookahead (win z) < MIN_LOOKAHEAD ->
  exists z', fill_window W C z = Some z' /\ fed z' all /\ filled z z' all /\
    lookahead (win z') + avail_in (strm z') = lookahead (win z) + avail_in (strm z) /\
    strstart (win z') < w_size (win z') + MAX_DIST (win z') /\ (MIN_LOOKAHEAD <= lookahead (win z') \/ avail_in (strm z') = 0).
Proof.
  intros Hf Hall Hla. unfold fill_window. pose proof Hf as [[[Ha _] _ _ _] _ _ _].
  destruct (fill_loop_spec (S (Z.to_nat (avail_in (strm z)))) z all Hf Hall Hla ltac:(lia)) as (z1 & -> & [Hin Hw Hh Hsum] & Fl & El & Hs & Hst).
  cbn [mbind option_bind]. destruct (zero_ahead_spec (win z1) all (pend z1 all) Hw) as (buf & high & -> & Hw2). cbn [mbind option_bind].
  eexists. split; [reflexivity|]. split; [by constructor|]. split; [|done].
  apply filled_trans with z1; [done|]. constructor; try done; [cbn; by destruct (lm z1)|]. destruct Fl. cbn. lia.
Qed.
End Read.
