(* ===== verification/LzSearch.v ===== *)
(** * The search for a match (longest_match)

    Whatever the chains hold beyond [chains], the search stays in bounds and
    ends, and a length above [prev_length] is that of a real match. *)
From stdpp Require Import base numbers list.
From Stdlib Require Import ZArith Lia Bool.
From S2P Require Import Prelude Trees TreesTables TreesWriter TreesState LzState LzWindow LzMatch LzFacts LzHash.

(** ** Comparing bytes *)

Lemma compare_bytes_spec k w scan mtch :
  -1 <= mtch < scan -> scan + Z.of_nat k < Z.of_nat (length w) ->
  exists (eq : bool) t, compare_bytes k w scan mtch = Some (eq, scan + t, mtch + t) /\ 0 <= t <= Z.of_nat k /\
    (if eq then t = Z.of_nat k else 1 <= t) /\
    forall i, 1 <= i <= (if eq then t else t - 1) -> aget w (scan + i) = aget w (mtch + i).
Proof.
  revert scan mtch. induction k as [|k IH]; intros scan mtch Hm Hk; cbn [compare_bytes].
  { exists true, 0. rewrite !Z.add_0_r. split; [done|]. split; [lia|]. split; [done|]. intros i Hi. lia. }
  destruct (aget_range w (scan + 1) ltac:(lia)) as [a Ha]. destruct (aget_range w (mtch + 1) ltac:(lia)) as [b Hb].
  rewrite Ha, Hb. cbn [mbind option_bind]. destruct (Z.eqb_spec a b) as [->|].
  - destruct (IH (scan + 1) (mtch + 1) ltac:(lia) ltac:(lia)) as (eq & t & -> & Ht & He & Hi). exists eq, (t + 1).
    split; [do 2 f_equal; [f_equal|]; lia|]. split; [lia|]. split; [destruct eq; lia|]. intros i Hr.
    destruct (decide (i = 1)) as [->|]; [congruence|].
    replace (scan + i) with (scan + 1 + (i - 1)) by lia. replace (mtch + i) with (mtch + 1 + (i - 1)) by lia. apply Hi. destruct eq; lia.
  - exists false, 1. split; [done|]. split; [lia|]. split; [lia|]. intros i Hi. lia.
Qed.

Lemma compare_loop_spec fuel w scan mtch strend :
  -1 <= mtch < scan -> strend < Z.of_nat (length w) -> (exists j, strend - scan = 8 * j /\ 1 <= j <= Z.of_nat fuel) ->
  exists e, compare_loop fuel w scan mtch strend = Some e /\ scan < e <= strend /\
    forall i, scan < i < e -> aget w i = aget w (i - scan + mtch).
Proof.
  revert scan mtch. induction fuel as [|fuel IH]; intros scan mtch Hm Hl (j & Ej & Hj); [lia|]. cbn [compare_loop].
  destruct (compare_bytes_spec 8 w scan mtch Hm ltac:(lia)) as (eq & t & -> & Ht & He & Hi). cbn [mbind option_bind].
  change (Z.of_nat 8) with 8 in *.
  assert (Hi' : forall i, scan < i < scan + (if eq then t + 1 else t) -> aget w i = aget w (i - scan + mtch)).
  { intros i Hr. replace i with (scan + (i - scan)) at 1 by lia. rewrite Hi by (destruct eq; lia). f_equal. lia. }
  destruct eq; cbn [andb].
  - subst t. destruct (Z.ltb_spec (scan + 8) strend) as [H8|H8].
    + destruct (IH (scan + 8) (mtch + 8) ltac:(lia) Hl) as (e & -> & Hr & Hx); [exists (j - 1); lia|].
      exists e. split; [done|]. split; [lia|]. intros i Hri. destruct (decide (i <= scan + 8)); [apply Hi'; lia|].
      rewrite Hx by lia. f_equal. lia.
    + exists (scan + 8). split; [done|]. split; [lia|]. intros i Hri. apply Hi'. lia.
  - exists (scan + t). split; [done|]. split; [lia|]. intros i Hri. apply Hi'. lia.
Qed.

(** A candidate either fails the first checks or gives a length of three bytes or more. *)
Lemma match_at_spec w scan cur best e1 e :
  0 < cur < scan -> 0 <= best -> scan + 258 < Z.of_nat (length w) -> cur + best < Z.of_nat (length w) ->
  exists r, match_at w scan cur best e1 e = Some r /\
    match r with
    | None => True
    | Some len => 3 <= len <= 258 /\ forall i, 0 <= i < len -> i <> 2 -> aget w (scan + i) = aget w (cur + i)
    end.
Proof.
  intros Hc Hb Hs Hcb. unfold match_at.
  destruct (aget_range w (cur + best) ltac:(lia)) as [a ->]. cbn [mbind option_bind]. destruct (negb (a =? e)); [by exists None|].
  destruct (aget_range w (cur + best - 1) ltac:(lia)) as [b ->]. cbn [mbind option_bind]. destruct (negb (b =? e1)); [by exists None|].
  destruct (aget_range w cur ltac:(lia)) as [c0 E0], (aget_range w scan ltac:(lia)) as [s0 F0].
  rewrite E0, F0. cbn [mbind option_bind]. destruct (Z.eqb_spec c0 s0) as [->|]; cbn [negb]; [|by exists None].
  destruct (aget_range w (cur + 1) ltac:(lia)) as [c1 E1], (aget_range w (scan + 1) ltac:(lia)) as [s1 F1].
  rewrite E1, F1. cbn [mbind option_bind]. destruct (Z.eqb_spec c1 s1) as [->|]; cbn [negb]; [|by exists None].
  destruct (compare_loop_spec 33 w (scan + 2) (cur + 2) (scan + MAX_MATCH)) as (x & -> & Hx & Hi);
    [lia|change MAX_MATCH with 258; lia|exists 32; change MAX_MATCH with 258; lia|]. change MAX_MATCH with 258 in *.
  cbn [mbind option_bind]. eexists. split; [reflexivity|]. cbn beta iota. split; [lia|]. intros i Hr Hn.
  destruct (decide (i = 0)) as [->|]; [rewrite !Z.add_0_r; congruence|]. destruct (decide (i = 1)) as [->|]; [congruence|].
  rewrite Hi by lia. f_equal. lia.
Qed.

(** ** The chain *)

Section Chain.
Context (w : window_state) (d : hash_state) (all : list Z) (base : Z) (S : Z -> Prop) (scan : Z).
Context (Hscan : 0 < scan) (Hroom : scan + 258 < Z.of_nat (length (window w))) (Hall : Forall is_byte all).
Context (Hdata : forall i, 0 <= i < scan + 3 -> aget (window w) i = Some (at_ all (base + i))).
Context (Hch : chains (w_bits w) d all base (base + scan + 1) S).

(** A string of the table with the hash of the string at [scan]. *)
Definition candidate (cur : Z) : Prop :=
  0 < cur < scan /\ scan - cur <= MAX_DIST w /\ S (base + cur) /\ hash_at d all (base + cur) = hash_at d all (base + scan).

(** The bytes of the window repeat. *)
Definition same_bytes (ms len : Z) : Prop := forall i, 0 <= i < len -> aget (window w) (scan + i) = aget (window w) (ms + i).

Lemma third_byte cur :
  candidate cur -> aget (window w) scan = aget (window w) cur -> aget (window w) (scan + 1) = aget (window w) (cur + 1) ->
  aget (window w) (scan + 2) = aget (window w) (cur + 2).
Proof.
  intros (Hc & _ & _ & Hh). rewrite !Hdata by lia. intros [= E0] [= E1]. f_equal. unfold hash_at in Hh.
  rewrite !Z.add_assoc in E1. rewrite E0, E1 in Hh. rewrite !Z.add_assoc.
  symmetry. eapply (hash_third d (ch_bits _ _ _ _ _ _ Hch)); [by apply at_byte|by apply at_byte|exact Hh].
Qed.

Lemma candidate_match cur len :
  candidate cur -> 3 <= len -> (forall i, 0 <= i < len -> i <> 2 -> aget (window w) (scan + i) = aget (window w) (cur + i)) ->
  same_bytes cur len.
Proof.
  intros Hc Hl H i Hi. destruct (decide (i = 2)) as [->|]; [|by apply H].
  pose proof (H 0 ltac:(lia) ltac:(lia)) as H0. pose proof (H 1 ltac:(lia) ltac:(lia)) as H1. rewrite !Z.add_0_r in H0.
  by apply third_byte.
Qed.

(** The next string of the chain is a candidate below. *)
Lemma chain_next cur limit v :
  candidate cur -> limit = (if scan >? MAX_DIST w then scan - MAX_DIST w else NIL) ->
  aget (prev d) (Z.land cur (w_mask w)) = Some v -> v > limit -> candidate v /\ v < cur.
Proof.
  intros (Hc & Hd & HS & Hh) -> Hv Hl. pose proof Hch as [H1 H2 H3 H4 H5 H6 H7 H8]. pose proof (pow_wb _ H2) as Hp.
  rewrite wmask_mod in Hv by lia. change NIL with 0 in Hl. unfold candidate, MAX_DIST in *. rewrite wsize_pow in * by lia.
  change MIN_LOOKAHEAD with 262 in *.
  assert (Hv' : 0 < v /\ scan - v <= 2 ^ w_bits w - 262) by (revert Hl; destruct (Z.gtb_spec scan (2 ^ w_bits w - 262)); lia).
  destruct (H8 (base + cur) v) as (G1 & G2 & G3); [done|lia|lia| |lia|].
  { rewrite <- Hv. do 2 f_equal. lia. }
  split; [|lia]. split; [lia|]. split; [lia|]. split; [done|congruence].
Qed.

Definition found (best ms best' ms' : Z) : Prop :=
  (best' = best /\ ms' = ms) \/
  (best < best' /\ 3 <= best' <= 258 /\ 0 < ms' < scan /\ scan - ms' <= MAX_DIST w /\ same_bytes ms' best').

Lemma found_trans b1 m1 b2 m2 b3 m3 : found b1 m1 b2 m2 -> found b2 m2 b3 m3 -> found b1 m1 b3 m3.
Proof. intros [[-> ->]|(H1 & H2)]; [done|]. intros [[-> ->]|(H3 & H4)]; right; [done|]. split; [lia|done]. Qed.

Lemma chain_loop_spec fuel limit nice cur clen best ms :
  limit = (if scan >? MAX_DIST w then scan - MAX_DIST w else NIL) -> candidate cur -> cur < Z.of_nat fuel ->
  0 <= best <= 258 ->
  exists ms' best', (e1 ← aget (window w) (scan + best - 1); e ← aget (window w) (scan + best);
    chain_loop fuel (window w) (prev d) (w_mask w) scan limit nice cur clen best e1 e ms) = Some (ms', best') /\ found best ms best' ms'.
Proof.
  intros Hlim. revert cur clen best ms. induction fuel as [|fuel IH]; intros cur clen best ms Hcand Hf Hb; [destruct Hcand; lia|].
  destruct (aget_range (window w) (scan + best - 1) ltac:(lia)) as [e1 E1]. destruct (aget_range (window w) (scan + best) ltac:(lia)) as [e E].
  rewrite E1, E. cbn [mbind option_bind chain_loop]. pose proof Hcand as (Hc & _).
  destruct (match_at_spec (window w) scan cur best e1 e) as (r & -> & Hr); [done|lia|lia|lia|]. cbn [mbind option_bind].
  (* what follows the comparison *)
  assert (Hnext : forall best2 ms2 e1' e', 0 <= best2 <= 258 -> aget (window w) (scan + best2 - 1) = Some e1' ->
    aget (window w) (scan + best2) = Some e' -> found best ms best2 ms2 -> exists ms' best',
    (c ← aget (prev d) (Z.land cur (w_mask w));
     if c >? limit then
       if negb (wrap 32 (clen - 1) =? 0) then
         chain_loop fuel (window w) (prev d) (w_mask w) scan limit nice c (wrap 32 (clen - 1)) best2 e1' e' ms2
       else Some (ms2, best2)
     else Some (ms2, best2)) = Some (ms', best') /\ found best ms best' ms').
  { intros best2 ms2 e1' e' Hb2 E1' E' Hfound.
    destruct (aget_range (prev d) (Z.land cur (w_mask w))) as [v Hv].
    { rewrite wmask_mod by (destruct Hch; lia). rewrite (ch_prev_len _ _ _ _ _ _ Hch). apply Z.mod_pos_bound.
      pose proof (pow_wb _ (ch_wb _ _ _ _ _ _ Hch)). lia. }
    rewrite Hv. cbn [mbind option_bind]. destruct (Z.gtb_spec v limit) as [Hv1|]; [|by exists ms2, best2].
    destruct (wrap 32 (clen - 1) =? 0); cbn [negb]; [by exists ms2, best2|].
    destruct (chain_next cur limit v Hcand Hlim Hv ltac:(lia)) as [Hcv Hlt].
    destruct (IH v (wrap 32 (clen - 1)) best2 ms2 Hcv ltac:(lia) Hb2) as (ms' & best' & Er & Hfr).
    rewrite E1', E' in Er. cbn [mbind option_bind] in Er. exists ms', best'. split; [done|]. by eapply found_trans. }
  destruct r as [len|]; [|apply Hnext; try done; by left].
  destruct Hr as [Hl3 Hbytes]. destruct (Z.gtb_spec len best) as [Hgt|Hle]; [|apply Hnext; try done; by left].
  assert (Hfl : found best ms len cur).
  { right. split; [lia|]. split; [done|]. split; [done|]. split; [apply Hcand|]. apply candidate_match; [done|lia|done]. }
  destruct (Z.geb_spec len nice); [by exists cur, len|].
  destruct (aget_range (window w) (scan + len - 1) ltac:(lia)) as [f1 F1]. destruct (aget_range (window w) (scan + len) ltac:(lia)) as [f F].
  rewrite F1, F. cbn [mbind option_bind]. apply Hnext; try done. lia.
Qed.
End Chain.
