(* ===== verification/LzOut.v ===== *)
(** * The output of the compressor (flush_pending, FLUSH_BLOCK)

    [delivered] are the bytes that left through [next_out] and those that wait
    in [pending_buf], [total_bits] their bits and those of the bit buffer.
    [flush_pending] leaves them alone; a block flush appends a block of the
    format. *)
From stdpp Require Import base numbers list.
From Stdlib Require Import ZArith Lia Bool.
From S2P Require Import Prelude Huffman Deflate Trees TreesTables TreesWriter TreesState TreesSend TreesSyms.
From S2P Require Import TreesTally TreesCost TreesBlock TreesSession LzState LzWindow LzFacts LzHash LzFill.

Definition queued (z : zs) : list Z :=
  take (Z.to_nat (pending (wr (tr z)))) (drop (Z.to_nat (pending_out (ctl z))) (pending_buf (wr (tr z)))).

Definition delivered (z : zs) : list Z := out_bytes (strm z) ++ queued z.

Definition total_bits (z : zs) : list bool :=
  bytes_bits (delivered z) ++ z_bits (Z.to_nat (bi_valid (wr (tr z)))) (bi_buf (wr (tr z))).

(** The queue lies in the buffer; while part of it left, there is no whole byte of bits. *)
Record queue_ok (z : zs) : Prop := {
  qo_writer : writer_ok (wr (tr z));
  qo_start : 0 <= pending_out (ctl z);
  qo_end : pending_out (ctl z) + pending (wr (tr z)) <= size (wr (tr z));
  qo_bits : pending_out (ctl z) <> 0 -> bi_valid (wr (tr z)) < 8;
  qo_empty : pending (wr (tr z)) = 0 -> pending_out (ctl z) = 0;
  qo_bytes : Forall is_byte (delivered z);
  qo_avail : 0 <= avail_out (strm z) }.

Lemma total_sent z : pending_out (ctl z) = 0 -> total_bits z = bytes_bits (out_bytes (strm z)) ++ sent (wr (tr z)).
Proof. intros H. unfold total_bits, delivered, queued, sent. by rewrite H, drop_0, bytes_bits_app, <- app_assoc. Qed.

Lemma length_queued z : queue_ok z -> Z.of_nat (length (queued z)) = pending (wr (tr z)).
Proof.
  intros [[Hp _ _ _ _] H1 H2 _ _ _ _]. unfold queued. rewrite length_take, length_drop. unfold size in *. lia.
Qed.

(** ** [flush_pending] *)

(** What flushing leaves alone. *)
Record drained (W : Z) (z z' : zs) : Prop := {
  dn_win : win z' = win z;
  dn_dict : dict z' = dict z;
  dn_lm : lm z' = lm z;
  dn_tr : exists w, tr z' = set_writer (tr z) w;
  dn_size : size (wr (tr z')) = size (wr (tr z));
  dn_ctl : ctl z' = set_pending_out (ctl z) (pending_out (ctl z'));
  dn_in : in_buf (strm z') = in_buf (strm z) /\ next_in (strm z') = next_in (strm z) /\ avail_in (strm z') = avail_in (strm z) /\
    total_in (strm z') = total_in (strm z) /\ adler (strm z') = adler (strm z) /\ msg (strm z') = msg (strm z) /\
    (out_ok W (strm z) -> out_ok W (strm z'));
  dn_count : Z.of_nat (length (out_bytes (strm z'))) + avail_out (strm z') = Z.of_nat (length (out_bytes (strm z))) + avail_out (strm z);
  dn_total : total_bits z' = total_bits z;
  dn_prefix : out_bytes (strm z) `prefix_of` out_bytes (strm z') }.

Lemma drained_trans W a b c : drained W a b -> drained W b c -> drained W a c.
Proof.
  intros [A1 A2 A3 (w & A4) A5 A6 (A7 & A8 & A9 & A10 & A11 & A12 & A15) A13 A14 A16] [B1 B2 B3 (v & B4) B5 B6 (B7 & B8 & B9 & B10 & B11 & B12 & B15) B13 B14 B16].
  constructor; try congruence; try lia; [exists v; by rewrite B4, A4|by rewrite B6, A6|split_and!; try congruence; auto|by etransitivity].
Qed.

Lemma bi_flush_valid w w' : 0 <= bi_valid w -> bi_flush w = Some w' -> bi_valid w' <= bi_valid w.
Proof.
  intros H. unfold bi_flush. destruct (bi_valid w =? 16).
  - intros (v & _ & [= <-])%bind_Some. done.
  - destruct (Z.geb_spec (bi_valid w) 8); [|by intros [= <-]]. intros (v & _ & [= <-])%bind_Some. cbn. lia.
Qed.

Lemma flush_bits_spec W z :
  queue_ok z -> exists w, tr_flush_bits (wr (tr z)) = Some w /\ bi_valid w < 8 /\ bi_valid w <= bi_valid (wr (tr z)) /\
    let z' := set_tr z (set_writer (tr z) w) in queue_ok z' /\ drained W z z' /\ (pending w = 0 -> pending (wr (tr z)) = 0).
Proof.
  intros [Hw H0 He Hb Hz Hby Ha]. unfold tr_flush_bits. destruct (decide (pending_out (ctl z) = 0)) as [E|E].
  - destruct (bi_flush_spec (wr (tr z)) Hw) as (w & Ew & M & Hv). exists w. split; [done|]. split; [done|]. split; [apply bi_flush_valid; [apply Hw|done]|].
    pose proof M as [O S N Z F]. rewrite app_nil_r in S. cbn [length] in N.
    assert (Et : total_bits (set_tr z (set_writer (tr z) w)) = total_bits z) by (rewrite !total_sent by done; by rewrite <- S).
    split; [|split].
    + constructor; cbn [set_tr tr set_writer wr ctl strm]; try done; [destruct O; lia|].
      unfold delivered, queued in *. cbn [set_tr tr set_writer wr ctl strm]. rewrite E, drop_0 in *.
      apply Forall_app in Hby as [Hby _]. apply Forall_app. split; [done|apply O].
    + constructor; try done; [by exists w|cbn; by destruct (ctl z)].
    + unfold nbits in N. destruct Hw, O. lia.
  - exists (wr (tr z)). specialize (Hb E). unfold bi_flush. destruct (Z.eqb_spec (bi_valid (wr (tr z))) 16); [lia|].
    destruct (Z.geb_spec (bi_valid (wr (tr z))) 8); [lia|]. split; [done|]. split; [done|]. split; [done|].
    assert (Ez : set_tr z (set_writer (tr z) (wr (tr z))) = z) by (by destruct z as [? ? ? ? []]). rewrite Ez.
    split; [by constructor|]. split; [|done]. constructor; try done; [exists (wr (tr z)); by destruct (tr z)|by destruct (ctl z)].
Qed.

(** Bytes move from the queue to the output. *)
Lemma flush_pending_spec W z :
  queue_ok z ->
  exists z', flush_pending W z = Some z' /\ queue_ok z' /\ drained W z z' /\ bi_valid (wr (tr z')) < 8 /\
    (pending (wr (tr z')) <> 0 -> avail_out (strm z') = 0) /\ bi_valid (wr (tr z')) <= bi_valid (wr (tr z)).
Proof.
  intros Hq. unfold flush_pending. destruct (flush_bits_spec W z Hq) as (w & -> & Hv & Hvle & Hq1 & D & _). cbn [mbind option_bind].
  set (z1 := set_tr z (set_writer (tr z) w)) in *. pose proof Hq1 as [Ow H0 He Hb Hz Hby Ha].
  change (wr (tr z1)) with w in *. change (ctl z1) with (ctl z) in *. change (strm z1) with (strm z) in *.
  set (len := if pending w >? avail_out (strm z) then avail_out (strm z) else pending w).
  assert (Hlen : len = Z.min (pending w) (avail_out (strm z))) by (subst len; destruct (Z.gtb_spec (pending w) (avail_out (strm z))); lia).
  pose proof Ow as [Opn Oby Obv Obb Orm].
  destruct (Z.eqb_spec len 0) as [El|El].
  { exists z1. split; [done|]. split; [done|]. split; [done|]. split; [done|]. split; [|done]. change (wr (tr z1)) with w. change (strm z1) with (strm z). lia. }
  destruct (read_at_ok (pending_buf w) (pending_out (ctl z)) len) as (data & -> & Ld & _ & Ed); [lia|lia|unfold size in *; lia|].
  cbn [mbind option_bind]. eexists. split; [reflexivity|].
  set (w' := Writer (pending_buf w) (pending w - len) (bi_buf w) (bi_valid w)).
  set (po := if pending w - len =? 0 then 0 else pending_out (ctl z) + len).
  match goal with |- queue_ok ?x /\ _ => set (z2 := x) end.
  assert (Hpo : 0 <= po /\ po + (pending w - len) <= size w /\ (pending w - len = 0 -> po = 0)).
  { subst po. destruct (Z.eqb_spec (pending w - len) 0); lia. }
  assert (Edel : delivered z2 = delivered z1).
  { unfold delivered, queued. cbn [z2 strm out_bytes tr set_writer wr ctl set_pending_out pending_out pending pending_buf].
    change (out_bytes (strm z1)) with (out_bytes (strm z)). change (wr (tr z1)) with w. change (ctl z1) with (ctl z).
    rewrite <- app_assoc. f_equal. rewrite Ed.
    replace (Z.to_nat (pending w)) with (Z.to_nat len + Z.to_nat (pending w - len))%nat by lia.
    rewrite <- (take_take_drop _ (Z.to_nat len)). f_equal. rewrite drop_drop. subst po.
    cbn [w' pending pending_buf]. destruct (Z.eqb_spec (pending w - len) 0) as [E|E]; [by rewrite E|]. do 2 f_equal. lia. }
  assert (Et : total_bits z2 = total_bits z1) by (unfold total_bits; by rewrite Edel).
  split; [|split; [|split; [done|split; [|done]]]].
  - constructor; cbn [z2 strm avail_out tr set_writer wr ctl set_pending_out pending_out]; try done; try (subst po w'; cbn; lia).
    + constructor; cbn [w' pending pending_buf bi_valid bi_buf]; unfold size, nbits in *; cbn [w' pending pending_buf bi_valid bi_buf]; try done; try lia.
      apply (Forall_take _ (Z.to_nat (pending w - len))) in Oby. by rewrite take_take, Nat.min_l in Oby by lia.
    + change (size w') with (size w). cbn [w' pending]. lia.
    + by rewrite Edel.
  - apply drained_trans with z1; [done|]. assert (Hlo : length (out_bytes (strm z2)) = (length (out_bytes (strm z1)) + length data)%nat) by (apply length_app).
    constructor; try done; [by exists w'| | |].
    + split_and!; try done. unfold out_ok. intros Ho. rewrite Hlo. change (total_out (strm z2)) with (wrap W (total_out (strm z1) + len)).
      rewrite Ho, wrap_add_l. f_equal. lia.
    + rewrite Hlo. change (avail_out (strm z2)) with (avail_out (strm z1) - len). lia.
    + by exists data.
  - cbn [z2 strm avail_out tr set_writer wr]. subst w'. cbn [pending]. lia.
Qed.
