(* ===== verification/LzCore.v ===== *)
(** * The invariant of the compressor and the end of a block (FLUSH_BLOCK_ONLY)

    [core hdr z all ys done]: of the input [all], the blocks sent so far expand
    to the bytes before [block_start], the symbols [ys] of the current block to
    those from there to [done]; the bits sent, behind the header [hdr], are the
    front of a stream. *)
From stdpp Require Import base numbers list.
From Stdlib Require Import ZArith Lia Bool.
From S2P Require Import Prelude Huffman Deflate Trees TreesTables TreesWriter TreesState TreesSend TreesSyms TreesCompress.
From S2P Require Import TreesTally TreesCost TreesBlock TreesSession LzState LzWindow LzFacts LzHash LzFill LzOut.

(** ** How long the symbols are *)

Definition sym_size (y : symbol) : Z := if y.1 =? 0 then 1 else y.2 + 3.

Lemma expand_total ys out out' :
  Forall valid_sym ys -> expand out (map token_of ys) = Some out' ->
  Z.of_nat (length out') = Z.of_nat (length out) + total sym_size ys.
Proof.
  revert out. induction ys as [|y ys IH]; intros out Hv; cbn [map expand]; [intros [= <-]; cbn; lia|].
  apply Forall_cons in Hv as [[Hd Hl] Hv]. intros (o & Ho & H)%bind_Some. rewrite (IH o Hv H), total_cons.
  assert (Ho' : Z.of_nat (length o) = Z.of_nat (length out) + sym_size y); [|lia]. clear H. unfold token_of, sym_size in *.
  destruct (y.1 =? 0); cbn [expand1] in Ho; [injection Ho as <-; rewrite length_app; cbn; lia|].
  destruct ((1 <=? y.1) && (y.1 <=? Z.of_nat (length out))); [|done]. apply copy_bytes_length in Ho. lia.
Qed.

Lemma matches_size ys : Forall valid_sym ys -> 0 <= 3 * matches_of ys <= total sym_size ys.
Proof.
  induction 1 as [|y ys [Hd Hl] _ IH]; [done|]. unfold matches_of in *. rewrite !total_cons. unfold sym_size at 1. destruct (y.1 =? 0); lia.
Qed.

Lemma literals_size ys : Forall (fun y : symbol => y.1 = 0) ys -> total sym_size ys = Z.of_nat (length ys).
Proof.
  induction 1 as [|y ys Hy _ IH]; [done|]. rewrite total_cons, IH. unfold sym_size. rewrite Hy. cbn [Z.eqb length]. lia.
Qed.

(** The symbol buffer is large enough for any block of an input of [n] bytes,
    or the strategy keeps the symbols short. *)
Definition roomy (t : deflate_state) (n : Z) : Prop :=
  strategy t = Z_FIXED \/ ((strategy t = Z_HUFFMAN_ONLY \/ strategy t = Z_RLE) /\ 564 <= lit_bufsize t) \/ n + 564 <= lit_bufsize t.

(** The symbols that a strategy makes. *)
Definition kind_ok (st : Z) (ys : list symbol) : Prop :=
  (st = Z_HUFFMAN_ONLY -> Forall (fun y : symbol => y.1 = 0) ys) /\ (st = Z_RLE -> Forall (fun y : symbol => y.1 <= 1) ys).

Lemma kind_ok_nil st : kind_ok st [].
Proof. by split. Qed.

Lemma kind_ok_app st ys us : kind_ok st ys -> kind_ok st us -> kind_ok st (ys ++ us).
Proof. intros [H1 H2] [H3 H4]. split; intros E; apply Forall_app; auto. Qed.

Lemma kind_near st ys : kind_ok st ys -> st = Z_HUFFMAN_ONLY \/ st = Z_RLE -> near ys = true.
Proof.
  intros [H1 H2] Hs. assert (H : Forall (fun y : symbol => y.1 <= 1) ys).
  { destruct Hs as [Hs|Hs]; [|auto]. eapply Forall_impl; [by apply H1|]. cbn. lia. }
  unfold near. apply forallb_forall. intros y Hy%list_elem_of_In. apply Z.leb_le. by apply (proj1 (Forall_forall _ _) H).
Qed.

Lemma roomy_room t ys out n p :
  block_inv t ys -> expand out (map token_of ys) = Some p -> Z.of_nat (length p) <= n ->
  nbits (wr t) <= 7 -> 128 <= lit_bufsize t -> roomy t n -> kind_ok (strategy t) ys -> room_ok t ys.
Proof.
  intros Hi Hx Hp Hn Hb Hr Hk. split; [lia|]. pose proof (expand_total ys out p (bi_syms_ok _ _ Hi) Hx).
  pose proof (matches_size ys (bi_syms_ok _ _ Hi)). unfold may_spill.
  destruct Hr as [Hr|[[Hs Hr]|Hr]]; [by left| |right]; [|destruct (near ys); lia].
  rewrite (kind_near _ _ Hk Hs). right. lia.
Qed.

(** ** The invariant *)

Section Core.
Context (W : Z) (A R : list Z -> Z) (hdr : list Z).

Definition block_pos (z : zs) (all : list Z) : Z := base_of z all + block_start (win z).

Record core (z : zs) (all : list Z) (ys : list symbol) (done : Z) : Prop := {
  co_all : Forall is_byte all;
  co_fed : fed W A R z all;
  co_block : block_inv (tr z) ys;
  co_expand : expand (upto all (block_pos z all)) (map token_of ys) = Some (upto all done);
  co_queue : queue_ok z;
  co_front : exists bs, total_bits z = bytes_bits hdr ++ bs /\ front bs (upto all (block_pos z all));
  co_bits : bi_valid (wr (tr z)) < 8;
  co_level : 0 < level (tr z);
  co_bufsize : 128 <= lit_bufsize (tr z);
  co_room : roomy (tr z) (Z.of_nat (length all));
  co_kind : kind_ok (strategy (tr z)) ys }.

(** After the last block, the bits are a whole stream. *)
Record ended (z : zs) (all : list Z) : Prop := {
  en_queue : queue_ok z;
  en_block : block_inv (tr z) [];
  en_stream : exists bs k, total_bits z = bytes_bits hdr ++ bs /\ Deflate.stream [] bs all (replicate k false) /\ (k < 8)%nat;
  en_bits : bi_valid (wr (tr z)) = 0;
  en_sum : sum_ok W A R (wrapper (ctl z)) (strm z) (upto all (pend z all));
  en_bufsize : 128 <= lit_bufsize (tr z) }.

Lemma block_pos_range z all ys done : core z all ys done -> 0 <= block_pos z all <= here z all.
Proof. intros C. pose proof (fd_win _ _ _ _ _ (co_fed _ _ _ _ C)) as []. unfold block_pos, base_of, here in *. lia. Qed.

Lemma here_range z all : fed W A R z all -> 0 <= here z all <= Z.of_nat (length all).
Proof. intros [[] [] _ _]. unfold here, pend in *. lia. Qed.

(** The bytes of the block are in the window while [block_start] is. *)
Lemma block_buf_ok z all ys :
  core z all ys (here z all) -> strstart (win z) < 65536 \/ strategy (tr z) = Z_HUFFMAN_ONLY ->
  buf_ok (block_buf (win z)) (strstart (win z) - block_start (win z)) (upto all (block_pos z all)) (upto all (here z all)).
Proof.
  intros C Hlt. pose proof (block_pos_range _ _ _ _ C) as Hbp. destruct C as [Hall Hf Hi Hx _ _ _ _ _ _ [Hlits _]].
  pose proof (here_range z all Hf) as Hh. pose proof Hf as [_ [Wb Ws Wl Wby W0 Wa Wf Wba Wd Wbl Whi Wi] _ _]. unfold buf_ok, block_buf.
  destruct (Z.geb_spec (block_start (win z)) 0) as [Hb|]; [|done]. unfold block_pos, base_of in *.
  assert (Hbs : block_start (win z) <= strstart (win z)) by lia.
  assert (Hn : 0 <= strstart (win z) - block_start (win z) < 2 ^ 16).
  { change (2 ^ 16) with 65536. split; [lia|]. destruct Hlt as [|Hs]; [lia|]. specialize (Hlits Hs).
    pose proof (expand_total ys _ _ (bi_syms_ok _ _ Hi) Hx) as He. rewrite literals_size in He by done.
    rewrite !upto_length in He by lia. pose proof (bi_few _ _ Hi). pose proof (sh_bufsize _ (bi_shape _ _ Hi)). lia. }
  split; [done|]. split; [rewrite length_drop; lia|]. split; [by apply Forall_take, Forall_drop|].
  apply list_eq. intros i.
  assert (Hl : Z.of_nat (length (upto all (here z all - strstart (win z) + block_start (win z)))) = here z all - strstart (win z) + block_start (win z))
    by (apply upto_length; lia).
  destruct (decide (Z.of_nat i < here z all - strstart (win z) + block_start (win z))).
  { rewrite lookup_app_l by lia. unfold upto. by rewrite !lookup_take_lt by lia. }
  rewrite lookup_app_r by lia. destruct (decide (Z.of_nat i < here z all)).
  - unfold upto at 1. rewrite !lookup_take_lt by lia. rewrite lookup_drop.
    specialize (Wd (Z.of_nat i - (here z all - strstart (win z))) ltac:(lia)). apply aget_Some in Wd as [_ E].
    replace (Z.to_nat (block_start (win z)) + (i - length (upto all (here z all - strstart (win z) + block_start (win z)))))%nat
      with (Z.to_nat (Z.of_nat i - (here z all - strstart (win z)))) by lia. rewrite E.
    assert (Hil : 0 <= Z.of_nat i < Z.of_nat (length all)) by lia. pose proof (aget_at all _ Hil) as [_ E']%aget_Some.
    rewrite Nat2Z.id in E'. rewrite E'. unfold here. do 2 f_equal. lia.
  - rewrite !lookup_ge_None_2; [done|rewrite length_take; lia|]. unfold upto. rewrite length_take. lia.
Qed.

(** ** Flushing *)

(** The parts that flushing the queue does not touch. *)
Lemma drained_fed z z' all : drained W z z' -> fed W A R z all -> fed W A R z' all.
Proof.
  intros [Ew Ed _ (w & Et) _ Ec (E1 & E2 & E3 & E4 & E5 & _ & E6) _ _] [[I1 I2 I3 I4] Hw Hh (S1 & S2 & S3 & S4)].
  assert (Ep : pend z' all = pend z all) by (unfold pend; by rewrite E3).
  constructor; rewrite ?Ew, ?Ed, ?Ep, ?Et; try done.
  - constructor; rewrite ?E1, ?E2, ?E3; done.
  - rewrite Ec. cbn [set_pending_out wrapper]. split_and!; rewrite ?E4, ?E5; auto.
Qed.

Lemma drained_pos z z' all : drained W z z' -> block_pos z' all = block_pos z all /\ here z' all = here z all.
Proof.
  intros [Ew _ _ _ _ _ (_ & _ & E3 & _) _ _]. unfold block_pos, base_of, here, pend. by rewrite Ew, E3.
Qed.

Lemma drained_block z z' : drained W z z' -> queue_ok z' -> block_inv (tr z) [] -> block_inv (tr z') [].
Proof.
  intros [_ _ _ (w & Et) Es _ _ _ _] Hq [Sh Lf Df Bf Sv Sy Sn Ss Sw]. pose proof (qo_writer _ Hq) as Ow. rewrite Et in Ow, Es |- *.
  constructor; try done. by apply set_writer_shape.
Qed.

Lemma core_drained z z' all done :
  drained W z z' -> queue_ok z' -> bi_valid (wr (tr z')) < 8 -> core z all [] done -> core z' all [] done.
Proof.
  intros D Hq Hb [Hall Hf Hi Hx _ (bs & Et & Hfr) _ Hl Hbs Hr Hli]. pose proof (drained_pos _ _ all D) as [Ep _].
  pose proof (drained_block _ _ D Hq Hi) as Hi'. pose proof (drained_fed _ _ all D Hf) as Hf'.
  destruct D as [_ _ _ (w & Etr) _ _ _ _ Etot]. rewrite Etr in *.
  constructor; rewrite ?Etr, ?Ep; try done. exists bs. by rewrite Etot.
Qed.

Lemma pending_total z : queue_ok z -> pending (wr (tr z)) = 0 ->
  total_bits z = bytes_bits (out_bytes (strm z)) ++ sent (wr (tr z)) /\ nbits (wr (tr z)) = bi_valid (wr (tr z)) /\ pending_out (ctl z) = 0.
Proof.
  intros Hq H0. pose proof (qo_empty _ Hq H0) as E. split; [by apply total_sent|]. split; [unfold nbits; lia|done].
Qed.

(** The length of the bits behind the header. *)
Lemma front_length z bs : queue_ok z -> pending (wr (tr z)) = 0 -> total_bits z = bytes_bits hdr ++ bs ->
  Z.of_nat (length bs) mod 8 = nbits (wr (tr z)) mod 8.
Proof.
  intros Hq H0 Et. destruct (pending_total z Hq H0) as (E & _ & _). rewrite Et in E.
  apply (f_equal (fun l => Z.of_nat (length l))) in E. rewrite !length_app, !length_bytes_bits in E.
  pose proof (sent_length _ (qo_writer _ Hq)).
  replace (Z.of_nat (length bs)) with (nbits (wr (tr z)) + (Z.of_nat (length (out_bytes (strm z))) - Z.of_nat (length hdr)) * 8) by lia.
  by rewrite Z.mod_add.
Qed.

(** What a block flush leaves alone, beyond [drained]. *)
Record block_flushed (z z' : zs) : Prop := {
  bf_win : win z' = set_block (win z) (strstart (win z));
  bf_dict : dict z' = dict z;
  bf_lm : lm z' = lm z;
  bf_bufsize : lit_bufsize (tr z') = lit_bufsize (tr z);
  bf_level : level (tr z') = level (tr z);
  bf_strategy : strategy (tr z') = strategy (tr z);
  bf_ctl : ctl z' = set_pending_out (ctl z) (pending_out (ctl z'));
  bf_in : in_buf (strm z') = in_buf (strm z) /\ next_in (strm z') = next_in (strm z) /\ avail_in (strm z') = avail_in (strm z) /\
    total_in (strm z') = total_in (strm z) /\ adler (strm z') = adler (strm z) /\ msg (strm z') = msg (strm z) /\
    (out_ok W (strm z) -> out_ok W (strm z'));
  bf_count : Z.of_nat (length (out_bytes (strm z'))) + avail_out (strm z') = Z.of_nat (length (out_bytes (strm z))) + avail_out (strm z);
  bf_prefix : out_bytes (strm z) `prefix_of` out_bytes (strm z') }.

Lemma block_flushed_fed z z' all : block_flushed z z' -> fed W A R z all -> fed W A R z' all.
Proof.
  intros [Ew Ed _ _ _ Es Ec (E1 & E2 & E3 & E4 & E5 & _ & E6) _] [[I1 I2 I3 I4] Hw Hh (S1 & S2 & S3 & S4)].
  assert (Ep : pend z' all = pend z all) by (unfold pend; by rewrite E3).
  constructor; rewrite ?Ew, ?Ed, ?Ep, ?Es; try done.
  - constructor; rewrite ?E1, ?E2, ?E3; done.
  - destruct Hw. constructor; cbn [set_block w_bits window window_size high_water block_start strstart lookahead insert]; try done; lia.
  - rewrite Ec. cbn [set_pending_out wrapper]. split_and!; rewrite ?E4, ?E5; auto.
Qed.

Lemma flush_block_only_spec z all ys last :
  17 <= W -> core z all ys (here z all) -> pending (wr (tr z)) = 0 -> 0 <= last <= 1 ->
  strstart (win z) < 65536 \/ strategy (tr z) = Z_HUFFMAN_ONLY ->
  exists z', FLUSH_BLOCK_ONLY W z last = Some z' /\ block_flushed z z' /\ here z' all = here z all /\
    block_inv (tr z') [] /\ queue_ok z' /\ bi_valid (wr (tr z')) < 8 /\ (pending (wr (tr z')) <> 0 -> avail_out (strm z') = 0) /\
    (last = 0 -> core z' all [] (here z' all)) /\
    (last = 1 -> here z all = Z.of_nat (length all) -> ended z' all).
Proof.
  intros HW C Hp Hlast Hlt. pose proof (block_buf_ok z all ys C Hlt) as Hbuf. pose proof (block_pos_range _ _ _ _ C) as Hbp.
  pose proof C as [Hall Hf Hi Hx Hq (bs0 & Et & Hfr) Hbits Hlev Hbs Hroom Hlits].
  pose proof (here_range z all Hf) as Hh. destruct (pending_total z Hq Hp) as (Etot & Hnb & Hpo).
  unfold FLUSH_BLOCK_ONLY.
  destruct (tr_flush_block_spec W (tr z) ys (block_buf (win z)) (strstart (win z) - block_start (win z)) last
    (upto all (block_pos z all)) (upto all (here z all)) HW Hi Hlast) as (t & bs & k & -> & Hi' & M & Sg & Lb & Lv & St & Hk0 & Hk1).
  { constructor; [done|done| |lia]. intros _. apply (roomy_room _ _ _ (Z.of_nat (length all)) _ Hi Hx); try done; [|lia].
    unfold upto. rewrite length_take. lia. }
  cbn [mbind option_bind]. set (z1 := set_win (set_tr z t) (set_block (win z) (strstart (win z)))).
  pose proof (em_ok _ _ _ M) as Ow. pose proof (em_sent _ _ _ M) as Es. pose proof (em_size _ _ _ M) as Ez.
  assert (Et1 : total_bits z1 = bytes_bits hdr ++ bs0 ++ bs ++ replicate k false).
  { rewrite total_sent by done. change (out_bytes (strm z1)) with (out_bytes (strm z)). change (wr (tr z1)) with (wr t).
    rewrite Es, app_assoc, <- Etot, Et, <- app_assoc. done. }
  assert (Hq1 : queue_ok z1).
  { constructor; change (wr (tr z1)) with (wr t); change (ctl z1) with (ctl z); change (strm z1) with (strm z); rewrite ?Hpo; try done.
    - destruct Ow. lia.
    - unfold delivered, queued. change (wr (tr z1)) with (wr t). change (ctl z1) with (ctl z). change (strm z1) with (strm z).
      rewrite Hpo, drop_0. apply Forall_app. split; [|apply Ow].
      pose proof (qo_bytes _ Hq) as Hby. unfold delivered in Hby. by apply Forall_app in Hby as [? _].
    - apply (qo_avail _ Hq). }
  destruct (flush_pending_spec W z1 Hq1) as (z' & -> & Hq' & D & Hb' & Hav & Hvle). exists z'. split; [done|].
  pose proof (drained_block _ _ D Hq' Hi') as Hi2.
  assert (Bf : block_flushed z z').
  { destruct D as [Dw Dd Dl (w & Dt) _ Dc Di Dn _]. constructor; try done; rewrite Dt; done. }
  pose proof (block_flushed_fed _ _ all Bf Hf) as Hf'. pose proof (drained_pos _ _ all D) as [Ep Eh].
  change (here z1 all) with (here z all) in Eh.
  assert (Ep1 : block_pos z1 all = here z all) by (unfold block_pos, base_of; cbn; unfold here, pend; cbn; lia).
  rewrite Ep1 in Ep. clear Ep1.
  split; [done|]. split; [done|]. split; [done|]. split; [done|]. split; [done|]. split; [done|].
  pose proof (front_length z bs0 Hq Hp Et) as Hfl. split; intros ->.
  - rewrite Hk0, app_nil_r in Et1 by done. destruct Bf as [_ _ _ Bb Bl Bs _ _ _].
    constructor; rewrite ?Bb, ?Bl, ?Bs, ?Ep, ?Eh; try done.
    + exists (bs0 ++ bs). split; [by rewrite (dn_total _ _ _ D)|]. by apply front_segment with (nbits (wr (tr z))) (upto all (block_pos z all)).
    + unfold roomy in *. by rewrite Bs, Bb.
  - intros Hend. destruct (Hk1 eq_refl) as (Hk & Hbv & Hal). constructor; try done.
    + exists (bs0 ++ bs ++ replicate k false), k. split; [by rewrite (dn_total _ _ _ D)|]. split; [|done].
      assert (Eall : upto all (here z all) = all) by (unfold upto; rewrite Hend, Nat2Z.id; by apply take_ge).
      rewrite Eall in Sg. apply (front_last _ (nbits (wr (tr z)))) with (upto all (block_pos z all)); try done.
      by rewrite <- (em_nbits _ _ _ M).
    + change (wr (tr z1)) with (wr t) in Hvle. pose proof (wo_valid _ (qo_writer _ Hq')). lia.
    + apply (fd_sum _ _ _ _ _ Hf').
    + by rewrite (bf_bufsize _ _ Bf).
Qed.
End Core.
