(* ===== verification/LzTurn.v ===== *)
(** * The parts of a turn of the main loops

    [refill], [INSERT_STRING], the tally of a literal or a match and the flush
    of a full block, each over [core]. *)
From stdpp Require Import base numbers list.
From Stdlib Require Import ZArith Lia Bool.
From S2P Require Import Prelude Huffman Deflate Trees TreesTables TreesWriter TreesState TreesSend TreesSyms TreesCompress.
From S2P Require Import TreesTally TreesCost TreesBlock TreesSession LzState LzWindow LzMatch LzFacts LzHash LzFill LzOut LzCore.

Section Turn.
Context (W : Z) (C : checksums) (A R : list Z -> Z) `{!Sums C A R} (hdr : list Z) (HW : 17 <= W).

(** ** [refill] *)

Lemma core_filled z z' all ys done :
  core W A R hdr z all ys done -> filled z z' all -> fed W A R z' all -> core W A R hdr z' all ys done.
Proof.
  intros [Hall _ Hi Hx Hq (bs & Et & Hfr) Hb Hl Hs Hr Hk] [Ft Fc _ _ _ Fb _ _ _ _ _ (Fo & Fa & _)] Hf.
  assert (Ep : block_pos z' all = block_pos z all) by (exact Fb).
  assert (Ed : delivered z' = delivered z) by (unfold delivered, queued; by rewrite Fo, Ft, Fc).
  constructor; rewrite ?Ft, ?Ep; try done.
  - destruct Hq. constructor; rewrite ?Ft, ?Fc, ?Ed, ?Fa; done.
  - exists bs. split; [|done]. rewrite <- Et. unfold total_bits. by rewrite Ed, Ft.
Qed.

Lemma refill_spec z all ys done n flush k :
  core W A R hdr z all ys done -> 0 < n <= MIN_LOOKAHEAD ->
  exists z', core W A R hdr z' all ys done /\ filled z z' all /\ strstart (win z') + n <= window_size (win z') /\
    lookahead (win z') + avail_in (strm z') = lookahead (win z) + avail_in (strm z) /\
    (n <= lookahead (win z') \/ avail_in (strm z') = 0) /\
    refill W C z n flush k =
      if (lookahead (win z') <? n) && (flush =? Z_NO_FLUSH) then Some (Return z' need_more)
      else if lookahead (win z') =? 0 then Some (Break z') else k z'.
Proof.
  intros Hc Hn. pose proof (co_fed _ _ _ _ _ _ _ _ Hc) as Hf. pose proof (fd_win _ _ _ _ _ Hf) as [_ _ _ _ _ _ Wf _ _ _ _ _].
  unfold refill. destruct (Z.ltb_spec (lookahead (win z)) n) as [Hlt|Hge].
  - destruct (fill_window_spec W C A R z all Hf (co_all _ _ _ _ _ _ _ _ Hc) ltac:(lia)) as (z' & -> & Hf' & Fl & El & Hs & Hst).
    exists z'. split; [by eapply core_filled|]. split; [done|]. split.
    { pose proof (fd_win _ _ _ _ _ Hf') as [_ Ws _ _ _ _ _ _ _ _ _ _]. unfold MAX_DIST in Hs. lia. }
    split; [done|]. split; [destruct Hst; [left; lia|by right]|]. cbn [mbind option_bind]. done.
  - exists z. split; [done|]. split; [apply filled_refl; apply (fd_in _ _ _ _ _ Hf)|]. split; [lia|]. split; [done|]. split; [by left|].
    destruct (Z.ltb_spec (lookahead (win z)) n); [lia|]. cbn [andb]. destruct (Z.eqb_spec (lookahead (win z)) 0); [lia|done].
Qed.

(** ** The string at [strstart] *)

(** The table, with the strings up to [here + 1] or, short of lookahead, those before. *)
Definition inserted (w : window_state) (d : hash_state) (all : list Z) (end_ : Z) : Prop :=
  let here := end_ - lookahead w in
  exists S top, chains (w_bits w) d all (here - strstart w) top S /\ (forall q, S q -> 0 <= q /\ q + 3 <= end_) /\
    (lookahead w < 3 -> top = Z.min (here - insert w) (end_ - 2)) /\ (3 <= lookahead w -> top = here + 1 /\ insert w = 0 /\ ready d all (here + 1)).

Lemma insert_here_spec z all :
  fed W A R z all -> tracks (strategy (tr z)) ->
  exists d v, insert_here z = Some (set_dict z d, v) /\ inserted (win z) d all (pend z all) /\
    (v <> 0 -> 3 <= lookahead (win z) /\ 0 < v < strstart (win z) /\
       exists S, chains (w_bits (win z)) d all (base_of z all) (here z all + 1) S /\ S (base_of z all + v) /\
         hash_at d all (base_of z all + v) = hash_at d all (here z all)).
Proof.
  intros [_ Hw [(S & Hc & HS) Hr] _] Htr. pose proof Hw as [Wb Ws Wl Wby W0 Wa Wf Wba Wd Wbl Whi Wi]. unfold insert_here. change MIN_MATCH with 3.
  change (pend z all - lookahead (win z)) with (here z all) in *. change (here z all - strstart (win z)) with (base_of z all) in *.
  destruct (Z.geb_spec (lookahead (win z)) 3) as [H3|H3].
  2:{ exists (dict z), 0. split; [by destruct z|]. split; [|done]. exists S, (Z.min (here z all - insert (win z)) (pend z all - 2)). split_and!; try done; lia. }
  destruct (Hr ltac:(lia)) as [Hi0 Hrd]. specialize (Hrd Htr). replace (Z.min (here z all - insert (win z)) (pend z all - 2)) with (here z all) in Hc by (unfold here; lia).
  assert (Eh : here z all = base_of z all + strstart (win z)) by (unfold base_of; lia).
  assert (Hsz : window_size (win z) <= 65536).
  { rewrite Ws, wsize_pow by lia. pose proof (pow_wb (w_bits (win z)) ltac:(lia)). lia. }
  rewrite Eh in Hc, Hrd.
  destruct (insert_string_spec (win z) (dict z) all (base_of z all) S (strstart (win z)) Hc Hrd) as (d & v & -> & Eb & Hc' & Hrd' & Hv & Hv0).
  { change (2 ^ 16) with 65536. lia. }
  { rewrite Wd by lia. unfold base_of. do 2 f_equal. lia. }
  cbn [mbind option_bind]. exists d, v. split; [done|]. rewrite <- Eh in *. split.
  - exists (fun q => S q \/ q = here z all), (here z all + 1). change (pend z all - lookahead (win z)) with (here z all).
    change (here z all - strstart (win z)) with (base_of z all). split; [done|]. split; [|split; [lia|done]].
    intros q [Hq| ->]; [by apply HS|]. unfold here in *. lia.
  - intros Hn. destruct (Hv0 Hn) as [Hs Hh]. split; [lia|]. split; [pose proof (ch_below _ _ _ _ _ _ Hc _ Hs); lia|].
    exists (fun q => S q \/ q = here z all). split; [done|]. split; [by left|].
    assert (Ed : forall q, hash_at d all q = hash_at (dict z) all q) by (intros q; unfold hash_at, hash3, UPDATE_HASH, hash_shift, hash_mask, hash_size; by rewrite Eb).
    by rewrite !Ed.
Qed.

(** ** A step forward *)

Lemma advance_win w all end_ n :
  win_ok w all end_ -> 0 <= n <= lookahead w -> win_ok (set_pos w (strstart w + n) (lookahead w - n)) all end_.
Proof.
  intros [Wb Ws Wl Wby W0 Wa Wf Wba Wd Wbl Whi Wi] Hn.
  constructor; cbn [set_pos w_bits window window_size high_water block_start strstart lookahead insert]; try done; try lia.
  intros i Hi. rewrite Wd by lia. do 2 f_equal. lia.
Qed.

(** The table after a step of [n] bytes in which no more strings were inserted. *)
Lemma advance_hash st w d all end_ n :
  inserted w d all end_ -> 1 <= n <= lookahead w -> (3 <= lookahead w - n -> n = 1) ->
  hash_ok st (set_pos w (strstart w + n) (lookahead w - n)) d all end_.
Proof.
  intros (S & top & Hc & HS & Hlt & Hge) Hn H1. split; cbn [set_pos w_bits strstart lookahead insert].
  - exists S. split; [|done]. replace (end_ - (lookahead w - n) - (strstart w + n)) with (end_ - lookahead w - strstart w) by lia.
    apply chains_mono with top; [done|]. destruct (Z.ltb_spec (lookahead w) 3); [rewrite Hlt by lia|destruct (Hge ltac:(lia)) as (-> & -> & _)]; lia.
  - intros H3. specialize (H1 H3) as ->. destruct (Hge ltac:(lia)) as (_ & Hi & Hr). split; [done|].
    intros _. by replace (end_ - (lookahead w - 1)) with (end_ - lookahead w + 1) by lia.
Qed.

(** Without a table to keep. *)
Lemma skip_hash st w d all end_ n :
  hash_ok st w d all end_ -> ~ tracks st -> 0 <= n <= lookahead w ->
  hash_ok st (set_pos w (strstart w + n) (lookahead w - n)) d all end_.
Proof.
  intros [(S & Hc & HS) Hr] Ht Hn. split; cbn [set_pos w_bits strstart lookahead insert].
  - exists S. split; [|done]. replace (end_ - (lookahead w - n) - (strstart w + n)) with (end_ - lookahead w - strstart w) by lia.
    apply chains_mono with (Z.min (end_ - lookahead w - insert w) (end_ - 2)); [done|lia].
  - intros H3. destruct (Hr ltac:(lia)) as [Hi _]. by split.
Qed.

(** A step of [n] bytes, with the symbols [us] for those up to [done']. *)
Lemma core_step z all ys us done done' n t d m :
  core W A R hdr z all ys done -> pending (wr (tr z)) = 0 -> tallied (tr z) t (ys ++ us) ->
  expand (upto all done) (map token_of us) = Some (upto all done') ->
  0 <= n <= lookahead (win z) -> kind_ok (strategy (tr z)) us ->
  hash_ok (strategy (tr z)) (set_pos (win z) (strstart (win z) + n) (lookahead (win z) - n)) d all (pend z all) ->
  let z' := ZS (strm z) (set_pos (win z) (strstart (win z) + n) (lookahead (win z) - n)) d m t (ctl z) in
  core W A R hdr z' all (ys ++ us) done' /\ here z' all = here z all + n.
Proof.
  intros [Hall [Hin Hw Hh Hsum] Hi Hx Hq (bs & Et & Hfr) Hb Hl Hs Hr Hk] Hp [Ti Ts Tn Tp Tb Tl Tst] He Hn Hky Hhash z'.
  assert (Eh : here z' all = here z all + n) by (unfold here, pend; cbn; lia).
  assert (Ep : block_pos z' all = block_pos z all) by (unfold block_pos, base_of, here, pend; cbn; lia).
  split; [|done]. destruct (pending_total z Hq Hp) as (Etot & _ & Hpo).
  assert (Hq' : queue_ok z').
  { pose proof (sh_writer _ (bi_shape _ _ Ti)) as Ow. constructor; cbn [tr ctl strm z']; rewrite ?Hpo; try done.
    - destruct Ow. lia.
    - unfold delivered, queued. cbn [tr ctl strm z']. rewrite Tp, Hp. cbn [Z.to_nat take]. rewrite app_nil_r.
      pose proof (qo_bytes _ Hq) as Hby. unfold delivered in Hby. by apply Forall_app in Hby as [? _].
    - apply (qo_avail _ Hq). }
  constructor; rewrite ?Ep; cbn [tr strm win dict ctl z']; rewrite ?Tl, ?Tb, ?Tst; try done.
  - constructor; try done; [by apply advance_win|]. cbn [tr z']. by rewrite Tst.
  - by rewrite map_app, expand_app_tokens, Hx.
  - exists bs. split; [|done]. rewrite total_sent by done. cbn [strm tr z']. by rewrite Ts, <- Etot.
  - unfold nbits in Tn. lia.
  - unfold roomy in *. by rewrite Tst, Tb.
  - by apply kind_ok_app.
Qed.

(** No symbol at all. *)
Lemma tallied_refl t ys : block_inv t ys -> tallied t t (ys ++ []).
Proof. intros H. constructor; try done. by rewrite app_nil_r. Qed.

(** Inside a turn: the table is ahead of [strstart] by a string. *)
Record mid (z : zs) (all : list Z) (ys : list symbol) (done : Z) : Prop := {
  md_core : exists d, core W A R hdr (set_dict z d) all ys done;
  md_pending : pending (wr (tr z)) = 0;
  md_few : Z.of_nat (length ys) < lit_bufsize (tr z) - 1 }.

Lemma mid_intro z all ys done d :
  core W A R hdr z all ys done -> pending (wr (tr z)) = 0 ->
  Z.of_nat (length ys) < lit_bufsize (tr z) - 1 -> mid (set_dict z d) all ys done.
Proof. intros Hc Hp Hf. constructor; try done. exists (dict z). by destruct z. Qed.

Lemma mid_lm z all ys done m : mid z all ys done -> mid (set_lm z m) all ys done.
Proof.
  intros [[d [H1 [I1 I2 I3 I4] H3 H4 [Q1 Q2 Q3 Q4 Q5 Q6 Q7] H6 H7 H8 H9 H10 H11]] Hp Hf]. constructor; try done.
  exists d. constructor; [done|by constructor|done|done|by constructor|done..].
Qed.

Lemma mid_facts z all ys done :
  mid z all ys done -> Forall is_byte all /\ win_ok (win z) all (pend z all) /\ block_inv (tr z) ys /\ apart (tr z) /\
    0 <= here z all <= Z.of_nat (length all) /\ 128 <= lit_bufsize (tr z).
Proof.
  intros [[d Hc] Hp _]. pose proof (co_fed _ _ _ _ _ _ _ _ Hc) as Hf. pose proof (fd_win _ _ _ _ _ Hf) as Hw.
  pose proof (here_range _ _ _ _ _ Hf) as Hh. pose proof (co_bits _ _ _ _ _ _ _ _ Hc) as Hb. pose proof (co_bufsize _ _ _ _ _ _ _ _ Hc) as Hs.
  split; [by apply (co_all _ _ _ _ _ _ _ _ Hc)|]. split; [done|]. split; [apply (co_block _ _ _ _ _ _ _ _ Hc)|].
  cbn [set_dict tr] in *. split; [unfold apart, nbits; lia|]. done.
Qed.

(** The tally of a literal, before [strstart] or at it. *)
Lemma tally_lit_mid z all ys p :
  mid z all ys p -> 0 <= p < Z.of_nat (length all) ->
  exists t, tally_lit z (at_ all p) = Some (set_tr z t, Z.of_nat (length (ys ++ [(0, at_ all p)])) =? lit_bufsize t - 1) /\
    tallied (tr z) t (ys ++ [(0, at_ all p)]) /\ expand (upto all p) (map token_of [(0, at_ all p)]) = Some (upto all (p + 1)) /\
    kind_ok (strategy (tr z)) [(0, at_ all p)].
Proof.
  intros Hm Hp. destruct (mid_facts _ _ _ _ Hm) as (Hall & _ & Hi & Ha & _). pose proof (md_few _ _ _ _ Hm) as Hf.
  destruct (tally_lit_spec (tr z) ys (at_ all p) Hi Ha) as (t & E & T); [by apply at_byte|done|].
  exists t. unfold tally_lit. rewrite E. cbn [mbind option_bind]. split; [|split; [done|split]].
  - rewrite (ta_bufsize _ _ _ T), length_app. cbn [length]. do 3 f_equal. lia.
  - cbn [map token_of fst snd Z.eqb expand expand1]. by rewrite upto_snoc.
  - split; intros _; repeat constructor; cbn; lia.
Qed.

(** The tally of a match. *)
Lemma tally_dist_mid z all ys p dist len :
  mid z all ys p -> match_in all p dist len -> 3 <= len <= 258 -> 1 <= dist <= 32768 ->
  strategy (tr z) <> Z_HUFFMAN_ONLY -> (strategy (tr z) = Z_RLE -> dist = 1) ->
  exists t, tally_dist z dist (len - MIN_MATCH) = Some (set_tr z t, Z.of_nat (length (ys ++ [(dist, len - 3)])) =? lit_bufsize t - 1) /\
    tallied (tr z) t (ys ++ [(dist, len - 3)]) /\ expand (upto all p) (map token_of [(dist, len - 3)]) = Some (upto all (p + len)) /\
    kind_ok (strategy (tr z)) [(dist, len - 3)].
Proof.
  intros Hm Hmi Hlen Hd Hs Hr. destruct (mid_facts _ _ _ _ Hm) as (Hall & _ & Hi & Ha & _). pose proof (md_few _ _ _ _ Hm) as Hf.
  destruct (tally_dist_spec (tr z) ys dist (len - 3) Hi Ha) as (t & E & T); [done|lia|done|].
  exists t. unfold tally_dist. change MIN_MATCH with 3. rewrite E. cbn [mbind option_bind]. split; [|split; [done|split]].
  - rewrite (ta_bufsize _ _ _ T), length_app. cbn [length]. do 3 f_equal. lia.
  - cbn [map expand]. unfold token_of. cbn [fst snd]. destruct (Z.eqb_spec dist 0); [lia|]. replace (len - 3 + 3) with len by lia.
    by rewrite expand_match.
  - split; intros E'; [done|]. repeat constructor. cbn. by rewrite Hr.
Qed.

(** [z], [n] bytes further on. *)
Definition moved (z : zs) (n : Z) (d : hash_state) (m : match_state) (t : deflate_state) : zs :=
  ZS (strm z) (set_pos (win z) (strstart (win z) + n) (lookahead (win z) - n)) d m t (ctl z).

Lemma mid_step z all ys us done done' n t d m :
  mid z all ys done -> tallied (tr z) t (ys ++ us) -> expand (upto all done) (map token_of us) = Some (upto all done') ->
  0 <= n <= lookahead (win z) -> kind_ok (strategy (tr z)) us ->
  hash_ok (strategy (tr z)) (set_pos (win z) (strstart (win z) + n) (lookahead (win z) - n)) d all (pend z all) ->
  core W A R hdr (moved z n d m t) all (ys ++ us) done' /\ here (moved z n d m t) all = here z all + n /\
  pending (wr (tr (moved z n d m t))) = 0.
Proof.
  intros [[d0 Hc] Hp _] T He Hn Hk Hh.
  destruct (core_step (set_dict z d0) all ys us done done' n t d m Hc Hp T He Hn Hk Hh) as [H1 H2].
  split; [exact H1|]. split; [exact H2|]. cbn [moved tr]. by rewrite (ta_pending _ _ _ T).
Qed.

(** ** What the turns leave alone *)

Record same (z z' : zs) : Prop := {
  sm_strategy : strategy (tr z') = strategy (tr z);
  sm_level : level (tr z') = level (tr z);
  sm_bufsize : lit_bufsize (tr z') = lit_bufsize (tr z);
  sm_ctl : ctl z' = set_pending_out (ctl z) (pending_out (ctl z'));
  sm_buf : in_buf (strm z') = in_buf (strm z);
  sm_next : next_in (strm z') + avail_in (strm z') = next_in (strm z) + avail_in (strm z);
  sm_avail : avail_in (strm z') <= avail_in (strm z);
  sm_count : Z.of_nat (length (out_bytes (strm z'))) + avail_out (strm z') = Z.of_nat (length (out_bytes (strm z))) + avail_out (strm z);
  sm_prefix : out_bytes (strm z) `prefix_of` out_bytes (strm z') }.

Lemma same_refl z : same z z.
Proof. constructor; try done. by destruct (ctl z). Qed.

Lemma same_trans a b c : same a b -> same b c -> same a c.
Proof.
  intros [A1 A2 A3 A4 A5 A6 A7 A8 A9] [B1 B2 B3 B4 B5 B6 B7 B8 B9]. constructor; try congruence; try lia; [by rewrite B4, A4|by etransitivity].
Qed.

(** [same] says nothing of the window, the table and the match. *)
Lemma same_of z z1 z' z2 :
  strm z1 = strm z -> tr z1 = tr z -> ctl z1 = ctl z -> strm z2 = strm z' -> tr z2 = tr z' -> ctl z2 = ctl z' ->
  same z1 z2 -> same z z'.
Proof. intros E1 E2 E3 F1 F2 F3 [A1 A2 A3 A4 A5 A6 A7 A8 A9]. rewrite E1, F1 in *. constructor; congruence. Qed.

Lemma same_filled z z' all : filled z z' all -> same z z'.
Proof.
  intros [Ft Fc _ _ _ _ _ _ Fa Fn Fb (Fo & Fv & _)]. constructor; rewrite ?Ft, ?Fc, ?Fo, ?Fv; try done; [by destruct (ctl z)|lia].
Qed.

Lemma same_moved z ys n d m t : tallied (tr z) t ys -> same z (moved z n d m t).
Proof. intros [_ _ _ _ Tb Tl Ts]. constructor; try done. cbn. by destruct (ctl z). Qed.

Lemma same_flushed z z' : block_flushed W z z' -> same z z'.
Proof. intros [_ _ _ B L S Ec (E1 & E2 & E3 & _) En Ex]. constructor; try done; lia. Qed.

(** Bytes of the input that the symbols do not cover. *)
Definition left_of (z : zs) : Z := lookahead (win z) + avail_in (strm z).

(** ** [flush_if] *)

(** A state between two turns; [P] is what the function keeps in [lm]. *)
Record good (P : zs -> list Z -> Prop) (z : zs) (all : list Z) (ys : list symbol) (done : Z) : Prop := {
  gd_core : core W A R hdr z all ys done;
  gd_own : P z all;
  gd_few : Z.of_nat (length ys) < lit_bufsize (tr z) - 1;
  gd_wait : pending (wr (tr z)) <> 0 -> ys = [] /\ avail_out (strm z) = 0 }.

(** [P] does not depend on the blocks. *)
Definition own (P : zs -> list Z -> Prop) : Prop :=
  forall z z' all, lm z' = lm z -> here z' all = here z all -> strstart (win z') = strstart (win z) ->
    lookahead (win z') = lookahead (win z) -> strategy (tr z') = strategy (tr z) -> w_bits (win z') = w_bits (win z) -> P z all -> P z' all.

Lemma flush_if_spec P z all ys :
  own P -> core W A R hdr z all ys (here z all) -> P z all -> pending (wr (tr z)) = 0 ->
  strstart (win z) < 65536 \/ strategy (tr z) = Z_HUFFMAN_ONLY ->
  exists r z' ys', flush_if W (Z.of_nat (length ys) =? lit_bufsize (tr z) - 1) z = Some r /\
    good P z' all ys' (here z' all) /\ same z z' /\ left_of z' = left_of z /\
    ((r = Continue z' /\ pending (wr (tr z')) = 0) \/ (r = Return z' need_more /\ avail_out (strm z') = 0)).
Proof.
  intros HP Hc Hown Hp Hlt. pose proof (bi_few _ _ (co_block _ _ _ _ _ _ _ _ Hc)) as Hfew. unfold flush_if.
  destruct (Z.eqb_spec (Z.of_nat (length ys)) (lit_bufsize (tr z) - 1)) as [E|E].
  - destruct (flush_block_only_spec W A R hdr z all ys 0 HW Hc Hp ltac:(lia) Hlt)
      as (z' & -> & Bf & Eh & Hi' & Hq' & Hb' & Hav & Hcore & _). cbn [mbind option_bind]. specialize (Hcore eq_refl).
    assert (Hg : good P z' all [] (here z' all)).
    { constructor; [done| | |by intros H; split; [|apply Hav]].
      - destruct Bf as [Bw _ Bl _ _ Bs _ _ _]. apply (HP z); rewrite ?Bw; done.
      - pose proof (co_bufsize _ _ _ _ _ _ _ _ Hcore). cbn [length]. lia. }
    assert (El : left_of z' = left_of z).
    { destruct Bf as [Bw _ _ _ _ _ _ (_ & _ & Ba & _) _]. unfold left_of. by rewrite Bw, Ba. }
    do 3 eexists. split; [reflexivity|]. split; [exact Hg|]. split; [by apply same_flushed|]. split; [done|].
    destruct (Z.eqb_spec (avail_out (strm z')) 0) as [E0|E0]; [by right|left]. split; [done|].
    destruct (decide (pending (wr (tr z')) = 0)); [done|]. by destruct (E0 (Hav ltac:(done))).
  - exists (Continue z), z, ys. split; [done|]. split; [constructor; try done; lia|]. split; [apply same_refl|]. split; [done|]. by left.
Qed.

(** ** Literals at [strstart] *)

Lemma emit_literal_spec z all ys :
  mid z all ys (here z all) -> 1 <= lookahead (win z) ->
  hash_ok (strategy (tr z)) (set_pos (win z) (strstart (win z) + 1) (lookahead (win z) - 1)) (dict z) all (pend z all) ->
  exists t ys', emit_literal z = Some (moved z 1 (dict z) (lm z) t, Z.of_nat (length ys') =? lit_bufsize t - 1) /\
    core W A R hdr (moved z 1 (dict z) (lm z) t) all ys' (here z all + 1) /\
    here (moved z 1 (dict z) (lm z) t) all = here z all + 1 /\
    pending (wr t) = 0 /\ same z (moved z 1 (dict z) (lm z) t).
Proof.
  intros Hm Hl Hhash. destruct (mid_facts _ _ _ _ Hm) as (_ & Hw & _ & _ & Hh & _). pose proof Hw as [_ _ _ _ W0 Wa Wf Wba Wd _ _ _].
  assert (Hend : here z all + lookahead (win z) <= Z.of_nat (length all)).
  { destruct Hm as [[d Hc] _ _]. pose proof (fd_in _ _ _ _ _ (co_fed _ _ _ _ _ _ _ _ Hc)) as [[? ?] _ _ _]. unfold here, pend. cbn in *. lia. }
  destruct (tally_lit_mid z all ys (here z all) Hm ltac:(lia)) as (t & Et & T & Hx & Hk).
  unfold emit_literal. rewrite Wd by lia. cbn [mbind option_bind].
  replace (pend z all - lookahead (win z) - strstart (win z) + strstart (win z)) with (here z all) by (unfold here; lia).
  rewrite Et. cbn [mbind option_bind].
  destruct (mid_step z all ys _ _ _ 1 t (dict z) (lm z) Hm T Hx ltac:(lia) Hk Hhash) as (Hc & Eh & Hp).
  exists t. eexists. split; [reflexivity|]. split; [exact Hc|]. split; [done|]. split; [done|]. by eapply same_moved.
Qed.
End Turn.
