(* ===== verification/LzLoop.v ===== *)
(** * The main loops: deflate_huff and deflate_rle

    A turn that keeps [good] and takes input makes a loop that ends, and
    [finish_blocks] sends what is left.  The two functions without a table come
    here, [deflate_fast] and [deflate_slow] in files of their own. *)
From stdpp Require Import base numbers list.
From Stdlib Require Import ZArith Lia Bool.
From S2P Require Import Prelude Huffman Deflate Trees TreesTables TreesWriter TreesState TreesSend TreesSyms TreesCompress.
From S2P Require Import TreesTally TreesCost TreesBlock TreesSession LzState LzWindow LzMatch LzFacts LzHash LzFill LzOut LzCore LzTurn.

(** The bytes that the symbols cover: all before [strstart], but for one that waits. *)
Definition covered (z : zs) (all : list Z) : Z := here z all - match_available (lm z).

Section Loop.
Context (W : Z) (C : checksums) (A R : list Z -> Z) `{!Sums C A R} (hdr : list Z) (HW : 17 <= W).

(** Between two calls of [deflate]: a good state, with the reason to stop. *)
Definition paused (P : zs -> list Z -> Prop) (z : zs) (all : list Z) (flush : Z) : Prop :=
  (exists ys, good W A R hdr P z all ys (covered z all)) /\
  (avail_out (strm z) = 0 \/ (flush = Z_NO_FLUSH /\ avail_in (strm z) = 0 /\ pending (wr (tr z)) = 0)).

(** The end of the input, with all of it covered but for a byte that waits. *)
Record drained_in (z : zs) : Prop := {
  di_ahead : lookahead (win z) = 0;
  di_avail : avail_in (strm z) = 0;
  di_pending : pending (wr (tr z)) = 0;
  di_start : strstart (win z) < 65536 }.

Definition turn_post (P : zs -> list Z -> Prop) (all : list Z) (flush : Z) (z : zs) (r : next) : Prop :=
  match r with
  | Continue z' => same z z' /\ (exists ys, good W A R hdr P z' all ys (covered z' all)) /\ pending (wr (tr z')) = 0 /\ left_of z' < left_of z
  | Break z' => same z z' /\ (exists ys, good W A R hdr P z' all ys (covered z' all)) /\ drained_in z' /\ flush <> Z_NO_FLUSH
  | Return z' b => same z z' /\ b = need_more /\ paused P z' all flush /\ (flush <> Z_NO_FLUSH -> left_of z' < left_of z)
  end.

Definition turn_ok (P : zs -> list Z -> Prop) (flush : Z) (turn : zs -> option next) : Prop :=
  forall z all ys, good W A R hdr P z all ys (covered z all) -> pending (wr (tr z)) = 0 ->
  exists r, turn z = Some r /\ turn_post P all flush z r.

Lemma left_nonneg z all : fed W A R z all -> 0 <= left_of z.
Proof. intros [[] [] _ _]. unfold left_of. lia. Qed.

Lemma main_loop_spec P flush turn fuel z all ys :
  turn_ok P flush turn -> good W A R hdr P z all ys (covered z all) -> pending (wr (tr z)) = 0 -> left_of z < Z.of_nat fuel ->
  exists z' r, main_loop turn fuel z = Some (z', r) /\ same z z' /\
    match r with
    | None => (exists ys, good W A R hdr P z' all ys (covered z' all)) /\ drained_in z' /\ flush <> Z_NO_FLUSH
    | Some b => b = need_more /\ paused P z' all flush /\ (flush <> Z_NO_FLUSH -> left_of z' < left_of z)
    end.
Proof.
  intros Ht. revert z ys. induction fuel as [|fuel IH]; intros z ys Hg Hp Hf.
  { pose proof (left_nonneg z all (co_fed _ _ _ _ _ _ _ _ (gd_core _ _ _ _ _ _ _ _ _ Hg))). lia. }
  cbn [main_loop]. destruct (Ht z all ys Hg Hp) as (r & -> & Hr). cbn [mbind option_bind]. destruct r as [z'|z'|z' b].
  - destruct Hr as (Hs & [ys' Hg'] & Hp' & Hl). destruct (IH z' ys' Hg' Hp' ltac:(lia)) as (z2 & r & -> & Hs2 & Hr).
    exists z2, r. split; [done|]. split; [by eapply same_trans|].
    destruct r as [b|]; [|done]. destruct Hr as (? & ? & Hlt). split_and!; try done. intros Hn. specialize (Hlt Hn). lia.
  - destruct Hr as (Hs & Hr). by exists z', None.
  - destruct Hr as (Hs & Hr). by exists z', (Some b).
Qed.

(** ** What follows the loop *)

(** [z0] is the state before the function. *)
Definition func_post (P : zs -> list Z -> Prop) (all : list Z) (flush : Z) (z0 z : zs) (b : block_state) : Prop :=
  match b with
  | need_more => paused P z all flush /\ (flush = Z_FINISH -> left_of z < left_of z0)
  | block_done => good W A R hdr P z all [] (here z all) /\ match_available (lm z) = 0 /\ drained_in z /\ flush <> Z_NO_FLUSH /\ flush <> Z_FINISH
  | finish_started => flush = Z_FINISH /\ ended W A R hdr z all /\ lookahead (win z) = 0 /\ avail_in (strm z) = 0 /\ avail_out (strm z) = 0
  | finish_done => flush = Z_FINISH /\ ended W A R hdr z all /\ lookahead (win z) = 0 /\ avail_in (strm z) = 0 /\ pending (wr (tr z)) = 0
  end.

Lemma finish_blocks_spec P z all ys flush :
  own P -> core W A R hdr z all ys (here z all) -> P z all -> match_available (lm z) = 0 -> drained_in z -> flush <> Z_NO_FLUSH ->
  exists z' b, finish_blocks W z flush = Some (z', b) /\ same z z' /\ func_post P all flush z z' b /\ (flush = Z_FINISH -> b <> need_more).
Proof.
  intros HP Hc Hown Hma [D1 D2 D3 D4] Hfl. unfold finish_blocks.
  assert (Hend : here z all = Z.of_nat (length all)) by (unfold here, pend; lia).
  assert (Hflush : forall last, 0 <= last <= 1 -> exists z', FLUSH_BLOCK_ONLY W z last = Some z' /\ block_flushed W z z' /\ here z' all = here z all /\
    block_inv (tr z') [] /\ queue_ok z' /\ bi_valid (wr (tr z')) < 8 /\ (pending (wr (tr z')) <> 0 -> avail_out (strm z') = 0) /\
    (last = 0 -> core W A R hdr z' all [] (here z' all)) /\ (last = 1 -> here z all = Z.of_nat (length all) -> ended W A R hdr z' all)).
  { intros last Hl. apply (flush_block_only_spec W A R hdr z all ys last HW Hc D3 Hl). by left. }
  assert (Hin : forall z', block_flushed W z z' -> lookahead (win z') = 0 /\ avail_in (strm z') = 0 /\ strstart (win z') < 65536).
  { intros z' [Bw _ _ _ _ _ _ (_ & _ & Ba & _) _]. by rewrite Bw, Ba. }
  assert (Hgood : forall z', block_flushed W z z' -> core W A R hdr z' all [] (here z' all) -> here z' all = here z all ->
    (pending (wr (tr z')) <> 0 -> avail_out (strm z') = 0) -> good W A R hdr P z' all [] (here z' all)).
  { intros z' [Bw _ Bl _ _ Bs _ _ _] Hc' Eh Hav. constructor; [done|apply (HP z); rewrite ?Bw; done| |by intros H; split; [|apply Hav]].
    pose proof (co_bufsize _ _ _ _ _ _ _ _ Hc'). cbn [length]. lia. }
  destruct (Z.eqb_spec flush Z_FINISH) as [E|E].
  - destruct (Hflush 1 ltac:(lia)) as (z' & -> & Bf & _ & _ & _ & _ & Hav & _ & He). cbn [mbind option_bind].
    specialize (He eq_refl Hend). destruct (Hin _ Bf) as (I1 & I2 & I3).
    do 2 eexists. split; [reflexivity|]. split; [by apply (same_flushed W)|].
    destruct (Z.eqb_spec (avail_out (strm z')) 0) as [E0|E0]; cbn [func_post]; split_and!; try done.
    destruct (decide (pending (wr (tr z')) = 0)); [done|]. by destruct (E0 (Hav ltac:(done))).
  - destruct (Z.eqb_spec (sym_next (tr z)) 0) as [Es|Es]; cbn [negb].
    + exists z, block_done. split; [done|]. split; [apply same_refl|]. cbn [func_post].
      assert (ys = []) as ->. { pose proof (bi_next _ _ (co_block _ _ _ _ _ _ _ _ Hc)). destruct ys; [done|cbn [length] in *; lia]. }
      split; [|done]. split; [|by split_and!]. constructor; try done. pose proof (co_bufsize _ _ _ _ _ _ _ _ Hc). cbn [length]. lia.
    + destruct (Hflush 0 ltac:(lia)) as (z' & -> & Bf & Eh & _ & _ & _ & Hav & Hc' & _). cbn [mbind option_bind].
      specialize (Hc' eq_refl). destruct (Hin _ Bf) as (I1 & I2 & I3). pose proof (Hgood z' Bf Hc' Eh Hav) as Hg.
      assert (Hma' : match_available (lm z') = 0) by (by rewrite (bf_lm W _ _ Bf)).
      do 2 eexists. split; [reflexivity|]. split; [by apply (same_flushed W)|].
      destruct (Z.eqb_spec (avail_out (strm z')) 0) as [E0|E0]; cbn [func_post].
      * split; [|done]. split; [|done]. split; [|by left]. exists []. unfold covered. by rewrite Hma', Z.sub_0_r.
      * split; [|done]. split; [done|]. split; [done|]. split; [|done]. constructor; try done.
        destruct (decide (pending (wr (tr z')) = 0)); [done|]. by destruct (E0 (Hav ltac:(done))).
Qed.

(** The function returns from its loop. *)
Lemma loop_returned P all flush z z' b :
  same z z' -> b = need_more /\ paused P z' all flush /\ (flush <> Z_NO_FLUSH -> left_of z' < left_of z) ->
  exists z2 b2, Some (z', b) = Some (z2, b2) /\ same z z2 /\ func_post P all flush z z2 b2.
Proof. intros Hs (-> & Hp & Hl). exists z', need_more. split; [done|]. split; [done|]. split; [done|]. intros ->. by apply Hl. Qed.

(** After [finish_blocks], the state before the loop does not matter: a flush with [Z_FINISH] ends the input. *)
Lemma func_post_drained P all flush z0 z z' b : (flush = Z_FINISH -> b <> need_more) -> func_post P all flush z z' b -> func_post P all flush z0 z' b.
Proof. intros Hb. destruct b; cbn [func_post]; try done. intros [Hp _]. split; [done|]. intros E. by destruct (Hb E). Qed.

(** [s->insert = ...] at the end of the input. *)
Lemma core_insert z all ys done n :
  core W A R hdr z all ys done -> lookahead (win z) = 0 -> 0 <= n <= strstart (win z) ->
  (exists S top, chains (w_bits (win z)) (dict z) all (base_of z all) top S /\ (forall q, S q -> 0 <= q /\ q + 3 <= pend z all) /\
     top <= Z.min (here z all - n) (pend z all - 2)) ->
  core W A R hdr (set_win z (set_insert (win z) n)) all ys done.
Proof.
  intros [H1 [I1 I2 I3 I4] H3 H4 [Q1 Q2 Q3 Q4 Q5 Q6 Q7] H6 H7 H8 H9 H10 H11] Hl Hn (S & top & Hc & HS & Ht).
  constructor; try done. constructor; try done.
  - destruct I2. constructor; try done.
  - split; cbn [set_win win set_insert w_bits strstart lookahead insert]; [|lia]. exists S. split; [|done].
    apply chains_mono with top; [exact Hc|]. exact Ht.
Qed.

(** ** Turns *)

Definition stable (P : zs -> list Z -> Prop) : Prop := forall z z' all, filled z z' all -> P z all -> P z' all.

Lemma turn_post_trans P all flush z z' r :
  same z z' -> left_of z' = left_of z -> turn_post P all flush z' r -> turn_post P all flush z r.
Proof.
  intros Hs Hl. destruct r; cbn [turn_post].
  - intros (? & ? & ? & ?). split; [by eapply same_trans|]. split; [done|]. split; [done|lia].
  - intros (? & ?). split; [by eapply same_trans|done].
  - intros (? & ? & ? & Hlt). split; [by eapply same_trans|]. rewrite Hl in Hlt. done.
Qed.

Lemma good_filled P z z' all ys :
  stable P -> filled z z' all -> core W A R hdr z' all ys (covered z all) -> good W A R hdr P z all ys (covered z all) ->
  good W A R hdr P z' all ys (covered z' all).
Proof.
  intros HP Fl Hc' [_ Hown Hfew Hw]. pose proof (fl_tr _ _ _ Fl) as Ft. pose proof (fl_out _ _ _ Fl) as (_ & Fa & _).
  assert (Ecov : covered z' all = covered z all) by (unfold covered; by rewrite (fl_here _ _ _ Fl), (fl_lm _ _ _ Fl)).
  rewrite Ecov. constructor; rewrite ?Ft, ?Fa; try done. by apply (HP z).
Qed.

Lemma turn_refill P n flush k :
  stable P -> 0 < n <= MIN_LOOKAHEAD ->
  (forall z all ys, good W A R hdr P z all ys (covered z all) -> pending (wr (tr z)) = 0 -> 1 <= lookahead (win z) ->
     strstart (win z) + n <= window_size (win z) -> window_size (win z) <= 65536 ->
     exists r, k z = Some r /\ turn_post P all flush z r) ->
  turn_ok P flush (fun z => refill W C z n flush k).
Proof.
  intros HP Hn Hk z all ys Hg0 Hp. pose proof (gd_core _ _ _ _ _ _ _ _ _ Hg0) as Hc.
  destruct (refill_spec W C A R hdr z all ys (covered z all) n flush k Hc Hn) as (z' & Hc' & Fl & Hst & El & Hav & ->).
  pose proof (good_filled P z z' all ys HP Fl Hc' Hg0) as Hg.
  pose proof (same_filled _ _ _ Fl) as Hs. assert (Hp' : pending (wr (tr z')) = 0) by (by rewrite (fl_tr _ _ _ Fl)).
  pose proof (fd_win _ _ _ _ _ (co_fed _ _ _ _ _ _ _ _ Hc')) as [Wb Ws _ _ _ Wa _ _ _ _ _ _].
  assert (Hsz : window_size (win z') <= 65536).
  { rewrite Ws, wsize_pow by lia. pose proof (pow_wb (w_bits (win z')) ltac:(lia)). lia. }
  assert (Hbody : 1 <= lookahead (win z') -> exists r, k z' = Some r /\ turn_post P all flush z r).
  { intros H1. destruct (Hk z' all ys Hg Hp' H1 Hst Hsz) as (r & E & Hr). exists r. split; [done|]. by apply turn_post_trans with z'. }
  assert (Hdi : lookahead (win z') = 0 -> drained_in z') by (intros H0; constructor; try done; lia).
  destruct (Z.ltb_spec (lookahead (win z')) n) as [Hlt|Hge], (Z.eqb_spec flush Z_NO_FLUSH) as [Ef|Ef]; cbn [andb].
  1:{ eexists. split; [reflexivity|]. cbn [turn_post]. split; [done|]. split; [done|]. split; [|done]. split; [by exists ys|]. right. split_and!; [done|lia|done]. }
  all: destruct (Z.eqb_spec (lookahead (win z')) 0) as [E0|E0]; [|apply Hbody; lia]; try lia.
  eexists. split; [reflexivity|]. cbn [turn_post]. split; [done|]. split; [by exists ys|]. split; [by apply Hdi|done].
Qed.

(** The end of a turn of a function without a byte that waits. *)
Lemma turn_flush P flush z z1 all ys :
  own P -> (forall z all, P z all -> match_available (lm z) = 0) ->
  core W A R hdr z1 all ys (here z1 all) -> P z1 all -> pending (wr (tr z1)) = 0 -> same z z1 -> left_of z1 < left_of z ->
  strstart (win z1) < 65536 \/ strategy (tr z1) = Z_HUFFMAN_ONLY ->
  exists r, flush_if W (Z.of_nat (length ys) =? lit_bufsize (tr z1) - 1) z1 = Some r /\ turn_post P all flush z r.
Proof.
  intros HP Hma Hc Hown Hp Hs Hl Hlt. destruct (flush_if_spec W A R hdr HW P z1 all ys HP Hc Hown Hp Hlt)
    as (r & z' & ys' & -> & Hg & Hs' & El & Hr). exists r. split; [done|].
  assert (Ec : here z' all = covered z' all) by (unfold covered; rewrite (Hma z' all (gd_own _ _ _ _ _ _ _ _ _ Hg)); lia).
  rewrite Ec in Hg. pose proof (same_trans _ _ _ Hs Hs') as Hst. destruct Hr as [[-> Hp']|[-> Ha]]; cbn [turn_post].
  - split; [done|]. split; [by exists ys'|]. split; [done|lia].
  - split; [done|]. split; [done|]. split; [split; [by exists ys'|by left]|lia].
Qed.

(** ** [deflate_huff] *)

Definition idle (m : match_state) : Prop := match_available m = 0 /\ 0 <= match_length m <= 2 /\ 0 <= prev_length m <= 2.

Lemma idle_set_length m len : idle m -> 0 <= len <= 2 -> idle (set_length m len).
Proof. intros (H1 & H2 & H3) H. split; [exact H1|]. split; [exact H|exact H3]. Qed.

Lemma idle_set_start m x : idle m -> idle (set_start m x).
Proof. done. Qed.

Definition only (st s : Z) : Prop := s = st.

Definition idle_at (T : Z -> Prop) (z : zs) (all : list Z) : Prop := T (strategy (tr z)) /\ idle (lm z).

Lemma idle_own T : own (idle_at T).
Proof. intros z z' all El _ _ _ Es _ [H1 H2]. split; [by rewrite Es|by rewrite El]. Qed.

Lemma idle_stable T : stable (idle_at T).
Proof. intros z z' all Fl [H1 H2]. split; [by rewrite (fl_tr _ _ _ Fl)|]. rewrite (fl_lm _ _ _ Fl). by apply idle_set_start. Qed.

Lemma good_mid P z all ys :
  good W A R hdr P z all ys (covered z all) -> pending (wr (tr z)) = 0 -> mid W A R hdr z all ys (covered z all).
Proof. intros [Hc _ Hf _] Hp. constructor; try done. exists (dict z). by destruct z. Qed.

Lemma no_insert_core T z all ys :
  good W A R hdr (idle_at T) z all ys (covered z all) -> lookahead (win z) = 0 -> core W A R hdr (no_insert z) all ys (here (no_insert z) all).
Proof.
  intros [Hc [_ [Hma _]] _ _] Hl. unfold covered in Hc. rewrite Hma, Z.sub_0_r in Hc.
  pose proof (co_fed _ _ _ _ _ _ _ _ Hc) as [_ Hw [(S & Hch & HS) _] _]. destruct Hw.
  apply core_insert; [exact Hc|done|lia|]. exists S, (Z.min (pend z all - lookahead (win z) - insert (win z)) (pend z all - 2)). split; [exact Hch|]. split; [exact HS|].
  unfold here. lia.
Qed.

Lemma huff_body flush z all ys :
  good W A R hdr (idle_at (only Z_HUFFMAN_ONLY)) z all ys (covered z all) -> pending (wr (tr z)) = 0 -> 1 <= lookahead (win z) ->
  exists r, ('(z, bflush) ← emit_literal (set_lm z (set_length (lm z) 0)); flush_if W bflush z) = Some r /\
    turn_post (idle_at (only Z_HUFFMAN_ONLY)) all flush z r.
Proof.
  intros Hg Hp Hl. pose proof Hg as [Hc [Hst Hid] _ _]. pose proof (good_mid _ _ _ _ Hg Hp) as Hm.
  assert (Ec : covered z all = here z all) by (unfold covered; destruct Hid as [-> _]; lia). rewrite Ec in Hm.
  apply (mid_lm W A R hdr _ _ _ _ (set_length (lm z) 0)) in Hm. set (z1 := set_lm z (set_length (lm z) 0)) in *.
  pose proof (co_fed _ _ _ _ _ _ _ _ Hc) as [_ _ Hh _].
  destruct (emit_literal_spec W A R hdr z1 all ys Hm Hl) as (t & ys' & -> & Hc' & Eh & Hp' & Hs').
  { change (hash_ok (strategy (tr z)) (set_pos (win z) (strstart (win z) + 1) (lookahead (win z) - 1)) (dict z) all (pend z all)).
    apply skip_hash; [done|rewrite Hst; by intros []|lia]. }
  cbn [mbind option_bind].
  assert (Hid' : idle (set_length (lm z) 0)) by (apply idle_set_length; [done|lia]).
  apply (turn_flush (idle_at (only Z_HUFFMAN_ONLY)) flush z (moved z1 1 (dict z1) (lm z1) t) all ys'); try done.
  - apply idle_own.
  - by intros ? ? [_ [? _]].
  - by rewrite Eh.
  - split; [by rewrite (sm_strategy _ _ Hs')|done].
  - by destruct Hs'.
  - unfold left_of. cbn. lia.
  - right. by rewrite (sm_strategy _ _ Hs').
Qed.

(** The two functions without a table. *)
Lemma flat_function_spec T turn z all ys flush :
  turn_ok (idle_at T) flush turn -> good W A R hdr (idle_at T) z all ys (covered z all) -> pending (wr (tr z)) = 0 ->
  exists z' b, ('(z, r) ← main_loop turn (input_left z) z;
      match r with Some b => Some (z, b) | None => finish_blocks W (no_insert z) flush end) = Some (z', b) /\
    same z z' /\ func_post (idle_at T) all flush z z' b.
Proof.
  intros Ht Hg Hp. destruct (main_loop_spec (idle_at T) flush turn (input_left z) z all ys) as (z' & r & -> & Hs & Hr); try done.
  { pose proof (left_nonneg z all (co_fed _ _ _ _ _ _ _ _ (gd_core _ _ _ _ _ _ _ _ _ Hg))). unfold input_left, left_of in *. lia. }
  cbn [mbind option_bind]. destruct r as [b|]; [by eapply loop_returned|].
  destruct Hr as ([ys' Hg'] & Hd & Hf). pose proof (no_insert_core T z' all ys' Hg' (di_ahead _ Hd)) as Hc'.
  destruct (finish_blocks_spec (idle_at T) (no_insert z') all ys' flush) as (z2 & b & -> & Hs2 & Hpost & Hnm); try done.
  - apply idle_own.
  - exact (gd_own _ _ _ _ _ _ _ _ _ Hg').
  - apply (gd_own _ _ _ _ _ _ _ _ _ Hg').
  - by destruct Hd.
  - exists z2, b. split; [done|]. split; [|by eapply func_post_drained]. apply same_trans with z'; [done|]. by apply (same_of _ (no_insert z') _ z2).
Qed.

Lemma deflate_huff_spec z all ys flush :
  good W A R hdr (idle_at (only Z_HUFFMAN_ONLY)) z all ys (covered z all) -> pending (wr (tr z)) = 0 ->
  exists z' b, deflate_huff W C z flush = Some (z', b) /\ same z z' /\ func_post (idle_at (only Z_HUFFMAN_ONLY)) all flush z z' b.
Proof.
  intros Hg Hp. apply (flat_function_spec _ (huff_turn W C flush) z all ys); try done.
  apply turn_refill; [apply idle_stable|change MIN_LOOKAHEAD with 262; lia|]. intros. by eapply huff_body.
Qed.
End Loop.
