(* ===== verification/LzRle.v ===== *)
(** * deflate_rle: runs of one byte *)
From stdpp Require Import base numbers list.
From Stdlib Require Import ZArith Lia Bool.
From S2P Require Import Prelude Huffman Deflate Trees TreesTables TreesWriter TreesState TreesSend TreesSyms TreesCompress.
From S2P Require Import TreesTally TreesCost TreesBlock TreesSession LzState LzWindow LzMatch LzFacts LzHash LzFill LzOut LzCore LzTurn LzLoop.

(** ** The length of a run *)

Lemma run_bytes_spec k w c scan :
  -1 <= scan -> scan + Z.of_nat k < Z.of_nat (length w) ->
  exists (eq : bool) t, run_bytes k w c scan = Some (eq, scan + t) /\ 0 <= t <= Z.of_nat k /\ (if eq then t = Z.of_nat k else 1 <= t) /\
    forall i, 1 <= i <= (if eq then t else t - 1) -> aget w (scan + i) = Some c.
Proof.
  revert scan. induction k as [|k IH]; intros scan Hm Hk; cbn [run_bytes].
  { exists true, 0. rewrite Z.add_0_r. split; [done|]. split; [lia|]. split; [done|]. intros i Hi. lia. }
  destruct (aget_range w (scan + 1) ltac:(lia)) as [a Ha]. rewrite Ha. cbn [mbind option_bind]. destruct (Z.eqb_spec c a) as [<-|].
  - destruct (IH (scan + 1) ltac:(lia) ltac:(lia)) as (eq & t & -> & Ht & He & Hi). exists eq, (t + 1).
    split; [do 2 f_equal; lia|]. split; [lia|]. split; [destruct eq; lia|]. intros i Hr.
    destruct (decide (i = 1)) as [->|]; [done|]. replace (scan + i) with (scan + 1 + (i - 1)) by lia. apply Hi. destruct eq; lia.
  - exists false, 1. split; [done|]. split; [lia|]. split; [lia|]. intros i Hi. lia.
Qed.

Lemma run_loop_spec fuel w c scan strend :
  -1 <= scan -> strend < Z.of_nat (length w) -> (exists j, strend - scan = 8 * j /\ 1 <= j <= Z.of_nat fuel) ->
  exists e, run_loop fuel w c scan strend = Some e /\ scan < e <= strend /\ forall i, scan < i < e -> aget w i = Some c.
Proof.
  revert scan. induction fuel as [|fuel IH]; intros scan Hm Hl (j & Ej & Hj); [lia|]. cbn [run_loop].
  destruct (run_bytes_spec 8 w c scan Hm ltac:(lia)) as (eq & t & -> & Ht & He & Hi). cbn [mbind option_bind]. change (Z.of_nat 8) with 8 in *.
  assert (Hi' : forall i, scan < i < scan + (if eq then t + 1 else t) -> aget w i = Some c).
  { intros i Hr. replace i with (scan + (i - scan)) by lia. apply Hi. destruct eq; lia. }
  destruct eq; cbn [andb].
  - subst t. destruct (Z.ltb_spec (scan + 8) strend) as [H8|H8].
    + destruct (IH (scan + 8) ltac:(lia) Hl) as (e & -> & Hr & Hx); [exists (j - 1); lia|].
      exists e. split; [done|]. split; [lia|]. intros i Hri. destruct (decide (i <= scan + 8)); [apply Hi'; lia|]. apply Hx. lia.
    + exists (scan + 8). split; [done|]. split; [lia|]. intros i Hri. apply Hi'. lia.
  - exists (scan + t). split; [done|]. split; [lia|]. intros i Hri. apply Hi'. lia.
Qed.

Lemma run_length_spec w :
  0 <= strstart w -> strstart w + 258 < Z.of_nat (length (window w)) ->
  exists len, run_length w = Some len /\
    (len = 0 \/ (3 <= len <= 258 /\ len <= lookahead w /\ 0 < strstart w /\
       exists c, aget (window w) (strstart w - 1) = Some c /\ forall i, 0 <= i < len -> aget (window w) (strstart w + i) = Some c)).
Proof.
  intros H0 Hl. unfold run_length. change MIN_MATCH with 3. change MAX_MATCH with 258.
  destruct (Z.geb_spec (lookahead w) 3) as [H3|]; cbn [andb]; [|exists 0; split; [done|by left]].
  destruct (Z.gtb_spec (strstart w) 0) as [Hs|]; [|exists 0; split; [done|by left]].
  destruct (aget_range (window w) (strstart w - 1) ltac:(lia)) as [c Hc]. rewrite Hc. cbn [mbind option_bind].
  destruct (run_bytes_spec 3 (window w) c (strstart w - 1) ltac:(lia) ltac:(lia)) as (eq & t & -> & Ht & He & Hi). cbn [mbind option_bind].
  destruct eq; [|exists 0; split; [done|by left]]. subst t. change (Z.of_nat 3) with 3 in *.
  destruct (run_loop_spec 33 (window w) c (strstart w - 1 + 3) (strstart w + 258) ltac:(lia) ltac:(lia)) as (e & -> & Hr & Hx); [exists 32; lia|].
  cbn [mbind option_bind]. assert (Ew : wrap 32 (strstart w + 258 - e) = strstart w + 258 - e).
  { apply Z.mod_small. change (2 ^ 32) with 4294967296. lia. }
  rewrite Ew. replace (258 - (strstart w + 258 - e)) with (e - strstart w) by lia.
  set (len := if e - strstart w >? lookahead w then lookahead w else e - strstart w). exists len. split; [done|]. right.
  assert (Hlen : 3 <= len /\ len <= lookahead w /\ len <= e - strstart w) by (subst len; destruct (Z.gtb_spec (e - strstart w) (lookahead w)); lia).
  split; [lia|]. split; [lia|]. split; [done|]. exists c. split; [done|]. intros i Hii.
  destruct (decide (i <= 2)); [|apply Hx; lia]. replace (strstart w + i) with (strstart w - 1 + (i + 1)) by lia. apply Hi. lia.
Qed.

Section Rle.
Context (W : Z) (C : checksums) (A R : list Z -> Z) `{!Sums C A R} (hdr : list Z) (HW : 17 <= W).

(** A run is a match at distance 1. *)
Lemma run_match w all end_ len c :
  win_ok w all end_ -> 0 < strstart w -> 0 <= len <= lookahead w -> end_ <= Z.of_nat (length all) ->
  aget (window w) (strstart w - 1) = Some c -> (forall i, 0 <= i < len -> aget (window w) (strstart w + i) = Some c) ->
  match_in all (end_ - lookahead w) 1 len.
Proof.
  intros [_ _ _ _ W0 Wa _ Wba Wd _ _ _] Hs Hl He Hc Hi.
  assert (Hat : forall i, -1 <= i < len -> at_ all (end_ - lookahead w + i) = c).
  { intros i Hr. assert (Ha : aget (window w) (strstart w + i) = Some c).
    { destruct (decide (i = -1)) as [->|]; [exact Hc|apply Hi; lia]. }
    rewrite Wd in Ha by lia. injection Ha as <-. f_equal. lia. }
  constructor; try lia. intros i Hr. rewrite Hat by lia.
  replace (end_ - lookahead w - 1 + i) with (end_ - lookahead w + (i - 1)) by lia. by rewrite Hat by lia.
Qed.

Lemma rle_body flush z all ys :
  good W A R hdr (idle_at (only Z_RLE)) z all ys (covered z all) -> pending (wr (tr z)) = 0 -> 1 <= lookahead (win z) ->
  strstart (win z) + (MAX_MATCH + 1) <= window_size (win z) -> window_size (win z) <= 65536 ->
  exists r, (len ← run_length (win z);
    let z := set_lm z (set_length (lm z) len) in
    '(z, bflush) ←
      (if len >=? MIN_MATCH then
         '(z, bflush) ← tally_dist z 1 (len - MIN_MATCH);
         let z := advance z len len in
         Some (set_lm z (set_length (lm z) 0), bflush)
       else emit_literal z);
    flush_if W bflush z) = Some r /\ turn_post W A R hdr (idle_at (only Z_RLE)) all flush z r.
Proof.
  intros Hg Hp Hl Hroom H65. pose proof Hg as [Hc [Hst Hid] _ _]. pose proof (good_mid _ _ _ _ _ _ _ _ Hg Hp) as Hm.
  assert (Ec : covered z all = here z all) by (unfold covered; destruct Hid as [-> _]; lia). rewrite Ec in Hm.
  pose proof (co_fed _ _ _ _ _ _ _ _ Hc) as [Hin Hw Hh _]. pose proof Hw as [_ _ Wl _ W0 Wa Wf _ _ _ _ _].
  change MAX_MATCH with 258 in Hroom. assert (Hskip : forall n, 0 <= n <= lookahead (win z) ->
    hash_ok (strategy (tr z)) (set_pos (win z) (strstart (win z) + n) (lookahead (win z) - n)) (dict z) all (pend z all)).
  { intros n Hn. apply skip_hash; [done|rewrite Hst; by intros []|lia]. }
  destruct (run_length_spec (win z) W0 ltac:(lia)) as (len & -> & Hlen). cbn [mbind option_bind].
  change (len >=? MIN_MATCH) with (len >=? 3).
  apply (mid_lm W A R hdr _ _ _ _ (set_length (lm z) len)) in Hm. set (z1 := set_lm z (set_length (lm z) len)) in *.
  assert (Hend : pend z all <= Z.of_nat (length all)) by (destruct Hin; unfold pend; lia).
  destruct Hlen as [->|(Hl3 & Hll & Hs0 & c & Hc0 & Hci)].
  - cbn [Z.geb Z.compare]. destruct (emit_literal_spec W A R hdr z1 all ys Hm Hl) as (t & ys' & -> & Hc' & Eh & Hp' & Hs').
    { apply Hskip. lia. }
    cbn [mbind option_bind].
    apply (turn_flush W A R hdr HW (idle_at (only Z_RLE)) flush z (moved z1 1 (dict z1) (lm z1) t) all ys'); try done.
    + apply idle_own.
    + by intros ? ? [_ [? _]].
    + by rewrite Eh.
    + split; [by rewrite (sm_strategy _ _ Hs')|]. by apply idle_set_length.
    + by destruct Hs'.
    + unfold left_of. cbn. lia.
    + left. cbn. lia.
  - destruct (Z.geb_spec len 3); [|lia].
    destruct (tally_dist_mid W A R hdr z1 all ys _ 1 len Hm) as (t & -> & T & Hx & Hk); try lia.
    { apply (run_match (win z) all (pend z all) len c); try done. lia. }
    { change (strategy (tr z) <> Z_HUFFMAN_ONLY). by rewrite Hst. }
    cbn [mbind option_bind].
    destruct (mid_step W A R hdr z1 all ys _ _ _ len t (dict z) (set_length (lm z) 0) Hm T Hx) as (Hc' & Eh & Hp'); [cbn; lia|done|by apply Hskip; lia|].
    apply (turn_flush W A R hdr HW (idle_at (only Z_RLE)) flush z (moved z1 len (dict z) (set_length (lm z) 0) t) all); try done.
    + apply idle_own.
    + by intros ? ? [_ [? _]].
    + by rewrite Eh.
    + split; [by rewrite <- Hst; apply (ta_strategy _ _ _ T)|]. by apply idle_set_length.
    + pose proof (same_moved z1 _ len (dict z) (set_length (lm z) 0) t T) as Hs'. by destruct Hs'.
    + unfold left_of. cbn. lia.
    + left. cbn. lia.
Qed.

Lemma deflate_rle_spec z all ys flush :
  good W A R hdr (idle_at (only Z_RLE)) z all ys (covered z all) -> pending (wr (tr z)) = 0 ->
  exists z' b, deflate_rle W C z flush = Some (z', b) /\ same z z' /\ func_post W A R hdr (idle_at (only Z_RLE)) all flush z z' b.
Proof.
  intros Hg Hp. apply (flat_function_spec W A R hdr HW _ (rle_turn W C flush) z all ys); try done.
  apply turn_refill; [done|apply idle_stable|by change MIN_LOOKAHEAD with 262; change MAX_MATCH with 258|]. intros. by eapply rle_body.
Qed.
End Rle.
