(* ===== verification/LzFast.v ===== *)
(** * deflate_fast: the first match that is long enough *)
From stdpp Require Import base numbers list.
From Stdlib Require Import ZArith Lia Bool.
From S2P Require Import Prelude Huffman Deflate Trees TreesTables TreesWriter TreesState TreesSend TreesSyms TreesCompress.
From S2P Require Import TreesTally TreesCost TreesBlock TreesSession LzState LzWindow LzMatch LzFacts LzHash LzFill LzSearch LzOut LzCore LzTurn LzLoop.

(** ** [longest_match] *)

(** What a candidate is, before the check of its distance. *)
Definition head_ok (z : zs) (all : list Z) (v : Z) : Prop :=
  3 <= lookahead (win z) /\ 0 < v < strstart (win z) /\
  exists S, chains (w_bits (win z)) (dict z) all (base_of z all) (here z all + 1) S /\ S (base_of z all + v) /\
    hash_at (dict z) all (base_of z all + v) = hash_at (dict z) all (here z all).

Lemma longest_match_spec z all v :
  win_ok (win z) all (pend z all) -> Forall is_byte all -> pend z all <= Z.of_nat (length all) -> head_ok z all v ->
  strstart (win z) - v <= MAX_DIST (win z) -> strstart (win z) + MIN_LOOKAHEAD <= window_size (win z) -> 0 <= prev_length (lm z) <= 258 ->
  exists ms len, longest_match z v = Some (set_lm z (set_start (lm z) ms), len) /\ 0 <= len <= 258 /\ len <= lookahead (win z) /\
    (len <= prev_length (lm z) \/
     (3 <= len /\ 0 <= ms < strstart (win z) /\ strstart (win z) - ms <= MAX_DIST (win z) /\ match_in all (here z all) (strstart (win z) - ms) len)).
Proof.
  intros [Wb Ws Wl Wby W0 Wa Wf Wba Wd Wbl Whi Wi] Hall Hend (H3 & Hv & S & Hc & HS & Hh) Hd Hroom Hpl.
  change MIN_LOOKAHEAD with 262 in Hroom. change (pend z all - lookahead (win z) - strstart (win z)) with (base_of z all) in *.
  assert (Eh : here z all = base_of z all + strstart (win z)) by (unfold base_of; lia).
  assert (Ehp : here z all + lookahead (win z) = pend z all) by (unfold here; lia).
  assert (Hb0 : 0 <= base_of z all) by (unfold base_of, here; lia). rewrite Eh in Hc, Hh.
  unfold longest_match. set (w := win z) in *.
  destruct (aget_range (window w) (strstart w + prev_length (lm z) - 1) ltac:(lia)) as [e1 E1].
  destruct (aget_range (window w) (strstart w + prev_length (lm z)) ltac:(lia)) as [e E].
  rewrite E1, E. cbn [mbind option_bind].
  set (limit := if strstart w >? MAX_DIST w then strstart w - MAX_DIST w else NIL).
  set (clen := if prev_length (lm z) >=? good_match (lm z) then Z.shiftr (max_chain_length (lm z)) 2 else max_chain_length (lm z)).
  set (nice := if wrap 32 (nice_match (lm z)) >? lookahead w then lookahead w else nice_match (lm z)).
  destruct (chain_loop_spec w (dict z) all (base_of z all) S (strstart w) ltac:(lia) ltac:(lia) Hall) with (fuel := Datatypes.S (Z.to_nat v))
    (limit := limit) (nice := nice) (cur := v) (clen := clen) (best := prev_length (lm z)) (ms := match_start (lm z))
    as (ms & best & Er & Hf); [intros i Hi; apply Wd; lia|exact Hc|done|done|lia|lia|].
  rewrite E1, E in Er. cbn [mbind option_bind] in Er. rewrite Er. cbn [mbind option_bind].
  exists ms, (if best <=? lookahead w then best else lookahead w). split; [done|].
  set (len := if best <=? lookahead w then best else lookahead w).
  assert (Hlen : len <= best /\ len <= lookahead w /\ (len = best \/ len = lookahead w)) by (subst len; destruct (Z.leb_spec best (lookahead w)); lia).
  clearbody len. destruct Hf as [[-> ->]|(Hb & Hb3 & Hms & Hmd & Hsb)]; [split; [lia|]; split; [lia|]; left; lia|].
  split; [lia|]. split; [lia|]. right. split; [lia|]. split; [lia|]. split; [done|].
  constructor; [lia|lia|lia|]. intros i Hi. specialize (Hsb i ltac:(lia)). rewrite !Wd in Hsb by lia.
  injection Hsb as Hsb. replace (here z all + i) with (base_of z all + (strstart w + i)) by lia. rewrite Hsb. f_equal. lia.
Qed.

(** ** A match *)

Lemma insert_match_spec k z all base S lim :
  chains (w_bits (win z)) (dict z) all base (base + strstart (win z) + 1) S -> ready (dict z) all (base + strstart (win z) + 1) ->
  (forall q, S q -> 0 <= q /\ q + 3 <= base + lim) -> 0 <= base -> 0 <= strstart (win z) -> lim <= 65536 ->
  (forall i, 0 <= i < lim -> aget (window (win z)) i = Some (at_ all (base + i))) -> strstart (win z) + Z.of_nat k + 2 < lim ->
  exists d' S', insert_match k z = Some (ZS (strm z) (set_pos (win z) (strstart (win z) + Z.of_nat k) (lookahead (win z))) d' (lm z) (tr z) (ctl z)) /\
    chains (w_bits (win z)) d' all base (base + strstart (win z) + Z.of_nat k + 1) S' /\ (forall q, S' q -> 0 <= q /\ q + 3 <= base + lim) /\
    ready d' all (base + strstart (win z) + Z.of_nat k + 1).
Proof.
  revert z S. induction k as [|k IH]; intros z S Hc Hr HS Hb H0 Hl Hd Hk; cbn [insert_match].
  { exists (dict z), S. rewrite !Z.add_0_r. split; [by destruct z as [? [] ? ? ? ?]|done]. }
  set (z1 := advance z 0 1). change (strstart (win z1)) with (strstart (win z) + 1). rewrite <- Z.add_assoc in Hc, Hr.
  destruct (insert_string_spec (win z1) (dict z1) all base S (strstart (win z) + 1) Hc Hr) as (d & v & -> & _ & Hc' & Hr' & _).
  { change (2 ^ 16) with 65536. lia. }
  { change (window (win z1)) with (window (win z)). rewrite Hd by lia. do 2 f_equal. lia. }
  cbn [mbind option_bind].
  destruct (IH (set_dict z1 d) (fun q => S q \/ q = base + (strstart (win z) + 1))) as (d' & S' & E & Hc2 & HS2 & Hr2).
  - exact Hc'.
  - exact Hr'.
  - intros q [Hq| ->]; [by apply HS|lia].
  - done.
  - cbn. lia.
  - done.
  - exact Hd.
  - cbn. lia.
  - exists d', S'. cbn [set_dict z1 advance set_win set_pos win w_bits strstart lookahead strm lm tr ctl window window_size high_water block_start insert] in *.
    rewrite E. rewrite Z.sub_0_r.
    replace (strstart (win z) + 1 + Z.of_nat k) with (strstart (win z) + Z.of_nat (Datatypes.S k)) by lia.
    replace (base + (strstart (win z) + 1) + Z.of_nat k + 1) with (base + strstart (win z) + Z.of_nat (Datatypes.S k) + 1) in * by lia.
    by split_and!.
Qed.

Section Fast.
Context (W : Z) (C : checksums) (A R : list Z -> Z) `{!Sums C A R} (hdr : list Z) (HW : 17 <= W).

(** The table after the strings of a match are inserted, or skipped. *)
Lemma match_table st z all len :
  win_ok (win z) all (pend z all) -> inserted (win z) (dict z) all (pend z all) -> 3 <= len <= 258 -> len <= lookahead (win z) ->
  strstart (win z) + MIN_LOOKAHEAD <= window_size (win z) -> forall lazy,
  exists d', (let z := advance z len 0 in
     if (len <=? lazy) && (lookahead (win z) >=? MIN_MATCH) then
       z ← insert_match (Z.to_nat (len - 1)) z; Some (advance (set_lm z (set_length (lm z) 0)) 0 1)
     else
       let z := advance z 0 len in
       d ← start_hash (win z) (dict z) (strstart (win z));
       Some (set_lm (set_dict z d) (set_length (lm z) 0))) =
    Some (moved z len d' (set_length (lm z) 0) (tr z)) /\
    hash_ok st (set_pos (win z) (strstart (win z) + len) (lookahead (win z) - len)) d' all (pend z all).
Proof.
  intros [Wb Ws Wl Wby W0 Wa Wf Wba Wd Wbl Whi Wi] (S & top & Hc & HS & _ & Hge) Hlen Hla Hroom lazy.
  destruct (Hge ltac:(lia)) as (-> & Hi0 & Hr). change MIN_MATCH with 3. change MIN_LOOKAHEAD with 262 in Hroom.
  assert (H65 : window_size (win z) <= 65536).
  { rewrite Ws, wsize_pow by lia. pose proof (pow_wb (w_bits (win z)) ltac:(lia)). lia. }
  set (base := pend z all - lookahead (win z) - strstart (win z)) in *.
  assert (Eh : pend z all - lookahead (win z) + 1 = base + strstart (win z) + 1) by (subst base; lia). rewrite Eh in Hc, Hr.
  cbn zeta. change (lookahead (win (advance z len 0))) with (lookahead (win z) - len).
  destruct ((len <=? lazy) && (lookahead (win z) - len >=? 3)) eqn:Ecase.
  - apply andb_true_iff in Ecase as [_ H3%Z.geb_le].
    destruct (insert_match_spec (Z.to_nat (len - 1)) (advance z len 0) all base S (strstart (win z) + lookahead (win z)))
      as (d' & S' & E & Hc' & HS' & Hr').
    + cbn. by rewrite Z.add_0_r.
    + cbn. by rewrite Z.add_0_r.
    + intros q Hq. destruct (HS q Hq). subst base. lia.
    + subst base. lia.
    + cbn. lia.
    + lia.
    + exact Wd.
    + cbn. lia.
    + rewrite E. cbn [mbind option_bind]. cbn [advance set_win set_pos win w_bits strstart] in Hc', HS', Hr'.
      replace (base + (strstart (win z) + 0) + Z.of_nat (Z.to_nat (len - 1)) + 1) with (base + strstart (win z) + len) in * by lia.
      exists d'. split.
      * unfold moved, advance, set_win, set_lm, set_pos. cbn. do 3 f_equal; lia.
      * split; cbn [set_pos w_bits strstart lookahead insert].
        -- exists S'. replace (pend z all - (lookahead (win z) - len) - (strstart (win z) + len)) with base by (subst base; lia).
           replace (Z.min (pend z all - (lookahead (win z) - len) - insert (win z)) (pend z all - 2)) with (base + strstart (win z) + len) by (subst base; lia).
           split; [done|]. intros q Hq. destruct (HS' q Hq). subst base. lia.
        -- intros _. split; [done|]. intros _. replace (pend z all - (lookahead (win z) - len)) with (base + strstart (win z) + len) by (subst base; lia). done.
  - set (z1 := advance (advance z len 0) 0 len). change (strstart (win z1)) with (strstart (win z) + 0 + len).
    change (dict z1) with (dict z).
    destruct (start_hash_spec (win z1) (dict z) all base (base + (strstart (win z) + 0 + len)) (strstart (win z) + 0 + len)) as (h & -> & Hrd);
      [lia|change (window (win z1)) with (window (win z)); lia|done|].
    cbn [mbind option_bind]. eexists. split.
    + unfold moved, z1, advance, set_win, set_lm, set_dict, set_pos. cbn. do 3 f_equal; lia.
    + split; cbn [set_pos w_bits strstart lookahead insert].
      * exists S. replace (pend z all - (lookahead (win z) - len) - (strstart (win z) + len)) with base by (subst base; lia).
        split; [|done]. apply chains_ins. apply chains_mono with (base + strstart (win z) + 1); [done|]. subst base. lia.
      * intros H3. split; [done|]. intros _.
        replace (pend z all - (lookahead (win z) - len)) with (base + (strstart (win z) + 0 + len)) by (subst base; lia).
        change (window (win z1)) with (window (win z)) in Hrd. apply Hrd; rewrite Wd by lia; do 2 f_equal; lia.
Qed.

Lemma some_pair {X Y : Type} (a c : X) (y : Y) : Some a = Some c -> Some (a, y) = Some (c, y).
Proof. congruence. Qed.

Lemma fast_match_spec z all ys :
  mid W A R hdr z all ys (here z all) -> inserted (win z) (dict z) all (pend z all) -> tracks (strategy (tr z)) ->
  strstart (win z) + MIN_LOOKAHEAD <= window_size (win z) -> 3 <= match_length (lm z) <= 258 -> match_length (lm z) <= lookahead (win z) ->
  0 <= match_start (lm z) < strstart (win z) -> strstart (win z) - match_start (lm z) <= MAX_DIST (win z) ->
  match_in all (here z all) (strstart (win z) - match_start (lm z)) (match_length (lm z)) ->
  exists t d ys', let z' := moved z (match_length (lm z)) d (set_length (lm z) 0) t in
    fast_match z = Some (z', Z.of_nat (length ys') =? lit_bufsize (tr z') - 1) /\
    core W A R hdr z' all ys' (here z' all) /\ pending (wr (tr z')) = 0 /\ same z z'.
Proof.
  intros Hm Hins [Ht1 Ht2] Hroom Hlen Hla Hms Hmd Hmi. destruct (mid_facts _ _ _ _ _ _ _ _ Hm) as (_ & Hw & _).
  pose proof Hw as [Wb Ws _ _ W0 _ Wf _ _ _ _ _]. pose proof (wsize_pow (win z) ltac:(lia)) as Ep. pose proof (pow_wb (w_bits (win z)) ltac:(lia)) as Hp.
  assert (Ed : wrap 32 (strstart (win z) - match_start (lm z)) = strstart (win z) - match_start (lm z)).
  { apply Z.mod_small. change (2 ^ 32) with 4294967296. lia. }
  unfold fast_match. rewrite Ed. unfold MAX_DIST in Hmd. change MIN_LOOKAHEAD with 262 in *.
  destruct (tally_dist_mid W A R hdr z all ys _ (strstart (win z) - match_start (lm z)) (match_length (lm z)) Hm Hmi) as (t & -> & T & Hx & Hk);
    [lia|lia|done|done|]. cbn [mbind option_bind].
  destruct (match_table (strategy (tr z)) (set_tr z t) all (match_length (lm z)) Hw Hins Hlen Hla Hroom (max_lazy_match (lm z))) as (d & Et & Hh).
  exists t, d. eexists. cbn zeta.
  destruct (mid_step W A R hdr z all ys _ _ _ (match_length (lm z)) t d (set_length (lm z) 0) Hm T Hx ltac:(lia) Hk Hh) as (Hc & Eh & Hp').
  split; [|split; [rewrite Eh; exact Hc|split; [exact Hp'|by eapply same_moved]]].
  cbn zeta in Et. set (z1 := advance (set_tr z t) (match_length (lm z)) 0) in *.
  change (max_lazy_match (lm z1)) with (max_lazy_match (lm z)).
  destruct ((match_length (lm z) <=? max_lazy_match (lm z)) && (lookahead (win z1) >=? MIN_MATCH)).
  - apply bind_Some in Et as (z2 & -> & Et). exact (some_pair _ _ _ Et).
  - apply bind_Some in Et as (d2 & -> & Et). exact (some_pair _ _ _ Et).
Qed.

(** The search of a turn: a real match, or one that is too short. *)
Lemma fast_search_spec z all v :
  win_ok (win z) all (pend z all) -> Forall is_byte all -> pend z all <= Z.of_nat (length all) -> (v <> 0 -> head_ok z all v) ->
  strstart (win z) + MIN_LOOKAHEAD <= window_size (win z) -> window_size (win z) <= 65536 -> idle (lm z) ->
  exists m, (if negb (v =? NIL) && (wrap 32 (strstart (win z) - v) <=? MAX_DIST (win z)) then
       '(z, len) ← longest_match z v; Some (set_lm z (set_length (lm z) len))
     else Some z) = Some (set_lm z m) /\ match_available m = 0 /\ 0 <= match_length m /\ 0 <= prev_length m <= 2 /\
    (match_length m <= 2 \/
     (3 <= match_length m <= 258 /\ match_length m <= lookahead (win z) /\ 0 <= match_start m < strstart (win z) /\
      strstart (win z) - match_start m <= MAX_DIST (win z) /\ match_in all (here z all) (strstart (win z) - match_start m) (match_length m))).
Proof.
  intros Hw Hall Hend Hv Hroom H65 (I1 & I2 & I3). change NIL with 0.
  assert (Hid : exists m, Some z = Some (set_lm z m) /\ match_available m = 0 /\ 0 <= match_length m /\ 0 <= prev_length m <= 2 /\
    (match_length m <= 2 \/
     (3 <= match_length m <= 258 /\ match_length m <= lookahead (win z) /\ 0 <= match_start m < strstart (win z) /\
      strstart (win z) - match_start m <= MAX_DIST (win z) /\ match_in all (here z all) (strstart (win z) - match_start m) (match_length m)))).
  { exists (lm z). split; [by destruct z|]. split; [done|]. split; [lia|]. split; [lia|]. left. lia. }
  destruct (Z.eqb_spec v 0) as [|Hn]; cbn [negb andb]; [done|]. specialize (Hv Hn). pose proof Hv as (_ & Hvr & _).
  assert (Ew : wrap 32 (strstart (win z) - v) = strstart (win z) - v).
  { apply Z.mod_small. change (2 ^ 32) with 4294967296. change MIN_LOOKAHEAD with 262 in Hroom. lia. }
  rewrite Ew. destruct (Z.leb_spec (strstart (win z) - v) (MAX_DIST (win z))) as [Hd|]; [|done]. clear Hid.
  destruct (longest_match_spec z all v Hw Hall Hend Hv Hd Hroom ltac:(lia)) as (ms & len & -> & Hl & Hla & Hm). cbn [mbind option_bind].
  exists (set_length (set_start (lm z) ms) len). split; [done|].
  cbn [set_length set_start match_available match_length prev_length match_start].
  split; [done|]. split; [lia|]. split; [lia|]. destruct Hm as [Hm|(H3 & Hms & Hmd & Hmi)]; [left; lia|right]. split_and!; try done; lia.
Qed.

Lemma fast_body flush z all ys :
  good W A R hdr (idle_at tracks) z all ys (covered z all) -> pending (wr (tr z)) = 0 -> 1 <= lookahead (win z) ->
  strstart (win z) + MIN_LOOKAHEAD <= window_size (win z) -> window_size (win z) <= 65536 ->
  exists r, ('(z, hash_head) ← insert_here z;
    z ← (if negb (hash_head =? NIL) && (wrap 32 (strstart (win z) - hash_head) <=? MAX_DIST (win z)) then
           '(z, len) ← longest_match z hash_head; Some (set_lm z (set_length (lm z) len))
         else Some z);
    '(z, bflush) ← (if match_length (lm z) >=? MIN_MATCH then fast_match z else emit_literal z);
    flush_if W bflush z) = Some r /\ turn_post W A R hdr (idle_at tracks) all flush z r.
Proof.
  intros Hg Hp Hl Hroom H65. pose proof Hg as [Hc [Hst Hid] _ _]. pose proof (good_mid _ _ _ _ _ _ _ _ Hg Hp) as Hm0.
  assert (Ec : covered z all = here z all) by (unfold covered; destruct Hid as [-> _]; lia). rewrite Ec in Hm0.
  pose proof (co_fed _ _ _ _ _ _ _ _ Hc) as Hf. pose proof Hf as [Hin Hw _ _]. pose proof (co_all _ _ _ _ _ _ _ _ Hc) as Hall.
  assert (Hend : pend z all <= Z.of_nat (length all)) by (destruct Hin; unfold pend; lia).
  destruct (insert_here_spec W A R z all Hf Hst) as (d & v & -> & Hins & Hv). cbn [mbind option_bind].
  set (z0 := set_dict z d). assert (Hm : mid W A R hdr z0 all ys (here z0 all)).
  { destruct Hm0 as [[d0 Hc0] Hp0 Hf0]. constructor; [by exists d0|done|done]. }
  destruct (fast_search_spec z0 all v Hw Hall Hend Hv Hroom H65 Hid) as (m & -> & M1 & M2 & M3 & Hmatch). cbn [mbind option_bind].
  apply (mid_lm W A R hdr _ _ _ _ m) in Hm. set (z1 := set_lm z0 m) in *. change (lm z1) with m. change MIN_MATCH with 3.
  change MIN_LOOKAHEAD with 262 in Hroom.
  destruct Hmatch as [Hs|(H3 & Hla & Hms & Hmd & Hmi)].
  - destruct (Z.geb_spec (match_length m) 3); [lia|].
    destruct (emit_literal_spec W A R hdr z1 all ys Hm Hl) as (t & ys' & -> & Hc' & Eh & Hp' & Hs').
    { apply advance_hash; [exact Hins|change (lookahead (win z1)) with (lookahead (win z)); lia|done]. }
    cbn [mbind option_bind].
    apply (turn_flush W A R hdr HW (idle_at tracks) flush z (moved z1 1 (dict z1) (lm z1) t) all ys'); try done.
    + apply idle_own.
    + by intros ? ? [_ [? _]].
    + by rewrite Eh.
    + split; [by rewrite (sm_strategy _ _ Hs')|]. split; [exact M1|]. cbn. lia.
    + by destruct Hs'.
    + unfold left_of. cbn. lia.
    + left. cbn. lia.
  - destruct (Z.geb_spec (match_length m) 3); [|lia].
    destruct (fast_match_spec z1 all ys Hm Hins Hst Hroom H3 Hla Hms Hmd Hmi) as (t & d' & ys' & -> & Hc' & Hp' & Hs'). cbn [mbind option_bind].
    apply (turn_flush W A R hdr HW (idle_at tracks) flush z); try done.
    + apply idle_own.
    + by intros ? ? [_ [? _]].
    + split; [by rewrite (sm_strategy _ _ Hs')|]. split; [exact M1|]. cbn. lia.
    + by destruct Hs'.
    + unfold left_of. cbn. lia.
    + left. cbn. lia.
Qed.

(** [keep_insert] at the end of the input: the last two strings were not inserted. *)
Lemma keep_insert_core z all ys done :
  core W A R hdr z all ys done -> lookahead (win z) = 0 -> core W A R hdr (keep_insert z) all ys done.
Proof.
  intros Hc Hl. pose proof (co_fed _ _ _ _ _ _ _ _ Hc) as [_ Hw [(S & Hch & HS) _] _]. pose proof Hw as [_ _ _ _ W0 _ _ _ _ _ _ _].
  unfold keep_insert. change (MIN_MATCH - 1) with 2.
  apply core_insert; [done|done|destruct (Z.ltb_spec (strstart (win z)) 2); lia|].
  exists S, (Z.min (pend z all - lookahead (win z) - insert (win z)) (pend z all - 2)). split; [exact Hch|]. split; [exact HS|].
  unfold here. destruct (Z.ltb_spec (strstart (win z)) 2); lia.
Qed.

Lemma deflate_fast_spec z all ys flush :
  good W A R hdr (idle_at tracks) z all ys (covered z all) -> pending (wr (tr z)) = 0 ->
  exists z' b, deflate_fast W C z flush = Some (z', b) /\ same z z' /\ func_post W A R hdr (idle_at tracks) all flush z z' b.
Proof.
  intros Hg Hp. unfold deflate_fast.
  destruct (main_loop_spec W A R hdr (idle_at tracks) flush (fast_turn W C flush) (input_left z) z all ys) as (z' & r & -> & Hs & Hr); try done.
  { apply turn_refill; [done|apply idle_stable|by change MIN_LOOKAHEAD with 262|]. intros. by eapply fast_body. }
  { pose proof (left_nonneg W A R z all (co_fed _ _ _ _ _ _ _ _ (gd_core _ _ _ _ _ _ _ _ _ Hg))). unfold input_left, left_of in *. lia. }
  cbn [mbind option_bind]. destruct r as [b|]; [by eapply loop_returned|].
  destruct Hr as ([ys' Hg'] & Hd & Hf). pose proof Hg' as [Hc' [Hst Hid] _ _].
  pose proof (keep_insert_core _ _ _ _ Hc' (di_ahead _ Hd)) as Hk. unfold covered in Hk. rewrite (proj1 Hid), Z.sub_0_r in Hk.
  destruct (finish_blocks_spec W A R hdr HW (idle_at tracks) (keep_insert z') all ys' flush) as (z2 & b & -> & Hs2 & Hpost & Hnm); try done.
  - apply idle_own.
  - apply Hid.
  - by destruct Hd.
  - exists z2, b. split; [done|]. split; [|by eapply func_post_drained]. apply same_trans with z'; [done|]. by apply (same_of _ (keep_insert z') _ z2).
Qed.
End Fast.
