(* ===== verification/LzSlow.v ===== *)
(** * deflate_slow: lazy matches

    A match, or a byte, waits for the next position ([match_available]); the
    symbols then cover the input up to the byte before [strstart]. *)
From stdpp Require Import base numbers list.
From Stdlib Require Import ZArith Lia Bool.
From S2P Require Import Prelude Huffman Deflate Trees TreesTables TreesWriter TreesState TreesSend TreesSyms TreesCompress.
From S2P Require Import TreesTally TreesCost TreesBlock TreesSession LzState LzWindow LzMatch LzFacts LzHash LzFill LzSearch LzOut LzCore LzTurn LzLoop LzFast.

(** A match at the position [p], [back] bytes before [strstart]. *)
Definition real_match (z : zs) (all : list Z) (back : Z) (m : match_state) : Prop :=
  3 <= match_length m <= 258 /\ match_length m <= lookahead (win z) + back /\
  1 <= wrap 32 (strstart (win z) - back - match_start m) <= 32768 /\
  match_in all (here z all - back) (wrap 32 (strstart (win z) - back - match_start m)) (match_length m).

(** What [deflate_slow] keeps between two turns. *)
Record slow_own (z : zs) (all : list Z) : Prop := {
  so_tracks : tracks (strategy (tr z));
  so_length : 0 <= match_length (lm z) <= 258;
  so_none : match_available (lm z) = 0 -> match_length (lm z) <= 2;
  so_waits : match_available (lm z) <> 0 -> match_available (lm z) = 1 /\ 0 < strstart (win z) /\
    (match_length (lm z) <= 2 \/ real_match z all 1 (lm z)) }.

Lemma slow_own_own : own slow_own.
Proof.
  intros z z' all El Eh Es Ela Est _ [H1 H2 H3 H4]. constructor; rewrite ?Est, ?El, ?Es; try done.
  intros Ha. destruct (H4 Ha) as (? & ? & H). split; [done|]. split; [done|]. destruct H as [|H]; [by left|right].
  unfold real_match in *. by rewrite Es, Ela, Eh.
Qed.

Lemma slow_own_stable : stable slow_own.
Proof.
  intros z z' all [Ft _ Fl Fs Fh _ _ Fp Fa _ _ _] [H1 H2 H3 H4].
  remember (match_start (lm z')) as ms eqn:Ems. constructor; rewrite ?Ft, ?Fl; try done.
  intros Ha. destruct (H4 Ha) as (? & ? & H). split; [done|]. split; [by apply Fp|]. destruct H as [|H]; [by left|right].
  assert (Es : wrap 32 (strstart (win z') - 1 - ms) = wrap 32 (strstart (win z) - 1 - match_start (lm z))).
  { unfold wrap in *. replace (strstart (win z') - 1 - ms) with (strstart (win z') - ms - 1) by lia.
    replace (strstart (win z) - 1 - match_start (lm z)) with (strstart (win z) - match_start (lm z) - 1) by lia.
    rewrite <- Zminus_mod_idemp_l, Fs. apply Zminus_mod_idemp_l. }
  assert (El : lookahead (win z) <= lookahead (win z')) by (unfold here, pend in Fh; lia).
  unfold real_match in *. rewrite Fh. cbn [set_start match_start match_length]. rewrite Es. destruct H as (? & ? & ? & ?). split_and!; try done; lia.
Qed.

(** ** The search *)

Lemma slow_search_spec z all v :
  win_ok (win z) all (pend z all) -> Forall is_byte all -> pend z all <= Z.of_nat (length all) -> (v <> 0 -> head_ok z all v) ->
  strstart (win z) + MIN_LOOKAHEAD <= window_size (win z) -> window_size (win z) <= 65536 -> 0 <= match_length (lm z) <= 258 ->
  exists m, slow_search z v = Some (set_lm z m) /\ match_available m = match_available (lm z) /\
    prev_length m = match_length (lm z) /\ prev_match m = match_start (lm z) /\ 0 <= match_length m <= 258 /\
    (match_length m <= prev_length m \/ match_length m <= 2 \/ real_match z all 0 m).
Proof.
  intros Hw Hall Hend Hv Hroom H65 Hl. unfold slow_search. change NIL with 0. change (MIN_MATCH - 1) with 2.
  set (m1 := set_length (set_prev (lm z) (match_length (lm z)) (match_start (lm z))) 2). set (z1 := set_lm z m1).
  change (prev_length (lm z1)) with (match_length (lm z)). change (win z1) with (win z).
  assert (Hid : exists m, Some z1 = Some (set_lm z m) /\ match_available m = match_available (lm z) /\
    prev_length m = match_length (lm z) /\ prev_match m = match_start (lm z) /\ 0 <= match_length m <= 258 /\
    (match_length m <= prev_length m \/ match_length m <= 2 \/ real_match z all 0 m)).
  { exists m1. split; [done|]. cbn. split_and!; try done; try lia. }
  destruct (Z.eqb_spec v 0) as [|Hn]; cbn [negb andb]; [done|]. specialize (Hv Hn). pose proof Hv as (_ & Hvr & _).
  destruct (match_length (lm z) <? max_lazy_match (lm z1)); cbn [andb]; [|done].
  assert (Esm : forall x, 0 <= x < strstart (win z) -> wrap 32 (strstart (win z) - x) = strstart (win z) - x).
  { intros x Hx. apply Z.mod_small. change (2 ^ 32) with 4294967296. change MIN_LOOKAHEAD with 262 in Hroom. lia. }
  rewrite Esm by lia. destruct (Z.leb_spec (strstart (win z) - v) (MAX_DIST (win z))) as [Hd|]; [|done]. clear Hid.
  destruct (longest_match_spec z1 all v Hw Hall Hend Hv Hd Hroom ltac:(cbn; lia)) as (ms & len & -> & Hlen & Hla & Hm). cbn [mbind option_bind].
  change (win (set_lm z1 (set_start (lm z1) ms))) with (win z). change (tr (set_lm z1 (set_start (lm z1) ms))) with (tr z).
  set (len' := if (len <=? 5) && _ then 2 else len). exists (set_length (set_start m1 ms) len'). split; [done|].
  cbn [set_length set_start set_prev m1 match_available match_length prev_length prev_match match_start].
  split; [done|]. split; [done|]. split; [done|].
  assert (Hlen' : len' = 2 \/ len' = len) by (subst len'; destruct (_ && _); [by left|by right]). clearbody len'.
  split; [lia|]. destruct Hlen' as [->| ->]; [right; left; lia|]. destruct Hm as [Hm|(H3 & Hms & Hmd & Hmi)]; [left; exact Hm|right; right].
  change (here z1 all) with (here z all) in Hmi. change (win z1) with (win z) in *.
  destruct Hw as [Wb _ _ _ _ _ _ _ _ _ _ _]. pose proof (pow_wb (w_bits (win z)) ltac:(lia)). unfold MAX_DIST in Hmd.
  rewrite wsize_pow in Hmd by lia. change MIN_LOOKAHEAD with 262 in Hmd.
  unfold real_match. cbn [set_length set_start match_length match_start]. rewrite !Z.sub_0_r, Esm by lia. split_and!; try done; lia.
Qed.

(** ** The rest of a match that is adopted *)

Lemma insert_prev_spec k z all base S top lim :
  chains (w_bits (win z)) (dict z) all base top S -> top <= base + strstart (win z) + 1 -> top <= base + lim - 2 ->
  (strstart (win z) + 3 <= lim -> top = base + strstart (win z) + 1 /\ ready (dict z) all (base + strstart (win z) + 1)) ->
  (forall q, S q -> 0 <= q /\ q + 3 <= base + lim) -> 0 <= base -> 0 <= strstart (win z) -> lim <= 65536 ->
  (forall i, 0 <= i < lim -> aget (window (win z)) i = Some (at_ all (base + i))) ->
  exists d' S' top', insert_prev k (lim - 3) z =
      Some (ZS (strm z) (set_pos (win z) (strstart (win z) + Z.of_nat k) (lookahead (win z))) d' (lm z) (tr z) (ctl z)) /\
    chains (w_bits (win z)) d' all base top' S' /\ top' <= base + strstart (win z) + Z.of_nat k + 1 /\ top' <= base + lim - 2 /\
    (strstart (win z) + Z.of_nat k + 3 <= lim -> ready d' all (base + strstart (win z) + Z.of_nat k + 1)) /\
    (forall q, S' q -> 0 <= q /\ q + 3 <= base + lim).
Proof.
  revert z S top. induction k as [|k IH]; intros z S top Hc Ht1 Ht2 Hr HS Hb H0 Hl Hd; cbn [insert_prev].
  { exists (dict z), S, top. rewrite !Z.add_0_r. split; [by destruct z as [? [] ? ? ? ?]|]. split_and!; try done. intros H. by apply Hr. }
  set (z1 := advance z 0 1). change (strstart (win z1)) with (strstart (win z) + 1).
  assert (Hnext : forall d S1 top1, chains (w_bits (win z)) d all base top1 S1 -> top1 <= base + (strstart (win z) + 1) + 1 -> top1 <= base + lim - 2 ->
    (strstart (win z) + 1 + 3 <= lim -> top1 = base + (strstart (win z) + 1) + 1 /\ ready d all (base + (strstart (win z) + 1) + 1)) ->
    (forall q, S1 q -> 0 <= q /\ q + 3 <= base + lim) ->
    exists d' S' top', insert_prev k (lim - 3) (set_dict z1 d) =
        Some (ZS (strm z) (set_pos (win z) (strstart (win z) + Z.of_nat (Datatypes.S k)) (lookahead (win z))) d' (lm z) (tr z) (ctl z)) /\
      chains (w_bits (win z)) d' all base top' S' /\ top' <= base + strstart (win z) + Z.of_nat (Datatypes.S k) + 1 /\ top' <= base + lim - 2 /\
      (strstart (win z) + Z.of_nat (Datatypes.S k) + 3 <= lim -> ready d' all (base + strstart (win z) + Z.of_nat (Datatypes.S k) + 1)) /\
      (forall q, S' q -> 0 <= q /\ q + 3 <= base + lim)).
  { intros d S1 top1 Hc1 Hta Htb Hr1 HS1.
    destruct (IH (set_dict z1 d) S1 top1 Hc1 Hta Htb Hr1 HS1 Hb) as (d' & S' & top' & E & Hc' & T1 & T2 & Hr' & HS');
      [change (0 <= strstart (win z) + 1); lia|done|exact Hd|].
    exists d', S', top'. change (strstart (win (set_dict z1 d))) with (strstart (win z) + 1) in *.
    replace (base + (strstart (win z) + 1) + Z.of_nat k + 1) with (base + strstart (win z) + Z.of_nat (Datatypes.S k) + 1) in * by lia.
    replace (strstart (win z) + 1 + Z.of_nat k) with (strstart (win z) + Z.of_nat (Datatypes.S k)) in * by lia.
    split; [|split_and!; try done]. rewrite E. unfold z1, set_dict, advance, set_win, set_pos. cbn. do 3 f_equal. lia. }
  destruct (Z.leb_spec (strstart (win z) + 1) (lim - 3)) as [Hle|Hgt].
  - destruct (Hr ltac:(lia)) as [-> Hrd]. rewrite <- Z.add_assoc in Hc, Hrd.
    destruct (insert_string_spec (win z1) (dict z1) all base S (strstart (win z) + 1) Hc Hrd) as (d & v & -> & _ & Hc' & Hr' & _).
    { change (2 ^ 16) with 65536. lia. }
    { change (window (win z1)) with (window (win z)). rewrite Hd by lia. do 2 f_equal. lia. }
    cbn [mbind option_bind].
    apply (Hnext d (fun q => S q \/ q = base + (strstart (win z) + 1)) (base + (strstart (win z) + 1) + 1) Hc'); try lia; [done|].
    intros q [Hq| ->]; [by apply HS|lia].
  - cbn [mbind option_bind]. replace z1 with (set_dict z1 (dict z1)) by (by destruct z).
    apply (Hnext (dict z) S top Hc); try lia. exact HS.
Qed.

(** The table after the match that began a byte ago. *)
Lemma slow_table st z all len :
  win_ok (win z) all (pend z all) -> inserted (win z) (dict z) all (pend z all) -> 3 <= len -> len <= lookahead (win z) + 1 ->
  strstart (win z) + MIN_LOOKAHEAD <= window_size (win z) ->
  exists d', insert_prev (Z.to_nat (len - 2)) (strstart (win z) + lookahead (win z) - 3) (advance z (len - 1) 0) =
      Some (ZS (strm z) (set_pos (win z) (strstart (win z) + (len - 2)) (lookahead (win z) - (len - 1))) d' (lm z) (tr z) (ctl z)) /\
    hash_ok st (set_pos (win z) (strstart (win z) + (len - 1)) (lookahead (win z) - (len - 1))) d' all (pend z all).
Proof.
  intros [Wb Ws Wl Wby W0 Wa Wf Wba Wd Wbl Whi Wi] (S & top & Hc & HS & Hlt & Hge) Hlen Hla Hroom. change MIN_LOOKAHEAD with 262 in Hroom.
  assert (H65 : window_size (win z) <= 65536).
  { rewrite Ws, wsize_pow by lia. pose proof (pow_wb (w_bits (win z)) ltac:(lia)). lia. }
  set (base := pend z all - lookahead (win z) - strstart (win z)) in *.
  destruct (Z.ltb_spec (lookahead (win z)) 3) as [H3|H3].
  - specialize (Hlt H3). assert (len = 3) as -> by lia. exists (dict z). change (Z.to_nat (3 - 2)) with 1%nat. cbn [insert_prev].
    change (strstart (win (advance (advance z (3 - 1) 0) 0 1))) with (strstart (win z) + 0 + 1).
    destruct (Z.leb_spec (strstart (win z) + 0 + 1) (strstart (win z) + lookahead (win z) - 3)); [lia|]. cbn [mbind option_bind]. split.
    + unfold advance, set_win, set_pos. cbn. do 3 f_equal; lia.
    + split; cbn [set_pos w_bits strstart lookahead insert]; [|lia]. exists S.
      replace (pend z all - (lookahead (win z) - (3 - 1)) - (strstart (win z) + (3 - 1))) with base by (subst base; lia).
      split; [|done]. apply chains_mono with top; [done|]. lia.
  - destruct (Hge H3) as (-> & Hi0 & Hrd). assert (Eh : pend z all - lookahead (win z) + 1 = base + strstart (win z) + 1) by (subst base; lia).
    rewrite Eh in Hc, Hrd.
    destruct (insert_prev_spec (Z.to_nat (len - 2)) (advance z (len - 1) 0) all base S (base + strstart (win z) + 1) (strstart (win z) + lookahead (win z)))
      as (d' & S' & top' & E & Hc' & T1 & T2 & Hr' & HS').
    + exact Hc.
    + cbn. lia.
    + lia.
    + cbn. rewrite Z.add_0_r. done.
    + intros q Hq. destruct (HS q Hq). subst base. lia.
    + subst base. lia.
    + cbn. lia.
    + lia.
    + exact Wd.
    + rewrite E. cbn [advance set_win set_pos win w_bits strstart] in Hc', T1, Hr', HS'. exists d'. split.
      * unfold advance, set_win, set_pos. cbn. do 3 f_equal; lia.
      * split; cbn [set_pos w_bits strstart lookahead insert].
        -- exists S'. replace (pend z all - (lookahead (win z) - (len - 1)) - (strstart (win z) + (len - 1))) with base by (subst base; lia).
           split; [|intros q Hq; destruct (HS' q Hq); subst base; lia]. apply chains_mono with top'; [done|]. subst base. lia.
        -- intros H4. split; [done|]. intros _. replace (pend z all - (lookahead (win z) - (len - 1)))
             with (base + (strstart (win z) + 0) + Z.of_nat (Z.to_nat (len - 2)) + 1) by (subst base; lia). apply Hr'. lia.
Qed.

Section Slow.
Context (W : Z) (C : checksums) (A R : list Z -> Z) `{!Sums C A R} (hdr : list Z) (HW : 17 <= W).

(** ** Steps without a symbol, and symbols without a step *)

Lemma core_move z all ys done n d m :
  core W A R hdr z all ys done -> 0 <= n <= lookahead (win z) ->
  hash_ok (strategy (tr z)) (set_pos (win z) (strstart (win z) + n) (lookahead (win z) - n)) d all (pend z all) ->
  core W A R hdr (moved z n d m (tr z)) all ys done.
Proof.
  intros [H1 [I1 I2 I3 I4] H3 H4 [Q1 Q2 Q3 Q4 Q5 Q6 Q7] (bs & Et & Hfr) H7 H8 H9 H10 H11] Hn Hh.
  assert (Ep : block_pos (moved z n d m (tr z)) all = block_pos z all) by (unfold block_pos, base_of, here, pend; cbn; lia).
  constructor; rewrite ?Ep; try done.
  - constructor; try done. by apply advance_win.
  - by exists bs.
Qed.

Lemma core_tally z all ys us done done' t m :
  core W A R hdr z all ys done -> pending (wr (tr z)) = 0 -> tallied (tr z) t (ys ++ us) ->
  expand (upto all done) (map token_of us) = Some (upto all done') -> kind_ok (strategy (tr z)) us ->
  core W A R hdr (set_lm (set_tr z t) m) all (ys ++ us) done'.
Proof.
  intros Hc Hp T Hx Hk. pose proof (co_fed _ _ _ _ _ _ _ _ Hc) as [_ Hw Hh _].
  assert (Ew : set_pos (win z) (strstart (win z) + 0) (lookahead (win z) - 0) = win z).
  { rewrite Z.add_0_r, Z.sub_0_r. by destruct (win z). }
  destruct (core_step W A R hdr z all ys us done done' 0 t (dict z) m Hc Hp T Hx) as [H _]; [destruct Hw; lia|done|by rewrite Ew|].
  by rewrite Ew in H.
Qed.

(** The table has no part in a flush. *)
Lemma flush_block_dict z last z' d :
  FLUSH_BLOCK_ONLY W z last = Some z' -> FLUSH_BLOCK_ONLY W (set_dict z d) last = Some (set_dict z' d).
Proof.
  unfold FLUSH_BLOCK_ONLY. cbn [set_dict win tr]. intros (t & -> & H)%bind_Some. cbn [mbind option_bind]. unfold flush_pending in *.
  cbn [set_win set_tr set_dict strm win dict lm tr ctl] in *. apply bind_Some in H as (w & -> & H). cbn [mbind option_bind].
  destruct (_ =? 0) in *; [by injection H as <-|]. apply bind_Some in H as (data & -> & H). cbn [mbind option_bind]. by injection H as <-.
Qed.

Lemma turn_post_mono (P Q : zs -> list Z -> Prop) all flush z r :
  (forall z, P z all -> Q z all) -> turn_post W A R hdr P all flush z r -> turn_post W A R hdr Q all flush z r.
Proof.
  intros HPQ. assert (Hg : forall z ys done, good W A R hdr P z all ys done -> good W A R hdr Q z all ys done).
  { intros z1 ys done [H1 H2 H3 H4]. constructor; try done. by apply HPQ. }
  destruct r; cbn [turn_post].
  - intros (? & (ys & ?) & ?). split; [done|]. split; [exists ys; by apply Hg|done].
  - intros (? & (ys & ?) & ?). split; [done|]. split; [exists ys; by apply Hg|done].
  - intros (? & ? & ((ys & ?) & ?) & ?). split; [done|]. split; [done|]. split; [split; [exists ys; by apply Hg|done]|done].
Qed.

(** ** The three ends of a turn *)

(** The previous match is adopted. *)
Lemma slow_match_turn z z0 all ys flush :
  mid W A R hdr z all ys (here z all - 1) -> inserted (win z) (dict z) all (pend z all) -> tracks (strategy (tr z)) ->
  match_available (lm z) = 1 -> 3 <= prev_length (lm z) <= 258 -> prev_length (lm z) <= lookahead (win z) + 1 -> 1 <= lookahead (win z) ->
  1 <= wrap 32 (strstart (win z) - 1 - prev_match (lm z)) <= 32768 ->
  match_in all (here z all - 1) (wrap 32 (strstart (win z) - 1 - prev_match (lm z))) (prev_length (lm z)) ->
  strstart (win z) + MIN_LOOKAHEAD <= window_size (win z) -> window_size (win z) <= 65536 -> 0 < strstart (win z) ->
  same z0 z -> left_of z0 = left_of z ->
  exists r, slow_match W z = Some r /\ turn_post W A R hdr slow_own all flush z0 r.
Proof.
  intros Hm Hins [Ht1 Ht2] Hma Hlen Hla Hl1 Hd Hmi Hroom H65 Hst Hs0 Hl0. destruct (mid_facts _ _ _ _ _ _ _ _ Hm) as (_ & Hw & _).
  unfold slow_match. change MIN_LOOKAHEAD with 262 in *. set (dist := wrap 32 (strstart (win z) - 1 - prev_match (lm z))) in *.
  set (len := prev_length (lm z)) in *.
  assert (Emax : wrap 32 (strstart (win z) + lookahead (win z) - MIN_MATCH) = strstart (win z) + lookahead (win z) - 3).
  { change MIN_MATCH with 3. apply Z.mod_small. change (2 ^ 32) with 4294967296. destruct Hw. lia. }
  rewrite Emax.
  destruct (tally_dist_mid W A R hdr z all ys _ dist len Hm Hmi) as (t & -> & T & Hx & Hk); [lia|lia|done|done|]. cbn [mbind option_bind].
  destruct (slow_table (strategy (tr z)) (set_tr z t) all len Hw Hins ltac:(lia) Hla Hroom) as (d & Ei & Hh).
  change (win (set_tr z t)) with (win z) in Ei, Hh. rewrite Ei. cbn [mbind option_bind].
  set (m := set_length (set_available (set_prev (lm z) 0 (prev_match (lm z))) 0) (MIN_MATCH - 1)).
  destruct (mid_step W A R hdr z all ys _ _ _ (len - 1) t d m Hm T Hx ltac:(lia) Hk Hh) as (Hc' & Eh' & Hp').
  set (z1 := moved z (len - 1) d m t) in *.
  match goal with |- context [flush_if W _ ?x] => assert (E1 : x = z1) end.
  { unfold z1, m, moved, advance, set_win, set_lm, set_pos. cbn. f_equal. f_equal; lia. }
  rewrite E1. clear E1.
  destruct (turn_flush W A R hdr HW (fun z all => slow_own z all /\ match_available (lm z) = 0) flush z0 z1 all (ys ++ [(dist, len - 3)])) as (r & Er & Hr); try done.
  - intros a b l El Eh Es Ela Est Ew [Ho Hz]. split; [by apply (slow_own_own a)|by rewrite El].
  - by intros ? ? [_ ?].
  - rewrite Eh'. by replace (here z all + (len - 1)) with (here z all - 1 + len) by lia.
  - assert (Et : strategy t = strategy (tr z)) by (apply (ta_strategy _ _ _ T)). split; [|done].
    constructor; cbn [z1 moved lm tr m set_length set_available set_prev match_length match_available]; try done; try (change (MIN_MATCH - 1) with 2; lia).
    by rewrite Et.
  - apply same_trans with z; [done|]. by eapply same_moved.
  - rewrite Hl0. unfold left_of. cbn. lia.
  - left. cbn. lia.
  - exists r. split; [exact Er|]. eapply turn_post_mono; [|exact Hr]. by intros ? [? _].
Qed.

(** The state after a step of a byte that may begin a match. *)
Lemma slow_own_step z z' all :
  tracks (strategy (tr z')) -> lm z' = lm z -> here z' all = here z all + 1 -> strstart (win z') = strstart (win z) + 1 ->
  lookahead (win z') = lookahead (win z) - 1 -> match_available (lm z) = 1 -> 0 <= strstart (win z) -> 0 <= match_length (lm z) <= 258 ->
  match_length (lm z) <= 2 \/ real_match z all 0 (lm z) -> slow_own z' all.
Proof.
  intros Ht El Eh Es Ela Hma H0 Hl Hm. constructor; rewrite ?El; try done; [lia|]. intros _. split; [done|]. split; [lia|].
  destruct Hm as [Hm|Hm]; [by left|right]. unfold real_match in *. rewrite Eh, Es, Ela.
  replace (strstart (win z) + 1 - 1) with (strstart (win z) - 0) by lia. replace (here z all + 1 - 1) with (here z all - 0) by lia.
  destruct Hm as (? & ? & ? & ?). split_and!; try done; lia.
Qed.

(** The byte before [strstart] becomes a literal. *)
Lemma slow_literal_turn z z0 all ys flush :
  mid W A R hdr z all ys (here z all - 1) -> inserted (win z) (dict z) all (pend z all) -> tracks (strategy (tr z)) ->
  match_available (lm z) = 1 -> 0 <= match_length (lm z) <= 258 -> match_length (lm z) <= 2 \/ real_match z all 0 (lm z) ->
  1 <= lookahead (win z) -> strstart (win z) < 65536 -> 0 < strstart (win z) -> same z0 z -> left_of z0 = left_of z ->
  exists r, slow_literal W z = Some r /\ turn_post W A R hdr slow_own all flush z0 r.
Proof.
  intros Hm Hins Ht Hma Hlen Hreal Hl1 H65 Hst Hs0 Hl0. destruct (mid_facts _ _ _ _ _ _ _ _ Hm) as (Hall & Hw & _ & _ & Hh & _).
  pose proof Hw as [_ _ _ _ W0 Wa Wf Wba Wd _ _ _]. pose proof Hm as [[d0 Hc0] Hp Hfew].
  assert (Hpos : 0 <= here z all - 1 < Z.of_nat (length all)).
  { pose proof (fd_in _ _ _ _ _ (co_fed _ _ _ _ _ _ _ _ Hc0)) as [[? ?] _ _ _]. unfold here, pend in *. cbn in *. lia. }
  destruct (tally_lit_mid W A R hdr z all ys (here z all - 1) Hm Hpos) as (t & Et & T & Hx & Hk).
  unfold slow_literal. rewrite Wd by lia. cbn [mbind option_bind].
  replace (pend z all - lookahead (win z) - strstart (win z) + (strstart (win z) - 1)) with (here z all - 1) by (unfold here; lia).
  rewrite Et. cbn [mbind option_bind]. replace (here z all - 1 + 1) with (here z all) in Hx by lia.
  pose proof (core_tally (set_dict z d0) all ys _ _ _ t (lm z) Hc0 Hp T Hx Hk) as Hc1.
  set (us := ys ++ [(0, at_ all (here z all - 1))]) in *. change (set_lm (set_tr (set_dict z d0) t) (lm z)) with (set_dict (set_tr z t) d0) in Hc1.
  assert (Hps : pending (wr t) = 0) by (by rewrite (ta_pending _ _ _ T)).
  (* the block, if it is full *)
  assert (Hblock : exists z2 ys2, (if Z.of_nat (length us) =? lit_bufsize t - 1 then FLUSH_BLOCK_ONLY W (set_tr z t) 0 else Some (set_tr z t)) = Some z2 /\
    core W A R hdr (set_dict z2 d0) all ys2 (here z all) /\ dict z2 = dict z /\ lm z2 = lm z /\ here z2 all = here z all /\
    win z2 = set_block (win z) (block_start (win z2)) /\ Z.of_nat (length ys2) < lit_bufsize (tr z2) - 1 /\
    (pending (wr (tr z2)) <> 0 -> ys2 = [] /\ avail_out (strm z2) = 0) /\ same z z2 /\ avail_in (strm z2) = avail_in (strm z)).
  { assert (Hsz : same z (set_tr z t)).
    { pose proof T as [_ _ _ _ Tb Tl Ts]. constructor; try done. cbn. by destruct (ctl z). }
    pose proof (bi_few _ _ (co_block _ _ _ _ _ _ _ _ Hc1)) as Hf1. cbn [set_dict set_tr tr] in Hf1.
    destruct (Z.eqb_spec (Z.of_nat (length us)) (lit_bufsize t - 1)) as [E|E].
    - destruct (flush_block_only_spec W A R hdr (set_dict (set_tr z t) d0) all us 0 HW Hc1 Hps ltac:(lia) ltac:(by left))
        as (z2 & E2 & Bf & Eh2 & _ & _ & _ & Hav & Hcore & _). specialize (Hcore eq_refl).
      apply (flush_block_dict _ _ _ (dict z)) in E2. change (set_dict (set_dict (set_tr z t) d0) (dict z)) with (set_tr z t) in E2.
      exists (set_dict z2 (dict z)), []. pose proof Bf as [Bw Bd Bl Bb _ _ _ (_ & _ & Ba & _) _].
      split; [exact E2|]. split.
      { change (set_dict (set_dict z2 (dict z)) d0) with (set_dict z2 d0). replace (set_dict z2 d0) with z2 by (destruct z2; cbn in Bd; by subst).
        change (here z all) with (here (set_dict (set_tr z t) d0) all). by rewrite <- Eh2. }
      split; [done|]. split; [exact Bl|]. split; [exact Eh2|]. split; [cbn; rewrite Bw; reflexivity|].
      split; [pose proof (co_bufsize _ _ _ _ _ _ _ _ Hcore); cbn [length set_dict tr]; lia|]. split; [intros Hn; split; [done|by apply Hav]|].
      split; [|exact Ba]. apply same_trans with (set_tr z t); [done|]. by apply (same_of _ (set_dict (set_tr z t) d0) _ z2), (same_flushed W).
    - exists (set_tr z t), us. split; [done|]. split; [exact Hc1|]. split_and!; try done; [cbn; by destruct (win z)|cbn; lia]. }
  destruct Hblock as (z2 & ys2 & E2 & Hc2 & Ed2 & El2 & Eh2 & Ew2 & Hf2 & Hp2 & Hs2 & Ea2).
  rewrite E2. clear E2. cbn [mbind option_bind].
  assert (Ela : lookahead (win z2) = lookahead (win z)) by (by rewrite Ew2).
  assert (Est : strstart (win z2) = strstart (win z)) by (by rewrite Ew2).
  assert (Ep2 : pend z2 all = pend z all) by (unfold pend; by rewrite Ea2).
  assert (Hash : hash_ok (strategy (tr z2)) (set_pos (win z2) (strstart (win z2) + 1) (lookahead (win z2) - 1)) (dict z2) all (pend z2 all)).
  { rewrite Ed2, Ep2, Ew2. apply (advance_hash _ (set_block (win z) (block_start (win z2)))); [exact Hins|cbn; lia|done]. }
  pose proof (core_move (set_dict z2 d0) all ys2 _ 1 (dict z2) (lm z2) Hc2 ltac:(cbn; lia) Hash) as Hc3.
  change (moved (set_dict z2 d0) 1 (dict z2) (lm z2) (tr (set_dict z2 d0))) with (advance z2 1 1) in Hc3.
  assert (Eh3 : here (advance z2 1 1) all = here z all + 1) by (rewrite <- Eh2; unfold here, pend; cbn; lia).
  assert (Hown : slow_own (advance z2 1 1) all).
  {
    apply (slow_own_step z); try done; try (cbn; lia). cbn. by rewrite (sm_strategy _ _ Hs2). }
  assert (Ec : covered (advance z2 1 1) all = here z all).
  { unfold covered. change (lm (advance z2 1 1)) with (lm z2). rewrite El2, Hma, Eh3. lia. }
  assert (Hg : good W A R hdr slow_own (advance z2 1 1) all ys2 (covered (advance z2 1 1) all)) by (rewrite Ec; by constructor).
  assert (Hs3 : same z0 (advance z2 1 1)).
  { apply same_trans with z; [done|]. by apply (same_of _ z _ z2). }
  eexists. split; [reflexivity|]. change (avail_out (strm (advance z2 1 1))) with (avail_out (strm z2)).
  destruct (Z.eqb_spec (avail_out (strm z2)) 0) as [E0|E0]; cbn [turn_post].
  - split; [done|]. split; [done|]. split; [split; [by exists ys2|by left]|]. intros _. rewrite Hl0. unfold left_of. cbn. lia.
  - split; [done|]. split; [by exists ys2|]. split; [|rewrite Hl0; unfold left_of; cbn; lia].
    cbn [advance set_win tr]. destruct (decide (pending (wr (tr z2)) = 0)) as [|Hn]; [done|]. by destruct (E0 (proj2 (Hp2 Hn))).
Qed.

(** The byte at [strstart] waits. *)
Lemma slow_wait_turn z z0 all ys flush :
  mid W A R hdr z all ys (here z all) -> inserted (win z) (dict z) all (pend z all) -> tracks (strategy (tr z)) ->
  0 <= match_length (lm z) <= 258 -> match_length (lm z) <= 2 \/ real_match z all 0 (lm z) ->
  1 <= lookahead (win z) -> 0 <= strstart (win z) -> same z0 z -> left_of z0 = left_of z ->
  turn_post W A R hdr slow_own all flush z0 (Continue (advance (set_lm z (set_available (lm z) 1)) 1 1)).
Proof.
  intros [[d0 Hc] Hp Hfew] Hins Ht Hlen Hreal Hl1 H0 Hs0 Hl0. set (z1 := set_lm z (set_available (lm z) 1)).
  pose proof (core_move (set_dict z d0) all ys _ 1 (dict z) (lm z1) Hc ltac:(cbn; lia) (advance_hash _ _ _ _ _ 1 Hins ltac:(lia) (fun _ => eq_refl))) as Hc'.
  change (moved (set_dict z d0) 1 (dict z) (lm z1) (tr (set_dict z d0))) with (advance z1 1 1) in Hc'.
  assert (Eh : here (advance z1 1 1) all = here z all + 1) by (unfold here, pend; cbn; lia).
  assert (Hown : slow_own (advance z1 1 1) all) by (apply (slow_own_step z1); try done; cbn; lia).
  cbn [turn_post]. split; [apply same_trans with z; [done|]; apply (same_of _ z _ z); try done; apply same_refl|]. split; [|split; [done|rewrite Hl0; unfold left_of; cbn; lia]].
  exists ys. replace (covered (advance z1 1 1) all) with (here z all) by (unfold covered; rewrite Eh; cbn; lia).
  by constructor.
Qed.

Lemma slow_body flush z all ys :
  good W A R hdr slow_own z all ys (covered z all) -> pending (wr (tr z)) = 0 -> 1 <= lookahead (win z) ->
  strstart (win z) + MIN_LOOKAHEAD <= window_size (win z) -> window_size (win z) <= 65536 ->
  exists r, ('(z, hash_head) ← insert_here z;
    z ← slow_search z hash_head;
    if (prev_length (lm z) >=? MIN_MATCH) && (match_length (lm z) <=? prev_length (lm z)) then slow_match W z
    else if negb (match_available (lm z) =? 0) then slow_literal W z
    else Some (Continue (advance (set_lm z (set_available (lm z) 1)) 1 1))) = Some r /\ turn_post W A R hdr slow_own all flush z r.
Proof.
  intros Hg Hp Hl Hroom H65. pose proof Hg as [Hc [Hst Hlen Hnone Hwait] _ _]. pose proof (good_mid _ _ _ _ _ _ _ _ Hg Hp) as Hm0.
  pose proof (co_fed _ _ _ _ _ _ _ _ Hc) as Hf. pose proof Hf as [Hin Hw _ _]. pose proof (co_all _ _ _ _ _ _ _ _ Hc) as Hall.
  assert (Hend : pend z all <= Z.of_nat (length all)) by (destruct Hin; unfold pend; lia).
  destruct (insert_here_spec W A R z all Hf Hst) as (d & v & -> & Hins & Hv). cbn [mbind option_bind].
  set (z0 := set_dict z d). assert (Hm : mid W A R hdr z0 all ys (covered z all)).
  { destruct Hm0 as [[d0 Hc0] Hp0 Hf0]. constructor; [by exists d0|done|done]. }
  destruct (slow_search_spec z0 all v Hw Hall Hend Hv Hroom H65 Hlen) as (m & -> & Ma & Mp & Mm & Ml & Hmatch). cbn [mbind option_bind].
  apply (mid_lm W A R hdr _ _ _ _ m) in Hm. set (z1 := set_lm z0 m) in *. change (lm z1) with m. change MIN_MATCH with 3.
  assert (Hs : same z z1) by (apply (same_of _ z _ z); try done; apply same_refl). assert (H0 : 0 <= strstart (win z)) by (destruct Hw; lia).
  change (lm z0) with (lm z) in *. change MIN_LOOKAHEAD with 262 in *. pose proof Hroom as Hroom'. pose proof Hins as Hins'.
  destruct (Z.eqb_spec (match_available m) 0) as [E0|E0]; cbn [negb].
  - rewrite Ma in E0. specialize (Hnone E0). rewrite <- Mp in Hnone.
    destruct (Z.geb_spec (prev_length m) 3); [lia|]. cbn [andb]. eexists. split; [reflexivity|].
    apply (slow_wait_turn z1 z all ys flush); try done.
    + unfold covered in Hm. by rewrite E0, Z.sub_0_r in Hm.
    + change (lm z1) with m. destruct Hmatch as [|[|]]; [left; lia|by left|by right].
  - rewrite Ma in E0. destruct (Hwait E0) as (E1 & Hpos & Hold). unfold covered in Hm. rewrite E1 in Hm.
    destruct (Z.geb_spec (prev_length m) 3) as [H3|H3]; cbn [andb].
    + destruct (Z.leb_spec (match_length m) (prev_length m)) as [Hle|Hgt].
      * rewrite Mp in H3. destruct Hold as [|(R1 & R2 & R3 & R4)]; [lia|].
        apply (slow_match_turn z1 z all ys flush); change (lm z1) with m; rewrite ?Mp, ?Mm, ?Ma; try done.
      * apply (slow_literal_turn z1 z all ys flush); change (lm z1) with m; rewrite ?Ma; try done.
        -- destruct Hmatch as [|[|]]; [lia|by left|by right].
        -- change (win z1) with (win z). lia.
    + apply (slow_literal_turn z1 z all ys flush); change (lm z1) with m; rewrite ?Ma; try done.
      * destruct Hmatch as [|[|]]; [left; lia|by left|by right].
      * change (win z1) with (win z). lia.
Qed.

Lemma deflate_slow_spec z all ys flush :
  good W A R hdr slow_own z all ys (covered z all) -> pending (wr (tr z)) = 0 ->
  exists z' b, deflate_slow W C z flush = Some (z', b) /\ same z z' /\ func_post W A R hdr slow_own all flush z z' b.
Proof.
  intros Hg Hp. unfold deflate_slow.
  destruct (main_loop_spec W A R hdr slow_own flush (slow_turn W C flush) (input_left z) z all ys) as (z' & r & -> & Hs & Hr); try done.
  { apply turn_refill; [done|apply slow_own_stable|by change MIN_LOOKAHEAD with 262|]. intros. by eapply slow_body. }
  { pose proof (left_nonneg W A R z all (co_fed _ _ _ _ _ _ _ _ (gd_core _ _ _ _ _ _ _ _ _ Hg))). unfold input_left, left_of in *. lia. }
  cbn [mbind option_bind]. destruct r as [b|]; [by eapply loop_returned|].
  destruct Hr as ([ys' Hg'] & [D1 D2 D3 D4] & Hf). pose proof Hg' as [Hc' [Hst Hlen Hnone Hwait] Hfew _].
  (* the byte that waits *)
  assert (Hlast : exists z2 ys2, (if negb (match_available (lm z') =? 0) then
             c ← aget (window (win z')) (strstart (win z') - 1);
             '(z, _) ← tally_lit z' c;
             Some (set_lm z (set_available (lm z) 0))
           else Some z') = Some z2 /\ core W A R hdr z2 all ys2 (here z2 all) /\ slow_own z2 all /\ match_available (lm z2) = 0 /\
      win z2 = win z' /\ pending (wr (tr z2)) = 0 /\ strm z2 = strm z' /\ same z' z2).
  { destruct (Z.eqb_spec (match_available (lm z')) 0) as [E0|E0]; cbn [negb].
    - exists z', ys'. unfold covered in Hc'. rewrite E0, Z.sub_0_r in Hc'. split_and!; try done. apply same_refl.
    - destruct (Hwait E0) as (E1 & Hpos & Hold). pose proof (good_mid _ _ _ _ _ _ _ _ Hg' D3) as Hm.
      pose proof (co_fed _ _ _ _ _ _ _ _ Hc') as [[[Hin1 _] _ _ _] [_ _ _ _ W0 Wa Wf Wba Wd _ _ _] _ _].
      unfold covered in Hm, Hc'. rewrite E1 in Hm, Hc'.
      destruct (tally_lit_mid W A R hdr z' all ys' (here z' all - 1) Hm) as (t & Et & T & Hx & Hk); [unfold here, pend in *; lia|].
      rewrite Wd by lia. cbn [mbind option_bind].
      replace (pend z' all - lookahead (win z') - strstart (win z') + (strstart (win z') - 1)) with (here z' all - 1) by (unfold here; lia).
      rewrite Et. cbn [mbind option_bind]. replace (here z' all - 1 + 1) with (here z' all) in Hx by lia.
      pose proof (core_tally z' all ys' _ _ _ t (set_available (lm z') 0) Hc' D3 T Hx Hk) as Hc2.
      eexists _, _. split; [reflexivity|]. split; [exact Hc2|]. split; [|split; [done|split; [done|split; [|split; [done|]]]]].
      + assert (Hshort : match_length (lm z') <= 2) by (destruct Hold as [|(? & ? & _)]; lia).
        constructor; cbn [set_lm set_tr tr lm set_available match_length match_available]; try done. by rewrite (ta_strategy _ _ _ T).
      + cbn. by rewrite (ta_pending _ _ _ T).
      + pose proof T as [_ _ _ _ Tb Tl Ts]. constructor; try done. cbn. by destruct (ctl z'). }
  destruct Hlast as (z2 & ys2 & -> & Hc2 & Hown & Hma & Ew & Hp2 & Es & Hs2). cbn [mbind option_bind].
  pose proof (keep_insert_core W A R hdr _ _ _ _ Hc2 ltac:(by rewrite Ew)) as Hk.
  destruct (finish_blocks_spec W A R hdr HW slow_own (keep_insert z2) all ys2 flush) as (z3 & b & -> & Hs3 & Hpost & Hnm); try done.
  - apply slow_own_own.
  - destruct Hown as [O1 O2 O3 O4]. by constructor.
  - constructor; try done; [change (lookahead (win z2) = 0); by rewrite Ew|change (avail_in (strm z2) = 0); by rewrite Es|change (strstart (win z2) < 65536); by rewrite Ew].
  - exists z3, b. split; [done|]. split; [|by eapply func_post_drained]. apply same_trans with z'; [done|]. apply same_trans with z2; [done|].
    by apply (same_of _ (keep_insert z2) _ z3).
Qed.
End Slow.
