(* ===== verification/LzDeflate.v ===== *)
(** * One call of deflate()

    [compress] picks the function of the level and the strategy; [resting] is
    what holds between two calls while the stream goes on. *)
From stdpp Require Import base numbers list.
From Stdlib Require Import ZArith Lia Bool.
From S2P Require Import Prelude Huffman Deflate Trees TreesTables TreesWriter TreesState TreesSend TreesSyms TreesCompress.
From S2P Require Import TreesTally TreesCost TreesBlock TreesSession LzState LzWindow LzMatch LzStored LzCall.
From S2P Require Import LzFacts LzHash LzFill LzSearch LzOut LzCore LzTurn LzLoop LzRle LzFast LzSlow.

(** What the function for [z] keeps. *)
Definition own_of (z : zs) (all : list Z) : Prop :=
  if strategy (tr z) =? Z_HUFFMAN_ONLY then idle_at (only Z_HUFFMAN_ONLY) z all
  else if strategy (tr z) =? Z_RLE then idle_at (only Z_RLE) z all
  else if level (tr z) <=? 3 then idle_at tracks z all
  else slow_own z all.

Lemma own_of_frame z z' all :
  lm z' = lm z -> here z' all = here z all -> strstart (win z') = strstart (win z) -> lookahead (win z') = lookahead (win z) ->
  w_bits (win z') = w_bits (win z) -> strategy (tr z') = strategy (tr z) -> level (tr z') = level (tr z) -> own_of z all -> own_of z' all.
Proof.
  intros El Eh Es Ela Ew Est Elv. unfold own_of. rewrite Est, Elv.
  destruct (strategy (tr z) =? Z_HUFFMAN_ONLY); [by apply idle_own|].
  destruct (strategy (tr z) =? Z_RLE); [by apply idle_own|].
  destruct (level (tr z) <=? 3); [by apply idle_own|by apply slow_own_own].
Qed.

(** Without a byte that waits, only the match state matters. *)
Lemma own_of_idle z z' all :
  match_available (lm z) = 0 -> lm z' = lm z -> strategy (tr z') = strategy (tr z) -> level (tr z') = level (tr z) -> own_of z all -> own_of z' all.
Proof.
  intros Hm El Est Elv. unfold own_of, idle_at. rewrite Est, Elv, El.
  destruct (_ =? Z_HUFFMAN_ONLY); [done|]. destruct (_ =? Z_RLE); [done|]. destruct (_ <=? 3); [done|].
  intros [H1 H2 H3 H4]. by constructor; rewrite ?El, ?Est.
Qed.

Lemma own_of_available z all : own_of z all -> match_available (lm z) = 0 \/ match_available (lm z) = 1.
Proof.
  unfold own_of. destruct (_ =? _); [intros [_ [? _]]; by left|]. destruct (_ =? _); [intros [_ [? _]]; by left|].
  destruct (_ <=? _); [intros [_ [? _]]; by left|]. intros [_ _ _ H]. destruct (decide (match_available (lm z) = 0)) as [|Hn]; [by left|right]. by apply H.
Qed.

Lemma bytes_bits_inj l k : Forall is_byte l -> Forall is_byte k -> bytes_bits l = bytes_bits k -> l = k.
Proof.
  intros Hl. revert k. induction Hl as [|x l Hx _ IH]; intros k Hk E; destruct Hk as [|y k Hy Hk].
  - done.
  - apply (f_equal length) in E. rewrite !length_bytes_bits in E. cbn in E. lia.
  - apply (f_equal length) in E. rewrite !length_bytes_bits in E. cbn in E. lia.
  - rewrite !bytes_bits_cons in E. apply app_inj_1 in E as [E1 E2]; [|by rewrite !length_z_bits]. f_equal; [|by apply IH].
    apply (f_equal bits_z) in E1. by rewrite !bits_z_z_bits_small in E1.
Qed.

(** ** Bits behind the queue *)

Lemma emit_queue z w bs :
  queue_ok z -> pending (wr (tr z)) = 0 -> emits (wr (tr z)) w bs ->
  queue_ok (with_wr z w) /\ total_bits (with_wr z w) = total_bits z ++ bs.
Proof.
  intros Hq Hp M. destruct (pending_total z Hq Hp) as (Et & _ & Hpo). pose proof M as [Ow Es _ Ez _]. split.
  - constructor; cbn [with_wr set_tr set_writer tr wr ctl strm]; rewrite ?Hpo; try done; [destruct Ow; lia| |apply (qo_avail _ Hq)].
    unfold delivered, queued. cbn [with_wr set_tr set_writer tr wr ctl strm]. rewrite Hpo, drop_0. apply Forall_app. split; [|apply Ow].
    pose proof (qo_bytes _ Hq) as Hb. unfold delivered in Hb. by apply Forall_app in Hb as [? _].
  - rewrite total_sent by done. rewrite Et. cbn [with_wr set_tr set_writer tr wr strm]. by rewrite Es, app_assoc.
Qed.

Lemma put_list_bytes w l : Forall is_byte l -> put_list w l = put_bytes w l.
Proof.
  intros H. revert w. induction H as [|c l Hc _ IH]; intros w; [done|]. cbn [put_list put_bytes]. unfold put_byte.
  assert (E : wrap 8 c = c) by (by apply Z.mod_small). rewrite E. destruct (aset _ _ _); [|done]. cbn [mbind option_bind]. apply IH.
Qed.

Lemma put_list_emits l w :
  writer_ok w -> bi_valid w = 0 -> pending w + Z.of_nat (length l) <= size w -> Forall is_byte l ->
  exists w', put_list w l = Some w' /\ emits w w' (bytes_bits l) /\ bi_valid w' = 0.
Proof. intros Hw H0 Hs Hl. rewrite put_list_bytes by done. by apply put_bytes_emits. Qed.

(** The two bytes of [putShortMSB]. *)
Definition msb16 (b : Z) : list Z := [b / 256 mod 256; b mod 256].

Lemma msb16_bytes b : Forall is_byte (msb16 b).
Proof. repeat constructor; apply (Z.mod_pos_bound _ 256); lia. Qed.

Lemma putShortMSB_list w b : putShortMSB w b = put_list w (msb16 b).
Proof.
  assert (E1 : wrap 8 (Z.shiftr b 8) = b / 256 mod 256) by (unfold wrap; by rewrite Z.shiftr_div_pow2 by lia).
  assert (E2 : wrap 8 (Z.land b 255) = b mod 256).
  { change 255 with (Z.ones 8). rewrite Z.land_ones by lia. apply Z.mod_mod. lia. }
  unfold putShortMSB. rewrite E1, E2. cbn [put_list msb16]. destruct (put_byte w _); [|done]. cbn [mbind option_bind].
  by destruct (put_byte _ _).
Qed.

Lemma put_list_app w l k : put_list w (l ++ k) = (w ← put_list w l; put_list w k).
Proof. revert w. induction l as [|c l IH]; intros w; [done|]. cbn [app put_list]. destruct (put_byte w c); [|done]. cbn [mbind option_bind]. apply IH. Qed.

Section Call.
Context (W : Z) (C : checksums) (A R : list Z -> Z) `{!Sums C A R} (hdr : list Z) (HW : 17 <= W).

Lemma good_mono (P Q : zs -> list Z -> Prop) z all ys done : (P z all -> Q z all) -> good W A R hdr P z all ys done -> good W A R hdr Q z all ys done.
Proof. intros H [H1 H2 H3 H4]. constructor; auto. Qed.

Lemma func_post_mono (P Q : zs -> list Z -> Prop) all flush z0 z b :
  (P z all -> Q z all) -> func_post W A R hdr P all flush z0 z b -> func_post W A R hdr Q all flush z0 z b.
Proof.
  intros H. destruct b; cbn [func_post]; try done.
  - intros [[(ys & Hg) Hs] Hl]. split; [|done]. split; [|done]. exists ys. by apply (good_mono P).
  - intros (Hg & Hr). split; [by apply (good_mono P)|done].
Qed.

Lemma compress_spec z all ys flush :
  good W A R hdr own_of z all ys (covered z all) -> pending (wr (tr z)) = 0 -> level (tr z) <= 9 ->
  exists z' b, compress W C z flush = Some (z', b) /\ same z z' /\ func_post W A R hdr own_of all flush z z' b.
Proof.
  intros Hg Hp H9. pose proof (co_level _ _ _ _ _ _ _ _ (gd_core _ _ _ _ _ _ _ _ _ Hg)) as H0. unfold compress.
  destruct (Z.eqb_spec (level (tr z)) 0) as [|_]; [lia|].
  assert (Hown : forall z', same z z' -> own_of z' all =
    if strategy (tr z) =? Z_HUFFMAN_ONLY then idle_at (only Z_HUFFMAN_ONLY) z' all
    else if strategy (tr z) =? Z_RLE then idle_at (only Z_RLE) z' all
    else if level (tr z) <=? 3 then idle_at tracks z' all else slow_own z' all).
  { intros z' [E El _ _ _ _ _ _]. unfold own_of. by rewrite E, El. }
  (* the function [f] keeps [P] *)
  assert (Hcase : forall (P : zs -> list Z -> Prop) f, (forall z', same z z' -> own_of z' all = P z' all) ->
    (good W A R hdr P z all ys (covered z all) -> exists z' b, f = Some (z', b) /\ same z z' /\ func_post W A R hdr P all flush z z' b) ->
    exists z' b, f = Some (z', b) /\ same z z' /\ func_post W A R hdr own_of all flush z z' b).
  { intros P f HP Hf. destruct Hf as (z' & b & Ef & Hs & Hpost).
    - apply (good_mono own_of); [|done]. by rewrite (HP z (same_refl z)).
    - exists z', b. split; [done|]. split; [done|]. apply (func_post_mono P); [|done]. by rewrite (HP z' Hs). }
  destruct (strategy (tr z) =? Z_HUFFMAN_ONLY); [apply (Hcase _ _ Hown); intros Hg'; by eapply deflate_huff_spec|].
  destruct (strategy (tr z) =? Z_RLE); [apply (Hcase _ _ Hown); intros Hg'; by eapply deflate_rle_spec|].
  assert (Hc : exists c, aget configuration_table (level (tr z)) = Some c /\
    func c = if level (tr z) <=? 3 then deflate_fast_f else deflate_slow_f).
  { assert (Hl : In (level (tr z)) [1; 2; 3; 4; 5; 6; 7; 8; 9]) by (cbn [In]; lia).
    revert Hl. generalize (level (tr z)). cbn [In]. intros l Hl.
    repeat (destruct Hl as [<-|Hl]; [by eexists|]). done. }
  destruct Hc as (c & -> & Hfc). cbn [mbind option_bind]. rewrite Hfc.
  destruct (level (tr z) <=? 3); [apply (Hcase _ _ Hown); intros Hg'; by eapply deflate_fast_spec|].
  apply (Hcase _ _ Hown). intros Hg'. by eapply deflate_slow_spec.
Qed.

(** ** Between two calls *)

Record resting (z : zs) (all : list Z) (ys : list symbol) : Prop := {
  re_core : core W A R hdr z all ys (covered z all);
  re_own : own_of z all;
  re_few : Z.of_nat (length ys) < lit_bufsize (tr z) - 1;
  re_wait : pending (wr (tr z)) <> 0 -> ys = [] }.

Lemma good_resting z all ys : good W A R hdr own_of z all ys (covered z all) -> resting z all ys.
Proof. intros [H1 H2 H3 H4]. constructor; try done. intros Hn. by destruct (H4 Hn). Qed.

Lemma resting_good z all ys : resting z all ys -> pending (wr (tr z)) = 0 -> good W A R hdr own_of z all ys (covered z all).
Proof. intros [H1 H2 H3 H4] Hp. by constructor. Qed.

(** The parts of the state that a step of [deflate] may change, apart from the data. *)
Lemma same_drained z z' : drained W z z' -> same z z'.
Proof. intros [_ _ _ (w & Et) _ Ec (E1 & E2 & E3 & _) En _ Ex]. constructor; rewrite ?Et; try done; lia. Qed.

Lemma drained_own z z' all : drained W z z' -> own_of z all -> own_of z' all.
Proof.
  intros D. pose proof (drained_pos W z z' all D) as [_ Eh]. destruct D as [Ew _ El (w & Et) _ _ _ _ _].
  apply own_of_frame; rewrite ?Ew, ?Et; done.
Qed.

Lemma drained_covered z z' all : drained W z z' -> covered z' all = covered z all.
Proof. intros D. pose proof (drained_pos W z z' all D) as [_ Eh]. unfold covered. by rewrite Eh, (dn_lm _ _ _ D). Qed.

(** Flushing the queue of a state without symbols. *)
Lemma flush_resting z all :
  resting z all [] -> exists z', flush_pending W z = Some z' /\ drained W z z' /\ resting z' all [] /\
    (pending (wr (tr z')) <> 0 -> avail_out (strm z') = 0).
Proof.
  intros [Hc Ho Hf _]. destruct (flush_pending_spec W z (co_queue _ _ _ _ _ _ _ _ Hc)) as (z' & -> & Hq & D & Hv & Hav & _).
  exists z'. split; [done|]. split; [done|]. split; [|done]. constructor; try done.
  - rewrite (drained_covered _ _ _ D). by apply (core_drained W A R hdr z).
  - by apply (drained_own z).
  - destruct D as [_ _ _ (w & ->) _ _ _ _ _]. done.
Qed.

(** The queue gets shorter. *)
Lemma drained_length z z' :
  queue_ok z -> queue_ok z' -> bi_valid (wr (tr z)) < 8 -> bi_valid (wr (tr z')) < 8 -> drained W z z' ->
  delivered z' = delivered z /\ Z.of_nat (length (queued z')) = Z.of_nat (length (queued z)) - (avail_out (strm z) - avail_out (strm z')).
Proof.
  intros Hq Hq' Hv Hv' D. pose proof (qo_writer _ Hq) as [_ _ ? _ _]. pose proof (qo_writer _ Hq') as [_ _ ? _ _].
  pose proof (dn_total _ _ _ D) as Et. unfold total_bits in Et.
  assert (El : length (delivered z') = length (delivered z)).
  { apply (f_equal length) in Et. rewrite !length_app, !length_bytes_bits, !length_z_bits in Et. lia. }
  assert (E : delivered z' = delivered z).
  { apply bytes_bits_inj; [apply Hq'|apply Hq|]. by apply app_inj_1 in Et as [? _]; [|rewrite !length_bytes_bits; lia]. }
  split; [done|]. pose proof (dn_count _ _ _ D) as En. apply (f_equal length) in E. unfold delivered in E. rewrite !length_app in E. lia.
Qed.

(** Bits of an empty block. *)
Lemma core_emit z all done w bs :
  core W A R hdr z all [] done -> pending (wr (tr z)) = 0 -> emits (wr (tr z)) w bs -> bi_valid w < 8 ->
  nbits (wr (tr z)) + Z.of_nat (length bs) <= 8 * lit_bufsize (tr z) ->
  segment (nbits (wr (tr z))) false (upto all (block_pos z all)) bs (upto all (block_pos z all)) ->
  core W A R hdr (with_wr z w) all [] done.
Proof.
  intros [H1 [I1 I2 I3 I4] H3 H4 Hq (fs & Et & Hfr) H7 H8 H9 H10 H11] Hp M Hv Hroom Hseg.
  destruct (emit_queue z w bs Hq Hp M) as [Hq' Et']. pose proof (front_length hdr z fs Hq Hp Et) as Hfl.
  constructor; try done.
  - by apply block_inv_writer with bs.
  - exists (fs ++ bs). split; [rewrite Et', Et; by rewrite app_assoc|]. by apply front_segment with (nbits (wr (tr z))) (upto all (block_pos z all)).
Qed.

(** A full flush forgets the window. *)
Lemma core_reset z all :
  core W A R hdr z all [] (here z all) -> lookahead (win z) = 0 ->
  let z' := set_win (set_dict z (CLEAR_HASH (dict z))) (set_insert (set_block (set_pos (win z) 0 (lookahead (win z))) 0) 0) in
  core W A R hdr z' all [] (here z all) /\ here z' all = here z all.
Proof.
  intros [H1 [I1 I2 [(S & Hc & _) _] I4] H3 Hx Hq H6 H7 H8 H9 H10 H11] Hl z'. cbn [map expand] in Hx. injection Hx as Ex.
  assert (Eh : here z' all = here z all) by (unfold here, pend; cbn; lia). split; [|done].
  assert (Ep : block_pos z' all = here z all) by (unfold block_pos, base_of; rewrite Eh; cbn; lia).
  pose proof I2 as [Wb Ws Wl Wby W0 Wa Wf Wba Wd Wbl Whi Wi].
  rewrite Ex in H6. constructor; rewrite ?Ep; try done. constructor; try done.
  - constructor; cbn [z' set_win set_dict win set_insert set_block set_pos w_bits window window_size high_water block_start strstart lookahead insert];
      try done; unfold pend in *; cbn [z' set_win set_dict strm] in *; try lia.
  - split; cbn [z' set_win set_dict win dict tr set_insert set_block set_pos w_bits lookahead strstart insert]; [|lia].
    exists (fun _ => False). split; [|done]. destruct Hc as [Cb Cw Ch Cp _ Cv _ _]. apply clear_hash_chains; try done.
    apply Forall_aget. intros i x Hi. by apply (Cv i).
  - destruct Hq. by constructor.
Qed.

Lemma flush_marker_spec z all flush :
  good W A R hdr own_of z all [] (here z all) -> match_available (lm z) = 0 -> lookahead (win z) = 0 -> pending (wr (tr z)) = 0 ->
  exists z', flush_marker z flush = Some z' /\ resting z' all [] /\ same z z' /\ left_of z' = left_of z /\ match_available (lm z') = 0.
Proof.
  intros [Hc Ho Hf _] Hm Hl Hp. unfold flush_marker.
  pose proof (co_block _ _ _ _ _ _ _ _ Hc) as Hi. pose proof (bi_shape _ _ Hi) as [_ _ _ _ _ _ _ Wok Wsz _ _].
  pose proof (co_bits _ _ _ _ _ _ _ _ Hc) as Hv. pose proof (co_bufsize _ _ _ _ _ _ _ _ Hc) as Hb.
  assert (Hn : nbits (wr (tr z)) < 8) by (unfold nbits; lia).
  assert (Hrest : forall z', core W A R hdr z' all [] (here z' all) -> lm z' = lm z -> strategy (tr z') = strategy (tr z) ->
    level (tr z') = level (tr z) -> lit_bufsize (tr z') = lit_bufsize (tr z) -> resting z' all []).
  { intros z' Hc' El Es Elv Eb. constructor; [|by apply (own_of_idle z)|by rewrite Eb|done]. unfold covered. by rewrite El, Hm, Z.sub_0_r. }
  assert (Hwr : forall w, same z (with_wr z w)).
  { intros w. constructor; try done. cbn. by destruct (ctl z). }
  destruct (flush =? Z_PARTIAL_FLUSH).
  { destruct (tr_align_spec (wr (tr z)) Wok ltac:(lia)) as (w & -> & M & Hv'). cbn [mbind option_bind]. exists (with_wr z w).
    split; [done|]. split; [|by split_and!]. apply Hrest; try done. apply (core_emit z all _ w _ Hc Hp M Hv').
    - cbn [length]. rewrite length_app, length_z_bits, length_replicate. lia.
    - apply fixed_segment with []; [|done]. apply coded_end, fixed_eob. }
  destruct (flush =? Z_BLOCK); cbn [negb].
  { exists z. split; [done|]. split; [by apply Hrest|]. split_and!; try done. apply same_refl. }
  destruct (tr_stored_block_spec (wr (tr z)) [] 0 0 Wok) as (w & k & -> & M & Hv' & Hk & Hal); [lia|done|done|constructor|lia|]. cbn [mbind option_bind].
  assert (Hc1 : core W A R hdr (with_wr z w) all [] (here (with_wr z w) all)).
  { apply (core_emit z all _ w _ Hc Hp M); [lia| |].
    - cbn [length]. unfold stored_bits. rewrite !length_app, !length_z_bits, length_replicate, length_bytes_bits, length_take. lia.
    - rewrite <- (app_nil_r (upto all (block_pos z all))) at 2. by apply stored_segment. }
  destruct (flush =? Z_FULL_FLUSH).
  2:{ exists (with_wr z w). split; [done|]. split; [by apply Hrest|]. by split_and!. }
  change (win (set_dict (with_wr z w) (CLEAR_HASH (dict (with_wr z w))))) with (win z).
  destruct (Z.eqb_spec (lookahead (win z)) 0) as [_|]; [|done].
  eexists. split; [reflexivity|]. split; [|split; [|done]].
  - apply Hrest; try done. pose proof (core_reset (with_wr z w) all Hc1 Hl) as [Hc2 Eh]. cbn zeta in Hc2, Eh. rewrite <- Eh in Hc2. exact Hc2.
  - apply same_trans with (with_wr z w); [done|]. constructor; try done. cbn. by destruct (ctl z).
Qed.
End Call.
