(* ===== verification/LzPhase.v ===== *)
(** * The phases of a stream: deflate() from the header to the trailer

    [busy]: blocks are written; [closing]: the last block is, the trailer is
    not; [closed]: all of it is.  The bytes of [hdr] come first in each. *)
From stdpp Require Import base numbers list.
From Stdlib Require Import ZArith Lia Bool.
From S2P Require Import Prelude Huffman Deflate Trees TreesTables TreesWriter TreesState TreesSend TreesSyms TreesCompress.
From S2P Require Import TreesTally TreesCost TreesBlock TreesSession LzState LzWindow LzMatch LzStored LzCall.
From S2P Require Import LzFacts LzHash LzFill LzSearch LzOut LzCore LzTurn LzLoop LzRle LzFast LzSlow LzDeflate.

(** [z] with another message, and with a control part that agrees on the wrapper and the queue. *)
Definition touch (z : zs) (m : option Z) (c : control) : zs := ZS (set_msg (strm z) m) (win z) (dict z) (lm z) (tr z) c.

Definition agrees (z : zs) (c : control) : Prop := wrapper c = wrapper (ctl z) /\ pending_out c = pending_out (ctl z).

Lemma touch_ctl z (f : control -> control) : with_ctl z f = touch z (msg (strm z)) (f (ctl z)).
Proof. unfold with_ctl, set_ctl, touch, set_msg. by destruct (strm z). Qed.

Lemma touch_err z e : err_return z e = (touch z (Some e) (ctl z), e).
Proof. done. Qed.

(** The bytes behind a header. *)
Lemma header_bits_split h l bs :
  Forall is_byte h -> Forall is_byte l -> bytes_bits l = bytes_bits h ++ bs -> exists body, l = h ++ body /\ bs = bytes_bits body.
Proof.
  intros Hh. revert l bs. induction Hh as [|x h Hx Hh IH]; intros l bs Hl E; [by exists l|].
  destruct Hl as [|y l Hy Hl].
  - apply (f_equal length) in E. rewrite length_app, !length_bytes_bits in E. cbn in E. lia.
  - rewrite !bytes_bits_cons, <- app_assoc in E. apply app_inj_1 in E as [E1 E2]; [|by rewrite !length_z_bits].
    apply (f_equal bits_z) in E1. rewrite !bits_z_z_bits_small in E1 by done. subst y.
    destruct (IH l bs Hl E2) as (body & -> & ->). by exists body.
Qed.

Section Phase.
Context (W : Z) (C : checksums) (A R : list Z -> Z) `{!Sums C A R} (hdr : list Z) (HW : 17 <= W) (Hhdr : Forall is_byte hdr).

Lemma touch_queue z m c : agrees z c -> queue_ok z -> queue_ok (touch z m c) /\ total_bits (touch z m c) = total_bits z /\ delivered (touch z m c) = delivered z.
Proof.
  intros [_ Hp] [Q1 Q2 Q3 Q4 Q5 Q6 Q7].
  assert (Ed : delivered (touch z m c) = delivered z) by (unfold delivered, queued; cbn [touch strm set_msg out_bytes tr ctl]; by rewrite Hp).
  split; [|split; [|done]].
  - constructor; cbn [touch tr ctl strm set_msg avail_out]; rewrite ?Hp; try done. by rewrite Ed.
  - unfold total_bits. by rewrite Ed.
Qed.

Lemma touch_core z m c all ys done : agrees z c -> core W A R hdr z all ys done -> core W A R hdr (touch z m c) all ys done.
Proof.
  intros Ha [H1 [[I1 I2 I3 I4] Iw Ih (S1 & S2 & S3 & S4)] H3 H4 Hq H6 H7 H8 H9 H10 H11].
  destruct (touch_queue z m c Ha Hq) as (Hq' & Et & _). destruct Ha as [Hw _].
  constructor; try done; [|by rewrite Et]. constructor; try done.
  cbn [touch ctl strm]. rewrite Hw. by split_and!.
Qed.

Lemma touch_resting z m c all ys : agrees z c -> resting W A R hdr z all ys -> resting W A R hdr (touch z m c) all ys.
Proof. intros Ha [H1 H2 H3 H4]. constructor; try done; [by apply touch_core|]. by apply (own_of_frame z). Qed.

Lemma touch_ended z m c all : agrees z c -> ended W A R hdr z all -> ended W A R hdr (touch z m c) all.
Proof.
  intros Ha [Hq Hi Hs Hb (S1 & S2 & S3 & S4) Hbs]. destruct (touch_queue z m c Ha Hq) as (Hq' & Et & _). destruct Ha as [Hw _].
  constructor; try done; [by rewrite Et|]. cbn [touch ctl strm]. rewrite Hw. by split_and!.
Qed.

(** What every call keeps: the settings, the input, the space. *)
Record kept (z z' : zs) : Prop := {
  kp_strategy : strategy (tr z') = strategy (tr z);
  kp_level : level (tr z') = level (tr z);
  kp_bufsize : lit_bufsize (tr z') = lit_bufsize (tr z);
  kp_buf : in_buf (strm z') = in_buf (strm z);
  kp_next : next_in (strm z') + avail_in (strm z') = next_in (strm z) + avail_in (strm z);
  kp_avail : avail_in (strm z') <= avail_in (strm z);
  kp_count : Z.of_nat (length (out_bytes (strm z'))) + avail_out (strm z') = Z.of_nat (length (out_bytes (strm z))) + avail_out (strm z);
  kp_prefix : out_bytes (strm z) `prefix_of` out_bytes (strm z') }.

Lemma kept_same z z' : same z z' -> kept z z'.
Proof. intros [A1 A2 A3 _ A5 A6 A7 A8 A9]. by constructor. Qed.

Lemma kept_trans a b c : kept a b -> kept b c -> kept a c.
Proof. intros [A1 A2 A3 A4 A5 A6 A7 A8] [B1 B2 B3 B4 B5 B6 B7 B8]. constructor; try congruence; try lia. by etransitivity. Qed.

Lemma kept_touch z m c : kept z (touch z m c).
Proof. by constructor. Qed.

(** ** After the last block *)

Record closing (z : zs) (all : list Z) : Prop := {
  cl_ended : ended W A R hdr z all;
  cl_ahead : lookahead (win z) = 0;
  cl_avail : avail_in (strm z) = 0 }.

(** The bytes behind the blocks: the checksum, and for gzip the length. *)
Definition trailer (wrap_ : Z) (all : list Z) : list Z :=
  if wrap_ =? 1 then msb16 (wrap 32 (Z.shiftr (A all) 16)) ++ msb16 (wrap 32 (Z.land (A all) 65535))
  else if wrap_ =? 2 then
    let n := wrap W (Z.of_nat (length all)) in
    [byte_at (R all) 0; byte_at (R all) 8; byte_at (R all) 16; byte_at (R all) 24;
     byte_at n 0; byte_at n 8; byte_at n 16; byte_at n 24]
  else [].

(** [l] is the header, a deflate stream of [all], and the trailer. *)
Definition wraps (wrap_ : Z) (l all : list Z) : Prop :=
  exists body k, l = hdr ++ body ++ trailer wrap_ all /\ Deflate.stream [] (bytes_bits body) all (replicate k false) /\ (k < 8)%nat.

Record closed (wrap_ : Z) (z : zs) (all : list Z) : Prop := {
  cd_queue : queue_ok z;
  cd_wraps : wraps wrap_ (delivered z) all;
  cd_bits : bi_valid (wr (tr z)) = 0;
  cd_size : size (wr (tr z)) = 4 * lit_bufsize (tr z);
  cd_ahead : lookahead (win z) = 0;
  cd_avail : avail_in (strm z) = 0;
  cd_total : out_ok W (strm z) }.

Lemma ended_bytes z all : ended W A R hdr z all ->
  exists body k, delivered z = hdr ++ body /\ Deflate.stream [] (bytes_bits body) all (replicate k false) /\ (k < 8)%nat.
Proof.
  intros [Hq _ (bs & k & Et & Hs & Hk) Hb _ _]. unfold total_bits in Et. rewrite Hb in Et. cbn [Z.to_nat z_bits] in Et. rewrite app_nil_r in Et.
  destruct (header_bits_split hdr (delivered z) bs Hhdr (qo_bytes _ Hq) Et) as (body & E & ->). by exists body, k.
Qed.

Lemma byte_at_byte v k : is_byte (byte_at v k).
Proof. unfold byte_at. change 255 with (Z.ones 8). rewrite Z.land_ones by lia. apply (Z.mod_pos_bound _ 256). lia. Qed.

Lemma trailer_bytes w all : Forall is_byte (trailer w all).
Proof.
  unfold trailer. destruct (_ =? 1); [apply Forall_app; split; apply msb16_bytes|]. destruct (_ =? 2); [|constructor].
  repeat constructor; apply byte_at_byte.
Qed.

Lemma trailer_length w all : (length (trailer w all) <= 8)%nat.
Proof. unfold trailer. destruct (_ =? 1); [cbn; lia|]. destruct (_ =? 2); cbn; lia. Qed.

Lemma write_trailer_spec z all :
  closing z all -> pending (wr (tr z)) = 0 -> 1 <= wrapper (ctl z) <= 2 ->
  exists z' r, write_trailer W z = Some (z', r) /\ closed (wrapper (ctl z)) z' all /\ wrapper (ctl z') = - wrapper (ctl z) /\
    status (ctl z') = status (ctl z) /\
    (pending (wr (tr z')) <> 0 -> avail_out (strm z') = 0) /\ r = (if pending (wr (tr z')) =? 0 then Z_STREAM_END else Z_OK) /\
    kept z z'.
Proof.
  intros [He Hl Ha] Hp Hw. pose proof (ended_bytes z all He) as (body & k & Ed & Hs & Hk).
  pose proof He as [Hq Hi _ Hb (S1 & S2 & S3 & S4) Hbs]. pose proof (bi_shape _ _ Hi) as [_ _ _ _ _ _ _ Wok Wsz _ _].
  assert (Epend : upto all (pend z all) = all).
  { unfold pend, upto. rewrite Ha, Z.sub_0_r, Nat2Z.id. by apply take_ge. }
  rewrite Epend in *.
  destruct (put_list_emits (trailer (wrapper (ctl z)) all) (wr (tr z)) Wok Hb) as (w & Ew & M & Hv).
  { pose proof (trailer_length (wrapper (ctl z)) all). lia. }
  { apply trailer_bytes. }
  destruct (emit_queue z w _ Hq Hp M) as [Hq1 Et1].
  destruct (flush_pending_spec W (with_wr z w) Hq1) as (z1 & E1 & Hq2 & D & Hv2 & Hav & Hvle).
  unfold write_trailer.
  match goal with |- context [mbind _ ?x] => assert (Ex : x = Some w) end.
  { destruct (Z.eqb_spec (wrapper (ctl z)) 2) as [E2|E2].
    - rewrite (S2 E2), S3. rewrite <- Ew, E2. done.
    - assert (E : wrapper (ctl z) = 1) by lia. rewrite (S1 E). rewrite E in Ew. unfold trailer in Ew. cbn [Z.eqb Pos.eqb] in Ew.
      rewrite put_list_app in Ew. rewrite putShortMSB_list. destruct (put_list (wr (tr z)) _); [|done]. cbn [mbind option_bind] in Ew |- *.
      by rewrite putShortMSB_list. }
  rewrite Ex. cbn [mbind option_bind]. rewrite E1. cbn [mbind option_bind]. rewrite touch_ctl. cbv beta.
  pose proof D as [Dw Dd Dl (w1 & Dt) _ Dc (D1 & D2 & D3 & _ & _ & _ & D6) Dn Dtot].
  assert (Ewr : wrapper (ctl z1) = wrapper (ctl z)) by (by rewrite Dc). rewrite Ewr.
  destruct (Z.gtb_spec (wrapper (ctl z)) 0) as [_|]; [|lia].
  set (c := set_wrapper (ctl z1) (- wrapper (ctl z))).
  assert (Hq3 : queue_ok (touch z1 (msg (strm z1)) c)) by (destruct Hq2; by constructor).
  assert (Hz : bi_valid (wr (tr z1)) = 0).
  { pose proof (wo_valid _ (qo_writer _ Hq2)). cbn [with_wr set_tr set_writer tr wr] in Hvle. lia. }
  do 2 eexists. split; [reflexivity|]. split; [|split; [done|split; [cbn; by rewrite Dc|]]].
  - constructor; try done; [| |cbn; by rewrite Dw|cbn; by rewrite D3|by apply D6].
    2:{ pose proof (dn_size _ _ _ D) as Hsz. cbn [touch tr]. rewrite Dt in Hsz |- *. cbn [with_wr set_tr set_writer tr wr lit_bufsize] in Hsz |- *.
        rewrite Hsz, (em_size _ _ _ M). exact Wsz. }
    exists body, k. split; [|done].
    change (delivered (touch z1 (msg (strm z1)) c)) with (delivered z1).
    apply bytes_bits_inj; [apply Hq2| |].
    + apply Forall_app. split; [done|]. apply Forall_app. split; [|apply trailer_bytes].
      pose proof (qo_bytes _ Hq) as Hby. rewrite Ed in Hby. by apply Forall_app in Hby as [_ ?].
    + rewrite app_assoc, <- Ed, bytes_bits_app.
      transitivity (total_bits z1); [unfold total_bits; rewrite Hz; cbn [Z.to_nat z_bits]; by rewrite app_nil_r|].
      rewrite Dtot, Et1. unfold total_bits. rewrite Hb. cbn [Z.to_nat z_bits]. by rewrite app_nil_r.
  - cbn [touch tr strm set_msg avail_out out_bytes in_buf next_in]. split; [done|]. split.
    + by destruct (pending (wr (tr z1)) =? 0).
    + constructor; cbn [touch tr strm set_msg avail_in avail_out out_bytes in_buf next_in]; rewrite ?Dt, ?D1, ?D2, ?D3; done.
Qed.

(** ** The phases *)

Inductive phase (w0 : Z) (z : zs) (all : list Z) : Prop :=
| ph_busy ys : status (ctl z) = BUSY_STATE -> wrapper (ctl z) = w0 -> level (tr z) <= 9 -> resting W A R hdr z all ys -> phase w0 z all
| ph_closing : status (ctl z) = FINISH_STATE -> wrapper (ctl z) = w0 -> closing z all -> phase w0 z all
| ph_closed : status (ctl z) = FINISH_STATE -> 0 < w0 -> wrapper (ctl z) = - w0 -> closed w0 z all -> phase w0 z all.

(** What is left to do with [Z_FINISH]: it bounds the number of calls. *)
Definition work (z : zs) : Z :=
  let full := 4 * lit_bufsize (tr z) + 1 in
  if status (ctl z) =? BUSY_STATE then (left_of z + 2) * full + pending (wr (tr z))
  else if wrapper (ctl z) >? 0 then full + pending (wr (tr z))
  else pending (wr (tr z)).

Lemma closing_touch z m c all : agrees z c -> closing z all -> closing (touch z m c) all.
Proof. intros Ha [H1 H2 H3]. constructor; try done. by apply touch_ended. Qed.

Lemma phase_queue w0 z all : phase w0 z all -> queue_ok z /\ bi_valid (wr (tr z)) < 8.
Proof.
  intros [ys _ _ _ [Hc _ _ _]|_ _ [He _ _]|_ _ _ [Hq _ Hb _ _ _]].
  - split; [apply (co_queue _ _ _ _ _ _ _ _ Hc)|apply (co_bits _ _ _ _ _ _ _ _ Hc)].
  - split; [apply (en_queue _ _ _ _ _ _ He)|]. rewrite (en_bits _ _ _ _ _ _ He). lia.
  - split; [done|]. lia.
Qed.

Lemma phase_touch w0 z m c all : agrees z c -> status c = status (ctl z) -> phase w0 z all -> phase w0 (touch z m c) all.
Proof.
  intros Ha Hs Hp. pose proof Ha as [Hw _]. destruct Hp as [ys S1 S2 S3 S4|S1 S2 S3|S1 S2 S3 S4].
  - apply (ph_busy _ _ _ ys); cbn [touch ctl tr]; rewrite ?Hs, ?Hw; try done. by apply touch_resting.
  - apply ph_closing; cbn [touch ctl tr]; rewrite ?Hs, ?Hw; try done. by apply closing_touch.
  - apply ph_closed; cbn [touch ctl tr]; rewrite ?Hs, ?Hw; try done. destruct S4 as [Hq Hws Hb Hft Hl Hav Hto].
    destruct (touch_queue z m c Ha Hq) as (Hq' & _ & Ed). constructor; try done. by rewrite Ed.
Qed.

Lemma pending_fits z all ys done : core W A R hdr z all ys done -> 0 <= pending (wr (tr z)) <= 4 * lit_bufsize (tr z).
Proof.
  intros Hc. pose proof (bi_shape _ _ (co_block _ _ _ _ _ _ _ _ Hc)) as [_ _ _ _ _ _ _ [Hw _ _ _ _] Hsz _ _]. by rewrite <- Hsz.
Qed.

Lemma ended_fits z all : ended W A R hdr z all -> 0 <= pending (wr (tr z)) <= 4 * lit_bufsize (tr z).
Proof. intros He. pose proof (bi_shape _ _ (en_block _ _ _ _ _ _ He)) as [_ _ _ _ _ _ _ [Hw _ _ _ _] Hsz _ _]. by rewrite <- Hsz. Qed.

(** ** [write_blocks] *)

Definition blocks_post (w0 flush : Z) (all : list Z) (z : zs) (o : outcome) : Prop :=
  match o with
  | Done z' r => r = Z_OK /\ phase w0 z' all /\ kept z z' /\ (flush = Z_FINISH -> work z' < work z) /\
      (avail_out (strm z') = 0 \/ (flush = Z_NO_FLUSH /\ avail_in (strm z') = 0 /\ pending (wr (tr z')) = 0 /\ status (ctl z') = BUSY_STATE))
  | Next z' => phase w0 z' all /\ kept z z' /\ pending (wr (tr z')) = 0 /\ avail_in (strm z') = 0 /\
      (flush = Z_FINISH -> closing z' all /\ status (ctl z') = FINISH_STATE /\ wrapper (ctl z') = w0) /\
      (flush <> Z_FINISH -> status (ctl z') = BUSY_STATE)
  end.

(** [if (strm->avail_out == 0) s->last_flush = -1] *)
Lemma out_full_touch z :
  with_ctl z (fun c => if avail_out (strm z) =? 0 then set_last_flush c (-1) else c) =
  touch z (msg (strm z)) (if avail_out (strm z) =? 0 then set_last_flush (ctl z) (-1) else ctl z).
Proof. apply (touch_ctl z). Qed.

Lemma agrees_flush z (b : bool) v : let c := if b then set_last_flush (ctl z) v else ctl z in agrees z c /\ status c = status (ctl z).
Proof. by destruct b. Qed.

Lemma blocks_spec w0 z all ys flush :
  status (ctl z) = BUSY_STATE -> wrapper (ctl z) = w0 -> 0 <= w0 <= 2 -> level (tr z) <= 9 -> resting W A R hdr z all ys -> pending (wr (tr z)) = 0 ->
  exists o, write_blocks W C z flush = Some o /\ blocks_post w0 flush all z o.
Proof.
  intros Hst Hw Hw0 H9 Hr Hp. pose proof (re_core _ _ _ _ _ _ _ Hr) as Hc0. unfold write_blocks.
  destruct (negb (avail_in (strm z) =? 0) || negb (lookahead (win z) =? 0) || (negb (flush =? Z_NO_FLUSH) && negb (status (ctl z) =? FINISH_STATE))) eqn:Ec.
  2:{ apply orb_false_iff in Ec as [[E1%negb_false_iff%Z.eqb_eq E2%negb_false_iff%Z.eqb_eq]%orb_false_iff E3].
      rewrite Hst in E3. change (BUSY_STATE =? FINISH_STATE) with false in E3. cbn [negb] in E3. rewrite andb_true_r in E3. apply negb_false_iff, Z.eqb_eq in E3.
      eexists. split; [reflexivity|]. cbn [blocks_post]. split; [by apply (ph_busy _ _ _ ys)|]. split; [apply kept_same, same_refl|].
      split; [done|]. split; [done|]. split; [|done]. rewrite E3. intros [=]. }
  clear Ec. pose proof (resting_good W A R hdr _ _ _ Hr Hp) as Hg.
  destruct (compress_spec W C A R hdr HW z all ys flush Hg Hp H9) as (z' & b & -> & Hs & Hf). cbn [mbind option_bind].
  pose proof Hs as [Ss Sl Sb Sc _ _ _ _]. pose proof (kept_same _ _ Hs) as Hk.
  assert (Est : status (ctl z') = BUSY_STATE) by (by rewrite Sc). assert (Ewr : wrapper (ctl z') = w0) by (by rewrite Sc).
  assert (Hl0 : 0 <= left_of z) by (apply (left_nonneg W A R z all), Hc0).
  (* a state that goes on *)
  assert (Hbusy : forall z1 ys1, resting W A R hdr z1 all ys1 -> ctl z1 = set_pending_out (ctl z) (pending_out (ctl z1)) -> level (tr z1) = level (tr z) ->
    phase w0 z1 all /\ status (ctl z1) = BUSY_STATE).
  { intros z1 ys1 Hr1 Ec1 El1. assert (E : status (ctl z1) = BUSY_STATE) by (by rewrite Ec1). split; [|done].
    apply (ph_busy _ _ _ ys1); try done; [by rewrite Ec1|by rewrite El1]. }
  destruct b; cbn [func_post] in Hf.
  - (* need_more *)
    destruct Hf as [[(ys' & Hg') Hstop] Hlt]. pose proof (good_resting W A R hdr _ _ _ Hg') as Hr'.
    destruct (Hbusy z' ys' Hr' Sc Sl) as [Hph Hb].
    eexists. split; [reflexivity|]. rewrite out_full_touch. destruct (agrees_flush z' (avail_out (strm z') =? 0) (-1)) as [Ha Es].
    set (c := if avail_out (strm z') =? 0 then _ else _) in *. cbn [blocks_post]. split; [done|]. split; [by apply phase_touch|].
    split; [by eapply kept_trans, kept_touch|]. split.
    + intros Efin. specialize (Hlt Efin). unfold work. cbn [touch ctl tr]. rewrite Es, Hb, Hst, Hp, Sb. cbn [Z.eqb]. rewrite Z.eqb_refl.
      change (left_of (touch z' (msg (strm z')) c)) with (left_of z').
      pose proof (pending_fits _ _ _ _ (re_core _ _ _ _ _ _ _ Hr')) as Hpf. rewrite Sb in Hpf.
      pose proof (co_bufsize _ _ _ _ _ _ _ _ Hc0). nia.
    + cbn [touch strm set_msg avail_out avail_in tr ctl]. destruct Hstop as [|(? & ? & ?)]; [by left|right]. by rewrite Es.
  - (* block_done *)
    destruct Hf as (Hg' & Hma & [D1 D2 D3 D4] & Hn1 & Hn2).
    destruct (flush_marker_spec W A R hdr z' all flush Hg' Hma D1 D3) as (z2 & -> & Hr2 & Hs2 & Hl2 & Hma2). cbn [mbind option_bind].
    destruct (flush_resting W A R hdr z2 all Hr2) as (z3 & -> & D & Hr3 & Hav). cbn [mbind option_bind].
    pose proof (same_trans _ _ _ Hs (same_trans _ _ _ Hs2 (same_drained W _ _ D))) as Hs3. pose proof Hs3 as [_ Sl3 _ Sc3 _ _ Sa3 _].
    destruct (Hbusy z3 [] Hr3 Sc3 Sl3) as [Hph Hb]. eexists. split; [reflexivity|].
    destruct (Z.eqb_spec (avail_out (strm z3)) 0) as [E0|E0]; cbn [blocks_post].
    + rewrite touch_ctl. split; [done|]. split; [by apply phase_touch|].
      split; [eapply kept_trans; [by apply kept_same|apply kept_touch]|]. split; [done|by left].
    + split; [done|]. split; [by apply kept_same|]. split; [destruct (decide (pending (wr (tr z3)) = 0)); [done|by destruct (E0 (Hav ltac:(done)))]|].
      split; [|by split]. pose proof (same_trans _ _ _ Hs2 (same_drained W _ _ D)) as [_ _ _ _ _ _ Ha _].
      pose proof (fd_in _ _ _ _ _ (co_fed _ _ _ _ _ _ _ _ (re_core _ _ _ _ _ _ _ Hr3))) as [[? _] _ _ _]. lia.
  - (* finish_started *)
    destruct Hf as (Efin & He & Hl & Ha0 & Hao). eexists. split; [reflexivity|].
    rewrite !touch_ctl. set (c1 := set_status (ctl z') FINISH_STATE). cbn [touch strm set_msg avail_out]. rewrite Hao. cbn [Z.eqb].
    set (z1 := touch z' (msg (strm z')) c1).
    assert (Hcl : closing z1 all) by (apply closing_touch; by constructor).
    change (msg (strm z1)) with (msg (strm z')). change (ctl z1) with c1.
    assert (Hcl2 : closing (touch z1 (msg (strm z')) (set_last_flush c1 (-1))) all) by (by apply closing_touch).
    cbn [blocks_post]. split; [done|]. split; [by apply ph_closing|]. split; [by eapply kept_trans; [|eapply kept_trans; apply kept_touch]|].
    split; [|left; exact Hao]. intros _. unfold work. cbn [z1 touch ctl tr set_last_flush c1 set_status status wrapper]. rewrite Hst, Hp, Ewr, Sb.
    change (FINISH_STATE =? BUSY_STATE) with false. rewrite Z.eqb_refl. cbn [Z.eqb].
    pose proof (ended_fits _ _ He) as Hpf. rewrite Sb in Hpf. pose proof (co_bufsize _ _ _ _ _ _ _ _ Hc0). destruct (Z.gtb_spec w0 0); nia.
  - (* finish_done *)
    destruct Hf as (Efin & He & Hl & Ha0 & Hp0). eexists. split; [reflexivity|]. rewrite touch_ctl.
    set (c1 := set_status (ctl z') FINISH_STATE).
    assert (Hcl : closing (touch z' (msg (strm z')) c1) all) by (apply closing_touch; by constructor).
    cbn [blocks_post]. split; [by apply ph_closing|]. split; [by eapply kept_trans, kept_touch|]. split; [done|]. split; [done|]. by split.
Qed.

(** ** [deflate] *)

(** The header is behind. *)
Lemma write_header_done z : status (ctl z) = BUSY_STATE \/ status (ctl z) = FINISH_STATE -> write_header W C z = Some (Next z).
Proof.
  intros E. assert (Hs : forall st part, (BUSY_STATE =? st) = false -> (FINISH_STATE =? st) = false -> in_state st part (Next z) = Some (Next z)).
  { intros st part H1 H2. unfold in_state. destruct E as [-> | ->]; by rewrite ?H1, ?H2. }
  assert (Ei : (status (ctl z) =? INIT_STATE) && (wrapper (ctl z) =? 0) = false) by (by destruct E as [-> | ->]).
  unfold write_header. rewrite Ei. cbn zeta. rewrite !Hs by done. cbn [mbind option_bind].
  repeat (rewrite Hs by done; cbn [mbind option_bind]). done.
Qed.

Lemma status_ok z : status (ctl z) = BUSY_STATE \/ status (ctl z) = FINISH_STATE -> deflateStateCheck z = false.
Proof. intros [E|E]; unfold deflateStateCheck; by rewrite E. Qed.

Lemma phase_status w0 z all : phase w0 z all -> status (ctl z) = BUSY_STATE \/ status (ctl z) = FINISH_STATE.
Proof. intros [? E|E|E]; auto. Qed.

(** The result of a call, from the state [z] to [z'], where [n] bounds the work that was left. *)
Inductive answer (w0 flush : Z) (all : list Z) (n : Z) (z z' : zs) : Z -> Prop :=
| an_end : flush = Z_FINISH -> pending (wr (tr z')) = 0 -> wraps w0 (out_bytes (strm z')) all -> out_ok W (strm z') ->
    status (ctl z') = FINISH_STATE /\ wrapper (ctl z') <= 0 -> answer w0 flush all n z z' Z_STREAM_END
| an_full : avail_out (strm z') = 0 -> (flush = Z_FINISH -> work z' < n) -> answer w0 flush all n z z' Z_OK
| an_empty : flush <> Z_FINISH -> avail_in (strm z') = 0 -> pending (wr (tr z')) = 0 -> status (ctl z') = BUSY_STATE -> answer w0 flush all n z z' Z_OK
| an_idle : avail_out (strm z) = 0 \/ (flush <> Z_FINISH /\ avail_in (strm z) = 0 /\ pending (wr (tr z)) = 0) -> answer w0 flush all n z z' Z_BUF_ERROR
| an_late : flush <> Z_FINISH -> status (ctl z) = FINISH_STATE -> answer w0 flush all n z z' Z_STREAM_ERROR.

Lemma queue_empty_bytes z : queue_ok z -> pending (wr (tr z)) = 0 -> delivered z = out_bytes (strm z).
Proof. intros Hq Hp. pose proof (length_queued z Hq) as Hl. unfold delivered. destruct (queued z); [by rewrite app_nil_r|cbn in Hl; lia]. Qed.

(** The end of the call, once the queue is empty and no block can be written. *)
Lemma finish_call w0 n z0 z all flush :
  0 <= w0 <= 2 -> phase w0 z all -> pending (wr (tr z)) = 0 -> avail_in (strm z) = 0 ->
  (flush = Z_FINISH -> status (ctl z) = FINISH_STATE) -> (flush <> Z_FINISH -> status (ctl z) = BUSY_STATE) ->
  kept z0 z -> (work z <= n \/ flush <> Z_FINISH) ->
  exists z' r, (if negb (flush =? Z_FINISH) then Some (z, Z_OK) else if wrapper (ctl z) <=? 0 then Some (z, Z_STREAM_END) else write_trailer W z) = Some (z', r) /\
    phase w0 z' all /\ kept z0 z' /\ answer w0 flush all n z0 z' r.
Proof.
  intros Hw0 Hph Hp Ha Hf Hn Hk Hwk. destruct (Z.eqb_spec flush Z_FINISH) as [E|E]; cbn [negb].
  2:{ exists z, Z_OK. split; [done|]. split; [done|]. split; [done|]. apply an_empty; auto. }
  specialize (Hf E). pose proof (phase_queue _ _ _ Hph) as [Hq Hv].
  destruct Hph as [ys S1 _ _ _|S1 S2 Hcl|S1 S2 S3 Hcd]; [by rewrite S1 in Hf| |].
  - destruct (Z.leb_spec (wrapper (ctl z)) 0) as [H0|H0].
    + exists z, Z_STREAM_END. split; [done|]. split; [by apply ph_closing|]. split; [done|]. apply an_end; [done|done| |by destruct (en_sum _ _ _ _ _ _ (cl_ended _ _ Hcl)) as (_ & _ & _ & ?)|done].
      assert (E0 : w0 = 0) by lia. destruct (ended_bytes z all (cl_ended _ _ Hcl)) as (body & k & Ed & Hs & Hkk).
      exists body, k. split; [|done]. rewrite <- (queue_empty_bytes z Hq Hp), Ed, E0. cbn [trailer Z.eqb]. by rewrite app_nil_r.
    + destruct (write_trailer_spec z all Hcl Hp ltac:(lia)) as (z' & r & -> & Hcd & Hwr & Hst & Hav & -> & Hk').
      rewrite S2 in Hcd, Hwr. do 2 eexists. split; [reflexivity|]. split; [apply ph_closed; try done; [by rewrite Hst|lia]|].
      split; [by eapply kept_trans|]. destruct (Z.eqb_spec (pending (wr (tr z'))) 0) as [E0|E0].
      * destruct Hcd as [Hq' Hws _ _ _ _ Hto]. apply an_end; [done|done| |done|rewrite Hst, Hwr; lia]. by rewrite <- (queue_empty_bytes z' Hq' E0).
      * apply an_full; [by apply Hav|]. intros _. destruct Hwk as [Hwk|]; [|done]. eapply Z.lt_le_trans; [|exact Hwk].
        unfold work. rewrite Hst, S1, Hwr, S2, Hp, (kp_bufsize _ _ Hk'). change (FINISH_STATE =? BUSY_STATE) with false.
        pose proof (cd_size _ _ _ Hcd) as Hft. rewrite (kp_bufsize _ _ Hk') in Hft.
        pose proof (wo_pending _ (qo_writer _ (cd_queue _ _ _ Hcd))). pose proof (en_bufsize _ _ _ _ _ _ (cl_ended _ _ Hcl)).
        destruct (Z.gtb_spec (- w0) 0), (Z.gtb_spec w0 0); lia.
  - destruct (Z.leb_spec (wrapper (ctl z)) 0) as [H0|]; [|lia].
    exists z, Z_STREAM_END. split; [done|]. split; [by apply ph_closed|]. split; [done|]. destruct Hcd as [_ Hws _ _ _ _ Hto].
    apply an_end; [done|done| |done|done]. by rewrite <- (queue_empty_bytes z Hq Hp).
Qed.

(** The bytes that wait leave first. *)
Lemma flush_phase w0 z all :
  phase w0 z all -> pending (wr (tr z)) <> 0 ->
  exists z', flush_pending W z = Some z' /\ phase w0 z' all /\ kept z z' /\ status (ctl z') = status (ctl z) /\
    (pending (wr (tr z')) <> 0 -> avail_out (strm z') = 0) /\ avail_in (strm z') = avail_in (strm z) /\
    work z' = work z - (avail_out (strm z) - avail_out (strm z')) /\ pending (wr (tr z')) = pending (wr (tr z)) - (avail_out (strm z) - avail_out (strm z')).
Proof.
  intros Hph Hp. pose proof (phase_queue _ _ _ Hph) as [Hq Hv].
  destruct (flush_pending_spec W z Hq) as (z' & E & Hq' & D & Hv' & Hav & Hvle). exists z'. split; [done|].
  destruct (drained_length W z z' Hq Hq' Hv Hv' D) as [Ed Eq]. rewrite !length_queued in Eq by done.
  pose proof D as [Dw Dd Dl (w & Dt) Dsz Dc (D1 & D2 & D3 & D4 & D5 & _ & D6) Dn Dtot].
  assert (Ewr : wrapper (ctl z') = wrapper (ctl z)) by (by rewrite Dc). assert (Est : status (ctl z') = status (ctl z)) by (by rewrite Dc).
  assert (Hsum : forall l, sum_ok W A R (wrapper (ctl z)) (strm z) l -> sum_ok W A R (wrapper (ctl z')) (strm z') l).
  { intros l (? & ? & ? & ?). rewrite Ewr. unfold sum_ok. rewrite D4, D5. split_and!; auto. }
  split; [|split; [by apply kept_same, (same_drained W)|split; [done|split; [done|split; [done|split]]]]].
  - destruct Hph as [ys S1 S2 S3 S4|S1 S2 [He Hl Ha]|S1 S2 S3 [_ Hws Hb Hft Hl Ha Hto]].
    + assert (ys = []) as -> by (by apply (re_wait _ _ _ _ _ _ _ S4)).
      destruct (flush_resting W A R hdr z all S4) as (z2 & E2 & _ & Hr2 & _). rewrite E in E2. injection E2 as <-.
      apply (ph_busy _ _ _ []); [by rewrite Est|by rewrite Ewr|by rewrite Dt|done].
    + apply ph_closing; [by rewrite Est|by rewrite Ewr|]. constructor; [|by rewrite Dw|by rewrite D3].
      destruct He as [_ Hi Hs Hb Hsm Hbs]. constructor; try done.
      * by apply (drained_block W z z').
      * by rewrite Dtot.
      * pose proof (wo_valid _ (qo_writer _ Hq')). lia.
      * unfold pend. rewrite D3. by apply Hsum.
      * by rewrite Dt.
    + apply ph_closed; [by rewrite Est|done|by rewrite Ewr|]. constructor; [done|by rewrite Ed| | |by rewrite Dw|by rewrite D3|by apply D6].
      * pose proof (wo_valid _ (qo_writer _ Hq')). lia.
      * rewrite Dsz, Dt. exact Hft.
  - unfold work, left_of. rewrite Est, Ewr, Dw, D3, Eq, Dt. cbn [set_writer lit_bufsize wr].
    destruct (status (ctl z) =? BUSY_STATE); [lia|]. destruct (wrapper (ctl z) >? 0); lia.
  - exact Eq.
Qed.

(** The blocks and the end of the call, with an empty queue. *)
Lemma blocks_and_end w0 n z0 z all flush :
  0 <= w0 <= 2 -> phase w0 z all -> pending (wr (tr z)) = 0 -> (status (ctl z) = FINISH_STATE -> flush = Z_FINISH) -> kept z0 z ->
  (work z <= n \/ flush <> Z_FINISH) ->
  exists z' r, (o ← write_blocks W C z flush;
          match o with
          | Done z r => Some (z, r)
          | Next z =>
              if negb (flush =? Z_FINISH) then Some (z, Z_OK)
              else if wrapper (ctl z) <=? 0 then Some (z, Z_STREAM_END)
              else write_trailer W z
          end) = Some (z', r) /\ phase w0 z' all /\ kept z0 z' /\ answer w0 flush all n z0 z' r.
Proof.
  intros Hw0 Hph Hp Hfin Hk Hwk.
  assert (Hover : status (ctl z) = FINISH_STATE -> lookahead (win z) = 0 -> avail_in (strm z) = 0 -> write_blocks W C z flush = Some (Next z)).
  { intros Est Hl Ha. unfold write_blocks. rewrite Est, Hl, Ha. cbn [Z.eqb negb andb orb]. rewrite Z.eqb_refl. cbn [negb]. by rewrite !andb_false_r. }
  pose proof Hph as [ys S1 S2 S3 S4|S1 S2 [He Hl Ha]|S1 S2 S3 [Hq Hws Hb Hsz Hl Ha _]].
  2,3: rewrite (Hover S1 Hl Ha); cbn [mbind option_bind]; apply finish_call; try done; by intros Hn; destruct (Hn (Hfin S1)).
  destruct (blocks_spec w0 z all ys flush S1 S2 Hw0 S3 S4 Hp) as (o & -> & Ho). cbn [mbind option_bind]. destruct o as [z'|z' r]; cbn [blocks_post] in Ho.
  - destruct Ho as (Hph' & Hk' & Hp' & Ha' & Hcl & Hbs). apply finish_call; try done.
    + intros E. by apply (Hcl E).
    + by eapply kept_trans.
    + destruct (decide (flush = Z_FINISH)) as [E|E]; [left|by right]. destruct (Hcl E) as (_ & E1 & E2).
      assert (Hl0 : 0 <= left_of z) by (apply (left_nonneg W A R z all), (re_core _ _ _ _ _ _ _ S4)).
      pose proof (co_bufsize _ _ _ _ _ _ _ _ (re_core _ _ _ _ _ _ _ S4)). destruct Hwk as [Hwk|]; [|done]. etransitivity; [|exact Hwk].
      unfold work. rewrite E1, S1, Hp, Hp', (kp_bufsize _ _ Hk'). change (FINISH_STATE =? BUSY_STATE) with false. rewrite Z.eqb_refl.
      destruct (wrapper (ctl z') >? 0); nia.
  - destruct Ho as (-> & Hph' & Hk' & Hw' & Hao). do 2 eexists. split; [reflexivity|]. split; [done|]. split; [by eapply kept_trans|].
    destruct Hao as [Hao|(E1 & E2 & E3 & E4)].
    + apply an_full; [done|]. intros E. specialize (Hw' E). destruct Hwk as [Hwk|]; [lia|done].
    + apply an_empty; try done. by rewrite E1.
Qed.

(** The call after its checks, with an empty queue. *)
Lemma go_on w0 n z0 z all flush :
  0 <= w0 <= 2 -> phase w0 z all -> pending (wr (tr z)) = 0 -> (status (ctl z) = FINISH_STATE -> flush = Z_FINISH) -> kept z0 z -> work z <= n ->
  exists z' r, (if (status (ctl z) =? FINISH_STATE) && negb (avail_in (strm z) =? 0) then Some (err_return z Z_BUF_ERROR)
        else
          o ← write_header W C z;
          match o with
          | Done z r => Some (z, r)
          | Next z =>
              o ← write_blocks W C z flush;
              match o with
              | Done z r => Some (z, r)
              | Next z =>
                  if negb (flush =? Z_FINISH) then Some (z, Z_OK)
                  else if wrapper (ctl z) <=? 0 then Some (z, Z_STREAM_END)
                  else write_trailer W z
              end
          end) = Some (z', r) /\ phase w0 z' all /\ kept z0 z' /\ answer w0 flush all n z0 z' r.
Proof.
  intros Hw0 Hph Hp Hfin Hk Hwk. rewrite (write_header_done z (phase_status _ _ _ Hph)). cbn [mbind option_bind].
  assert (E : (status (ctl z) =? FINISH_STATE) && negb (avail_in (strm z) =? 0) = false).
  { destruct Hph as [ys S1 _ _ _|_ _ [_ _ Ha]|_ _ _ [_ _ _ _ _ Ha]]; [by rewrite S1|by rewrite Ha, andb_false_r..]. }
  rewrite E. apply blocks_and_end; try done. by left.
Qed.

Theorem deflate_step w0 z all flush :
  0 <= w0 <= 2 -> phase w0 z all -> 0 <= flush <= Z_BLOCK ->
  exists z' r, deflate W C false false z flush = Some (z', r) /\ phase w0 z' all /\ kept z z' /\ answer w0 flush all (work z) z z' r.
Proof.
  intros Hw0 Hph Hfl. pose proof (phase_status _ _ _ Hph) as Hst. unfold deflate. rewrite (status_ok z Hst).
  destruct (Z.gtb_spec flush Z_BLOCK); [lia|]. destruct (Z.ltb_spec flush 0); [lia|]. cbn [orb andb]. rewrite andb_false_r. cbn [orb].
  assert (Herr : forall z1 e, phase w0 z1 all -> kept z z1 -> (forall m c, answer w0 flush all (work z) z (touch z1 m c) e) ->
    exists z' r, Some (err_return z1 e) = Some (z', r) /\ phase w0 z' all /\ kept z z' /\ answer w0 flush all (work z) z z' r).
  { intros z1 e H1 H2 H4. rewrite touch_err. do 2 eexists. split; [reflexivity|]. split; [by apply phase_touch|].
    split; [by eapply kept_trans, kept_touch|]. apply H4. }
  pose proof (kept_same _ _ (same_refl z)) as Hk0.
  destruct ((status (ctl z) =? FINISH_STATE) && negb (flush =? Z_FINISH)) eqn:Elate.
  { apply andb_true_iff in Elate as [E1%Z.eqb_eq E2%negb_true_iff%Z.eqb_neq]. apply Herr; [done|done|]. intros. by apply an_late. }
  assert (Hfin : status (ctl z) = FINISH_STATE -> flush = Z_FINISH).
  { intros E. rewrite E in Elate. rewrite Z.eqb_refl in Elate. by apply negb_false_iff, Z.eqb_eq in Elate. }
  clear Elate. destruct (Z.eqb_spec (avail_out (strm z)) 0) as [E0|E0].
  { apply Herr; [done|done|]. intros. apply an_idle. by left. }
  rewrite touch_ctl. set (z1 := touch z (msg (strm z)) (set_last_flush (ctl z) flush)).
  assert (Hph1 : phase w0 z1 all) by (by apply phase_touch). assert (Hk1 : kept z z1) by (apply kept_touch).
  assert (Hw1 : work z1 = work z) by done. change (wr (tr z1)) with (wr (tr z)). change (avail_in (strm z1)) with (avail_in (strm z)).
  destruct (Z.eqb_spec (pending (wr (tr z))) 0) as [Ep|Ep]; cbn [negb].
  - destruct ((avail_in (strm z) =? 0) && (RANK flush <=? RANK (last_flush (ctl z))) && negb (flush =? Z_FINISH)) eqn:Ei.
    + apply andb_true_iff in Ei as [[E1%Z.eqb_eq _]%andb_true_iff E3%negb_true_iff%Z.eqb_neq]. cbn [mbind option_bind].
      apply (Herr z1); [done|done|]. intros. apply an_idle. by right.
    + cbn [mbind option_bind]. apply (go_on w0 (work z) z z1); try done.
  - destruct (flush_phase w0 z1 all Hph1 Ep) as (z2 & -> & Hph2 & Hk2 & Hs2 & Hav & Ha2 & Hw2 & Hp2). cbn [mbind option_bind].
    destruct (Z.eqb_spec (avail_out (strm z2)) 0) as [E2|E2].
    + rewrite touch_ctl. do 2 eexists. split; [reflexivity|]. split; [by apply phase_touch|]. split; [eapply kept_trans; [exact Hk1|by eapply kept_trans, kept_touch]|].
      apply an_full; [done|]. intros _. change (work (touch z2 (msg (strm z2)) (set_last_flush (ctl z2) (-1)))) with (work z2).
      pose proof (qo_avail _ (proj1 (phase_queue _ _ _ Hph))). change (avail_out (strm z1)) with (avail_out (strm z)) in Hw2. lia.
    + assert (Hp0 : pending (wr (tr z2)) = 0) by (destruct (decide (pending (wr (tr z2)) = 0)); [done|by destruct (E2 (Hav ltac:(done)))]).
      apply (go_on w0 (work z) z z2); try done.
      * intros E. apply Hfin. by rewrite <- Hs2 in E || (rewrite Hs2 in E; exact E).
      * by eapply kept_trans.
      * pose proof (wo_pending _ (qo_writer _ (proj1 (phase_queue _ _ _ Hph)))). change (wr (tr z1)) with (wr (tr z)) in Hp2. lia.
Qed.
End Phase.
