(* ===== verification/LzHeader.v ===== *)
(** * The first call of deflate(): the header

    A stream that [deflateInit2_] has set up is [fresh]: the first call writes
    the header, and goes on as every other call does. *)
From stdpp Require Import base numbers list.
From Stdlib Require Import ZArith Lia Bool.
From S2P Require Import Prelude Huffman Deflate Trees TreesTables TreesWriter TreesState TreesSend TreesSyms TreesCompress.
From S2P Require Import TreesTally TreesCost TreesBlock TreesSession LzState LzWindow LzMatch LzStored LzCall.
From S2P Require Import LzFacts LzHash LzFill LzSearch LzOut LzCore LzTurn LzLoop LzRle LzFast LzSlow LzDeflate LzPhase.

(** The bytes of the header: [w0] tells raw deflate, zlib and gzip. *)
Definition header (w0 : Z) (z : zs) : list Z :=
  if w0 =? 0 then [] else if w0 =? 1 then msb16 (zlib_header z) else [31; 139; 8; 0; 0; 0; 0; 0; xfl (tr z); OS_CODE].

Lemma header_bytes w0 z : Forall is_byte (header w0 z).
Proof.
  unfold header. destruct (_ =? 0); [constructor|]. destruct (_ =? 1); [apply msb16_bytes|].
  assert (Hx : is_byte (xfl (tr z))) by (unfold xfl; repeat case_match; done). by repeat (apply Forall_cons_2; [done|]).
Qed.

Lemma header_length w0 z : (length (header w0 z) <= 10)%nat.
Proof. unfold header. destruct (_ =? 0); [cbn; lia|]. destruct (_ =? 1); cbn; lia. Qed.

Section Header.
Context (W : Z) (C : checksums) (A R : list Z -> Z) `{!Sums C A R} (HW : 17 <= W).

Record fresh (w0 : Z) (z : zs) (all : list Z) : Prop := {
  fr_core : core W A R [] z all [] 0;
  fr_own : own_of z all;
  fr_idle : match_available (lm z) = 0;
  fr_out : out_bytes (strm z) = [];
  fr_pending : pending (wr (tr z)) = 0;
  fr_bits : bi_valid (wr (tr z)) = 0;
  fr_start : strstart (win z) = 0;
  fr_avail : avail_in (strm z) = Z.of_nat (length all);
  fr_level : level (tr z) <= 9;
  fr_wrap : wrapper (ctl z) = w0;
  fr_status : status (ctl z) = if w0 =? 2 then GZIP_STATE else INIT_STATE;
  fr_gzhead : gzhead (ctl z) = None }.

(** The state once the header is in the queue. *)
Lemma header_core w0 z all w s c :
  fresh w0 z all -> let hdr := header w0 z in emits (wr (tr z)) w (bytes_bits hdr) -> bi_valid w = 0 ->
  in_buf s = in_buf (strm z) -> next_in s = next_in (strm z) -> avail_in s = avail_in (strm z) -> out_bytes s = out_bytes (strm z) ->
  avail_out s = avail_out (strm z) -> total_in s = total_in (strm z) -> total_out s = total_out (strm z) -> (wrapper c = 1 -> adler s = 1) -> (wrapper c = 2 -> adler s = 0) ->
  pending_out c = pending_out (ctl z) ->
  resting W A R hdr (ZS s (win z) (dict z) (lm z) (set_writer (tr z) w) c) all [].
Proof.
  intros [Hc Ho Hi Hout Hp Hb Hst Hav Hl _ _ _] hdr M Hv E1 E2 E3 E4 E5 E6 E7 Ea Er Epo. pose proof (header_length w0 z) as Hlen. fold hdr in Hlen.
  pose proof Hc as [H1 [[I1 I2 I3 I4] Iw Ih (S1 & S2 & S3 & S4)] H3 H4 Hq (bs & Et & Hfr) H7 H8 H9 H10 H11].
  destruct (pending_total z Hq Hp) as (Etot & Hnb & Hpo). set (z1 := ZS _ _ _ _ _ _).
  assert (Epe : pend z1 all = pend z all) by (unfold pend; cbn; by rewrite E3).
  assert (Ep0 : pend z all = 0) by (unfold pend; lia).
  assert (Ela : lookahead (win z) = 0) by (destruct Iw; lia).
  assert (Eh : here z1 all = 0) by (unfold here; rewrite Epe, Ep0; cbn; lia).
  assert (Hbp : block_pos z1 all = block_pos z all) by (unfold block_pos, base_of, here; by rewrite Epe).
  cbn [map expand] in H4. injection H4 as H4. change (upto all 0) with (@nil Z) in H4.
  pose proof M as [Ow Es En Ez _].
  assert (Hq1 : queue_ok z1).
  { constructor; cbn [z1 ctl tr set_writer wr strm]; rewrite ?Epo, ?Hpo, ?E5; try done; [destruct Ow; lia| |apply (qo_avail _ Hq)].
    unfold delivered, queued. cbn [z1 ctl tr set_writer wr strm]. rewrite Epo, Hpo, drop_0, E4, Hout. apply Ow. }
  assert (Ecov : covered z1 all = 0) by (unfold covered; rewrite Eh; cbn; lia).
  constructor; [|by apply (own_of_idle z)|cbn; lia|done]. rewrite Ecov.
  constructor; rewrite ?Hbp; try done.
  - constructor; rewrite ?Epe; try done.
    + constructor; cbn [z1 strm]; rewrite ?E1, ?E2, ?E3; done.
    + rewrite Ep0. change (upto all 0) with (@nil Z). cbn [z1 ctl strm]. split; [|split; [|split]].
      * intros Hw. rewrite (Ea Hw). symmetry. apply sum_adler_nil.
      * intros Hw. rewrite (Er Hw). symmetry. apply sum_crc_nil.
      * rewrite E6, S3, Ep0. done.
      * unfold out_ok in *. by rewrite E7, S4, E4.
  - apply block_inv_writer with (bytes_bits hdr); [done|done|]. rewrite length_bytes_bits. lia.
  - cbn [map expand]. by rewrite H4.
  - exists []. rewrite H4. split; [|apply front_nil].
    rewrite total_sent by (cbn; by rewrite Epo). cbn [z1 strm tr set_writer wr]. rewrite E4, Hout, Es, app_nil_r.
    unfold sent. by rewrite Hp, Hb.
  - cbn. lia.
Qed.

(** Without a header, and before the status changes. *)
Lemma header_start_raw z all : fresh 0 z all -> resting W A R [] z all [].
Proof.
  intros Hf. pose proof Hf as [Hc Ho Hi _ Hp Hb Hst Hav _ Hwr _ _]. pose proof (co_fed _ _ _ _ _ _ _ _ Hc) as [[I1 _ _ _] Iw _ _].
  pose proof (co_bufsize _ _ _ _ _ _ _ _ Hc) as Hbs. constructor; try done; [|cbn; lia].
  assert (E : covered z all = 0); [|by rewrite E]. unfold covered, here, pend. rewrite Hi. destruct Iw. unfold pend in *. lia.
Qed.

(** What is left to do after the header. *)
Definition header_work (z : zs) : Z := (left_of z + 3) * (4 * lit_bufsize (tr z) + 1).

Definition header_post (w0 : Z) (hdr all : list Z) (z : zs) (o : outcome) : Prop :=
  match o with
  | Next z' => phase W A R hdr w0 z' all /\ kept z z' /\ status (ctl z') = BUSY_STATE /\ pending (wr (tr z')) = 0 /\ work z' <= header_work z
  | Done z' r => phase W A R hdr w0 z' all /\ kept z z' /\ r = Z_OK /\ avail_out (strm z') = 0 /\ work z' < header_work z
  end.

Lemma busy_work z hdr all ys : resting W A R hdr z all ys -> status (ctl z) = BUSY_STATE -> work z < header_work z.
Proof.
  intros Hr E. unfold work, header_work. rewrite E, Z.eqb_refl.
  pose proof (pending_fits W A R hdr _ _ _ _ (re_core _ _ _ _ _ _ _ Hr)). nia.
Qed.

(** Bytes in the queue, then the flush. *)
Lemma flush_header w0 hdr z z1 all :
  resting W A R hdr z1 all [] -> status (ctl z1) = BUSY_STATE -> wrapper (ctl z1) = w0 -> level (tr z1) <= 9 -> kept z z1 -> header_work z1 = header_work z ->
  exists o, flush_or_return W z1 (fun z => Some (Next z)) = Some o /\ header_post w0 hdr all z o.
Proof.
  intros Hr E1 E2 E3 Hk Hw. unfold flush_or_return. destruct (flush_resting W A R hdr z1 all Hr) as (z2 & -> & D & Hr2 & Hav). cbn [mbind option_bind].
  pose proof (same_drained W _ _ D) as Hs. pose proof Hs as [_ Sl Sb Sc _ _ Sa _].
  assert (Hst : status (ctl z2) = BUSY_STATE) by (by rewrite Sc). assert (Hwr : wrapper (ctl z2) = w0) by (by rewrite Sc).
  assert (Hph : phase W A R hdr w0 z2 all) by (apply (ph_busy _ _ _ _ _ _ _ []); try done; by rewrite Sl).
  assert (Hk2 : kept z z2) by (by eapply kept_trans, kept_same).
  assert (Hw2 : work z2 < header_work z).
  { pose proof (busy_work z2 hdr all [] Hr2 Hst) as Hlt. rewrite <- Hw. replace (header_work z1) with (header_work z2); [done|].
    unfold header_work, left_of. pose proof D as [-> _ _ (w & ->) _ _ (_ & _ & -> & _) _ _]. done. }
  destruct (Z.eqb_spec (pending (wr (tr z2))) 0) as [E0|E0]; cbn [negb]; (eexists; split; [reflexivity|]); cbn [header_post].
  - split_and!; try done. lia.
  - rewrite touch_ctl. split; [by apply phase_touch|]. split; [by eapply kept_trans, kept_touch|]. split; [done|]. split; [by apply Hav|].
    exact Hw2.
Qed.

Lemma in_state_skip st part o : match o with Next z => status (ctl z) <> st | Done _ _ => True end -> in_state st part o = Some o.
Proof. destruct o as [z|z r]; [|done]. intros H. unfold in_state. by destruct (Z.eqb_spec (status (ctl z)) st). Qed.

Lemma in_state_enter st part z : status (ctl z) = st -> in_state st part (Next z) = part z.
Proof. intros E. unfold in_state. by rewrite E, Z.eqb_refl. Qed.

(** The parts of the header that the status passes over. *)
Ltac skip_states H := cbn [mbind option_bind]; repeat (rewrite H by done; cbn [mbind option_bind]).

Lemma header_spec w0 z all :
  0 <= w0 <= 2 -> fresh w0 z all -> exists o, write_header W C z = Some o /\ header_post w0 (header w0 z) all z o.
Proof.
  intros Hw0 Hf. pose proof Hf as [Hc Ho Hi Hout Hp Hb Hst Hav Hl Hwr Hs Hg].
  pose proof (bi_shape _ _ (co_block _ _ _ _ _ _ _ _ Hc)) as [_ _ _ _ _ _ _ Wok Wsz _ _].
  pose proof (co_bufsize _ _ _ _ _ _ _ _ Hc) as Hbs. pose proof (header_length w0 z) as Hlen.
  assert (Hskip : forall o, header_post w0 (header w0 z) all z o -> forall st part, st <> BUSY_STATE -> in_state st part o = Some o).
  { intros o Hpo st part Hst'. apply in_state_skip. destruct o; [|done]. destruct Hpo as (_ & _ & -> & _). done. }
  destruct (put_list_emits (header w0 z) (wr (tr z)) Wok Hb ltac:(lia) (header_bytes w0 z)) as (w & Ew & M & Hv).
  unfold write_header. destruct (decide (w0 = 0)) as [E0|E0]; [|destruct (decide (w0 = 1)) as [E1|E1]].
  - rewrite Hs, Hwr, E0. change ((if 0 =? 2 then GZIP_STATE else INIT_STATE) =? INIT_STATE) with true. cbn [andb Z.eqb]. cbn zeta.
    skip_states in_state_skip.
    eexists. split; [reflexivity|]. cbn [header_post].
    assert (Eh : header w0 z = []) by (by rewrite E0). rewrite Eh in Ew. injection Ew as <-.
    pose proof (header_core w0 z all (wr (tr z)) (strm z) (set_status (ctl z) BUSY_STATE) Hf M Hb) as Hr.
    destruct Hc as [_ [_ _ _ (F1 & F2 & _)] _ _ _ _ _ _ _ _ _].
    assert (Et : set_writer (tr z) (wr (tr z)) = tr z) by (by destruct (tr z)). rewrite Et in Hr.
    change (with_ctl z (fun c => set_status c BUSY_STATE)) with (ZS (strm z) (win z) (dict z) (lm z) (tr z) (set_status (ctl z) BUSY_STATE)).
    set (z1 := ZS _ _ _ _ _ _) in *.
    assert (Hr1 : resting W A R (header w0 z) z1 all []).
    { apply Hr; try done; cbn [set_status wrapper]; rewrite Hwr, E0; intros [=]. }
    split; [|split; [by constructor|split; [done|split; [done|]]]].
    + rewrite <- E0. by apply (ph_busy _ _ _ _ _ _ _ []).

    + pose proof (busy_work z1 _ _ _ Hr1 eq_refl). change (header_work z1) with (header_work z) in *. lia.
  - assert (Einit : (status (ctl z) =? INIT_STATE) && (wrapper (ctl z) =? 0) = false) by (rewrite Hwr, E1; apply andb_false_r).
    rewrite Einit. cbn zeta. rewrite (in_state_enter INIT_STATE) by (by rewrite Hs, E1).
    assert (exists o, write_zlib_header W z = Some o /\ header_post w0 (header w0 z) all z o) as (o & -> & Ho').
    { unfold write_zlib_header. rewrite putShortMSB_list.
      assert (Eh : header w0 z = msb16 (zlib_header z)) by (by rewrite E1). rewrite <- Eh, Ew. cbn [mbind option_bind].
      rewrite Hst. cbn [Z.eqb negb mbind option_bind]. apply (flush_header w0 _ z (ZS (set_adler (strm z) 1) (win z) (dict z) (lm z) (set_writer (tr z) w) (set_status (ctl z) BUSY_STATE))); try done.
      apply (header_core w0); try done. cbn [set_status wrapper]. rewrite Hwr, E1. intros [=]. }
    skip_states (Hskip _ Ho'). rewrite E1 in *. by exists o.
  - assert (E2 : w0 = 2) by lia.
    assert (Einit : (status (ctl z) =? INIT_STATE) && (wrapper (ctl z) =? 0) = false) by (rewrite Hwr, E2; apply andb_false_r).
    rewrite Einit. cbn zeta. rewrite in_state_skip by (rewrite Hs, E2; done). cbn [mbind option_bind].
    rewrite (in_state_enter GZIP_STATE) by (by rewrite Hs, E2).
    assert (exists o, gzip_start W C z = Some o /\ header_post w0 (header w0 z) all z o) as (o & -> & Ho').
    { unfold gzip_start. cbn [ctl set_strm]. rewrite Hg.
      assert (Eh : header w0 z = [31; 139; 8; 0; 0; 0; 0; 0; xfl (tr z); OS_CODE]) by (by rewrite E2).
      change (tr (set_strm z (set_adler (strm z) 0))) with (tr z). rewrite <- Eh, Ew. cbn [mbind option_bind].
      apply (flush_header w0 _ z (ZS (set_adler (strm z) 0) (win z) (dict z) (lm z) (set_writer (tr z) w) (set_status (ctl z) BUSY_STATE))); try done.
      apply (header_core w0); try done. cbn [set_status wrapper]. rewrite Hwr, E2. intros [=]. }
    skip_states (Hskip _ Ho'). rewrite E2 in *. by exists o.
Qed.

Lemma negative_flush flush : 0 <= flush <= Z_BLOCK -> (RANK flush <=? RANK (-2)) = false.
Proof. intros H. apply Z.leb_gt. change (RANK (-2)) with (-4). unfold RANK, Z_BLOCK in *. destruct (Z.gtb_spec flush 4); lia. Qed.

Lemma deflate_first w0 z all flush :
  0 <= w0 <= 2 -> fresh w0 z all -> last_flush (ctl z) = -2 -> 0 <= flush <= Z_BLOCK -> 0 < avail_out (strm z) ->
  exists z' r, deflate W C false false z flush = Some (z', r) /\ phase W A R (header w0 z) w0 z' all /\ kept z z' /\
    answer W A R (header w0 z) w0 flush all (header_work z) z z' r.
Proof.
  intros Hw0 Hf Hlast Hfl Hao. pose proof Hf as [_ _ _ _ Hp _ _ _ _ _ Hs _].
  assert (Hst : deflateStateCheck z = false /\ (status (ctl z) =? FINISH_STATE) = false).
  { unfold deflateStateCheck. rewrite Hs. by destruct (w0 =? 2). }
  destruct Hst as [Hst Hnf]. unfold deflate. rewrite Hst, Hnf.
  destruct (Z.gtb_spec flush Z_BLOCK); [lia|]. destruct (Z.ltb_spec flush 0); [lia|]. destruct (Z.eqb_spec (avail_out (strm z)) 0); [lia|].
  cbn [orb andb]. rewrite andb_false_r. cbn [orb].
  set (z1 := with_ctl z (fun c => set_last_flush c flush)). change (wr (tr z1)) with (wr (tr z)). rewrite Hp. cbn [Z.eqb negb].
  rewrite Hlast, (negative_flush flush Hfl), andb_false_r. cbn [andb mbind option_bind].
  change (status (ctl z1)) with (status (ctl z)). rewrite Hnf. cbn [andb].
  assert (Hk1 : kept z z1) by (by constructor).
  destruct (header_spec w0 z1 all Hw0) as (o & -> & Ho).
  { destruct Hf as [Hc H1 H2 H3 H4 H5 H6 H7 H8 H9 H10 H11]. unfold z1. rewrite touch_ctl. constructor; try done; [by apply touch_core|by apply (own_of_frame z)]. }
  change (header w0 z1) with (header w0 z) in Ho. change (header_work z1) with (header_work z) in Ho.
  cbn [mbind option_bind]. destruct o as [z2|z2 r]; cbn [header_post] in Ho.
  - destruct Ho as (Hph & Hk & Est & Hp2 & Hw).
    apply (blocks_and_end W C A R (header w0 z) HW (header_bytes w0 z)); try done; [by rewrite Est|by eapply kept_trans|by left].
  - destruct Ho as (Hph & Hk & -> & Ha & Hw). do 2 eexists. split; [reflexivity|]. split; [done|]. split; [by eapply kept_trans|]. by apply an_full.
Qed.
End Header.
