(* ===== verification/LzInit.v ===== *)
(** * Setting up a stream: deflateInit2_() on valid parameters

    The memory that ZALLOC returns has the right sizes and any contents; the
    state is then [fresh], whatever buffers the caller supplies next. *)
From stdpp Require Import base numbers list.
From Stdlib Require Import ZArith Lia Bool.
From S2P Require Import Prelude Huffman Deflate Trees TreesSpec TreesTables TreesWriter TreesState TreesSend TreesSyms TreesCompress.
From S2P Require Import TreesTally TreesCost TreesBlock TreesSession LzState LzWindow LzMatch LzStored LzCall.
From S2P Require Import LzFacts LzHash LzFill LzSearch LzOut LzCore LzTurn LzLoop LzRle LzFast LzSlow LzDeflate LzPhase LzHeader.

(** What [deflateInit2_] makes of its arguments. *)
Definition level_of (level : Z) : Z := if level =? Z_DEFAULT_COMPRESSION then 6 else level.
Definition wrap_of (windowBits : Z) : Z := if windowBits <? 0 then 0 else if windowBits >? 15 then 2 else 1.
Definition bits_of (windowBits : Z) : Z :=
  if windowBits <? 0 then - windowBits else if windowBits >? 15 then windowBits - 16 else windowBits.
Definition wbits_of (windowBits : Z) : Z := if bits_of windowBits =? 8 then 9 else bits_of windowBits.

Record valid_settings (level windowBits memLevel strategy : Z) : Prop := {
  va_level : 0 <= level_of level <= 9;
  va_bits : 8 <= bits_of windowBits <= 15;
  va_wrap : bits_of windowBits = 8 -> wrap_of windowBits = 1;
  va_mem : 1 <= memLevel <= MAX_MEM_LEVEL;
  va_strategy : 0 <= strategy <= Z_FIXED }.

(** The memory for a window of [2 ^ wb] bytes. *)
Record memory_ok (mem : memory) (raw : zs) (wb memLevel : Z) : Prop := {
  mo_state : m_state mem = Some raw;
  mo_l : length (dyn_ltree (tr raw)) = 573%nat;
  mo_d : length (dyn_dtree (tr raw)) = 61%nat;
  mo_b : length (bl_tree (tr raw)) = 39%nat;
  mo_huff : huff_ok (huff (tr raw));
  mo_window : exists l, m_window mem = Some l /\ Z.of_nat (length l) = 2 * 2 ^ wb /\ Forall is_byte l;
  mo_prev : exists l, m_prev mem = Some l /\ Z.of_nat (length l) = 2 ^ wb /\ Forall (fun v => 0 <= v < 2 ^ 16) l;
  mo_head : exists l, m_head mem = Some l /\ Z.of_nat (length l) = 2 ^ (memLevel + 7);
  mo_pending : exists l, m_pending mem = Some l /\ Z.of_nat (length l) = 4 * 2 ^ (memLevel + 6) }.

(** The state before [deflateReset]. *)
Definition init_state (s : stream) (raw : zs) (window prev head buf : list Z) (level windowBits memLevel strategy : Z) : zs :=
  let bufsize := Z.shiftl 1 (memLevel + 6) in
  let t := tr raw in
  let w := wr t in
  ZS s
    (Win (wbits_of windowBits) window (window_size (win raw)) 0 (block_start (win raw)) (strstart (win raw)) (lookahead (win raw)) (insert (win raw)))
    (Hash (memLevel + 7) (ins_h (dict raw)) head prev)
    (lm raw)
    (State (l_desc t) (d_desc t) (bl_desc t) (huff t) (Writer buf (pending w) (bi_buf w) (bi_valid w))
       bufsize (sym_next t) ((bufsize - 1) * 3) (matches t) (level_of level) strategy (data_type t))
    (Control INIT_STATE (wrap_of windowBits) None (gzindex (ctl raw)) (last_flush (ctl raw)) (pending_out (ctl raw))).

Definition settings_bad (level windowBits memLevel strategy : Z) : bool :=
  (memLevel <? 1) || (memLevel >? MAX_MEM_LEVEL) || (bits_of windowBits <? 8) || (bits_of windowBits >? 15) ||
  (level_of level <? 0) || (level_of level >? 9) || (strategy <? 0) || (strategy >? Z_FIXED) ||
  ((bits_of windowBits =? 8) && negb (wrap_of windowBits =? 1)).

Lemma init_settings level windowBits memLevel strategy s mem ver :
  deflateInit2_ s mem level Z_DEFLATED windowBits memLevel strategy ver =
  if negb ver then Some (None, Z_VERSION_ERROR)
  else if settings_bad level windowBits memLevel strategy then Some (None, Z_STREAM_ERROR)
  else match m_state mem, m_window mem, m_prev mem, m_head mem, m_pending mem with
      | Some raw, Some window, Some prev, Some head, Some buf =>
          '(z, ret) ← deflateReset (init_state s raw window prev head buf level windowBits memLevel strategy); Some (Some z, ret)
      | _, _, _, _, _ => Some (None, Z_MEM_ERROR)
      end.
Proof.
  unfold deflateInit2_, settings_bad. fold (level_of level). destruct ver; [|done]. cbn [negb].
  assert (E : (if windowBits <? 0 then (0, - windowBits) else if windowBits >? 15 then (2, windowBits - 16) else (1, windowBits)) =
    (wrap_of windowBits, bits_of windowBits)).
  { unfold wrap_of, bits_of. destruct (windowBits <? 0); [done|]. by destruct (windowBits >? 15). }
  rewrite E. clear E. cbv iota beta. fold (wbits_of windowBits). rewrite Z.eqb_refl. cbn [negb]. by rewrite orb_false_r.
Qed.

Lemma settings_bad_spec level windowBits memLevel strategy :
  settings_bad level windowBits memLevel strategy = false <-> valid_settings level windowBits memLevel strategy.
Proof.
  unfold settings_bad. rewrite !orb_false_iff, !Z.gtb_ltb, !Z.ltb_ge. split.
  - intros H. constructor; lia.
  - intros [V1 V2 V3 V4 V5]. unfold MAX_MEM_LEVEL, Z_FIXED in *. split_and!; lia.
Qed.

Lemma init_invalid level windowBits memLevel strategy s mem :
  ~ valid_settings level windowBits memLevel strategy ->
  deflateInit2_ s mem level Z_DEFLATED windowBits memLevel strategy true = Some (None, Z_STREAM_ERROR).
Proof. intros Hn. rewrite init_settings. cbn [negb]. destruct (settings_bad _ _ _ _) eqn:E; [done|]. by apply settings_bad_spec in E. Qed.

Lemma init_valid level windowBits memLevel strategy s mem :
  valid_settings level windowBits memLevel strategy ->
  deflateInit2_ s mem level Z_DEFLATED windowBits memLevel strategy true =
  match m_state mem, m_window mem, m_prev mem, m_head mem, m_pending mem with
  | Some raw, Some window, Some prev, Some head, Some buf =>
      '(z, ret) ← deflateReset (init_state s raw window prev head buf level windowBits memLevel strategy); Some (Some z, ret)
  | _, _, _, _, _ => Some (None, Z_MEM_ERROR)
  end.
Proof. intros Hv. rewrite init_settings. cbn [negb]. by rewrite (proj2 (settings_bad_spec _ _ _ _) Hv). Qed.

(** The state that the calls start from, without the caller's buffers. *)
Record ready_for (w0 : Z) (z : zs) (level wb memLevel strategy : Z) : Prop := {
  rf_bits : w_bits (win z) = wb;
  rf_size : window_size (win z) = 2 * 2 ^ wb;
  rf_len : Z.of_nat (length (window (win z))) = 2 * 2 ^ wb;
  rf_bytes : Forall is_byte (window (win z));
  rf_zero : strstart (win z) = 0 /\ lookahead (win z) = 0 /\ block_start (win z) = 0 /\ insert (win z) = 0 /\ high_water (win z) = 0;
  rf_chains all base top : chains wb (dict z) all base top (fun _ => False);
  rf_block : block_inv (tr z) [];
  rf_sent : pending (wr (tr z)) = 0 /\ bi_valid (wr (tr z)) = 0;
  rf_bufsize : lit_bufsize (tr z) = 2 ^ (memLevel + 6);
  rf_level : TreesState.level (tr z) = level;
  rf_strategy : TreesState.strategy (tr z) = strategy;
  rf_lm : match_length (lm z) = 2 /\ match_available (lm z) = 0 /\ prev_length (lm z) = 2;
  rf_ctl : ctl z = Control (if w0 =? 2 then GZIP_STATE else INIT_STATE) w0 None (gzindex (ctl z)) (-2) 0;
  rf_strm : total_in (strm z) = 0 /\ total_out (strm z) = 0 /\ adler (strm z) = (if w0 =? 2 then 0 else 1) }.

Lemma init_ready level windowBits memLevel strategy s mem raw :
  valid_settings level windowBits memLevel strategy -> memory_ok mem raw (wbits_of windowBits) memLevel ->
  exists z, deflateInit2_ s mem level Z_DEFLATED windowBits memLevel strategy true = Some (Some z, Z_OK) /\
    ready_for (wrap_of windowBits) z (level_of level) (wbits_of windowBits) memLevel strategy /\
    strm z = Stream (in_buf s) (next_in s) (avail_in s) 0 (out_bytes s) (avail_out s) 0 (if wrap_of windowBits =? 2 then 0 else 1) None.
Proof.
  intros Hv [Eraw Ml Md Mb Mh (bw & Ew & Lw & Bw) (bp & Ep & Lp & Bp) (bh & Eh & Lh) (bb & Eb & Lb)].
  rewrite (init_valid _ _ _ _ _ _ Hv). destruct Hv as [V1 V2 V3 V4 V5]. unfold MAX_MEM_LEVEL, Z_FIXED in *.
  rewrite Eraw, Ew, Ep, Eh, Eb. unfold init_state. cbv zeta. set (wb := wbits_of windowBits) in *. set (w0 := wrap_of windowBits) in *.
  assert (Hwb : 9 <= wb <= 15) by (unfold wb, wbits_of; destruct (Z.eqb_spec (bits_of windowBits) 8); lia).
  assert (Hw0 : 0 <= w0 <= 2) by (unfold w0, wrap_of; destruct (windowBits <? 0), (windowBits >? 15); lia).
  assert (Hsz : Z.shiftl 1 (memLevel + 6) = 2 ^ (memLevel + 6)) by (rewrite Z.shiftl_mul_pow2 by lia; lia).
  assert (Hbuf : 128 <= 2 ^ (memLevel + 6) <= 32768).
  { change 128 with (2 ^ 7). change 32768 with (2 ^ 15). split; apply Z.pow_le_mono_r; lia. }
  rewrite Hsz. unfold deflateReset, deflateResetKeep. cbn [ctl deflateStateCheck status].
  match goal with |- context [deflateStateCheck ?z] => change (deflateStateCheck z) with false end. cbv iota.
  cbn [wrapper]. destruct (Z.ltb_spec w0 0); [lia|]. cbv zeta. cbn [tr set_data_type wr].
  match goal with |- context [tr_init ?t] => destruct (tr_init_spec t) as (t' & -> & Hi & Hs & Hn & L1 & L2 & L3) end.
  { constructor; try done; cbn [set_writer set_data_type wr lit_bufsize sym_end pending_buf size]; unfold size; cbn [pending_buf]; lia. }
  cbn [mbind option_bind]. change (Z_OK =? Z_OK) with true. cbv iota. unfold lm_init. cbn [tr].
  cbn [set_writer set_data_type TreesState.level TreesState.strategy lit_bufsize] in L1, L2, L3. rewrite L2.
  assert (exists c, aget configuration_table (level_of level) = Some c) as (c & ->) by (apply aget_range; cbn; lia).
  cbn [mbind option_bind]. eexists. split; [reflexivity|]. split; [|done].
  constructor; cbn [win strm dict lm tr ctl w_bits window window_size high_water block_start strstart lookahead insert]; try done.
  - unfold w_size. cbn [w_bits]. rewrite Z.shiftl_mul_pow2; lia.
  - intros all base top.
    apply (clear_hash_chains wb (Hash (memLevel + 7) 0 bh bp)); cbn [hash_bits LzState.head LzState.prev]; try done; try lia.
    rewrite Lh. unfold hash_size. cbn [hash_bits]. rewrite Z.shiftl_mul_pow2; lia.
  - pose proof (bi_shape _ _ Hi) as [_ _ _ _ _ _ _ Hw _ _ _]. destruct Hw as [? _ ? _ _]. unfold nbits in Hn. lia.
Qed.

Section Ready.
Context (W : Z) (C : checksums) (A R : list Z -> Z) `{!Sums C A R}.

Lemma ready_fresh w0 z lv wb ml st s all :
  ready_for w0 z lv wb ml st -> 0 <= w0 <= 2 -> 9 <= wb <= 15 -> 1 <= lv <= 9 -> 1 <= ml <= 9 -> Forall is_byte all -> in_ok s all ->
  avail_in s = Z.of_nat (length all) -> out_bytes s = [] -> total_in s = 0 -> total_out s = 0 -> adler s = (if w0 =? 2 then 0 else 1) -> 0 <= avail_out s ->
  roomy (tr z) (Z.of_nat (length all)) -> fresh W A R w0 (set_strm z s) all.
Proof.
  intros [F1 F2 F3 F4 (Z1 & Z2 & Z3 & Z4 & Z5) F5 F6 (P1 & P2) F7 F8 F9 (M1 & M2 & M3) F10 _] Hw Hwb Hlv Hml Hall Hin Hav Hout Ht Hto Had Hao Hroom.
  set (z1 := set_strm z s). assert (Ep : pend z1 all = 0) by (unfold pend; cbn; lia).
  assert (Eh : here z1 all = 0) by (unfold here; rewrite Ep; cbn [z1 set_strm win]; lia).
  assert (Epo : pending_out (ctl z) = 0) by (by rewrite F10). assert (Ewr : wrapper (ctl z) = w0) by (by rewrite F10).
  pose proof (bi_shape _ _ F6) as [_ _ _ _ _ _ _ Hwo _ _ _].
  assert (Ed : delivered z1 = []).
  { unfold delivered, queued. cbn [z1 set_strm strm tr ctl]. by rewrite Hout, P1. }
  assert (Hbp : block_pos z1 all = 0).
  { unfold block_pos, base_of. rewrite Eh. cbn [z1 set_strm win]. lia. }
  assert (Hp9 : 512 <= 2 ^ wb) by (change 512 with (2 ^ 9); apply Z.pow_le_mono_r; lia).
  constructor; try done; [| |cbn [z1 set_strm tr]; lia|cbn [z1 set_strm ctl]; by rewrite F10..].
  - constructor; rewrite ?Hbp; try done.
    + constructor; rewrite ?Ep; try done.
      * constructor; cbn [z1 set_strm win]; rewrite ?F1, ?F2, ?F3, ?Z1, ?Z2, ?Z3, ?Z4, ?Z5; try done; try lia.
        all: try (intros i Hi; lia). unfold w_size. rewrite F1, Z.shiftl_mul_pow2; lia.
      * unfold hash_ok. cbn [z1 set_strm win dict tr]. rewrite F1, Z2. split; [|lia]. exists (fun _ => False). split; [apply F5|by intros ? []].
      * change (upto all 0) with (@nil Z). cbn [z1 set_strm ctl strm]. rewrite Ewr. split; [|split; [|split]].
        -- intros E. rewrite Had, E. symmetry. apply sum_adler_nil.
        -- intros E. rewrite Had, E. symmetry. apply sum_crc_nil.
        -- by rewrite Ht.
        -- unfold out_ok. by rewrite Hto, Hout.
    + constructor; cbn [z1 set_strm tr ctl strm]; rewrite ?Epo, ?P1, ?Ed; try done; try lia.
      destruct Hwo. unfold size in *. lia.
    + exists []. split; [|apply front_nil]. unfold total_bits. rewrite Ed. cbn [z1 set_strm tr]. by rewrite P2.
    + cbn [z1 set_strm tr]. lia.
    + cbn [z1 set_strm tr]. lia.
    + cbn [z1 set_strm tr]. rewrite F7. change 128 with (2 ^ 7). apply Z.pow_le_mono_r; lia.
  - unfold own_of, idle_at. cbn [z1 set_strm tr lm]. rewrite F9.
    assert (Hi : idle (lm z)) by (unfold idle; lia).
    destruct (Z.eqb_spec st Z_HUFFMAN_ONLY) as [E|E1]; [by split|].
    destruct (Z.eqb_spec st Z_RLE) as [E|E2]; [by split|]. destruct (TreesState.level (tr z) <=? 3); [by split|].
    constructor; cbn [z1 set_strm tr lm]; rewrite ?F9, ?M1, ?M2; try done; lia.
Qed.

(** ** deflateCopy() *)

Lemma read_all (l : list Z) n : n = Z.of_nat (length l) -> read_at l 0 n = Some l.
Proof.
  intros ->. unfold read_at. destruct (Z.leb_spec 0 (Z.of_nat (length l))); [|lia]. destruct (Z.leb_spec (0 + Z.of_nat (length l)) (Z.of_nat (length l))); [|lia].
  cbn [Z.leb Z.compare andb Z.to_nat]. by rewrite drop_0, Nat2Z.id, take_ge.
Qed.

Lemma write_all (l k : list Z) : length l = length k -> write_at l 0 k = Some k.
Proof.
  intros E. unfold write_at. destruct (Z.leb_spec (0 + Z.of_nat (length k)) (Z.of_nat (length l))); [|lia].
  cbn [Z.leb Z.compare andb Z.to_nat take]. by rewrite drop_ge, app_nil_r by lia.
Qed.

(** A copy is equal to its source. *)
Lemma deflateCopy_equal hdr z all ys done mem raw memLevel :
  core W A R hdr z all ys done -> deflateStateCheck z = false -> memory_ok mem raw (w_bits (win z)) memLevel ->
  lit_bufsize (tr z) = 2 ^ (memLevel + 6) -> hash_bits (dict z) = memLevel + 7 -> deflateCopy false z mem = Some (Some z, Z_OK).
Proof.
  unfold deflateCopy. intros Hc Hs [-> _ _ _ _ (bw & -> & Lw & _) (bp & -> & Lp & _) (bh & -> & Lh) (bb & -> & Lb)] Eb Eh. rewrite Hs. cbn [orb].
  destruct (co_fed _ _ _ _ _ _ _ _ Hc) as [_ [Wb Ws Wl _ _ _ _ _ _ _ _ _] [(T & [K1 K2 K3 K4 _ _ _ _] & _) _] _].
  pose proof (bi_shape _ _ (co_block _ _ _ _ _ _ _ _ Hc)) as [_ _ _ _ _ _ _ _ Hsz _ _]. unfold size in Hsz.
  assert (Ew : w_size (win z) = 2 ^ w_bits (win z)) by (apply wsize_pow; lia).
  assert (Eq : hash_size (dict z) = 2 ^ (memLevel + 7)) by (unfold hash_size; rewrite Eh, Z.shiftl_mul_pow2; lia).
  rewrite (read_all (window (win z))) by lia. cbn [mbind option_bind]. rewrite write_all by lia. cbn [mbind option_bind].
  rewrite (read_all (prev (dict z))) by lia. cbn [mbind option_bind]. rewrite write_all by lia. cbn [mbind option_bind].
  rewrite (read_all (head (dict z))) by lia. cbn [mbind option_bind]. rewrite write_all by lia. cbn [mbind option_bind].
  rewrite (read_all (pending_buf (wr (tr z)))) by (unfold pending_buf_size; lia). cbn [mbind option_bind]. rewrite write_all by lia. cbn [mbind option_bind].
  by destruct z as [? [] [] ? [? ? ? ? [] ? ? ? ? ? ? ?] ?].
Qed.
End Ready.
