(* ===== verification/LzFinish.v ===== *)
(** * Compressing to the end: compress2() returns a stream of its input

    Repeated calls with [Z_FINISH] end: each one that does not fills the room
    that the caller gave. *)
From stdpp Require Import base numbers list.
From Stdlib Require Import ZArith Lia Bool.
From S2P Require Import Prelude Huffman Deflate Trees TreesSpec TreesTables TreesWriter TreesState TreesSend TreesSyms TreesCompress.
From S2P Require Import TreesTally TreesCost TreesBlock TreesSession LzState LzWindow LzMatch LzStored LzCall LzCompress.
From S2P Require Import LzFacts LzHash LzFill LzSearch LzOut LzCore LzTurn LzLoop LzRle LzFast LzSlow LzDeflate LzPhase LzHeader LzInit.

(** [z] with room for [n] more bytes of output. *)
Definition give (z : zs) (n : Z) : zs := set_strm z (set_avail_out (strm z) n).

Section Finish.
Context (W : Z) (C : checksums) (A R : list Z -> Z) `{!Sums C A R} (HW : 17 <= W).

Lemma give_queue z n : 0 <= n -> queue_ok z -> queue_ok (give z n).
Proof. intros Hn [Q1 Q2 Q3 Q4 Q5 Q6 Q7]. by constructor. Qed.

Lemma give_core hdr z n all ys done : 0 <= n -> core W A R hdr z all ys done -> core W A R hdr (give z n) all ys done.
Proof.
  intros Hn [H1 [[I1 I2 I3 I4] Iw Ih Is] H3 H4 Hq H6 H7 H8 H9 H10 H11]. pose proof (give_queue z n Hn Hq). by constructor.
Qed.

Lemma give_ended hdr z n all : 0 <= n -> ended W A R hdr z all -> ended W A R hdr (give z n) all.
Proof. intros Hn [Hq Hi Hs Hb Hsm Hbs]. pose proof (give_queue z n Hn Hq). by constructor. Qed.

Lemma give_phase hdr w0 z n all : 0 <= n -> phase W A R hdr w0 z all -> phase W A R hdr w0 (give z n) all.
Proof.
  intros Hn [ys S1 S2 S3 [Hc Ho Hf Hw]|S1 S2 [He Hl Ha]|S1 S2 S3 [Hq Hws Hb Hsz Hl Ha Hto]].
  - apply (ph_busy _ _ _ _ _ _ _ ys); try done. constructor; try done; [by apply give_core|by apply (own_of_frame z)].
  - apply ph_closing; try done. constructor; try done. by apply give_ended.
  - apply ph_closed; try done. pose proof (give_queue z n Hn Hq). by constructor.
Qed.

Lemma give_fresh w0 z n all : 0 <= n -> fresh W A R w0 z all -> fresh W A R w0 (give z n) all.
Proof.
  intros Hn [Hc Ho Hi Hout Hp Hb Hst Hav Hl Hwr Hs Hg]. constructor; try done; [by apply give_core|by apply (own_of_frame z)].
Qed.

(** ** A call with [Z_FINISH] *)

(** Before the first call, or after one; [n] is the work that is left. *)
Inductive live (hdr : list Z) (w0 : Z) (z : zs) (all : list Z) : Z -> Prop :=
| live_phase : phase W A R hdr w0 z all -> live hdr w0 z all (work z)
| live_fresh : fresh W A R w0 z all -> hdr = header w0 z -> last_flush (ctl z) = -2 -> live hdr w0 z all (header_work z).

Lemma give_live hdr w0 z n all b : 0 <= n -> live hdr w0 z all b -> live hdr w0 (give z n) all b.
Proof.
  intros Hn [H|H1 H2 H3]; [by apply (live_phase hdr w0 (give z n) all), give_phase|].
  apply (live_fresh hdr w0 (give z n) all); [by apply give_fresh|done|done].
Qed.

Lemma finish_step hdr w0 z all n :
  0 <= w0 <= 2 -> Forall is_byte hdr -> live hdr w0 z all n -> 0 < avail_out (strm z) ->
  exists z' r, deflate W C false false z Z_FINISH = Some (z', r) /\ phase W A R hdr w0 z' all /\ kept z z' /\
    (r = Z_STREAM_END /\ pending (wr (tr z')) = 0 /\ wraps W A R hdr w0 (out_bytes (strm z')) all /\ out_ok W (strm z') /\
       status (ctl z') = FINISH_STATE /\ wrapper (ctl z') <= 0 \/
     r = Z_OK /\ avail_out (strm z') = 0 /\ work z' < n).
Proof.
  intros Hw0 Hh Hl Ha. assert (Hfl : 0 <= Z_FINISH <= Z_BLOCK) by (unfold Z_FINISH, Z_BLOCK; lia).
  assert (H : exists z' r, deflate W C false false z Z_FINISH = Some (z', r) /\ phase W A R hdr w0 z' all /\ kept z z' /\
    answer W A R hdr w0 Z_FINISH all n z z' r).
  { destruct Hl as [Hl|Hl -> Hlast]; [by apply deflate_step|by apply deflate_first]. }
  destruct H as (z' & r & E & Hph & Hk & Han). exists z', r. split; [done|]. split; [done|]. split; [done|].
  destruct Han as [_ ? ? ? [? ?]|? Hn|?|Hz|?]; [by left|right; auto|done| |done]. destruct Hz as [?|[? _]]; [lia|done].
Qed.

(** No room. *)
Lemma finish_no_room hdr w0 z all n :
  live hdr w0 z all n -> avail_out (strm z) = 0 -> deflate W C false false z Z_FINISH = Some (err_return z Z_BUF_ERROR).
Proof.
  intros Hl Ha. assert (Hs : deflateStateCheck z = false).
  { destruct Hl as [Hl|Hl _ _]; [by eapply status_ok, phase_status|]. unfold deflateStateCheck. rewrite (fr_status _ _ _ _ _ _ Hl). by destruct (w0 =? 2). }
  unfold deflate. rewrite Hs, Ha. cbn [Z.eqb Z.gtb Z.ltb Z.compare orb andb negb Z_FINISH Z_BLOCK Pos.compare Pos.compare_cont Pos.eqb].
  by rewrite !andb_false_r.
Qed.

(** ** compress2() *)

Lemma capped_range W' x : 0 <= x < 2 ^ W' -> 0 <= capped x <= x /\ (0 < x -> 0 < capped x) /\ wrap W' (x - capped x) = x - capped x.
Proof.
  intros Hx. assert (H : 0 <= capped x <= x /\ (0 < x -> 0 < capped x)).
  { unfold capped, uint_max, wrap. change (2 ^ 32) with 4294967296. destruct (Z.gtb_spec x 4294967295); [lia|]. rewrite Z.mod_small; lia. }
  destruct H. split; [done|]. split; [done|]. apply Z.mod_small. lia.
Qed.

Lemma set_avail_in_same z : avail_in (strm z) = 0 -> set_strm z (set_avail_in (strm z) 0) = z.
Proof. destruct z as [[] ? ? ? ? ?]. cbn. by intros ->. Qed.

Lemma compress2_loop_spec fuel hdr w0 z all left_ n :
  0 <= w0 <= 2 -> Forall is_byte hdr -> live hdr w0 z all n -> 0 <= avail_out (strm z) -> 0 <= left_ < 2 ^ W ->
  (Z.to_nat (avail_out (strm z) + left_) < fuel)%nat ->
  let room := Z.of_nat (length (out_bytes (strm z))) + avail_out (strm z) + left_ in
  exists z' err, compress2_loop W C fuel z left_ 0 = Some (z', err) /\
    (err = Z_STREAM_END /\ wraps W A R hdr w0 (out_bytes (strm z')) all /\ out_ok W (strm z') /\ Z.of_nat (length (out_bytes (strm z'))) <= room \/
     err = Z_BUF_ERROR /\ Z.of_nat (length (out_bytes (strm z'))) = room).
Proof.
  intros Hw0 Hh. revert z left_ n. induction fuel as [|fuel IH]; intros z left_ n Hl Ha Hleft Hfuel room; [lia|].
  cbn [compress2_loop]. destruct (capped_range W left_ Hleft) as (Hc & Hc0 & Ew).
  (* the room of the turn *)
  set (p := if avail_out (strm z) =? 0 then _ else _).
  assert (Hp : exists z1 left1, p = (z1, left1) /\ live hdr w0 z1 all n /\ 0 <= left1 < 2 ^ W /\
    avail_out (strm z1) + left1 = avail_out (strm z) + left_ /\ out_bytes (strm z1) = out_bytes (strm z) /\
    0 <= avail_out (strm z1) /\ (avail_out (strm z1) = 0 -> left1 = 0)).
  { subst p. destruct (Z.eqb_spec (avail_out (strm z)) 0) as [E|E].
    - rewrite Ew. do 2 eexists. split; [reflexivity|]. split; [apply give_live; [lia|done]|]. cbn [set_strm strm set_avail_out avail_out out_bytes].
      split_and!; try done; try lia.
    - exists z, left_. split_and!; try done; lia. }
  destruct Hp as (z1 & left1 & -> & Hl1 & Hleft1 & Esum & Eout & Ha1 & Hz1).
  assert (Ein : (if avail_in (strm z1) =? 0 then
      (set_strm z1 (set_avail_in (strm z1) (capped 0)), wrap W (0 - capped 0)) else (z1, 0)) = (z1, 0)).
  { destruct (Z.eqb_spec (avail_in (strm z1)) 0) as [E|]; [|done]. change (capped 0) with 0. by rewrite set_avail_in_same. }
  cbv beta iota. rewrite Ein. cbv beta iota. cbn [Z.eqb negb]. destruct (decide (avail_out (strm z1) = 0)) as [E0|E0].
  - rewrite (finish_no_room hdr w0 z1 all n Hl1 E0). cbn [mbind option_bind err_return]. do 2 eexists. split; [reflexivity|]. right. split; [done|].
    cbn [set_strm strm set_msg out_bytes]. rewrite Eout. specialize (Hz1 E0). lia.
  - destruct (finish_step hdr w0 z1 all n Hw0 Hh Hl1 ltac:(lia)) as (z2 & r & -> & Hph & Hk & Hr). cbn [mbind option_bind].
    pose proof (kp_count _ _ Hk) as En. rewrite Eout in En.
    destruct Hr as [(-> & _ & Hws & Hto & _)|(-> & E2 & _)].
    + change (Z_STREAM_END =? Z_OK) with false. cbv iota. do 2 eexists. split; [reflexivity|]. left. split_and!; try done.
      pose proof (qo_avail _ (proj1 (phase_queue W A R hdr _ _ _ Hph))). lia.
    + rewrite Z.eqb_refl. destruct (IH z2 left1 _ (live_phase _ _ _ _ Hph)) as (z3 & err & -> & H); [lia|done|lia|]. do 2 eexists. split; [reflexivity|].
      rewrite E2 in H. replace room with (Z.of_nat (length (out_bytes (strm z2))) + 0 + left1) by lia. exact H.
Qed.
End Finish.
