(* ===== verification/LzSession.v ===== *)
(** * Sessions: buffers supplied between the calls of deflate()

    A caller sets up a stream, supplies input and room as it goes, and calls
    deflate() with any flush; [all] is the concatenation of the buffers that it
    supplied.  In every such state a call meets its contract. *)
From stdpp Require Import base numbers list.
From Stdlib Require Import ZArith Lia Bool.
From S2P Require Import Prelude Huffman Deflate Trees TreesSpec TreesTables TreesWriter TreesState TreesSend TreesSyms TreesCompress.
From S2P Require Import TreesTally TreesCost TreesBlock TreesSession LzState LzWindow LzMatch LzStored LzCall LzCompress.
From S2P Require Import LzFacts LzHash LzFill LzSearch LzOut LzCore LzTurn LzLoop LzRle LzFast LzSlow LzDeflate LzPhase LzHeader LzInit LzFinish.

(** [next_in], [avail_in]: a new buffer. *)
Definition feed (z : zs) (data : list Z) : zs :=
  let s := strm z in
  set_strm z (Stream data 0 (Z.of_nat (length data)) (total_in s) (out_bytes s) (avail_out s) (total_out s) (adler s) (msg s)).

(** ** More input *)

Lemma upto_more all data p : p <= Z.of_nat (length all) -> upto (all ++ data) p = upto all p.
Proof. intros H. unfold upto. rewrite take_app_le; [done|lia]. Qed.

Lemma at_more all data i : 0 <= i < Z.of_nat (length all) -> at_ (all ++ data) i = at_ all i.
Proof.
  intros H. unfold at_. pose proof (aget_at all i H) as E. rewrite E. apply aget_Some in E as [H0 E].
  assert (E' : aget (all ++ data) i = Some (at_ all i)) by (apply aget_Some; split; [done|]; by apply lookup_app_l_Some). by rewrite E'.
Qed.

Lemma at_new all data i : 0 <= i < Z.of_nat (length data) -> aget data i = Some (at_ (all ++ data) (Z.of_nat (length all) + i)).
Proof.
  intros H. rewrite (aget_at data i H). f_equal. unfold at_ at 2.
  assert (E : aget (all ++ data) (Z.of_nat (length all) + i) = aget data i); [|by rewrite E].
  unfold aget. destruct (Z.leb_spec 0 i); [|lia]. destruct (Z.leb_spec 0 (Z.of_nat (length all) + i)); [|lia].
  rewrite lookup_app_r by lia. f_equal. lia.
Qed.

Lemma match_more all data p dist len : match_in all p dist len -> match_in (all ++ data) p dist len.
Proof.
  intros [H1 H2 H3 H4]. constructor; try done; [rewrite length_app; lia|]. intros i Hi. rewrite !at_more by lia. by apply H4.
Qed.

Section Session.
Context (W : Z) (C : checksums) (A R : list Z -> Z) `{!Sums C A R}.

Lemma feed_pend z all data : avail_in (strm z) = 0 -> pend (feed z data) (all ++ data) = pend z all /\ here (feed z data) (all ++ data) = here z all.
Proof.
  intros E. assert (Ep : pend (feed z data) (all ++ data) = pend z all) by (unfold pend; cbn; rewrite E, length_app; lia).
  split; [done|]. unfold here. by rewrite Ep.
Qed.

Lemma feed_fed z all data : avail_in (strm z) = 0 -> fed W A R z all -> fed W A R (feed z data) (all ++ data).
Proof.
  intros E [[I1 I2 I3 I4] Hw Hh Hs]. destruct (feed_pend z all data E) as [Ep _].
  assert (Epl : pend z all = Z.of_nat (length all)) by (unfold pend; lia).
  constructor; rewrite ?Ep.
  - constructor; cbn; rewrite ?length_app; try lia. intros i Hi. rewrite Z.add_0_l, (at_new all data i Hi). do 2 f_equal. lia.
  - destruct Hw as [Wb Ws Wl Wby W0 Wa Wf Wba Wd Wbl Whi Wi]. constructor; try done. intros i Hi. cbn [feed set_strm win] in *.
    rewrite Wd by done. f_equal. symmetry. apply at_more. lia.
  - destruct Hw as [_ _ _ _ W0 Wa _ Wba _ _ _ _]. destruct Hh as [(S & Hch & HS) Hr]. split.
    + exists S. split; [|done]. apply chains_ext with all; [exact Hch|]. intros q Hq. destruct (HS q Hq). unfold hash_at. rewrite !at_more; try done; lia.
    + intros Hl. destruct (Hr Hl) as [Hi Ht]. split; [done|]. intros Hst c. cbn [feed set_strm dict win] in *.
      rewrite (Ht Hst c), !at_more; try done; lia.
  - destruct Hs as (S1 & S2 & S3 & S4). unfold sum_ok. rewrite upto_more by lia. done.
Qed.

Lemma feed_core hdr z all ys done data :
  core W A R hdr z all ys done -> avail_in (strm z) = 0 -> Forall is_byte data -> roomy (tr z) (Z.of_nat (length (all ++ data))) ->
  done <= Z.of_nat (length all) -> core W A R hdr (feed z data) (all ++ data) ys done.
Proof.
  intros Hc E Hd Hr Hdone. pose proof (block_pos_range _ _ _ _ _ _ _ _ Hc) as Hbr.
  pose proof (here_range _ _ _ _ _ (co_fed _ _ _ _ _ _ _ _ Hc)) as Hhr.
  destruct (feed_pend z all data E) as [Ep Eh].
  assert (Hbp : block_pos (feed z data) (all ++ data) = block_pos z all) by (unfold block_pos, base_of; by rewrite Eh).
  destruct Hc as [H1 H2 H3 H4 [Q1 Q2 Q3 Q4 Q5 Q6 Q7] H6 H7 H8 H9 H10 H11].
  constructor; rewrite ?Hbp, ?upto_more by lia; try done; [by apply Forall_app|by apply feed_fed].
Qed.

Lemma feed_own z all data : avail_in (strm z) = 0 -> own_of z all -> own_of (feed z data) (all ++ data).
Proof.
  intros E. destruct (feed_pend z all data E) as [_ Eh]. unfold own_of. cbn [feed set_strm tr].
  destruct (_ =? Z_HUFFMAN_ONLY); [done|]. destruct (_ =? Z_RLE); [done|]. destruct (_ <=? 3); [done|].
  intros [H1 H2 H3 H4]. constructor; try done. cbn [feed set_strm lm win]. intros Hm. destruct (H4 Hm) as (? & ? & [?|(R1 & R2 & R3 & R4)]); split_and!; try done; [by left|].
  right. unfold real_match. rewrite Eh. split; [done|]. split; [done|]. split; [done|]. by apply match_more.
Qed.

Lemma feed_resting hdr z all ys data :
  resting W A R hdr z all ys -> avail_in (strm z) = 0 -> Forall is_byte data -> roomy (tr z) (Z.of_nat (length (all ++ data))) ->
  resting W A R hdr (feed z data) (all ++ data) ys.
Proof.
  intros [Hc Ho Hf Hw] E Hd Hr. destruct (feed_pend z all data E) as [_ Eh].
  assert (Ecv : covered (feed z data) (all ++ data) = covered z all) by (unfold covered; by rewrite Eh).
  constructor; try done; [|by apply feed_own]. rewrite Ecv. apply feed_core; try done.
  pose proof (here_range _ _ _ _ _ (co_fed _ _ _ _ _ _ _ _ Hc)). destruct (own_of_available z all Ho); unfold covered; lia.
Qed.
Lemma feed_fresh w0 z all data :
  fresh W A R w0 z all -> avail_in (strm z) = 0 -> Forall is_byte data -> roomy (tr z) (Z.of_nat (length (all ++ data))) ->
  fresh W A R w0 (feed z data) (all ++ data).
Proof.
  intros [Hc Ho Hi Hout Hp Hb Hst Hav Hl Hwr Hs Hg] E Hd Hr.
  assert (all = []) as -> by (destruct all; [done|cbn in Hav; lia]).
  constructor; try done; [apply (feed_core [] z [] [] 0); try done; cbn; lia|by apply feed_own].
Qed.

Lemma feed_live hdr w0 z all data n :
  live W A R hdr w0 z all n -> status (ctl z) <> FINISH_STATE -> avail_in (strm z) = 0 -> Forall is_byte data ->
  roomy (tr z) (Z.of_nat (length (all ++ data))) -> exists m, live W A R hdr w0 (feed z data) (all ++ data) m.
Proof.
  intros [[ys S1 S2 S3 Hre|S1 _ _|S1 _ _ _]|Hf Eh Hlast] Hs E Hd Hr; [|done|done|].
  - eexists. apply live_phase, (ph_busy _ _ _ _ _ _ _ ys); try done. by apply feed_resting.
  - eexists. apply live_fresh; try done. by apply feed_fresh.
Qed.

(** ** A call without room *)

Lemma touch_live hdr w0 z m all n : live W A R hdr w0 z all n -> live W A R hdr w0 (touch z m (ctl z)) all n.
Proof.
  intros [Hp|Hf Eh Hlast].
  - apply (live_phase W A R hdr w0 (touch z m (ctl z))). by apply phase_touch.
  - apply (live_fresh W A R hdr w0 (touch z m (ctl z))); try done. destruct Hf as [Hc Ho Hi Hout Hp Hb Hst Hav Hl Hwr Hs Hg].
    constructor; try done; [by apply touch_core|by apply (own_of_frame z)].
Qed.

Lemma live_status hdr w0 z all n : live W A R hdr w0 z all n -> deflateStateCheck z = false.
Proof.
  intros [Hl|Hl _ _]; [by eapply status_ok, phase_status|]. unfold deflateStateCheck. rewrite (fr_status _ _ _ _ _ _ Hl). by destruct (w0 =? 2).
Qed.

Lemma live_room hdr w0 z all n : live W A R hdr w0 z all n -> 0 <= avail_out (strm z).
Proof.
  intros [Hl|Hl _ _]; [apply (qo_avail _ (proj1 (phase_queue W A R hdr _ _ _ Hl)))|apply (qo_avail _ (co_queue _ _ _ _ _ _ _ _ (fr_core _ _ _ _ _ _ Hl)))].
Qed.

Lemma no_room hdr w0 z all n flush :
  live W A R hdr w0 z all n -> avail_out (strm z) = 0 -> 0 <= flush <= Z_BLOCK ->
  exists e, deflate W C false false z flush = Some (touch z (Some e) (ctl z), e).
Proof.
  intros Hl Ha Hf. unfold deflate. rewrite (live_status _ _ _ _ _ Hl), Ha.
  destruct (Z.gtb_spec flush Z_BLOCK); [lia|]. destruct (Z.ltb_spec flush 0); [lia|]. cbn [orb andb]. rewrite andb_false_r. cbn [orb Z.eqb].
  case_match; rewrite touch_err; by eexists.
Qed.

(** ** The calls *)

(** [z] after [deflateInit2_] and calls between which the caller supplied buffers
    and room; their concatenation is [all], the header is [hdr]. *)
Inductive session (hdr : list Z) (w0 : Z) : zs -> list Z -> Prop :=
| se_start s mem raw level windowBits memLevel strategy z :
    valid_settings level windowBits memLevel strategy -> memory_ok mem raw (wbits_of windowBits) memLevel -> 1 <= level_of level ->
    in_ok s [] -> out_bytes s = [] -> 0 <= avail_out s ->
    deflateInit2_ s mem level Z_DEFLATED windowBits memLevel strategy true = Some (Some z, Z_OK) -> roomy (tr z) 0 ->
    w0 = wrap_of windowBits -> hdr = header w0 z -> session hdr w0 z []
| se_feed z all data :
    session hdr w0 z all -> status (ctl z) <> FINISH_STATE -> avail_in (strm z) = 0 -> Forall is_byte data ->
    roomy (tr z) (Z.of_nat (length (all ++ data))) -> session hdr w0 (feed z data) (all ++ data)
| se_room z all n : session hdr w0 z all -> 0 <= n -> session hdr w0 (give z n) all
| se_call z all flush z' r :
    session hdr w0 z all -> 0 <= flush <= Z_BLOCK -> deflate W C false false z flush = Some (z', r) -> session hdr w0 z' all.

Lemma wrap_of_range windowBits : 0 <= wrap_of windowBits <= 2.
Proof. unfold wrap_of. repeat case_match; lia. Qed.

Lemma wbits_of_range level windowBits memLevel strategy : valid_settings level windowBits memLevel strategy -> 9 <= wbits_of windowBits <= 15.
Proof. intros [_ H _ _ _]. unfold wbits_of. destruct (Z.eqb_spec (bits_of windowBits) 8); lia. Qed.

Lemma start_fresh s mem raw level windowBits memLevel strategy z :
  valid_settings level windowBits memLevel strategy -> memory_ok mem raw (wbits_of windowBits) memLevel -> 1 <= level_of level ->
  in_ok s [] -> out_bytes s = [] -> 0 <= avail_out s ->
  deflateInit2_ s mem level Z_DEFLATED windowBits memLevel strategy true = Some (Some z, Z_OK) -> roomy (tr z) 0 ->
  fresh W A R (wrap_of windowBits) z [] /\ last_flush (ctl z) = -2.
Proof.
  intros Hv Hm Hl [I1 I2 I3 I4] Ho Ha E Hr. destruct (init_ready level windowBits memLevel strategy s mem raw Hv Hm) as (z1 & E1 & F & Es).
  rewrite E in E1. injection E1 as <-. split; [|by rewrite (rf_ctl _ _ _ _ _ _ F)].
  assert (Ez : z = set_strm z (strm z)) by (by destruct z). rewrite Ez.
  pose proof (wbits_of_range _ _ _ _ Hv) as Hwb. destruct Hv as [V1 _ _ V4 _]. unfold MAX_MEM_LEVEL in V4. cbn [length] in *.
  apply (ready_fresh W C A R _ z _ _ _ _ _ _ F); rewrite ?Es; try done; [apply wrap_of_range|..]; cbn; try lia.
Qed.

Context (HW : 17 <= W).

Lemma session_live hdr w0 z all : session hdr w0 z all -> 0 <= w0 <= 2 /\ Forall is_byte hdr /\ exists n, live W A R hdr w0 z all n.
Proof.
  induction 1 as [s mem raw level windowBits memLevel strategy z Hv Hm Hl Hi Ho Ha E Hr -> ->|z all data _ (Hw & Hh & n & IH) Hs E Hd Hr
    |z all n _ (Hw & Hh & b & IH) Hn|z all flush z' r _ (Hw & Hh & n & IH) Hf E].
  - split; [apply wrap_of_range|]. split; [apply header_bytes|]. eexists. apply live_fresh; [|done|]; by eapply start_fresh.
  - split; [done|]. split; [done|]. by eapply feed_live.
  - split; [done|]. split; [done|]. exists b. by apply give_live.
  - split; [done|]. split; [done|]. destruct (decide (avail_out (strm z) = 0)) as [E0|E0].
    + destruct (no_room _ _ _ _ _ flush IH E0 Hf) as (e & E'). rewrite E in E'. injection E' as -> ->. exists n. by apply touch_live.
    + assert (Hao : 0 < avail_out (strm z)) by (pose proof (live_room _ _ _ _ _ IH); lia).
      exists (work z'). apply live_phase. destruct IH as [Hp|Hf' -> Hlast].
      * destruct (deflate_step W C A R hdr HW Hh w0 z all flush Hw Hp Hf) as (z1 & r1 & E1 & Hp1 & _). rewrite E in E1. by injection E1 as <- <-.
      * destruct (deflate_first W C A R HW w0 z all flush Hw Hf' Hlast Hf Hao) as (z1 & r1 & E1 & Hp1 & _). rewrite E in E1. by injection E1 as <- <-.
Qed.
End Session.
