(* ===== verification/LzSums.v ===== *)
(** * The checksums of adler32.c and crc32.c, as deflate.c calls them *)
From stdpp Require Import base numbers list.
From Stdlib Require Import ZArith Lia Bool.
From S2P Require Import Prelude LzState LzFacts LzHash LzFill Crc32 Crc32Facts.
From S2P Require Adler32.

Section Sums.
Context (W : Z) (no_divide : bool) (wd N : nat) (T : crc_tables) (little : bool) (addr : Z).
Context (HW : 32 <= W) (Hwd : wd = 4%nat \/ wd = 8%nat) (HN : (1 <= N <= 6)%nat) (HT : make_crc_table wd N = Some T).

(** The bytes lie at [addr]. *)
Definition zlib_checksums : checksums :=
  Checksums (fun a l => Adler32.adler32 W no_divide a (Some l) (Z.of_nat (length l)))
    (fun a l => crc32 wd N T little addr a (Some l) (length l)).

Lemma adler_spec_app st l k : Adler32.adler_spec st (l ++ k) = Adler32.adler_spec (Adler32.adler_spec st l) k.
Proof. apply foldl_app. Qed.

#[export] Instance zlib_sums : Sums zlib_checksums Adler32.adler_of (crc_ref 0).
Proof using HW Hwd HN HT.
  assert (H1 : Adler32.adler_ok (1, 0)) by (split; cbn; unfold Adler32.BASE; lia).
  assert (H0 : is_u32 0) by (split; lia). constructor; [reflexivity|vm_compute; reflexivity| |].
  - intros l k Hl Hk. unfold Adler32.adler_of. rewrite adler_spec_app.
    exact (Adler32.adler32_z_value W no_divide _ k HW (Adler32.spec_ok l _ H1) Hk).
  - intros l k Hl Hk. rewrite crc_ref_app by done.
    exact (crc32_z_value wd N T little addr _ k Hwd HN HT (crc_ref_u32 0 l H0 Hl) Hk).
Qed.
End Sums.
