(* ===== verification/LzRound.v ===== *)
(** * compress2() against the format

    For a source that fits the symbol buffer, [compress2] returns, and either
    [dest] holds the zlib header, a deflate stream of the source and its Adler-32
    checksum, or [dest] was too small. *)
From stdpp Require Import base numbers list.
From Stdlib Require Import ZArith Lia Bool.
From S2P Require Import Prelude Huffman Deflate Trees TreesSpec TreesTables TreesWriter TreesState TreesSend TreesSyms TreesCompress.
From S2P Require Import TreesTally TreesCost TreesBlock TreesSession LzState LzWindow LzMatch LzStored LzCall LzCompress.
From S2P Require Import LzFacts LzHash LzFill LzSearch LzOut LzCore LzTurn LzLoop LzRle LzFast LzSlow LzDeflate LzPhase LzHeader LzInit LzFinish.

(** The two bytes of a zlib header with a window of 32 K. *)
Definition zlib_bytes (level : Z) : list Z :=
  [120; if level <? 2 then 1 else if level <? 6 then 94 else if level =? 6 then 156 else 218].

Lemma zlib_bytes_header z level memLevel :
  ready_for 1 z level 15 memLevel 0 -> header 1 z = zlib_bytes level.
Proof.
  intros F. unfold header. cbn [Z.eqb Pos.eqb]. unfold zlib_header.
  rewrite (rf_bits _ _ _ _ _ _ F), (rf_level _ _ _ _ _ _ F), (rf_strategy _ _ _ _ _ _ F).
  destruct (rf_zero _ _ _ _ _ _ F) as (-> & _). unfold zlib_bytes.
  change (0 >=? Z_HUFFMAN_ONLY) with false. cbn [orb Z.eqb negb].
  destruct (level <? 2); [reflexivity|]. destruct (level <? 6); [reflexivity|]. destruct (level =? 6); reflexivity.
Qed.

Section Round.
Context (W : Z) (C : checksums) (A R : list Z -> Z) `{!Sums C A R} (HW : 32 <= W).

(** The first turn of the loop reads the whole source. *)
Lemma compress2_loop_read fuel z left_ n :
  0 <= n <= uint_max -> n < 2 ^ W -> avail_in (strm z) = 0 ->
  compress2_loop W C (S fuel) z left_ n = compress2_loop W C (S fuel) (set_strm z (set_avail_in (strm z) n)) left_ 0.
Proof.
  intros Hn HnW Ha. assert (Ec : capped n = n).
  { unfold capped, uint_max, wrap in *. destruct (Z.gtb_spec n 4294967295); [lia|]. apply Z.mod_small. change (2 ^ 32) with 4294967296. lia. }
  assert (Ew : wrap W (n - n) = 0) by (rewrite Z.sub_diag; by apply Z.mod_0_l; lia).
  cbn [compress2_loop]. cbn [set_strm strm set_avail_in avail_out avail_in]. change (capped 0) with 0. change (wrap W (0 - 0)) with (wrap W 0).
  assert (Ew0 : wrap W 0 = 0) by (apply Z.mod_0_l; lia). rewrite Ew0.
  destruct (avail_out (strm z) =? 0); cbn [set_strm strm set_avail_in set_avail_out avail_in]; rewrite Ha, Ec, Ew; cbn [Z.eqb];
    (destruct (Z.eqb_spec n 0) as [->|]; [|reflexivity]); reflexivity.
Qed.

Lemma compress2_spec s mem raw destLen source sourceLen level :
  memory_ok mem raw 15 8 -> 1 <= level_of level <= 9 -> 0 <= sourceLen <= Z.of_nat (length source) -> sourceLen <= 15820 ->
  Forall is_byte (upto source sourceLen) -> 0 <= destLen < 2 ^ W ->
  let all := upto source sourceLen in
  exists dest n err, compress2 W C s mem destLen source sourceLen level = Some (dest, n, err) /\
    (err = Z_OK /\ wraps W A R (zlib_bytes (level_of level)) 1 dest all /\ n = Z.of_nat (length dest) /\ n <= destLen \/
     err = Z_BUF_ERROR /\ Z.of_nat (length dest) = destLen).
Proof.
  intros Hmem Hlv Hsl Hmax Hb Hd all.
  assert (Hv : valid_settings level 15 8 0) by (constructor; unfold MAX_MEM_LEVEL, Z_FIXED; [lia|by split|by vm_compute|lia..]).
  destruct (init_ready level 15 8 0 s mem raw Hv Hmem) as (z & Ei & F & Es).
  change (wrap_of 15) with 1 in *. change (wbits_of 15) with 15 in *.
  unfold compress2, deflateInit_. rewrite Ei. cbn [mbind option_bind]. change (Z_OK =? Z_OK) with true. cbn [negb mbind option_bind].
  set (s0 := Stream source 0 0 _ [] 0 _ _ _).
  assert (Hpow : 2 ^ 32 <= 2 ^ W) by (apply Z.pow_le_mono_r; lia). change (2 ^ 32) with 4294967296 in Hpow.
  assert (Eall : Z.of_nat (length all) = sourceLen) by (by apply upto_length).
  change (2 + Z.to_nat (destLen + sourceLen))%nat with (S (S (Z.to_nat (destLen + sourceLen)))).
  rewrite compress2_loop_read by (unfold uint_max; cbn [set_strm strm s0 avail_in]; lia).
  set (z1 := set_strm (set_strm z s0) _).
  destruct (rf_strm _ _ _ _ _ _ F) as (T1 & T2 & T3).
  assert (Hf : fresh W A R 1 z1 all).
  { apply (ready_fresh W C A R 1 z (level_of level) 15 8 0 (set_avail_in s0 sourceLen) all F); try done; try lia.
    - constructor; cbn [set_avail_in s0 avail_in next_in in_buf]; try lia. intros i Hi.
      replace (Z.of_nat (length all) - sourceLen + i) with i by lia. rewrite Z.add_0_l.
      unfold all. unfold at_ at 1. rewrite aget_upto by lia. cbn [default from_option id]. apply aget_at. lia.
    - right. right. rewrite (rf_bufsize _ _ _ _ _ _ F). change (2 ^ (8 + 6)) with 16384. lia. }
  assert (Hhdr : header 1 z1 = zlib_bytes (level_of level)) by (by apply (zlib_bytes_header z _ 8)).
  assert (Hlast : last_flush (ctl z1) = -2).
  { cbn [z1 set_strm ctl]. by rewrite (rf_ctl _ _ _ _ _ _ F). }
  destruct (compress2_loop_spec W C A R ltac:(lia) (S (S (Z.to_nat (destLen + sourceLen)))) (zlib_bytes (level_of level)) 1 z1 all destLen (header_work z1))
    as (z2 & err & -> & H); try done.
  { rewrite <- Hhdr. apply header_bytes. }
  { by apply live_fresh. }
  { cbn [z1 set_strm strm set_avail_in s0 avail_out]. lia. }
  cbn [z1 set_strm strm set_avail_in s0 avail_out out_bytes length] in H. cbn [mbind option_bind].
  do 3 eexists. split; [reflexivity|]. destruct H as [(-> & Hws & Hto & Hle)|(-> & Hle)]; [left|right; split; [done|lia]].
  change (Z_STREAM_END =? Z_STREAM_END) with true. cbv iota. split; [done|]. split; [done|]. unfold out_ok in Hto. rewrite Hto.
  unfold wrap. rewrite Z.mod_small by lia. lia.
Qed.
End Round.
