(* ===== verification/ZpipeFacts.v ===== *)
(** * def() of zpipe.c returns a zlib stream of the file *)
From stdpp Require Import base numbers list.
From Stdlib Require Import ZArith Lia Bool.
From S2P Require Import Prelude Huffman Deflate Trees TreesSpec TreesTables TreesWriter TreesState TreesSend TreesSyms TreesCompress.
From S2P Require Import TreesTally TreesCost TreesBlock TreesSession LzState LzWindow LzMatch LzStored LzCall LzCompress Zpipe.
From S2P Require Import LzFacts LzHash LzFill LzSearch LzOut LzCore LzTurn LzLoop LzRle LzFast LzSlow LzDeflate LzPhase LzHeader LzInit LzFinish LzRound.

Section Pipe.
Context (W : Z) (C : checksums) (A R : list Z -> Z) `{!Sums C A R} (HW : 17 <= W) (read_error write_error : nat -> bool).

(** A call after the end changes nothing. *)
Lemma deflate_again hdr w0 z all :
  phase W A R hdr w0 z all -> status (ctl z) = FINISH_STATE -> wrapper (ctl z) <= 0 -> pending (wr (tr z)) = 0 -> 0 < avail_out (strm z) ->
  exists c, deflate W C false false z Z_FINISH = Some (touch z (msg (strm z)) c, Z_STREAM_END).
Proof.
  intros Hph Hs Hw Hp Ha. pose proof (status_ok z (or_intror Hs)) as Hsc.
  assert (H0 : lookahead (win z) = 0 /\ avail_in (strm z) = 0).
  { destruct Hph as [ys S1 _ _ _|_ _ [_ ? ?]|_ _ _ [_ _ _ _ ? ? _]]; [by rewrite S1 in Hs|done|done]. }
  destruct H0 as [Hl Hi]. exists (set_last_flush (ctl z) Z_FINISH). unfold deflate. rewrite Hsc, Hs, Hi.
  change (Z_FINISH >? Z_BLOCK) with false. change (Z_FINISH <? 0) with false. rewrite !Z.eqb_refl. cbn [orb andb negb].
  destruct (Z.eqb_spec (avail_out (strm z)) 0); [lia|]. rewrite touch_ctl. set (z1 := touch z _ _).
  change (wr (tr z1)) with (wr (tr z)). rewrite Hp. cbn [Z.eqb negb mbind option_bind]. rewrite andb_false_r. cbn [mbind option_bind].
  change (status (ctl z1)) with (status (ctl z)). change (avail_in (strm z1)) with (avail_in (strm z)). rewrite Hi. cbn [Z.eqb negb]. rewrite andb_false_r.
  rewrite write_header_done by (by right). cbn [mbind option_bind].
  unfold write_blocks. change (status (ctl z1)) with (status (ctl z)). change (avail_in (strm z1)) with (avail_in (strm z)). change (win z1) with (win z).
  rewrite Hi, Hl, Hs. rewrite Z.eqb_refl. cbn [Z.eqb negb orb]. rewrite andb_false_r. cbn [mbind option_bind].
  change (wrapper (ctl z1)) with (wrapper (ctl z)). by destruct (Z.leb_spec (wrapper (ctl z)) 0); [|lia].
Qed.

(** What the inner loop leaves behind with [Z_FINISH]. *)
Definition out_done (hdr : list Z) (w0 : Z) (all : list Z) (o : def_end + zs * Z * list Z * nat) : Prop :=
  match o with
  | inl (Ended ret _) => ret = Z_ERRNO /\ exists k, write_error k = true
  | inl Aborted => False
  | inr (z, ret, written, k) => ret = Z_STREAM_END /\ avail_in (strm z) = 0 /\ wraps W A R hdr w0 written all
  end.

Lemma written_step (l l' : list Z) n m :
  l `prefix_of` l' -> Z.of_nat (length l') + n = Z.of_nat (length l) + m -> 0 <= n -> l ++ drop (length l' - Z.to_nat (m - n)) l' = l'.
Proof.
  intros [k ->] E Hn. rewrite length_app in *. replace (length l + length k - Z.to_nat (m - n))%nat with (length l) by lia. by rewrite drop_app_length.
Qed.

(** After the end. *)
Lemma out_loop_ended hdr w0 z all k :
  phase W A R hdr w0 z all -> status (ctl z) = FINISH_STATE -> wrapper (ctl z) <= 0 -> pending (wr (tr z)) = 0 ->
  wraps W A R hdr w0 (out_bytes (strm z)) all ->
  exists o, (forall fuel, out_loop W C write_error (S fuel) z Z_FINISH (out_bytes (strm z)) k = Some o) /\ out_done hdr w0 all o.
Proof.
  intros Hph Hs Hw Hp Hws. assert (HC : 0 <= CHUNK) by done. pose proof (give_phase W A R hdr w0 z CHUNK all HC Hph) as Hph1.
  destruct (deflate_again hdr w0 (give z CHUNK) all Hph1 Hs Hw Hp ltac:(done)) as (c & E).
  cbn [out_loop]. fold (give z CHUNK). rewrite E. cbn [mbind option_bind]. change (Z_STREAM_END =? Z_STREAM_ERROR) with false. cbv iota zeta.
  change (avail_out (strm (touch (give z CHUNK) (msg (strm (give z CHUNK))) c))) with CHUNK.
  change (out_bytes (strm (touch (give z CHUNK) (msg (strm (give z CHUNK))) c))) with (out_bytes (strm z)).
  change (CHUNK =? 0) with false. change (Z.to_nat (CHUNK - CHUNK)) with 0%nat.
  rewrite Nat.sub_0_r, drop_all, app_nil_r. destruct (write_error k) eqn:Ew.
  - eexists. split; [reflexivity|]. cbn. split; [done|by exists k].
  - eexists. split; [reflexivity|]. cbn [out_done]. split; [done|]. split; [|done].
    change (avail_in (strm z) = 0). destruct Hph as [ys S1 _ _ _|_ _ [_ ? ?]|_ _ _ [_ _ _ _ ? ? _]]; [by rewrite S1 in Hs|done|done].
Qed.

Lemma work_nonneg hdr w0 z all : 0 <= w0 -> phase W A R hdr w0 z all -> 0 <= work z.
Proof.
  intros H0 Hph. pose proof (wo_pending _ (qo_writer _ (proj1 (phase_queue W A R hdr _ _ _ Hph)))) as Hp. unfold work.
  destruct Hph as [ys S1 _ _ [Hc _ _ _]|S1 _ [He _ _]|S1 Hw0 S2 _].
  - rewrite S1, Z.eqb_refl. pose proof (left_nonneg W A R z all (co_fed _ _ _ _ _ _ _ _ Hc)). pose proof (co_bufsize _ _ _ _ _ _ _ _ Hc). nia.
  - rewrite S1. change (FINISH_STATE =? BUSY_STATE) with false. cbv iota. pose proof (en_bufsize _ _ _ _ _ _ He). destruct (_ >? 0); lia.
  - rewrite S1. change (FINISH_STATE =? BUSY_STATE) with false. cbv iota. rewrite S2. destruct (Z.gtb_spec (- w0) 0); lia.
Qed.

Lemma out_loop_finish fuel hdr w0 z all n k :
  0 <= w0 <= 2 -> Forall is_byte hdr -> live W A R hdr w0 z all n -> (Z.to_nat n + 2 < fuel)%nat ->
  exists o, out_loop W C write_error fuel z Z_FINISH (out_bytes (strm z)) k = Some o /\ out_done hdr w0 all o.
Proof.
  intros Hw0 Hh. revert z n k. induction fuel as [|fuel IH]; intros z n k Hl Hf; [lia|].
  assert (HC : 0 <= CHUNK) by done. pose proof (give_live W A R hdr w0 z CHUNK all n HC Hl) as Hl1.
  destruct (finish_step W C A R HW hdr w0 (give z CHUNK) all n Hw0 Hh Hl1 ltac:(done)) as (z' & r & E & Hph & Hk & Hr).
  cbn [out_loop]. fold (give z CHUNK). rewrite E. cbn [mbind option_bind].
  pose proof (kp_count _ _ Hk) as En. pose proof (kp_prefix _ _ Hk) as Ex. cbn [give set_strm strm set_avail_out avail_out out_bytes] in En, Ex.
  pose proof (qo_avail _ (proj1 (phase_queue W A R hdr _ _ _ Hph))) as Hav.
  assert (Es : (r =? Z_STREAM_ERROR) = false) by (by destruct Hr as [(-> & _)|(-> & _)]). rewrite Es. cbv zeta.
  rewrite (written_step _ _ (avail_out (strm z')) CHUNK Ex En Hav).
  destruct (write_error k) eqn:Ew; [eexists; split; [reflexivity|]; cbn; split; [done|by exists k]|].
  destruct (Z.eqb_spec (avail_out (strm z')) 0) as [E0|E0].
  - destruct fuel as [|fuel]; [lia|]. destruct Hr as [(-> & Hp & Hws & _ & Hs & Hwr)|(-> & _ & Hlt)].
    + destruct (out_loop_ended hdr w0 z' all (S k) Hph Hs Hwr Hp Hws) as (o & Eo & Ho). exists o. by split.
    + apply (IH z' (work z') (S k)); [by apply live_phase|]. pose proof (work_nonneg hdr w0 z' all ltac:(lia) Hph). lia.
  - destruct Hr as [(-> & _ & Hws & _ & Hs & _)|(_ & E1 & _)]; [|done]. eexists. split; [reflexivity|]. cbn [out_done]. split; [done|]. split; [|done].
    destruct Hph as [ys S1 _ _ _|_ _ [_ ? ?]|_ _ _ [_ _ _ _ ? ? _]]; [by rewrite S1 in Hs|done|done].
Qed.

(** The end of [def] on a file of one chunk. *)
Definition def_post (hdr source : list Z) (e : def_end) : Prop :=
  match e with
  | Aborted => False
  | Ended ret written => ret = Z_OK /\ wraps W A R hdr 1 written source \/ ret = Z_ERRNO /\ (read_error 0 = true \/ exists k, write_error k = true)
  end.

Lemma def_spec s mem raw source level fuel :
  memory_ok mem raw 15 8 -> 1 <= level_of level <= 9 -> Forall is_byte source -> Z.of_nat (length source) <= 15820 -> out_bytes s = [] ->
  (Z.of_nat (length source) + 3) * 65537 + 3 <= Z.of_nat fuel ->
  exists e, def W C read_error write_error fuel s mem source level = Some e /\ def_post (zlib_bytes (level_of level)) source e.
Proof.
  intros Hmem Hlv Hb Hlen Hout Hfuel.
  assert (Hv : valid_settings level 15 8 0) by (constructor; unfold MAX_MEM_LEVEL, Z_FIXED; [lia|by split|by vm_compute|lia..]).
  destruct (init_ready level 15 8 0 s mem raw Hv Hmem) as (z & Ei & F & Es).
  change (wrap_of 15) with 1 in *. change (wbits_of 15) with 15 in *.
  unfold def, deflateInit_. rewrite Ei. cbn [mbind option_bind]. change (Z_OK =? Z_OK) with true. cbn [negb mbind option_bind].
  destruct fuel as [|fuel]; [lia|]. cbn [in_loop]. rewrite take_ge by (unfold CHUNK; lia).
  destruct (read_error 0) eqn:Er; [eexists; split; [reflexivity|]; right; split; [done|by left]|].
  cbv zeta. destruct (Z.ltb_spec (Z.of_nat (length source)) CHUNK) as [_|]; [|unfold CHUNK in *; lia].
  destruct (rf_strm _ _ _ _ _ _ F) as (T1 & T2 & T3).
  set (s1 := Stream source 0 _ _ _ _ _ _ _). set (z1 := set_strm z s1).
  assert (Ez : out_bytes (strm z1) = []) by (cbn; by rewrite Es).
  assert (Hfresh : fresh W A R 1 (give z1 0) source).
  { apply (ready_fresh W C A R 1 z (level_of level) 15 8 0 (set_avail_out s1 0) source F); try done; try lia.
    - constructor; cbn [set_avail_out s1 avail_in next_in in_buf]; try lia. intros i Hi. rewrite Z.add_0_l.
      replace (Z.of_nat (length source) - Z.of_nat (length source) + i) with i by lia. by apply aget_at.
    - right. right. rewrite (rf_bufsize _ _ _ _ _ _ F). change (2 ^ (8 + 6)) with 16384. lia. }
  assert (Hhdr : header 1 z1 = zlib_bytes (level_of level)) by (by apply (zlib_bytes_header z _ 8)).
  assert (Hlive : live W A R (zlib_bytes (level_of level)) 1 (give z1 0) source (header_work z1)).
  { apply (live_fresh W A R _ 1 (give z1 0)); [done|by rewrite <- Hhdr|]. cbn [give z1 set_strm ctl]. by rewrite (rf_ctl _ _ _ _ _ _ F). }
  assert (Hwork : header_work z1 = (Z.of_nat (length source) + 3) * 65537).
  { unfold header_work, left_of. cbn [z1 set_strm win strm s1 avail_in tr].
    destruct (rf_zero _ _ _ _ _ _ F) as (_ & -> & _). rewrite (rf_bufsize _ _ _ _ _ _ F). change (2 ^ (8 + 6)) with 16384. lia. }
  destruct (out_loop_finish (S fuel) (zlib_bytes (level_of level)) 1 (give z1 0) source (header_work z1) 0) as (o & Eo & Ho); [lia| |done|lia|].
  { rewrite <- Hhdr. apply header_bytes. }
  assert (Eg : forall w, out_loop W C write_error (S fuel) (give z1 0) Z_FINISH w 0 = out_loop W C write_error (S fuel) z1 Z_FINISH w 0) by done.
  rewrite Eg in Eo. change (out_bytes (strm (give z1 0))) with (out_bytes (strm z1)) in Eo. rewrite Ez in Eo. rewrite Eo. cbn [mbind option_bind].
  destruct o as [[|ret w]|[[[z2 ret] w] k]]; cbn [out_done] in Ho; [done| |].
  - destruct Ho as [-> He]. eexists. split; [reflexivity|]. right. split; [done|by right].
  - destruct Ho as (-> & -> & Hws). eexists. split; [reflexivity|]. by left.
Qed.
End Pipe.
