(* ===== verification/LzProps.v ===== *)
(** * The theorems on the compressor

    From buffers and files to the calls of [deflate], its window, its hash
    chains and its output queue. *)
From stdpp Require Import base numbers list.
From Stdlib Require Import ZArith Lia Bool.
From S2P Require Import Prelude Huffman Deflate PuffFacts PuffTables PuffCodes PuffDynamic PuffTop Crc32 Crc32Facts.
From S2P Require Adler32 Puff.
From S2P Require Import Trees TreesSpec TreesTables TreesWriter TreesState TreesSend TreesSyms TreesCompress.
From S2P Require Import TreesTally TreesCost TreesBlock TreesSession LzState LzWindow LzMatch LzStored LzCall LzCompress Zpipe.
From S2P Require Import LzFacts LzHash LzFill LzSearch LzOut LzCore LzTurn LzLoop LzRle LzFast LzSlow LzDeflate LzPhase LzHeader LzInit LzFinish LzSession LzSums LzRound ZpipeFacts.

(** ** Inputs for the witnesses *)

(** A state as [deflateInit2_] may find it in fresh memory. *)
Definition raw_zs : zs :=
  ZS (Stream [] 0 0 0 [] 0 0 0 None) (Win 0 [] 0 0 0 0 0 0) (Hash 0 0 [] []) (Match 0 0 0 0 0 0 0 0 0)
    (TreesState.State (Desc (replicate 573 (Ct 0 0)) 0 static_l_desc) (Desc (replicate 61 (Ct 0 0)) 0 static_d_desc)
      (Desc (replicate 39 (Ct 0 0)) 0 static_bl_desc)
      (Huff (replicate 16 0) (replicate 573 0) 0 0 (replicate 573 0) 0 0) (Writer [] 0 0 0) 0 0 0 0 0 0 Z_UNKNOWN)
    (Control 0 0 None 0 0 0).

Definition raw_memory (wb memLevel : Z) : memory :=
  Memory (Some raw_zs) (Some (replicate (Z.to_nat (2 * 2 ^ wb)) 77)) (Some (replicate (Z.to_nat (2 ^ wb)) 5))
    (Some (replicate (Z.to_nat (2 ^ (memLevel + 7))) 9)) (Some (replicate (Z.to_nat (4 * 2 ^ (memLevel + 6))) 3)).

Lemma raw_memory_ok wb memLevel : 0 <= wb -> 0 <= memLevel -> memory_ok (raw_memory wb memLevel) raw_zs wb memLevel.
Proof.
  intros Hw Hm. assert (P1 : 0 < 2 ^ wb) by (apply Z.pow_pos_nonneg; lia). assert (P2 : 0 < 2 ^ (memLevel + 7)) by (apply Z.pow_pos_nonneg; lia).
  assert (P3 : 0 < 2 ^ (memLevel + 6)) by (apply Z.pow_pos_nonneg; lia).
  constructor; try reflexivity; [by constructor|..]; eexists; (split; [reflexivity|]); rewrite length_replicate; try lia.
  - split; [lia|]. by apply Forall_replicate.
  - split; [lia|]. by apply Forall_replicate.
Qed.

#[local] Opaque raw_memory raw_zs.

(** A stream with the input [l] and room for [n] bytes. *)
Definition stream_of (l : list Z) (n : Z) : stream := Stream l 0 (Z.of_nat (length l)) 0 [] n 0 0 None.

(** A raw stream with a window of 512 bytes, memory level 4 and fixed codes, set up for the input [l]. *)
Lemma small_fresh C A R `{!Sums C A R} l n :
  Forall is_byte l -> 0 <= n ->
  exists z, deflateInit2_ (stream_of l n) (raw_memory 9 4) 6 Z_DEFLATED (-9) 4 Z_FIXED true = Some (Some z, Z_OK) /\
    fresh 64 A R 0 z l /\ last_flush (ctl z) = -2 /\ strm z = Stream l 0 (Z.of_nat (length l)) 0 [] n 0 1 None.
Proof.
  intros Hl Hn. assert (Hv : valid_settings 6 (-9) 4 Z_FIXED) by (constructor; by vm_compute).
  destruct (init_ready 6 (-9) 4 Z_FIXED (stream_of l n) (raw_memory 9 4) raw_zs Hv (raw_memory_ok 9 4 ltac:(lia) ltac:(lia))) as (z & E & F & Es).
  assert (W0 : wrap_of (-9) = 0) by reflexivity. assert (W9 : wbits_of (-9) = 9) by reflexivity. assert (L6 : level_of 6 = 6) by reflexivity.
  rewrite W0, W9, L6 in F. rewrite W0 in Es. cbn [stream_of Z.eqb in_buf next_in avail_in out_bytes avail_out] in Es.
  exists z. split; [exact E|]. split; [|split; [by rewrite (rf_ctl _ _ _ _ _ _ F)|exact Es]].
  assert (Ez : set_strm z (strm z) = z) by (by destruct z). rewrite <- Ez.
  assert (Hin : in_ok (Stream l 0 (Z.of_nat (length l)) 0 [] n 0 1 None) l).
  { constructor; cbn [avail_in next_in in_buf]; try lia. intros i Hi.
    replace (Z.of_nat (length l) - Z.of_nat (length l) + i) with i by lia. rewrite Z.add_0_l. by apply aget_at. }
  rewrite Es.
  exact (ready_fresh 64 C A R 0 z 6 9 4 Z_FIXED (Stream l 0 (Z.of_nat (length l)) 0 [] n 0 1 None) l F ltac:(lia) ltac:(lia) ltac:(lia) ltac:(lia)
    Hl Hin eq_refl eq_refl eq_refl eq_refl eq_refl Hn (or_introl (rf_strategy _ _ _ _ _ _ F))).
Qed.

(** Three letters. *)
Definition abc : list Z := [97; 98; 99].

Lemma abc_bytes : Forall is_byte abc.
Proof. repeat constructor; discriminate. Qed.


(** ** Buffers and files *)

(** [puff] inflates the bytes of a stream that is padded to a byte. *)
Lemma puff_body decode (D : Decoder decode) body out k dest destlen f :
  Deflate.stream [] (bytes_bits body) out (replicate k false) -> (k < 8)%nat ->
  call_ok dest destlen body (Z.of_nat (length body)) f -> dest_fits out dest destlen ->
  exists d f', Puff.puff decode dest destlen body (Z.of_nat (length body)) f =
    Puff.Returns 0 (Z.of_nat (length out)) (Z.of_nat (length body)) d f' /\ dest_holds out dest d.
Proof.
  intros Hs Hk Hc Hd. assert (E : source_bits body (Z.of_nat (length body)) = bytes_bits body).
  { unfold source_bits. by rewrite Nat2Z.id, take_ge. }
  destruct (puff_accepts decode dest destlen body _ f Hc out (replicate k false)) as (d & f' & Ep & _ & Hh); [by rewrite E|done|].
  exists d, f'. split; [|done]. rewrite Ep, length_replicate, (Z.div_small (Z.of_nat k)) by lia. by rewrite Z.sub_0_r.
Qed.

(** The Adler-32 checksum of [l], most significant byte first. *)
Definition adler_bytes (l : list Z) : list Z :=
  msb16 (wrap 32 (Z.shiftr (Adler32.adler_of l) 16)) ++ msb16 (wrap 32 (Z.land (Adler32.adler_of l) 65535)).

(** [puff] reads all of [body] and fills [dest] with [out]. *)
Definition puff_gives (body out : list Z) : Prop :=
  forall dest destlen f, call_ok dest destlen body (Z.of_nat (length body)) f -> dest_fits out dest destlen ->
    exists d f', Puff.puff Puff.decode_fast dest destlen body (Z.of_nat (length body)) f =
      Puff.Returns 0 (Z.of_nat (length out)) (Z.of_nat (length body)) d f' /\ dest_holds out dest d.

(** [l] is a zlib stream that [puff] inflates to [out]: two bytes of header, a
    body, the checksum of [out]. *)
Definition inflates_to (level : Z) (l out : list Z) : Prop :=
  exists body, l = zlib_bytes level ++ body ++ adler_bytes out /\ puff_gives body out.

Lemma wraps_puff W A R hdr w0 l out :
  wraps W A R hdr w0 l out -> exists body, l = hdr ++ body ++ trailer W A R w0 out /\ puff_gives body out.
Proof.
  intros (body & k & -> & Hs & Hk). exists body. split; [done|]. intros dest destlen f. by apply (puff_body _ decode_fast_decoder _ _ k).
Qed.

Lemma wraps_inflates W R level l out : wraps W Adler32.adler_of R (zlib_bytes level) 1 l out -> inflates_to level l out.
Proof. apply wraps_puff. Qed.

(** C1: what [compress2] writes, [puff] inflates to the source.  For every source
    of up to 15820 bytes (so that a block holds it), every level but 0, any room
    and any contents of the memory, [compress2] returns: with [Z_OK], and then the
    bytes in [dest], whose number is left in [*destLen], are a zlib header for the
    level, a body that [puff] inflates to the source, all of it, and the Adler-32
    checksum of the source; or with [Z_BUF_ERROR], and then [dest] is full. *)
Theorem compress2_inflates W no_divide wd N T little addr s mem raw destLen source sourceLen level :
  32 <= W -> wd = 4%nat \/ wd = 8%nat -> (1 <= N <= 6)%nat -> make_crc_table wd N = Some T ->
  memory_ok mem raw 15 8 -> 1 <= level_of level <= 9 -> 0 <= sourceLen <= Z.of_nat (length source) -> sourceLen <= 15820 ->
  Forall is_byte (upto source sourceLen) -> 0 <= destLen < 2 ^ W ->
  exists dest n err, compress2 W (zlib_checksums W no_divide wd N T little addr) s mem destLen source sourceLen level = Some (dest, n, err) /\
    (err = Z_OK /\ inflates_to (level_of level) dest (upto source sourceLen) /\ n = Z.of_nat (length dest) /\ n <= destLen \/
     err = Z_BUF_ERROR /\ Z.of_nat (length dest) = destLen).
Proof.
  intros HW Hwd HN HT Hmem Hlv Hsl Hmax Hb Hd.
  pose proof (zlib_sums W no_divide wd N T little addr HW Hwd HN HT) as Hsums.
  destruct (compress2_spec W _ _ _ HW s mem raw destLen source sourceLen level Hmem Hlv Hsl Hmax Hb Hd) as (dest & n & err & E & H).
  exists dest, n, err. split; [exact E|]. destruct H as [(-> & Hw & Hn)|H]; [left|by right]. split; [done|]. split; [by eapply wraps_inflates|done].
Qed.

Lemma compress2_inflates_witness :
  exists T, make_crc_table 4 1 = Some T /\
  exists dest n err, compress2 32 (zlib_checksums 32 false 4 1 T true 0) (stream_of [] 0) (raw_memory 15 8) 100 abc 3 (-1) = Some (dest, n, err) /\
    (err = Z_OK /\ inflates_to (level_of (-1)) dest (upto abc 3) /\ n = Z.of_nat (length dest) /\ n <= 100 \/
     err = Z_BUF_ERROR /\ Z.of_nat (length dest) = 100).
Proof.
  destruct (make_crc_table 4 1) as [T|] eqn:ET; [|vm_compute in ET; discriminate]. exists T. split; [reflexivity|].
  exact (compress2_inflates 32 false 4 1 T true 0 (stream_of [] 0) (raw_memory 15 8) raw_zs 100 abc 3 (-1) ltac:(lia) (or_introl eq_refl) ltac:(lia) ET
    (raw_memory_ok 15 8 ltac:(lia) ltac:(lia)) ltac:(vm_compute; split; discriminate) ltac:(cbn; lia) ltac:(lia) (Forall_take _ _ _ abc_bytes) ltac:(split; [lia|reflexivity])).
Defined.



(** ** The calls of [deflate] *)





(** ** The window and the hash chains *)

(** C10: the window keeps its shape.  [fed] types the parts of the state that hold
    the input: sizes and indices in range, the window equal to the bytes of the
    input before the read position, the hash chains made of earlier positions with
    equal hashes, the checksum and the counts of the bytes read.  [fill_window]
    returns, in bounds, on every such state with too little lookahead, keeps
    [fed] and the bytes not yet compressed, and reads until there is enough
    lookahead or no input. *)
Theorem fill_window_keeps W C A R `{!Sums C A R} z all :
  fed W A R z all -> Forall is_byte all -> lookahead (win z) < MIN_LOOKAHEAD ->
  exists z', fill_window W C z = Some z' /\ fed W A R z' all /\ here z' all = here z all /\
    lookahead (win z') + avail_in (strm z') = lookahead (win z) + avail_in (strm z) /\
    strstart (win z') < w_size (win z') + MAX_DIST (win z') /\ (MIN_LOOKAHEAD <= lookahead (win z') \/ avail_in (strm z') = 0).
Proof.
  intros Hf Hb Hl. destruct (fill_window_spec W C A R z all Hf Hb Hl) as (z' & E & Hf' & Fl & H). exists z'. split; [done|]. split; [done|].
  split; [apply (fl_here _ _ _ Fl)|done].
Qed.

Lemma fill_window_keeps_witness :
  exists T, make_crc_table 4 1 = Some T /\ let C := zlib_checksums 64 false 4 1 T true 0 in
  exists z, deflateInit2_ (stream_of abc 5) (raw_memory 9 4) 6 Z_DEFLATED (-9) 4 Z_FIXED true = Some (Some z, Z_OK) /\
  exists z', fill_window 64 C z = Some z' /\ fed 64 Adler32.adler_of (crc_ref 0) z' abc /\ here z' abc = here z abc /\
    lookahead (win z') + avail_in (strm z') = lookahead (win z) + avail_in (strm z) /\
    strstart (win z') < w_size (win z') + MAX_DIST (win z') /\ (MIN_LOOKAHEAD <= lookahead (win z') \/ avail_in (strm z') = 0).
Proof.
  destruct (make_crc_table 4 1) as [T|] eqn:ET; [|vm_compute in ET; discriminate]. exists T. split; [reflexivity|]. intros C.
  pose proof (zlib_sums 64 false 4 1 T true 0 ltac:(lia) (or_introl eq_refl) ltac:(lia) ET) as HS.
  destruct (small_fresh C Adler32.adler_of (crc_ref 0) abc 5 abc_bytes ltac:(lia)) as (z & E & F & L & Es). exists z. split; [exact E|].
  pose proof (fr_core _ _ _ _ _ _ F) as Hc. pose proof (co_fed _ _ _ _ _ _ _ _ Hc) as Hf.
  assert (Hl : lookahead (win z) < MIN_LOOKAHEAD).
  { pose proof (fd_win _ _ _ _ _ Hf) as Hw. pose proof (wi_base _ _ _ Hw) as Hb. unfold pend in Hb. rewrite (fr_avail _ _ _ _ _ _ F) in Hb.
    pose proof (fr_start _ _ _ _ _ _ F). unfold MIN_LOOKAHEAD, MAX_MATCH, MIN_MATCH. lia. }
  exact (fill_window_keeps 64 C Adler32.adler_of (crc_ref 0) z abc Hf abc_bytes Hl).
Defined.

(** A window of 512 bytes after the input [aaaaaa], of which two are compressed. *)
Definition six : list Z := replicate 6 97.
Definition rep_win : window_state := Win 9 (six ++ replicate 1018 0) 1024 0 0 2 4 0.
Definition empty_dict : hash_state := Hash 8 (UPDATE_HASH (Hash 8 0 [] []) 97 97) (replicate 256 0) (replicate 512 0).
Definition rep_dict : hash_state := match insert_string rep_win empty_dict 1 with Some (d, _) => d | None => empty_dict end.
Definition rep_zs : zs :=
  ZS (Stream six 6 0 6 [] 5 0 1 None) rep_win rep_dict (Match 2 0 0 0 2 16 4 4 16) (tr raw_zs) (Control BUSY_STATE 0 None 0 0 0).

Lemma empty_dict_chains all base top : chains 9 empty_dict all base top (fun _ => False).
Proof.
  assert (E : CLEAR_HASH empty_dict = empty_dict) by (vm_compute; reflexivity). rewrite <- E.
  apply clear_hash_chains; [cbn; lia|lia|reflexivity|reflexivity|]. apply Forall_replicate. lia.
Qed.

Lemma empty_dict_ready : ready empty_dict six 1.
Proof. intros c. reflexivity. Qed.

(** C11: the hash chains stay chains.  [chains] says of the table that the links
    lead to earlier positions of [S] in the window, with the same hash, and that
    every entry is a 16-bit position or [NIL].  [slide_hash] keeps this while the
    window moves down by its size, and [INSERT_STRING] at the next position adds
    that position, and returns the last earlier one with the same hash. *)
Theorem chains_kept w d all base top S :
  chains (w_bits w) d all base top S ->
  chains (w_bits w) (slide_hash (2 ^ w_bits w) d) all (base + 2 ^ w_bits w) top S /\
  forall str, top = base + str -> ready d all top -> 0 <= str < 2 ^ 16 -> aget (window w) (str + 2) = Some (at_ all (top + 2)) ->
    exists d' v, insert_string w d str = Some (d', v) /\ chains (w_bits w) d' all base (top + 1) (fun q => S q \/ q = top) /\
      ready d' all (top + 1) /\ 0 <= v < 2 ^ 16 /\ (v <> 0 -> S (base + v) /\ hash_at d all (base + v) = hash_at d all top).
Proof.
  intros Hc. split; [by apply slide_chains|]. intros str -> Hr Hs Hw.
  destruct (insert_string_spec w d all base S str Hc Hr Hs Hw) as (d' & v & E & _ & H). by exists d', v.
Qed.

Lemma chains_kept_witness :
  chains 9 (slide_hash (2 ^ 9) empty_dict) six (0 + 2 ^ 9) 1 (fun _ => False) /\
  exists d' v, insert_string rep_win empty_dict 1 = Some (d', v) /\ chains 9 d' six 0 (1 + 1) (fun q => False \/ q = 1) /\ ready d' six (1 + 1) /\
    0 <= v < 2 ^ 16 /\ (v <> 0 -> False /\ hash_at empty_dict six (0 + v) = hash_at empty_dict six 1).
Proof.
  pose proof (chains_kept rep_win empty_dict six 0 1 (fun _ => False) (empty_dict_chains six 0 1)) as [H1 H2]. split; [exact H1|].
  exact (H2 1 eq_refl empty_dict_ready ltac:(split; [lia|reflexivity]) eq_refl).
Defined.

(** C9: the matches that [longest_match] finds are real.  From the head of a
    chain at a distance within [MAX_DIST], and with the window as [fed] has it, it
    returns in bounds; the length is at most the lookahead, and if it improves on
    [prev_length], then [match_start] lies in the window, at most [MAX_DIST] back,
    and as many bytes of the input as the length says repeat at that distance. *)
Theorem longest_match_real z all v :
  win_ok (win z) all (pend z all) -> Forall is_byte all -> pend z all <= Z.of_nat (length all) -> head_ok z all v ->
  strstart (win z) - v <= MAX_DIST (win z) -> strstart (win z) + MIN_LOOKAHEAD <= window_size (win z) -> 0 <= prev_length (lm z) <= 258 ->
  exists ms len, longest_match z v = Some (set_lm z (set_start (lm z) ms), len) /\ 0 <= len <= 258 /\ len <= lookahead (win z) /\
    (len <= prev_length (lm z) \/
     (3 <= len /\ 0 <= ms < strstart (win z) /\ strstart (win z) - ms <= MAX_DIST (win z) /\ match_in all (here z all) (strstart (win z) - ms) len)).
Proof. apply longest_match_spec. Qed.

Lemma rep_win_ok : win_ok rep_win six 6.
Proof.
  constructor; cbn [rep_win w_bits window window_size strstart lookahead high_water block_start insert]; try reflexivity; try lia.
  - apply Forall_app. split; apply Forall_replicate; done.
  - intros i Hi. assert (H : Forall (fun i => aget (window rep_win) i = Some (at_ six (6 - 4 - 2 + i))) (seqZ 0 6)) by (repeat constructor).
    apply (proj1 (Forall_forall _ _) H). apply elem_of_seqZ. cbn in Hi. lia.
Qed.

Lemma rep_head_ok : head_ok rep_zs six 1.
Proof.
  split; [cbn; lia|]. split; [cbn; lia|]. exists (fun q => False \/ q = 1).
  destruct (insert_string_spec rep_win empty_dict six 0 (fun _ => False) 1 (empty_dict_chains six 0 1) empty_dict_ready ltac:(split; [lia|reflexivity]) eq_refl)
    as (d' & v & E & _ & Hc & _).
  assert (Ed : dict rep_zs = d') by (cbn [rep_zs dict]; unfold rep_dict; by rewrite E). rewrite Ed.
  split; [|split; [by right|reflexivity]]. apply (chains_mono _ _ _ _ (0 + 1 + 1)); [exact Hc|by cbn].
Qed.

Lemma longest_match_real_witness :
  exists ms len, longest_match rep_zs 1 = Some (set_lm rep_zs (set_start (lm rep_zs) ms), len) /\ 0 <= len <= 258 /\ len <= 4 /\
    (len <= 2 \/ (3 <= len /\ 0 <= ms < 2 /\ 2 - ms <= MAX_DIST rep_win /\ match_in six (here rep_zs six) (2 - ms) len)).
Proof.
  exact (longest_match_real rep_zs six 1 rep_win_ok ltac:(apply Forall_replicate; done) ltac:(vm_compute; discriminate) rep_head_ok
    ltac:(vm_compute; discriminate) ltac:(vm_compute; discriminate) ltac:(cbn; lia)).
Defined.

(** ** Blocks and output *)



(** C12: [flush_pending] moves bytes and loses none.  The bits delivered, those in
    [pending_buf] and those in the bit buffer stay the same, in the same order; the
    output grows at its end by what [avail_out] falls; the counters fit; and bytes
    are left in the queue only when the output is full. *)
Theorem flush_pending_delivers W z :
  queue_ok z ->
  exists z', flush_pending W z = Some z' /\ queue_ok z' /\ total_bits z' = total_bits z /\
    out_bytes (strm z) `prefix_of` out_bytes (strm z') /\
    Z.of_nat (length (out_bytes (strm z'))) + avail_out (strm z') = Z.of_nat (length (out_bytes (strm z))) + avail_out (strm z) /\
    (out_ok W (strm z) -> out_ok W (strm z')) /\
    (pending (wr (tr z')) <> 0 -> avail_out (strm z') = 0) /\ bi_valid (wr (tr z')) < 8.
Proof.
  intros Hq. destruct (flush_pending_spec W z Hq) as (z' & E & Hq' & D & Hv & Ha & _). exists z'.
  destruct D as [_ _ _ _ _ _ (_ & _ & _ & _ & _ & _ & Ho) Hn Ht Hx]. by split_and!.
Qed.

(** Three bytes wait, and eleven bits; there is room for two bytes. *)
Definition queue_zs : zs :=
  ZS (Stream [] 0 0 0 [7] 2 1 0 None) rep_win empty_dict (Match 2 0 0 0 2 16 4 4 16) (set_writer (tr raw_zs) (Writer [1; 2; 3; 0; 0; 0; 0; 0] 3 5 11))
    (Control BUSY_STATE 0 None 0 0 0).

Lemma queue_zs_ok : queue_ok queue_zs.
Proof.
  constructor; try (cbn; lia); [|by vm_compute|repeat constructor; discriminate].
  constructor; try (by vm_compute). repeat constructor; discriminate.
Qed.

Lemma flush_pending_delivers_witness :
  exists z', flush_pending 64 queue_zs = Some z' /\ queue_ok z' /\ total_bits z' = total_bits queue_zs /\
    [7] `prefix_of` out_bytes (strm z') /\ Z.of_nat (length (out_bytes (strm z'))) + avail_out (strm z') = 1 + 2 /\
    (out_ok 64 (strm queue_zs) -> out_ok 64 (strm z')) /\
    (pending (wr (tr z')) <> 0 -> avail_out (strm z') = 0) /\ bi_valid (wr (tr z')) < 8.
Proof. exact (flush_pending_delivers 64 queue_zs queue_zs_ok). Defined.
