(* ===== verification/TreesProps.v ===== *)
(** * The theorems on the block writer of trees.c

    From the tree construction to whole sessions; the last block of a session
    completes a stream of the format, which [puff] inflates to the input. *)
From stdpp Require Import base numbers list.
From Stdlib Require Import ZArith Lia Bool.
From S2P Require Import Prelude Huffman Deflate PuffFacts PuffTables PuffCodes PuffDynamic PuffTop.
From S2P Require Puff.
From S2P Require Import Trees TreesCodes TreesShape TreesBitlen TreesBuild TreesSpec TreesTables TreesStatic.
From S2P Require Import TreesWriter TreesState TreesSend TreesSyms TreesCompress TreesRle TreesHeader TreesTally TreesDyn TreesDetect TreesBlock TreesSession.


(** ** Inputs for the witnesses *)

(** A state as [deflateInit2_] leaves it, with a buffer for 16 symbols and fixed codes. *)
Definition raw16 : deflate_state :=
  TreesState.State (Desc (replicate 573 (Ct 0 0)) 0 static_l_desc) (Desc (replicate 61 (Ct 0 0)) 0 static_d_desc)
    (Desc (replicate 39 (Ct 0 0)) 0 static_bl_desc)
    (Huff (replicate 16 0) (replicate 573 0) 0 0 (replicate 573 0) 0 0) (Writer (replicate 64 0) 0 0 0)
    16 0 45 0 6 Z_FIXED Z_UNKNOWN.

Lemma raw16_ok : raw_ok raw16.
Proof. constructor; try done; by constructor. Qed.

Definition start16 : deflate_state := default raw16 (tr_init raw16).

Lemma start16_init : tr_init raw16 = Some start16.
Proof. vm_compute. reflexivity. Qed.

Lemma start16_session : session 64 start16 [] [].
Proof. apply session_init with raw16; [apply raw16_ok|apply start16_init]. Qed.

(** After the letter "a". *)
Definition state_a : deflate_state := default raw16 (option_map fst (tr_tally start16 0 97)).

Lemma state_a_tally : tr_tally start16 0 97 = Some (state_a, false).
Proof. vm_compute. reflexivity. Qed.

Lemma start16_settings : apart start16 /\ lit_bufsize start16 = 16.
Proof. vm_compute. split; [discriminate|reflexivity]. Qed.

Lemma state_a_settings :
  apart state_a /\ lit_bufsize state_a = 16 /\ level state_a = 6 /\ strategy state_a = Z_FIXED /\ nbits (wr state_a) = 0.
Proof. vm_compute. split; [discriminate|]. split_and!; reflexivity. Qed.

Lemma state_a_session : session 64 state_a [(0, 97)] [].
Proof.
  destruct start16_settings as [Ha Hb].
  exact (session_tally 64 start16 [] [] 0 97 state_a false start16_session Ha ltac:(vm_compute; intuition discriminate)
    ltac:(rewrite Hb; reflexivity) state_a_tally).
Qed.

#[local] Opaque start16 state_a.


Lemma block_inv_a : block_inv state_a [(0, 97)].
Proof. apply (session_inv 64 ltac:(lia) _ _ _ state_a_session). Qed.

(** ** The theorems *)








(** C7: whatever the frequencies, [build_tree] ends without an access out of
    bounds and gives a complete prefix code: no length is above the maximum, no
    code is left over, every symbol of nonzero frequency has a code, and each
    element holds the canonical code of its length, first bit lowest. *)
Theorem build_tree_code W M d s :
  desc_ok M (stat_desc d) (dyn_tree d) -> huff_ok s ->
  exists d' s', build_tree W d s = Some (d', s') /\ stat_desc d' = stat_desc d /\ huff_ok s' /\
    built M (dyn_tree d') (max_code d') /\ not_over (lens_of (dyn_tree d') (max_code d' + 1)) 15 /\
    serves (dyn_tree d) (dyn_tree d') (elems (stat_desc d)) (max_code d').
Proof.
  intros Hd Hs. destruct (build_tree_spec W M d s Hd Hs) as (d' & s' & E & Est & Hh & _ & _ & Hb & Hv & _).
  pose proof (do_M _ _ _ Hd) as HM. exists d', s'. do 4 (split; [done|]). split; [exact (built_not_over M _ _ ltac:(lia) Hb)|done].
Qed.

Lemma build_tree_code_witness :
  exists d' s', build_tree 64 (d_desc raw16) (huff raw16) = Some (d', s') /\ stat_desc d' = static_d_desc /\ huff_ok s' /\
    built 15 (dyn_tree d') (max_code d') /\ not_over (lens_of (dyn_tree d') (max_code d' + 1)) 15 /\
    serves (dyn_tree (d_desc raw16)) (dyn_tree d') (elems static_d_desc) (max_code d').
Proof.
  apply (build_tree_code 64 15 (d_desc raw16) (huff raw16)); [|by constructor].
  constructor; [by vm_compute..|lia|by vm_compute|by vm_compute|]. change (forall st, Some static_dtree = Some st -> 30 <= Z.of_nat (length st)).
  intros st [= <-]. by vm_compute.
Defined.

(** C15: [_tr_tally] stores the symbol behind those before it, counts its codes,
    sends nothing, and tells when the buffer is full. *)
Theorem tally_collects s ys d lc :
  block_inv s ys -> apart s -> valid_sym (d, lc) -> Z.of_nat (length ys) < lit_bufsize s - 1 ->
  exists s', tr_tally s d lc = Some (s', Z.of_nat (length ys) + 1 =? lit_bufsize s - 1) /\
    block_inv s' (ys ++ [(d, lc)]) /\ sent (wr s') = sent (wr s).
Proof.
  intros Hi Ha Hv Hr. destruct (tr_tally_spec s ys d lc Hi Ha Hv Hr) as (s' & E & Hi' & Hs & _). by exists s'.
Qed.

Lemma tally_collects_witness :
  exists s', tr_tally state_a 1 0 = Some (s', 2 =? 15) /\ block_inv s' [(0, 97); (1, 0)] /\ sent (wr s') = sent (wr state_a).
Proof. apply (tally_collects state_a [(0, 97)] 1 0); [apply block_inv_a|by vm_compute|done|done]. Defined.

(** C19: the macros of deflate.h do what the function does, but the macro for
    matches leaves the counter [matches] alone. *)
Theorem tally_macros s c distance length :
  0 <= c < 256 -> 1 <= distance < 2 ^ 16 -> 0 <= length < 256 ->
  tr_tally_lit s c = tr_tally s 0 c /\
  tr_tally_dist s distance length =
    '(s', full) ← tr_tally s distance length; Some (set_trees s' (dyn_ltree s') (dyn_dtree s') (matches s), full).
Proof.
  intros Hc Hd Hl. split; [by apply tally_lit_eq|by apply tally_dist_eq].
Qed.

Lemma tally_macros_witness :
  tr_tally_lit start16 97 = tr_tally start16 0 97 /\
  tr_tally_dist start16 1 0 =
    '(s', full) ← tr_tally start16 1 0; Some (set_trees s' (dyn_ltree s') (dyn_dtree s') (matches start16), full).
Proof. exact (tally_macros start16 97 1 0 ltac:(lia) ltac:(lia) ltac:(lia)). Defined.

(** C16: with Z_FIXED and at most [lit_bufsize] and some bits pending, a full
    symbol buffer is coded in place: the bits written never reach a symbol that is
    not read yet, though both share [pending_buf]. *)
Theorem fixed_block_fits W s ys last out out' :
  17 <= W -> block_inv s ys -> strategy s = Z_FIXED -> 0 < level s -> nbits (wr s) <= lit_bufsize s + 4 -> 0 <= last <= 1 ->
  expand out (map token_of ys) = Some out' ->
  exists s' bs, tr_flush_block W s None 0 last = Some s' /\ segment (nbits (wr s)) (last =? 1) out bs out' /\
    exists k, sent (wr s') = sent (wr s) ++ bs ++ replicate k false.
Proof.
  intros HW Hi Hf Hl Hn Hlast Hx.
  destruct (tr_flush_block_spec W s ys None 0 last out out' HW Hi Hlast) as (s' & bs & k & E & _ & Hm & Hs & _).
  { constructor; try done; [by split; [|left]|lia]. }
  exists s', bs. split; [done|]. split; [done|]. exists k. apply Hm.
Qed.

Lemma fixed_block_fits_witness :
  exists s' bs, tr_flush_block 64 state_a None 0 0 = Some s' /\ segment (nbits (wr state_a)) false [] bs [97] /\
    exists k, sent (wr s') = sent (wr state_a) ++ bs ++ replicate k false.
Proof.
  destruct state_a_settings as (_ & Hb & Hl & Hs & Hn).
  exact (fixed_block_fits 64 state_a [(0, 97)] 0 [] [97] ltac:(lia) block_inv_a Hs ltac:(rewrite Hl; lia)
    ltac:(rewrite Hn, Hb; lia) ltac:(lia) eq_refl).
Defined.


(** C21: [detect_data_type] decides the rule of its comment: text, when no byte of
    the block list is in use and some byte of the allow list is; binary otherwise. *)
Theorem detect_rule (t : tree) :
  (256 <= length t)%nat ->
  exists ty, detect_data_type t = Some ty /\ (ty = Z_TEXT \/ ty = Z_BINARY) /\
    (ty = Z_TEXT <-> (forall n, block_listed n -> ~ byte_used t n) /\ exists n, allow_listed n /\ byte_used t n).
Proof. apply detect_spec. Qed.

Lemma detect_rule_witness :
  exists ty, detect_data_type (dyn_ltree raw16) = Some ty /\ (ty = Z_TEXT \/ ty = Z_BINARY) /\
    (ty = Z_TEXT <-> (forall n, block_listed n -> ~ byte_used (dyn_ltree raw16) n) /\
                     exists n, allow_listed n /\ byte_used (dyn_ltree raw16) n).
Proof. apply (detect_rule (dyn_ltree raw16)). cbn. lia. Defined.

(** ** Examples *)

(** With the second distance code alone in use, the forced code is the third. *)
Example forced_node_is_two :
  exists v, force_two 64 3 (Some static_dtree)
    (Build (<[1%nat := Ct 1 0]> (replicate 61 (Ct 0 0))) (<[1%nat := 1]> (replicate 573 0)) 1 573 (replicate 573 0) 1 0 0) = Some v /\
    aget (u_heap v) 2 = Some 2 /\ u_code v = 2.
Proof. eexists. split; [vm_compute; reflexivity|]. by split. Qed.
